(* ===== verification/_CoqProject ===== *)
-Q . S2P
Prelude.v
Datatypes.v
StdDescriptors.v
StdNames.v
EmulatedSPI.v
Descriptors.v
ConfigDescriptors.v
HIDParser.v
HIDParserFacts.v
HIDClassCommon.v
DescriptorFacts.v
State.v
Interfaces.v
Response.v
Joystick.v
Reports.v
SerialLink.v
Failsafe.v
HidTask.v
System.v
InputPath.v
Actions.v
RingBuffer.v
Tasks.v
RelyGuarantee.v
Preemption.v
TornReport.v
Hardware.v
Lufa.v
Board.v
Device.v
Endpoint.v
ControlStream.v
Requests.v
Streams.v
ClassDriver.v
HIDClassDevice.v
CDCClassDevice.v
PrinterClassDevice.v
MIDIClassDevice.v
Controller.v
ControlFacts.v
EndpointFacts.v
RequestFacts.v
ControlWrite.v
Driver.v
SerialDriver.v
ControllerFacts.v
StatusFacts.v
ClassFacts.v
HIDClassFacts.v
SerialFacts.v
WaitFacts.v
PipeFacts.v
CDCFacts.v
PrinterFacts.v
MIDIFacts.v
Allocation.v
Firmware.v
BusReset.v
Enumeration.v
