(* ===== verification/Prelude.v ===== *)
(** * Verification of the xInput-Switch controller firmware

    [src/Firmware] turns an Arduino UNO (its ATmega16U2) into a Nintendo Switch
    controller: packets that a PC sends over a serial line become the input
    reports that the console polls over USB.  This library models that program
    and the part of the USB library LUFA that is linked into it, down to the
    registers of the microcontroller, and proves that it does what it is for.

    ** The program and the files

    The firmware itself:
    - [Datatypes]: [datatypes.h], the enumerations with their codes, the serial
      packet, the input report and its packed layout.
    - [EmulatedSPI]: [EmulatedSPI.c], the flash memory that the console reads.
    - [Descriptors]: [Descriptors.c/.h], all the descriptors of the device and
      [CALLBACK_USB_GetDescriptor].
    - [State]: the static variables of [Response.c] and [Joystick.c] as the
      records [response] and [joystick]; [firmware E] is the memory of the
      program beside the state [E] of the USB library and the hardware.
    - [Response]: [Response.c], the reply buffer and the requests of the console.
    - [Joystick]: [Joystick.c], the receive interrupt handler [USART1_RX_vect],
      [CALLBACK_beforeSend], [HID_Task] and the initial values of [main].
    - [Actions], [Tasks]: programs as trees of atomic actions between which an
      interrupt can come, and [HID_Task] with what it calls as such a tree.

    The USB library ([src/Firmware/LUFA/LUFA/Drivers/USB]) and the board:
    - [StdDescriptors], [StdNames], [HIDClassCommon]: the packed descriptor
      structs in both spellings, the HID item macros, the ready-made report
      descriptors and the boot reports.
    - [ConfigDescriptors], [HIDParser]: the walk over a configuration and the
      parser of report descriptors.
    - [Hardware]: the registers.  [Mcu] is the interface of register reads and
      writes, [hwview] says what the datasheet documents of the registers in
      use (endpoint banks, UART, PLL, frame numbers, the host on the other side
      of the control endpoint, and when it takes the packet of an IN endpoint
      that the device waits for), and [McuSpec] states that an instance of [Mcu]
      behaves so.
    - [Lufa]: the variables of the library and the simulation [sim], which
      carries a fact about a driver from the view to every [McuSpec].
    - [Board]: [avr.h], the LED driver, the interrupt flag and helpers of [Common.h].
    - [Device], [Controller]: controller, interrupts, address, [USB_GEN_vect],
      [SetupHardware].
    - [Endpoint], [ControlStream], [Streams]: the endpoint driver, the stream
      templates and their instances for RAM, flash and EEPROM.
    - [Requests]: [DeviceStandardReq.c], [USBTask.c] and the events of
      [Joystick.c] that they raise.
    - [Firmware]: [main] with the drivers, the start-up and one turn of its loop.
    - [ClassDriver], [HIDClassDevice], [CDCClassDevice], [PrinterClassDevice],
      [MIDIClassDevice]: the state that the class drivers share and the drivers
      of [Class/Device] for HID, virtual serial ports, printers and MIDI, with
      the events of the application as parameters.
    - [SerialDriver], [RingBuffer]: the USART driver and the ring buffer of the
      library.  The firmware calls none of these and not the class drivers.

    ** How the code is modelled

    A C function is a program of the monad [M S] below: it passes the state [S]
    along and ends in [Ok] or in a fault that names undefined behaviour, a
    deliberate endless loop, or a busy-wait loop that ran out of fuel.  Integers
    are [Z] with every truncation written out ([u8], [u16], [u32]); arrays are
    lists with checked accesses; preprocessor choices are those of the build
    for the ATmega16U2 (BOARD=UNO, device only, descriptors in flash, static
    options).  The firmware is written against the class [Platform] of
    [Interfaces]; [Driver] proves that the drivers on the registers are an
    instance, so the theorems about the firmware hold on the registers.
    avr-libc's [_crc8_ccitt_update] is a parameter (the class [AvrCrc] of
    [Joystick], with the behaviour that its documentation gives); the data
    memory at address 3 and what the stack holds are parameters too.

    ** What is proved

    - [SerialLink]: the interrupt handler refines an automaton without counters
      or running checksum; frames are accepted, frames with one changed byte
      are not, and the link can always be synchronised again.  [Reports]: the
      report means what the packet said.
    - [Response], [EmulatedSPI]: every request gets the specified reply, and
      exactly the flash reads that overflow the reply buffer are named.
    - [Failsafe]: the connection-lost timeline.  [HidTask]: the main task.
    - [System]: the whole program as a transition system with an arbitrary
      serial line, host and console: invariants, progress, and that every packet
      sent is a reply or shows a state that was really received, or idle.  Here
      a turn of the main task is one step, and the receive interrupt comes
      between turns only.
    - [InputPath]: from nine bytes on the serial line to the reports that the
      console gets, poll by poll, until the connection counts as lost.
    - [Tasks]: the tree of actions, run without interrupts, is [HID_Task].
      [RelyGuarantee], [Preemption]: with the receive interrupt between any two
      actions, every byte of every report sent is genuine, the next action
      always returns, and every report is genuine as a whole in the runs in
      which the controller state is not replaced during a copy of it.
      [TornReport]: the last condition is needed: a run in which the console
      gets the buttons of one packet with the stick of the next.
    - [DescriptorFacts], [HIDParserFacts]: the descriptors agree with what the
      firmware exchanges; the parser stays within its arrays on every
      descriptor of whole items.  [HIDClassCommon]: the ready-made report
      descriptors declare the promised reports.
    - [ControlFacts], [EndpointFacts], [RequestFacts], [StatusFacts],
      [SerialFacts]: each standard request through [USB_USBTask], for a host
      with arbitrary delays, those that are stalled and those that are
      acknowledged without effect included.
    - [ControllerFacts]: start-up, reset, suspend and wakeup.  [WaitFacts]: the
      wait for an endpoint with all its results.  [Allocation]: the memory of
      the endpoints, what a configuration does to the other endpoints, and what
      one that does not fit leaves.
    - [Driver], [Firmware]: the firmware on the registers: [main] reaches its
      loop with everything in place, and the main task sends exactly the
      specified packet.  [Enumeration]: from power-on through the bus reset, any
      requests for descriptors, the address and the configuration to the first
      packet.  [BusReset]: after a reset inside [send_IN_report] the stream does
      not succeed any more, on hardware that never sets RWAL for the control
      endpoint.
    - [ControlWrite], [ClassFacts], [PipeFacts]: the receiving side of control
      transfers, whose data the host sends in packets after any delays; class
      requests answered with an acknowledgement, with bytes or after the data;
      the byte pipes of the class drivers, a full bank that the host takes in
      time or does not take included.
    - [HIDClassFacts]: when the HID class driver sends a report, what it gets
      with [SET_REPORT], and its idle requests.  [CDCFacts]: the line encoding
      comes back as it was set, and any number of bytes travel in order.  [PrinterFacts]: port
      status, soft reset and device ID.  [MIDIFacts]: events travel in order.
      [SerialDriver]: agreement with [avr.h].
    - [RingBuffer]: the ring buffer refines a bounded queue, and
      nothing is lost between a producer and a consumer that interrupt each
      other.

    ** Fuel and bounds

    Every loop whose end depends on the hardware takes a number of turns; the
    theorems ask for as many as the host's delays (which the view records), or
    the frames until the timeout, require, and then state that the code
    returns.  Loops on data run for the length of the data plus one.  The loop
    of [Endpoint_BytesToEPSizeMask] doubles a 16-bit counter from 8 on and gets 14 turns.

    ** Not modelled

    - The Python programs ([xInput2Serial], [gui], [discord_input], launcher
      scripts): not part of the firmware, which is verified for every byte
      sequence that they can send.
    - The bus interrupt inside a task, but for the reset inside
      [send_IN_report] of [BusReset]: [USB_GEN_vect] is verified by itself, and
      the resets of the bus that [System] and [Preemption] have come between
      two turns of the task.  The receive interrupt inside a task comes between
      the actions of [Tasks], where the two-byte pointer [selectedReport] is
      read in one action.
    - LUFA's host mode, the class drivers for mass storage, RNDIS, audio and
      CCID (their endpoints are not in the view, or their waits end when an
      interrupt changes the driver), the [FILE] streams of avr-libc with the
      blocking [getchar] of the class drivers, whose loop runs [USB_USBTask],
      the other peripheral drivers, other architectures and boards; the key
      codes of [HIDClassCommon.h]; the functional and jack descriptors of the
      CDC and MIDI classes; the weak event stubs; the demos, projects and
      bootloaders that are shipped with it.  A control request that comes in
      while a class driver waits on a stream is handled with the events of this
      firmware, not with those of another application.
    - RWAL of the control endpoint, which the datasheet reserves for the other
      endpoints: it reads as zero in the view, and of the theorems only the
      lemma of [BusReset] depends on it.  Callbacks of the class drivers that
      touch the registers.  A packet that arrives in an OUT endpoint while the
      device waits for it.
    - Timing other than the counting of reports and of frames.

    This file: machine integers, byte buffers and the effect monad. *)

From Stdlib Require Export ZArith Lia.
From stdpp Require Export base decidable numbers list option sets.

#[export] Set Default Goal Selector "!".
#[global] Open Scope Z_scope.

(** ** Machine integers

    A w-bit unsigned integer is a [Z]; every place where the C code truncates
    writes the truncation out with [u8], [u16] or [u32]. *)

Definition u8 (x : Z) : Z := x mod 256.
Definition u16 (x : Z) : Z := x mod 65536.
Definition u32 (x : Z) : Z := x mod 4294967296.

Definition is_u8 (x : Z) : Prop := 0 ≤ x < 256.
Definition is_u16 (x : Z) : Prop := 0 ≤ x < 65536.
Definition is_u32 (x : Z) : Prop := 0 ≤ x < 4294967296.

#[export] Instance is_u8_dec x : Decision (is_u8 x).
Proof. unfold is_u8. apply _. Defined.
#[export] Instance is_u16_dec x : Decision (is_u16 x).
Proof. unfold is_u16. apply _. Defined.
#[export] Instance is_u32_dec x : Decision (is_u32 x).
Proof. unfold is_u32. apply _. Defined.

(** A C array of [uint8_t]. *)
Abbreviation bytes := (Forall is_u8).

(** [BV n] is avr-libc's [_BV(n)] and the C expression [1 << n]. *)
Definition BV (n : Z) : Z := Z.shiftl 1 n.

(** [(v & m) != 0], the C truth value of a masked read. *)
Definition has (v m : Z) : bool := negb (Z.land v m =? 0).

(** ** The effect monad

    A C function over the state [S] that returns an [A].  A fault keeps the
    state in which it happened.
    - [OutOfFuel]: a busy-wait loop was given too few iterations;
    - [Undefined]: an access outside the bounds of its object;
    - [Halted]: the deliberate endless loop [for (;;);]. *)

Inductive fault := OutOfFuel | Undefined | Halted.

#[export] Instance fault_eq_dec : EqDecision fault.
Proof. solve_decision. Defined.

Inductive outcome (S A : Type) :=
| Ok (a : A) (s : S)
| Fault (e : fault) (s : S).
Arguments Ok {S A}.
Arguments Fault {S A}.

Definition M (S A : Type) : Type := S → outcome S A.

#[export] Instance M_ret S : MRet (M S) := λ A a s, Ok a s.
#[export] Instance M_bind S : MBind (M S) := λ A B f m s,
  match m s with
  | Ok a s' => f a s'
  | Fault e s' => Fault e s'
  end.

Section effects.
Context {S : Type}.

Definition get_st : M S S := λ s, Ok s s.
Definition put_st (s : S) : M S unit := λ _, Ok tt s.
Definition modify (f : S → S) : M S unit := λ s, Ok tt (f s).
Definition gets {A} (f : S → A) : M S A := λ s, Ok (f s) s.
Definition fail {A} (e : fault) : M S A := λ s, Fault e s.

(** An access that is undefined behaviour when it is out of bounds. *)
Definition checked {A} (o : option A) : M S A :=
  match o with Some a => mret a | None => fail Undefined end.

Definition when (b : bool) (m : M S unit) : M S unit :=
  if b then m else mret tt.

(** [while (!cond()) {}]: at most [fuel] evaluations of the condition. *)
Fixpoint wait_until (fuel : nat) (cond : M S bool) : M S unit :=
  match fuel with
  | O => fail OutOfFuel
  | Datatypes.S fuel =>
      b ← cond; if b : bool then mret tt else wait_until fuel cond
  end.

(** The outcome of a run that ends normally. *)
Definition final (o : outcome S unit) : option S :=
  match o with Ok _ s => Some s | Fault _ _ => None end.
End effects.

(** Running code of one component inside a larger state. *)
Definition zoom {S T A} (get : S → T) (set : T → S → S) (m : M T A) : M S A :=
  λ s, match m (get s) with
       | Ok a t => Ok a (set t s)
       | Fault e t => Fault e (set t s)
       end.

Definition on_fst {T U A} (m : M T A) : M (T * U) A :=
  zoom fst (λ t p, (t, p.2)) m.
Definition on_snd {T U A} (m : M U A) : M (T * U) A :=
  zoom snd (λ u p, (p.1, u)) m.

(** ** Buffers

    [memcpy(&dst[off], src, length)] and [dst[off] = b]; [None] is the access
    out of bounds, which C leaves undefined. *)

Definition memcpy_at (off : nat) (src dst : list Z) : option (list Z) :=
  if decide (off + length src ≤ length dst)%nat
  then Some (take off dst ++ src ++ drop (off + length src) dst)
  else None.

(** [memcpy(&dst[off], &src[0], n)] where the source is an array too. *)
Definition memcpy (off : nat) (src : list Z) (n : nat) (dst : list Z) : option (list Z) :=
  if decide (n ≤ length src)%nat then memcpy_at off (take n src) dst else None.

Definition store_at (off : nat) (b : Z) (dst : list Z) : option (list Z) :=
  memcpy_at off [b] dst.

(** [memset(buf, v, n)] of a whole array of [n] bytes. *)
Definition memset (v : Z) (n : nat) : list Z := replicate n v.

(** A buffer of [n] bytes that starts with [l] and is zero after it. *)
Definition pad (n : nat) (l : list Z) : list Z := l ++ memset 0 (n - length l).

(** ** Lemmas on integers *)

(** Linear arithmetic with division and modulo by constants. *)
Ltac div_lia := Z.div_mod_to_equations; lia.

(** A test of one bit. *)
Lemma has_bit v k : 0 ≤ k → has v (BV k) = Z.testbit v k.
Proof.
  intros Hk. unfold has, BV. rewrite Z.shiftl_1_l.
  destruct (Z.testbit v k) eqn:Hb.
  - apply negb_true_iff, Z.eqb_neq. intros H0.
    assert (Z.testbit (Z.land v (2 ^ k)) k = true) as Ht
      by (by rewrite Z.land_spec, Hb, Z.pow2_bits_true).
    by rewrite H0, Z.bits_0 in Ht.
  - apply negb_false_iff, Z.eqb_eq, Z.bits_inj'. intros i Hi.
    rewrite Z.land_spec, Z.bits_0, Z.pow2_bits_eqb by done.
    destruct (Z.eqb_spec k i) as [->|]; [by rewrite Hb|by rewrite andb_false_r].
Qed.

Create HintDb fw.
Create Rewrite HintDb fw.

Lemma u8_range x : is_u8 (u8 x).
Proof. unfold is_u8, u8. apply Z.mod_pos_bound. lia. Qed.
Lemma u16_range x : is_u16 (u16 x).
Proof. unfold is_u16, u16. apply Z.mod_pos_bound. lia. Qed.
Lemma u32_range x : is_u32 (u32 x).
Proof. unfold is_u32, u32. apply Z.mod_pos_bound. lia. Qed.

Lemma u8_id x : is_u8 x → u8 x = x.
Proof. unfold is_u8, u8. intros. by apply Z.mod_small. Qed.
Lemma u16_id x : is_u16 x → u16 x = x.
Proof. unfold is_u16, u16. intros. by apply Z.mod_small. Qed.
Lemma u32_id x : is_u32 x → u32 x = x.
Proof. unfold is_u32, u32. intros. by apply Z.mod_small. Qed.

#[export] Hint Resolve u8_range u16_range u32_range : fw.

Lemma land_255 x : Z.land x 0xFF = x mod 256.
Proof. exact (Z.land_ones x 8 ltac:(lia)). Qed.

Lemma u8_of_nat n : u8 (Z.of_nat n) = Z.of_nat (n mod 256).
Proof. unfold u8. by rewrite Nat2Z.inj_mod. Qed.

(** [(hi << 8) | lo] of two bytes. *)
Lemma bytes_to_u16 hi lo :
  is_u8 hi → is_u8 lo → Z.lor (Z.shiftl hi 8) lo = lo + 256 * hi.
Proof.
  intros Hhi Hlo. rewrite Z.shiftl_mul_pow2 by lia.
  pose proof (Z.add_lor_land (hi * 2 ^ 8) lo).
  enough (Z.land (hi * 2 ^ 8) lo = 0) by lia.
  apply Z.bits_inj'. intros i Hi. rewrite Z.land_spec, Z.bits_0.
  destruct (decide (i < 8)) as [Hlt|Hge].
  - by rewrite Z.mul_pow2_bits_low by lia.
  - rewrite (Z.bits_above_log2 lo i), andb_false_r; [done|unfold is_u8 in *; lia|].
    unfold is_u8 in *. destruct (decide (lo = 0)) as [->|]; [simpl; lia|].
    apply Z.log2_lt_pow2; [lia|]. pose proof (Z.pow_le_mono_r 2 8 i). lia.
Qed.

(** A decidable property of every byte, by evaluating all 256 cases, and of
    every pair of bytes. *)
Lemma u8_all (P : Z → Prop) `{!∀ x, Decision (P x)} :
  forallb (λ x, bool_decide (P x)) (seqZ 0 256) = true → ∀ x, is_u8 x → P x.
Proof.
  intros Hall x Hx. rewrite forallb_forall in Hall.
  apply (bool_decide_eq_true_1 _), Hall.
  rewrite <- list_elem_of_In. apply elem_of_seqZ. unfold is_u8 in Hx. lia.
Qed.

Lemma u8_all2 (P : Z → Z → Prop) `{!∀ x y, Decision (P x y)} :
  forallb (λ x, forallb (λ y, bool_decide (P x y)) (seqZ 0 256)) (seqZ 0 256) = true →
  ∀ x y, is_u8 x → is_u8 y → P x y.
Proof.
  intros Hall x y Hx Hy. rewrite forallb_forall in Hall.
  apply (u8_all (P x)); [|done]. apply Hall.
  rewrite <- list_elem_of_In. apply elem_of_seqZ. unfold is_u8 in Hx. lia.
Qed.

(** Closes a goal about bytes by evaluation. *)
Ltac by_bytes P :=
  refine (@u8_all P (λ x, ltac:(cbv beta; apply _)) _ _ _);
  [vm_compute; reflexivity|done].
Ltac by_bytes2 P :=
  refine (@u8_all2 P (λ x y, ltac:(cbv beta; apply _)) _ _ _ _ _);
  [vm_compute; reflexivity|done|done].

(** Proves that a list built from pieces consists of bytes. *)
Ltac solve_bytes :=
  repeat first
    [ done | apply Forall_nil_2 | apply Forall_cons_2 | apply Forall_app_2
    | progress auto with fw | unfold is_u8; lia ].

(** Setting one bit of a byte. *)
Lemma lor_bit_byte b k : is_u8 b → 0 ≤ k < 8 → is_u8 (Z.lor b (BV k)).
Proof.
  intros Hb Hk. assert (k = 0 ∨ k = 1 ∨ k = 2 ∨ k = 3 ∨ k = 4 ∨ k = 5 ∨ k = 6 ∨ k = 7)
    as Hcases by lia.
  destruct Hcases as [->|[->|[->|[->|[->|[->|[->| ->]]]]]]];
    match goal with |- is_u8 (Z.lor _ (BV ?k)) => by_bytes (λ b, is_u8 (Z.lor b (BV k))) end.
Qed.

(** ** Lemmas on buffers *)

Lemma memcpy_at_Some off src dst :
  (off + length src ≤ length dst)%nat →
  memcpy_at off src dst = Some (take off dst ++ src ++ drop (off + length src) dst).
Proof. intros H. unfold memcpy_at. by rewrite decide_True. Qed.

Lemma memcpy_at_None off src dst :
  (length dst < off + length src)%nat → memcpy_at off src dst = None.
Proof. intros H. unfold memcpy_at. rewrite decide_False; [done|lia]. Qed.

Lemma memcpy_at_length off src dst dst' :
  memcpy_at off src dst = Some dst' → length dst' = length dst.
Proof.
  unfold memcpy_at. intros. case_decide; simplify_eq.
  rewrite !length_app, length_take, length_drop. lia.
Qed.

Lemma memcpy_at_bytes off src dst dst' :
  memcpy_at off src dst = Some dst' → bytes src → bytes dst → bytes dst'.
Proof.
  unfold memcpy_at. intros. case_decide; simplify_eq.
  rewrite !Forall_app. eauto using Forall_take, Forall_drop.
Qed.

Lemma memcpy_Some off src n dst :
  (n ≤ length src)%nat → (off + n ≤ length dst)%nat →
  memcpy off src n dst = Some (take off dst ++ take n src ++ drop (off + n) dst).
Proof.
  intros H1 H2. unfold memcpy. rewrite decide_True by done.
  rewrite memcpy_at_Some; rewrite length_take_le by done; done.
Qed.

Lemma store_at_insert i b l : (i < length l)%nat → store_at i b l = Some (<[i := b]> l).
Proof.
  intros Hi. unfold store_at. rewrite memcpy_at_Some by (simpl; lia).
  rewrite insert_take_drop by done. by rewrite Nat.add_comm.
Qed.

Lemma memset_bytes v n : is_u8 v → bytes (memset v n).
Proof. intros. by apply Forall_replicate. Qed.

Lemma memset_length v n : length (memset v n) = n.
Proof. apply length_replicate. Qed.

Lemma pad_length n l : (length l ≤ n)%nat → length (pad n l) = n.
Proof. intros. unfold pad. rewrite length_app, memset_length. lia. Qed.

Lemma pad_bytes n l : bytes l → bytes (pad n l).
Proof. intros. apply Forall_app. split; [done|]. by apply memset_bytes. Qed.

Lemma memset_pad n : memset 0 n = pad n [].
Proof. unfold pad. by rewrite Nat.sub_0_r. Qed.

(** Filling a zeroed buffer from its start, one piece after the other. *)
Lemma memcpy_at_pad n off p src :
  off = length p → (length p + length src ≤ n)%nat →
  memcpy_at off src (pad n p) = Some (pad n (p ++ src)).
Proof.
  intros -> H. rewrite memcpy_at_Some by (rewrite pad_length; lia).
  unfold pad. rewrite take_app_length, drop_app_ge by lia.
  unfold memset. rewrite drop_replicate, <- app_assoc, length_app.
  do 3 f_equal. f_equal. lia.
Qed.

Lemma store_at_pad n off p b :
  off = length p → (length p + 1 ≤ n)%nat →
  store_at off b (pad n p) = Some (pad n (p ++ [b])).
Proof. intros. by apply memcpy_at_pad. Qed.

Lemma memcpy_pad n off p src k :
  off = length p → (k ≤ length src)%nat → (length p + k ≤ n)%nat →
  memcpy off src k (pad n p) = Some (pad n (p ++ take k src)).
Proof.
  intros. unfold memcpy. rewrite decide_True by done.
  apply memcpy_at_pad; [done|]. rewrite length_take_le; done.
Qed.

Lemma memcpy_overflow off src k dst :
  (length dst < off + k)%nat → memcpy off src k dst = None.
Proof.
  intros. unfold memcpy. case_decide; [|done].
  apply memcpy_at_None. rewrite length_take_le; done.
Qed.

#[export] Hint Resolve memset_bytes memcpy_at_bytes pad_bytes : fw.
#[export] Hint Rewrite memset_length : fw.

(** ** Lemmas on the monad *)

Lemma if_same {A} (b : bool) (x : A) : (if b then x else x) = x.
Proof. by destruct b. Qed.

Lemma final_Some {S} (o : outcome S unit) s : final o = Some s → o = Ok tt s.
Proof. destruct o as [[]|]; naive_solver. Qed.

(** Running a program step by step. *)
Lemma bind_Ok {S A B} (m : M S A) (k : A → M S B) s a s' :
  m s = Ok a s' → (m ≫= k) s = k a s'.
Proof. intros H. unfold mbind, M_bind. by rewrite H. Qed.

Lemma bind_assoc {S A B C} (m : M S A) (k : A → M S B) (h : B → M S C) s :
  ((m ≫= k) ≫= h) s = (m ≫= λ a, k a ≫= h) s.
Proof. unfold mbind, M_bind. by destruct (m s). Qed.

Lemma ret_run {S A} (a : A) (s : S) : (mret a : M S A) s = Ok a s.
Proof. done. Qed.
Lemma gets_run {S A} (f : S → A) s : gets f s = Ok (f s) s.
Proof. done. Qed.
Lemma modify_run {S} (f : S → S) s : modify f s = Ok tt (f s).
Proof. done. Qed.

Ltac run_step H := rewrite (bind_Ok _ _ _ _ _ H).

Lemma wait_until_ready {S} fuel (cond : M S bool) (s s' : S) :
  cond s = Ok true s' → wait_until (Datatypes.S fuel) cond s = Ok tt s'.
Proof. intros H. simpl. unfold mbind, M_bind. by rewrite H. Qed.

(** ** C enumerations

    A C [enum] type is an inductive type with the constructors of the source;
    [enum_code] gives the value of each constant.  A C variable of the type
    may hold any value, so code that switches on one decodes it first, and
    [None] is a value that no constant has (the [default] case). *)

Class CEnum (E : Type) := {
  enum_all : list E;
  enum_code : E → Z;
  enum_complete : ∀ e, e ∈ enum_all;
  enum_inj : ∀ e1 e2, enum_code e1 = enum_code e2 → e1 = e2;
}.

Definition of_code {E} `{CEnum E} (v : Z) : option E :=
  List.find (λ e, enum_code e =? v) enum_all.

Lemma of_code_Some {E} `{CEnum E} v (e : E) :
  of_code v = Some e ↔ v = enum_code e.
Proof.
  unfold of_code. split.
  - intros Hf%List.find_some. lia.
  - intros ->. destruct (List.find _ _) as [e'|] eqn:Hf.
    + apply List.find_some in Hf as [_ Heq]. f_equal. apply enum_inj. lia.
    + apply List.find_none with (x := e) in Hf; [lia|].
      rewrite <- list_elem_of_In. apply enum_complete.
Qed.

Lemma of_code_code {E} `{CEnum E} (e : E) : of_code (enum_code e) = Some e.
Proof. by apply of_code_Some. Qed.

(** Discharges the two laws of a [CEnum] by case analysis. *)
Ltac solve_enum := first
  [ solve [intros []; set_solver]
  | solve [intros [] [] ?; simplify_eq; done] ].

(** Eight bits, the least significant first, as one byte. *)
Fixpoint of_bits (l : list bool) : Z :=
  match l with
  | [] => 0
  | b :: l => Z.b2z b + 2 * of_bits l
  end.

(** The low [n] bits of a byte, the least significant first. *)
Fixpoint to_bits (n : nat) (x : Z) : list bool :=
  match n with
  | O => []
  | S n => Z.odd x :: to_bits n (x / 2)
  end.

Lemma to_of_bits l : to_bits (length l) (of_bits l) = l.
Proof.
  induction l as [|b l IH]; [done|]. cbn [length of_bits to_bits].
  replace (Z.odd (Z.b2z b + 2 * of_bits l)) with b.
  - f_equal. etransitivity; [|exact IH]. f_equal. destruct b; cbn [Z.b2z]; div_lia.
  - rewrite Z.add_comm, Z.odd_add, Z.odd_mul. by destruct b.
Qed.

Lemma of_bits_range l : 0 ≤ of_bits l < 2 ^ Z.of_nat (length l).
Proof.
  induction l as [|b l IH]; cbn [length of_bits]; [lia|].
  rewrite Nat2Z.inj_succ, Z.pow_succ_r by lia. destruct b; cbn [Z.b2z]; lia.
Qed.

Lemma of_to_bits n x : 0 ≤ x < 2 ^ Z.of_nat n → of_bits (to_bits n x) = x.
Proof.
  revert x. induction n as [|n IH]; intros x Hx; cbn [to_bits of_bits].
  { simpl in Hx. lia. }
  rewrite Nat2Z.inj_succ, Z.pow_succ_r in Hx by lia.
  rewrite IH; [|split; [apply Z.div_pos; lia|apply Z.div_lt_upper_bound; lia]].
  rewrite (Z.div_mod x 2) at 3 by lia. rewrite Zmod_odd.
  destruct (Z.odd x); cbn [Z.b2z]; lia.
Qed.
