(* ===== verification/Datatypes.v ===== *)
(** * Shared data types: [src/Firmware/datatypes.h]

    The enumerations of the serial and of the Switch protocol, the packet that
    the UART receiver assembles and the standard input report with its layout
    in memory. *)

From S2P Require Import Prelude.

(** ** Buttons, battery, hat and sticks *)

Inductive JoystickButtons_t :=
| SWITCH_Y | SWITCH_B | SWITCH_A | SWITCH_X
| SWITCH_L | SWITCH_R | SWITCH_ZL | SWITCH_ZR
| SWITCH_MINUS | SWITCH_PLUS | SWITCH_LCLICK | SWITCH_RCLICK
| SWITCH_HOME | SWITCH_CAPTURE.

#[export] Instance JoystickButtons_eq_dec : EqDecision JoystickButtons_t.
Proof. solve_decision. Defined.

Definition JoystickButtons_code (b : JoystickButtons_t) : Z :=
  match b with
  | SWITCH_Y       => 0x01
  | SWITCH_B       => 0x02
  | SWITCH_A       => 0x04
  | SWITCH_X       => 0x08
  | SWITCH_L       => 0x10
  | SWITCH_R       => 0x20
  | SWITCH_ZL      => 0x40
  | SWITCH_ZR      => 0x80
  | SWITCH_MINUS   => 0x100
  | SWITCH_PLUS    => 0x200
  | SWITCH_LCLICK  => 0x400
  | SWITCH_RCLICK  => 0x800
  | SWITCH_HOME    => 0x1000
  | SWITCH_CAPTURE => 0x2000
  end.

Definition BATTERY_FULL : Z := 0x08.
Definition BATTERY_MEDIUM : Z := 0x06.
Definition BATTERY_LOW : Z := 0x04.
Definition BATTERY_CRITICAL : Z := 0x02.
Definition BATTERY_EMPTY : Z := 0x00.
Definition BATTERY_CHARGING : Z := 0x01.

Definition HAT_TOP : Z := 0x00.
Definition HAT_TOP_RIGHT : Z := 0x01.
Definition HAT_RIGHT : Z := 0x02.
Definition HAT_BOTTOM_RIGHT : Z := 0x03.
Definition HAT_BOTTOM : Z := 0x04.
Definition HAT_BOTTOM_LEFT : Z := 0x05.
Definition HAT_LEFT : Z := 0x06.
Definition HAT_TOP_LEFT : Z := 0x07.
Definition HAT_CENTER : Z := 0x08.

Definition STICK_MIN : Z := 0.
Definition STICK_CENTER : Z := 128.
Definition STICK_MAX : Z := 255.

(** The LEDs of the board ([LUFA/Drivers/Board/AVR8/UNO/LEDs.h]) and what the
    firmware shows on them. *)
Definition LEDS_LED1 : Z := BV 5.
Definition LEDS_LED2 : Z := BV 4.
Definition LEDS_ALL_LEDS : Z := Z.lor LEDS_LED1 LEDS_LED2.
Definition LEDS_NO_LEDS : Z := 0.

Definition LEDMASK_NOT_SYNCED : Z := LEDS_NO_LEDS.
Definition LEDMASK_SYNCED : Z := LEDS_ALL_LEDS.
Definition LEDMASK_PAUSE_EMPTY_BUFFER : Z := LEDS_LED1.
Definition LEDMASK_PAUSE_HOME_BUFFER : Z := LEDS_LED2.

(** ** Commands and responses of the serial protocol *)

Inductive Command_t :=
| COMMAND_NOP | COMMAND_SYNC_1 | COMMAND_SYNC_2 | COMMAND_SYNC_START.

Definition Command_code (c : Command_t) : Z :=
  match c with
  | COMMAND_NOP        => 0
  | COMMAND_SYNC_1     => 0x33
  | COMMAND_SYNC_2     => 0xCC
  | COMMAND_SYNC_START => 0xFF
  end.

Inductive Response_t :=
| RESP_USB_ACK | RESP_UPDATE_ACK | RESP_UPDATE_NACK
| RESP_SYNC_START | RESP_SYNC_1 | RESP_SYNC_OK.

Definition Response_code (r : Response_t) : Z :=
  match r with
  | RESP_USB_ACK     => 0x90
  | RESP_UPDATE_ACK  => 0x91
  | RESP_UPDATE_NACK => 0x92
  | RESP_SYNC_START  => 0xFF
  | RESP_SYNC_1      => 0xCC
  | RESP_SYNC_OK     => 0x33
  end.

(** ** Subcommands of the Switch and addresses of the SPI flash *)

Inductive Switch_Subcommand_t :=
| SUBCOMMAND_CONTROLLER_STATE_ONLY
| SUBCOMMAND_BLUETOOTH_MANUAL_PAIRING
| SUBCOMMAND_REQUEST_DEVICE_INFO
| SUBCOMMAND_SET_INPUT_REPORT_MODE
| SUBCOMMAND_TRIGGER_BUTTONS_ELAPSED_TIME
| SUBCOMMAND_GET_PAGE_LIST_STATE
| SUBCOMMAND_SET_HCI_STATE
| SUBCOMMAND_RESET_PAIRING_INFO
| SUBCOMMAND_SET_SHIPMENT_LOW_POWER_STATE
| SUBCOMMAND_SPI_FLASH_READ
| SUBCOMMAND_SPI_FLASH_WRITE
| SUBCOMMAND_SPI_SECTOR_ERASE
| SUBCOMMAND_RESET_NFC_IR_MCU
| SUBCOMMAND_SET_NFC_IR_MCU_CONFIG
| SUBCOMMAND_SET_NFC_IR_MCU_STATE
| SUBCOMMAND_SET_PLAYER_LIGHTS
| SUBCOMMAND_GET_PLAYER_LIGHTS
| SUBCOMMAND_SET_HOME_LIGHTS
| SUBCOMMAND_ENABLE_IMU
| SUBCOMMAND_SET_IMU_SENSITIVITY
| SUBCOMMAND_WRITE_IMU_REGISTERS
| SUBCOMMAND_READ_IMU_REGISTERS
| SUBCOMMAND_ENABLE_VIBRATION
| SUBCOMMAND_GET_REGULATED_VOLTAGE.

#[export] Instance Switch_Subcommand_eq_dec : EqDecision Switch_Subcommand_t.
Proof. solve_decision. Defined.

Definition Switch_Subcommand_code (s : Switch_Subcommand_t) : Z :=
  match s with
  | SUBCOMMAND_CONTROLLER_STATE_ONLY        => 0x00
  | SUBCOMMAND_BLUETOOTH_MANUAL_PAIRING     => 0x01
  | SUBCOMMAND_REQUEST_DEVICE_INFO          => 0x02
  | SUBCOMMAND_SET_INPUT_REPORT_MODE        => 0x03
  | SUBCOMMAND_TRIGGER_BUTTONS_ELAPSED_TIME => 0x04
  | SUBCOMMAND_GET_PAGE_LIST_STATE          => 0x05
  | SUBCOMMAND_SET_HCI_STATE                => 0x06
  | SUBCOMMAND_RESET_PAIRING_INFO           => 0x07
  | SUBCOMMAND_SET_SHIPMENT_LOW_POWER_STATE => 0x08
  | SUBCOMMAND_SPI_FLASH_READ               => 0x10
  | SUBCOMMAND_SPI_FLASH_WRITE              => 0x11
  | SUBCOMMAND_SPI_SECTOR_ERASE             => 0x12
  | SUBCOMMAND_RESET_NFC_IR_MCU             => 0x20
  | SUBCOMMAND_SET_NFC_IR_MCU_CONFIG        => 0x21
  | SUBCOMMAND_SET_NFC_IR_MCU_STATE         => 0x22
  | SUBCOMMAND_SET_PLAYER_LIGHTS            => 0x30
  | SUBCOMMAND_GET_PLAYER_LIGHTS            => 0x31
  | SUBCOMMAND_SET_HOME_LIGHTS              => 0x38
  | SUBCOMMAND_ENABLE_IMU                   => 0x40
  | SUBCOMMAND_SET_IMU_SENSITIVITY          => 0x41
  | SUBCOMMAND_WRITE_IMU_REGISTERS          => 0x42
  | SUBCOMMAND_READ_IMU_REGISTERS           => 0x43
  | SUBCOMMAND_ENABLE_VIBRATION             => 0x48
  | SUBCOMMAND_GET_REGULATED_VOLTAGE        => 0x50
  end.

#[export] Program Instance Switch_Subcommand_enum : CEnum Switch_Subcommand_t := {
  enum_all :=
    [ SUBCOMMAND_CONTROLLER_STATE_ONLY; SUBCOMMAND_BLUETOOTH_MANUAL_PAIRING;
      SUBCOMMAND_REQUEST_DEVICE_INFO; SUBCOMMAND_SET_INPUT_REPORT_MODE;
      SUBCOMMAND_TRIGGER_BUTTONS_ELAPSED_TIME; SUBCOMMAND_GET_PAGE_LIST_STATE;
      SUBCOMMAND_SET_HCI_STATE; SUBCOMMAND_RESET_PAIRING_INFO;
      SUBCOMMAND_SET_SHIPMENT_LOW_POWER_STATE; SUBCOMMAND_SPI_FLASH_READ;
      SUBCOMMAND_SPI_FLASH_WRITE; SUBCOMMAND_SPI_SECTOR_ERASE;
      SUBCOMMAND_RESET_NFC_IR_MCU; SUBCOMMAND_SET_NFC_IR_MCU_CONFIG;
      SUBCOMMAND_SET_NFC_IR_MCU_STATE; SUBCOMMAND_SET_PLAYER_LIGHTS;
      SUBCOMMAND_GET_PLAYER_LIGHTS; SUBCOMMAND_SET_HOME_LIGHTS;
      SUBCOMMAND_ENABLE_IMU; SUBCOMMAND_SET_IMU_SENSITIVITY;
      SUBCOMMAND_WRITE_IMU_REGISTERS; SUBCOMMAND_READ_IMU_REGISTERS;
      SUBCOMMAND_ENABLE_VIBRATION; SUBCOMMAND_GET_REGULATED_VOLTAGE ];
  enum_code := Switch_Subcommand_code;
}.
Solve All Obligations with solve_enum.

Inductive SPI_Address_t :=
| ADDRESS_SERIAL_NUMBER
| ADDRESS_CONTROLLER_COLOR
| ADDRESS_FACTORY_PARAMETERS_1
| ADDRESS_FACTORY_PARAMETERS_2
| ADDRESS_FACTORY_CALIBRATION_1
| ADDRESS_FACTORY_CALIBRATION_2
| ADDRESS_STICKS_CALIBRATION
| ADDRESS_IMU_CALIBRATION.

#[export] Instance SPI_Address_eq_dec : EqDecision SPI_Address_t.
Proof. solve_decision. Defined.

Definition SPI_Address_code (a : SPI_Address_t) : Z :=
  match a with
  | ADDRESS_SERIAL_NUMBER         => 0x6000
  | ADDRESS_CONTROLLER_COLOR      => 0x6050
  | ADDRESS_FACTORY_PARAMETERS_1  => 0x6080
  | ADDRESS_FACTORY_PARAMETERS_2  => 0x6098
  | ADDRESS_FACTORY_CALIBRATION_1 => 0x6020
  | ADDRESS_FACTORY_CALIBRATION_2 => 0x603D
  | ADDRESS_STICKS_CALIBRATION    => 0x8010
  | ADDRESS_IMU_CALIBRATION       => 0x8028
  end.

#[export] Program Instance SPI_Address_enum : CEnum SPI_Address_t := {
  enum_all :=
    [ ADDRESS_SERIAL_NUMBER; ADDRESS_CONTROLLER_COLOR;
      ADDRESS_FACTORY_PARAMETERS_1; ADDRESS_FACTORY_PARAMETERS_2;
      ADDRESS_FACTORY_CALIBRATION_1; ADDRESS_FACTORY_CALIBRATION_2;
      ADDRESS_STICKS_CALIBRATION; ADDRESS_IMU_CALIBRATION ];
  enum_code := SPI_Address_code;
}.
Solve All Obligations with solve_enum.

(** ** The serial packet *)

Record Serial_Input_Packet_t := {
  input : list Z;          (** [uint8_t input[8]] *)
  crc8_ccitt : Z;
  received_bytes : Z;
}.

(** ** The standard input report

    The bit-fields of the C struct, in its order. *)

Record USB_StandardReport_t := {
  connection_info : Z;     (** 4 bits *)
  battery_level : Z;       (** 4 bits *)
  button_y : bool;
  button_x : bool;
  button_b : bool;
  button_a : bool;
  button_right_sr : bool;
  button_right_sl : bool;
  button_r : bool;
  button_zr : bool;
  button_minus : bool;
  button_plus : bool;
  button_thumb_r : bool;
  button_thumb_l : bool;
  button_home : bool;
  button_capture : bool;
  dummy : bool;            (** [uint8_t dummy: 1] *)
  charging_grip : bool;
  dpad_down : bool;
  dpad_up : bool;
  dpad_right : bool;
  dpad_left : bool;
  button_left_sr : bool;
  button_left_sl : bool;
  button_l : bool;
  button_zl : bool;
  analog : list Z;         (** [uint8_t analog[6]] *)
  vibrator_input_report : Z;
}.

(** [sizeof(USB_StandardReport_t)]: four bytes of bit-fields, the sticks and
    the vibrator byte, packed. *)
Definition sizeof_StandardReport : nat := 11.

(** The bytes of the struct: avr-gcc allocates the bit-fields of a byte from
    the least significant bit, and the struct has no padding. *)
Definition report_bytes (r : USB_StandardReport_t) : list Z :=
  [ connection_info r + 16 * battery_level r;
    of_bits [ button_y r; button_x r; button_b r; button_a r;
              button_right_sr r; button_right_sl r; button_r r; button_zr r ];
    of_bits [ button_minus r; button_plus r; button_thumb_r r; button_thumb_l r;
              button_home r; button_capture r; dummy r; charging_grip r ];
    of_bits [ dpad_down r; dpad_up r; dpad_right r; dpad_left r;
              button_left_sr r; button_left_sl r; button_l r; button_zl r ] ]
  ++ analog r ++ [ vibrator_input_report r ].

(** Reading the struct back from its 11 bytes, as the console does. *)
Definition report_of_bytes (l : list Z) : option USB_StandardReport_t :=
  match l with
  | c :: r :: s :: d :: rest =>
      match to_bits 8 r, to_bits 8 s, to_bits 8 d, rest with
      | [y; x; b; a; rsr; rsl; br; zr], [mi; pl; tr; tl; ho; ca; du; ch],
        [dd; du'; dr; dl; lsr; lsl; bl; zl], [a0; a1; a2; a3; a4; a5; v] =>
          Some {| connection_info := c mod 16; battery_level := c / 16;
                  button_y := y; button_x := x; button_b := b; button_a := a;
                  button_right_sr := rsr; button_right_sl := rsl;
                  button_r := br; button_zr := zr;
                  button_minus := mi; button_plus := pl;
                  button_thumb_r := tr; button_thumb_l := tl;
                  button_home := ho; button_capture := ca;
                  dummy := du; charging_grip := ch;
                  dpad_down := dd; dpad_up := du';
                  dpad_right := dr; dpad_left := dl;
                  button_left_sr := lsr; button_left_sl := lsl;
                  button_l := bl; button_zl := zl;
                  analog := [a0; a1; a2; a3; a4; a5];
                  vibrator_input_report := v |}
      | _, _, _, _ => None
      end
  | _ => None
  end.

(** The values that the widths of the fields allow. *)
Record report_wf (r : USB_StandardReport_t) : Prop := {
  wf_connection : 0 ≤ connection_info r < 16;
  wf_battery : 0 ≤ battery_level r < 16;
  wf_analog_length : length (analog r) = 6%nat;
  wf_analog : bytes (analog r);
  wf_vibrator : is_u8 (vibrator_input_report r);
}.

Lemma report_bytes_length r :
  length (analog r) = 6%nat → length (report_bytes r) = sizeof_StandardReport.
Proof. intros H. unfold report_bytes. by rewrite !length_app, H. Qed.

Lemma of_bits_byte b0 b1 b2 b3 b4 b5 b6 b7 :
  is_u8 (of_bits [b0; b1; b2; b3; b4; b5; b6; b7]).
Proof. exact (of_bits_range [b0; b1; b2; b3; b4; b5; b6; b7]). Qed.

Lemma to_of_byte b0 b1 b2 b3 b4 b5 b6 b7 :
  to_bits 8 (of_bits [b0; b1; b2; b3; b4; b5; b6; b7]) =
  [b0; b1; b2; b3; b4; b5; b6; b7].
Proof. exact (to_of_bits [b0; b1; b2; b3; b4; b5; b6; b7]). Qed.

Lemma report_bytes_bytes r : report_wf r → bytes (report_bytes r).
Proof.
  intros []. unfold report_bytes. apply Forall_app. split.
  { repeat constructor; try apply of_bits_byte; unfold is_u8; lia. }
  apply Forall_app. eauto.
Qed.

#[export] Hint Resolve report_bytes_bytes of_bits_byte : fw.

Lemma report_roundtrip r :
  report_wf r → report_of_bytes (report_bytes r) = Some r.
Proof.
  intros []. unfold report_of_bytes, report_bytes. cbn [app].
  rewrite !to_of_byte. destruct r; simpl in *.
  destruct analog0 as [|? [|? [|? [|? [|? [|? [|]]]]]]]; simplify_eq/=.
  do 2 f_equal; div_lia.
Qed.
