(* ===== verification/StdDescriptors.v ===== *)
(** * Standard and HID descriptors of the USB library

    The packed structs of [LUFA/Drivers/USB/Core/StdDescriptors.h] and
    [LUFA/Drivers/USB/Class/Common/HIDClassCommon.h] as records, with the bytes
    that each has in memory (packed, little endian) and the inverse, and the
    item macros of [HIDReportData.h]. *)

From S2P Require Import Prelude.

(** ** Little-endian words *)

Definition le16 (x : Z) : list Z := [x mod 256; x / 256].
Definition of_le16 (lo hi : Z) : Z := lo + 256 * hi.

Lemma of_le16_le16 x : of_le16 (x mod 256) (x / 256) = x.
Proof. unfold of_le16. div_lia. Qed.

Lemma le16_bytes x : is_u16 x → bytes (le16 x).
Proof. unfold is_u16, le16, is_u8. intros. repeat constructor; div_lia. Qed.

#[export] Hint Resolve le16_bytes : fw.

(** ** Macros *)

Definition NO_DESCRIPTOR : Z := 0.
Definition USB_CONFIG_POWER_MA (mA : Z) : Z := Z.shiftr mA 1.
Definition VERSION_BCD (Major Minor Revision : Z) : Z :=
  Z.lor (Z.lor (Z.shiftl (Z.land Major 0xFF) 8) (Z.shiftl (Z.land Minor 0x0F) 4))
        (Z.land Revision 0x0F).
Definition LANGUAGE_ID_ENG : Z := 0x0409.
Definition USB_CONFIG_ATTR_RESERVED : Z := 0x80.
Definition USB_CONFIG_ATTR_SELFPOWERED : Z := 0x40.
Definition USB_CONFIG_ATTR_REMOTEWAKEUP : Z := 0x20.
Definition ENDPOINT_ATTR_NO_SYNC : Z := Z.shiftl 0 2.
Definition ENDPOINT_ATTR_ASYNC : Z := Z.shiftl 1 2.
Definition ENDPOINT_ATTR_ADAPTIVE : Z := Z.shiftl 2 2.
Definition ENDPOINT_ATTR_SYNC : Z := Z.shiftl 3 2.
Definition ENDPOINT_USAGE_DATA : Z := Z.shiftl 0 4.
Definition ENDPOINT_USAGE_FEEDBACK : Z := Z.shiftl 1 4.
Definition ENDPOINT_USAGE_IMPLICIT_FEEDBACK : Z := Z.shiftl 2 4.

(** Endpoint directions and types ([USBController.h]). *)
Definition ENDPOINT_DIR_MASK : Z := 0x80.
Definition ENDPOINT_DIR_OUT : Z := 0x00.
Definition ENDPOINT_DIR_IN : Z := 0x80.
Definition EP_TYPE_MASK : Z := 0x03.
Definition EP_TYPE_CONTROL : Z := 0x00.
Definition EP_TYPE_ISOCHRONOUS : Z := 0x01.
Definition EP_TYPE_BULK : Z := 0x02.
Definition EP_TYPE_INTERRUPT : Z := 0x03.

Inductive USB_DescriptorTypes_t :=
| DTYPE_Device | DTYPE_Configuration | DTYPE_String | DTYPE_Interface | DTYPE_Endpoint
| DTYPE_DeviceQualifier | DTYPE_Other | DTYPE_InterfacePower | DTYPE_InterfaceAssociation.

Definition DTYPE_code (t : USB_DescriptorTypes_t) : Z :=
  match t with
  | DTYPE_Device => 0x01
  | DTYPE_Configuration => 0x02
  | DTYPE_String => 0x03
  | DTYPE_Interface => 0x04
  | DTYPE_Endpoint => 0x05
  | DTYPE_DeviceQualifier => 0x06
  | DTYPE_Other => 0x07
  | DTYPE_InterfacePower => 0x08
  | DTYPE_InterfaceAssociation => 0x0B
  end.

Definition USB_CSCP_NoDeviceClass : Z := 0x00.
Definition USB_CSCP_NoDeviceSubclass : Z := 0x00.
Definition USB_CSCP_NoDeviceProtocol : Z := 0x00.
Definition HID_CSCP_HIDClass : Z := 0x03.
Definition HID_CSCP_NonBootSubclass : Z := 0x00.
Definition HID_CSCP_BootSubclass : Z := 0x01.
Definition HID_CSCP_NonBootProtocol : Z := 0x00.
Definition HID_CSCP_KeyboardBootProtocol : Z := 0x01.
Definition HID_CSCP_MouseBootProtocol : Z := 0x02.
Definition HID_REQ_GetReport : Z := 0x01.
Definition HID_REQ_GetIdle : Z := 0x02.
Definition HID_REQ_GetProtocol : Z := 0x03.
Definition HID_REQ_SetReport : Z := 0x09.
Definition HID_REQ_SetIdle : Z := 0x0A.
Definition HID_REQ_SetProtocol : Z := 0x0B.
Definition HID_DTYPE_HID : Z := 0x21.
Definition HID_DTYPE_Report : Z := 0x22.

(** ** The structs *)

Record USB_Descriptor_Header_t := {
  Size : Z;
  Type_ : Z;
}.

Record USB_Descriptor_Device_t := {
  dev_Header : USB_Descriptor_Header_t;
  dev_USBSpecification : Z;      (** [uint16_t] *)
  dev_Class : Z;
  dev_SubClass : Z;
  dev_Protocol : Z;
  dev_Endpoint0Size : Z;
  dev_VendorID : Z;              (** [uint16_t] *)
  dev_ProductID : Z;             (** [uint16_t] *)
  dev_ReleaseNumber : Z;         (** [uint16_t] *)
  dev_ManufacturerStrIndex : Z;
  dev_ProductStrIndex : Z;
  dev_SerialNumStrIndex : Z;
  dev_NumberOfConfigurations : Z;
}.

Record USB_Descriptor_Configuration_Header_t := {
  cfg_Header : USB_Descriptor_Header_t;
  cfg_TotalConfigurationSize : Z; (** [uint16_t] *)
  cfg_TotalInterfaces : Z;
  cfg_ConfigurationNumber : Z;
  cfg_ConfigurationStrIndex : Z;
  cfg_ConfigAttributes : Z;
  cfg_MaxPowerConsumption : Z;
}.

Record USB_Descriptor_Interface_t := {
  if_Header : USB_Descriptor_Header_t;
  if_InterfaceNumber : Z;
  if_AlternateSetting : Z;
  if_TotalEndpoints : Z;
  if_Class : Z;
  if_SubClass : Z;
  if_Protocol : Z;
  if_InterfaceStrIndex : Z;
}.

Record USB_HID_Descriptor_HID_t := {
  hid_Header : USB_Descriptor_Header_t;
  hid_HIDSpec : Z;               (** [uint16_t] *)
  hid_CountryCode : Z;
  hid_TotalReportDescriptors : Z;
  hid_HIDReportType : Z;
  hid_HIDReportLength : Z;       (** [uint16_t] *)
}.

Record USB_Descriptor_Endpoint_t := {
  epd_Header : USB_Descriptor_Header_t;
  epd_EndpointAddress : Z;
  epd_Attributes : Z;
  epd_EndpointSize : Z;          (** [uint16_t] *)
  epd_PollingIntervalMS : Z;
}.

(** The flexible array member is a list. *)
Record USB_Descriptor_String_t := {
  str_Header : USB_Descriptor_Header_t;
  str_UnicodeString : list Z;    (** [wchar_t], 16 bits *)
}.

(** ** Their bytes in memory *)

Definition Header_bytes (h : USB_Descriptor_Header_t) : list Z := [Size h; Type_ h].

Definition Device_bytes (d : USB_Descriptor_Device_t) : list Z :=
  Header_bytes (dev_Header d) ++ le16 (dev_USBSpecification d) ++
  [dev_Class d; dev_SubClass d; dev_Protocol d; dev_Endpoint0Size d] ++
  le16 (dev_VendorID d) ++ le16 (dev_ProductID d) ++ le16 (dev_ReleaseNumber d) ++
  [dev_ManufacturerStrIndex d; dev_ProductStrIndex d; dev_SerialNumStrIndex d;
   dev_NumberOfConfigurations d].

Definition Configuration_Header_bytes (c : USB_Descriptor_Configuration_Header_t) : list Z :=
  Header_bytes (cfg_Header c) ++ le16 (cfg_TotalConfigurationSize c) ++
  [cfg_TotalInterfaces c; cfg_ConfigurationNumber c; cfg_ConfigurationStrIndex c;
   cfg_ConfigAttributes c; cfg_MaxPowerConsumption c].

Definition Interface_bytes (i : USB_Descriptor_Interface_t) : list Z :=
  Header_bytes (if_Header i) ++
  [if_InterfaceNumber i; if_AlternateSetting i; if_TotalEndpoints i; if_Class i;
   if_SubClass i; if_Protocol i; if_InterfaceStrIndex i].

Definition HID_bytes (h : USB_HID_Descriptor_HID_t) : list Z :=
  Header_bytes (hid_Header h) ++ le16 (hid_HIDSpec h) ++
  [hid_CountryCode h; hid_TotalReportDescriptors h; hid_HIDReportType h] ++
  le16 (hid_HIDReportLength h).

Definition Endpoint_bytes (e : USB_Descriptor_Endpoint_t) : list Z :=
  Header_bytes (epd_Header e) ++ [epd_EndpointAddress e; epd_Attributes e] ++
  le16 (epd_EndpointSize e) ++ [epd_PollingIntervalMS e].

Definition String_bytes (s : USB_Descriptor_String_t) : list Z :=
  Header_bytes (str_Header s) ++ concat (map le16 (str_UnicodeString s)).

(** [sizeof] of the packed structs. *)
Definition sizeof_Header : Z := 2.
Definition sizeof_Device : Z := 18.
Definition sizeof_Configuration_Header : Z := 9.
Definition sizeof_Interface : Z := 9.
Definition sizeof_HID : Z := 9.
Definition sizeof_Endpoint : Z := 7.

(** [USB_STRING_DESCRIPTOR(L"...")]: [sizeof] of the literal counts the final
    null character, which the length leaves out and the array keeps. *)
Definition USB_STRING_DESCRIPTOR (chars : list Z) : USB_Descriptor_String_t :=
  {| str_Header := {| Size := u8 (sizeof_Header + (2 * (Z.of_nat (length chars) + 1) - 2));
                      Type_ := DTYPE_code DTYPE_String |};
     str_UnicodeString := chars ++ [0] |}.

Definition USB_STRING_DESCRIPTOR_ARRAY (chars : list Z) : USB_Descriptor_String_t :=
  {| str_Header := {| Size := u8 (sizeof_Header + 2 * Z.of_nat (length chars));
                      Type_ := DTYPE_code DTYPE_String |};
     str_UnicodeString := chars |}.

Definition USB_STRING_LEN (UnicodeChars : Z) : Z := sizeof_Header + Z.shiftl UnicodeChars 1.

(** ** HID report items ([HIDReportData.h]) *)

Definition HID_RI_DATA_SIZE_MASK : Z := 0x03.
Definition HID_RI_TYPE_MASK : Z := 0x0C.
Definition HID_RI_TAG_MASK : Z := 0xF0.
Definition HID_RI_TYPE_MAIN : Z := 0x00.
Definition HID_RI_TYPE_GLOBAL : Z := 0x04.
Definition HID_RI_TYPE_LOCAL : Z := 0x08.
Definition HID_RI_DATA_BITS_0 : Z := 0x00.
Definition HID_RI_DATA_BITS_8 : Z := 0x01.
Definition HID_RI_DATA_BITS_16 : Z := 0x02.
Definition HID_RI_DATA_BITS_32 : Z := 0x03.
Definition HID_IOF_CONSTANT : Z := BV 0.
Definition HID_IOF_DATA : Z := 0.
Definition HID_IOF_VARIABLE : Z := BV 1.
Definition HID_IOF_ARRAY : Z := 0.
Definition HID_IOF_RELATIVE : Z := BV 2.
Definition HID_IOF_ABSOLUTE : Z := 0.
Definition HID_IOF_WRAP : Z := BV 3.
Definition HID_IOF_NO_WRAP : Z := 0.
Definition HID_IOF_NON_LINEAR : Z := BV 4.
Definition HID_IOF_LINEAR : Z := 0.
Definition HID_IOF_NO_PREFERRED_STATE : Z := BV 5.
Definition HID_IOF_PREFERRED_STATE : Z := 0.
Definition HID_IOF_NULLSTATE : Z := BV 6.
Definition HID_IOF_NO_NULL_POSITION : Z := 0.
Definition HID_IOF_VOLATILE : Z := BV 7.
Definition HID_IOF_NON_VOLATILE : Z := 0.
Definition HID_IOF_BUFFERED_BYTES : Z := BV 8.
Definition HID_IOF_BITFIELD : Z := 0.

(** The widths that the macros accept. *)
Inductive DataBits := Bits0 | Bits8 | Bits16 | Bits32.

Definition HID_RI_DATA_BITS (n : DataBits) : Z :=
  match n with
  | Bits0 => HID_RI_DATA_BITS_0
  | Bits8 => HID_RI_DATA_BITS_8
  | Bits16 => HID_RI_DATA_BITS_16
  | Bits32 => HID_RI_DATA_BITS_32
  end.

Definition HID_RI_ENCODE_8 (d : Z) : list Z := [Z.land d 0xFF].
Definition HID_RI_ENCODE_16 (d : Z) : list Z := HID_RI_ENCODE_8 d ++ HID_RI_ENCODE_8 (Z.shiftr d 8).
Definition HID_RI_ENCODE_32 (d : Z) : list Z :=
  HID_RI_ENCODE_16 d ++ HID_RI_ENCODE_16 (Z.shiftr d 16).
Definition HID_RI_ENCODE (n : DataBits) (d : Z) : list Z :=
  match n with
  | Bits0 => []
  | Bits8 => HID_RI_ENCODE_8 d
  | Bits16 => HID_RI_ENCODE_16 d
  | Bits32 => HID_RI_ENCODE_32 d
  end.

Definition HID_RI_ENTRY (Type_ Tag : Z) (n : DataBits) (d : Z) : list Z :=
  Z.lor (Z.lor Type_ Tag) (HID_RI_DATA_BITS n) :: HID_RI_ENCODE n d.

Definition HID_RI_INPUT := HID_RI_ENTRY HID_RI_TYPE_MAIN 0x80.
Definition HID_RI_OUTPUT := HID_RI_ENTRY HID_RI_TYPE_MAIN 0x90.
Definition HID_RI_COLLECTION := HID_RI_ENTRY HID_RI_TYPE_MAIN 0xA0.
Definition HID_RI_FEATURE := HID_RI_ENTRY HID_RI_TYPE_MAIN 0xB0.
Definition HID_RI_END_COLLECTION := HID_RI_ENTRY HID_RI_TYPE_MAIN 0xC0.
Definition HID_RI_USAGE_PAGE := HID_RI_ENTRY HID_RI_TYPE_GLOBAL 0x00.
Definition HID_RI_LOGICAL_MINIMUM := HID_RI_ENTRY HID_RI_TYPE_GLOBAL 0x10.
Definition HID_RI_LOGICAL_MAXIMUM := HID_RI_ENTRY HID_RI_TYPE_GLOBAL 0x20.
Definition HID_RI_PHYSICAL_MINIMUM := HID_RI_ENTRY HID_RI_TYPE_GLOBAL 0x30.
Definition HID_RI_PHYSICAL_MAXIMUM := HID_RI_ENTRY HID_RI_TYPE_GLOBAL 0x40.
Definition HID_RI_UNIT_EXPONENT := HID_RI_ENTRY HID_RI_TYPE_GLOBAL 0x50.
Definition HID_RI_UNIT := HID_RI_ENTRY HID_RI_TYPE_GLOBAL 0x60.
Definition HID_RI_REPORT_SIZE := HID_RI_ENTRY HID_RI_TYPE_GLOBAL 0x70.
Definition HID_RI_REPORT_ID := HID_RI_ENTRY HID_RI_TYPE_GLOBAL 0x80.
Definition HID_RI_REPORT_COUNT := HID_RI_ENTRY HID_RI_TYPE_GLOBAL 0x90.
Definition HID_RI_PUSH := HID_RI_ENTRY HID_RI_TYPE_GLOBAL 0xA0.
Definition HID_RI_POP := HID_RI_ENTRY HID_RI_TYPE_GLOBAL 0xB0.
Definition HID_RI_USAGE := HID_RI_ENTRY HID_RI_TYPE_LOCAL 0x00.
Definition HID_RI_USAGE_MINIMUM := HID_RI_ENTRY HID_RI_TYPE_LOCAL 0x10.
Definition HID_RI_USAGE_MAXIMUM := HID_RI_ENTRY HID_RI_TYPE_LOCAL 0x20.
