(* ===== verification/StdNames.v ===== *)
(** * The other descriptor structs

    The rest of [LUFA/Drivers/USB/Core/StdDescriptors.h]: the device qualifier
    and the interface association, and the structs whose members have the names
    of the USB specification.  A struct and its counterpart with the names of
    LUFA have the same bytes. *)

From S2P Require Import Prelude StdDescriptors.

Definition USB_CSCP_VendorSpecificClass : Z := 0xFF.
Definition USB_CSCP_VendorSpecificSubclass : Z := 0xFF.
Definition USB_CSCP_VendorSpecificProtocol : Z := 0xFF.
Definition USB_CSCP_IADDeviceClass : Z := 0xEF.
Definition USB_CSCP_IADDeviceSubclass : Z := 0x02.
Definition USB_CSCP_IADDeviceProtocol : Z := 0x01.

(** ** The structs with the names of LUFA *)

Record USB_Descriptor_DeviceQualifier_t := {
  dq_Header : USB_Descriptor_Header_t;
  dq_USBSpecification : Z;       (** [uint16_t] *)
  dq_Class : Z;
  dq_SubClass : Z;
  dq_Protocol : Z;
  dq_Endpoint0Size : Z;
  dq_NumberOfConfigurations : Z;
  dq_Reserved : Z;
}.

Record USB_Descriptor_Interface_Association_t := {
  iad_Header : USB_Descriptor_Header_t;
  iad_FirstInterfaceIndex : Z;
  iad_TotalInterfaces : Z;
  iad_Class : Z;
  iad_SubClass : Z;
  iad_Protocol : Z;
  iad_IADStrIndex : Z;
}.

Definition DeviceQualifier_bytes (d : USB_Descriptor_DeviceQualifier_t) : list Z :=
  Header_bytes (dq_Header d) ++ le16 (dq_USBSpecification d) ++
  [dq_Class d; dq_SubClass d; dq_Protocol d; dq_Endpoint0Size d; dq_NumberOfConfigurations d;
   dq_Reserved d].

Definition Interface_Association_bytes (i : USB_Descriptor_Interface_Association_t) : list Z :=
  Header_bytes (iad_Header i) ++
  [iad_FirstInterfaceIndex i; iad_TotalInterfaces i; iad_Class i; iad_SubClass i; iad_Protocol i;
   iad_IADStrIndex i].

(** ** The structs with the names of the specification *)

Record USB_StdDescriptor_Header_t := {
  bLength : Z;
  bDescriptorType : Z;
}.

Record USB_StdDescriptor_Device_t := {
  sdev_bLength : Z;
  sdev_bDescriptorType : Z;
  bcdUSB : Z;                    (** [uint16_t] *)
  bDeviceClass : Z;
  bDeviceSubClass : Z;
  bDeviceProtocol : Z;
  bMaxPacketSize0 : Z;
  idVendor : Z;                  (** [uint16_t] *)
  idProduct : Z;                 (** [uint16_t] *)
  bcdDevice : Z;                 (** [uint16_t] *)
  iManufacturer : Z;
  iProduct : Z;
  iSerialNumber : Z;
  bNumConfigurations : Z;
}.

Record USB_StdDescriptor_DeviceQualifier_t := {
  sdq_bLength : Z;
  sdq_bDescriptorType : Z;
  sdq_bcdUSB : Z;                (** [uint16_t] *)
  sdq_bDeviceClass : Z;
  sdq_bDeviceSubClass : Z;
  sdq_bDeviceProtocol : Z;
  sdq_bMaxPacketSize0 : Z;
  sdq_bNumConfigurations : Z;
  bReserved : Z;
}.

Record USB_StdDescriptor_Configuration_Header_t := {
  scfg_bLength : Z;
  scfg_bDescriptorType : Z;
  wTotalLength : Z;              (** [uint16_t] *)
  bNumInterfaces : Z;
  bConfigurationValue : Z;
  iConfiguration : Z;
  scfg_bmAttributes : Z;
  bMaxPower : Z;
}.

Record USB_StdDescriptor_Interface_t := {
  sif_bLength : Z;
  sif_bDescriptorType : Z;
  bInterfaceNumber : Z;
  bAlternateSetting : Z;
  bNumEndpoints : Z;
  bInterfaceClass : Z;
  bInterfaceSubClass : Z;
  bInterfaceProtocol : Z;
  iInterface : Z;
}.

Record USB_StdDescriptor_Interface_Association_t := {
  siad_bLength : Z;
  siad_bDescriptorType : Z;
  bFirstInterface : Z;
  bInterfaceCount : Z;
  bFunctionClass : Z;
  bFunctionSubClass : Z;
  bFunctionProtocol : Z;
  iFunction : Z;
}.

Record USB_StdDescriptor_Endpoint_t := {
  sep_bLength : Z;
  sep_bDescriptorType : Z;
  bEndpointAddress : Z;
  bmAttributes : Z;
  wMaxPacketSize : Z;            (** [uint16_t] *)
  bInterval : Z;
}.

Record USB_StdDescriptor_String_t := {
  sstr_bLength : Z;
  sstr_bDescriptorType : Z;
  bString : list Z;              (** [uint16_t []] *)
}.

Record USB_HID_StdDescriptor_HID_t := {
  shid_bLength : Z;
  shid_bDescriptorType : Z;
  bcdHID : Z;                    (** [uint16_t] *)
  bCountryCode : Z;
  bNumDescriptors : Z;
  bDescriptorType2 : Z;
  wDescriptorLength : Z;         (** [uint16_t] *)
}.

Definition StdHeader_bytes (h : USB_StdDescriptor_Header_t) : list Z := [bLength h; bDescriptorType h].
Definition StdDevice_bytes (d : USB_StdDescriptor_Device_t) : list Z :=
  [sdev_bLength d; sdev_bDescriptorType d] ++ le16 (bcdUSB d) ++
  [bDeviceClass d; bDeviceSubClass d; bDeviceProtocol d; bMaxPacketSize0 d] ++
  le16 (idVendor d) ++ le16 (idProduct d) ++ le16 (bcdDevice d) ++
  [iManufacturer d; iProduct d; iSerialNumber d; bNumConfigurations d].
Definition StdDeviceQualifier_bytes (d : USB_StdDescriptor_DeviceQualifier_t) : list Z :=
  [sdq_bLength d; sdq_bDescriptorType d] ++ le16 (sdq_bcdUSB d) ++
  [sdq_bDeviceClass d; sdq_bDeviceSubClass d; sdq_bDeviceProtocol d; sdq_bMaxPacketSize0 d;
   sdq_bNumConfigurations d; bReserved d].
Definition StdConfiguration_Header_bytes (c : USB_StdDescriptor_Configuration_Header_t) : list Z :=
  [scfg_bLength c; scfg_bDescriptorType c] ++ le16 (wTotalLength c) ++
  [bNumInterfaces c; bConfigurationValue c; iConfiguration c; scfg_bmAttributes c; bMaxPower c].
Definition StdInterface_bytes (i : USB_StdDescriptor_Interface_t) : list Z :=
  [sif_bLength i; sif_bDescriptorType i; bInterfaceNumber i; bAlternateSetting i; bNumEndpoints i;
   bInterfaceClass i; bInterfaceSubClass i; bInterfaceProtocol i; iInterface i].
Definition StdInterface_Association_bytes (i : USB_StdDescriptor_Interface_Association_t) : list Z :=
  [siad_bLength i; siad_bDescriptorType i; bFirstInterface i; bInterfaceCount i; bFunctionClass i;
   bFunctionSubClass i; bFunctionProtocol i; iFunction i].
Definition StdEndpoint_bytes (e : USB_StdDescriptor_Endpoint_t) : list Z :=
  [sep_bLength e; sep_bDescriptorType e; bEndpointAddress e; bmAttributes e] ++
  le16 (wMaxPacketSize e) ++ [bInterval e].
Definition StdString_bytes (s : USB_StdDescriptor_String_t) : list Z :=
  [sstr_bLength s; sstr_bDescriptorType s] ++ concat (map le16 (bString s)).
Definition StdHID_bytes (h : USB_HID_StdDescriptor_HID_t) : list Z :=
  [shid_bLength h; shid_bDescriptorType h] ++ le16 (bcdHID h) ++
  [bCountryCode h; bNumDescriptors h; bDescriptorType2 h] ++ le16 (wDescriptorLength h).

(** ** The same object under both types

    A host that reads an object through the other type finds the members that
    were stored: the members of the two types lie at the same offsets, in the
    same order. *)

Definition std_Device (d : USB_Descriptor_Device_t) : USB_StdDescriptor_Device_t :=
  Build_USB_StdDescriptor_Device_t (Size (dev_Header d)) (Type_ (dev_Header d))
    (dev_USBSpecification d) (dev_Class d) (dev_SubClass d) (dev_Protocol d) (dev_Endpoint0Size d)
    (dev_VendorID d) (dev_ProductID d) (dev_ReleaseNumber d) (dev_ManufacturerStrIndex d)
    (dev_ProductStrIndex d) (dev_SerialNumStrIndex d) (dev_NumberOfConfigurations d).
Definition std_DeviceQualifier (d : USB_Descriptor_DeviceQualifier_t) :
    USB_StdDescriptor_DeviceQualifier_t :=
  Build_USB_StdDescriptor_DeviceQualifier_t (Size (dq_Header d)) (Type_ (dq_Header d))
    (dq_USBSpecification d) (dq_Class d) (dq_SubClass d) (dq_Protocol d) (dq_Endpoint0Size d)
    (dq_NumberOfConfigurations d) (dq_Reserved d).
Definition std_Configuration_Header (c : USB_Descriptor_Configuration_Header_t) :
    USB_StdDescriptor_Configuration_Header_t :=
  Build_USB_StdDescriptor_Configuration_Header_t (Size (cfg_Header c)) (Type_ (cfg_Header c))
    (cfg_TotalConfigurationSize c) (cfg_TotalInterfaces c) (cfg_ConfigurationNumber c)
    (cfg_ConfigurationStrIndex c) (cfg_ConfigAttributes c) (cfg_MaxPowerConsumption c).
Definition std_Interface (i : USB_Descriptor_Interface_t) : USB_StdDescriptor_Interface_t :=
  Build_USB_StdDescriptor_Interface_t (Size (if_Header i)) (Type_ (if_Header i))
    (if_InterfaceNumber i) (if_AlternateSetting i) (if_TotalEndpoints i) (if_Class i)
    (if_SubClass i) (if_Protocol i) (if_InterfaceStrIndex i).
Definition std_Interface_Association (i : USB_Descriptor_Interface_Association_t) :
    USB_StdDescriptor_Interface_Association_t :=
  Build_USB_StdDescriptor_Interface_Association_t (Size (iad_Header i)) (Type_ (iad_Header i))
    (iad_FirstInterfaceIndex i) (iad_TotalInterfaces i) (iad_Class i) (iad_SubClass i)
    (iad_Protocol i) (iad_IADStrIndex i).
Definition std_Endpoint (e : USB_Descriptor_Endpoint_t) : USB_StdDescriptor_Endpoint_t :=
  Build_USB_StdDescriptor_Endpoint_t (Size (epd_Header e)) (Type_ (epd_Header e))
    (epd_EndpointAddress e) (epd_Attributes e) (epd_EndpointSize e) (epd_PollingIntervalMS e).
Definition std_HID (h : USB_HID_Descriptor_HID_t) : USB_HID_StdDescriptor_HID_t :=
  Build_USB_HID_StdDescriptor_HID_t (Size (hid_Header h)) (Type_ (hid_Header h)) (hid_HIDSpec h)
    (hid_CountryCode h) (hid_TotalReportDescriptors h) (hid_HIDReportType h) (hid_HIDReportLength h).

Lemma std_same_bytes d q c i a e h :
  StdDevice_bytes (std_Device d) = Device_bytes d ∧
  StdDeviceQualifier_bytes (std_DeviceQualifier q) = DeviceQualifier_bytes q ∧
  StdConfiguration_Header_bytes (std_Configuration_Header c) = Configuration_Header_bytes c ∧
  StdInterface_bytes (std_Interface i) = Interface_bytes i ∧
  StdInterface_Association_bytes (std_Interface_Association a) = Interface_Association_bytes a ∧
  StdEndpoint_bytes (std_Endpoint e) = Endpoint_bytes e ∧
  StdHID_bytes (std_HID h) = HID_bytes h.
Proof. by split_and!. Qed.
