(* ===== verification/EmulatedSPI.v ===== *)
(** * The emulated SPI flash: [src/Firmware/EmulatedSPI.c]

    [spi_read] answers the reads that the console sends to the flash memory of
    a real controller.  It is compared with [flash_read], a table of regions. *)

From S2P Require Import Prelude Datatypes.

Definition controller_color : list Z := [0x0A; 0xB9; 0xE6].
Definition button_color : list Z := [0xDD; 0xDD; 0xDD].
Definition left_grip_color : list Z := [0xAA; 0xAA; 0xAA].
Definition right_grip_color : list Z := [0xAA; 0xAA; 0xAA].

Definition min_size (s1 s2 : Z) : Z := if s1 >? s2 then s2 else s1.

Definition factory_parameters_1 : list Z :=
  [0x50; 0xfd; 0x00; 0x00; 0xc6; 0x0f; 0x0f; 0x30; 0x61; 0x96; 0x30; 0xf3;
   0xd4; 0x14; 0x54; 0x41; 0x15; 0x54; 0xc7; 0x79; 0x9c; 0x33; 0x36; 0x63].
Definition factory_parameters_2 : list Z :=
  [0x0f; 0x30; 0x61; 0x96; 0x30; 0xf3; 0xd4; 0x14; 0x54;
   0x41; 0x15; 0x54; 0xc7; 0x79; 0x9c; 0x33; 0x36; 0x63].
Definition factory_calibration_1 : list Z :=
  [0xE6; 0xFF; 0x3A; 0x00; 0x39; 0x00; 0x00; 0x40; 0x00; 0x40; 0x00; 0x40;
   0xF7; 0xFF; 0xFC; 0xFF; 0x00; 0x00; 0xE7; 0x3B; 0xE7; 0x3B; 0xE7; 0x3B].
Definition factory_calibration_2 : list Z :=
  [0xba; 0x15; 0x62; 0x11; 0xb8; 0x7f; 0x29; 0x06; 0x5b; 0xff; 0xe7; 0x7e;
   0x0e; 0x36; 0x56; 0x9e; 0x85; 0x60; 0xff; 0x32; 0x32; 0x32; 0xff; 0xff;
   0xff].
Definition imu_calibration : list Z :=
  [0xbe; 0xff; 0x3e; 0x00; 0xf0; 0x01; 0x00; 0x40; 0x00; 0x40; 0x00; 0x40;
   0xfe; 0xff; 0xfe; 0xff; 0x08; 0x00; 0xe7; 0x3b; 0xe7; 0x3b; 0xe7; 0x3b].

(** [if (c) stmt] on a buffer. *)
Definition buf_when (c : bool) (f : list Z → option (list Z)) (buf : list Z) :
  option (list Z) := if c then f buf else Some buf.

(** [memcpy(&buf[0], &table[0], min_size(size, sizeof(table)))]. *)
Definition copy_table (size : Z) (table buf : list Z) : option (list Z) :=
  memcpy 0 table (Z.to_nat (min_size size (Z.of_nat (length table)))) buf.

(** The contents that [spi_read] leaves in a buffer of [size] bytes; [None] is
    an access out of bounds.  The tables are local arrays of the branches. *)
Definition spi_read (address size : Z) : option (list Z) :=
  let buf := memset 0xFF (Z.to_nat size) in
  match of_code address with
  | None | Some ADDRESS_SERIAL_NUMBER => Some buf
  | Some ADDRESS_CONTROLLER_COLOR =>
      buf ← buf_when (size >=? 3) (memcpy 0 controller_color 3) buf;
      buf ← buf_when (size >=? 6) (memcpy 3 button_color 3) buf;
      buf ← buf_when (size >=? 9) (memcpy 6 left_grip_color 3) buf;
      buf_when (size >=? 12) (memcpy 9 right_grip_color 3) buf
  | Some ADDRESS_FACTORY_PARAMETERS_1 => copy_table size factory_parameters_1 buf
  | Some ADDRESS_FACTORY_PARAMETERS_2 => copy_table size factory_parameters_2 buf
  | Some ADDRESS_FACTORY_CALIBRATION_1 => copy_table size factory_calibration_1 buf
  | Some ADDRESS_FACTORY_CALIBRATION_2 => copy_table size factory_calibration_2 buf
  | Some ADDRESS_STICKS_CALIBRATION =>
      buf ← buf_when (size >? 22) (store_at 22 0xB2) buf;
      buf_when (size >? 23) (store_at 23 0xA1) buf
  | Some ADDRESS_IMU_CALIBRATION => copy_table size imu_calibration buf
  end.

(** ** The specification: a table of regions

    A region is what the flash holds from its address on, with the number of
    bytes that are always delivered together (the colours come in threes). *)

Definition flash_region (address : Z) : nat * list Z :=
  match of_code address with
  | None | Some ADDRESS_SERIAL_NUMBER => (1%nat, [])
  | Some ADDRESS_CONTROLLER_COLOR =>
      (3%nat, controller_color ++ button_color ++ left_grip_color ++ right_grip_color)
  | Some ADDRESS_FACTORY_PARAMETERS_1 => (1%nat, factory_parameters_1)
  | Some ADDRESS_FACTORY_PARAMETERS_2 => (1%nat, factory_parameters_2)
  | Some ADDRESS_FACTORY_CALIBRATION_1 => (1%nat, factory_calibration_1)
  | Some ADDRESS_FACTORY_CALIBRATION_2 => (1%nat, factory_calibration_2)
  | Some ADDRESS_STICKS_CALIBRATION => (1%nat, memset 0xFF 22 ++ [0xB2; 0xA1])
  | Some ADDRESS_IMU_CALIBRATION => (1%nat, imu_calibration)
  end.

(** [n] bytes of a region, complete groups only, and erased flash after it. *)
Definition region_read (r : nat * list Z) (n : nat) : list Z :=
  take n (take (r.1 * (n / r.1)) r.2 ++ memset 0xFF n).

Definition flash_read (address : Z) (n : nat) : list Z :=
  region_read (flash_region address) n.

Lemma region_read_length r n : length (region_read r n) = n.
Proof.
  unfold region_read. rewrite length_take, length_app, memset_length. lia.
Qed.

Lemma region_read_bytes r n : bytes r.2 → bytes (region_read r n).
Proof.
  intros. apply Forall_take, Forall_app. split; [by apply Forall_take|].
  by apply memset_bytes.
Qed.

Lemma flash_region_bytes address : bytes (flash_region address).2.
Proof.
  unfold flash_region.
  by destruct (of_code address) as [[]|]; apply (bool_decide_unpack _); vm_compute.
Qed.

Lemma flash_read_length address n : length (flash_read address n) = n.
Proof. apply region_read_length. Qed.

Lemma flash_read_bytes address n : bytes (flash_read address n).
Proof. apply region_read_bytes, flash_region_bytes. Qed.

#[export] Hint Resolve flash_read_bytes : fw.
#[export] Hint Rewrite flash_read_length : fw.

(** Copying the part of a table that fits is reading its region. *)
Lemma copy_table_region table n :
  copy_table (Z.of_nat n) table (memset 0xFF n) = Some (region_read (1%nat, table) n).
Proof.
  unfold copy_table, min_size.
  set (k := Z.to_nat _). assert (k = Nat.min n (length table)) as -> by (subst k; case_match; lia).
  rewrite memcpy_Some by (rewrite ?memset_length; lia). unfold region_read; cbn [fst snd].
  rewrite Nat.div_1_r, Nat.mul_1_l, take_app, take_take, Nat.min_id, length_take.
  f_equal. rewrite take_0, app_nil_l. cbn [Nat.add]. f_equal.
  - destruct (decide (n ≤ length table)%nat); [f_equal; lia|].
    rewrite !take_ge by lia. done.
  - unfold memset. rewrite drop_replicate, take_replicate. f_equal. lia.
Qed.

(** A buffer that is long enough splits into the bytes a copy replaces. *)
Lemma memset_split v k n : (k ≤ n)%nat → memset v n = memset v k ++ memset v (n - k).
Proof. intros. unfold memset. rewrite <- replicate_add. f_equal. lia. Qed.

Lemma region_read_nil n : Some (memset 0xFF n) = Some (region_read (1%nat, []) n).
Proof.
  unfold region_read. cbn [snd]. rewrite take_nil, app_nil_l, take_ge; [done|].
  by rewrite memset_length.
Qed.

(** The stick calibration writes the two bytes after 22 erased ones. *)
Lemma sticks_region n :
  (buf ← buf_when (Z.of_nat n >? 22) (store_at 22 0xB2) (memset 0xFF n);
   buf_when (Z.of_nat n >? 23) (store_at 23 0xA1) buf) =
  Some (region_read (1%nat, memset 0xFF 22 ++ [0xB2; 0xA1]) n).
Proof.
  destruct (decide (n < 24)%nat) as [Hn|Hn].
  { do 24 (destruct n as [|n]; [vm_compute; done|]). lia. }
  replace n with (24 + (n - 24))%nat by lia. set (m := (n - 24)%nat).
  unfold buf_when. rewrite !(proj2 (Z.gtb_lt _ _)) by lia.
  unfold region_read. cbn [fst snd]. rewrite Nat.div_1_r, Nat.mul_1_l.
  rewrite (take_ge (memset 0xFF 22 ++ _)) by (cbn; lia).
  set (erased := memset 0xFF (24 + m)) at 2.
  unfold memset. cbn [Nat.add replicate]. unfold mbind, option_bind, store_at.
  repeat (rewrite memcpy_at_Some by (cbn; lia); cbn [app take drop Nat.add length]).
  do 25 f_equal. subst erased. unfold memset. rewrite drop_0, take_replicate. f_equal. lia.
Qed.

(** The colour region of a read that covers it: four groups of three bytes. *)
Lemma spi_read_colour_long m :
  spi_read 0x6050 (Z.of_nat (12 + m)) = Some (flash_read 0x6050 (12 + m)).
Proof.
  unfold spi_read, flash_read, flash_region.
  change (of_code 0x6050) with (Some ADDRESS_CONTROLLER_COLOR). cbv beta iota zeta.
  rewrite Nat2Z.id. unfold buf_when.
  rewrite !(proj2 (Z.geb_le _ _)) by lia.
  unfold region_read. cbn [fst snd].
  pose proof (Nat.div_le_lower_bound (12 + m) 3 4 ltac:(lia) ltac:(lia)) as Hdiv.
  rewrite (take_ge (controller_color ++ _)) by (cbn [length app controller_color button_color left_grip_color right_grip_color]; lia).
  clear Hdiv.
  set (erased := memset 0xFF (12 + m)) at 2.
  unfold memset at 1. cbn [Nat.add replicate]. unfold mbind, option_bind.
  repeat (rewrite memcpy_Some by (cbn; lia); cbn [app take drop Nat.add controller_color
    button_color left_grip_color right_grip_color]).
  do 13 f_equal. subst erased. unfold memset. rewrite ?drop_0, take_replicate. f_equal. lia.
Qed.

Lemma spi_read_colour n : spi_read 0x6050 (Z.of_nat n) = Some (flash_read 0x6050 n).
Proof.
  destruct (decide (n < 12)%nat) as [Hn|Hn].
  - do 12 (destruct n as [|n]; [vm_compute; done|]). lia.
  - replace n with (12 + (n - 12))%nat by lia. apply spi_read_colour_long.
Qed.

Lemma spi_read_eq address n :
  spi_read address (Z.of_nat n) = Some (flash_read address n).
Proof.
  destruct (of_code address) as [a|] eqn:Haddr.
  - apply of_code_Some in Haddr as ->. destruct a; try apply spi_read_colour;
      unfold spi_read, flash_read, flash_region;
      rewrite of_code_code, Nat2Z.id;
      [ apply region_read_nil | apply copy_table_region.. | apply sticks_region
      | apply copy_table_region ].
  - unfold spi_read, flash_read, flash_region. rewrite Haddr, Nat2Z.id.
    apply region_read_nil.
Qed.

(** C25: for every address and every size, [spi_read] stays inside the buffer
    and the tables, and leaves a buffer of [n] bytes with exactly what the
    table of regions prescribes: the complete groups of the region that fit,
    and 0xFF in the rest. *)
Theorem spi_read_flash address n :
  ∃ buf, spi_read address (Z.of_nat n) = Some buf ∧
         buf = flash_read address n ∧ length buf = n ∧ bytes buf.
Proof.
  exists (flash_read address n). rewrite spi_read_eq, flash_read_length.
  eauto with fw.
Qed.

(** the emulated flash is not one memory: the factory calibration read
    from 0x603D covers the address of the controller colour, and its byte
    there differs from the byte that a read of the colour itself delivers. *)
Lemma spi_read_overlap :
  ∃ cal col, spi_read 0x603D 25 = Some cal ∧ spi_read 0x6050 12 = Some col ∧
             cal !! Z.to_nat (0x6050 - 0x603D) = Some 0x32 ∧ col !! 0%nat = Some 0x0A.
Proof. eexists _, _. by repeat split. Qed.
