(* ===== verification/Descriptors.v ===== *)
(** * Descriptors: [src/Firmware/Descriptors.c] and [Descriptors.h]

    The endpoint addresses, the HID report descriptor, the descriptors that
    the device presents and the callback that the USB library uses to find
    them. *)

From S2P Require Import Prelude StdDescriptors.

Definition JOYSTICK_IN_EPADDR : Z := Z.lor ENDPOINT_DIR_IN 1.
Definition JOYSTICK_OUT_EPADDR : Z := Z.lor ENDPOINT_DIR_OUT 2.
Definition JOYSTICK_EPSIZE : Z := 64.
Definition DTYPE_HID : Z := 0x21.
Definition DTYPE_Report : Z := 0x22.

Definition INTERFACE_ID_Joystick : Z := 0.

Definition STRING_ID_Language : Z := 0.
Definition STRING_ID_Manufacturer : Z := 1.
Definition STRING_ID_Product : Z := 2.
Definition STRING_ID_Serial : Z := 3.

(** Options of [src/Firmware/Config/LUFAConfig.h]. *)
Definition FIXED_CONTROL_ENDPOINT_SIZE : Z := 32.
Definition FIXED_NUM_CONFIGURATIONS : Z := 1.

(** ** The report descriptor *)

Definition JoystickReport : list Z :=
  HID_RI_USAGE_PAGE Bits8 1 ++
  HID_RI_LOGICAL_MINIMUM Bits8 0 ++
  HID_RI_USAGE Bits8 4 ++
  HID_RI_COLLECTION Bits8 1 ++
  HID_RI_REPORT_ID Bits8 48 ++
  HID_RI_USAGE_PAGE Bits8 1 ++
  HID_RI_USAGE_PAGE Bits8 9 ++
  HID_RI_USAGE_MINIMUM Bits8 1 ++
  HID_RI_USAGE_MAXIMUM Bits8 0x0A ++
  HID_RI_LOGICAL_MINIMUM Bits8 0 ++
  HID_RI_LOGICAL_MAXIMUM Bits8 1 ++
  HID_RI_REPORT_SIZE Bits8 1 ++
  HID_RI_REPORT_COUNT Bits8 10 ++
  HID_RI_UNIT_EXPONENT Bits8 0 ++
  HID_RI_UNIT Bits8 0 ++
  HID_RI_INPUT Bits8 2 ++
  HID_RI_USAGE_PAGE Bits8 9 ++
  HID_RI_USAGE_MINIMUM Bits8 0x0B ++
  HID_RI_USAGE_MAXIMUM Bits8 0x0E ++
  HID_RI_LOGICAL_MINIMUM Bits8 0 ++
  HID_RI_LOGICAL_MAXIMUM Bits8 1 ++
  HID_RI_REPORT_SIZE Bits8 1 ++
  HID_RI_REPORT_COUNT Bits8 4 ++
  HID_RI_INPUT Bits8 2 ++
  HID_RI_REPORT_SIZE Bits8 1 ++
  HID_RI_REPORT_COUNT Bits8 2 ++
  HID_RI_INPUT Bits8 3 ++
  HID_RI_USAGE Bits32 0x010001 ++
  HID_RI_COLLECTION Bits8 0 ++
  HID_RI_USAGE Bits32 0x010030 ++
  HID_RI_USAGE Bits32 0x010031 ++
  HID_RI_USAGE Bits32 0x010032 ++
  HID_RI_USAGE Bits32 0x010035 ++
  HID_RI_LOGICAL_MINIMUM Bits8 0 ++
  HID_RI_LOGICAL_MAXIMUM Bits32 65535 ++
  HID_RI_REPORT_SIZE Bits8 16 ++
  HID_RI_REPORT_COUNT Bits8 4 ++
  HID_RI_INPUT Bits8 2 ++
  HID_RI_END_COLLECTION Bits0 0 ++
  HID_RI_USAGE Bits32 0x010039 ++
  HID_RI_LOGICAL_MINIMUM Bits8 0 ++
  HID_RI_LOGICAL_MAXIMUM Bits8 7 ++
  HID_RI_PHYSICAL_MINIMUM Bits8 0 ++
  HID_RI_PHYSICAL_MAXIMUM Bits16 315 ++
  HID_RI_UNIT Bits8 0x14 ++
  HID_RI_REPORT_SIZE Bits8 4 ++
  HID_RI_REPORT_COUNT Bits8 1 ++
  HID_RI_INPUT Bits8 2 ++
  HID_RI_USAGE_PAGE Bits8 9 ++
  HID_RI_USAGE_MINIMUM Bits8 0x0F ++
  HID_RI_USAGE_MAXIMUM Bits8 0x12 ++
  HID_RI_LOGICAL_MINIMUM Bits8 0 ++
  HID_RI_LOGICAL_MAXIMUM Bits8 1 ++
  HID_RI_REPORT_SIZE Bits8 1 ++
  HID_RI_REPORT_COUNT Bits8 4 ++
  HID_RI_INPUT Bits8 2 ++
  HID_RI_REPORT_SIZE Bits8 8 ++
  HID_RI_REPORT_COUNT Bits8 52 ++
  HID_RI_INPUT Bits8 3 ++
  HID_RI_USAGE_PAGE Bits16 0xFF00 ++
  HID_RI_REPORT_ID Bits8 33 ++
  HID_RI_USAGE Bits8 1 ++
  HID_RI_REPORT_SIZE Bits8 8 ++
  HID_RI_REPORT_COUNT Bits8 63 ++
  HID_RI_INPUT Bits8 3 ++
  HID_RI_REPORT_ID Bits8 0x81 ++
  HID_RI_USAGE Bits8 2 ++
  HID_RI_REPORT_SIZE Bits8 8 ++
  HID_RI_REPORT_COUNT Bits8 63 ++
  HID_RI_INPUT Bits8 3 ++
  HID_RI_REPORT_ID Bits8 1 ++
  HID_RI_USAGE Bits8 3 ++
  HID_RI_REPORT_SIZE Bits8 8 ++
  HID_RI_REPORT_COUNT Bits8 63 ++
  HID_RI_OUTPUT Bits8 0x83 ++
  HID_RI_REPORT_ID Bits8 16 ++
  HID_RI_USAGE Bits8 4 ++
  HID_RI_REPORT_SIZE Bits8 8 ++
  HID_RI_REPORT_COUNT Bits8 63 ++
  HID_RI_OUTPUT Bits8 0x83 ++
  HID_RI_REPORT_ID Bits8 0x80 ++
  HID_RI_USAGE Bits8 5 ++
  HID_RI_REPORT_SIZE Bits8 8 ++
  HID_RI_REPORT_COUNT Bits8 63 ++
  HID_RI_OUTPUT Bits8 0x83 ++
  HID_RI_REPORT_ID Bits8 0x82 ++
  HID_RI_USAGE Bits8 6 ++
  HID_RI_REPORT_SIZE Bits8 8 ++
  HID_RI_REPORT_COUNT Bits8 63 ++
  HID_RI_OUTPUT Bits8 0x83 ++
  HID_RI_END_COLLECTION Bits0 0.

(** ** The device descriptor *)

Definition header (size : Z) (type : Z) : USB_Descriptor_Header_t :=
  {| Size := size; Type_ := type |}.

Definition DeviceDescriptor : USB_Descriptor_Device_t :=
  {| dev_Header := header sizeof_Device (DTYPE_code DTYPE_Device);
     dev_USBSpecification := VERSION_BCD 2 0 0;
     dev_Class := USB_CSCP_NoDeviceClass;
     dev_SubClass := USB_CSCP_NoDeviceSubclass;
     dev_Protocol := USB_CSCP_NoDeviceProtocol;
     dev_Endpoint0Size := FIXED_CONTROL_ENDPOINT_SIZE;
     dev_VendorID := 0x057E;
     dev_ProductID := 0x2009;
     dev_ReleaseNumber := VERSION_BCD 2 1 0;
     dev_ManufacturerStrIndex := STRING_ID_Manufacturer;
     dev_ProductStrIndex := STRING_ID_Product;
     dev_SerialNumStrIndex := STRING_ID_Serial;
     dev_NumberOfConfigurations := FIXED_NUM_CONFIGURATIONS |}.

(** ** The configuration descriptor *)

(** The members in the order of the struct, which puts the OUT endpoint first. *)
Record USB_Descriptor_Configuration_t := {
  Config : USB_Descriptor_Configuration_Header_t;
  HID_Interface : USB_Descriptor_Interface_t;
  HID_JoystickHID : USB_HID_Descriptor_HID_t;
  HID_ReportOUTEndpoint : USB_Descriptor_Endpoint_t;
  HID_ReportINEndpoint : USB_Descriptor_Endpoint_t;
}.

Definition Configuration_bytes (c : USB_Descriptor_Configuration_t) : list Z :=
  Configuration_Header_bytes (Config c) ++ Interface_bytes (HID_Interface c) ++
  HID_bytes (HID_JoystickHID c) ++ Endpoint_bytes (HID_ReportOUTEndpoint c) ++
  Endpoint_bytes (HID_ReportINEndpoint c).

Definition sizeof_Configuration : Z :=
  sizeof_Configuration_Header + sizeof_Interface + sizeof_HID +
  sizeof_Endpoint + sizeof_Endpoint.

Definition ConfigurationDescriptor : USB_Descriptor_Configuration_t :=
  let endpoint_attributes :=
    Z.lor (Z.lor EP_TYPE_INTERRUPT ENDPOINT_ATTR_NO_SYNC) ENDPOINT_USAGE_DATA in
  {| Config :=
       {| cfg_Header := header sizeof_Configuration_Header (DTYPE_code DTYPE_Configuration);
          cfg_TotalConfigurationSize := sizeof_Configuration;
          cfg_TotalInterfaces := 1;
          cfg_ConfigurationNumber := 1;
          cfg_ConfigurationStrIndex := NO_DESCRIPTOR;
          cfg_ConfigAttributes := Z.lor USB_CONFIG_ATTR_RESERVED USB_CONFIG_ATTR_REMOTEWAKEUP;
          cfg_MaxPowerConsumption := USB_CONFIG_POWER_MA 500 |};
     HID_Interface :=
       {| if_Header := header sizeof_Interface (DTYPE_code DTYPE_Interface);
          if_InterfaceNumber := INTERFACE_ID_Joystick;
          if_AlternateSetting := 0x00;
          if_TotalEndpoints := 2;
          if_Class := HID_CSCP_HIDClass;
          if_SubClass := HID_CSCP_NonBootSubclass;
          if_Protocol := HID_CSCP_NonBootProtocol;
          if_InterfaceStrIndex := NO_DESCRIPTOR |};
     HID_JoystickHID :=
       {| hid_Header := header sizeof_HID HID_DTYPE_HID;
          hid_HIDSpec := VERSION_BCD 1 1 1;
          hid_CountryCode := 0x00;
          hid_TotalReportDescriptors := 1;
          hid_HIDReportType := HID_DTYPE_Report;
          hid_HIDReportLength := Z.of_nat (length JoystickReport) |};
     HID_ReportINEndpoint :=
       {| epd_Header := header sizeof_Endpoint (DTYPE_code DTYPE_Endpoint);
          epd_EndpointAddress := JOYSTICK_IN_EPADDR;
          epd_Attributes := endpoint_attributes;
          epd_EndpointSize := JOYSTICK_EPSIZE;
          epd_PollingIntervalMS := 0x08 |};
     HID_ReportOUTEndpoint :=
       {| epd_Header := header sizeof_Endpoint (DTYPE_code DTYPE_Endpoint);
          epd_EndpointAddress := JOYSTICK_OUT_EPADDR;
          epd_Attributes := endpoint_attributes;
          epd_EndpointSize := JOYSTICK_EPSIZE;
          epd_PollingIntervalMS := 0x08 |} |}.

(** ** The strings *)

(** L"Nintendo Co., Ltd.", L"Pro Controller" and L"000000000001". *)
Definition LanguageString : USB_Descriptor_String_t :=
  USB_STRING_DESCRIPTOR_ARRAY [LANGUAGE_ID_ENG].
Definition ManufacturerString : USB_Descriptor_String_t :=
  USB_STRING_DESCRIPTOR
    [78; 105; 110; 116; 101; 110; 100; 111; 32; 67; 111; 46; 44; 32; 76; 116; 100; 46].
Definition ProductString : USB_Descriptor_String_t :=
  USB_STRING_DESCRIPTOR [80; 114; 111; 32; 67; 111; 110; 116; 114; 111; 108; 108; 101; 114].
Definition SerialNumberString : USB_Descriptor_String_t :=
  USB_STRING_DESCRIPTOR [48; 48; 48; 48; 48; 48; 48; 48; 48; 48; 48; 49].

(** ** The callback

    [*DescriptorAddress] is the memory from the address on (the bytes of the
    object that it points into), [None] for a null pointer; the result is the
    size. *)
Definition CALLBACK_USB_GetDescriptor (wValue wIndex : Z) : option (list Z) * Z :=
  let DescriptorType := u8 (Z.shiftr wValue 8) in
  let DescriptorNumber := Z.land wValue 0xFF in
  if DescriptorType =? DTYPE_code DTYPE_Device then
    (Some (Device_bytes DeviceDescriptor), sizeof_Device)
  else if DescriptorType =? DTYPE_code DTYPE_Configuration then
    (Some (Configuration_bytes ConfigurationDescriptor), sizeof_Configuration)
  else if DescriptorType =? DTYPE_code DTYPE_String then
    if DescriptorNumber =? STRING_ID_Language then
      (Some (String_bytes LanguageString), Size (str_Header LanguageString))
    else if DescriptorNumber =? STRING_ID_Manufacturer then
      (Some (String_bytes ManufacturerString), Size (str_Header ManufacturerString))
    else if DescriptorNumber =? STRING_ID_Product then
      (Some (String_bytes ProductString), Size (str_Header ProductString))
    else if DescriptorNumber =? STRING_ID_Serial then
      (Some (String_bytes SerialNumberString), Size (str_Header SerialNumberString))
    else (None, NO_DESCRIPTOR)
  else if DescriptorType =? DTYPE_HID then
    (Some (drop (Z.to_nat (sizeof_Configuration_Header + sizeof_Interface))
             (Configuration_bytes ConfigurationDescriptor)), sizeof_HID)
  else if DescriptorType =? DTYPE_Report then
    (Some JoystickReport, Z.of_nat (length JoystickReport))
  else (None, NO_DESCRIPTOR).
