(* ===== verification/ConfigDescriptors.v ===== *)
(** * Walking a configuration descriptor

    [LUFA/Drivers/USB/Core/ConfigDescriptors.c] and [.h].  The memory is a
    list of bytes; the state of a walk is [*BytesRem] and [*CurrConfigLoc], an
    index into the memory.  The loops stop when no bytes remain; a descriptor
    whose size byte is zero makes no progress, so they take fuel. *)

From S2P Require Import Prelude StdDescriptors.

Record walk := {
  BytesRem : Z;                  (** [uint16_t] *)
  CurrConfigLoc : nat;
}.

Inductive DSearch_Return_ErrorCodes_t :=
| DESCRIPTOR_SEARCH_Found | DESCRIPTOR_SEARCH_Fail | DESCRIPTOR_SEARCH_NotFound.

Inductive DSearch_Comp_Return_ErrorCodes_t :=
| DESCRIPTOR_SEARCH_COMP_Found | DESCRIPTOR_SEARCH_COMP_Fail
| DESCRIPTOR_SEARCH_COMP_EndOfDescriptor.

Section walking.
Context (mem : list Z).

(** [DESCRIPTOR_SIZE] and [DESCRIPTOR_TYPE] at the current position. *)
Definition DESCRIPTOR_SIZE (s : walk) : option Z := mem !! CurrConfigLoc s.
Definition DESCRIPTOR_TYPE (s : walk) : option Z := mem !! S (CurrConfigLoc s).

Definition USB_GetNextDescriptor : M walk unit :=
  s ← get_st;
  size ← checked (DESCRIPTOR_SIZE s);
  let size := if BytesRem s <? size then BytesRem s else size in
  put_st {| BytesRem := BytesRem s - size;
            CurrConfigLoc := CurrConfigLoc s + Z.to_nat size |}.

Fixpoint USB_GetNextDescriptorOfType (fuel : nat) (Type_ : Z) : M walk unit :=
  match fuel with
  | O => fail OutOfFuel
  | S fuel =>
      s ← get_st;
      if BytesRem s =? 0 then mret tt else
      USB_GetNextDescriptor;;
      s ← get_st;
      t ← checked (DESCRIPTOR_TYPE s);
      if t =? Type_ then mret tt else USB_GetNextDescriptorOfType fuel Type_
  end.

Fixpoint USB_GetNextDescriptorOfTypeBefore (fuel : nat) (Type_ BeforeType : Z) : M walk unit :=
  match fuel with
  | O => fail OutOfFuel
  | S fuel =>
      s ← get_st;
      if BytesRem s =? 0 then mret tt else
      USB_GetNextDescriptor;;
      s ← get_st;
      t ← checked (DESCRIPTOR_TYPE s);
      if t =? Type_ then mret tt
      else if t =? BeforeType then
        put_st {| BytesRem := 0; CurrConfigLoc := CurrConfigLoc s |}
      else USB_GetNextDescriptorOfTypeBefore fuel Type_ BeforeType
  end.

Definition USB_GetNextDescriptorOfTypeAfter (fuel : nat) (Type_ AfterType : Z) : M walk unit :=
  USB_GetNextDescriptorOfType fuel AfterType;;
  s ← get_st;
  if BytesRem s =? 0 then mret tt else USB_GetNextDescriptorOfType fuel Type_.

(** The comparator looks at the memory from the current position on. *)
Fixpoint USB_GetNextDescriptorComp (fuel : nat)
    (ComparatorRoutine : list Z → option DSearch_Return_ErrorCodes_t) :
  M walk DSearch_Comp_Return_ErrorCodes_t :=
  match fuel with
  | O => fail OutOfFuel
  | S fuel =>
      prev ← get_st;
      if BytesRem prev =? 0 then mret DESCRIPTOR_SEARCH_COMP_EndOfDescriptor else
      USB_GetNextDescriptor;;
      s ← get_st;
      code ← checked (ComparatorRoutine (drop (CurrConfigLoc s) mem));
      match code with
      | DESCRIPTOR_SEARCH_NotFound => USB_GetNextDescriptorComp fuel ComparatorRoutine
      | DESCRIPTOR_SEARCH_Fail => put_st prev;; mret DESCRIPTOR_SEARCH_COMP_Fail
      | DESCRIPTOR_SEARCH_Found => mret DESCRIPTOR_SEARCH_COMP_Found
      end
  end.
End walking.

(** ** Lists of descriptors

    A well-formed descriptor starts with its own length and has at least a
    header. *)

Definition desc_wf (d : list Z) : Prop :=
  (2 ≤ length d ≤ 255)%nat ∧ nth 0 d 0 = Z.of_nat (length d).

#[export] Instance desc_wf_dec d : Decision (desc_wf d).
Proof. unfold desc_wf. apply _. Defined.

Definition desc_type (d : list Z) : Z := nth 1 d 0.

(** The walk stands at the descriptor [d]; the descriptors [rest] follow. *)
Definition stands_at (pre : list Z) (d : list Z) (rest : list (list Z)) : walk :=
  {| BytesRem := Z.of_nat (length (d ++ concat rest)); CurrConfigLoc := length pre |}.

(** The walk has passed every descriptor. *)
Definition stands_past (pre : list Z) : walk :=
  {| BytesRem := 0; CurrConfigLoc := length pre |}.

Section blocks.
Context (mem tail : list Z).

Lemma desc_head (pre d rest : list Z) :
  desc_wf d → mem = pre ++ d ++ rest →
  mem !! length pre = Some (Z.of_nat (length d)) ∧
  mem !! S (length pre) = Some (desc_type d).
Proof.
  intros [[Hlen _] Hd] ->. unfold desc_type.
  destruct d as [|a [|b d]]; simpl in Hlen; [lia..|]. simpl in Hd |- *.
  rewrite list_lookup_middle by done.
  rewrite cons_middle, app_assoc, list_lookup_middle by (rewrite length_app; simpl; lia).
  by subst.
Qed.

Lemma next_desc pre d rest :
  desc_wf d → mem = pre ++ d ++ concat rest ++ tail →
  USB_GetNextDescriptor mem (stands_at pre d rest) =
  Ok tt match rest with
        | [] => stands_past (pre ++ d)
        | d' :: rest' => stands_at (pre ++ d) d' rest'
        end.
Proof.
  intros Hwf Hmem. destruct (desc_head pre d (concat rest ++ tail) Hwf Hmem) as [Hsz _].
  unfold USB_GetNextDescriptor, get_st, put_st, mbind, M_bind, DESCRIPTOR_SIZE, stands_at.
  cbn [CurrConfigLoc BytesRem]. rewrite Hsz. cbn [checked mret M_ret].
  rewrite length_app. destruct (Z.ltb_spec (Z.of_nat (length d + length (concat rest)))
    (Z.of_nat (length d))); [lia|].
  destruct rest as [|d' rest]; unfold stands_past; do 2 f_equal;
    simpl; rewrite ?length_app; lia.
Qed.

Hypothesis tail_room : (2 ≤ length tail)%nat.

(** The type byte where the walk stands, also after the last descriptor: the
    loops read it there too. *)
Definition type_at (rest : list (list Z)) : Z :=
  match rest with
  | [] => nth 1 tail 0
  | d :: _ => desc_type d
  end.

Lemma type_after pre rest :
  Forall desc_wf rest → mem = pre ++ concat rest ++ tail →
  mem !! S (length pre) = Some (type_at rest).
Proof.
  intros Hwf Hmem. destruct rest as [|d rest]; simpl in *.
  - subst mem. destruct tail as [|a [|b t]]; simpl in tail_room; [lia..|].
    by rewrite cons_middle, app_assoc, list_lookup_middle by (rewrite length_app; simpl; lia).
  - apply Forall_cons in Hwf as [Hd _]. rewrite <- app_assoc in Hmem.
    by destruct (desc_head pre d (concat rest ++ tail) Hd Hmem).
Qed.

(** The first descriptor of a type: what comes before it, itself and the rest. *)
Fixpoint find_type (Type_ : Z) (rest : list (list Z)) :
  option (list (list Z) * list Z * list (list Z)) :=
  match rest with
  | [] => None
  | d :: rest =>
      if desc_type d =? Type_ then Some ([], d, rest)
      else '(skipped, d', rest') ← find_type Type_ rest; Some (d :: skipped, d', rest')
  end.

Lemma find_type_split Type_ rest skipped d rest' :
  find_type Type_ rest = Some (skipped, d, rest') →
  rest = skipped ++ d :: rest' ∧ desc_type d = Type_ ∧
  Forall (λ x, desc_type x ≠ Type_) skipped.
Proof.
  revert skipped. induction rest as [|x rest IH]; intros skipped; simpl; [done|].
  destruct (Z.eqb_spec (desc_type x) Type_) as [Ht|Ht]; [intros; simplify_eq; by split_and!|].
  destruct (find_type Type_ rest) as [[[s d'] r]|] eqn:Hf; simpl; [|done].
  intros; simplify_eq. destruct (IH s eq_refl) as (-> & ? & ?). split_and!; [done..|].
  by constructor.
Qed.

(** The search from a descriptor on; it does not look at that descriptor. *)
Lemma of_type_run Type_ rest : ∀ pre d fuel,
  desc_wf d → Forall desc_wf rest → mem = pre ++ d ++ concat rest ++ tail →
  (S (length rest) < fuel)%nat →
  USB_GetNextDescriptorOfType mem fuel Type_ (stands_at pre d rest) =
  Ok tt match find_type Type_ rest with
        | Some (skipped, d', rest') => stands_at (pre ++ d ++ concat skipped) d' rest'
        | None => stands_past (pre ++ d ++ concat rest)
        end.
Proof.
  induction rest as [|d' rest IH]; intros pre d fuel Hd Hwf Hmem Hfuel;
    (destruct fuel as [|fuel]; [simpl in Hfuel; lia|]);
    cbn [USB_GetNextDescriptorOfType]; unfold mbind, M_bind, get_st;
    (rewrite (proj2 (Z.eqb_neq _ 0))
       by (destruct Hd; unfold stands_at; simpl; rewrite length_app; lia));
    rewrite next_desc by done; unfold DESCRIPTOR_TYPE; cbn [CurrConfigLoc stands_at stands_past].
  - rewrite (type_after (pre ++ d) []) by (done || by rewrite Hmem, <- app_assoc).
    cbn [checked mret M_ret]. simpl. rewrite !app_nil_r.
    destruct fuel; [simpl in Hfuel; lia|]. by destruct (_ =? _).
  - rewrite (type_after (pre ++ d) (d' :: rest)) by (done || by rewrite Hmem, <- app_assoc).
    cbn [checked mret M_ret type_at find_type]. apply Forall_cons in Hwf as [Hd' Hwf].
    destruct (desc_type d' =? Type_); [by rewrite app_nil_r|].
    rewrite (IH (pre ++ d) d' fuel) by (done || (simpl in Hfuel; lia) ||
      (rewrite Hmem; simpl; by rewrite <- !app_assoc)).
    destruct (find_type Type_ rest) as [[[s x] r]|]; simpl; by rewrite <- !app_assoc.
Qed.
End blocks.
