(* ===== verification/HIDParser.v ===== *)
(** * The HID report parser of the USB library

    [LUFA/Drivers/USB/Class/Common/HIDParser.c] and [.h]: the parser of report
    descriptors, and reading and writing one item of a report.  Pointers into
    the arrays of [HID_ReportInfo_t] are indices, and [None] is [NULL].  The
    stack of state tables and the list of usages are the parts in use of their
    arrays. *)

From S2P Require Import Prelude StdDescriptors.

(** ** Data *)

Inductive HID_Parse_ErrorCodes_t :=
| HID_PARSE_Successful
| HID_PARSE_HIDStackOverflow
| HID_PARSE_HIDStackUnderflow
| HID_PARSE_InsufficientReportItems
| HID_PARSE_UnexpectedEndCollection
| HID_PARSE_InsufficientCollectionPaths
| HID_PARSE_UsageListOverflow
| HID_PARSE_InsufficientReportIDItems
| HID_PARSE_NoUnfilteredReportItems.

#[export] Instance HID_Parse_ErrorCodes_eq_dec : EqDecision HID_Parse_ErrorCodes_t.
Proof. solve_decision. Defined.

Inductive HID_ReportItemTypes_t := HID_REPORT_ITEM_In | HID_REPORT_ITEM_Out | HID_REPORT_ITEM_Feature.

Definition ItemTypes_index (t : HID_ReportItemTypes_t) : nat :=
  match t with
  | HID_REPORT_ITEM_In => 0
  | HID_REPORT_ITEM_Out => 1
  | HID_REPORT_ITEM_Feature => 2
  end.

Record HID_MinMax_t := { Minimum : Z; Maximum : Z }.             (** [uint32_t] *)
Record HID_Unit_t := { Unit_Type : Z; Exponent : Z }.            (** [uint32_t], [uint8_t] *)
Record HID_Usage_t := { Page : Z; Usage : Z }.                   (** [uint16_t] *)

Record HID_CollectionPath_t := {
  cp_Type : Z;                   (** [uint8_t] *)
  cp_Usage : HID_Usage_t;
  cp_Parent : option nat;        (** index into [CollectionPaths] *)
}.

Record HID_ReportItem_Attributes_t := {
  BitSize : Z;                   (** [uint8_t] *)
  at_Usage : HID_Usage_t;
  at_Unit : HID_Unit_t;
  Logical : HID_MinMax_t;
  Physical : HID_MinMax_t;
}.

Record HID_ReportItem_t := {
  BitOffset : Z;                 (** [uint16_t] *)
  ItemType : HID_ReportItemTypes_t;
  ItemFlags : Z;                 (** [uint16_t] *)
  it_ReportID : Z;               (** [uint8_t] *)
  CollectionPath : option nat;
  Attributes : HID_ReportItem_Attributes_t;
  Value : Z;                     (** [uint32_t] *)
  PreviousValue : Z;             (** [uint32_t] *)
}.

Record HID_ReportSizeInfo_t := {
  rs_ReportID : Z;               (** [uint8_t] *)
  ReportSizeBits : list Z;       (** [uint16_t [3]] *)
}.

Record HID_ReportInfo_t := {
  TotalReportItems : Z;          (** [uint8_t] *)
  ReportItems : list HID_ReportItem_t;
  CollectionPaths : list HID_CollectionPath_t;
  TotalDeviceReports : Z;        (** [uint8_t] *)
  ReportIDSizes : list HID_ReportSizeInfo_t;
  LargestReportSizeBits : Z;     (** [uint16_t] *)
  UsingReportIDs : bool;
}.

Record HID_StateTable_t := {
  st_Attributes : HID_ReportItem_Attributes_t;
  ReportCount : Z;               (** [uint8_t] *)
  st_ReportID : Z;               (** [uint8_t] *)
}.

(** The values after [memset(..., 0, ...)]. *)
Definition zero_usage : HID_Usage_t := {| Page := 0; Usage := 0 |}.
Definition zero_minmax : HID_MinMax_t := {| Minimum := 0; Maximum := 0 |}.
Definition zero_attributes : HID_ReportItem_Attributes_t :=
  {| BitSize := 0; at_Usage := zero_usage; at_Unit := {| Unit_Type := 0; Exponent := 0 |};
     Logical := zero_minmax; Physical := zero_minmax |}.
Definition zero_item : HID_ReportItem_t :=
  {| BitOffset := 0; ItemType := HID_REPORT_ITEM_In; ItemFlags := 0; it_ReportID := 0;
     CollectionPath := None; Attributes := zero_attributes; Value := 0; PreviousValue := 0 |}.
Definition zero_collection : HID_CollectionPath_t :=
  {| cp_Type := 0; cp_Usage := zero_usage; cp_Parent := None |}.
Definition zero_size : HID_ReportSizeInfo_t := {| rs_ReportID := 0; ReportSizeBits := [0; 0; 0] |}.
Definition zero_state : HID_StateTable_t :=
  {| st_Attributes := zero_attributes; ReportCount := 0; st_ReportID := 0 |}.

(** ** The limits, which the configuration can change *)
Record hid_limits := {
  HID_STATETABLE_STACK_DEPTH : nat;
  HID_USAGE_STACK_DEPTH : nat;
  HID_MAX_COLLECTIONS : nat;
  HID_MAX_REPORTITEMS : nat;
  HID_MAX_REPORT_IDS : nat;
}.

Definition default_limits : hid_limits :=
  {| HID_STATETABLE_STACK_DEPTH := 2; HID_USAGE_STACK_DEPTH := 8; HID_MAX_COLLECTIONS := 10;
     HID_MAX_REPORTITEMS := 20; HID_MAX_REPORT_IDS := 10 |}.

(** The local variables of [USB_ProcessHIDReport] and [*ParserData].  The top
    of [StateTable] is [*CurrStateTable]. *)
Record parser := {
  StateTable : list HID_StateTable_t;
  CurrCollectionPath : option nat;
  CurrReportIDInfo : nat;
  UsageList : list Z;
  UsageMinMax : HID_MinMax_t;
  ParserData : HID_ReportInfo_t;
}.

(** ** Updates of the local variables *)

Definition with_table (f : HID_StateTable_t → HID_StateTable_t) (p : parser) : parser :=
  {| StateTable := match StateTable p with [] => [] | t :: ts => f t :: ts end;
     CurrCollectionPath := CurrCollectionPath p; CurrReportIDInfo := CurrReportIDInfo p;
     UsageList := UsageList p; UsageMinMax := UsageMinMax p; ParserData := ParserData p |}.
Definition with_stack (s : list HID_StateTable_t) (p : parser) : parser :=
  {| StateTable := s; CurrCollectionPath := CurrCollectionPath p;
     CurrReportIDInfo := CurrReportIDInfo p; UsageList := UsageList p;
     UsageMinMax := UsageMinMax p; ParserData := ParserData p |}.
Definition with_path (c : option nat) (p : parser) : parser :=
  {| StateTable := StateTable p; CurrCollectionPath := c; CurrReportIDInfo := CurrReportIDInfo p;
     UsageList := UsageList p; UsageMinMax := UsageMinMax p; ParserData := ParserData p |}.
Definition with_id (i : nat) (p : parser) : parser :=
  {| StateTable := StateTable p; CurrCollectionPath := CurrCollectionPath p;
     CurrReportIDInfo := i; UsageList := UsageList p; UsageMinMax := UsageMinMax p;
     ParserData := ParserData p |}.
Definition with_usages (u : list Z) (m : HID_MinMax_t) (p : parser) : parser :=
  {| StateTable := StateTable p; CurrCollectionPath := CurrCollectionPath p;
     CurrReportIDInfo := CurrReportIDInfo p; UsageList := u; UsageMinMax := m;
     ParserData := ParserData p |}.
Definition with_data (d : HID_ReportInfo_t) (p : parser) : parser :=
  {| StateTable := StateTable p; CurrCollectionPath := CurrCollectionPath p;
     CurrReportIDInfo := CurrReportIDInfo p; UsageList := UsageList p;
     UsageMinMax := UsageMinMax p; ParserData := d |}.

Definition with_attributes (f : HID_ReportItem_Attributes_t → HID_ReportItem_Attributes_t) :
  parser → parser :=
  with_table (λ t, {| st_Attributes := f (st_Attributes t); ReportCount := ReportCount t;
                      st_ReportID := st_ReportID t |}).

Definition set_page (v : Z) : parser → parser := with_attributes (λ a,
  {| BitSize := BitSize a; at_Usage := {| Page := u16 v; Usage := Usage (at_Usage a) |};
     at_Unit := at_Unit a; Logical := Logical a; Physical := Physical a |}).
Definition set_logical (mn mx : option Z) : parser → parser := with_attributes (λ a,
  {| BitSize := BitSize a; at_Usage := at_Usage a; at_Unit := at_Unit a;
     Logical := {| Minimum := default (Minimum (Logical a)) mn;
                   Maximum := default (Maximum (Logical a)) mx |};
     Physical := Physical a |}).
Definition set_physical (mn mx : option Z) : parser → parser := with_attributes (λ a,
  {| BitSize := BitSize a; at_Usage := at_Usage a; at_Unit := at_Unit a; Logical := Logical a;
     Physical := {| Minimum := default (Minimum (Physical a)) mn;
                    Maximum := default (Maximum (Physical a)) mx |} |}).
Definition set_exponent (v : Z) : parser → parser := with_attributes (λ a,
  {| BitSize := BitSize a; at_Usage := at_Usage a;
     at_Unit := {| Unit_Type := Unit_Type (at_Unit a); Exponent := u8 v |};
     Logical := Logical a; Physical := Physical a |}).
Definition set_unit (v : Z) : parser → parser := with_attributes (λ a,
  {| BitSize := BitSize a; at_Usage := at_Usage a;
     at_Unit := {| Unit_Type := v; Exponent := Exponent (at_Unit a) |};
     Logical := Logical a; Physical := Physical a |}).
Definition set_bitsize (v : Z) : parser → parser := with_attributes (λ a,
  {| BitSize := u8 v; at_Usage := at_Usage a; at_Unit := at_Unit a;
     Logical := Logical a; Physical := Physical a |}).
Definition set_count (v : Z) : parser → parser := with_table (λ t,
  {| st_Attributes := st_Attributes t; ReportCount := u8 v; st_ReportID := st_ReportID t |}).
Definition set_id (v : Z) : parser → parser := with_table (λ t,
  {| st_Attributes := st_Attributes t; ReportCount := ReportCount t; st_ReportID := u8 v |}).

Definition set_sizes (n : Z) (l : list HID_ReportSizeInfo_t) (u : bool) (d : HID_ReportInfo_t) :
  HID_ReportInfo_t :=
  {| TotalReportItems := TotalReportItems d; ReportItems := ReportItems d;
     CollectionPaths := CollectionPaths d; TotalDeviceReports := n; ReportIDSizes := l;
     LargestReportSizeBits := LargestReportSizeBits d; UsingReportIDs := u |}.
Definition set_paths (l : list HID_CollectionPath_t) (d : HID_ReportInfo_t) : HID_ReportInfo_t :=
  {| TotalReportItems := TotalReportItems d; ReportItems := ReportItems d;
     CollectionPaths := l; TotalDeviceReports := TotalDeviceReports d;
     ReportIDSizes := ReportIDSizes d; LargestReportSizeBits := LargestReportSizeBits d;
     UsingReportIDs := UsingReportIDs d |}.
Definition set_items (n : Z) (l : list HID_ReportItem_t) (d : HID_ReportInfo_t) : HID_ReportInfo_t :=
  {| TotalReportItems := n; ReportItems := l; CollectionPaths := CollectionPaths d;
     TotalDeviceReports := TotalDeviceReports d; ReportIDSizes := ReportIDSizes d;
     LargestReportSizeBits := LargestReportSizeBits d; UsingReportIDs := UsingReportIDs d |}.
Definition set_largest (n : Z) (l : list HID_ReportSizeInfo_t) (d : HID_ReportInfo_t) :
  HID_ReportInfo_t :=
  {| TotalReportItems := TotalReportItems d; ReportItems := ReportItems d;
     CollectionPaths := CollectionPaths d; TotalDeviceReports := TotalDeviceReports d;
     ReportIDSizes := l; LargestReportSizeBits := n; UsingReportIDs := UsingReportIDs d |}.

(** [array[i] = x] *)
Definition store {A} (i : nat) (x : A) (l : list A) : option (list A) :=
  if decide (i < length l)%nat then Some (<[i := x]> l) else None.

(** ** The parser *)

Section parse.
Context (lim : hid_limits).
(** [CALLBACK_HIDParser_FilterHIDReportItem], and what the stack holds in the
    two members of a new item that are not assigned. *)
Context (filter : HID_ReportItem_t → bool) (junk : Z).

Abbreviation parse A := (M parser A).
Abbreviation continue := (mret None : parse (option HID_Parse_ErrorCodes_t)).
Abbreviation stop e := (mret (Some e) : parse (option HID_Parse_ErrorCodes_t)).

Definition top (p : parser) : option HID_StateTable_t := head (StateTable p).

(** The next usage: the head of the list, else the next of the range. *)
Definition next_usage (p : parser) : option Z * parser :=
  match UsageList p with
  | u :: us => (Some u, with_usages us (UsageMinMax p) p)
  | [] =>
      let m := UsageMinMax p in
      if Minimum m <=? Maximum m then
        (Some (u16 (Minimum m)),
         with_usages [] {| Minimum := u32 (Minimum m + 1); Maximum := Maximum m |} p)
      else (None, p)
  end.

(** [for (i = 0; i < TotalDeviceReports; i++) if (ReportIDSizes[i].ReportID == id)] *)
Definition find_report_id (id : Z) (d : HID_ReportInfo_t) : option nat :=
  fst <$> list_find (λ s, rs_ReportID s = id) (take (Z.to_nat (TotalDeviceReports d)) (ReportIDSizes d)).

Definition item_report_id (data : Z) : parse (option HID_Parse_ErrorCodes_t) :=
  modify (set_id data);;
  p ← get_st;
  let d := ParserData p in
  let id := u8 data in
  p' ← (if UsingReportIDs d then
          match find_report_id id d with
          | Some i => mret (Some (with_id i p))
          | None =>
              if TotalDeviceReports d =? Z.of_nat (HID_MAX_REPORT_IDS lim) then mret None
              else
                let i := Z.to_nat (TotalDeviceReports d) in
                l ← checked (store i zero_size (ReportIDSizes d));
                mret (Some (with_id i (with_data
                  (set_sizes (u8 (TotalDeviceReports d + 1)) l (UsingReportIDs d) d) p)))
          end
        else mret (Some p));
  match p' with
  | None => stop HID_PARSE_InsufficientReportIDItems
  | Some p =>
      let d := ParserData p in
      s ← checked (ReportIDSizes d !! CurrReportIDInfo p);
      l ← checked (store (CurrReportIDInfo p)
                     {| rs_ReportID := id; ReportSizeBits := ReportSizeBits s |} (ReportIDSizes d));
      put_st (with_data (set_sizes (TotalDeviceReports d) l true d) p);;
      continue
  end.

(** The first free entry from [i] on; [n] bounds the scan. *)
Fixpoint free_path (n i : nat) (l : list HID_CollectionPath_t) : option (option nat) :=
  match n with
  | O => None
  | S n =>
      c ← l !! i;
      match cp_Parent c with
      | None => Some (Some i)
      | Some _ => if decide (i = HID_MAX_COLLECTIONS lim - 1)%nat then Some None
                  else free_path n (S i) l
      end
  end.

Definition item_collection (data : Z) : parse (option HID_Parse_ErrorCodes_t) :=
  p ← get_st;
  t ← checked (top p);
  let paths := CollectionPaths (ParserData p) in
  i ← (match CurrCollectionPath p with
       | None => mret (Some 0%nat)
       | Some _ => checked (free_path (HID_MAX_COLLECTIONS lim) 1 paths)
       end);
  match i with
  | None => stop HID_PARSE_InsufficientCollectionPaths
  | Some i =>
      c ← checked (paths !! i);
      let parent := match CurrCollectionPath p with None => cp_Parent c | Some j => Some j end in
      let '(u, p') := next_usage p in
      let c' := {| cp_Type := u8 data;
                   cp_Usage := {| Page := Page (at_Usage (st_Attributes t));
                                  Usage := default (Usage (cp_Usage c)) u |};
                   cp_Parent := parent |} in
      l ← checked (store i c' paths);
      put_st (with_path (Some i) (with_data (set_paths l (ParserData p)) p'));;
      continue
  end.

Definition item_end_collection : parse (option HID_Parse_ErrorCodes_t) :=
  p ← get_st;
  match CurrCollectionPath p with
  | None => stop HID_PARSE_UnexpectedEndCollection
  | Some i =>
      c ← checked (CollectionPaths (ParserData p) !! i);
      put_st (with_path (cp_Parent c) p);; continue
  end.

(** [n] items of an INPUT, OUTPUT or FEATURE. *)
Fixpoint item_data (n : nat) (kind : HID_ReportItemTypes_t) (data : Z) :
  parse (option HID_Parse_ErrorCodes_t) :=
  match n with
  | O => continue
  | S n =>
      p ← get_st;
      t ← checked (top p);
      let a := st_Attributes t in
      let '(u, p') := next_usage p in
      let d := ParserData p in
      s ← checked (ReportIDSizes d !! CurrReportIDInfo p);
      bits ← checked (ReportSizeBits s !! ItemTypes_index kind);
      let item :=
        {| BitOffset := bits; ItemType := kind; ItemFlags := u16 data;
           it_ReportID := st_ReportID t; CollectionPath := CurrCollectionPath p;
           Attributes :=
             {| BitSize := BitSize a;
                at_Usage := {| Page := Page (at_Usage a);
                               Usage := default (Usage (at_Usage a)) u |};
                at_Unit := at_Unit a; Logical := Logical a; Physical := Physical a |};
           Value := junk; PreviousValue := junk |} in
      let bits' := u16 (bits + BitSize a) in
      l ← checked (store (CurrReportIDInfo p)
                     {| rs_ReportID := rs_ReportID s;
                        ReportSizeBits := <[ItemTypes_index kind := bits']> (ReportSizeBits s) |}
                     (ReportIDSizes d));
      let d := set_largest (Z.max (LargestReportSizeBits d) bits') l d in
      put_st (with_data d p');;
      if TotalReportItems d =? Z.of_nat (HID_MAX_REPORTITEMS lim) then
        stop HID_PARSE_InsufficientReportItems
      else
        items ← checked (store (Z.to_nat (TotalReportItems d)) item (ReportItems d));
        let keep := (Z.land data HID_IOF_CONSTANT =? 0) && filter item in
        modify (with_data (set_items (if keep then u8 (TotalReportItems d + 1)
                                      else TotalReportItems d) items d));;
        item_data n kind data
  end.

(** The [switch] on the type and the tag of one item. *)
Definition process_item (item data : Z) : parse (option HID_Parse_ErrorCodes_t) :=
  let tag := Z.land item (Z.lor HID_RI_TYPE_MASK HID_RI_TAG_MASK) in
  let tagged f := tag =? nth 0 (f Bits0 0) 0 in
  p ← get_st;
  if tagged HID_RI_PUSH then
    if decide (length (StateTable p) = HID_STATETABLE_STACK_DEPTH lim) then
      stop HID_PARSE_HIDStackOverflow
    else t ← checked (top p); put_st (with_stack (t :: StateTable p) p);; continue
  else if tagged HID_RI_POP then
    match StateTable p with
    | _ :: t :: ts => put_st (with_stack (t :: ts) p);; continue
    | _ => stop HID_PARSE_HIDStackUnderflow
    end
  else if tagged HID_RI_USAGE_PAGE then modify (set_page data);; continue
  else if tagged HID_RI_LOGICAL_MINIMUM then modify (set_logical (Some data) None);; continue
  else if tagged HID_RI_LOGICAL_MAXIMUM then modify (set_logical None (Some data));; continue
  else if tagged HID_RI_PHYSICAL_MINIMUM then modify (set_physical (Some data) None);; continue
  else if tagged HID_RI_PHYSICAL_MAXIMUM then modify (set_physical None (Some data));; continue
  else if tagged HID_RI_UNIT_EXPONENT then modify (set_exponent data);; continue
  else if tagged HID_RI_UNIT then modify (set_unit data);; continue
  else if tagged HID_RI_REPORT_SIZE then modify (set_bitsize data);; continue
  else if tagged HID_RI_REPORT_COUNT then modify (set_count data);; continue
  else if tagged HID_RI_REPORT_ID then item_report_id data
  else if tagged HID_RI_USAGE then
    if decide (length (UsageList p) = HID_USAGE_STACK_DEPTH lim) then
      stop HID_PARSE_UsageListOverflow
    else
      when (Z.land item HID_RI_DATA_SIZE_MASK =? HID_RI_DATA_BITS_32)
        (modify (set_page (Z.shiftr data 16)));;
      modify (λ p, with_usages (UsageList p ++ [u16 data]) (UsageMinMax p) p);; continue
  else if tagged HID_RI_USAGE_MINIMUM then
    modify (with_usages (UsageList p) {| Minimum := data; Maximum := Maximum (UsageMinMax p) |});;
    continue
  else if tagged HID_RI_USAGE_MAXIMUM then
    modify (with_usages (UsageList p) {| Minimum := Minimum (UsageMinMax p); Maximum := data |});;
    continue
  else if tagged HID_RI_COLLECTION then item_collection data
  else if tagged HID_RI_END_COLLECTION then item_end_collection
  else if tagged HID_RI_INPUT then
    t ← checked (top p); item_data (Z.to_nat (ReportCount t)) HID_REPORT_ITEM_In data
  else if tagged HID_RI_OUTPUT then
    t ← checked (top p); item_data (Z.to_nat (ReportCount t)) HID_REPORT_ITEM_Out data
  else if tagged HID_RI_FEATURE then
    t ← checked (top p); item_data (Z.to_nat (ReportCount t)) HID_REPORT_ITEM_Feature data
  else continue.

(** The data bytes of an item: their number and the value. *)
Definition item_value (item : Z) (mem : list Z) (at_ : nat) : option (Z * Z) :=
  let size := Z.land item HID_RI_DATA_SIZE_MASK in
  if size =? HID_RI_DATA_BITS_32 then
    b0 ← mem !! at_; b1 ← mem !! (at_ + 1)%nat; b2 ← mem !! (at_ + 2)%nat; b3 ← mem !! (at_ + 3)%nat;
    Some (4, Z.lor (Z.lor (Z.lor (Z.shiftl b3 24) (Z.shiftl b2 16)) (Z.shiftl b1 8)) b0)
  else if size =? HID_RI_DATA_BITS_16 then
    b0 ← mem !! at_; b1 ← mem !! (at_ + 1)%nat; Some (2, Z.lor (Z.shiftl b1 8) b0)
  else if size =? HID_RI_DATA_BITS_8 then b0 ← mem !! at_; Some (1, b0)
  else Some (0, 0).

(** [while (ReportSize)]: [ReportData] is an index into the memory. *)
Fixpoint process_items (fuel : nat) (mem : list Z) (ReportData : nat) (ReportSize : Z) :
  parse HID_Parse_ErrorCodes_t :=
  match fuel with
  | O => fail OutOfFuel
  | S fuel =>
      if ReportSize =? 0 then
        p ← get_st;
        if TotalReportItems (ParserData p) =? 0 then mret HID_PARSE_NoUnfilteredReportItems
        else mret HID_PARSE_Successful
      else
        item ← checked (mem !! ReportData);
        '(n, data) ← checked (item_value item mem (S ReportData));
        e ← process_item item data;
        match e with
        | Some e => mret e
        | None =>
            when (Z.land item HID_RI_TYPE_MASK =? HID_RI_TYPE_MAIN)
              (modify (with_usages [] zero_minmax));;
            process_items fuel mem (S ReportData + Z.to_nat n) (u16 (u16 (ReportSize - 1) - n))
        end
  end.

(** The start of [USB_ProcessHIDReport]. *)
Definition parser_init : parser :=
  {| StateTable := [zero_state]; CurrCollectionPath := None; CurrReportIDInfo := 0;
     UsageList := []; UsageMinMax := zero_minmax;
     ParserData :=
       {| TotalReportItems := 0; ReportItems := replicate (HID_MAX_REPORTITEMS lim) zero_item;
          CollectionPaths := replicate (HID_MAX_COLLECTIONS lim) zero_collection;
          TotalDeviceReports := 1; ReportIDSizes := replicate (HID_MAX_REPORT_IDS lim) zero_size;
          LargestReportSizeBits := 0; UsingReportIDs := false |} |}.

(** Every turn of the loop takes at least one byte. *)
Definition USB_ProcessHIDReport (mem : list Z) (ReportSize : Z) :
  outcome parser HID_Parse_ErrorCodes_t :=
  process_items (S (Z.to_nat ReportSize)) mem 0 ReportSize parser_init.
End parse.

(** ** Reading and writing one item of a report *)

Definition set_Value (v prev : Z) (r : HID_ReportItem_t) : HID_ReportItem_t :=
  {| BitOffset := BitOffset r; ItemType := ItemType r; ItemFlags := ItemFlags r;
     it_ReportID := it_ReportID r; CollectionPath := CollectionPath r;
     Attributes := Attributes r; Value := v; PreviousValue := prev |}.

(** [while (DataBitsRem--)] of the reader; [BitMask] is a [uint32_t]. *)
Fixpoint get_bits (DataBitsRem : nat) (ReportData : list Z) (CurrentBit BitMask Value : Z) :
  option Z :=
  match DataBitsRem with
  | O => Some Value
  | S n =>
      b ← ReportData !! Z.to_nat (CurrentBit / 8);
      let Value := if has b (BV (CurrentBit mod 8)) then Z.lor Value BitMask else Value in
      get_bits n ReportData (u16 (CurrentBit + 1)) (u32 (Z.shiftl BitMask 1)) Value
  end.

(** The result is [None] for an access out of bounds, else the returned bool
    and the item.  [ReportItem] may be a null pointer. *)
Definition get_item_info (ReportData : list Z) (ReportItem : HID_ReportItem_t) :
  option (bool * HID_ReportItem_t) :=
  let read data :=
    v ← get_bits (Z.to_nat (BitSize (Attributes ReportItem))) data (BitOffset ReportItem) (BV 0) 0;
    Some (true, set_Value v (Value ReportItem) ReportItem) in
  if it_ReportID ReportItem =? 0 then read ReportData
  else
    id ← ReportData !! 0%nat;
    if it_ReportID ReportItem =? id then read (drop 1 ReportData)
    else Some (false, ReportItem).

Definition USB_GetHIDReportItemInfo (ReportData : list Z) (ReportItem : option HID_ReportItem_t) :
  option (bool * option HID_ReportItem_t) :=
  match ReportItem with
  | None => Some (false, None)
  | Some item => r ← get_item_info ReportData item; Some (r.1, Some r.2)
  end.

(** [while (DataBitsRem--)] of the writer. *)
Fixpoint set_bits (DataBitsRem : nat) (ReportData : list Z) (CurrentBit BitMask Value : Z) :
  option (list Z) :=
  match DataBitsRem with
  | O => Some ReportData
  | S n =>
      ReportData ←
        (if has Value BitMask then
           b ← ReportData !! Z.to_nat (CurrentBit / 8);
           store_at (Z.to_nat (CurrentBit / 8)) (Z.lor b (BV (CurrentBit mod 8))) ReportData
         else Some ReportData);
      set_bits n ReportData (u16 (CurrentBit + 1)) (u32 (Z.shiftl BitMask 1)) Value
  end.

Definition set_item_info (ReportData : list Z) (ReportItem : HID_ReportItem_t) :
  option (list Z * HID_ReportItem_t) :=
  let write data :=
    set_bits (Z.to_nat (BitSize (Attributes ReportItem))) data (BitOffset ReportItem) (BV 0)
      (Value ReportItem) in
  data ←
    (if it_ReportID ReportItem =? 0 then write ReportData
     else
       data ← store_at 0 (it_ReportID ReportItem) ReportData;
       rest ← write (drop 1 data);
       Some (take 1 data ++ rest));
  Some (data, set_Value (Value ReportItem) (Value ReportItem) ReportItem).

Definition USB_SetHIDReportItemInfo (ReportData : list Z) (ReportItem : option HID_ReportItem_t) :
  option (list Z * option HID_ReportItem_t) :=
  match ReportItem with
  | None => Some (ReportData, None)
  | Some item => r ← set_item_info ReportData item; Some (r.1, Some r.2)
  end.

(** The first [HID_MAX_REPORT_IDS] entries, all of the array. *)
Definition USB_GetHIDReportSize (ParserData : HID_ReportInfo_t) (ReportID : Z)
    (ReportType : HID_ReportItemTypes_t) : option Z :=
  match list_find (λ s, rs_ReportID s = ReportID) (ReportIDSizes ParserData) with
  | Some (_, s) =>
      bits ← ReportSizeBits s !! ItemTypes_index ReportType;
      Some (u16 (bits / 8 + (if bits mod 8 =? 0 then 0 else 1)))
  | None => Some 0
  end.

(** ** Bits of a report *)

(** Bit [k] of a report, counting from the low bit of its first byte. *)
Definition bit_at (data : list Z) (k : Z) : bool :=
  Z.testbit (nth (Z.to_nat (k / 8)) data 0) (k mod 8).

Lemma shift_mask i : 0 ≤ i < 31 → u32 (Z.shiftl (2 ^ i) 1) = 2 ^ (i + 1).
Proof.
  intros Hi. rewrite Z.shiftl_mul_pow2 by lia. rewrite <- Z.pow_add_r by lia.
  apply u32_id. split; [by apply Z.pow_nonneg|].
  apply Z.lt_le_trans with (2 ^ 32); [apply Z.pow_lt_mono_r; lia|done].
Qed.

(** The reader collects the bits from [off] on. *)
Lemma get_bits_spec data off n : ∀ i v,
  0 ≤ off → off + i + Z.of_nat n ≤ 8 * Z.of_nat (length data) → is_u16 (off + i + Z.of_nat n) →
  0 ≤ i → i + Z.of_nat n ≤ 32 → (n = O ∨ i < 32) →
  (∀ k, 0 ≤ k → Z.testbit v k = (k <? i) && bit_at data (off + k)) →
  ∃ v', get_bits n data (off + i) (2 ^ i) v = Some v' ∧
        ∀ k, 0 ≤ k → Z.testbit v' k = (k <? i + Z.of_nat n) && bit_at data (off + k).
Proof.
  induction n as [|n IH]; intros i v Hoff Hlen Hu Hi H32 Hlt Hv.
  { exists v. split; [done|]. by rewrite Z.add_0_r. }
  cbn [get_bits].
  assert (Z.to_nat ((off + i) / 8) < length data)%nat as Hin by div_lia.
  destruct (lookup_lt_is_Some_2 _ _ Hin) as [b Hb]. rewrite Hb. cbn [mbind option_bind].
  rewrite has_bit by (apply Z.mod_pos_bound; lia).
  replace (Z.testbit b ((off + i) mod 8)) with (bit_at data (off + i))
    by (unfold bit_at; by rewrite (nth_lookup_Some _ _ _ _ Hb)).
  rewrite u16_id by (unfold is_u16 in *; lia).
  set (v1 := if bit_at data (off + i) then Z.lor v (2 ^ i) else v).
  assert (∀ k, 0 ≤ k → Z.testbit v1 k = (k <? i + 1) && bit_at data (off + k)) as Hv1.
  { intros k Hk. unfold v1. specialize (Hv k Hk).
    destruct (bit_at data (off + i)) eqn:Hbi; [rewrite Z.lor_spec, Z.pow2_bits_eqb by done|];
      rewrite Hv; destruct (Z.ltb_spec k i), (Z.ltb_spec k (i + 1)), (Z.eqb_spec i k);
      try lia; subst; rewrite ?Hbi, ?orb_false_r, ?orb_true_r; done. }
  replace (off + i + 1) with (off + (i + 1)) by lia.
  destruct (decide (n = 0%nat)) as [->|Hn].
  - exists v1. split; [done|]. intros k Hk. rewrite Hv1 by done. done.
  - rewrite shift_mask by lia.
    destruct (IH (i + 1) v1) as (v' & Hrun & Hv'); [done || lia || (unfold is_u16 in *; lia)..|].
    exists v'. split; [done|]. intros k Hk. rewrite Hv' by done. do 2 f_equal. lia.
Qed.

(** One bit set in one byte. *)
Lemma bit_at_or data j k b :
  0 ≤ j → 0 ≤ k → data !! Z.to_nat (j / 8) = Some b →
  bit_at (<[Z.to_nat (j / 8) := Z.lor b (BV (j mod 8))]> data) k = bit_at data k || (j =? k).
Proof.
  intros Hj Hk Hb. unfold bit_at. rewrite !nth_lookup.
  pose proof (lookup_lt_Some _ _ _ Hb) as Hlt.
  destruct (decide (Z.to_nat (j / 8) = Z.to_nat (k / 8))) as [Heq|Hne].
  - rewrite <- Heq, list_lookup_insert_eq, Hb by done. simpl.
    unfold BV. rewrite Z.shiftl_1_l, Z.lor_spec, Z.pow2_bits_eqb by (apply Z.mod_pos_bound; lia).
    f_equal. destruct (Z.eqb_spec j k) as [->|]; [by rewrite Z.eqb_refl|].
    apply Z.eqb_neq. intros Hm. assert (j / 8 = k / 8) by (apply Z2Nat.inj; div_lia). div_lia.
  - rewrite list_lookup_insert_ne by done.
    rewrite (proj2 (Z.eqb_neq j k)), orb_false_r; [done|]. by intros ->.
Qed.

(** The writer sets the bits of the value and leaves the others. *)
Lemma set_bits_spec off v n : ∀ i data,
  0 ≤ off → off + i + Z.of_nat n ≤ 8 * Z.of_nat (length data) → is_u16 (off + i + Z.of_nat n) →
  0 ≤ i → i + Z.of_nat n ≤ 32 → bytes data →
  ∃ data', set_bits n data (off + i) (2 ^ i) v = Some data' ∧
    length data' = length data ∧ bytes data' ∧
    ∀ k, 0 ≤ k → bit_at data' k =
      bit_at data k || ((off + i <=? k) && (k <? off + i + Z.of_nat n) && Z.testbit v (k - off)).
Proof.
  induction n as [|n IH]; intros i data Hoff Hlen Hu Hi H32 Hbs.
  { exists data. split_and!; try done. intros k Hk.
    destruct (Z.leb_spec (off + i) k), (Z.ltb_spec k (off + i + Z.of_nat 0)); try lia;
      by rewrite orb_false_r. }
  cbn [set_bits].
  assert (Z.to_nat ((off + i) / 8) < length data)%nat as Hin by div_lia.
  destruct (lookup_lt_is_Some_2 _ _ Hin) as [b Hb]. rewrite Hb. cbn [mbind option_bind].
  rewrite <- (Z.shiftl_1_l i). fold (BV i). rewrite has_bit by done.
  rewrite store_at_insert by done.
  set (data1 := if Z.testbit v i
                then <[Z.to_nat ((off + i) / 8) := Z.lor b (BV ((off + i) mod 8))]> data else data).
  assert ((if Z.testbit v i then Some (<[Z.to_nat ((off + i) / 8) := Z.lor b (BV ((off + i) mod 8))]> data)
           else Some data) = Some data1) as -> by (unfold data1; by destruct (Z.testbit v i)).
  cbn [mbind option_bind].
  assert (length data1 = length data) as Hl1
    by (unfold data1; destruct (Z.testbit v i); by rewrite ?length_insert).
  assert (bytes data1) as Hbs1.
  { unfold data1. destruct (Z.testbit v i); [|done]. apply Forall_insert; [done|].
    apply lor_bit_byte; [by eapply Forall_lookup_1|apply Z.mod_pos_bound; lia]. }
  assert (∀ k, 0 ≤ k → bit_at data1 k = bit_at data k || ((off + i =? k) && Z.testbit v (k - off)))
    as Hbit1.
  { intros k Hk. unfold data1. destruct (Z.testbit v i) eqn:Hvi.
    - rewrite bit_at_or by (lia || done). destruct (Z.eqb_spec (off + i) k) as [<-|]; [|done].
      replace (off + i - off) with i by lia. by rewrite Hvi.
    - destruct (Z.eqb_spec (off + i) k) as [<-|]; [|by rewrite orb_false_r].
      replace (off + i - off) with i by lia. by rewrite Hvi, orb_false_r. }
  rewrite u16_id by (unfold is_u16 in *; lia). unfold BV. rewrite Z.shiftl_1_l.
  replace (off + i + 1) with (off + (i + 1)) by lia.
  destruct (decide (n = 0%nat)) as [->|Hn].
  - exists data1. split_and!; try done. intros k Hk. rewrite Hbit1 by done. f_equal. f_equal.
    destruct (Z.eqb_spec (off + i) k), (Z.leb_spec (off + i) k), (Z.ltb_spec k (off + i + Z.of_nat 1)); lia.
  - rewrite shift_mask by lia.
    destruct (IH (i + 1) data1) as (data' & Hrun & Hl' & Hb' & Hv');
      [done || lia || (unfold is_u16 in *; lia)..|].
    exists data'. split_and!; [done|congruence|done|]. intros k Hk.
    rewrite Hv', Hbit1, <- orb_assoc by done. f_equal.
    destruct (Z.eqb_spec (off + i) k), (Z.leb_spec (off + i) k), (Z.leb_spec (off + (i + 1)) k),
      (Z.ltb_spec k (off + i + Z.of_nat (S n))), (Z.ltb_spec k (off + (i + 1) + Z.of_nat n)); try lia;
      simpl; rewrite ?orb_false_r; done.
Qed.

(** ** Properties *)

(** A report that has room for the item, and a value of its width. *)
Record item_fits (payload : list Z) (item : HID_ReportItem_t) : Prop := {
  fits_size : 0 ≤ BitSize (Attributes item) ≤ 32;
  fits_offset : 0 ≤ BitOffset item;
  fits_room : BitOffset item + BitSize (Attributes item) ≤ 8 * Z.of_nat (length payload);
  fits_u16 : is_u16 (BitOffset item + BitSize (Attributes item));
  fits_value : 0 ≤ Value item < 2 ^ BitSize (Attributes item);
}.

(** The bits of the item in the report are clear. *)
Definition item_clear (payload : list Z) (item : HID_ReportItem_t) : Prop :=
  ∀ k, BitOffset item ≤ k < BitOffset item + BitSize (Attributes item) →
       bit_at payload k = false.

(** Writing the bits of an item and reading them back. *)
Lemma payload_roundtrip payload item :
  bytes payload → item_fits payload item → item_clear payload item →
  let n := Z.to_nat (BitSize (Attributes item)) in
  ∃ payload', set_bits n payload (BitOffset item) (BV 0) (Value item) = Some payload' ∧
    length payload' = length payload ∧ bytes payload' ∧
    get_bits n payload' (BitOffset item) (BV 0) 0 = Some (Value item) ∧
    ∀ k, 0 ≤ k → ¬ BitOffset item ≤ k < BitOffset item + BitSize (Attributes item) →
         bit_at payload' k = bit_at payload k.
Proof.
  intros Hb [Hsz Hoff Hroom Hu Hv] Hclear n.
  destruct (set_bits_spec (BitOffset item) (Value item) n 0 payload) as (p' & Hset & Hl & Hb' & Hbit);
    [done || (unfold is_u16 in *; lia)..|].
  rewrite Z.add_0_r in Hset, Hbit. unfold n in Hbit. rewrite Z2Nat.id in Hbit by lia.
  destruct (get_bits_spec p' (BitOffset item) n 0 0) as (v & Hget & Hval);
    [done || (rewrite ?Hl; unfold is_u16 in *; lia)..| |].
  { intros k Hk. rewrite Z.bits_0. by destruct (Z.ltb_spec k 0); [lia|]. }
  rewrite Z.add_0_r in Hget. unfold n in Hval. rewrite Z2Nat.id, Z.add_0_l in Hval by lia.
  exists p'. split_and!; try done.
  - change (BV 0) with (2 ^ 0). rewrite Hget. f_equal. apply Z.bits_inj'. intros k Hk.
    rewrite Hval, Hbit by lia. destruct (Z.ltb_spec k (BitSize (Attributes item))).
    + rewrite Hclear by lia. simpl.
      destruct (Z.leb_spec (BitOffset item) (BitOffset item + k)),
        (Z.ltb_spec (BitOffset item + k) (BitOffset item + BitSize (Attributes item))); try lia.
      simpl. f_equal. lia.
    + simpl. destruct (decide (Value item = 0)) as [->|]; [by rewrite Z.bits_0|].
      symmetry. apply Z.bits_above_log2; [lia|]. apply Z.log2_lt_pow2; [lia|].
      pose proof (Z.pow_le_mono_r 2 (BitSize (Attributes item)) k). lia.
  - intros k Hk Hout. rewrite Hbit by done.
    destruct (Z.leb_spec (BitOffset item) k),
      (Z.ltb_spec k (BitOffset item + BitSize (Attributes item))); try lia; by rewrite orb_false_r.
Qed.

(** C39: Writing the value of a report item into a report whose bits for it are
    clear, and reading the item back from that report, gives the value; the
    report ID becomes the first byte of a report that has IDs, and no other
    bit of the report changes. *)
Theorem item_roundtrip data item :
  bytes data → is_u8 (it_ReportID item) →
  (let payload := if it_ReportID item =? 0 then data else drop 1 data in
   item_fits payload item ∧ item_clear payload item) →
  (it_ReportID item ≠ 0 → data ≠ []) →
  let payload d := if it_ReportID item =? 0 then d else drop 1 d in
  ∃ data' item', USB_SetHIDReportItemInfo data (Some item) = Some (data', Some item') ∧
    PreviousValue item' = Value item ∧
    (it_ReportID item ≠ 0 → head data' = Some (it_ReportID item)) ∧
    (∀ k, 0 ≤ k → ¬ BitOffset item ≤ k < BitOffset item + BitSize (Attributes item) →
          bit_at (payload data') k = bit_at (payload data) k) ∧
    ∀ old, ∃ item2,
      USB_GetHIDReportItemInfo data' (Some (set_Value old 0 item)) = Some (true, Some item2) ∧
      Value item2 = Value item ∧ PreviousValue item2 = old.
Proof.
  intros Hb Hid [Hfits Hclear] Hne.
  unfold USB_SetHIDReportItemInfo, USB_GetHIDReportItemInfo, set_item_info, get_item_info.
  cbn [it_ReportID set_Value].
  destruct (Z.eqb_spec (it_ReportID item) 0) as [H0|H0].
  - destruct (payload_roundtrip data item Hb Hfits Hclear) as (p' & -> & Hl & Hb' & Hget & Hrest).
    cbn [mbind option_bind]. eexists _, _. split; [done|]. split; [done|]. split; [done|].
    split; [exact Hrest|].
    intros old. cbn [Attributes BitOffset set_Value it_ReportID mbind option_bind].
    cbn [fst]. rewrite Hget. by eexists.
  - destruct data as [|d0 data]; [by destruct Hne|]. apply Forall_cons in Hb as [Hd0 Hb].
    simpl in Hfits, Hclear. rewrite store_at_insert by (simpl; lia). simpl.
    destruct (payload_roundtrip data item Hb Hfits Hclear) as (p' & Hset & Hl & Hb' & Hget & Hrest).
    rewrite !drop_0 in *. rewrite Hset. cbn [mbind option_bind].
    eexists _, _. split; [done|]. split; [done|]. split; [done|].
    split; [simpl; rewrite !drop_0; exact Hrest|].
    intros old. simpl. rewrite Z.eqb_refl, drop_0, Hget. by eexists.
Qed.

(** A 4-bit item at bit 20 of report 0x30. *)
Definition demo_item : HID_ReportItem_t :=
  {| BitOffset := 20; ItemType := HID_REPORT_ITEM_In; ItemFlags := 2; it_ReportID := 0x30;
     CollectionPath := None;
     Attributes := {| BitSize := 4; at_Usage := zero_usage;
                      at_Unit := {| Unit_Type := 0; Exponent := 0 |};
                      Logical := zero_minmax; Physical := zero_minmax |};
     Value := 9; PreviousValue := 0 |}.

Lemma item_roundtrip_witness :
  ∃ data' item', USB_SetHIDReportItemInfo (memset 0 6) (Some demo_item) = Some (data', Some item') ∧
    head data' = Some 0x30.
Proof.
  destruct (item_roundtrip (memset 0 6) demo_item) as (data' & item' & Hset & _ & Hhead & _).
  - apply (bool_decide_unpack _). vm_compute. exact I.
  - unfold is_u8. simpl. lia.
  - split.
    + split; unfold is_u16; simpl; lia.
    + intros k Hk. simpl in Hk.
      assert (k = 20 ∨ k = 21 ∨ k = 22 ∨ k = 23) as Hc by lia.
      destruct Hc as [->|[->|[->| ->]]]; reflexivity.
  - intros _. discriminate.
  - exists data', item'. split; [exact Hset|]. apply Hhead. discriminate.
Defined.
