(* ===== verification/HIDParserFacts.v ===== *)
(** * Safety of the HID report parser

    [USB_ProcessHIDReport] works on arrays of fixed size.  For every report
    descriptor that consists of whole items, whatever the items are, it returns
    and stays within those arrays. *)

From S2P Require Import Prelude StdDescriptors Descriptors HIDParser.

(** ** Total correctness of one run *)

Definition total {S A} (m : M S A) (s : S) (Q : A → S → Prop) : Prop :=
  match m s with Ok a s' => Q a s' | Fault _ _ => False end.

Section total.
Context {S A B : Type}.

Lemma total_bind (m : M S A) (k : A → M S B) s Q :
  total m s (λ a s', total (k a) s' Q) → total (m ≫= k) s Q.
Proof. unfold total, mbind, M_bind. by destruct (m s). Qed.

Lemma total_mono (m : M S A) s (P Q : A → S → Prop) :
  (∀ a s', P a s' → Q a s') → total m s P → total m s Q.
Proof. unfold total. destruct (m s); auto. Qed.

Lemma total_checked o (a : A) (s : S) (Q : A → S → Prop) :
  o = Some a → Q a s → total (checked o) s Q.
Proof. by intros ->. Qed.

Lemma total_run (m : M S A) s Q : total m s Q → ∃ a s', m s = Ok a s' ∧ Q a s'.
Proof. unfold total. destruct (m s) as [a s'|]; [by exists a, s'|done]. Qed.
End total.

(** One step of a run that is known to succeed. *)
Ltac wp_step :=
  lazymatch goal with
  | |- total (mbind _ _) _ _ => apply total_bind
  | |- total (mret ?a) ?s ?Q => change (Q a s)
  | |- total get_st ?s ?Q => change (Q s s)
  | |- total (put_st ?s') ?s ?Q => change (Q tt s')
  | |- total (modify ?f) ?s ?Q => change (Q tt (f s))
  end.
Ltac wp := repeat first [progress cbv beta zeta | wp_step].

(** ** The invariant *)

(** The limits that an 8-bit counter can hold, with the entries that the
    parser uses without asking. *)
Record limits_ok (lim : hid_limits) : Prop := {
  lim_stack : (1 ≤ HID_STATETABLE_STACK_DEPTH lim)%nat;
  lim_usage : (HID_USAGE_STACK_DEPTH lim ≤ 255)%nat;
  lim_paths : (2 ≤ HID_MAX_COLLECTIONS lim)%nat;
  lim_items : (HID_MAX_REPORTITEMS lim ≤ 255)%nat;
  lim_ids : (1 ≤ HID_MAX_REPORT_IDS lim ≤ 255)%nat;
}.

(** The entries of [CollectionPaths] in use: the root and those with a parent. *)
Definition in_use (paths : list HID_CollectionPath_t) (i : nat) : Prop :=
  i = 0%nat ∨ ∃ c, paths !! i = Some c ∧ is_Some (cp_Parent c).

(** The collections form a forest with root 0: entries are used from the
    front, and a parent stands before its children. *)
Record paths_ok (lim : hid_limits) (cur : option nat) (paths : list HID_CollectionPath_t) : Prop := {
  po_length : length paths = HID_MAX_COLLECTIONS lim;
  po_root : ∀ c, paths !! 0%nat = Some c → cp_Parent c = None;
  po_front : ∀ i j, in_use paths j → (i ≤ j)%nat → in_use paths i;
  po_parent : ∀ i c j, paths !! i = Some c → cp_Parent c = Some j → (j < i)%nat;
  po_cur : ∀ i, cur = Some i → in_use paths i ∧ (i < length paths)%nat;
}.

(** The items found refer to collections in use. *)
Definition item_ok (paths : list HID_CollectionPath_t) (it : HID_ReportItem_t) : Prop :=
  ∀ i, CollectionPath it = Some i → in_use paths i ∧ (i < length paths)%nat.

Record data_ok (lim : hid_limits) (d : HID_ReportInfo_t) : Prop := {
  do_items : length (ReportItems d) = HID_MAX_REPORTITEMS lim;
  do_total : 0 ≤ TotalReportItems d ≤ Z.of_nat (HID_MAX_REPORTITEMS lim);
  do_found : Forall (item_ok (CollectionPaths d)) (ReportItems d);
  do_ids : length (ReportIDSizes d) = HID_MAX_REPORT_IDS lim;
  do_reports : 1 ≤ TotalDeviceReports d ≤ Z.of_nat (HID_MAX_REPORT_IDS lim);
  do_sizes : Forall (λ s, length (ReportSizeBits s) = 3%nat) (ReportIDSizes d);
}.

Record parser_ok (lim : hid_limits) (p : parser) : Prop := {
  pk_stack : (1 ≤ length (StateTable p) ≤ HID_STATETABLE_STACK_DEPTH lim)%nat;
  pk_usages : (length (UsageList p) ≤ HID_USAGE_STACK_DEPTH lim)%nat;
  pk_id : Z.of_nat (CurrReportIDInfo p) < TotalDeviceReports (ParserData p);
  pk_paths : paths_ok lim (CurrCollectionPath p) (CollectionPaths (ParserData p));
  pk_data : data_ok lim (ParserData p);
}.

(** ** Lookups and stores within the arrays *)

Lemma store_Some {A} i (x : A) l : (i < length l)%nat → store i x l = Some (<[i := x]> l).
Proof. intros Hi. unfold store. by rewrite decide_True. Qed.

Section parser.
Context (lim : hid_limits) (Hlim : limits_ok lim) (filter : HID_ReportItem_t → bool) (junk : Z).

Lemma top_Some p : parser_ok lim p → ∃ t ts, StateTable p = t :: ts ∧ top p = Some t.
Proof.
  intros [Hs _ _ _ _]. unfold top. destruct (StateTable p) as [|t ts]; [simpl in Hs; lia|eauto].
Qed.

(** Changes that keep the shape of the state. *)
Lemma with_table_ok f p : parser_ok lim p → parser_ok lim (with_table f p).
Proof. intros [Hs Hu Hi Hp Hd]. constructor; try done. simpl. by destruct (StateTable p). Qed.
Lemma with_usages_ok u m p :
  (length u ≤ HID_USAGE_STACK_DEPTH lim)%nat → parser_ok lim p → parser_ok lim (with_usages u m p).
Proof. intros ? [Hs Hu Hi Hp Hd]. by constructor. Qed.
Lemma with_stack_ok s p :
  (1 ≤ length s ≤ HID_STATETABLE_STACK_DEPTH lim)%nat → parser_ok lim p → parser_ok lim (with_stack s p).
Proof. intros ? [Hs Hu Hi Hp Hd]. by constructor. Qed.

Lemma next_usage_ok p u p' :
  next_usage p = (u, p') → parser_ok lim p →
  parser_ok lim p' ∧ ParserData p' = ParserData p ∧ CurrCollectionPath p' = CurrCollectionPath p ∧
  CurrReportIDInfo p' = CurrReportIDInfo p ∧ StateTable p' = StateTable p.
Proof.
  unfold next_usage. intros Hn Hp. destruct (UsageList p) as [|v us] eqn:E.
  - destruct (Minimum (UsageMinMax p) <=? Maximum (UsageMinMax p)); simplify_eq; [|done].
    split_and!; try done. apply with_usages_ok; [simpl; lia|done].
  - simplify_eq. split_and!; try done. apply with_usages_ok; [|done].
    destruct Hp as [_ Hu _ _ _]. rewrite E in Hu. simpl in Hu. lia.
Qed.

Definition keeps (m : M parser (option HID_Parse_ErrorCodes_t)) : Prop :=
  ∀ p, parser_ok lim p → total m p (λ _ p', parser_ok lim p').

Lemma set_sizes_ok n l u d :
  data_ok lim d → length l = HID_MAX_REPORT_IDS lim →
  Forall (λ s, length (ReportSizeBits s) = 3%nat) l → 1 ≤ n ≤ Z.of_nat (HID_MAX_REPORT_IDS lim) →
  data_ok lim (set_sizes n l u d).
Proof. intros [] ???. by constructor. Qed.

(** The entry that the report ID selects, new or known. *)
Lemma report_id_kept id l u p i s :
  parser_ok lim p → ReportIDSizes (ParserData p) !! i = Some s →
  l = <[i := {| rs_ReportID := id; ReportSizeBits := ReportSizeBits s |}]> (ReportIDSizes (ParserData p)) →
  parser_ok lim (with_data (set_sizes (TotalDeviceReports (ParserData p)) l u (ParserData p)) p).
Proof.
  intros [Hs Hu Hi Hp Hd] Hl ->. constructor; try done. cbn [ParserData with_data].
  apply set_sizes_ok; [done|rewrite length_insert; apply Hd| |apply Hd].
  apply Forall_insert; [apply Hd|]. cbn [ReportSizeBits].
  apply (Forall_lookup_1 _ _ _ _ (do_sizes _ _ Hd) Hl).
Qed.

Lemma find_report_id_lt id d i : find_report_id id d = Some i → Z.of_nat i < TotalDeviceReports d.
Proof.
  unfold find_report_id. intros [[i' s] [Hf ->]]%fmap_Some.
  apply list_find_Some in Hf as [Hl _]. apply lookup_lt_Some in Hl.
  rewrite length_take in Hl. cbn. lia.
Qed.

Lemma new_report_id_ok p :
  parser_ok lim p → TotalDeviceReports (ParserData p) ≠ Z.of_nat (HID_MAX_REPORT_IDS lim) →
  let d := ParserData p in let i := Z.to_nat (TotalDeviceReports d) in
  parser_ok lim (with_id i (with_data (set_sizes (u8 (TotalDeviceReports d + 1))
    (<[i := zero_size]> (ReportIDSizes d)) (UsingReportIDs d) d) p)).
Proof.
  intros [Hs Hu Hi Hp Hd] Hne d i. pose proof (do_reports _ _ Hd) as Hr. fold d in Hr, Hne.
  pose proof (lim_ids _ Hlim). assert (u8 (TotalDeviceReports d + 1) = TotalDeviceReports d + 1) as E
    by (apply u8_id; unfold is_u8; lia).
  constructor; try done; cbn; rewrite ?E; [lia|]. apply set_sizes_ok; [done| | |lia].
  - rewrite length_insert. apply Hd.
  - apply Forall_insert; [apply Hd|done].
Qed.

(** The end of the case, for the entry that was selected. *)
Lemma report_id_end id p q : parser_ok lim p → total (
  let d := ParserData p in
  s ← checked (ReportIDSizes d !! CurrReportIDInfo p);
  l ← checked (store (CurrReportIDInfo p)
        {| rs_ReportID := id; ReportSizeBits := ReportSizeBits s |} (ReportIDSizes d));
  put_st (with_data (set_sizes (TotalDeviceReports d) l true d) p);;
  mret (None : option HID_Parse_ErrorCodes_t)) q (λ _ p', parser_ok lim p').
Proof.
  intros Hp. pose proof (pk_data _ _ Hp) as Hd. pose proof (pk_id _ _ Hp) as Hi.
  assert (CurrReportIDInfo p < length (ReportIDSizes (ParserData p)))%nat as Hlt
    by (rewrite (do_ids _ _ Hd); pose proof (do_reports _ _ Hd); lia).
  destruct (lookup_lt_is_Some_2 _ _ Hlt) as [s Hs]. wp. apply (total_checked _ s); [done|].
  wp. eapply total_checked; [by apply store_Some|]. wp. by eapply report_id_kept.
Qed.

Lemma item_report_id_ok data : keeps (item_report_id lim data).
Proof.
  intros p0 Hp0. unfold item_report_id. wp. assert (parser_ok lim (set_id data p0)) as Hp
    by by apply with_table_ok. revert Hp. generalize (set_id data p0). clear p0 Hp0. intros p Hp.
  destruct (UsingReportIDs (ParserData p)) eqn:Hu; [|wp; by apply report_id_end].
  destruct (find_report_id _ _) as [i|] eqn:Hf; wp.
  { apply report_id_end. apply find_report_id_lt in Hf. destruct Hp. by constructor. }
  case_match eqn:Hmax; wp; [done|]. apply Z.eqb_neq in Hmax.
  pose proof (do_reports _ _ (pk_data _ _ Hp)). pose proof (do_ids _ _ (pk_data _ _ Hp)).
  eapply total_checked; [apply store_Some; lia|]. wp. apply report_id_end. rewrite <- Hu.
  by apply new_report_id_ok.
Qed.

(** *** Collections *)

Lemma free_path_spec n : ∀ i l,
  length l = HID_MAX_COLLECTIONS lim → (1 ≤ i < length l)%nat → (length l - i ≤ n)%nat →
  free_path lim n i l = Some None ∨
  ∃ k c, free_path lim n i l = Some (Some k) ∧ (i ≤ k < length l)%nat ∧ l !! k = Some c ∧
    cp_Parent c = None ∧ ∀ m, (i ≤ m < k)%nat → in_use l m.
Proof.
  induction n as [|n IH]; intros i l Hl Hi Hn; [lia|]. cbn [free_path].
  destruct (lookup_lt_is_Some_2 l i ltac:(lia)) as [c Hc]. rewrite Hc. cbn [mbind option_bind].
  destruct (cp_Parent c) as [j|] eqn:Hp.
  - case_decide; [by left|]. destruct (IH (S i) l) as [?|(k & c' & ? & ? & ? & ? & Hm)];
      [done|lia|lia|by left|right].
    exists k, c'. split_and!; try done; [lia..|]. intros m ?.
    destruct (decide (m = i)) as [->|]; [right; exists c; by rewrite Hp|apply Hm; lia].
  - right. exists i, c. split_and!; try done; [lia..|]. intros m ?. lia.
Qed.

Lemma in_use_insert i c l k :
  (i < length l)%nat → i ≠ 0%nat →
  in_use (<[i := c]> l) k ↔ (k = i ∧ is_Some (cp_Parent c)) ∨ (k ≠ i ∧ in_use l k).
Proof.
  intros Hi H0. unfold in_use. destruct (decide (k = i)) as [->|Hne].
  - rewrite list_lookup_insert_eq by done. split; [|intros [[_ ?]|[? _]]; [right; eauto|done]].
    intros [?|(c' & [= ->] & ?)]; [done|by left].
  - rewrite list_lookup_insert_ne by done. split; [by right|by intros [[? _]|[_ ?]]].
Qed.

Lemma in_use_root c l k : in_use (<[0%nat := c]> l) k ↔ in_use l k.
Proof.
  unfold in_use. destruct (decide (k = 0%nat)) as [->|]; [split; by left|].
  by rewrite list_lookup_insert_ne by done.
Qed.

Lemma paths_root_ok c l :
  paths_ok lim None l → cp_Parent c = None → paths_ok lim (Some 0%nat) (<[0%nat := c]> l).
Proof.
  intros [Hl Hr Hf Hp _] Hc. pose proof (lim_paths _ Hlim). constructor.
  - by rewrite length_insert.
  - intros c' Hc'. rewrite list_lookup_insert_eq in Hc' by lia. by simplify_eq.
  - intros i j. rewrite !in_use_root. apply Hf.
  - intros i c' j Hi Hj. destruct (decide (i = 0%nat)) as [->|].
    + rewrite list_lookup_insert_eq in Hi by lia. by simplify_eq.
    + rewrite list_lookup_insert_ne in Hi by done. by eapply Hp.
  - intros i [= <-]. rewrite length_insert. split; [by left|lia].
Qed.

Lemma paths_child_ok c c0 j k l :
  paths_ok lim (Some j) l → l !! k = Some c0 → cp_Parent c0 = None → (1 ≤ k)%nat →
  (∀ m, (1 ≤ m < k)%nat → in_use l m) → cp_Parent c = Some j →
  paths_ok lim (Some k) (<[k := c]> l).
Proof.
  intros [Hl Hr Hf Hp Hcur] Hk Hk0 H1 Hm Hc. pose proof (lookup_lt_Some _ _ _ Hk) as Hlt.
  destruct (Hcur j eq_refl) as [Hj Hjl].
  assert (¬ in_use l k) as Hfree.
  { intros [?|(c1 & Hc1 & Hs)]; [lia|]. simplify_eq. rewrite Hk0 in Hs. by destruct Hs. }
  assert (j < k)%nat as Hjk.
  { destruct (decide (k ≤ j)%nat) as [Hle|]; [|lia]. destruct Hfree. by eapply Hf. }
  constructor.
  - by rewrite length_insert.
  - intros c' Hc'. rewrite list_lookup_insert_ne in Hc' by lia. by apply Hr.
  - intros i i'. rewrite !in_use_insert by lia. rewrite Hc. intros Hi' Hle.
    destruct (decide (i = k)) as [->|Hne]; [by left; eauto|right; split; [done|]].
    destruct Hi' as [[-> _]|[_ Hu]]; [|by eapply Hf].
    destruct (decide (i = 0%nat)) as [->|]; [by left|apply Hm; lia].
  - intros i c' j' Hi Hj'. destruct (decide (i = k)) as [->|].
    + rewrite list_lookup_insert_eq in Hi by done. by simplify_eq.
    + rewrite list_lookup_insert_ne in Hi by done. by eapply Hp.
  - intros i [= <-]. rewrite length_insert, in_use_insert, Hc by lia. split; [by left; eauto|done].
Qed.

(** New and changed collections keep the items that were found. *)
Lemma set_paths_ok l d :
  data_ok lim d → length l = length (CollectionPaths d) →
  (∀ i, in_use (CollectionPaths d) i → in_use l i) → data_ok lim (set_paths l d).
Proof.
  intros [] Hlen Hmono. constructor; try done. cbn [ReportItems CollectionPaths set_paths].
  eapply Forall_impl; [done|]. intros it Hit i Hi. rewrite Hlen. destruct (Hit i Hi). auto.
Qed.

Lemma collection_entered l i p :
  parser_ok lim p → paths_ok lim (Some i) l →
  (∀ k, in_use (CollectionPaths (ParserData p)) k → in_use l k) →
  parser_ok lim (with_path (Some i) (with_data (set_paths l (ParserData p)) p)).
Proof.
  intros [Hs Hu Hi Hp Hd] Hl Hmono. constructor; try done. apply set_paths_ok; [done| |done].
  by rewrite (po_length _ _ _ Hl), (po_length _ _ _ Hp).
Qed.

Lemma item_collection_ok data : keeps (item_collection lim data).
Proof.
  intros p Hp. destruct (top_Some p Hp) as (t & ts & _ & Ht). pose proof (pk_paths _ _ Hp) as Hpo.
  pose proof (lim_paths _ Hlim) as H2. pose proof (po_length _ _ _ Hpo) as Hlen.
  unfold item_collection. wp. apply (total_checked _ t); [done|]. wp.
  destruct (next_usage p) as [u p'] eqn:Hn. pose proof (next_usage_ok _ _ _ Hn Hp) as (Hp' & Hd & _).
  destruct (CurrCollectionPath p) as [j|] eqn:Hcur.
  - destruct (free_path_spec (HID_MAX_COLLECTIONS lim) 1 (CollectionPaths (ParserData p)))
      as [Hf|(k & c & Hf & Hk & Hc & Hc0 & Hm)]; [done|lia|lia|..];
      (eapply total_checked; [exact Hf|]); cbv iota; wp; [done|].
    eapply total_checked; [exact Hc|]. wp.
    eapply total_checked; [apply store_Some; lia|]. wp.
    rewrite <- Hd in *. apply collection_entered; [done|eapply paths_child_ok; [done..|lia|done|done]|].
    intros i Hi. rewrite in_use_insert by lia. cbn. destruct (decide (i = k)); [left|right]; eauto.
  - wp. cbv iota. wp. destruct (lookup_lt_is_Some_2 (CollectionPaths (ParserData p)) 0) as [c Hc]; [lia|].
    eapply total_checked; [exact Hc|]. wp.
    eapply total_checked; [apply store_Some; lia|]. wp.
    rewrite <- Hd in *. apply collection_entered; [done| |intros i; by rewrite in_use_root].
    apply paths_root_ok; [done|]. exact (po_root _ _ _ Hpo _ Hc).
Qed.

(** The parent of a collection in use is in use. *)
Lemma parent_in_use cur l i c j :
  paths_ok lim cur l → l !! i = Some c → cp_Parent c = Some j → in_use l j ∧ (j < length l)%nat.
Proof.
  intros Hl Hc Hj. pose proof (po_parent _ _ _ Hl _ _ _ Hc Hj) as Hlt.
  apply lookup_lt_Some in Hc as Hi. split; [|lia].
  apply (po_front _ _ _ Hl _ i); [|lia]. right. exists c. by rewrite Hj.
Qed.

Lemma item_end_collection_ok : keeps item_end_collection.
Proof.
  intros p Hp. unfold item_end_collection. wp. pose proof (pk_paths _ _ Hp) as Hl.
  destruct (CurrCollectionPath p) as [i|] eqn:Hcur; [|by wp].
  destruct (po_cur _ _ _ Hl i eq_refl) as [_ Hi]. destruct (lookup_lt_is_Some_2 _ _ Hi) as [c Hc].
  wp. eapply total_checked; [done|]. wp. destruct Hp as [Hs Hu Hid Hpo Hd]. constructor; try done.
  destruct Hl as [??? Hpar Hc']. constructor; try done. intros j Hj. by eapply parent_in_use.
Qed.

(** *** Data items *)

Lemma set_largest_ok n l d :
  data_ok lim d → length l = HID_MAX_REPORT_IDS lim →
  Forall (λ s, length (ReportSizeBits s) = 3%nat) l → data_ok lim (set_largest n l d).
Proof. intros [] ??. by constructor. Qed.
Lemma set_items_ok n l d :
  data_ok lim d → length l = HID_MAX_REPORTITEMS lim → 0 ≤ n ≤ Z.of_nat (HID_MAX_REPORTITEMS lim) →
  Forall (item_ok (CollectionPaths d)) l → data_ok lim (set_items n l d).
Proof. intros [] ???. by constructor. Qed.
(** The state after the size of the report has been counted. *)
Lemma count_bits_ok p s n b k :
  parser_ok lim p → ReportIDSizes (ParserData p) !! CurrReportIDInfo p = Some s →
  parser_ok lim (with_data (set_largest n
    (<[CurrReportIDInfo p := {| rs_ReportID := rs_ReportID s;
       ReportSizeBits := <[k := b]> (ReportSizeBits s) |}]> (ReportIDSizes (ParserData p)))
    (ParserData p)) p).
Proof.
  intros [Hs Hu Hi Hp Hd] Hl. constructor; try done. apply set_largest_ok; [done| |].
  - rewrite length_insert. apply Hd.
  - apply Forall_insert; [apply Hd|]. cbn. rewrite length_insert.
    exact (Forall_lookup_1 _ _ _ _ (do_sizes _ _ Hd) Hl).
Qed.

Lemma add_item_ok (b : bool) it p :
  parser_ok lim p → item_ok (CollectionPaths (ParserData p)) it →
  TotalReportItems (ParserData p) ≠ Z.of_nat (HID_MAX_REPORTITEMS lim) →
  let d := ParserData p in
  parser_ok lim (with_data (set_items (if b then u8 (TotalReportItems d + 1) else TotalReportItems d)
    (<[Z.to_nat (TotalReportItems d) := it]> (ReportItems d)) d) p).
Proof.
  intros [Hs Hu Hi Hp Hd] Hit Hne d. pose proof (do_total _ _ Hd). pose proof (lim_items _ Hlim).
  constructor; try done. apply set_items_ok; [done|rewrite length_insert; apply Hd| |].
  - subst d. destruct b; [|lia]. rewrite u8_id by (unfold is_u8; lia). lia.
  - apply Forall_insert; [apply Hd|done].
Qed.

Lemma item_data_ok kind data n : keeps (item_data lim filter junk n kind data).
Proof.
  induction n as [|n IH]; intros p Hp; cbn [item_data]; [done|].
  destruct (top_Some p Hp) as (t & ts & _ & Ht).
  pose proof (pk_data _ _ Hp) as Hd. pose proof (pk_id _ _ Hp) as Hi.
  assert (CurrReportIDInfo p < length (ReportIDSizes (ParserData p)))%nat as Hlt
    by (rewrite (do_ids _ _ Hd); pose proof (do_reports _ _ Hd); lia).
  destruct (lookup_lt_is_Some_2 _ _ Hlt) as [s Hs].
  pose proof (Forall_lookup_1 _ _ _ _ (do_sizes _ _ Hd) Hs) as H3. cbv beta in H3.
  destruct (lookup_lt_is_Some_2 (ReportSizeBits s) (ItemTypes_index kind)) as [bits Hb];
    [rewrite H3; destruct kind; simpl; lia|].
  wp. apply (total_checked _ t); [done|]. wp.
  destruct (next_usage p) as [u p'] eqn:Hn.
  pose proof (next_usage_ok _ _ _ Hn Hp) as (Hp' & Ed & Ec & Ei & _).
  wp. eapply total_checked; [exact Hs|]. wp. eapply total_checked; [exact Hb|]. wp.
  eapply total_checked; [by apply store_Some|]. wp.
  rewrite <- Ed, <- Ei in *. set (p1 := with_data _ p').
  assert (parser_ok lim p1) as Hp1 by by apply count_bits_ok. fold p1.
  case_match eqn:Hmax; wp; [done|]. apply Z.eqb_neq in Hmax.
  pose proof (pk_data _ _ Hp1) as Hd1. pose proof (do_total _ _ Hd1). pose proof (do_items _ _ Hd1).
  change (set_largest _ _ _) with (ParserData p1) in Hmax |- *.
  eapply total_checked; [apply store_Some; lia|]. wp. apply IH. apply add_item_ok; try done.
  intros i Hi'. cbn in Hi'. change (CollectionPaths (ParserData p1)) with (CollectionPaths (ParserData p')).
  apply (po_cur _ _ _ (pk_paths _ _ Hp')). by rewrite Ec.
Qed.

(** *** One item, all items *)

Lemma item_push_ok p : parser_ok lim p → total (
  if decide (length (StateTable p) = HID_STATETABLE_STACK_DEPTH lim) then
    mret (Some HID_PARSE_HIDStackOverflow)
  else t ← checked (top p); put_st (with_stack (t :: StateTable p) p);; mret None) p
  (λ _ p', parser_ok lim p').
Proof.
  intros Hp. destruct (top_Some p Hp) as (t & ts & Hs & Ht). case_decide; [done|].
  wp. apply (total_checked _ t); [done|]. wp. apply with_stack_ok; [|done].
  pose proof (pk_stack _ _ Hp). cbn. lia.
Qed.

Lemma item_pop_ok p : parser_ok lim p → total (
  match StateTable p with
  | _ :: t :: ts => put_st (with_stack (t :: ts) p);; mret None
  | _ => mret (Some HID_PARSE_HIDStackUnderflow)
  end) p (λ _ p', parser_ok lim p').
Proof.
  intros Hp. pose proof (pk_stack _ _ Hp) as Hs. destruct (StateTable p) as [|? [|t ts]]; try done.
  wp. apply with_stack_ok; [|done]. simpl in Hs |- *. lia.
Qed.

Lemma item_usage_ok (b : bool) data p : parser_ok lim p → total (
  if decide (length (UsageList p) = HID_USAGE_STACK_DEPTH lim) then
    mret (Some HID_PARSE_UsageListOverflow)
  else
    when b (modify (set_page (Z.shiftr data 16)));;
    modify (λ p, with_usages (UsageList p ++ [u16 data]) (UsageMinMax p) p);; mret None) p
  (λ _ p', parser_ok lim p').
Proof.
  intros Hp. pose proof (pk_usages _ _ Hp). case_decide; [done|].
  destruct b; unfold when; wp; (apply with_usages_ok; [rewrite length_app; simpl; lia|]);
    [by apply with_table_ok|done].
Qed.

Lemma item_main_ok kind data p : parser_ok lim p → total (
  t ← checked (top p); item_data lim filter junk (Z.to_nat (ReportCount t)) kind data) p
  (λ _ p', parser_ok lim p').
Proof.
  intros Hp. destruct (top_Some p Hp) as (t & ts & Hs & Ht).
  wp. apply (total_checked _ t); [done|]. by apply item_data_ok.
Qed.

Lemma process_item_ok item data : keeps (process_item lim filter junk item data).
Proof.
  unfold process_item. cbv zeta. intros p Hp. wp.
  repeat match goal with |- total (if ?x =? ?y then _ else _) _ _ => destruct (x =? y) end;
    try solve [by apply item_push_ok|by apply item_pop_ok|by apply item_usage_ok
              |by apply item_main_ok|by apply item_report_id_ok|by apply item_collection_ok
              |by apply item_end_collection_ok];
    wp; try done; try (by apply with_table_ok); apply with_usages_ok; auto; apply (pk_usages _ _ Hp).
Qed.

(** The data bytes that the prefix of an item announces. *)
Definition item_size (item : Z) : nat :=
  let size := Z.land item HID_RI_DATA_SIZE_MASK in
  if size =? HID_RI_DATA_BITS_32 then 4 else
  if size =? HID_RI_DATA_BITS_16 then 2 else
  if size =? HID_RI_DATA_BITS_8 then 1 else 0.

Lemma item_value_Some item mem pre tl :
  mem = pre ++ tl → (item_size item ≤ length tl)%nat →
  ∃ data, item_value item mem (length pre) = Some (Z.of_nat (item_size item), data).
Proof.
  intros -> Hlen. unfold item_value, item_size in *.
  assert (∀ k, (pre ++ tl) !! (length pre + k)%nat = tl !! k) as E
    by (intros k; by rewrite lookup_app_r, Nat.add_comm, Nat.add_sub by lia).
  rewrite !E, <- (Nat.add_0_r (length pre)), E.
  repeat case_match; destruct tl as [|b0 [|b1 [|b2 [|b3 tl]]]]; simpl in *; try lia; eauto.
Qed.

(** A descriptor that ends where its last item ends. *)
Fixpoint whole_items (n : nat) (desc : list Z) : bool :=
  match n, desc with
  | _, [] => true
  | O, _ => false
  | S n, item :: tl =>
      bool_decide (item_size item ≤ length tl)%nat && whole_items n (drop (item_size item) tl)
  end.

Lemma process_items_ok n : ∀ desc pre fuel p,
  parser_ok lim p → whole_items n desc = true → Z.of_nat (length desc) < 65536 →
  (length desc < fuel)%nat →
  total (process_items lim filter junk fuel (pre ++ desc) (length pre) (Z.of_nat (length desc))) p
    (λ _ p', parser_ok lim p').
Proof.
  induction n as [|n IH]; intros desc pre fuel p Hp Hw Hlen Hfuel;
    (destruct fuel as [|fuel]; [lia|]); destruct desc as [|item tl]; try done; cbn [process_items].
  1-2: change (Z.of_nat (length []) =? 0) with true; cbv iota; wp; case_match; by wp.
  cbn [whole_items] in Hw. apply andb_true_iff in Hw as [Hsz%bool_decide_eq_true Hw].
  rewrite (proj2 (Z.eqb_neq _ 0)) by (simpl; lia). wp.
  eapply total_checked; [by rewrite list_lookup_middle|]. wp.
  destruct (item_value_Some item (pre ++ item :: tl) (pre ++ [item]) tl) as [data Hv];
    [by rewrite <- app_assoc|done|].
  rewrite length_app, Nat.add_1_r in Hv. eapply total_checked; [exact Hv|]. cbv iota. wp.
  eapply total_mono; [|by apply process_item_ok]. intros e p1 Hp1. cbv beta.
  destruct e as [e|]; [by wp|]. cbv iota. wp.
  assert (∀ p2, parser_ok lim p2 → total (process_items lim filter junk fuel (pre ++ item :: tl)
    (S (length pre) + Z.to_nat (Z.of_nat (item_size item)))
    (u16 (u16 (Z.of_nat (length (item :: tl)) - 1) - Z.of_nat (item_size item)))) p2
    (λ _ p', parser_ok lim p')) as Hrest.
  { intros p2 Hp2. simpl in Hlen, Hfuel.
    replace (pre ++ item :: tl) with ((pre ++ item :: take (item_size item) tl) ++ drop (item_size item) tl)
      by (rewrite <- app_assoc; simpl; by rewrite take_drop).
    replace (S (length pre) + Z.to_nat (Z.of_nat (item_size item)))%nat
      with (length (pre ++ item :: take (item_size item) tl))
      by (rewrite length_app; simpl; rewrite length_take; lia).
    rewrite !u16_id by (unfold is_u16; rewrite ?u16_id by (unfold is_u16; simpl; lia); simpl; lia).
    replace (Z.of_nat (length (item :: tl)) - 1 - Z.of_nat (item_size item))
      with (Z.of_nat (length (drop (item_size item) tl))) by (rewrite length_drop; simpl; lia).
    apply IH; try done; rewrite length_drop; lia. }
  destruct (Z.land item HID_RI_TYPE_MASK =? HID_RI_TYPE_MAIN); unfold when; wp; apply Hrest; [|done].
  apply with_usages_ok; [simpl; lia|done].
Qed.
End parser.

(** ** The initial state *)

Lemma parser_init_ok lim : limits_ok lim → parser_ok lim (parser_init lim).
Proof.
  intros Hlim. pose proof (lim_stack _ Hlim). pose proof (lim_ids _ Hlim).
  assert (∀ i c, replicate (HID_MAX_COLLECTIONS lim) zero_collection !! i = Some c → c = zero_collection)
    as Hz by (intros i c [-> _]%lookup_replicate; done).
  constructor; cbn; try (simpl; lia).
  - constructor; try done.
    + by rewrite length_replicate.
    + by intros c ->%Hz.
    + intros i j [->|(c & ->%Hz & [? ?])] Hle; [left; lia|done].
    + by intros i c j ->%Hz.
  - constructor; cbn; rewrite ?length_replicate; try lia.
    + apply Forall_replicate. by intros i.
    + by apply Forall_replicate.
Qed.

(** C38: For every report descriptor of fewer than 65536 bytes that ends with a
    whole item, whatever its items are and whichever items the filter keeps,
    the parser returns and has used every array within its bounds: the stack
    of state tables, the list of usages, the report items, the report sizes
    and the collection paths; and a collection's parent always stands before
    it, so that the walk from an item to the outermost collection ends. *)
Theorem ProcessHIDReport_safe lim filter junk desc :
  limits_ok lim → whole_items (length desc) desc = true → Z.of_nat (length desc) < 65536 →
  ∃ e p, USB_ProcessHIDReport lim filter junk desc (Z.of_nat (length desc)) = Ok e p ∧
         parser_ok lim p.
Proof.
  intros Hlim Hw Hlen. unfold USB_ProcessHIDReport. rewrite Nat2Z.id.
  apply (total_run _ _ (λ _ p', parser_ok lim p')).
  apply (process_items_ok lim Hlim filter junk (length desc) desc []); [by apply parser_init_ok|done|done|lia].
Qed.

(** A descriptor that ends inside its only item is read past its end. *)
Lemma ProcessHIDReport_truncated lim filter junk item data :
  (length data < item_size item)%nat →
  ∃ p, USB_ProcessHIDReport lim filter junk (item :: data) (Z.of_nat (S (length data))) =
       Fault Undefined p.
Proof.
  intros Hlen. exists (parser_init lim). unfold USB_ProcessHIDReport. rewrite Nat2Z.id.
  cbn [process_items]. rewrite (proj2 (Z.eqb_neq _ 0)) by lia.
  change ((item :: data) !! 0%nat) with (Some item). cbn [checked]. unfold mbind, M_bind, mret, M_ret.
  assert (item_value item (item :: data) 1 = None) as ->; [|done].
  unfold item_size, item_value in *.
  repeat case_match; destruct data as [|b0 [|b1 [|b2 [|b3 tl]]]]; simpl in *; try lia; done.
Qed.

Lemma ProcessHIDReport_safe_witness :
  ∃ e p, USB_ProcessHIDReport default_limits (λ _, true) 0 JoystickReport
           (Z.of_nat (length JoystickReport)) = Ok e p ∧ parser_ok default_limits p.
Proof.
  apply (ProcessHIDReport_safe default_limits (λ _, true) 0 JoystickReport).
  - constructor; simpl; lia.
  - vm_compute. reflexivity.
  - vm_compute. reflexivity.
Defined.
