(* ===== verification/HIDClassCommon.v ===== *)
(** * Report descriptors of the HID class

    The ready-made report descriptors and the boot reports of
    [LUFA/Drivers/USB/Class/Common/HIDClassCommon.h], checked with the parser
    of [HIDParser.c]. *)

From S2P Require Import Prelude StdDescriptors HIDParser.

(** ** The descriptors *)

Definition var_abs : Z := Z.lor (Z.lor HID_IOF_DATA HID_IOF_VARIABLE) HID_IOF_ABSOLUTE.
Definition axis_bits (MinAxisVal MaxAxisVal : Z) : Z :=
  if (MinAxisVal >=? -128) && (MaxAxisVal <=? 127) then 8 else 16.
(** [(Buttons % 8) ? (8 - (Buttons % 8)) : 0] *)
Definition pad_bits (Buttons : Z) : Z := if Buttons mod 8 =? 0 then 0 else 8 - Buttons mod 8.

Definition HID_DESCRIPTOR_JOYSTICK
    (MinAxisVal MaxAxisVal MinPhysicalVal MaxPhysicalVal Buttons : Z) : list Z :=
  concat [
    HID_RI_USAGE_PAGE Bits8 0x01;
    HID_RI_USAGE Bits8 0x04;
    HID_RI_COLLECTION Bits8 0x01;
      HID_RI_USAGE Bits8 0x01;
      HID_RI_COLLECTION Bits8 0x00;
        HID_RI_USAGE Bits8 0x30;
        HID_RI_USAGE Bits8 0x31;
        HID_RI_USAGE Bits8 0x32;
        HID_RI_LOGICAL_MINIMUM Bits16 MinAxisVal;
        HID_RI_LOGICAL_MAXIMUM Bits16 MaxAxisVal;
        HID_RI_PHYSICAL_MINIMUM Bits16 MinPhysicalVal;
        HID_RI_PHYSICAL_MAXIMUM Bits16 MaxPhysicalVal;
        HID_RI_REPORT_COUNT Bits8 3;
        HID_RI_REPORT_SIZE Bits8 (axis_bits MinAxisVal MaxAxisVal);
        HID_RI_INPUT Bits8 var_abs;
      HID_RI_END_COLLECTION Bits0 0;
      HID_RI_USAGE_PAGE Bits8 0x09;
      HID_RI_USAGE_MINIMUM Bits8 0x01;
      HID_RI_USAGE_MAXIMUM Bits8 Buttons;
      HID_RI_LOGICAL_MINIMUM Bits8 0x00;
      HID_RI_LOGICAL_MAXIMUM Bits8 0x01;
      HID_RI_REPORT_SIZE Bits8 0x01;
      HID_RI_REPORT_COUNT Bits8 Buttons;
      HID_RI_INPUT Bits8 var_abs;
      HID_RI_REPORT_SIZE Bits8 (pad_bits Buttons);
      HID_RI_REPORT_COUNT Bits8 0x01;
      HID_RI_INPUT Bits8 HID_IOF_CONSTANT;
    HID_RI_END_COLLECTION Bits0 0].

Definition HID_DESCRIPTOR_KEYBOARD (MaxKeys : Z) : list Z :=
  concat [
    HID_RI_USAGE_PAGE Bits8 0x01;
    HID_RI_USAGE Bits8 0x06;
    HID_RI_COLLECTION Bits8 0x01;
      HID_RI_USAGE_PAGE Bits8 0x07;
      HID_RI_USAGE_MINIMUM Bits8 0xE0;
      HID_RI_USAGE_MAXIMUM Bits8 0xE7;
      HID_RI_LOGICAL_MINIMUM Bits8 0x00;
      HID_RI_LOGICAL_MAXIMUM Bits8 0x01;
      HID_RI_REPORT_SIZE Bits8 0x01;
      HID_RI_REPORT_COUNT Bits8 0x08;
      HID_RI_INPUT Bits8 var_abs;
      HID_RI_REPORT_COUNT Bits8 0x01;
      HID_RI_REPORT_SIZE Bits8 0x08;
      HID_RI_INPUT Bits8 HID_IOF_CONSTANT;
      HID_RI_USAGE_PAGE Bits8 0x08;
      HID_RI_USAGE_MINIMUM Bits8 0x01;
      HID_RI_USAGE_MAXIMUM Bits8 0x05;
      HID_RI_REPORT_COUNT Bits8 0x05;
      HID_RI_REPORT_SIZE Bits8 0x01;
      HID_RI_OUTPUT Bits8 (Z.lor var_abs HID_IOF_NON_VOLATILE);
      HID_RI_REPORT_COUNT Bits8 0x01;
      HID_RI_REPORT_SIZE Bits8 0x03;
      HID_RI_OUTPUT Bits8 HID_IOF_CONSTANT;
      HID_RI_LOGICAL_MINIMUM Bits8 0x00;
      HID_RI_LOGICAL_MAXIMUM Bits16 0xFF;
      HID_RI_USAGE_PAGE Bits8 0x07;
      HID_RI_USAGE_MINIMUM Bits8 0x00;
      HID_RI_USAGE_MAXIMUM Bits8 0xFF;
      HID_RI_REPORT_COUNT Bits8 MaxKeys;
      HID_RI_REPORT_SIZE Bits8 0x08;
      HID_RI_INPUT Bits8 (Z.lor (Z.lor HID_IOF_DATA HID_IOF_ARRAY) HID_IOF_ABSOLUTE);
    HID_RI_END_COLLECTION Bits0 0].

Definition HID_DESCRIPTOR_MOUSE
    (MinAxisVal MaxAxisVal MinPhysicalVal MaxPhysicalVal Buttons : Z) (AbsoluteCoords : bool) :
    list Z :=
  concat [
    HID_RI_USAGE_PAGE Bits8 0x01;
    HID_RI_USAGE Bits8 0x02;
    HID_RI_COLLECTION Bits8 0x01;
      HID_RI_USAGE Bits8 0x01;
      HID_RI_COLLECTION Bits8 0x00;
        HID_RI_USAGE_PAGE Bits8 0x09;
        HID_RI_USAGE_MINIMUM Bits8 0x01;
        HID_RI_USAGE_MAXIMUM Bits8 Buttons;
        HID_RI_LOGICAL_MINIMUM Bits8 0x00;
        HID_RI_LOGICAL_MAXIMUM Bits8 0x01;
        HID_RI_REPORT_COUNT Bits8 Buttons;
        HID_RI_REPORT_SIZE Bits8 0x01;
        HID_RI_INPUT Bits8 var_abs;
        HID_RI_REPORT_COUNT Bits8 0x01;
        HID_RI_REPORT_SIZE Bits8 (pad_bits Buttons);
        HID_RI_INPUT Bits8 HID_IOF_CONSTANT;
        HID_RI_USAGE_PAGE Bits8 0x01;
        HID_RI_USAGE Bits8 0x30;
        HID_RI_USAGE Bits8 0x31;
        HID_RI_LOGICAL_MINIMUM Bits16 MinAxisVal;
        HID_RI_LOGICAL_MAXIMUM Bits16 MaxAxisVal;
        HID_RI_PHYSICAL_MINIMUM Bits16 MinPhysicalVal;
        HID_RI_PHYSICAL_MAXIMUM Bits16 MaxPhysicalVal;
        HID_RI_REPORT_COUNT Bits8 0x02;
        HID_RI_REPORT_SIZE Bits8 (axis_bits MinAxisVal MaxAxisVal);
        HID_RI_INPUT Bits8 (Z.lor (Z.lor HID_IOF_DATA HID_IOF_VARIABLE)
          (if AbsoluteCoords then HID_IOF_ABSOLUTE else HID_IOF_RELATIVE));
      HID_RI_END_COLLECTION Bits0 0;
    HID_RI_END_COLLECTION Bits0 0].

Definition HID_DESCRIPTOR_VENDOR
    (VendorPageNum CollectionUsage DataINUsage DataOUTUsage NumBytes : Z) : list Z :=
  concat [
    HID_RI_USAGE_PAGE Bits16 (Z.lor 0xFF00 VendorPageNum);
    HID_RI_USAGE Bits8 CollectionUsage;
    HID_RI_COLLECTION Bits8 0x01;
      HID_RI_USAGE Bits8 DataINUsage;
      HID_RI_LOGICAL_MINIMUM Bits8 0x00;
      HID_RI_LOGICAL_MAXIMUM Bits8 0xFF;
      HID_RI_REPORT_SIZE Bits8 0x08;
      HID_RI_REPORT_COUNT Bits8 NumBytes;
      HID_RI_INPUT Bits8 var_abs;
      HID_RI_USAGE Bits8 DataOUTUsage;
      HID_RI_LOGICAL_MINIMUM Bits8 0x00;
      HID_RI_LOGICAL_MAXIMUM Bits8 0xFF;
      HID_RI_REPORT_SIZE Bits8 0x08;
      HID_RI_REPORT_COUNT Bits8 NumBytes;
      HID_RI_OUTPUT Bits8 (Z.lor var_abs HID_IOF_NON_VOLATILE);
    HID_RI_END_COLLECTION Bits0 0].

(** ** The boot reports *)

Record USB_MouseReport_Data_t := {
  Button : Z;                    (** [uint8_t] *)
  X : Z;                         (** [int8_t] *)
  Y : Z;                         (** [int8_t] *)
}.

Definition MouseReport_bytes (r : USB_MouseReport_Data_t) : list Z := [Button r; u8 (X r); u8 (Y r)].

Record USB_KeyboardReport_Data_t := {
  Modifier : Z;                  (** [uint8_t] *)
  Reserved : Z;                  (** [uint8_t] *)
  KeyCode : list Z;              (** [uint8_t [6]] *)
}.

Definition KeyboardReport_bytes (r : USB_KeyboardReport_Data_t) : list Z :=
  Modifier r :: Reserved r :: KeyCode r.

(** ** The reports that they declare *)

(** The parser with as many items as its counter can count. *)
Definition item_limits : hid_limits :=
  {| HID_STATETABLE_STACK_DEPTH := 2; HID_USAGE_STACK_DEPTH := 8; HID_MAX_COLLECTIONS := 10;
     HID_MAX_REPORTITEMS := 255; HID_MAX_REPORT_IDS := 10 |}.

Definition parse_ok (lim : hid_limits) (d : list Z) : option HID_ReportInfo_t :=
  match USB_ProcessHIDReport lim (λ _, true) 0 d (Z.of_nat (length d)) with
  | Ok HID_PARSE_Successful p => Some (ParserData p)
  | _ => None
  end.

(** The sizes in bytes of the IN and of the OUT report. *)
Definition report_sizes (lim : hid_limits) (d : list Z) : option (option Z * option Z) :=
  (λ i, (USB_GetHIDReportSize i 0 HID_REPORT_ITEM_In, USB_GetHIDReportSize i 0 HID_REPORT_ITEM_Out))
    <$> parse_ok lim d.

(** Where the items of a report lie: direction, first bit and number of bits. *)
Definition report_layout (lim : hid_limits) (d : list Z) :
    option (list (HID_ReportItemTypes_t * Z * Z)) :=
  (λ i, map (λ r, (ItemType r, BitOffset r, BitSize (Attributes r)))
          (take (Z.to_nat (TotalReportItems i)) (ReportItems i))) <$> parse_ok lim d.

(** The bytes that hold [n] bits. *)
Definition bytes_for (n : Z) : Z := (n + 7) / 8.

(** A property of every number from [a] on, by evaluating all cases. *)
Lemma range_all (P : Z → Prop) `{!∀ x, Decision (P x)} a n :
  forallb (λ x, bool_decide (P x)) (seqZ a n) = true → ∀ x, a ≤ x < a + n → P x.
Proof.
  intros Hall x Hx. rewrite forallb_forall in Hall. apply (bool_decide_eq_true_1 _), Hall.
  rewrite <- list_elem_of_In. by apply elem_of_seqZ.
Qed.

Ltac by_range P a n :=
  refine (@range_all P (λ x, ltac:(cbv beta; apply _)) a n _ _ _); [vm_compute; reflexivity|lia].

(** The ready-made report descriptors declare the reports that their
    documentation promises, for every number of keys, buttons or bytes that
    the parser can hold: a keyboard has two bytes and one for each key, and one
    byte of LEDs; a mouse has a bit for each button, filled up to whole bytes,
    and two axes of one or two bytes; a joystick has three axes before its
    buttons; a vendor report has the same number of bytes both ways.  The
    layouts of the boot keyboard and mouse are those of their structs.  With
    the default limits of the parser a keyboard can have at most seven keys. *)
Lemma class_descriptors_ok :
  (∀ MaxKeys, 1 ≤ MaxKeys < 243 →
     report_sizes item_limits (HID_DESCRIPTOR_KEYBOARD MaxKeys) = Some (Some (2 + MaxKeys), Some 1)) ∧
  (∀ Buttons, 1 ≤ Buttons < 241 →
     report_sizes item_limits (HID_DESCRIPTOR_MOUSE (-127) 127 (-127) 127 Buttons false) =
       Some (Some (bytes_for Buttons + 2), Some 0) ∧
     report_sizes item_limits (HID_DESCRIPTOR_MOUSE 0 32767 0 32767 Buttons true) =
       Some (Some (bytes_for Buttons + 4), Some 0) ∧
     report_sizes item_limits (HID_DESCRIPTOR_JOYSTICK (-100) 100 (-1) 1 Buttons) =
       Some (Some (3 + bytes_for Buttons), Some 0) ∧
     report_sizes item_limits (HID_DESCRIPTOR_JOYSTICK (-2000) 2000 (-1) 1 Buttons) =
       Some (Some (6 + bytes_for Buttons), Some 0)) ∧
  (∀ NumBytes, 1 ≤ NumBytes < 128 →
     report_sizes item_limits (HID_DESCRIPTOR_VENDOR 0 1 2 3 NumBytes) =
       Some (Some NumBytes, Some NumBytes)) ∧
  report_layout default_limits (HID_DESCRIPTOR_KEYBOARD 6) =
    Some (map (λ i, (HID_REPORT_ITEM_In, i, 1)) (seqZ 0 8) ++
          map (λ i, (HID_REPORT_ITEM_Out, i, 1)) (seqZ 0 5) ++
          map (λ i, (HID_REPORT_ITEM_In, 16 + 8 * i, 8)) (seqZ 0 6)) ∧
  report_layout default_limits (HID_DESCRIPTOR_MOUSE (-127) 127 (-127) 127 3 false) =
    Some (map (λ i, (HID_REPORT_ITEM_In, i, 1)) (seqZ 0 3) ++
          map (λ i, (HID_REPORT_ITEM_In, 8 + 8 * i, 8)) (seqZ 0 2)) ∧
  (∀ MaxKeys, 1 ≤ MaxKeys < 243 →
     is_Some (parse_ok default_limits (HID_DESCRIPTOR_KEYBOARD MaxKeys)) ↔ MaxKeys ≤ 7).
Proof.
  split_and!; [intros n Hn..|vm_compute; reflexivity|vm_compute; reflexivity|intros n Hn].
  - by_range (λ n, report_sizes item_limits (HID_DESCRIPTOR_KEYBOARD n) = Some (Some (2 + n), Some 1)) 1 242.
  - split_and!.
    + by_range (λ n, report_sizes item_limits (HID_DESCRIPTOR_MOUSE (-127) 127 (-127) 127 n false) =
        Some (Some (bytes_for n + 2), Some 0)) 1 240.
    + by_range (λ n, report_sizes item_limits (HID_DESCRIPTOR_MOUSE 0 32767 0 32767 n true) =
        Some (Some (bytes_for n + 4), Some 0)) 1 240.
    + by_range (λ n, report_sizes item_limits (HID_DESCRIPTOR_JOYSTICK (-100) 100 (-1) 1 n) =
        Some (Some (3 + bytes_for n), Some 0)) 1 240.
    + by_range (λ n, report_sizes item_limits (HID_DESCRIPTOR_JOYSTICK (-2000) 2000 (-1) 1 n) =
        Some (Some (6 + bytes_for n), Some 0)) 1 240.
  - by_range (λ n, report_sizes item_limits (HID_DESCRIPTOR_VENDOR 0 1 2 3 n) =
      Some (Some n, Some n)) 1 127.
  - rewrite <- (bool_decide_eq_true (n ≤ 7)), <- (bool_decide_eq_true (is_Some _)), <- Bool.eq_iff_eq_true.
    by_range (λ n, bool_decide (is_Some (parse_ok default_limits (HID_DESCRIPTOR_KEYBOARD n))) =
      bool_decide (n ≤ 7)) 1 242.
Qed.
