(* ===== verification/DescriptorFacts.v ===== *)
(** * The descriptors of the controller

    The descriptors of [src/Firmware/Descriptors.c] against the code of the
    USB library that reads such descriptors: the walk over a configuration
    and the parser of report descriptors; and against the packets that the
    firmware exchanges. *)

From S2P Require Import Prelude StdDescriptors Descriptors ConfigDescriptors HIDParser.

(** ** The search for a descriptor *)

(** Searching for a descriptor type in well-formed descriptors ends, and
    stops at the first descriptor of that type after the current one; when
    there is none, no bytes remain and the position is after the last
    descriptor.  The two bytes after the descriptors must be readable. *)
Lemma GetNextDescriptorOfType_spec mem tail pre d rest fuel Type_ :
  (2 ≤ length tail)%nat → desc_wf d → Forall desc_wf rest →
  mem = pre ++ d ++ concat rest ++ tail → (S (length rest) < fuel)%nat →
  USB_GetNextDescriptorOfType mem fuel Type_ (stands_at pre d rest) =
  Ok tt match find_type Type_ rest with
        | Some (skipped, d', rest') => stands_at (pre ++ d ++ concat skipped) d' rest'
        | None => stands_past (pre ++ d ++ concat rest)
        end.
Proof. intros. by apply (of_type_run mem tail). Qed.

(** When the type does not occur and nothing is readable after the
    descriptors, the search reads out of bounds: after the last descriptor it
    looks at the type byte of the next one before it checks that no bytes
    remain. *)
Lemma GetNextDescriptorOfType_overread mem d fuel Type_ :
  desc_wf d → mem = d → (0 < fuel)%nat →
  ∃ s, USB_GetNextDescriptorOfType mem fuel Type_ (stands_at [] d []) = Fault Undefined s.
Proof.
  intros Hwf -> Hfuel. destruct fuel as [|fuel]; [lia|].
  exists (stands_past d). cbn [USB_GetNextDescriptorOfType]. unfold mbind, M_bind, get_st.
  rewrite (proj2 (Z.eqb_neq _ 0))
    by (destruct Hwf; unfold stands_at; simpl; rewrite length_app; simpl; lia).
  rewrite (next_desc d [] [] d []) by (done || by rewrite !app_nil_r).
  unfold DESCRIPTOR_TYPE. simpl. rewrite lookup_ge_None_2 by lia. done.
Qed.

(** A descriptor whose size byte is zero makes the search loop for ever:
    no number of turns is enough. *)
Lemma GetNextDescriptorOfType_zero_size mem loc rem t Type_ fuel :
  mem !! loc = Some 0 → mem !! S loc = Some t → t ≠ Type_ → 0 < rem →
  USB_GetNextDescriptorOfType mem fuel Type_ {| BytesRem := rem; CurrConfigLoc := loc |} =
  Fault OutOfFuel {| BytesRem := rem; CurrConfigLoc := loc |}.
Proof.
  intros Hsz Ht Hne Hrem. induction fuel as [|fuel IH]; [done|].
  cbn [USB_GetNextDescriptorOfType].
  unfold USB_GetNextDescriptor, DESCRIPTOR_SIZE, DESCRIPTOR_TYPE, mbind, M_bind, get_st, put_st.
  cbn [BytesRem CurrConfigLoc]. rewrite (proj2 (Z.eqb_neq rem 0)) by lia.
  cbn [BytesRem CurrConfigLoc]. rewrite Hsz. cbn [checked mret M_ret].
  destruct (Z.ltb_spec rem 0); [lia|]. cbn [BytesRem CurrConfigLoc].
  rewrite Z.sub_0_r, Nat.add_0_r, Ht. cbn [checked mret M_ret].
  by rewrite (proj2 (Z.eqb_neq t Type_)).
Qed.

(** ** The configuration descriptor *)

Definition config_blocks : list (list Z) :=
  [Configuration_Header_bytes (Config ConfigurationDescriptor);
   Interface_bytes (HID_Interface ConfigurationDescriptor);
   HID_bytes (HID_JoystickHID ConfigurationDescriptor);
   Endpoint_bytes (HID_ReportOUTEndpoint ConfigurationDescriptor);
   Endpoint_bytes (HID_ReportINEndpoint ConfigurationDescriptor)].

(** The configuration descriptor is consistent: it is a sequence of
    well-formed descriptors, its total size is the announced one, and a host
    that walks it finds the interface, then the HID descriptor, then the OUT
    and then the IN endpoint, with the addresses and the size that the
    firmware uses, the polling interval of 8 ms that the connection-lost timer
    counts in, and the length of the report descriptor. *)
Lemma configuration_descriptor_ok :
  Configuration_bytes ConfigurationDescriptor = concat config_blocks ∧
  Forall desc_wf config_blocks ∧
  Z.of_nat (length (concat config_blocks)) =
    cfg_TotalConfigurationSize (Config ConfigurationDescriptor) ∧
  (let mem := Configuration_bytes ConfigurationDescriptor ++ [0; 0] in
   let start := {| BytesRem := sizeof_Configuration; CurrConfigLoc := 0 |} in
   let find t s := USB_GetNextDescriptorOfType mem 10 (DTYPE_code t) s in
   ∃ s1 s2 s3, find DTYPE_Interface start = Ok tt s1 ∧ find DTYPE_Endpoint s1 = Ok tt s2 ∧
     find DTYPE_Endpoint s2 = Ok tt s3 ∧
     take 7 (drop (CurrConfigLoc s2) mem) =
       [7; 5; JOYSTICK_OUT_EPADDR; EP_TYPE_INTERRUPT; JOYSTICK_EPSIZE; 0; 8] ∧
     take 7 (drop (CurrConfigLoc s3) mem) =
       [7; 5; JOYSTICK_IN_EPADDR; EP_TYPE_INTERRUPT; JOYSTICK_EPSIZE; 0; 8] ∧
     find DTYPE_Endpoint s3 = Ok tt {| BytesRem := 0; CurrConfigLoc := 41 |}) ∧
  hid_HIDReportLength (HID_JoystickHID ConfigurationDescriptor) = Z.of_nat (length JoystickReport).
Proof.
  split; [vm_compute; reflexivity|]. split; [apply (bool_decide_unpack _); vm_compute; exact I|].
  split; [vm_compute; reflexivity|]. split; [|reflexivity].
  eexists _, _, _. do 5 (split; [vm_compute; reflexivity|]). vm_compute. reflexivity.
Qed.

(** ** The descriptor callback *)

(** The callback returns no descriptor and the size zero, or an object that
    holds at least as many bytes as the returned size, all of them bytes, and
    (the report descriptor apart) with the requested type in its header. *)
Lemma GetDescriptor_object wValue wIndex :
  is_u16 wValue →
  match CALLBACK_USB_GetDescriptor wValue wIndex with
  | (None, size) => size = NO_DESCRIPTOR
  | (Some mem, size) =>
      0 < size ≤ Z.of_nat (length mem) ∧ bytes mem ∧
      (wValue / 256 ≠ DTYPE_Report → nth 1 mem 0 = wValue / 256)
  end.
Proof.
  intros Hv. unfold CALLBACK_USB_GetDescriptor.
  rewrite Z.shiftr_div_pow2 by lia. change (2 ^ 8) with 256.
  rewrite u8_id by (unfold is_u16, is_u8 in *; div_lia).
  destruct (Z.eqb_spec (wValue / 256) (DTYPE_code DTYPE_Device)) as [->|];
    [|destruct (Z.eqb_spec (wValue / 256) (DTYPE_code DTYPE_Configuration)) as [->|];
    [|destruct (Z.eqb_spec (wValue / 256) (DTYPE_code DTYPE_String)) as [->|];
    [destruct (_ =? STRING_ID_Language); [|destruct (_ =? STRING_ID_Manufacturer);
      [|destruct (_ =? STRING_ID_Product); [|destruct (_ =? STRING_ID_Serial)]]]
    |destruct (Z.eqb_spec (wValue / 256) DTYPE_HID) as [->|];
    [|destruct (Z.eqb_spec (wValue / 256) DTYPE_Report) as [->|]]]]];
    try reflexivity;
    (split; [split; apply (bool_decide_unpack _); vm_compute; exact I|]);
    (split; [apply (bool_decide_unpack _); vm_compute; exact I|]);
    intros; try reflexivity; try (by exfalso).
Qed.

(** ** The report descriptor *)

(** The limits of the parser with room for the 23 data items. *)
Definition wide_limits : hid_limits :=
  {| HID_STATETABLE_STACK_DEPTH := 2; HID_USAGE_STACK_DEPTH := 8; HID_MAX_COLLECTIONS := 10;
     HID_MAX_REPORTITEMS := 24; HID_MAX_REPORT_IDS := 10 |}.

Definition parsed_size (r : outcome parser HID_Parse_ErrorCodes_t) (id : Z)
    (type : HID_ReportItemTypes_t) : option Z :=
  match r with
  | Ok HID_PARSE_Successful p => USB_GetHIDReportSize (ParserData p) id type
  | _ => None
  end.

(** The report descriptor parses, and it declares the packets that the
    firmware exchanges: with the report ID, every input report (0x30, 0x21 and
    0x81) and every output report (0x01, 0x10, 0x80 and 0x82) has exactly
    [JOYSTICK_EPSIZE] bytes, and 23 data items are found.  The parser's
    default limit of 20 items is too small for this descriptor. *)
Lemma report_descriptor_ok :
  (let r := USB_ProcessHIDReport wide_limits (λ _, true) 0 JoystickReport
              (Z.of_nat (length JoystickReport)) in
   (∀ id, id ∈ [0x30; 0x21; 0x81] →
      Z.succ <$> parsed_size r id HID_REPORT_ITEM_In = Some JOYSTICK_EPSIZE) ∧
   (∀ id, id ∈ [0x01; 0x10; 0x80; 0x82] →
      Z.succ <$> parsed_size r id HID_REPORT_ITEM_Out = Some JOYSTICK_EPSIZE) ∧
   ∃ p, r = Ok HID_PARSE_Successful p ∧ TotalReportItems (ParserData p) = 23 ∧
        CurrCollectionPath p = None) ∧
  ∃ p, USB_ProcessHIDReport default_limits (λ _, true) 0 JoystickReport
         (Z.of_nat (length JoystickReport)) = Ok HID_PARSE_InsufficientReportItems p.
Proof.
  split; [|eexists; vm_compute; reflexivity].
  set (r := USB_ProcessHIDReport _ _ _ _ _). vm_compute in r. split_and!.
  - intros id Hid. repeat (apply elem_of_cons in Hid as [->|Hid]; [reflexivity|]).
    by apply elem_of_nil in Hid.
  - intros id Hid. repeat (apply elem_of_cons in Hid as [->|Hid]; [reflexivity|]).
    by apply elem_of_nil in Hid.
  - eexists. split; [reflexivity|]. by split.
Qed.
