(* ===== verification/State.v ===== *)
(** * The static variables of the firmware

    [response] holds the variables of [src/Firmware/Response.c], [joystick]
    those of [src/Firmware/Joystick.c].  [firmware E] is the whole memory of
    the program, where [E] is the state of the USB library and the hardware. *)

From S2P Require Import Prelude Datatypes Descriptors.

Record response := {
  replyBuffer : list Z;          (** [uint8_t replyBuffer[JOYSTICK_EPSIZE]] *)
  counter : Z;                   (** [uint8_t] *)
  nextPacketReady : bool;
}.

(** [State_t] of [Joystick.c]. *)
Inductive State_t := SYNCED | SYNC_START | SYNC_1 | OUT_OF_SYNC.

#[export] Instance State_eq_dec : EqDecision State_t.
Proof. solve_decision. Defined.

(** The two reports that the pointer [selectedReport] can point to. *)
Inductive report_ptr := PtrController | PtrIdle.

#[export] Instance report_ptr_eq_dec : EqDecision report_ptr.
Proof. solve_decision. Defined.

Record joystick := {
  serialInput : Serial_Input_Packet_t;
  controllerReport : USB_StandardReport_t;
  idleReport : USB_StandardReport_t;
  selectedReport : report_ptr;
  state : State_t;
  millis : Z;                    (** [uint16_t] *)
}.

Definition set_serialInput (p : Serial_Input_Packet_t) (j : joystick) : joystick :=
  {| serialInput := p; controllerReport := controllerReport j; idleReport := idleReport j;
     selectedReport := selectedReport j; state := state j; millis := millis j |}.
Definition set_controllerReport (r : USB_StandardReport_t) (j : joystick) : joystick :=
  {| serialInput := serialInput j; controllerReport := r; idleReport := idleReport j;
     selectedReport := selectedReport j; state := state j; millis := millis j |}.
Definition set_idleReport (r : USB_StandardReport_t) (j : joystick) : joystick :=
  {| serialInput := serialInput j; controllerReport := controllerReport j; idleReport := r;
     selectedReport := selectedReport j; state := state j; millis := millis j |}.
Definition set_selectedReport (p : report_ptr) (j : joystick) : joystick :=
  {| serialInput := serialInput j; controllerReport := controllerReport j;
     idleReport := idleReport j; selectedReport := p; state := state j; millis := millis j |}.
Definition set_state (st : State_t) (j : joystick) : joystick :=
  {| serialInput := serialInput j; controllerReport := controllerReport j;
     idleReport := idleReport j; selectedReport := selectedReport j; state := st;
     millis := millis j |}.
Definition set_millis (t : Z) (j : joystick) : joystick :=
  {| serialInput := serialInput j; controllerReport := controllerReport j;
     idleReport := idleReport j; selectedReport := selectedReport j; state := state j;
     millis := t |}.

(** [*selectedReport] *)
Definition deref_selected (j : joystick) : USB_StandardReport_t :=
  match selectedReport j with
  | PtrController => controllerReport j
  | PtrIdle => idleReport j
  end.

Record firmware (E : Type) := {
  usb : E;
  rsp : response;
  joy : joystick;
}.
Arguments usb {E}.
Arguments rsp {E}.
Arguments joy {E}.
Arguments Build_firmware {E}.

Definition set_usb {E} (e : E) (w : firmware E) : firmware E :=
  {| usb := e; rsp := rsp w; joy := joy w |}.
Definition set_rsp {E} (r : response) (w : firmware E) : firmware E :=
  {| usb := usb w; rsp := r; joy := joy w |}.
Definition set_joy {E} (j : joystick) (w : firmware E) : firmware E :=
  {| usb := usb w; rsp := rsp w; joy := j |}.

Definition on_usb {E A} : M E A → M (firmware E) A := zoom usb set_usb.
Definition on_rsp {E A} : M response A → M (firmware E) A := zoom rsp set_rsp.
Definition on_joy {E A} : M joystick A → M (firmware E) A := zoom joy set_joy.
