(* ===== verification/Interfaces.v ===== *)
(** * What the firmware relies on

    The firmware in [src/Firmware/*.c] calls the board (UART and LEDs, through
    [avr.h] and the LED driver) and the USB library (LUFA).  This file states
    both as type classes: the operations that the firmware calls, and what it
    relies on them to do.  The theorems about the firmware are proved against
    these classes; other files discharge them for the code of the drivers. *)

From S2P Require Import Prelude Datatypes Descriptors.

(** ** The board *)

Class BoardOps (E : Type) := {
  recv_byte : M E Z;
  send_byte : Z → M E unit;
  disable_rx_isr : M E unit;
  enable_rx_isr : M E unit;
  LEDs_SetAllLEDs : Z → M E unit;
}.

(** What the board looks like from outside: bytes received and not yet read,
    bytes sent so far, the mask of the LEDs that are lit and whether the
    receive interrupt is enabled. *)
Record board_view := {
  rx_pending : list Z;
  tx_log : list Z;
  leds_lit : Z;
  rx_isr_on : bool;
}.

Definition set_rx_pending (q : list Z) (v : board_view) : board_view :=
  {| rx_pending := q; tx_log := tx_log v; leds_lit := leds_lit v; rx_isr_on := rx_isr_on v |}.
Definition add_tx (c : Z) (v : board_view) : board_view :=
  {| rx_pending := rx_pending v; tx_log := tx_log v ++ [c]; leds_lit := leds_lit v;
     rx_isr_on := rx_isr_on v |}.
Definition set_leds (m : Z) (v : board_view) : board_view :=
  {| rx_pending := rx_pending v; tx_log := tx_log v; leds_lit := m; rx_isr_on := rx_isr_on v |}.
Definition set_rx_isr (b : bool) (v : board_view) : board_view :=
  {| rx_pending := rx_pending v; tx_log := tx_log v; leds_lit := leds_lit v; rx_isr_on := b |}.

(** ** The endpoints *)

Class EndpointOps (E : Type) := {
  USB_DeviceConfigured : M E bool;    (** [USB_DeviceState == DEVICE_STATE_Configured] *)
  Endpoint_SelectEndpoint : Z → M E unit;
  Endpoint_IsOUTReceived : M E bool;
  Endpoint_IsReadWriteAllowed : M E bool;
  Endpoint_Read_8 : M E Z;
  Endpoint_ClearOUT : M E unit;
  Endpoint_IsINReady : M E bool;
  Endpoint_Write_Stream_LE : list Z → Z → M E Z;   (** [BytesProcessed = NULL] *)
  Endpoint_ClearIN : M E unit;
}.

Definition ENDPOINT_RWSTREAM_NoError : Z := 0.

(** The two endpoints of the firmware: the selected address, the packet that
    waits in the OUT bank, the IN bank (when the host has taken its last
    packet) and the packets handed to the host so far. *)
Record ep_view := {
  ep_configured : bool;
  ep_selected : Z;
  ep_out : option (list Z);
  ep_in : option (list Z);
  ep_sent : list (list Z);
}.

Definition set_selected (a : Z) (v : ep_view) : ep_view :=
  {| ep_configured := ep_configured v; ep_selected := a; ep_out := ep_out v;
     ep_in := ep_in v; ep_sent := ep_sent v |}.
Definition set_out (o : option (list Z)) (v : ep_view) : ep_view :=
  {| ep_configured := ep_configured v; ep_selected := ep_selected v; ep_out := o;
     ep_in := ep_in v; ep_sent := ep_sent v |}.
Definition set_in (o : option (list Z)) (v : ep_view) : ep_view :=
  {| ep_configured := ep_configured v; ep_selected := ep_selected v; ep_out := ep_out v;
     ep_in := o; ep_sent := ep_sent v |}.
Definition send_in (p : list Z) (v : ep_view) : ep_view :=
  {| ep_configured := ep_configured v; ep_selected := ep_selected v; ep_out := ep_out v;
     ep_in := None; ep_sent := ep_sent v ++ [p] |}.

(** ** What the operations promise

    [runs m e r bv ev]: the operation returns [r] in a state that is again
    usable, in which the board looks like [bv] and the endpoints like [ev]. *)

Class PlatformView (E : Type) := {
  plat_ok : E → Prop;
  board : E → board_view;
  ep : E → ep_view;
}.

Definition runs {E A} `{!PlatformView E} (m : M E A) (e : E) (r : A)
    (bv : board_view) (ev : ep_view) : Prop :=
  ∃ e', m e = Ok r e' ∧ plat_ok e' ∧ board e' = bv ∧ ep e' = ev.

Class Platform (E : Type) `{!BoardOps E, !EndpointOps E, !PlatformView E} := {
  recv_byte_spec e b q :
    plat_ok e → rx_pending (board e) = b :: q →
    runs recv_byte e b (set_rx_pending q (board e)) (ep e);
  send_byte_spec e c :
    plat_ok e → is_u8 c → runs (send_byte c) e tt (add_tx c (board e)) (ep e);
  disable_rx_isr_spec e :
    plat_ok e → runs disable_rx_isr e tt (set_rx_isr false (board e)) (ep e);
  enable_rx_isr_spec e :
    plat_ok e → runs enable_rx_isr e tt (set_rx_isr true (board e)) (ep e);
  LEDs_SetAllLEDs_spec e m :
    plat_ok e → Z.land m LEDS_ALL_LEDS = m →
    runs (LEDs_SetAllLEDs m) e tt (set_leds m (board e)) (ep e);
  configured_spec e :
    plat_ok e → runs USB_DeviceConfigured e (ep_configured (ep e)) (board e) (ep e);
  select_spec e a :
    plat_ok e → a = JOYSTICK_IN_EPADDR ∨ a = JOYSTICK_OUT_EPADDR →
    runs (Endpoint_SelectEndpoint a) e tt (board e) (set_selected a (ep e));
  is_out_received_spec e :
    plat_ok e → ep_selected (ep e) = JOYSTICK_OUT_EPADDR →
    runs Endpoint_IsOUTReceived e (bool_decide (is_Some (ep_out (ep e)))) (board e) (ep e);
  rw_allowed_spec e l :
    plat_ok e → ep_selected (ep e) = JOYSTICK_OUT_EPADDR → ep_out (ep e) = Some l →
    runs Endpoint_IsReadWriteAllowed e (bool_decide (l ≠ [])) (board e) (ep e);
  read_8_spec e b l :
    plat_ok e → ep_selected (ep e) = JOYSTICK_OUT_EPADDR → ep_out (ep e) = Some (b :: l) →
    runs Endpoint_Read_8 e b (board e) (set_out (Some l) (ep e));
  clear_out_spec e l :
    plat_ok e → ep_selected (ep e) = JOYSTICK_OUT_EPADDR → ep_out (ep e) = Some l →
    runs Endpoint_ClearOUT e tt (board e) (set_out None (ep e));
  is_in_ready_spec e :
    plat_ok e → ep_selected (ep e) = JOYSTICK_IN_EPADDR →
    runs Endpoint_IsINReady e (bool_decide (is_Some (ep_in (ep e)))) (board e) (ep e);
  write_stream_spec e buf :
    plat_ok e → ep_selected (ep e) = JOYSTICK_IN_EPADDR → ep_in (ep e) = Some [] →
    bytes buf → length buf = Z.to_nat JOYSTICK_EPSIZE →
    runs (Endpoint_Write_Stream_LE buf JOYSTICK_EPSIZE) e ENDPOINT_RWSTREAM_NoError
      (board e) (set_in (Some buf) (ep e));
  clear_in_spec e l :
    plat_ok e → ep_selected (ep e) = JOYSTICK_IN_EPADDR → ep_in (ep e) = Some l →
    runs Endpoint_ClearIN e tt (board e) (send_in l (ep e));
}.

(** A fault-free operation of the driver inside the memory of the firmware. *)
Lemma runs_bind {E A B} `{!PlatformView E} (m : M E A) e r bv ev :
  runs m e r bv ev →
  ∃ e', plat_ok e' ∧ board e' = bv ∧ ep e' = ev ∧
        ∀ (k : A → M E B), (m ≫= k) e = k r e'.
Proof.
  intros (e' & Hm & Hok & Hb & He). exists e'. repeat split; [done..|].
  intros k. unfold mbind, M_bind. by rewrite Hm.
Qed.

(** ** The reference board

    The views themselves, with the operations as the laws describe them: it
    shows that the laws can hold together, and it makes every definition of
    the firmware executable. *)

Record ref_board := {
  rb_board : board_view;
  rb_ep : ep_view;
}.

Section reference.
Definition ref_b (f : board_view → board_view) : M ref_board unit := λ e,
  Ok tt {| rb_board := f (rb_board e); rb_ep := rb_ep e |}.
Definition ref_e (f : ep_view → ep_view) : M ref_board unit := λ e,
  Ok tt {| rb_board := rb_board e; rb_ep := f (rb_ep e) |}.
Definition ref_q {A} (f : ep_view → A) : M ref_board A := λ e, Ok (f (rb_ep e)) e.

(** With nothing received, the busy-wait of [recv_byte] does not end. *)
Definition ref_recv : M ref_board Z := λ e,
  match rx_pending (rb_board e) with
  | b :: q => Ok b {| rb_board := set_rx_pending q (rb_board e); rb_ep := rb_ep e |}
  | [] => Fault OutOfFuel e
  end.

Definition ref_read_8 : M ref_board Z := λ e,
  match ep_out (rb_ep e) with
  | Some (b :: l) => Ok b {| rb_board := rb_board e; rb_ep := set_out (Some l) (rb_ep e) |}
  | _ => Ok 0 e
  end.
End reference.

#[export] Instance ref_BoardOps : BoardOps ref_board := {
  recv_byte := ref_recv;
  send_byte c := ref_b (add_tx c);
  disable_rx_isr := ref_b (set_rx_isr false);
  enable_rx_isr := ref_b (set_rx_isr true);
  LEDs_SetAllLEDs m := ref_b (set_leds m);
}.

#[export] Instance ref_EndpointOps : EndpointOps ref_board := {
  USB_DeviceConfigured := ref_q ep_configured;
  Endpoint_SelectEndpoint a := ref_e (set_selected a);
  Endpoint_IsOUTReceived := ref_q (λ v, bool_decide (is_Some (ep_out v)));
  Endpoint_IsReadWriteAllowed := ref_q (λ v, bool_decide (default [] (ep_out v) ≠ []));
  Endpoint_Read_8 := ref_read_8;
  Endpoint_ClearOUT := ref_e (set_out None);
  Endpoint_IsINReady := ref_q (λ v, bool_decide (is_Some (ep_in v)));
  Endpoint_Write_Stream_LE buf len :=
    ref_e (set_in (Some (take (Z.to_nat len) buf)));; mret ENDPOINT_RWSTREAM_NoError;
  Endpoint_ClearIN := ref_e (λ v, send_in (default [] (ep_in v)) v);
}.

#[export] Instance ref_view : PlatformView ref_board := {
  plat_ok _ := True;
  board := rb_board;
  ep := rb_ep;
}.

#[export] Instance ref_platform : Platform ref_board.
Proof.
  split; unfold runs; simpl; try by eexists.
  - intros e b q _ Hq. unfold ref_recv. rewrite Hq. by eexists.
  - intros e l _ _ Hl. eexists. split; [|by repeat split]. unfold ref_q. by rewrite Hl.
  - intros e b l _ _ Hl. unfold ref_read_8. rewrite Hl. by eexists.
  - intros e buf _ _ _ _ Hlen.
    rewrite take_ge by (rewrite Hlen; done). by eexists.
  - intros e l _ _ Hl. eexists. split; [done|]. simpl. by rewrite Hl.
Qed.
