(* ===== verification/Response.v ===== *)
(** * The response manager: [src/Firmware/Response.c]

    One reply buffer of 64 bytes answers the requests of the console.  The
    code is compared with [reply_of], which gives the reply of every request
    as a list of bytes. *)

From S2P Require Import Prelude Datatypes EmulatedSPI Descriptors State.

Definition COUNTER_INCREMENT : Z := 3.

Definition mac_address : list Z := [0x79; 0x05; 0x44; 0xC6; 0xB5; 0x65].

Definition set_counter (c : Z) (s : response) : response :=
  {| replyBuffer := replyBuffer s; counter := c; nextPacketReady := nextPacketReady s |}.

(** The buffer is complete: [nextPacketReady = true]. *)
Definition set_ready (buf : list Z) (s : response) : response :=
  {| replyBuffer := buf; counter := counter s; nextPacketReady := true |}.

(** ** Preparing replies

    [data] is the array that the C argument points to, [len] the [uint8_t]
    argument [length]. *)

Definition prepare_reply (code command : Z) (data : list Z) (len : Z) : M response unit :=
  s ← get_st;
  if nextPacketReady s then mret tt else
  let buf := memset 0 (Z.to_nat JOYSTICK_EPSIZE) in
  buf ← checked (store_at 0 code buf);
  buf ← checked (store_at 1 command buf);
  buf ← checked (memcpy 2 data (Z.to_nat len) buf);
  put_st (set_ready buf s).

(** [selected] is [*selectedReportPtr]. *)
Definition prepare_uart_reply (selected : USB_StandardReport_t)
    (code subcommand : Z) (data : list Z) (len : Z) : M response unit :=
  s ← get_st;
  if nextPacketReady s then mret tt else
  let buf := memset 0 (Z.to_nat JOYSTICK_EPSIZE) in
  buf ← checked (store_at 0 0x21 buf);
  let s := set_counter (u8 (counter s + COUNTER_INCREMENT)) s in
  buf ← checked (store_at 1 (counter s) buf);
  let n := sizeof_StandardReport in
  buf ← checked (memcpy 2 (report_bytes selected) n buf);
  buf ← checked (store_at (n + 2) code buf);
  buf ← checked (store_at (n + 3) subcommand buf);
  buf ← checked (memcpy (n + 4) data (Z.to_nat len) buf);
  put_st (set_ready buf s).

Definition prepare_spi_reply (selected : USB_StandardReport_t) (address size : Z) :
  M response unit :=
  data ← checked (spi_read address size);
  let spiReplyBuffer := memset 0 (Z.to_nat (5 + size)) in
  b ← checked (store_at 0 (Z.land address 0xFF) spiReplyBuffer);
  b ← checked (store_at 1 (Z.land (Z.shiftr address 8) 0xFF) b);
  b ← checked (store_at 2 0x00 b);
  b ← checked (store_at 3 0x00 b);
  b ← checked (store_at 4 (u8 size) b);
  b ← checked (memcpy 5 data (Z.to_nat size) b);
  (* [sizeof(spiReplyBuffer)] is converted to the [uint8_t] parameter *)
  prepare_uart_reply selected 0x90 (Switch_Subcommand_code SUBCOMMAND_SPI_FLASH_READ)
    b (u8 (5 + size)).

Definition prepare_standard_report (standardReport : USB_StandardReport_t) :
  M response unit :=
  s ← get_st;
  if nextPacketReady s then mret tt else
  let s := set_counter (u8 (counter s + COUNTER_INCREMENT)) s in
  put_st s;;
  prepare_reply 0x30 (counter s) (report_bytes standardReport)
    (Z.of_nat sizeof_StandardReport).

Definition prepare_8101 : M response unit :=
  s ← get_st;
  if nextPacketReady s then mret tt else
  let n := length mac_address in
  let buf := memset 0 (n + 2) in
  buf ← checked (store_at 0 0x00 buf);
  buf ← checked (store_at 1 0x03 buf);
  buf ← checked (memcpy 2 mac_address n buf);
  prepare_reply 0x81 0x01 buf (Z.of_nat (n + 2)).

(** [for (i = 0; i < n; i++) buf[(n + 3) - i] = mac_address[i];] *)
Fixpoint flip_mac (i : nat) (mac : list Z) (buf : list Z) : option (list Z) :=
  match mac with
  | [] => Some buf
  | b :: mac =>
      buf ← store_at (length mac_address + 3 - i) b buf;
      flip_mac (S i) mac buf
  end.

(** The local array of the device-info branch; every byte of it is written. *)
Definition device_info : option (list Z) :=
  let n := length mac_address in
  let buf := memset 0 (n + 6) in
  buf ← store_at 0 0x03 buf;
  buf ← store_at 1 0x48 buf;
  buf ← store_at 2 0x03 buf;
  buf ← store_at 3 0x02 buf;
  buf ← flip_mac 0 mac_address buf;
  buf ← store_at (n + 4) 0x03 buf;
  store_at (n + 5) 0x02 buf.

(** ** The request handler

    [ram] is the data memory of the microcontroller by address: the pairing
    branch passes the address 0x03 as the data pointer. *)

Definition process_OUT_report (ram : Z → Z) (selected : USB_StandardReport_t)
    (ReportData : list Z) (ReportSize : Z) : M response unit :=
  r0 ← checked (ReportData !! 0%nat);
  if r0 =? 0x80 then
    r1 ← checked (ReportData !! 1%nat);
    if r1 =? 0x01 then prepare_8101
    else if (r1 =? 0x02) || (r1 =? 0x03) then prepare_reply 0x81 r1 [] 0
    else if r1 =? 0x04 then prepare_standard_report selected
    else prepare_reply 0x81 r1 [] 0
  else if (r0 =? 0x01) && (ReportSize >? 16) then
    subcommand ← checked (ReportData !! 10%nat);
    match of_code subcommand with
    | Some SUBCOMMAND_BLUETOOTH_MANUAL_PAIRING =>
        prepare_uart_reply selected 0x81 subcommand [ram 0x03] 1
    | Some SUBCOMMAND_REQUEST_DEVICE_INFO =>
        buf ← checked device_info;
        prepare_uart_reply selected 0x82 subcommand buf (Z.of_nat (length buf))
    | Some SUBCOMMAND_SET_INPUT_REPORT_MODE
    | Some SUBCOMMAND_SET_SHIPMENT_LOW_POWER_STATE
    | Some SUBCOMMAND_SET_PLAYER_LIGHTS
    | Some SUBCOMMAND_SET_HOME_LIGHTS
    | Some SUBCOMMAND_ENABLE_IMU
    | Some SUBCOMMAND_ENABLE_VIBRATION =>
        prepare_uart_reply selected 0x80 subcommand [] 0
    | Some SUBCOMMAND_TRIGGER_BUTTONS_ELAPSED_TIME =>
        prepare_uart_reply selected 0x83 subcommand [] 0
    | Some SUBCOMMAND_SET_NFC_IR_MCU_CONFIG =>
        let buf := [0x01; 0x00; 0xFF; 0x00; 0x03; 0x00; 0x05; 0x01] in
        prepare_uart_reply selected 0xA0 subcommand buf (Z.of_nat (length buf))
    | Some SUBCOMMAND_SPI_FLASH_READ =>
        r12 ← checked (ReportData !! 12%nat);
        r11 ← checked (ReportData !! 11%nat);
        size ← checked (ReportData !! 15%nat);
        prepare_spi_reply selected (u16 (Z.lor (Z.shiftl r12 8) r11)) size
    | _ => prepare_uart_reply selected 0x80 subcommand [] 0
    end
  else mret tt.

(** [setup_response_manager] records the callback and the pointer, which the
    model passes as arguments, and prepares the first packet. *)
Definition setup_response_manager : M response unit := prepare_8101.

(** The static initialisers of the file. *)
Definition response_init : response :=
  {| replyBuffer := memset 0 (Z.to_nat JOYSTICK_EPSIZE); counter := 0;
     nextPacketReady := false |}.

(** ** The specification of the replies *)

(** A packet of 64 bytes that starts with [l]. *)
Abbreviation packet l := (pad (Z.to_nat JOYSTICK_EPSIZE) l).

(** A reply to a request 0x80: its code, the command and the data. *)
Definition usb_packet (code command : Z) (data : list Z) : list Z :=
  packet ([code; command] ++ data).

(** A reply 0x21 to a subcommand: timer, controller state, acknowledgement,
    subcommand and its data. *)
Definition uart_packet (cnt : Z) (selected : USB_StandardReport_t)
    (code subcommand : Z) (data : list Z) : list Z :=
  packet ([0x21; cnt] ++ report_bytes selected ++ [code; subcommand] ++ data).

Definition next_counter (cnt : Z) : Z := (cnt + 3) mod 256.

(** A request that asks for flash memory: address and number of bytes. *)
Definition spi_request (report : list Z) : Z * nat :=
  (nth 11 report 0 + 256 * nth 12 report 0, Z.to_nat (nth 15 report 0)).

Definition subcommand_ack (sub : option Switch_Subcommand_t) : Z :=
  match sub with
  | Some SUBCOMMAND_BLUETOOTH_MANUAL_PAIRING => 0x81
  | Some SUBCOMMAND_REQUEST_DEVICE_INFO => 0x82
  | Some SUBCOMMAND_TRIGGER_BUTTONS_ELAPSED_TIME => 0x83
  | Some SUBCOMMAND_SET_NFC_IR_MCU_CONFIG => 0xA0
  | Some SUBCOMMAND_SPI_FLASH_READ => 0x90
  | _ => 0x80
  end.

(** The header and the contents of a flash read.  The length of the reply is
    kept in eight bits, so a request for more than 250 bytes is cut short. *)
Definition spi_data (address : Z) (n : nat) : list Z :=
  take ((5 + n) mod 256)
    ([address mod 256; address / 256; 0; 0; Z.of_nat n] ++ flash_read address n).

Definition subcommand_data (ram : Z → Z) (report : list Z)
    (sub : option Switch_Subcommand_t) : list Z :=
  match sub with
  | Some SUBCOMMAND_BLUETOOTH_MANUAL_PAIRING => [ram 0x03]
  | Some SUBCOMMAND_REQUEST_DEVICE_INFO =>
      [0x03; 0x48; 0x03; 0x02] ++ rev mac_address ++ [0x03; 0x02]
  | Some SUBCOMMAND_SET_NFC_IR_MCU_CONFIG =>
      [0x01; 0x00; 0xFF; 0x00; 0x03; 0x00; 0x05; 0x01]
  | Some SUBCOMMAND_SPI_FLASH_READ =>
      let '(address, n) := spi_request report in spi_data address n
  | _ => []
  end.

(** The data of a reply 0x21 starts at byte 15 of the packet. *)
Definition data_room : nat := 49.

(** The reply to a request 0x80 with the command [r1]. *)
Definition usb_reply (selected : USB_StandardReport_t) (r1 : Z) (s : response) : response :=
  if r1 =? 0x04 then
    set_ready (usb_packet 0x30 (next_counter (counter s)) (report_bytes selected))
      (set_counter (next_counter (counter s)) s)
  else if r1 =? 0x01 then set_ready (usb_packet 0x81 0x01 ([0x00; 0x03] ++ mac_address)) s
  else set_ready (usb_packet 0x81 r1 []) s.

(** What a request does: nothing while a reply waits to be sent; otherwise it
    leaves its reply, unless the reply does not fit. *)
Definition out_spec (ram : Z → Z) (selected : USB_StandardReport_t)
    (report : list Z) (size : Z) (s : response) : outcome response unit :=
  if nextPacketReady s then Ok tt s
  else if nth 0 report 0 =? 0x80 then Ok tt (usb_reply selected (nth 1 report 0) s)
  else if (nth 0 report 0 =? 0x01) && (16 <? size) then
    let sub := nth 10 report 0 in
    let data := subcommand_data ram report (of_code sub) in
    let cnt := next_counter (counter s) in
    if decide (length data ≤ data_room)%nat then
      Ok tt (set_ready (uart_packet cnt selected (subcommand_ack (of_code sub)) sub data)
               (set_counter cnt s))
    else Fault Undefined s
  else Ok tt s.

(** The requests whose reply does not fit: flash reads of 45 to 250 bytes. *)
Definition oversized_read (report : list Z) (size : Z) : bool :=
  (nth 0 report 0 =? 0x01) && (16 <? size) && (nth 10 report 0 =? 0x10) &&
  (45 <=? nth 15 report 0) && (nth 15 report 0 <=? 250).

(** ** Padded buffers *)

Lemma packet_length l : (length l ≤ 64)%nat → length (packet l) = 64%nat.
Proof. intros. rewrite pad_length; [done|]. by change (Z.to_nat JOYSTICK_EPSIZE) with 64%nat. Qed.

(** Arithmetic on the lengths of buffers that hold a report. *)
Ltac buf_len :=
  rewrite ?length_app, ?length_take, ?report_bytes_length by done;
  change sizeof_StandardReport with 11%nat; simpl; lia.

(** Runs the statements that fill a buffer from its start. *)
Ltac fill_buffer :=
  change (Z.to_nat JOYSTICK_EPSIZE) with 64%nat; change sizeof_StandardReport with 11%nat;
  unfold checked, mbind, M_bind, option_bind, mret, M_ret;
  repeat first [ rewrite store_at_pad by buf_len | rewrite memcpy_pad by buf_len ].

(** ** Each preparation on a free buffer *)

Lemma prepare_reply_free s code command data :
  nextPacketReady s = false → (length data ≤ 62)%nat →
  prepare_reply code command data (Z.of_nat (length data)) s =
  Ok tt (set_ready (usb_packet code command data) s).
Proof.
  intros Hs Hd. unfold prepare_reply, get_st, mbind, M_bind. rewrite Hs.
  rewrite memset_pad, Nat2Z.id. fill_buffer. by rewrite firstn_all.
Qed.

Section uart_reply.
Context (s : response) (selected : USB_StandardReport_t) (code subcommand : Z).
Context (data : list Z) (len : Z).
Hypothesis free : nextPacketReady s = false.
Hypothesis report_ok : length (analog selected) = 6%nat.
Hypothesis len_ok : 0 ≤ len ≤ Z.of_nat (length data).

Lemma prepare_uart_reply_free :
  len ≤ Z.of_nat data_room →
  prepare_uart_reply selected code subcommand data len s =
  Ok tt (set_ready
    (uart_packet (next_counter (counter s)) selected code subcommand
       (take (Z.to_nat len) data))
    (set_counter (next_counter (counter s)) s)).
Proof.
  unfold data_room. intros Hlen. unfold prepare_uart_reply, get_st, mbind, M_bind.
  rewrite free, memset_pad. fill_buffer.
  rewrite (take_ge (report_bytes selected)) by buf_len.
  unfold put_st, uart_packet. by rewrite <- !app_assoc.
Qed.

(** The destination has 49 bytes: a longer copy leaves the reply buffer. *)
Lemma prepare_uart_reply_overflow :
  Z.of_nat data_room < len →
  prepare_uart_reply selected code subcommand data len s = Fault Undefined s.
Proof.
  unfold data_room. intros Hlen. unfold prepare_uart_reply, get_st, mbind, M_bind.
  rewrite free, memset_pad. fill_buffer.
  rewrite memcpy_overflow; [done|]. rewrite pad_length by buf_len. lia.
Qed.
End uart_reply.

Lemma prepare_standard_report_free s r :
  nextPacketReady s = false → length (analog r) = 6%nat →
  prepare_standard_report r s =
  Ok tt (set_ready (usb_packet 0x30 (next_counter (counter s)) (report_bytes r))
    (set_counter (next_counter (counter s)) s)).
Proof.
  intros Hs Hr. unfold prepare_standard_report, get_st, put_st, mbind, M_bind.
  rewrite Hs, <- (report_bytes_length r) by done.
  by rewrite prepare_reply_free by (done || buf_len).
Qed.

Lemma prepare_8101_free s :
  nextPacketReady s = false →
  prepare_8101 s = Ok tt (set_ready (usb_packet 0x81 0x01 ([0x00; 0x03] ++ mac_address)) s).
Proof.
  intros Hs. unfold prepare_8101, get_st, mbind, M_bind. rewrite Hs. cbv zeta.
  rewrite memset_pad. fill_buffer.
  rewrite firstn_all.
  apply (prepare_reply_free s 0x81 0x01 ([0x00; 0x03] ++ mac_address)); [done|simpl; lia].
Qed.

Lemma device_info_eq :
  device_info = Some ([0x03; 0x48; 0x03; 0x02] ++ rev mac_address ++ [0x03; 0x02]).
Proof. reflexivity. Qed.

(** Answering a flash read is the reply 0x90 with the header and the data. *)
Lemma prepare_spi_reply_eq selected address n s :
  prepare_spi_reply selected address (Z.of_nat n) s =
  prepare_uart_reply selected 0x90 0x10
    ([address mod 256; (address / 256) mod 256; 0; 0; u8 (Z.of_nat n)] ++ flash_read address n)
    (Z.of_nat ((5 + n) mod 256)) s.
Proof.
  unfold prepare_spi_reply. rewrite spi_read_eq, memset_pad.
  replace (5 + Z.of_nat n) with (Z.of_nat (5 + n)) by lia.
  rewrite u8_of_nat, !Nat2Z.id. fill_buffer.
  rewrite memcpy_pad by (autorewrite with fw; simpl; lia).
  rewrite !land_255, Z.shiftr_div_pow2 by lia.
  rewrite (take_ge (flash_read _ _)) by (autorewrite with fw; lia).
  unfold pad. rewrite length_app, flash_read_length. simpl length.
  by rewrite Nat.sub_diag, app_nil_r.
Qed.

(** ** The request handler *)

(** A report as [HID_Task] passes it: 64 bytes, [ReportSize] of them received. *)
Record out_report (report : list Z) (size : Z) : Prop := {
  out_length : length report = 64%nat;
  out_bytes : bytes report;
  out_size : 0 ≤ size ≤ 64;
}.

Lemma out_lookup report size i :
  out_report report size → (i < 64)%nat → report !! i = Some (nth i report 0).
Proof.
  intros [Hl _ _] Hi.
  destruct (lookup_lt_is_Some_2 report i) as [x Hx]; [lia|].
  rewrite Hx. by rewrite (nth_lookup_Some _ _ _ _ Hx).
Qed.

Lemma out_nth_byte report size i :
  out_report report size → (i < 64)%nat → is_u8 (nth i report 0).
Proof.
  intros Hout Hi. pose proof (out_lookup _ _ i Hout Hi) as Hlook.
  destruct Hout as [_ Hb _]. exact (Forall_lookup_1 _ _ _ _ Hb Hlook).
Qed.

Section handler.
Context (ram : Z → Z) (s : response) (selected : USB_StandardReport_t).
Context (report : list Z) (size : Z).
Hypothesis free : nextPacketReady s = false.
Hypothesis report_ok : length (analog selected) = 6%nat.
Hypothesis out_ok : out_report report size.

Let sub := nth 10 report 0.
Let data := subcommand_data ram report (of_code sub).

(** The whole subcommand switch is one call of [prepare_uart_reply]. *)
Lemma process_subcommand_eq :
  nth 0 report 0 = 0x01 → 16 < size →
  ∃ d n, process_OUT_report ram selected report size s =
         prepare_uart_reply selected (subcommand_ack (of_code sub)) sub d (Z.of_nat n) s ∧
         (n ≤ length d)%nat ∧ take n d = data.
Proof.
  intros H0 Hsize. unfold process_OUT_report, mbind, M_bind.
  rewrite !(out_lookup _ _ _ out_ok) by lia. rewrite H0. cbn [checked mret M_ret].
  change (1 =? 128) with false. change (1 =? 1) with true.
  rewrite (proj2 (Z.gtb_lt _ _)) by lia. cbn [andb]. fold sub.
  unfold data, subcommand_data, subcommand_ack.
  destruct (of_code sub) as [[]|] eqn:Hsub;
    try (exists [], 0%nat; by repeat split).
  - exists [ram 3], 1%nat. by repeat split.
  - rewrite device_info_eq. eexists _, _. split; [reflexivity|].
    by rewrite firstn_all.
  - pose proof (out_nth_byte _ _ 11 out_ok ltac:(lia)) as H11.
    pose proof (out_nth_byte _ _ 12 out_ok ltac:(lia)) as H12.
    pose proof (out_nth_byte _ _ 15 out_ok ltac:(lia)) as H15.
    cbn [spi_request]. unfold spi_data.
    rewrite bytes_to_u16 by done. rewrite u16_id by (unfold is_u8, is_u16 in *; lia).
    destruct (Z_of_nat_complete (nth 15 report 0)) as [n Hn]; [apply H15|].
    rewrite Hn in *. rewrite Nat2Z.id, prepare_spi_reply_eq.
    apply of_code_Some in Hsub. simpl in Hsub. rewrite Hsub.
    eexists _, _. split; [reflexivity|]. split.
    + rewrite length_app, flash_read_length. apply Nat.Div0.mod_le.
    + rewrite (u8_id (Z.of_nat n)) by done.
      by rewrite (Z.mod_small (_ / 256) 256) by (unfold is_u8 in *; div_lia).
  - eexists _, 8%nat. by repeat split.
Qed.

Lemma process_subcommand_free :
  nth 0 report 0 = 0x01 → 16 < size →
  process_OUT_report ram selected report size s = out_spec ram selected report size s.
Proof.
  intros H0 Hsize. destruct process_subcommand_eq as (d & n & -> & Hn & Hd); [done..|].
  unfold out_spec. rewrite free, H0, (proj2 (Z.ltb_lt _ _)) by done.
  change (1 =? 128) with false. change (1 =? 1) with true. cbn [andb].
  fold sub. fold data. rewrite <- Hd, length_take_le by done. case_decide.
  - rewrite prepare_uart_reply_free; rewrite ?Nat2Z.id; unfold data_room in *; done || lia.
  - rewrite prepare_uart_reply_overflow; unfold data_room in *; done || lia.
Qed.

Lemma process_80_free :
  nth 0 report 0 = 0x80 →
  process_OUT_report ram selected report size s =
  Ok tt (usb_reply selected (nth 1 report 0) s).
Proof.
  intros H0. unfold process_OUT_report, mbind, M_bind, usb_reply.
  rewrite !(out_lookup _ _ _ out_ok) by lia. rewrite H0. cbn [checked mret M_ret].
  change (128 =? 128) with true. cbv iota.
  pose proof (prepare_reply_free s 0x81 (nth 1 report 0) [] free) as Hreply.
  specialize (Hreply ltac:(simpl; lia)). change (Z.of_nat (length [])) with 0 in Hreply.
  destruct (Z.eqb_spec (nth 1 report 0) 1) as [->|]; [by apply prepare_8101_free|].
  destruct (Z.eqb_spec (nth 1 report 0) 4) as [Heq|].
  - rewrite Heq. cbn [orb Z.eqb Pos.eqb]. by apply prepare_standard_report_free.
  - by rewrite if_same.
Qed.
End handler.

(** While a reply waits in the buffer every preparation returns at once. *)
Lemma prepare_busy s :
  nextPacketReady s = true →
  (∀ c k d l, prepare_reply c k d l s = Ok tt s) ∧
  (∀ r c k d l, prepare_uart_reply r c k d l s = Ok tt s) ∧
  (∀ r, prepare_standard_report r s = Ok tt s) ∧ prepare_8101 s = Ok tt s.
Proof.
  intros Hs. unfold prepare_reply, prepare_uart_reply, prepare_standard_report,
    prepare_8101, get_st, mbind, M_bind. by rewrite Hs.
Qed.

Lemma process_OUT_report_busy ram selected report size s :
  nextPacketReady s = true → out_report report size →
  process_OUT_report ram selected report size s = Ok tt s.
Proof.
  intros Hs Hout. destruct (prepare_busy s Hs) as (H1 & H2 & H3 & H4).
  pose proof (out_nth_byte _ _ 15 Hout ltac:(lia)) as H15.
  destruct (Z_of_nat_complete (nth 15 report 0)) as [n Hn]; [apply H15|].
  unfold process_OUT_report, mbind, M_bind.
  rewrite !(out_lookup _ _ _ Hout) by lia. cbn [checked mret M_ret].
  case_match; [by repeat case_match|]. case_match; [|done].
  destruct (of_code _) as [[]|]; rewrite ?device_info_eq, ?Hn; cbn [checked mret M_ret];
    by rewrite ?prepare_spi_reply_eq, ?H2.
Qed.

Lemma process_OUT_report_ignored ram selected report size s :
  out_report report size → nth 0 report 0 ≠ 0x80 → nth 0 report 0 ≠ 0x01 ∨ size ≤ 16 →
  process_OUT_report ram selected report size s = Ok tt s.
Proof.
  intros Hout H80 Hign. unfold process_OUT_report, mbind, M_bind.
  rewrite (out_lookup _ _ 0 Hout) by lia. cbn [checked mret M_ret].
  rewrite (proj2 (Z.eqb_neq _ 128)) by done.
  by destruct (Z.eqb_spec (nth 0 report 0) 1), (Z.gtb_spec size 16); try lia.
Qed.

Lemma process_OUT_report_eq ram selected report size s :
  report_wf selected → out_report report size →
  process_OUT_report ram selected report size s = out_spec ram selected report size s.
Proof.
  intros [_ _ Hsel _ _] Hout.
  destruct (nextPacketReady s) eqn:Hs.
  { unfold out_spec. rewrite Hs. by apply process_OUT_report_busy. }
  destruct (decide (nth 0 report 0 = 0x01 ∧ 16 < size)) as [[H1 Hsz]|Hno];
    [by apply process_subcommand_free|].
  unfold out_spec. rewrite Hs.
  destruct (Z.eqb_spec (nth 0 report 0) 0x80); [by apply process_80_free|].
  rewrite process_OUT_report_ignored by (done || lia).
  by destruct (Z.eqb_spec (nth 0 report 0) 1), (Z.ltb_spec 16 size); try lia.
Qed.

(** ** Properties *)

(** C7: the handler of the console's requests does what its specification
    says for every report of 64 bytes, in every state of the reply buffer: it
    ignores a request while a reply waits, answers 0x80 and 0x01 requests with
    the specified packet, ignores everything else, and writes outside the
    buffer exactly for the replies that do not fit. *)
Theorem process_OUT_report_spec ram selected report size s :
  report_wf selected → out_report report size →
  process_OUT_report ram selected report size s = out_spec ram selected report size s.
Proof. apply process_OUT_report_eq. Qed.

Lemma spi_data_length address n : length (spi_data address n) = ((5 + n) mod 256)%nat.
Proof.
  unfold spi_data. rewrite length_take_le; [done|].
  rewrite length_app, flash_read_length. apply Nat.Div0.mod_le.
Qed.

(** The replies that do not fit are the flash reads of 45 to 250 bytes. *)
Lemma data_room_oversized ram report size :
  out_report report size → nth 0 report 0 = 0x01 → 16 < size →
  (length (subcommand_data ram report (of_code (nth 10 report 0%Z))) ≤ data_room)%nat ↔
  oversized_read report size = false.
Proof.
  intros Hout H0 Hsz. pose proof (out_nth_byte _ _ 15 Hout ltac:(lia)) as H15.
  unfold oversized_read, data_room. rewrite H0, (proj2 (Z.ltb_lt _ _)) by done.
  change (1 =? 1) with true. cbn [andb].
  destruct (of_code (nth 10 report 0)) as [sub|] eqn:Hsub.
  - apply of_code_Some in Hsub. rewrite Hsub.
    destruct sub; simpl; try lia. rewrite spi_data_length.
    unfold is_u8 in H15. set (n := nth 15 report 0) in *.
    assert (Z.of_nat ((5 + Z.to_nat n) mod 256) = (5 + n) mod 256) as Hmod
      by (rewrite Nat2Z.inj_mod; f_equal; lia).
    assert ((5 + n) mod 256 = if n <? 251 then 5 + n else n - 251) as Hval
      by (destruct (Z.ltb_spec n 251); div_lia).
    destruct (Z.ltb_spec n 251); lia.
  - simpl. destruct (Z.eqb_spec (nth 10 report 0) 0x10) as [Heq|]; [|lia].
    by rewrite Heq in Hsub.
Qed.

(** The outcome of a request by [oversized_read]. *)
Lemma out_spec_faults ram selected report size s :
  out_report report size →
  if oversized_read report size && negb (nextPacketReady s)
  then out_spec ram selected report size s = Fault Undefined s
  else ∃ s', out_spec ram selected report size s = Ok tt s'.
Proof.
  intros Hout. unfold out_spec.
  destruct (nextPacketReady s); [rewrite andb_false_r; eauto|]. rewrite andb_true_r.
  destruct (Z.eqb_spec (nth 0 report 0) 0x80) as [H80|H80].
  { unfold oversized_read. rewrite H80. simpl. eauto. }
  destruct (decide (nth 0 report 0 = 1 ∧ 16 < size)) as [[H0 Hsz]|Hno].
  - pose proof (data_room_oversized ram report size Hout H0 Hsz) as Hroom.
    rewrite H0, (proj2 (Z.ltb_lt _ _)) by done. simpl.
    destruct (oversized_read report size).
    + rewrite decide_False; [done|]. intros Hle. by apply Hroom in Hle.
    + rewrite decide_True; [eauto|]. by apply Hroom.
  - assert ((nth 0 report 0 =? 1) && (16 <? size) = false) as Hc by lia.
    unfold oversized_read. rewrite Hc. simpl. eauto.
Qed.

(** C19: the only requests that make the firmware write outside its reply
    buffer are flash reads of 45 to 250 bytes that find the buffer free; every
    other request of 64 bytes is handled without a fault. *)
Theorem process_OUT_report_overflow_iff ram selected report size s :
  report_wf selected → out_report report size →
  (process_OUT_report ram selected report size s = Fault Undefined s ↔
   nextPacketReady s = false ∧ oversized_read report size = true) ∧
  (nextPacketReady s = true ∨ oversized_read report size = false →
   ∃ s', process_OUT_report ram selected report size s = Ok tt s').
Proof.
  intros Hsel Hout. rewrite process_OUT_report_eq by done.
  pose proof (out_spec_faults ram selected report size s Hout) as Hf.
  destruct (oversized_read report size), (nextPacketReady s); simpl in Hf;
    [destruct Hf as [s' Hs]| |destruct Hf as [s' Hs]..];
    [rewrite Hs; split; [split; [done|by intros [??]]|eauto]| |
     rewrite Hs; split; [split; [done|by intros [??]]|eauto]..].
  rewrite Hf. split; [by split|by intros [?|?]].
Qed.

(** An idle report, and a request for 32 bytes of flash memory at 0x6000. *)
Definition demo_selected : USB_StandardReport_t :=
  {| connection_info := 1; battery_level := 9;
     button_y := false; button_x := false; button_b := false; button_a := false;
     button_right_sr := false; button_right_sl := false;
     button_r := false; button_zr := false;
     button_minus := false; button_plus := false;
     button_thumb_r := false; button_thumb_l := false;
     button_home := false; button_capture := false;
     dummy := false; charging_grip := true;
     dpad_down := false; dpad_up := false; dpad_right := false; dpad_left := false;
     button_left_sr := false; button_left_sl := false;
     button_l := false; button_zl := false;
     analog := [0; 8; 0x80; 0; 8; 0x80];
     vibrator_input_report := 0x0C |}.
Definition demo_read (n : Z) : list Z :=
  pad 64 ([1; 0; 0; 0; 0; 0; 0; 0; 0; 0; 0x10; 0x00; 0x60; 0; 0; n]).

Lemma process_OUT_report_spec_witness :
  process_OUT_report (λ _, 0) demo_selected (demo_read 16) 49 response_init =
  out_spec (λ _, 0) demo_selected (demo_read 16) 49 response_init.
Proof.
  apply (process_OUT_report_spec (λ _, 0) demo_selected (demo_read 16) 49 response_init).
  - split; [simpl; lia..|reflexivity| |]; apply (bool_decide_unpack _); vm_compute; exact I.
  - split; [reflexivity| |lia]. apply (bool_decide_unpack _); vm_compute; exact I.
Defined.

Lemma process_OUT_report_overflow_iff_witness :
  process_OUT_report (λ _, 0) demo_selected (demo_read 45) 49 response_init =
  Fault Undefined response_init.
Proof.
  apply (process_OUT_report_overflow_iff (λ _, 0) demo_selected (demo_read 45) 49 response_init).
  - split; [simpl; lia..|reflexivity| |]; apply (bool_decide_unpack _); vm_compute; exact I.
  - split; [reflexivity| |lia]. apply (bool_decide_unpack _); vm_compute; exact I.
  - split; reflexivity.
Defined.
