(* ===== verification/Joystick.v ===== *)
(** * The controller: [src/Firmware/Joystick.c]

    The serial receiver (an interrupt handler with its synchronisation state
    machine), the reports it fills, the connection-lost logic that runs before
    every report, and the main task. *)

From S2P Require Import Prelude Datatypes Descriptors State Interfaces Response.

(** ** avr-libc's CRC

    [_crc8_ccitt_update] of <util/crc16.h>.  Its documentation gives the
    polynomial x^8 + x^2 + x + 1 and this equivalent C function. *)

Class AvrCrc := { crc8_ccitt_update : Z → Z → Z }.

Definition ccitt_shift (data : Z) : Z :=
  if has data 0x80 then Z.lxor (u8 (Z.shiftl data 1)) 0x07 else u8 (Z.shiftl data 1).

Definition crc8_ccitt_doc (inCrc inData : Z) : Z :=
  Nat.iter 8 ccitt_shift (Z.lxor inCrc inData).

Class AvrCrcSpec `{!AvrCrc} :=
  crc8_ccitt_documented c b :
    is_u8 c → is_u8 b → crc8_ccitt_update c b = crc8_ccitt_doc c b.

Section joystick.
Context {E : Type} `{!BoardOps E, !EndpointOps E, !AvrCrc}.

(** ** Filling the reports *)

(** [(button & mask) == mask] *)
Definition pressed (button : Z) (b : JoystickButtons_t) : bool :=
  Z.land button (JoystickButtons_code b) =? JoystickButtons_code b.

(** The three bytes of a stick with the 12-bit coordinates [x] and [y]. *)
Definition pack_stick (x y : Z) : list Z :=
  [ Z.land x 0xFF;
    u8 (Z.lor (Z.shiftl (Z.land y 0x0F) 4) (Z.shiftr (Z.land x 0xF00) 8));
    Z.shiftr (Z.land y 0xFF0) 4 ].

(** Every field of the report is assigned, so its old value is irrelevant. *)
Definition populate_report_from_serial (p : Serial_Input_Packet_t) :
  option USB_StandardReport_t :=
  i0 ← input p !! 0%nat; i1 ← input p !! 1%nat; dpad ← input p !! 2%nat;
  i3 ← input p !! 3%nat; i4 ← input p !! 4%nat;
  i5 ← input p !! 5%nat; i6 ← input p !! 6%nat;
  let button := u16 (Z.lor (Z.shiftl i0 8) i1) in
  let lx := u16 (Z.lor (Z.shiftl i3 4) 0x08) in
  let ly := u16 (Z.lor (Z.shiftl i4 4) 0x08) in
  let rx := u16 (Z.lor (Z.shiftl i5 4) 0x08) in
  let ry := u16 (Z.lor (Z.shiftl i6 4) 0x08) in
  Some {|
    connection_info := 1;
    battery_level := Z.lor BATTERY_FULL BATTERY_CHARGING;
    button_y := pressed button SWITCH_Y;
    button_x := pressed button SWITCH_X;
    button_b := pressed button SWITCH_B;
    button_a := pressed button SWITCH_A;
    button_right_sr := false;
    button_right_sl := false;
    button_r := pressed button SWITCH_R;
    button_zr := pressed button SWITCH_ZR;
    button_minus := pressed button SWITCH_MINUS;
    button_plus := pressed button SWITCH_PLUS;
    button_thumb_r := pressed button SWITCH_RCLICK;
    button_thumb_l := pressed button SWITCH_LCLICK;
    button_home := pressed button SWITCH_HOME;
    button_capture := pressed button SWITCH_CAPTURE;
    dummy := false;
    charging_grip := true;
    dpad_down := (dpad =? HAT_BOTTOM_RIGHT) || (dpad =? HAT_BOTTOM) || (dpad =? HAT_BOTTOM_LEFT);
    dpad_up := (dpad =? HAT_TOP) || (dpad =? HAT_TOP_RIGHT) || (dpad =? HAT_TOP_LEFT);
    dpad_right := (dpad =? HAT_TOP_RIGHT) || (dpad =? HAT_RIGHT) || (dpad =? HAT_BOTTOM_RIGHT);
    dpad_left := (dpad =? HAT_BOTTOM_LEFT) || (dpad =? HAT_LEFT) || (dpad =? HAT_TOP_LEFT);
    button_left_sr := false;
    button_left_sl := false;
    button_l := pressed button SWITCH_L;
    button_zl := pressed button SWITCH_ZL;
    analog := pack_stick lx ly ++ pack_stick rx ry;
    vibrator_input_report := 0 |}.

(** [memset] of the whole struct, then the assignments. *)
Definition initialize_idle_report : USB_StandardReport_t :=
  let lx := 0x0800 in let ly := 0x0800 in
  let rx := 0x0800 in let ry := 0x0800 in
  {| connection_info := 1;
     battery_level := Z.lor BATTERY_FULL BATTERY_CHARGING;
     button_y := false; button_x := false; button_b := false; button_a := false;
     button_right_sr := false; button_right_sl := false;
     button_r := false; button_zr := false;
     button_minus := false; button_plus := false;
     button_thumb_r := false; button_thumb_l := false;
     button_home := false; button_capture := false;
     dummy := false; charging_grip := true;
     dpad_down := false; dpad_up := false; dpad_right := false; dpad_left := false;
     button_left_sr := false; button_left_sl := false;
     button_l := false; button_zl := false;
     analog := pack_stick lx ly ++ pack_stick rx ry;
     vibrator_input_report := 0x0c |}.

(** [idleReport.button_home = b] *)
Definition set_button_home (b : bool) (r : USB_StandardReport_t) : USB_StandardReport_t :=
  {| connection_info := connection_info r; battery_level := battery_level r;
     button_y := button_y r; button_x := button_x r; button_b := button_b r;
     button_a := button_a r; button_right_sr := button_right_sr r;
     button_right_sl := button_right_sl r; button_r := button_r r; button_zr := button_zr r;
     button_minus := button_minus r; button_plus := button_plus r;
     button_thumb_r := button_thumb_r r; button_thumb_l := button_thumb_l r;
     button_home := b; button_capture := button_capture r; dummy := dummy r;
     charging_grip := charging_grip r; dpad_down := dpad_down r; dpad_up := dpad_up r;
     dpad_right := dpad_right r; dpad_left := dpad_left r;
     button_left_sr := button_left_sr r; button_left_sl := button_left_sl r;
     button_l := button_l r; button_zl := button_zl r; analog := analog r;
     vibrator_input_report := vibrator_input_report r |}.

(** ** The receive interrupt *)

(** [input[received_bytes++] = b; crc8_ccitt = _crc8_ccitt_update(crc8_ccitt, b)] *)
Definition push_byte (b : Z) (p : Serial_Input_Packet_t) : option Serial_Input_Packet_t :=
  buf ← store_at (Z.to_nat (received_bytes p)) b (input p);
  Some {| input := buf; crc8_ccitt := crc8_ccitt_update (crc8_ccitt p) b;
          received_bytes := u8 (received_bytes p + 1) |}.

Definition reset_packet (p : Serial_Input_Packet_t) : Serial_Input_Packet_t :=
  {| input := input p; crc8_ccitt := 0; received_bytes := 0 |}.

Definition upd (f : joystick → joystick) : M (firmware E) unit := on_joy (modify f).
Definition respond (r : Response_t) : M (firmware E) unit :=
  on_usb (send_byte (Response_code r)).

(** [ISR(USART1_RX_vect)] *)
Definition USART1_RX_vect : M (firmware E) unit :=
  b ← on_usb recv_byte;
  j ← gets joy;
  match state j with
  | SYNCED =>
      if received_bytes (serialInput j) <? 8 then
        p ← checked (push_byte b (serialInput j));
        upd (set_serialInput p)
      else
        (if negb (crc8_ccitt (serialInput j) =? b) then
           if b =? Command_code COMMAND_SYNC_START then
             upd (set_state SYNC_START);; respond RESP_SYNC_START
           else respond RESP_UPDATE_NACK
         else
           respond RESP_UPDATE_ACK;;
           r ← checked (populate_report_from_serial (serialInput j));
           upd (set_controllerReport r);;
           upd (set_selectedReport PtrController);;
           upd (set_millis 0));;
        upd (λ j, set_serialInput (reset_packet (serialInput j)) j)
  | SYNC_START =>
      if b =? Command_code COMMAND_SYNC_1 then
        upd (set_state SYNC_1);; respond RESP_SYNC_1
      else upd (set_state OUT_OF_SYNC)
  | SYNC_1 =>
      if b =? Command_code COMMAND_SYNC_2 then
        upd (set_state SYNCED);; respond RESP_SYNC_OK
      else upd (set_state OUT_OF_SYNC)
  | OUT_OF_SYNC => mret tt
  end;;
  j ← gets joy;
  if decide (state j = OUT_OF_SYNC) then
    if b =? Command_code COMMAND_SYNC_START then
      upd (set_state SYNC_START);; respond RESP_SYNC_START
    else mret tt
  else mret tt.

(** ** Before every report *)

Definition MILLIS_UNTIL_PAUSE : Z := 120.
Definition MILLIS_UNTIL_HOME : Z := 800.
Definition MILLIS_HOME_PRESSED : Z := 200.

(** [idleReport.button_home = b; selectedReport = &idleReport;] *)
Definition select_idle (b : bool) (j : joystick) : joystick :=
  set_selectedReport PtrIdle (set_idleReport (set_button_home b (idleReport j)) j).

Definition add_8ms (j : joystick) : joystick := set_millis (u16 (millis j + 8)) j.

(** What the callback does while the receive interrupt is off. *)
Definition choose_report : M (firmware E) unit :=
  j ← gets joy;
  if decide (state j = SYNCED) then
    if millis j >=? MILLIS_UNTIL_PAUSE then
      (if (millis j >=? MILLIS_UNTIL_HOME) &&
          (millis j <? MILLIS_UNTIL_HOME + MILLIS_HOME_PRESSED) then
         on_usb (LEDs_SetAllLEDs LEDMASK_PAUSE_HOME_BUFFER);;
         upd (select_idle true)
       else
         on_usb (LEDs_SetAllLEDs LEDMASK_PAUSE_EMPTY_BUFFER);;
         upd (select_idle false));;
      when (millis j <? MILLIS_UNTIL_HOME + MILLIS_HOME_PRESSED) (upd add_8ms)
    else
      on_usb (LEDs_SetAllLEDs LEDMASK_SYNCED);;
      upd (set_selectedReport PtrController);;
      upd add_8ms
  else
    on_usb (LEDs_SetAllLEDs LEDMASK_NOT_SYNCED);;
    upd (select_idle false).

Definition CALLBACK_beforeSend : M (firmware E) unit :=
  on_usb disable_rx_isr;;
  choose_report;;
  on_usb enable_rx_isr.

(** ** Sending and receiving reports *)

(** [send_IN_report] of [Response.c]; its callback [before_send] is
    [CALLBACK_beforeSend] and its pointer [selectedReportPtr] is
    [&selectedReport], as [main] sets them up.  [fuel] bounds each of the two
    busy-wait loops. *)
Definition send_IN_report (fuel : nat) : M (firmware E) unit :=
  CALLBACK_beforeSend;;
  w ← get_st;
  when (negb (nextPacketReady (rsp w)))
    (on_rsp (prepare_standard_report (deref_selected (joy w))));;
  on_usb (Endpoint_SelectEndpoint JOYSTICK_IN_EPADDR);;
  wait_until fuel (on_usb Endpoint_IsINReady);;
  w ← get_st;
  wait_until fuel
    (on_usb (r ← Endpoint_Write_Stream_LE (replyBuffer (rsp w)) JOYSTICK_EPSIZE;
             mret (r =? ENDPOINT_RWSTREAM_NoError)));;
  on_usb Endpoint_ClearIN;;
  on_rsp (modify (λ s, {| replyBuffer := replyBuffer s; counter := counter s;
                          nextPacketReady := false |})).

(** [while (Endpoint_IsReadWriteAllowed())]: the bytes of the packet go to the
    zeroed buffer while there is room; the rest is read and dropped. *)
Fixpoint read_OUT (fuel : nat) (buf : list Z) (ReportSize : Z) :
  M (firmware E) (list Z * Z) :=
  match fuel with
  | O => fail OutOfFuel
  | S fuel =>
      allowed ← on_usb Endpoint_IsReadWriteAllowed;
      if allowed : bool then
        b ← on_usb Endpoint_Read_8;
        if ReportSize <? JOYSTICK_EPSIZE then
          buf ← checked (store_at (Z.to_nat ReportSize) b buf);
          read_OUT fuel buf (u16 (ReportSize + 1))
        else read_OUT fuel buf ReportSize
      else mret (buf, ReportSize)
  end.

Definition HID_Task (ram : Z → Z) (fuel : nat) : M (firmware E) unit :=
  configured ← on_usb USB_DeviceConfigured;
  if negb configured then mret tt else
  on_usb (Endpoint_SelectEndpoint JOYSTICK_OUT_EPADDR);;
  received ← on_usb Endpoint_IsOUTReceived;
  (if received : bool then
     let switchResponseBuffer := memset 0 (Z.to_nat JOYSTICK_EPSIZE) in
     '(ReportData, ReportSize) ← read_OUT fuel switchResponseBuffer 0;
     on_usb Endpoint_ClearOUT;;
     w ← get_st;
     on_rsp (process_OUT_report ram (deref_selected (joy w)) ReportData (u8 ReportSize))
   else mret tt);;
  on_usb (Endpoint_SelectEndpoint JOYSTICK_IN_EPADDR);;
  ready ← on_usb Endpoint_IsINReady;
  if ready : bool then send_IN_report fuel else mret tt.

(** ** Start-up: the assignments of [main] before the hardware is set up *)
Definition main_joystick : joystick :=
  {| serialInput := {| input := memset 0 8; crc8_ccitt := 0; received_bytes := 0 |};
     controllerReport := initialize_idle_report;
     idleReport := initialize_idle_report;
     selectedReport := PtrIdle;
     state := OUT_OF_SYNC; millis := 0 |}.

Definition main_init (e : E) : option (firmware E) :=
  s ← final (setup_response_manager response_init);
  Some {| usb := e; rsp := s; joy := main_joystick |}.
End joystick.
