(* ===== verification/Reports.v ===== *)
(** * The input report of a serial packet

    What the console reads from the report that [populate_report_from_serial]
    ([src/Firmware/Joystick.c]) makes of the eight bytes of a packet. *)

From S2P Require Import Prelude Datatypes State Interfaces Joystick.

(** ** How the console reads a report *)

(** The field of each button. *)
Definition report_button (r : USB_StandardReport_t) (b : JoystickButtons_t) : bool :=
  match b with
  | SWITCH_Y => button_y r | SWITCH_B => button_b r
  | SWITCH_A => button_a r | SWITCH_X => button_x r
  | SWITCH_L => button_l r | SWITCH_R => button_r r
  | SWITCH_ZL => button_zl r | SWITCH_ZR => button_zr r
  | SWITCH_MINUS => button_minus r | SWITCH_PLUS => button_plus r
  | SWITCH_LCLICK => button_thumb_l r | SWITCH_RCLICK => button_thumb_r r
  | SWITCH_HOME => button_home r | SWITCH_CAPTURE => button_capture r
  end.

(** The 12-bit coordinates of a stick in its three bytes. *)
Definition stick_of (l : list Z) : option (Z * Z) :=
  match l with
  | [d0; d1; d2] => Some (d0 + 256 * (d1 mod 16), d1 / 16 + 16 * d2)
  | _ => None
  end.

(** The directional pad as a pair: right or left, up or down. *)
Definition dpad_axes (r : USB_StandardReport_t) : Z * Z :=
  (Z.b2z (dpad_right r) - Z.b2z (dpad_left r), Z.b2z (dpad_up r) - Z.b2z (dpad_down r)).

(** The direction that a hat value stands for: eight directions clockwise
    from the top, and the centre for every other value. *)
Definition hat_axes (hat : Z) : Z * Z :=
  nth (Z.to_nat hat)
    [(0, 1); (1, 1); (1, 0); (1, -1); (0, -1); (-1, -1); (-1, 0); (-1, 1)] (0, 0).

(** What the host sent: buttons, hat and the two sticks, widened to 12 bits. *)
Record faithful (p : list Z) (r : USB_StandardReport_t) : Prop := {
  faithful_wf : report_wf r;
  faithful_button b :
    report_button r b =
    Z.testbit (nth 1 p 0 + 256 * nth 0 p 0) (Z.log2 (JoystickButtons_code b));
  faithful_dpad : dpad_axes r = hat_axes (nth 2 p 0);
  faithful_left : stick_of (take 3 (analog r)) = Some (16 * nth 3 p 0 + 8, 16 * nth 4 p 0 + 8);
  faithful_right : stick_of (drop 3 (analog r)) = Some (16 * nth 5 p 0 + 8, 16 * nth 6 p 0 + 8);
}.

(** ** Lemmas *)

Lemma land_pow2 x k : 0 ≤ k → Z.land x (2 ^ k) = if Z.testbit x k then 2 ^ k else 0.
Proof.
  intros Hk. apply Z.bits_inj'. intros i Hi.
  rewrite Z.land_spec, Z.pow2_bits_eqb by done.
  destruct (Z.eqb_spec k i) as [->|Hne].
  - rewrite andb_true_r. destruct (Z.testbit x i).
    + by rewrite Z.pow2_bits_true.
    + by rewrite Z.bits_0.
  - rewrite andb_false_r. destruct (Z.testbit x k).
    + by rewrite Z.pow2_bits_false.
    + by rewrite Z.bits_0.
Qed.

Lemma land_pow2_eqb x k : 0 ≤ k → (Z.land x (2 ^ k) =? 2 ^ k) = Z.testbit x k.
Proof.
  intros Hk. rewrite land_pow2 by done. pose proof (Z.pow_pos_nonneg 2 k).
  destruct (Z.testbit x k); lia.
Qed.

Lemma pressed_testbit x b : pressed x b = Z.testbit x (Z.log2 (JoystickButtons_code b)).
Proof.
  unfold pressed.
  destruct b; match goal with
    |- (Z.land _ ?c =? _) = Z.testbit _ ?k => apply (land_pow2_eqb x (Z.log2 c)); by vm_compute
  end.
Qed.

(** The widening of a byte and its packing, checked on every pair of bytes. *)
Lemma widen_byte i : is_u8 i → u16 (Z.lor (Z.shiftl i 4) 0x08) = 16 * i + 8.
Proof. intros. by_bytes (λ i, u16 (Z.lor (Z.shiftl i 4) 0x08) = 16 * i + 8). Qed.

Lemma pack_stick_bytes x y :
  is_u8 x → is_u8 y → bytes (pack_stick (16 * x + 8) (16 * y + 8)).
Proof. intros. by_bytes2 (λ x y, bytes (pack_stick (16 * x + 8) (16 * y + 8))). Qed.

Lemma stick_of_pack_stick x y :
  is_u8 x → is_u8 y →
  stick_of (pack_stick (16 * x + 8) (16 * y + 8)) = Some (16 * x + 8, 16 * y + 8).
Proof.
  intros. by_bytes2 (λ x y,
    stick_of (pack_stick (16 * x + 8) (16 * y + 8)) = Some (16 * x + 8, 16 * y + 8)).
Qed.

Lemma populate_dpad d :
  is_u8 d →
  (Z.b2z ((d =? 1) || (d =? 2) || (d =? 3)) - Z.b2z ((d =? 5) || (d =? 6) || (d =? 7)),
   Z.b2z ((d =? 0) || (d =? 1) || (d =? 7)) - Z.b2z ((d =? 3) || (d =? 4) || (d =? 5))) =
  hat_axes d.
Proof.
  intros. by_bytes (λ d,
    (Z.b2z ((d =? 1) || (d =? 2) || (d =? 3)) - Z.b2z ((d =? 5) || (d =? 6) || (d =? 7)),
     Z.b2z ((d =? 0) || (d =? 1) || (d =? 7)) - Z.b2z ((d =? 3) || (d =? 4) || (d =? 5))) =
    hat_axes d).
Qed.

Lemma populate_faithful p :
  bytes (input p) → length (input p) = 8%nat →
  ∃ r, populate_report_from_serial p = Some r ∧ faithful (input p) r.
Proof.
  intros Hb Hl. destruct p as [l c n]. simpl in *.
  destruct l as [|i0 [|i1 [|i2 [|i3 [|i4 [|i5 [|i6 [|i7 [|]]]]]]]]]; simplify_eq/=.
  rewrite !Forall_cons in Hb. destruct Hb as (H0&H1&H2&H3&H4&H5&H6&H7&_).
  eexists. split; [reflexivity|].
  rewrite bytes_to_u16, !widen_byte by done.
  rewrite u16_id by (unfold is_u8, is_u16 in *; lia).
  split; simpl nth.
  - split; cbn [connection_info battery_level analog vibrator_input_report];
      [lia|by apply (bool_decide_unpack _)|done| |done].
    apply (Forall_app_2 _ (pack_stick _ _) (pack_stick _ _)); by apply pack_stick_bytes.
  - intros b. rewrite <- pressed_testbit. by destruct b.
  - by apply populate_dpad.
  - by apply stick_of_pack_stick.
  - by apply stick_of_pack_stick.
Qed.

(** C17: every packet of eight bytes is turned into a report in which the
    console finds what the host sent: each of the fourteen buttons exactly
    when its bit is set, the direction of the hat (and none for a value that
    is no direction), both coordinates of both sticks widened to 12 bits; and
    the fields are within their widths. *)
Theorem populate_report_faithful p :
  bytes (input p) → length (input p) = 8%nat →
  ∃ r, populate_report_from_serial p = Some r ∧ faithful (input p) r ∧
       report_of_bytes (report_bytes r) = Some r.
Proof.
  intros Hb Hl. destruct (populate_faithful p Hb Hl) as (r & Hr & Hf).
  exists r. split; [done|]. split; [done|]. apply report_roundtrip, Hf.
Qed.

Lemma populate_report_faithful_witness :
  let p := {| input := [0; 4; 2; 0x80; 0xC0; 0x80; 0x80; 0]; crc8_ccitt := 0;
              received_bytes := 8 |} in
  ∃ r, populate_report_from_serial p = Some r ∧ faithful (input p) r.
Proof.
  intros p. destruct (populate_report_faithful p) as (r & Hr & Hf & _);
    [apply (bool_decide_unpack _); vm_compute; exact I|reflexivity|].
  exists r. split; [exact Hr|exact Hf].
Defined.

Lemma idle_report_wf : report_wf initialize_idle_report.
Proof. by split; apply (bool_decide_unpack _). Qed.

Lemma set_button_home_wf b r : report_wf r → report_wf (set_button_home b r).
Proof. intros []. by split. Qed.

#[export] Hint Resolve idle_report_wf set_button_home_wf : fw.
