(* ===== verification/SerialLink.v ===== *)
(** * The serial link

    The interrupt handler [USART1_RX_vect] of [src/Firmware/Joystick.c]
    against the protocol it implements: an automaton on received bytes that
    has no counters and no running checksum, only the bytes of the packet so
    far.  The refinement carries the properties of the automaton (acceptance,
    recovery of synchronisation) to the code. *)

From S2P Require Import Prelude Datatypes State Interfaces Response Joystick Reports.

(** ** The protocol *)

Inductive link :=
| LinkOut
| LinkStart
| LinkOne
| LinkSynced (buf : list Z).

Section protocol.
Context `{!AvrCrc}.

(** The checksum of a packet. *)
Definition crc8_of (l : list Z) : Z := foldl crc8_ccitt_update 0 l.

(** The next state, the bytes sent back and the packet accepted, if any. *)
Definition link_step (l : link) (b : Z) : link * list Z * option (list Z) :=
  match l with
  | LinkOut =>
      if b =? 0xFF then (LinkStart, [0xFF], None) else (LinkOut, [], None)
  | LinkStart =>
      if b =? 0x33 then (LinkOne, [0xCC], None)
      else if b =? 0xFF then (LinkStart, [0xFF], None) else (LinkOut, [], None)
  | LinkOne =>
      if b =? 0xCC then (LinkSynced [], [0x33], None)
      else if b =? 0xFF then (LinkStart, [0xFF], None) else (LinkOut, [], None)
  | LinkSynced buf =>
      if decide (length buf < 8)%nat then (LinkSynced (buf ++ [b]), [], None)
      else if b =? crc8_of buf then (LinkSynced [], [0x91], Some buf)
      else if b =? 0xFF then (LinkStart, [0xFF], None)
      else (LinkSynced [], [0x92], None)
  end.

(** A sequence of bytes: all replies and all accepted packets, in order. *)
Fixpoint link_run (l : link) (bs : list Z) : link * list Z * list (list Z) :=
  match bs with
  | [] => (l, [], [])
  | b :: bs =>
      let '(l1, out1, acc1) := link_step l b in
      let '(l2, out2, acc2) := link_run l1 bs in
      (l2, out1 ++ out2, option_list acc1 ++ acc2)
  end.

Definition link_wf (l : link) : Prop :=
  match l with
  | LinkSynced buf => (length buf ≤ 8)%nat ∧ bytes buf
  | _ => True
  end.

(** The state of the code that stands for a state of the protocol. *)
Definition link_rel (j : joystick) (l : link) : Prop :=
  let p := serialInput j in
  match l with
  | LinkOut => state j = OUT_OF_SYNC ∧ received_bytes p = 0 ∧ crc8_ccitt p = 0
  | LinkStart => state j = SYNC_START ∧ received_bytes p = 0 ∧ crc8_ccitt p = 0
  | LinkOne => state j = SYNC_1 ∧ received_bytes p = 0 ∧ crc8_ccitt p = 0
  | LinkSynced buf =>
      state j = SYNCED ∧ received_bytes p = Z.of_nat (length buf) ∧
      take (length buf) (input p) = buf ∧ crc8_ccitt p = crc8_of buf
  end.

(** The invariant of the variables of [Joystick.c]. *)
Record joystick_inv (j : joystick) (l : link) : Prop := {
  inv_link : link_rel j l;
  inv_wf : link_wf l;
  inv_input : length (input (serialInput j)) = 8%nat;
  inv_bytes : bytes (input (serialInput j));
  inv_controller : report_wf (controllerReport j);
  inv_idle : report_wf (idleReport j);
  inv_millis : is_u16 (millis j);
}.

(** The effect of an accepted packet on the reports and the timer; without
    one they do not change. *)
Definition accepted_rel (acc : option (list Z)) (j j' : joystick) : Prop :=
  idleReport j' = idleReport j ∧
  match acc with
  | Some buf => faithful buf (controllerReport j') ∧
                selectedReport j' = PtrController ∧ millis j' = 0
  | None => controllerReport j' = controllerReport j ∧
            selectedReport j' = selectedReport j ∧ millis j' = millis j
  end.
End protocol.

(** ** The interrupt handler implements the protocol *)

Section refinement.
Context {E : Type} `{!BoardOps E, !EndpointOps E, !PlatformView E, !Platform E, !AvrCrc}.

Lemma push_byte_spec p b buf :
  length (input p) = 8%nat → bytes (input p) → is_u8 b →
  received_bytes p = Z.of_nat (length buf) → (length buf < 8)%nat →
  take (length buf) (input p) = buf → crc8_ccitt p = crc8_of buf →
  ∃ p', push_byte b p = Some p' ∧ length (input p') = 8%nat ∧ bytes (input p') ∧
        received_bytes p' = Z.of_nat (length (buf ++ [b])) ∧
        take (length (buf ++ [b])) (input p') = buf ++ [b] ∧
        crc8_ccitt p' = crc8_of (buf ++ [b]).
Proof.
  intros Hlen Hbytes Hb Hrecv Hlt Htake Hcrc. unfold push_byte, store_at.
  rewrite Hrecv, Nat2Z.id.
  rewrite memcpy_at_Some by (simpl; lia). eexists. split; [reflexivity|].
  cbn [input crc8_ccitt received_bytes]. rewrite Htake. repeat split.
  - rewrite !length_app, length_drop. simpl. lia.
  - rewrite !Forall_app. repeat split; [|by constructor|by apply Forall_drop].
    rewrite <- Htake. by apply Forall_take.
  - rewrite length_app. simpl. rewrite u8_id; unfold is_u8; lia.
  - by rewrite app_assoc, take_app_length.
  - unfold crc8_of. rewrite foldl_app. simpl. by rewrite Hcrc.
Qed.

(** Running a driver operation inside the firmware. *)
Lemma on_usb_runs {A} (m : M E A) (w : firmware E) r bv ev :
  runs m (usb w) r bv ev →
  ∃ e', on_usb m w = Ok r (set_usb e' w) ∧ plat_ok e' ∧ board e' = bv ∧ ep e' = ev.
Proof.
  intros (e' & Hm & Hok & Hb & He). exists e'. unfold on_usb, zoom. by rewrite Hm.
Qed.

Lemma respond_spec (w : firmware E) r :
  plat_ok (usb w) →
  ∃ e', respond r w = Ok tt (set_usb e' w) ∧ plat_ok e' ∧
        board e' = add_tx (Response_code r) (board (usb w)) ∧ ep e' = ep (usb w).
Proof.
  intros Hok. apply on_usb_runs. apply send_byte_spec; [done|].
  by destruct r; apply (bool_decide_unpack _).
Qed.

(** What the handler leaves behind after the byte [b]. *)
Definition isr_post (w : firmware E) (q : list Z) (res : link * list Z * option (list Z))
    (o : outcome (firmware E) unit) : Prop :=
  let '(l', out, acc) := res in
  ∃ w', o = Ok tt w' ∧ plat_ok (usb w') ∧
        joystick_inv (joy w') l' ∧ accepted_rel acc (joy w) (joy w') ∧
        rx_pending (board (usb w')) = q ∧
        tx_log (board (usb w')) = tx_log (board (usb w)) ++ out ∧
        rsp w' = rsp w ∧ ep (usb w') = ep (usb w) ∧
        rx_isr_on (board (usb w')) = rx_isr_on (board (usb w)).

(** Runs the calls of [respond] and the tests on the new state. *)
Ltac isr_run :=
  repeat match goal with
  | |- context [respond ?r ?w0] =>
      let e' := fresh "e" in let Hr := fresh "Hr" in
      let Hok := fresh "Hok" in let Hbv := fresh "Hbv" in let Hev := fresh "Hev" in
      destruct (respond_spec w0 r) as (e' & Hr & Hok & Hbv & Hev); [done|];
      rewrite Hr; cbn [joy usb rsp set_usb set_joy] in Hbv, Hev |- *; clear Hr
  | |- context [decide (state ?j = ?s)] =>
      first [ rewrite (decide_False (P := state j = s)) by (simpl; congruence)
            | rewrite (decide_True (P := state j = s)) by (simpl; congruence) ];
      cbn [joy usb rsp set_usb set_joy]
  | |- context [match ?b =? ?c with true => _ | false => _ end] =>
      destruct (Z.eqb_spec b c)
  end; cbn [mret M_ret joy usb rsp set_usb set_joy]; try done.

(** Closes the description of a final state. *)
Ltac isr_done :=
  eexists; split; [reflexivity|]; cbn [joy usb rsp set_usb set_joy];
  split; [done|]; split; [split; simpl; first [done | by split_and! | split; [lia|by constructor]]|];
  split; [unfold accepted_rel; by split_and!|]; split_and!;
  repeat match goal with
  | H : board ?e = _ |- context [board ?e] => rewrite H
  | H : ep ?e = _ |- context [ep ?e] => rewrite H
  end; simpl; rewrite ?app_nil_r; try done.

Section one_byte.
Context (w : firmware E) (b : Z) (q : list Z) (e1 : E).
Hypothesis Hb : is_u8 b.
Hypothesis Hrecv : on_usb recv_byte w = Ok b (set_usb e1 w).
Hypothesis Hok1 : plat_ok e1.
Hypothesis Hb1 : board e1 = set_rx_pending q (board (usb w)).
Hypothesis He1 : ep e1 = ep (usb w).

Lemma isr_unsynced l :
  joystick_inv (joy w) l → state (joy w) ≠ SYNCED →
  isr_post w q (link_step l b) (USART1_RX_vect w).
Proof.
  intros [Hlink Hwf Hin Hby Hc Hi Hm] Hns.
  unfold USART1_RX_vect, mbind, M_bind. rewrite Hrecv.
  unfold gets, upd, on_joy, zoom, modify. cbn [joy set_usb].
  destruct l; simpl in Hlink; destruct Hlink as (Hst & Hrb & Hcrc); try congruence;
    rewrite Hst; cbn [joy set_usb set_joy link_step Command_code mret M_ret];
    isr_run; subst; try congruence; isr_done.
Qed.

Lemma isr_filling buf :
  joystick_inv (joy w) (LinkSynced buf) → (length buf < 8)%nat →
  isr_post w q (link_step (LinkSynced buf) b) (USART1_RX_vect w).
Proof.
  intros [Hlink Hwf Hin Hby Hc Hi Hm] Hlt. simpl in Hlink, Hwf.
  destruct Hlink as (Hst & Hrb & Htake & Hcrc).
  destruct (push_byte_spec (serialInput (joy w)) b buf) as
    (p' & Hpush & Hin' & Hby' & Hrb' & Htake' & Hcrc'); [done..|].
  unfold USART1_RX_vect, mbind, M_bind. rewrite Hrecv.
  unfold gets, upd, on_joy, zoom, modify. cbn [joy set_usb]. rewrite Hst.
  rewrite (proj2 (Z.ltb_lt _ 8)) by lia. rewrite Hpush. cbn [checked mret M_ret].
  unfold link_step. rewrite decide_True by done. isr_run. simpl in Hwf.
  eexists. split; [reflexivity|]. cbn [joy usb rsp set_usb set_joy].
  split; [done|]. split; [split; simpl; try done|].
  - rewrite length_app, Forall_app. simpl. split; [lia|]. by split; [apply Hwf|constructor].
  - split; [by repeat split|]. rewrite Hb1, He1, app_nil_r. by repeat split.
Qed.

Lemma isr_full buf :
  joystick_inv (joy w) (LinkSynced buf) → ¬ (length buf < 8)%nat →
  isr_post w q (link_step (LinkSynced buf) b) (USART1_RX_vect w).
Proof.
  intros [Hlink Hwf Hin Hby Hc Hi Hm] Hge. simpl in Hlink, Hwf.
  destruct Hlink as (Hst & Hrb & Htake & Hcrc).
  rewrite take_ge in Htake by lia. subst buf.
  destruct (populate_faithful (serialInput (joy w))) as (r & Hpop & Hfaith); [done..|].
  pose proof (faithful_wf _ _ Hfaith).
  unfold USART1_RX_vect, mbind, M_bind. rewrite Hrecv.
  unfold gets, upd, on_joy, zoom, modify. cbn [joy set_usb]. rewrite Hst.
  rewrite (proj2 (Z.ltb_ge _ 8)) by lia. unfold link_step. rewrite decide_False by done.
  rewrite Hcrc, (Z.eqb_sym b). destruct (Z.eqb_spec (crc8_of (input (serialInput (joy w)))) b).
  - rewrite Hpop. cbn [negb checked mret M_ret joy set_joy]. isr_run. isr_done.
  - cbn [negb Command_code]. isr_run; isr_done.
Qed.
End one_byte.

(** The handler on one received byte. *)
Lemma USART1_RX_step (w : firmware E) l b q :
  plat_ok (usb w) → joystick_inv (joy w) l →
  rx_pending (board (usb w)) = b :: q → is_u8 b →
  isr_post w q (link_step l b) (USART1_RX_vect w).
Proof.
  intros Hok Hinv Hrx Hb.
  destruct (on_usb_runs recv_byte w _ _ _ (recv_byte_spec _ _ _ Hok Hrx))
    as (e1 & Hrecv & Hok1 & Hb1 & He1).
  destruct l as [| | |buf];
    [eapply isr_unsynced; eauto; destruct Hinv as [[-> _]]; done..|].
  destruct (decide (length buf < 8)%nat); [eapply isr_filling|eapply isr_full]; eauto.
Qed.

(** [n] receive interrupts, one after the other. *)
Fixpoint interrupts (n : nat) : M (firmware E) unit :=
  match n with
  | O => mret tt
  | S n => USART1_RX_vect;; interrupts n
  end.

(** After the accepted packets [acc]: the report is that of the last one. *)
Definition accepted_all (acc : list (list Z)) (j j' : joystick) : Prop :=
  idleReport j' = idleReport j ∧
  match last acc with
  | Some buf => faithful buf (controllerReport j') ∧
                selectedReport j' = PtrController ∧ millis j' = 0
  | None => controllerReport j' = controllerReport j ∧
            selectedReport j' = selectedReport j ∧ millis j' = millis j
  end.

Lemma accepted_all_cons acc accs j j1 j2 :
  accepted_rel acc j j1 → accepted_all accs j1 j2 →
  accepted_all (option_list acc ++ accs) j j2.
Proof.
  unfold accepted_rel, accepted_all. destruct acc as [buf|]; simpl.
  - destruct (last accs) as [x|] eqn:Hl.
    + replace (last (buf :: accs)) with (Some x) by (by destruct accs).
      intros; destruct_and!; split_and!; congruence.
    + destruct accs; [simpl|by rewrite last_cons_cons in *; rewrite last_None in Hl].
      intros (-> & Hf & Hs & Hm) (-> & -> & -> & ->). by split_and!.
  - destruct (last accs); intros; destruct_and!; split_and!; congruence.
Qed.

Definition interrupts_post (w : firmware E) (q : list Z)
    (res : link * list Z * list (list Z)) (o : outcome (firmware E) unit) : Prop :=
  let '(l', out, acc) := res in
  ∃ w', o = Ok tt w' ∧ plat_ok (usb w') ∧
        joystick_inv (joy w') l' ∧ accepted_all acc (joy w) (joy w') ∧
        rx_pending (board (usb w')) = q ∧
        tx_log (board (usb w')) = tx_log (board (usb w)) ++ out ∧
        rsp w' = rsp w ∧ ep (usb w') = ep (usb w).

Lemma interrupts_refine (bs : list Z) : ∀ (w : firmware E) l q,
  plat_ok (usb w) → joystick_inv (joy w) l →
  rx_pending (board (usb w)) = bs ++ q → bytes bs →
  interrupts_post w q (link_run l bs) (interrupts (length bs) w).
Proof.
  induction bs as [|b bs IH]; intros w l q Hok Hinv Hrx Hbs.
  { simpl. exists w. rewrite app_nil_r. unfold accepted_all. by split_and!. }
  apply Forall_cons in Hbs as [Hb Hbs].
  pose proof (USART1_RX_step w l b (bs ++ q) Hok Hinv Hrx Hb) as Hstep.
  simpl. destruct (link_step l b) as [[l1 out1] acc1].
  destruct Hstep as (w1 & Hrun & Hok1 & Hinv1 & Hacc1 & Hrx1 & Htx1 & Hrsp1 & Hep1 & _).
  specialize (IH w1 l1 q Hok1 Hinv1 Hrx1 Hbs). unfold interrupts_post in *.
  destruct (link_run l1 bs) as [[l2 out2] acc2].
  destruct IH as (w2 & Hrun2 & Hok2 & Hinv2 & Hacc2 & Hrx2 & Htx2 & Hrsp2 & Hep2).
  exists w2. split.
  { unfold mbind, M_bind. by rewrite Hrun. }
  split_and!; try done; try congruence.
  - by eapply accepted_all_cons.
  - by rewrite Htx2, Htx1, app_assoc.
Qed.
End refinement.

(** ** Properties of the protocol *)

Lemma lxor_byte c b : is_u8 c → is_u8 b → is_u8 (Z.lxor c b).
Proof. intros. by_bytes2 (λ c b, is_u8 (Z.lxor c b)). Qed.

Lemma ccitt_byte x : is_u8 x → is_u8 (Nat.iter 8 ccitt_shift x).
Proof. intros. by_bytes (λ x, is_u8 (Nat.iter 8 ccitt_shift x)). Qed.

(** Eight shifts are a permutation of the bytes. *)
Lemma ccitt_inj x y :
  is_u8 x → is_u8 y → Nat.iter 8 ccitt_shift x = Nat.iter 8 ccitt_shift y → x = y.
Proof.
  intros Hx Hy. revert Hx Hy.
  intros. revert H. by_bytes2 (λ x y,
    Nat.iter 8 ccitt_shift x = Nat.iter 8 ccitt_shift y → x = y).
Qed.

Lemma lxor_cancel_r c b : Z.lxor (Z.lxor c b) b = c.
Proof. by rewrite Z.lxor_assoc, Z.lxor_nilpotent, Z.lxor_0_r. Qed.

Section crc.
Context `{!AvrCrc, !AvrCrcSpec}.

Lemma crc_byte c b : is_u8 c → is_u8 b → is_u8 (crc8_ccitt_update c b).
Proof.
  intros. rewrite crc8_ccitt_documented by done. by apply ccitt_byte, lxor_byte.
Qed.

Lemma crc_fold_byte l c : is_u8 c → bytes l → is_u8 (foldl crc8_ccitt_update c l).
Proof.
  revert c. induction l as [|b l IH]; intros c Hc Hl; [done|].
  apply Forall_cons in Hl as [Hb Hl]. simpl. apply IH; [by apply crc_byte|done].
Qed.

Lemma crc_inj_l c1 c2 b :
  is_u8 c1 → is_u8 c2 → is_u8 b →
  crc8_ccitt_update c1 b = crc8_ccitt_update c2 b → c1 = c2.
Proof.
  intros H1 H2 Hb Heq. rewrite !crc8_ccitt_documented in Heq by done.
  apply ccitt_inj in Heq; [|by apply lxor_byte..].
  by rewrite <- (lxor_cancel_r c1 b), Heq, lxor_cancel_r.
Qed.

Lemma crc_inj_r c b1 b2 :
  is_u8 c → is_u8 b1 → is_u8 b2 →
  crc8_ccitt_update c b1 = crc8_ccitt_update c b2 → b1 = b2.
Proof.
  intros Hc H1 H2 Heq. rewrite !crc8_ccitt_documented in Heq by done.
  apply ccitt_inj in Heq; [|by apply lxor_byte..].
  rewrite !(Z.lxor_comm c) in Heq.
  by rewrite <- (lxor_cancel_r b1 c), Heq, lxor_cancel_r.
Qed.

Lemma crc_fold_inj l c1 c2 :
  is_u8 c1 → is_u8 c2 → bytes l →
  foldl crc8_ccitt_update c1 l = foldl crc8_ccitt_update c2 l → c1 = c2.
Proof.
  revert c1 c2. induction l as [|b l IH]; intros c1 c2 H1 H2 Hl Heq; [done|].
  apply Forall_cons in Hl as [Hb Hl]. simpl in Heq.
  apply IH in Heq; [|by apply crc_byte..|done]. by apply crc_inj_l in Heq.
Qed.

(** Changing one byte changes the checksum. *)
Lemma crc8_of_change l1 l2 x y :
  bytes l1 → bytes l2 → is_u8 x → is_u8 y → x ≠ y →
  crc8_of (l1 ++ x :: l2) ≠ crc8_of (l1 ++ y :: l2).
Proof.
  intros H1 H2 Hx Hy Hne Heq. unfold crc8_of in Heq. rewrite !foldl_app in Heq.
  simpl in Heq. assert (is_u8 (foldl crc8_ccitt_update 0 l1)) by by apply crc_fold_byte.
  apply crc_fold_inj in Heq; [|by apply crc_byte..|done]. by apply crc_inj_r in Heq.
Qed.

Lemma crc8_of_documented l : bytes l → crc8_of l = foldl crc8_ccitt_doc 0 l.
Proof.
  unfold crc8_of. assert (is_u8 0) as Hz by (unfold is_u8; lia).
  revert Hz. generalize 0. induction l as [|b l IH]; intros c Hc Hl; [done|].
  apply Forall_cons in Hl as [Hb Hl]. simpl.
  rewrite IH by (done || by apply crc_byte). by rewrite crc8_ccitt_documented.
Qed.

Lemma crc8_of_ff : crc8_of (replicate 8 0xFF) ≠ 0xFF.
Proof. rewrite crc8_of_documented by (apply (bool_decide_unpack _); done).
  apply (bool_decide_unpack _). vm_compute. exact I.
Qed.
End crc.

(** ** Runs of the protocol *)

Section runs.
Context `{!AvrCrc}.

Lemma link_run_app l bs1 bs2 :
  link_run l (bs1 ++ bs2) =
  let '(l1, out1, acc1) := link_run l bs1 in
  let '(l2, out2, acc2) := link_run l1 bs2 in
  (l2, out1 ++ out2, acc1 ++ acc2).
Proof.
  revert l. induction bs1 as [|b bs1 IH]; intros l; simpl.
  { by destruct (link_run l bs2) as [[??]?]. }
  destruct (link_step l b) as [[l1 out1] acc1]. rewrite IH.
  destruct (link_run l1 bs1) as [[l2 out2] acc2].
  destruct (link_run l2 bs2) as [[l3 out3] acc3]. by rewrite !app_assoc.
Qed.

(** Bytes that only fill the packet. *)
Lemma link_run_fill bs buf :
  (length buf + length bs ≤ 8)%nat →
  link_run (LinkSynced buf) bs = (LinkSynced (buf ++ bs), [], []).
Proof.
  revert buf. induction bs as [|b bs IH]; intros buf Hle; simpl; [by rewrite app_nil_r|].
  simpl in Hle. rewrite decide_True by lia.
  rewrite IH by (rewrite length_app; simpl; lia). simpl. by rewrite <- app_assoc.
Qed.

(** A frame of eight bytes and a checksum byte. *)
Lemma link_run_frame p c :
  length p = 8%nat →
  link_run (LinkSynced []) (p ++ [c]) =
    if c =? crc8_of p then (LinkSynced [], [0x91], [p])
    else if c =? 0xFF then (LinkStart, [0xFF], [])
    else (LinkSynced [], [0x92], []).
Proof.
  intros Hp. rewrite link_run_app, link_run_fill by (simpl; lia).
  simpl. rewrite decide_False by lia.
  destruct (c =? crc8_of p); [done|]. by destruct (c =? 255).
Qed.

(** In [LinkStart] the start command changes nothing. *)
Lemma link_run_start n : (link_run LinkStart (replicate n 0xFF)).1.1 = LinkStart.
Proof.
  induction n as [|n IH]; [done|]. simpl.
  by destruct (link_run LinkStart (replicate n 255)) as [[??]?].
Qed.

Lemma link_run_start_acc n : (link_run LinkStart (replicate n 0xFF)).2 = [].
Proof.
  induction n as [|n IH]; [done|]. simpl.
  by destruct (link_run LinkStart (replicate n 255)) as [[??]?].
Qed.

Lemma link_after_app l bs1 bs2 :
  (link_run l (bs1 ++ bs2)).1.1 = (link_run (link_run l bs1).1.1 bs2).1.1.
Proof.
  rewrite link_run_app. destruct (link_run l bs1) as [[l1 ?] ?]. simpl.
  by destruct (link_run l1 bs2) as [[??]?].
Qed.

(** From any state, eighteen start commands are enough to reach [LinkStart]:
    nine complete the packet, and if their checksum happened to match, the
    next nine do not. *)
Lemma link_run_ff `{!AvrCrcSpec} l n :
  link_wf l → (18 ≤ n)%nat →
  (link_run l (replicate n 0xFF)).1.1 = LinkStart ∧
  (length (link_run l (replicate n 0xFF%Z)).2 ≤ 1)%nat.
Proof.
  intros Hwf Hn. destruct l as [| | |buf].
  1-3: destruct n as [|n]; [lia|]; simpl; pose proof (link_run_start n) as Hs;
    destruct (link_run LinkStart (replicate n 255)) as [[??]?] eqn:Hr;
    pose proof (link_run_start_acc n) as Ha; rewrite Hr in Ha; simpl in *; subst; auto with lia.
  destruct Hwf as [Hlen _].
  pose (k := (8 - length buf)%nat).
  replace n with (k + S (n - S k))%nat by lia.
  rewrite replicate_add, link_run_app, link_run_fill by (rewrite length_replicate; lia).
  set (buf' := buf ++ replicate k 0xFF). cbn [replicate link_run link_step].
  rewrite decide_False by (unfold buf'; rewrite length_app, length_replicate; lia).
  destruct (255 =? crc8_of buf').
  - replace (n - S k)%nat with (9 + (n - S k - 9))%nat by lia.
    rewrite replicate_add, link_run_app.
    change (replicate 9 255) with (replicate 8 255 ++ [255]).
    rewrite link_run_frame by done.
    destruct (Z.eqb_spec 255 (crc8_of (replicate 8 255))); [by destruct crc8_of_ff|].
    simpl. pose proof (link_run_start (n - S k - 9)) as Hs.
    pose proof (link_run_start_acc (n - S k - 9)) as Ha.
    destruct (link_run LinkStart _) as [[??]?]. simpl in *. subst. simpl. auto.
  - simpl. pose proof (link_run_start (n - S k)) as Hs.
    pose proof (link_run_start_acc (n - S k)) as Ha.
    destruct (link_run LinkStart _) as [[??]?]. simpl in *. subst. simpl. auto.
Qed.

(** A frame with one changed byte does not pass. *)
Lemma link_run_corrupted `{!AvrCrcSpec} p i x :
  length p = 8%nat → bytes p → is_u8 x → (i < 9)%nat →
  (p ++ [crc8_of p]) !! i ≠ Some x →
  ∃ c, link_run (LinkSynced []) (<[i := x]> (p ++ [crc8_of p])) =
       if c =? 0xFF then (LinkStart, [0xFF], []) else (LinkSynced [], [0x92], []).
Proof.
  intros Hp Hbs Hx Hi Hne. destruct (decide (i = 8%nat)) as [->|Hlt].
  - exists x. rewrite insert_app_r_alt, Hp by lia. simpl. rewrite link_run_frame by done.
    rewrite lookup_app_r, Hp in Hne by lia. simpl in Hne.
    destruct (Z.eqb_spec x (crc8_of p)); [congruence|done].
  - exists (crc8_of p). rewrite insert_app_l by lia.
    rewrite link_run_frame by (by rewrite length_insert).
    rewrite lookup_app_l in Hne by lia.
    destruct (lookup_lt_is_Some_2 p i) as [y Hy]; [lia|].
    rewrite (insert_take_drop p i x) by lia.
    assert (crc8_of p ≠ crc8_of (take i p ++ x :: drop (S i) p)) as Hc.
    { rewrite <- (take_drop_middle p i y) at 1 by done.
      apply crc8_of_change; eauto using Forall_take, Forall_drop; [|congruence].
      by eapply Forall_lookup_1 in Hy. }
    by destruct (Z.eqb_spec (crc8_of p) (crc8_of (take i p ++ x :: drop (S i) p))).
Qed.
End runs.

(** ** The properties of the link *)

Section properties.
Context {E : Type} `{!BoardOps E, !EndpointOps E, !PlatformView E, !Platform E, !AvrCrc}.

(** The state after start-up is the initial state of the protocol. *)
Lemma main_joystick_inv : joystick_inv main_joystick LinkOut.
Proof.
  split; simpl; [done..| | | | |]; try apply idle_report_wf; try by repeat constructor.
Qed.

(** C6: The receive interrupt handler implements the serial protocol.  From
    any state that stands for the protocol state [l], as many interrupts as
    there are received bytes [bs] end normally (no access out of bounds, no
    endless loop), send exactly the replies of the protocol, leave the state
    that stands for the protocol state after [bs], and the controller report
    is the one of the last accepted packet; the reply buffer and the endpoints
    are not touched. *)
Theorem USART1_RX_refines (w : firmware E) l bs q :
  plat_ok (usb w) → joystick_inv (joy w) l →
  rx_pending (board (usb w)) = bs ++ q → bytes bs →
  interrupts_post w q (link_run l bs) (interrupts (length bs) w).
Proof. apply interrupts_refine. Qed.

(** Nine interrupts on a packet with its checksum. *)
Lemma frame_accepted `{!AvrCrcSpec} (w : firmware E) p q :
  plat_ok (usb w) → joystick_inv (joy w) (LinkSynced []) →
  length p = 8%nat → bytes p →
  rx_pending (board (usb w)) = p ++ crc8_of p :: q →
  interrupts_post w q (LinkSynced [], [Response_code RESP_UPDATE_ACK], [p]) (interrupts 9 w).
Proof.
  intros Hok Hinv Hp Hbs Hrx.
  pose proof (interrupts_refine (p ++ [crc8_of p]) w _ q Hok Hinv) as Hrun.
  rewrite <- app_assoc, length_app, Hp, link_run_frame, Z.eqb_refl in Hrun by done.
  apply Hrun; [done|]. apply Forall_app_2, Forall_singleton; [done|].
  apply crc_fold_byte; [unfold is_u8; lia|done].
Qed.

(** A packet that the host frames with its checksum is accepted: nine
    interrupts send RESP_UPDATE_ACK, the controller report says what the
    packet says, it is selected and the connection timer restarts. *)
Lemma packet_accepted `{!AvrCrcSpec} (w : firmware E) p q :
  plat_ok (usb w) → joystick_inv (joy w) (LinkSynced []) →
  length p = 8%nat → bytes p →
  rx_pending (board (usb w)) = p ++ crc8_of p :: q →
  ∃ w', interrupts 9 w = Ok tt w' ∧
        joystick_inv (joy w') (LinkSynced []) ∧
        faithful p (controllerReport (joy w')) ∧
        selectedReport (joy w') = PtrController ∧ millis (joy w') = 0 ∧
        tx_log (board (usb w')) = tx_log (board (usb w)) ++ [Response_code RESP_UPDATE_ACK].
Proof.
  intros Hok Hinv Hp Hbs Hrx.
  destruct (frame_accepted w p q) as (w' & Hrun & _ & Hinv' & (_ & ? & ? & ?) & _ & Htx & _); [done..|].
  by exists w'.
Qed.

(** C15: A packet in which one byte was corrupted, the checksum included, is
    never accepted: the reports, the selection and the timer stay as they
    are, and the only reply is RESP_UPDATE_NACK, or RESP_SYNC_START when the
    checksum byte reads as COMMAND_SYNC_START. *)
Theorem packet_corrupted `{!AvrCrcSpec} (w : firmware E) p i x q :
  plat_ok (usb w) → joystick_inv (joy w) (LinkSynced []) →
  length p = 8%nat → bytes p → is_u8 x → (i < 9)%nat →
  (p ++ [crc8_of p]) !! i ≠ Some x →
  rx_pending (board (usb w)) = <[i := x]> (p ++ [crc8_of p]) ++ q →
  ∃ w' r, interrupts 9 w = Ok tt w' ∧
        controllerReport (joy w') = controllerReport (joy w) ∧
        idleReport (joy w') = idleReport (joy w) ∧
        selectedReport (joy w') = selectedReport (joy w) ∧
        millis (joy w') = millis (joy w) ∧
        tx_log (board (usb w')) = tx_log (board (usb w)) ++ [Response_code r] ∧
        (r = RESP_UPDATE_NACK ∧ state (joy w') = SYNCED ∨
         r = RESP_SYNC_START ∧ state (joy w') = SYNC_START).
Proof.
  intros Hok Hinv Hp Hbs Hx Hi Hne Hrx.
  pose proof (interrupts_refine _ w _ q Hok Hinv Hrx) as Hrun.
  destruct (link_run_corrupted p i x) as [c Hc]; [done..|]. rewrite Hc in Hrun.
  rewrite length_insert, length_app, Hp in Hrun. simpl in Hrun.
  specialize (Hrun ltac:(apply Forall_insert; [apply Forall_app_2, Forall_singleton; [done|]|done];
    apply crc_fold_byte; [unfold is_u8; lia|done])).
  destruct (c =? 255); destruct Hrun as (w' & Hrun & _ & Hinv' & Hacc & _ & Htx & _);
    destruct Hacc as (? & ? & ? & ?); destruct Hinv' as [Hl]; destruct Hl as [Hst _].
  - exists w', RESP_SYNC_START. split_and!; [done..|]. by right.
  - exists w', RESP_UPDATE_NACK. split_and!; [done..|]. by left.
Qed.

(** C13: The host can always get back in step.  From any state of the firmware,
    in the middle of a packet or of a handshake, eighteen or more
    COMMAND_SYNC_START bytes, then COMMAND_SYNC_1 and COMMAND_SYNC_2, leave
    the link synchronised at a packet boundary, and the last two replies are
    RESP_SYNC_1 and RESP_SYNC_OK. *)
Theorem resynchronise `{!AvrCrcSpec} (w : firmware E) l n q :
  plat_ok (usb w) → joystick_inv (joy w) l → (18 ≤ n)%nat →
  rx_pending (board (usb w)) =
    replicate n (Command_code COMMAND_SYNC_START) ++
    [Command_code COMMAND_SYNC_1; Command_code COMMAND_SYNC_2] ++ q →
  ∃ w' out, interrupts (n + 2) w = Ok tt w' ∧
        joystick_inv (joy w') (LinkSynced []) ∧
        tx_log (board (usb w')) = tx_log (board (usb w)) ++ out ++
          [Response_code RESP_SYNC_1; Response_code RESP_SYNC_OK].
Proof.
  intros Hok Hinv Hn Hrx. rewrite app_assoc in Hrx.
  destruct (link_run_ff l n) as [Hl _]; [by destruct Hinv|done|].
  pose proof (interrupts_refine _ w _ q Hok Hinv Hrx) as Hrun.
  rewrite link_run_app, length_app, length_replicate in Hrun. simpl in Hrun.
  specialize (Hrun ltac:(apply Forall_app_2; [apply Forall_replicate|]; by repeat constructor)).
  destruct (link_run l (replicate n 255)) as [[l1 out] acc]. simpl in Hl. subst l1.
  destruct Hrun as (w' & Hrun & _ & Hinv' & _ & _ & Htx & _). by exists w', out.
Qed.
End properties.

(** ** Instances on the reference board *)

(** The documented checksum, and the firmware on the reference board. *)
Module Demo.
#[export] Instance demo_crc : AvrCrc := { crc8_ccitt_update := crc8_ccitt_doc }.
#[export] Instance demo_crc_spec : AvrCrcSpec.
Proof. intros c b _ _. reflexivity. Qed.

Definition demo_usb (rx : list Z) : ref_board :=
  {| rb_board := {| rx_pending := rx; tx_log := []; leds_lit := 0; rx_isr_on := true |};
     rb_ep := {| ep_configured := true; ep_selected := 0; ep_out := None;
                 ep_in := Some []; ep_sent := [] |} |}.

Definition demo_world (rx : list Z) (j : joystick) : firmware ref_board :=
  {| usb := demo_usb rx; rsp := response_init; joy := j |}.

(** [main]'s variables after the handshake. *)
Definition demo_synced : joystick := set_state SYNCED main_joystick.

Lemma demo_synced_inv : joystick_inv demo_synced (LinkSynced []).
Proof.
  destruct main_joystick_inv as [_ _ ?????].
  split; try done. simpl. split; [lia|constructor].
Qed.

(** The A button, the hat to the right and the left stick half way up. *)
Definition demo_packet : list Z := [0; 4; 2; 0x80; 0xC0; 0x80; 0x80; 0].
End Demo.

Import Demo.

Lemma USART1_RX_refines_witness :
  interrupts_post (demo_world [0xFF; 0x33; 0xCC; 1] main_joystick) [1]
    (link_run LinkOut [0xFF; 0x33; 0xCC])
    (interrupts 3 (demo_world [0xFF; 0x33; 0xCC; 1] main_joystick)).
Proof.
  apply (USART1_RX_refines (demo_world [0xFF; 0x33; 0xCC; 1] main_joystick) LinkOut
           [0xFF; 0x33; 0xCC] [1]); [exact I|apply main_joystick_inv|reflexivity|].
  apply (bool_decide_unpack _). vm_compute. exact I.
Defined.

Lemma packet_corrupted_witness :
  ∃ w', interrupts 9 (demo_world (<[1%nat := 5]> (demo_packet ++ [crc8_of demo_packet])) demo_synced)
        = Ok tt w' ∧ controllerReport (joy w') = initialize_idle_report.
Proof.
  destruct (packet_corrupted
    (demo_world (<[1%nat := 5]> (demo_packet ++ [crc8_of demo_packet])) demo_synced)
    demo_packet 1 5 []) as (w' & r & Hrun & Hc & _);
    [exact I|apply demo_synced_inv|reflexivity| | |lia|done| |exists w'; split; [exact Hrun|exact Hc]];
    [apply (bool_decide_unpack _); vm_compute; exact I..|].
  by rewrite app_nil_r.
Defined.

Lemma resynchronise_witness :
  ∃ w' out, interrupts 20 (demo_world (replicate 18 0xFF ++ [0x33; 0xCC]) demo_synced) = Ok tt w' ∧
        tx_log (board (usb w')) = out ++ [0xCC; 0x33].
Proof.
  destruct (resynchronise (demo_world (replicate 18 0xFF ++ [0x33; 0xCC]) demo_synced)
              (LinkSynced []) 18 []) as (w' & out & Hrun & _ & Htx);
    [exact I|apply demo_synced_inv|lia|reflexivity|exists w', out; split; [exact Hrun|exact Htx]].
Defined.
