(* ===== verification/Failsafe.v ===== *)
(** * The connection-lost timer

    [CALLBACK_beforeSend] of [src/Firmware/Joystick.c] runs before every input
    report, which the console asks for every 8 ms.  It chooses the report to
    send from the time since the last accepted packet. *)

From S2P Require Import Prelude Datatypes State Interfaces Joystick Reports SerialLink.

(** ** The callback as a function *)

(** What a report shows at [t] milliseconds after the last packet: the stages
    of the comment above [MILLIS_UNTIL_PAUSE]. *)
Inductive stage := Live | Paused | Home | Stopped | Unsynced.

#[export] Instance stage_eq_dec : EqDecision stage.
Proof. solve_decision. Defined.

Definition stage_at (t : Z) : stage :=
  if t <? 120 then Live
  else if t <? 800 then Paused
  else if t <? 1000 then Home
  else Stopped.

Definition stage_of (j : joystick) : stage :=
  if decide (state j = SYNCED) then stage_at (millis j) else Unsynced.

Definition stage_leds (s : stage) : Z :=
  match s with
  | Live => LEDS_ALL_LEDS
  | Paused | Stopped => LEDS_LED1
  | Home => LEDS_LED2
  | Unsynced => LEDS_NO_LEDS
  end.

(** The report that is sent. *)
Definition stage_report (s : stage) (j : joystick) : USB_StandardReport_t :=
  match s with
  | Live => controllerReport j
  | Home => set_button_home true (idleReport j)
  | _ => set_button_home false (idleReport j)
  end.

(** The timer stops at one second. *)
Definition stage_millis (s : stage) (j : joystick) : Z :=
  match s with
  | Live | Paused | Home => millis j + 8
  | _ => millis j
  end.

Definition before_send_joy (j : joystick) : joystick :=
  let s := stage_of j in
  set_millis (stage_millis s j)
    match s with
    | Live => set_selectedReport PtrController j
    | Home => select_idle true j
    | _ => select_idle false j
    end.

Lemma before_send_report j : deref_selected (before_send_joy j) = stage_report (stage_of j) j.
Proof. unfold before_send_joy. by destruct (stage_of j). Qed.

Lemma before_send_keeps j :
  state (before_send_joy j) = state j ∧ serialInput (before_send_joy j) = serialInput j ∧
  controllerReport (before_send_joy j) = controllerReport j.
Proof. unfold before_send_joy. by destruct (stage_of j). Qed.

Lemma stage_millis_range j :
  0 ≤ millis j < 1008 → 0 ≤ stage_millis (stage_of j) j < 1008.
Proof.
  intros Ht. unfold stage_of, stage_at. case_decide; [|done].
  repeat case_match; simpl; lia.
Qed.

Lemma set_millis_same j : set_millis (millis j) j = j.
Proof. by destruct j. Qed.

(** The idle report differs from its initial value in the HOME button only. *)
Definition idle_inv (j : joystick) : Prop :=
  set_button_home false (idleReport j) = initialize_idle_report.

Lemma set_button_home_twice b b' r :
  set_button_home b (set_button_home b' r) = set_button_home b r.
Proof. done. Qed.

Lemma before_send_idle_inv j : idle_inv j → idle_inv (before_send_joy j).
Proof. unfold idle_inv, before_send_joy. by destruct (stage_of j). Qed.

(** The report of a stage when no packet arrives any more. *)
Definition shown_report (s : stage) (j : joystick) : USB_StandardReport_t :=
  match s with
  | Live => controllerReport j
  | Home => set_button_home true initialize_idle_report
  | _ => initialize_idle_report
  end.

Lemma stage_report_shown s j : idle_inv j → stage_report s j = shown_report s j.
Proof.
  unfold idle_inv. intros Hi. destruct s; simpl; try done.
  by rewrite <- Hi, set_button_home_twice.
Qed.

Lemma before_send_joystick_inv `{!AvrCrc} j l :
  joystick_inv j l → 0 ≤ millis j < 1008 → joystick_inv (before_send_joy j) l.
Proof.
  intros [Hl Hw Hin Hb Hc Hi Hm] Ht.
  destruct (before_send_keeps j) as (Hst & Hser & Hcon).
  split; rewrite ?Hser, ?Hcon; try done.
  - unfold link_rel. rewrite Hst, Hser. exact Hl.
  - unfold before_send_joy. destruct (stage_of j); try done; by apply set_button_home_wf.
  - pose proof (stage_millis_range j Ht). unfold before_send_joy, is_u16. simpl. lia.
Qed.

(** The timer after [k] reports. *)
Definition timer_at (k : nat) : Z := Z.min (8 * Z.of_nat k) 1000.

Lemma timer_at_step k j :
  state j = SYNCED → millis j = timer_at k →
  stage_of j = stage_at (8 * Z.of_nat k) ∧
  stage_millis (stage_of j) j = timer_at (S k).
Proof.
  unfold stage_of, stage_at, timer_at. intros Hs Hm. rewrite Hs, Hm, decide_True by done.
  destruct (Z.ltb_spec (8 * Z.of_nat k) 120), (Z.ltb_spec (8 * Z.of_nat k) 800),
    (Z.ltb_spec (8 * Z.of_nat k) 1000),
    (Z.ltb_spec (Z.min (8 * Z.of_nat k) 1000) 120), (Z.ltb_spec (Z.min (8 * Z.of_nat k) 1000) 800),
    (Z.ltb_spec (Z.min (8 * Z.of_nat k) 1000) 1000);
    try lia; simpl; rewrite ?Hm; (split; [done|lia]).
Qed.

Section callback.
Context {E : Type} `{!BoardOps E, !EndpointOps E, !PlatformView E, !Platform E}.

(** One call of the callback. *)
Definition callback_post (w w' : firmware E) : Prop :=
  plat_ok (usb w') ∧ rsp w' = rsp w ∧ joy w' = before_send_joy (joy w) ∧
  ep (usb w') = ep (usb w) ∧
  board (usb w') = set_rx_isr true (set_leds (stage_leds (stage_of (joy w))) (board (usb w))).

Lemma leds_runs (w : firmware E) m :
  plat_ok (usb w) → Z.land m LEDS_ALL_LEDS = m →
  ∃ e', on_usb (LEDs_SetAllLEDs m) w = Ok tt (set_usb e' w) ∧ plat_ok e' ∧
        board e' = set_leds m (board (usb w)) ∧ ep e' = ep (usb w).
Proof. intros. apply on_usb_runs. by apply LEDs_SetAllLEDs_spec. Qed.

(** The four ways through the callback. *)
Lemma choose_report_post (w : firmware E) :
  plat_ok (usb w) → 0 ≤ millis (joy w) < 1008 →
  ∃ w', choose_report w = Ok tt w' ∧ plat_ok (usb w') ∧ rsp w' = rsp w ∧
        joy w' = before_send_joy (joy w) ∧ ep (usb w') = ep (usb w) ∧
        board (usb w') = set_leds (stage_leds (stage_of (joy w))) (board (usb w)).
Proof.
  intros Hok Ht. unfold choose_report, mbind, M_bind, gets.
  unfold before_send_joy, stage_of, stage_at.
  change MILLIS_UNTIL_PAUSE with 120. change MILLIS_UNTIL_HOME with 800.
  change (800 + MILLIS_HOME_PRESSED) with 1000.
  assert (∀ t, 0 ≤ t < 1008 → u16 (t + 8) = t + 8) as Hu
    by (intros; apply u16_id; unfold is_u16; lia).
  rewrite !Z.geb_leb. unfold when, upd, on_joy, zoom, modify.
  destruct (decide (state (joy w) = SYNCED)) as [Hs|Hs];
    [destruct (Z.leb_spec 120 (millis (joy w))) as [Hp|Hp];
      [destruct (Z.leb_spec 800 (millis (joy w))), (Z.ltb_spec (millis (joy w)) 1000)|]|];
    try lia; cbn [andb];
    match goal with |- context [on_usb (LEDs_SetAllLEDs ?m) ?w0] =>
      destruct (leds_runs w0 m) as (e2 & Hr2 & Hok2 & Hb2 & He2); [done|by vm_compute|]
    end;
    rewrite Hr2; cbn [joy usb rsp set_usb set_joy] in Hb2, He2 |- *;
    cbn [mret M_ret]; eexists; (split; [reflexivity|]);
    cbn [joy usb rsp set_usb set_joy]; rewrite Hb2, He2.
  all: repeat match goal with
    | |- context [?a <? ?b] => destruct (Z.ltb_spec a b); try lia
    end; split_and!; try done; unfold add_8ms; cbn [stage_millis millis set_selectedReport
      select_idle set_idleReport]; rewrite ?Hu by lia; try done; by destruct (joy w).
Qed.

Lemma CALLBACK_beforeSend_post (w : firmware E) :
  plat_ok (usb w) → 0 ≤ millis (joy w) < 1008 →
  ∃ w', CALLBACK_beforeSend w = Ok tt w' ∧ callback_post w w'.
Proof.
  intros Hok Ht. unfold CALLBACK_beforeSend, callback_post, mbind, M_bind.
  destruct (on_usb_runs disable_rx_isr w _ _ _ (disable_rx_isr_spec _ Hok))
    as (e1 & Hr1 & Hok1 & Hb1 & He1). rewrite Hr1.
  destruct (choose_report_post (set_usb e1 w) Hok1 Ht) as (w2 & Hr2 & Hok2 & Hrsp & Hj & He2 & Hb2).
  rewrite Hr2. destruct (on_usb_runs enable_rx_isr w2 _ _ _ (enable_rx_isr_spec _ Hok2))
    as (e3 & Hr3 & Hok3 & Hb3 & He3). rewrite Hr3. eexists. split; [reflexivity|].
  cbn [joy usb rsp set_usb] in *. rewrite Hb3, He3, Hb2, He2, Hb1, He1. by split_and!.
Qed.

(** [n] reports in a row. *)
Fixpoint callbacks (n : nat) : M (firmware E) unit :=
  match n with
  | O => mret tt
  | S n => callbacks n;; CALLBACK_beforeSend
  end.

Definition timeline_post (w w' : firmware E) (k : nat) : Prop :=
  plat_ok (usb w') ∧ state (joy w') = SYNCED ∧ millis (joy w') = timer_at k ∧
  idle_inv (joy w') ∧ controllerReport (joy w') = controllerReport (joy w).

Lemma callbacks_timeline (w : firmware E) k :
  plat_ok (usb w) → state (joy w) = SYNCED → millis (joy w) = 0 → idle_inv (joy w) →
  ∃ w', callbacks k w = Ok tt w' ∧ timeline_post w w' k.
Proof.
  intros Hok Hs Hm Hi. induction k as [|k (w1 & Hrun & Hok1 & Hs1 & Hm1 & Hi1 & Hc1)].
  { by exists w. }
  destruct (CALLBACK_beforeSend_post w1 Hok1) as (w2 & Hcb & Hok2 & _ & Hj & _).
  { rewrite Hm1. unfold timer_at. lia. }
  exists w2. cbn [callbacks]. unfold mbind, M_bind. rewrite Hrun. split; [done|].
  destruct (before_send_keeps (joy w1)) as (Hst & _ & Hcon).
  destruct (timer_at_step k (joy w1)) as [_ Hmil]; [done..|].
  unfold timeline_post. rewrite Hj, Hst, Hcon. split_and!; try done.
  by apply before_send_idle_inv.
Qed.
End callback.

(** ** Properties *)

Section timeline.
Context {E : Type} `{!BoardOps E, !EndpointOps E, !PlatformView E, !Platform E}.

(** C12: The connection-lost behaviour.  When no packet is accepted after the
    one that reset the timer, report number [k] (from 0, sent [8 * k] ms
    later) is: the last controller state before 120 ms; the idle report from
    120 to 800 ms; the idle report with HOME pressed from 800 ms to one
    second; the idle report from then on.  The LEDs show the stage, the
    receive interrupt is enabled again, and the timer stops at 1000 without
    overflowing. *)
Theorem connection_lost_timeline (w : firmware E) k :
  plat_ok (usb w) → state (joy w) = SYNCED → millis (joy w) = 0 → idle_inv (joy w) →
  ∃ w', callbacks (S k) w = Ok tt w' ∧
        deref_selected (joy w') = shown_report (stage_at (8 * Z.of_nat k)) (joy w) ∧
        leds_lit (board (usb w')) = stage_leds (stage_at (8 * Z.of_nat k)) ∧
        rx_isr_on (board (usb w')) = true ∧
        millis (joy w') = timer_at (S k).
Proof.
  intros Hok Hs Hm Hi.
  destruct (callbacks_timeline w k) as (w1 & Hrun & Hok1 & Hs1 & Hm1 & Hi1 & Hc1); [done..|].
  destruct (CALLBACK_beforeSend_post w1 Hok1) as (w2 & Hcb & Hok2 & _ & Hj & _ & Hbd).
  { rewrite Hm1. unfold timer_at. lia. }
  destruct (timer_at_step k (joy w1)) as [Hst Hmil]; [done..|].
  exists w2. cbn [callbacks]. unfold mbind, M_bind. rewrite Hrun.
  rewrite Hbd, Hj, before_send_report, Hst, stage_report_shown by done.
  split_and!; try done.
  unfold shown_report. by rewrite Hc1.
Qed.

(** Before the handshake completes, whatever the other variables hold, the
    report sent is the idle report with no button pressed and the LEDs are
    off. *)
Lemma unsynced_is_idle (w : firmware E) :
  plat_ok (usb w) → state (joy w) ≠ SYNCED → 0 ≤ millis (joy w) < 1008 → idle_inv (joy w) →
  ∃ w', CALLBACK_beforeSend w = Ok tt w' ∧
        deref_selected (joy w') = initialize_idle_report ∧
        leds_lit (board (usb w')) = LEDS_NO_LEDS ∧ millis (joy w') = millis (joy w).
Proof.
  intros Hok Hs Hm Hi.
  destruct (CALLBACK_beforeSend_post w Hok Hm) as (w' & Hcb & _ & _ & Hj & _ & Hbd).
  assert (stage_of (joy w) = Unsynced) as Hst by (unfold stage_of; by rewrite decide_False).
  exists w'. rewrite Hbd, Hj, before_send_report, Hst, stage_report_shown by done.
  split_and!; try done. unfold before_send_joy. by rewrite Hst.
Qed.
End timeline.

Import Demo.

Lemma connection_lost_timeline_witness :
  ∃ w', callbacks 101 (demo_world [] demo_synced) = Ok tt w' ∧
        deref_selected (joy w') = set_button_home true initialize_idle_report ∧
        leds_lit (board (usb w')) = LEDS_LED2.
Proof.
  destruct (connection_lost_timeline (demo_world [] demo_synced) 100)
    as (w' & Hrun & Hrep & Hled & _); [exact I|reflexivity..|].
  exists w'. split; [exact Hrun|]. split; [exact Hrep|exact Hled].
Defined.
