(* ===== verification/HidTask.v ===== *)
(** * The main task

    [HID_Task] of [src/Firmware/Joystick.c] with [send_IN_report] of
    [src/Firmware/Response.c]: one OUT packet in, one IN packet out. *)

From S2P Require Import Prelude Datatypes EmulatedSPI Descriptors State Interfaces Response.
From S2P Require Import Joystick Reports SerialLink Failsafe.

(** ** The reply buffer *)

(** The invariant of the variables of [Response.c]. *)
Record response_wf (s : response) : Prop := {
  reply_length : length (replyBuffer s) = 64%nat;
  reply_bytes : bytes (replyBuffer s);
  reply_counter : is_u8 (counter s);
}.

Lemma next_counter_range c : is_u8 (next_counter c).
Proof. unfold next_counter, is_u8. apply Z.mod_pos_bound. lia. Qed.

(** A packet of at most 64 bytes in the buffer. *)
Lemma packet_wf l s b :
  (length l ≤ 64)%nat → bytes l → is_u8 (counter s) →
  response_wf {| replyBuffer := packet l; counter := counter s; nextPacketReady := b |}.
Proof.
  intros Hl Hb Hc. split; simpl; [by apply packet_length|by apply pad_bytes|done].
Qed.

Lemma subcommand_ack_byte sub : is_u8 (subcommand_ack sub).
Proof. by destruct sub as [[]|]; apply (bool_decide_unpack _). Qed.

Lemma subcommand_data_bytes ram report sub size :
  (∀ a, is_u8 (ram a)) → out_report report size → bytes (subcommand_data ram report sub).
Proof.
  intros Hram Hout. destruct sub as [[]|]; simpl; try by apply (bool_decide_unpack _).
  - by constructor.
  - pose proof (out_nth_byte _ _ 11 Hout ltac:(lia)) as H11.
    pose proof (out_nth_byte _ _ 12 Hout ltac:(lia)) as H12.
    pose proof (out_nth_byte _ _ 15 Hout ltac:(lia)) as H15.
    unfold spi_data. apply Forall_take, Forall_app_2; [|apply flash_read_bytes].
    unfold is_u8 in *. repeat constructor; try (div_lia || lia).
Qed.

(** The handler keeps the invariant; a free buffer stays well formed too. *)
Lemma out_spec_wf ram selected report size s s' :
  (∀ a, is_u8 (ram a)) → report_wf selected → out_report report size →
  response_wf s → out_spec ram selected report size s = Ok tt s' → response_wf s'.
Proof.
  intros Hram Hsel Hout [Hl Hb Hc]. unfold out_spec, usb_reply, usb_packet, uart_packet.
  pose proof (report_bytes_bytes _ Hsel) as Hrb.
  assert (length (report_bytes selected) = 11%nat) as Hrl
    by (apply report_bytes_length; by destruct Hsel).
  revert Hrb Hrl. generalize (report_bytes selected) as rb. intros rb Hrb Hrl.
  pose proof (next_counter_range (counter s)) as Hnc.
  pose proof (out_nth_byte _ _ 1 Hout ltac:(lia)) as H1.
  pose proof (out_nth_byte _ _ 10 Hout ltac:(lia)) as H10.
  repeat case_match; intros; simplify_eq; try done.
  - apply (packet_wf _ (set_counter _ s)); [cbn [app length]; rewrite Hrl; lia| |done].
    solve_bytes.
  - apply packet_wf; [simpl; lia|by apply (bool_decide_unpack _)|done].
  - apply packet_wf; [simpl; lia|solve_bytes|done].
  - unfold data_room in *.
    apply (packet_wf _ (set_counter _ s));
      [cbn [app length]; rewrite length_app, Hrl; simpl; lia| |done].
    pose proof (subcommand_data_bytes ram report (of_code (nth 10 report 0)) size Hram Hout).
    pose proof (subcommand_ack_byte (of_code (nth 10 report 0))). solve_bytes.
Qed.

(** ** The OUT packet *)

(** The buffer that [HID_Task] passes on for the packet [pkt]: its first 64
    bytes and zeros. *)
Definition out_buffer (pkt : list Z) : list Z := packet (take 64 pkt).
Definition out_count (pkt : list Z) : Z := Z.of_nat (length (take 64 pkt)).

Lemma out_buffer_report pkt : bytes pkt → out_report (out_buffer pkt) (out_count pkt).
Proof.
  intros Hb. unfold out_buffer, out_count.
  assert (length (take 64 pkt) ≤ 64)%nat by (rewrite length_take; lia).
  split; [by apply packet_length| |lia].
  apply pad_bytes. by apply Forall_take.
Qed.

(** ** The IN packet *)

(** The reply that waits, or else a fresh input report 0x30. *)
Definition in_reply (r : USB_StandardReport_t) (s : response) : response :=
  if nextPacketReady s then s
  else set_ready (usb_packet 0x30 (next_counter (counter s)) (report_bytes r))
         (set_counter (next_counter (counter s)) s).

Definition clear_ready (s : response) : response :=
  {| replyBuffer := replyBuffer s; counter := counter s; nextPacketReady := false |}.

Lemma in_reply_wf r s : report_wf r → response_wf s → response_wf (in_reply r s).
Proof.
  intros Hr Hs. unfold in_reply, usb_packet. destruct (nextPacketReady s); [done|].
  pose proof (report_bytes_bytes _ Hr) as Hb. pose proof (next_counter_range (counter s)).
  assert (length (report_bytes r) = 11%nat) as Hl by (apply report_bytes_length; by destruct Hr).
  revert Hb Hl. generalize (report_bytes r) as rb. intros rb Hb Hl.
  apply (packet_wf _ (set_counter _ s)); [simpl; lia|solve_bytes|done].
Qed.

Lemma clear_ready_wf s : response_wf s → response_wf (clear_ready s).
Proof. by intros []. Qed.

(** The variables of the firmware outside the serial protocol. *)
Record memory_wf (s : response) (j : joystick) : Prop := {
  mem_reply : response_wf s;
  mem_controller : report_wf (controllerReport j);
  mem_idle : report_wf (idleReport j);
  mem_millis : 0 ≤ millis j < 1008;
}.

Lemma deref_wf s j : memory_wf s j → report_wf (deref_selected j).
Proof. intros []. unfold deref_selected. by destruct (selectedReport j). Qed.

Lemma before_send_mem s j : memory_wf s j → memory_wf s (before_send_joy j).
Proof.
  intros [Hs Hc Hi Hm]. split; [done| | |by apply stage_millis_range].
  - by destruct (before_send_keeps j) as (_ & _ & ->).
  - unfold before_send_joy. destruct (stage_of j); try done; by apply set_button_home_wf.
Qed.

Section task.
Context {E : Type} `{!BoardOps E, !EndpointOps E, !PlatformView E, !Platform E}.
Implicit Types w : firmware E.

Lemma set_usb_twice e1 e2 w : set_usb e2 (set_usb e1 w) = set_usb e2 w.
Proof. done. Qed.

(** Runs one operation of the driver in the goal: [H] is its law. *)
Ltac run_op H :=
  let e' := fresh "e" in let Hr := fresh "Hr" in let Hok := fresh "Hok" in
  let Hb := fresh "Hb" in let He := fresh "He" in
  match goal with |- context [on_usb _ ?w0] =>
    destruct (on_usb_runs _ w0 _ _ _ H) as (e' & Hr & Hok & Hb & He)
  end; rewrite Hr; cbn [joy usb rsp set_usb set_joy set_rsp] in Hb, He |- *; clear Hr.

Lemma read_OUT_spec l : ∀ fuel w pre,
  plat_ok (usb w) → ep_selected (ep (usb w)) = JOYSTICK_OUT_EPADDR →
  ep_out (ep (usb w)) = Some l → (length l < fuel)%nat → (length pre ≤ 64)%nat →
  ∃ e', read_OUT fuel (packet pre) (Z.of_nat (length pre)) w =
          Ok (packet (take 64 (pre ++ l)), Z.of_nat (length (take 64 (pre ++ l))))
             (set_usb e' w) ∧
        plat_ok e' ∧ board e' = board (usb w) ∧ ep e' = set_out (Some []) (ep (usb w)).
Proof.
  change (Z.to_nat JOYSTICK_EPSIZE) with 64%nat.
  induction l as [|b l IH]; intros [|fuel] w pre Hok Hsel Hout Hfuel Hpre;
    try (simpl in Hfuel; lia); cbn [read_OUT]; unfold mbind, M_bind.
  { run_op (rw_allowed_spec _ _ Hok Hsel Hout).
    rewrite bool_decide_eq_false_2 by auto. rewrite app_nil_r, take_ge by done.
    exists e. split_and!; try done. rewrite He. by destruct (ep (usb w)); simplify_eq/=. }
  run_op (rw_allowed_spec _ _ Hok Hsel Hout).
  rewrite bool_decide_eq_true_2 by done.
  match goal with |- context [on_usb Endpoint_Read_8 ?w1] =>
    run_op (read_8_spec (usb w1) b l Hok0 ltac:(by simpl; rewrite He) ltac:(by simpl; rewrite He)) end.
  change JOYSTICK_EPSIZE with 64. simpl in Hfuel.
  destruct (Z.ltb_spec (Z.of_nat (length pre)) 64).
  - rewrite Nat2Z.id, store_at_pad by lia. cbn [checked mret M_ret].
    replace (u16 (Z.of_nat (length pre) + 1)) with (Z.of_nat (length (pre ++ [b])))
      by (rewrite length_app, u16_id; simpl; unfold is_u16; lia).
    destruct (IH fuel (set_usb e0 w) (pre ++ [b])) as (e' & Hrun & Hok' & Hb' & He');
      [done|simpl; rewrite He0, He; done|simpl; rewrite He0; done|lia|
       rewrite length_app; simpl; lia|].
    exists e'. rewrite set_usb_twice. rewrite Hrun, <- app_assoc. simpl in Hb', He'. simpl.
    split_and!; try done; [congruence|]. by rewrite He', He0, He.
  - destruct (IH fuel (set_usb e0 w) pre) as (e' & Hrun & Hok' & Hb' & He');
      [done|simpl; rewrite He0, He; done|simpl; rewrite He0; done|lia..|].
    exists e'. rewrite set_usb_twice. simpl in Hb', He'. rewrite Hrun.
    rewrite !take_app_le, take_ge by lia.
    split_and!; try done; [congruence|]. by rewrite He', He0, He.
Qed.

(** [send_IN_report] when the bank of the IN endpoint is free: the callback
    runs, one packet is handed to the host and the buffer is free again. *)
Definition sent_in (s : response) (w w' : firmware E) : Prop :=
  let j := before_send_joy (joy w) in
  let s1 := in_reply (deref_selected j) s in
  plat_ok (usb w') ∧ joy w' = j ∧ rsp w' = clear_ready s1 ∧
  ep (usb w') = send_in (replyBuffer s1) (set_selected JOYSTICK_IN_EPADDR (ep (usb w))) ∧
  board (usb w') = set_rx_isr true (set_leds (stage_leds (stage_of (joy w))) (board (usb w))).

Lemma send_IN_report_spec fuel w :
  plat_ok (usb w) → memory_wf (rsp w) (joy w) → ep_in (ep (usb w)) = Some [] → (1 ≤ fuel)%nat →
  ∃ w', send_IN_report fuel w = Ok tt w' ∧ sent_in (rsp w) w w'.
Proof.
  intros Hok Hmem Hin Hfuel. destruct fuel as [|fuel]; [lia|].
  destruct (CALLBACK_beforeSend_post w Hok) as (w1 & Hcb & Hok1 & Hr1 & Hj1 & He1 & Hb1);
    [by destruct Hmem|].
  unfold send_IN_report, sent_in, mbind, M_bind. rewrite Hcb. unfold get_st. rewrite Hj1.
  apply before_send_mem in Hmem as Hmem1. rewrite <- Hj1, <- Hr1 in Hmem1.
  pose proof (deref_wf _ _ Hmem1) as Hsel. rewrite Hj1 in Hsel.
  set (s1 := in_reply (deref_selected (before_send_joy (joy w))) (rsp w)).
  assert (when (negb (nextPacketReady (rsp w1)))
    (on_rsp (prepare_standard_report (deref_selected (before_send_joy (joy w))))) w1 =
    Ok tt (set_rsp s1 w1)) as ->.
  { unfold s1, in_reply, when, on_rsp, zoom. rewrite Hr1.
    destruct (nextPacketReady (rsp w)) eqn:Hrd; simpl.
    - rewrite <- Hr1. by destruct w1.
    - rewrite Hr1, prepare_standard_report_free; [done|done|by destruct Hsel]. }
  assert (response_wf s1) as [Hl Hbs _] by (apply in_reply_wf; [done|by destruct Hmem]).
  run_op (select_spec (usb (set_rsp s1 w1)) JOYSTICK_IN_EPADDR Hok1 (or_introl eq_refl)).
  rewrite He1 in He.
  assert (ep_in (ep e) = Some []) as Hin1 by (by rewrite He).
  assert (ep_selected (ep e) = JOYSTICK_IN_EPADDR) as Hsel1 by (by rewrite He).
  cbn [wait_until]. unfold mbind, M_bind.
  run_op (is_in_ready_spec _ Hok0 Hsel1). rewrite Hin1, bool_decide_eq_true_2 by eauto.
  cbn [mret M_ret]. rewrite <- He0 in Hin1, Hsel1.
  assert (runs (r ← Endpoint_Write_Stream_LE (replyBuffer s1) JOYSTICK_EPSIZE;
                mret (r =? ENDPOINT_RWSTREAM_NoError))
     e0 true (board e0) (set_in (Some (replyBuffer s1)) (ep e0))) as Hwrite.
  { unfold runs, mbind, M_bind. destruct (write_stream_spec e0 (replyBuffer s1) Hok2 Hsel1 Hin1 Hbs Hl)
      as (e3 & Hw & Hok3 & Hb3 & He3). exists e3. by rewrite Hw. }
  unfold mbind, M_bind in Hwrite. cbn [rsp set_usb set_rsp]. run_op Hwrite. cbn [mret M_ret].
  match goal with |- context [on_usb Endpoint_ClearIN ?w0] =>
    run_op (clear_in_spec (usb w0) (replyBuffer s1) Hok3 ltac:(by simpl; rewrite He2)
      ltac:(by simpl; rewrite He2)) end.
  unfold on_rsp, zoom, modify. eexists. split; [reflexivity|]. simpl.
  split_and!; try done; [|congruence]. by rewrite He3, He2, He0, He.
Qed.

(** The reply buffer after the first half of the task. *)
Definition task_response (ram : Z → Z) (w : firmware E) : outcome response unit :=
  match ep_out (ep (usb w)) with
  | None => Ok tt (rsp w)
  | Some pkt => out_spec ram (deref_selected (joy w)) (out_buffer pkt) (out_count pkt) (rsp w)
  end.

(** The whole task: the OUT packet is taken and its reply prepared; then, when
    the host has taken the last IN packet, the next one is sent. *)
Definition task_post (s : response) (w w' : firmware E) : Prop :=
  let v := set_selected JOYSTICK_IN_EPADDR (set_out None (ep (usb w))) in
  plat_ok (usb w') ∧
  match ep_in (ep (usb w)) with
  | Some _ =>
      let j := before_send_joy (joy w) in
      let s1 := in_reply (deref_selected j) s in
      joy w' = j ∧ rsp w' = clear_ready s1 ∧ ep (usb w') = send_in (replyBuffer s1) v ∧
      board (usb w') =
        set_rx_isr true (set_leds (stage_leds (stage_of (joy w))) (board (usb w)))
  | None =>
      joy w' = joy w ∧ rsp w' = s ∧ ep (usb w') = v ∧ board (usb w') = board (usb w)
  end.

(** The first half. *)
Lemma HID_Task_out ram fuel w :
  plat_ok (usb w) → memory_wf (rsp w) (joy w) → (65 ≤ fuel)%nat →
  ep_configured (ep (usb w)) = true →
  (∀ pkt, ep_out (ep (usb w)) = Some pkt → bytes pkt ∧ (length pkt ≤ 64)%nat) →
  ∃ e', plat_ok e' ∧ board e' = board (usb w) ∧
        ep e' = set_out None (set_selected JOYSTICK_OUT_EPADDR (ep (usb w))) ∧
        HID_Task ram fuel w =
        match task_response ram w with
        | Ok _ s =>
            (on_usb (Endpoint_SelectEndpoint JOYSTICK_IN_EPADDR);;
             ready ← on_usb Endpoint_IsINReady;
             if ready : bool then send_IN_report fuel else mret tt)
            (set_rsp s (set_usb e' w))
        | Fault f s => Fault f (set_rsp s (set_usb e' w))
        end.
Proof.
  intros Hok Hmem Hfuel Hconf Hpkt. unfold HID_Task, task_response, mbind, M_bind.
  run_op (configured_spec _ Hok). rewrite Hconf. cbn [negb].
  run_op (select_spec e JOYSTICK_OUT_EPADDR Hok0 (or_intror eq_refl)).
  rewrite He in He0.
  assert (ep_selected (ep e0) = JOYSTICK_OUT_EPADDR) as Hsel by (by rewrite He0).
  run_op (is_out_received_spec _ Hok1 Hsel). rewrite He0 in He1. rewrite He0. cbn [ep_out set_selected].
  rewrite !set_usb_twice. destruct (ep_out (ep (usb w))) as [pkt|] eqn:Hout.
  2: { rewrite bool_decide_eq_false_2 by (by intros [??]). cbn [mret M_ret].
       exists e1. split_and!; [done|congruence| |by destruct w].
       rewrite He1. by destruct (ep (usb w)); simplify_eq/=. }
  destruct (Hpkt pkt eq_refl) as [Hbs Hlen]. rewrite bool_decide_eq_true_2 by eauto.
  rewrite memset_pad.
  destruct (read_OUT_spec pkt fuel (set_usb e1 w) []) as (e2 & Hrun & Hok3 & Hb3 & He3);
    [done|by simpl; rewrite He1|by simpl; rewrite He1|lia|simpl; lia|].
  change (Z.of_nat (length [])) with 0 in Hrun. rewrite Hrun. cbn [usb set_usb app] in Hb3, He3 |- *.
  rewrite He1 in He3.
  run_op (clear_out_spec e2 [] Hok3 ltac:(by rewrite He3) ltac:(by rewrite He3)).
  unfold get_st, on_rsp, zoom. cbn [joy usb rsp set_usb].
  pose proof (out_buffer_report pkt Hbs) as Hrep. unfold out_buffer, out_count in Hrep.
  rewrite (u8_id (Z.of_nat _)) by (destruct Hrep; unfold is_u8; lia).
  rewrite process_OUT_report_eq by (done || by eapply deref_wf).
  exists e3. split_and!; [done|congruence|by rewrite He2, He3|].
  unfold out_buffer, out_count. by destruct (out_spec _ _ _ _ _) as [[]|].
Qed.

Lemma HID_Task_idle ram fuel w :
  plat_ok (usb w) → ep_configured (ep (usb w)) = false →
  ∃ e', HID_Task ram fuel w = Ok tt (set_usb e' w) ∧ plat_ok e' ∧
        board e' = board (usb w) ∧ ep e' = ep (usb w).
Proof.
  intros Hok Hconf. unfold HID_Task, mbind, M_bind.
  run_op (configured_spec _ Hok). rewrite Hconf. by exists e.
Qed.

(** The packets that the console can leave in the OUT bank, and the bank of
    the IN endpoint when it is free. *)
Record host_ok (v : ep_view) : Prop := {
  host_out pkt : ep_out v = Some pkt → bytes pkt ∧ (length pkt ≤ 64)%nat;
  host_in pkt : ep_in v = Some pkt → pkt = [];
}.

Lemma HID_Task_post ram fuel w s :
  plat_ok (usb w) → memory_wf (rsp w) (joy w) → (65 ≤ fuel)%nat → (∀ a, is_u8 (ram a)) →
  ep_configured (ep (usb w)) = true → host_ok (ep (usb w)) →
  task_response ram w = Ok tt s →
  ∃ w', HID_Task ram fuel w = Ok tt w' ∧ task_post s w w'.
Proof.
  intros Hok Hmem Hfuel Hram Hconf [Hpkt Hin] Hs.
  destruct (HID_Task_out ram fuel w) as (e1 & Hok1 & Hb1 & He1 & ->); [done..|].
  rewrite Hs. unfold mbind, M_bind, task_post.
  run_op (select_spec e1 JOYSTICK_IN_EPADDR Hok1 (or_introl eq_refl)).
  assert (ep_selected (ep e) = JOYSTICK_IN_EPADDR) as Hsel by (by rewrite He).
  run_op (is_in_ready_spec _ Hok0 Hsel). rewrite He in He0. rewrite He, He1.
  cbn [ep_in set_selected set_out].
  destruct (ep_in (ep (usb w))) as [pkt|] eqn:Hep.
  2: { rewrite bool_decide_eq_false_2 by (by intros [??]).
       eexists. split; [reflexivity|]. cbn [usb rsp joy set_usb set_rsp].
       split_and!; try done; [by rewrite He0, He1|congruence]. }
  specialize (Hin pkt eq_refl). subst pkt. rewrite bool_decide_eq_true_2 by eauto.
  match goal with |- context [send_IN_report fuel ?w1] =>
    destruct (send_IN_report_spec fuel w1) as (w' & Hrun & Hok' & Hj' & Hr' & He' & Hb') end;
    [done| |by simpl; rewrite He0, He1|lia|].
  { destruct Hmem as [Hsw Hc Hi Hm]. split; try done. simpl. unfold task_response in Hs.
    destruct (ep_out (ep (usb w))) as [pkt|] eqn:Hout; [|by simplify_eq].
    eapply out_spec_wf; [done| |by apply out_buffer_report, Hpkt|exact Hsw|exact Hs].
    by eapply deref_wf. }
  exists w'. split; [done|]. cbn [usb rsp joy set_usb set_rsp] in Hj', Hr', He', Hb'.
  split_and!; try done; [by rewrite He', He0, He1|congruence].
Qed.
End task.

(** ** Properties *)

Section properties.
Context {E : Type} `{!BoardOps E, !EndpointOps E, !PlatformView E, !Platform E}.

(** C8: The main task, on a configured device.  When the pending request has a
    reply that fits ([task_response] is a normal outcome), the task ends, the
    OUT packet is acknowledged, and, when the host has taken the last IN
    packet, the pre-send callback runs once and exactly one packet of the
    reply buffer is handed to the host: the waiting reply, or else a new
    0x30 report of the state that the callback selected. *)
Theorem HID_Task_spec ram fuel (w : firmware E) s :
  plat_ok (usb w) → memory_wf (rsp w) (joy w) → (65 ≤ fuel)%nat → (∀ a, is_u8 (ram a)) →
  ep_configured (ep (usb w)) = true → host_ok (ep (usb w)) →
  task_response ram w = Ok tt s →
  ∃ w', HID_Task ram fuel w = Ok tt w' ∧ task_post s w w'.
Proof. apply HID_Task_post. Qed.

(** C20: Every OUT packet that the console can send, except a flash read whose
    reply is too long, is handled without an access out of bounds and with at
    most 65 turns of each loop; a flash read of 45 to 250 bytes that finds the
    reply buffer free makes the task write outside the buffer. *)
Theorem HID_Task_faults ram fuel (w : firmware E) pkt :
  plat_ok (usb w) → memory_wf (rsp w) (joy w) → (65 ≤ fuel)%nat → (∀ a, is_u8 (ram a)) →
  ep_configured (ep (usb w)) = true → host_ok (ep (usb w)) → ep_out (ep (usb w)) = Some pkt →
  if oversized_read (out_buffer pkt) (out_count pkt) && negb (nextPacketReady (rsp w))
  then ∃ w', HID_Task ram fuel w = Fault Undefined w'
  else ∃ w', HID_Task ram fuel w = Ok tt w'.
Proof.
  intros Hok Hmem Hfuel Hram Hconf Hhost Hout.
  destruct (host_out _ Hhost pkt Hout) as [Hbs _].
  pose proof (out_spec_faults ram (deref_selected (joy w)) (out_buffer pkt) (out_count pkt)
    (rsp w) (out_buffer_report pkt Hbs)) as Hf.
  destruct (_ && _) eqn:Hb.
  - destruct (HID_Task_out ram fuel w) as (e1 & _ & _ & _ & ->); [done..|by apply Hhost|].
    unfold task_response. rewrite Hout, Hf. by eexists.
  - destruct Hf as [s Hs].
    destruct (HID_Task_post ram fuel w s) as (w' & Hrun & _); [done..| |by exists w'].
    unfold task_response. by rewrite Hout.
Qed.
End properties.

Import Demo.

(** A flash read waits in the OUT bank. *)
Definition demo_request (pkt : list Z) : firmware ref_board :=
  {| usb := {| rb_board := rb_board (demo_usb []);
               rb_ep := set_out (Some pkt) (rb_ep (demo_usb [])) |};
     rsp := response_init; joy := demo_synced |}.

Lemma demo_memory : memory_wf response_init demo_synced.
Proof.
  split; [split; [reflexivity| |]|apply idle_report_wf..|];
    try (apply (bool_decide_unpack _); vm_compute; exact I).
Qed.

Lemma demo_host n : is_u8 n → host_ok (ep (usb (demo_request (demo_read n)))).
Proof.
  intros Hn. split; simpl; intros pkt [=<-]; [|done].
  split; [unfold demo_read, pad; solve_bytes; by apply memset_bytes|simpl; lia].
Qed.

Lemma HID_Task_spec_witness :
  ∃ w', HID_Task (λ _, 0) 65 (demo_request (demo_read 16)) = Ok tt w' ∧
        length (ep_sent (ep (usb w'))) = 1%nat.
Proof.
  destruct (HID_Task_spec (λ _, 0) 65 (demo_request (demo_read 16))
    (match task_response (λ _, 0) (demo_request (demo_read 16)) with
     | Ok _ s => s | Fault _ s => s end))
    as (w' & Hrun & _ & _ & _ & Hep & _);
    [exact I|apply demo_memory|lia|unfold is_u8; lia|reflexivity|
     apply demo_host; unfold is_u8; lia|vm_compute; reflexivity|].
  exists w'. split; [exact Hrun|]. rewrite Hep. reflexivity.
Defined.

Lemma HID_Task_faults_witness :
  ∃ w', HID_Task (λ _, 0) 65 (demo_request (demo_read 100)) = Fault Undefined w'.
Proof.
  apply (HID_Task_faults (λ _, 0) 65 (demo_request (demo_read 100)) (demo_read 100));
    [exact I|apply demo_memory|lia|unfold is_u8; lia|reflexivity|
     apply demo_host; unfold is_u8; lia|reflexivity].
Defined.
