(* ===== verification/System.v ===== *)
(** * The whole firmware as a transition system

    The endless loop of [main] ([src/Firmware/Joystick.c]) and the receive
    interrupt, with the host and the console as the environment.  A state is
    the memory of the firmware and, as history, the bytes that the interrupt
    handler has read.  The theorems hold in every state that any sequence of
    steps reaches after start-up. *)

From stdpp Require Import relations.
From S2P Require Import Prelude Datatypes EmulatedSPI Descriptors State Interfaces Response.
From S2P Require Import Joystick Reports SerialLink Failsafe HidTask.

#[local] Opaque report_bytes.

Section system.
Context {E : Type} `{!BoardOps E, !EndpointOps E, !PlatformView E, !Platform E, !AvrCrc}.
Context (ram : Z → Z) (fuel : nat).

Record system := {
  fw : firmware E;
  history : list Z;
}.

(** A change that the environment makes to the hardware. *)
Definition env_changes (w w' : firmware E) (bv : board_view) (ev : ep_view) : Prop :=
  ∃ e', w' = set_usb e' w ∧ plat_ok e' ∧ board e' = bv ∧ ep e' = ev.

Inductive step : system → system → Prop :=
| step_uart w w' h b :
    (** a byte arrives on the serial line *)
    is_u8 b →
    env_changes w w' (set_rx_pending (rx_pending (board (usb w)) ++ [b]) (board (usb w)))
      (ep (usb w)) →
    step {| fw := w; history := h |} {| fw := w'; history := h |}
| step_interrupt w w' h b q :
    (** the receive interrupt is taken *)
    rx_isr_on (board (usb w)) = true → rx_pending (board (usb w)) = b :: q →
    USART1_RX_vect w = Ok tt w' →
    step {| fw := w; history := h |} {| fw := w'; history := h ++ [b] |}
| step_task w w' h :
    (** one turn of the loop of [main] *)
    HID_Task ram fuel w = Ok tt w' →
    step {| fw := w; history := h |} {| fw := w'; history := h |}
| step_request w w' h pkt :
    (** the console sends an OUT packet *)
    ep_configured (ep (usb w)) = true → ep_out (ep (usb w)) = None →
    bytes pkt → (length pkt ≤ 64)%nat →
    env_changes w w' (board (usb w)) (set_out (Some pkt) (ep (usb w))) →
    step {| fw := w; history := h |} {| fw := w'; history := h |}
| step_collect w w' h :
    (** the console takes the IN packet *)
    ep_configured (ep (usb w)) = true → ep_in (ep (usb w)) = None →
    env_changes w w' (board (usb w)) (set_in (Some []) (ep (usb w))) →
    step {| fw := w; history := h |} {| fw := w'; history := h |}
| step_configure w w' h c :
    (** the console configures the device, or resets it *)
    env_changes w w' (board (usb w))
      {| ep_configured := c; ep_selected := ep_selected (ep (usb w)); ep_out := None;
         ep_in := Some []; ep_sent := ep_sent (ep (usb w)) |} →
    step {| fw := w; history := h |} {| fw := w'; history := h |}.

(** The states just after start-up. *)
Definition initial (s : system) : Prop :=
  ∃ e, plat_ok e ∧ main_init e = Some (fw s) ∧ history s = [] ∧
       bytes (rx_pending (board e)) ∧ host_ok (ep e) ∧ ep_sent (ep e) = [].

Definition reachable (s : system) : Prop := ∃ s0, initial s0 ∧ rtc step s0 s.

(** ** Invariants *)

(** A packet with its checksum somewhere in the bytes received. *)
Definition received_packet (h p : list Z) : Prop :=
  length p = 8%nat ∧ ∃ h1 h2, h = h1 ++ p ++ [crc8_of p] ++ h2.

(** A controller state that the host sent, or the idle state. *)
Definition genuine (h : list Z) (r : USB_StandardReport_t) : Prop :=
  r = initialize_idle_report ∨ r = set_button_home true initialize_idle_report ∨
  ∃ p, received_packet h p ∧ faithful p r.

(** The bytes of a packet in progress are the last ones received. *)
Definition history_ok (h : list Z) (l : link) : Prop :=
  match l with
  | LinkSynced buf => ∃ h0, h = h0 ++ buf
  | _ => True
  end.

(** A packet to the console: a reply to a request, or an input report with a
    genuine controller state. *)
Definition packet_ok (h : list Z) (p : list Z) : Prop :=
  length p = 64%nat ∧ bytes p ∧
  (nth 0 p 0 = 0x81 ∨
   (nth 0 p 0 = 0x21 ∨ nth 0 p 0 = 0x30) ∧
   ∃ r, genuine h r ∧ take 11 (drop 2 p) = report_bytes r).

(** The part of the invariant that the packets to the console do not concern. *)
Record core_inv (s : system) : Prop := {
  si_plat : plat_ok (usb (fw s));
  si_link : ∃ l, joystick_inv (joy (fw s)) l ∧ history_ok (history s) l;
  si_mem : memory_wf (rsp (fw s)) (joy (fw s));
  si_idle : idle_inv (joy (fw s));
  si_genuine : genuine (history s) (controllerReport (joy (fw s)));
  si_rx : bytes (rx_pending (board (usb (fw s))));
  si_host : host_ok (ep (usb (fw s)));
}.

(** With what is known of the packets, sent or waiting. *)
Record packets_inv (ok : list Z → list Z → Prop) (s : system) : Prop := {
  si_ready : nextPacketReady (rsp (fw s)) = true → ok (history s) (replyBuffer (rsp (fw s)));
  si_sent : Forall (ok (history s)) (ep_sent (ep (usb (fw s))));
}.

Definition sys_inv (s : system) : Prop := core_inv s ∧ packets_inv packet_ok s.

Lemma received_packet_mono h h' p : received_packet h p → received_packet (h ++ h') p.
Proof.
  intros (Hp & h1 & h2 & ->). split; [done|]. exists h1, (h2 ++ h').
  by rewrite <- !app_assoc.
Qed.

Lemma genuine_mono h h' r : genuine h r → genuine (h ++ h') r.
Proof. unfold genuine. intros [|[|(p & ? & ?)]]; eauto 10 using received_packet_mono. Qed.

Lemma packet_ok_mono h h' p : packet_ok h p → packet_ok (h ++ h') p.
Proof.
  intros (? & ? & [?|(? & r & ? & ?)]); split_and!; try done; [by left|].
  right. split; [done|]. exists r. split; [by apply genuine_mono|done].
Qed.

(** Every report that can be selected is genuine. *)
Lemma idle_genuine h j : idle_inv j → genuine h (idleReport j).
Proof.
  unfold idle_inv, genuine. intros Hi. rewrite <- Hi, set_button_home_twice.
  destruct (button_home (idleReport j)) eqn:Hh; [right; left|left];
    destruct (idleReport j); simpl in *; by subst.
Qed.

Lemma deref_genuine h j :
  idle_inv j → genuine h (controllerReport j) → genuine h (deref_selected j).
Proof.
  intros. unfold deref_selected. destruct (selectedReport j); [done|by apply idle_genuine].
Qed.

(** ** Preservation *)

(** One byte of the serial link. *)
Lemma link_step_history h l b l' out acc :
  link_step l b = (l', out, acc) → history_ok h l → link_wf l →
  history_ok (h ++ [b]) l' ∧ ∀ p, acc = Some p → received_packet (h ++ [b]) p.
Proof.
  intros Hstep Hh Hwf. destruct l as [| | |buf]; simpl in Hstep.
  1-3: repeat case_match; simplify_eq; split; try done; exists (h ++ [b]); by rewrite app_nil_r.
  destruct Hh as [h0 ->]. destruct Hwf as [Hlen _].
  case_decide; simplify_eq.
  { split; [|done]. exists h0. by rewrite app_assoc. }
  destruct (Z.eqb_spec b (crc8_of buf)) as [->|].
  - simplify_eq. split; [exists ((h0 ++ buf) ++ [crc8_of buf]); by rewrite app_nil_r|].
    intros p [=<-]. split; [lia|]. exists h0, []. by rewrite app_nil_r, <- app_assoc.
  - destruct (b =? 255); simplify_eq; split; try done.
    exists ((h0 ++ buf) ++ [b]). by rewrite app_nil_r.
Qed.

(** The environment changes only the views of the hardware. *)
Lemma env_core w w' h bv ev :
  core_inv {| fw := w; history := h |} → env_changes w w' bv ev →
  bytes (rx_pending bv) → host_ok ev → core_inv {| fw := w'; history := h |}.
Proof.
  intros [Hp Hl Hm Hi Hg Hx Hh] (e' & -> & Hok & Hb & He) Hbx Hhe.
  split; try done; simpl; [by rewrite Hb|by rewrite He].
Qed.

Lemma env_preserves w w' h bv ev :
  sys_inv {| fw := w; history := h |} → env_changes w w' bv ev →
  bytes (rx_pending bv) → host_ok ev → ep_sent ev = ep_sent (ep (usb w)) →
  sys_inv {| fw := w'; history := h |}.
Proof.
  intros [Hc [Hr Hs]] Henv Hbx Hhe Hse. split; [by eapply env_core|].
  destruct Henv as (e' & -> & Hok & Hb & He). split; simpl; [done|by rewrite He, Hse].
Qed.

(** What the handler leaves alone. *)
Lemma interrupt_core w w' h b q :
  core_inv {| fw := w; history := h |} → rx_pending (board (usb w)) = b :: q →
  USART1_RX_vect w = Ok tt w' →
  core_inv {| fw := w'; history := h ++ [b] |} ∧ rsp w' = rsp w ∧ ep (usb w') = ep (usb w) ∧
  rx_isr_on (board (usb w')) = rx_isr_on (board (usb w)) ∧
  idleReport (joy w') = idleReport (joy w).
Proof.
  intros [Hp (l & Hinv & Hh) Hm Hi Hg Hx Hho] Hrx Hrun. simpl in *.
  rewrite Hrx in Hx. apply Forall_cons in Hx as [Hb Hq].
  pose proof (USART1_RX_step w l b q Hp Hinv Hrx Hb) as Hpost. rewrite Hrun in Hpost.
  destruct (link_step l b) as [[l' out] acc] eqn:Hstep.
  destruct (link_step_history h l b l' out acc Hstep Hh) as [Hh' Hacc'];
    [by destruct Hinv|].
  destruct Hpost as (w'' & [= <-] & Hok & Hinv' & (Hidle & Hacc) & Hrx' & _ & Hrsp & Hep & Hon).
  split; [|done]. split; simpl; rewrite ?Hrsp, ?Hep, ?Hrx'; try done.
  - by exists l'.
  - destruct Hinv' as [_ _ _ _ Hc' Hi' _], Hm as [? ? ? Hm]. split; try done.
    destruct acc; destruct Hacc as (? & ? & ->); [lia|done].
  - unfold idle_inv. by rewrite Hidle.
  - destruct acc as [p|]; destruct Hacc as (Hf & _).
    + right; right. exists p. by split; [apply Hacc'|].
    + rewrite Hf. by apply genuine_mono.
Qed.

Lemma packets_mono (ok : list Z → list Z → Prop) w w' h h' :
  (∀ p, ok h p → ok (h ++ h') p) → rsp w' = rsp w → ep_sent (ep (usb w')) = ep_sent (ep (usb w)) →
  packets_inv ok {| fw := w; history := h |} → packets_inv ok {| fw := w'; history := h ++ h' |}.
Proof.
  intros Hmono Hr He [Hrd Hs]. split; simpl in *; rewrite ?Hr, ?He; [by auto|].
  by eapply Forall_impl.
Qed.

Lemma interrupt_preserves w w' h b q :
  sys_inv {| fw := w; history := h |} → rx_pending (board (usb w)) = b :: q →
  USART1_RX_vect w = Ok tt w' → sys_inv {| fw := w'; history := h ++ [b] |}.
Proof.
  intros [Hc Hp] Hrx Hrun. destruct (interrupt_core w w' h b q Hc Hrx Hrun) as (Hc' & Hr & He & _).
  split; [done|]. eapply packets_mono; [|done| |done]; [by intros; apply packet_ok_mono|by rewrite He].
Qed.

Lemma initial_inv s : initial s → sys_inv s.
Proof.
  intros (e & Hok & Hinit & Hh & Hrx & Hho & Hsent). destruct s as [w h]. simpl in *. subst h.
  unfold main_init, setup_response_manager in Hinit.
  rewrite prepare_8101_free in Hinit by done. simplify_eq/=.
  split; split; simpl; try done.
  - exists LinkOut. split; [apply main_joystick_inv|done].
  - split; simpl; [|apply idle_report_wf..|lia].
    split; apply (bool_decide_unpack _); vm_compute; exact I.
  - by left.
  - intros _. split_and!; [done| |by left]. apply (bool_decide_unpack _); vm_compute; exact I.
  - rewrite Hsent. constructor.
Qed.

Section preservation.
Hypothesis ram_bytes : ∀ a, is_u8 (ram a).
Hypothesis enough_fuel : (65 ≤ fuel)%nat.

Lemma take_report (a b : Z) l rest :
  length l = 11%nat → take 11 (drop 2 (a :: b :: l ++ rest)) = l.
Proof. intros Hl. simpl. rewrite <- Hl. apply take_app_length. Qed.

(** The packets that the response manager builds. *)
Lemma usb_packet_ok h code k data :
  response_wf (set_ready (usb_packet code k data) response_init) →
  code = 0x81 ∨ (code = 0x30 ∧ ∃ r, report_wf r ∧ genuine h r ∧ data = report_bytes r) →
  packet_ok h (usb_packet code k data).
Proof.
  intros [Hl Hb _] Hcode. simpl in Hl, Hb. split_and!; [done..|].
  destruct Hcode as [->|(-> & r & Hr & Hg & ->)]; [by left|right].
  split; [by right|]. exists r. split; [done|]. unfold usb_packet, pad.
  assert (length (report_bytes r) = 11%nat) as Hl11
    by (apply report_bytes_length; by destruct Hr).
  rewrite <- app_assoc. exact (take_report 0x30 k _ _ Hl11).
Qed.

Lemma uart_packet_ok h cnt r code sub data :
  response_wf (set_ready (uart_packet cnt r code sub data) response_init) →
  report_wf r → genuine h r → packet_ok h (uart_packet cnt r code sub data).
Proof.
  intros [Hl Hb _] Hr Hg. simpl in Hl, Hb. split_and!; [done..|]. right.
  split; [by left|]. exists r. split; [done|]. unfold uart_packet, pad.
  assert (length (report_bytes r) = 11%nat) as Hl11
    by (apply report_bytes_length; by destruct Hr).
  rewrite <- !app_assoc. exact (take_report 0x21 cnt _ _ Hl11).
Qed.

Lemma response_wf_buffer s : response_wf s → response_wf (set_ready (replyBuffer s) response_init).
Proof. intros [Hl Hb _]. split; [done..|]. by apply (bool_decide_unpack _). Qed.

Lemma out_spec_packet h selected report size s s' :
  report_wf selected → genuine h selected → response_wf s' →
  (nextPacketReady s = true → packet_ok h (replyBuffer s)) →
  out_spec ram selected report size s = Ok tt s' →
  nextPacketReady s' = true → packet_ok h (replyBuffer s').
Proof.
  intros Hwf Hg Hs' Hold Hout. apply response_wf_buffer in Hs'. revert Hs'.
  unfold out_spec, usb_reply in Hout.
  repeat case_match; simplify_eq; simpl; intros Hs' Hready; try congruence; try by apply Hold.
  - apply usb_packet_ok; [done|]. right. split; [done|]. by exists selected.
  - apply usb_packet_ok; [done|by left].
  - apply usb_packet_ok; [done|by left].
  - by apply uart_packet_ok.
Qed.

Lemma in_reply_packet h r s :
  report_wf r → genuine h r → response_wf s →
  (nextPacketReady s = true → packet_ok h (replyBuffer s)) →
  packet_ok h (replyBuffer (in_reply r s)).
Proof.
  intros Hwf Hg Hs Hold. pose proof (in_reply_wf r s Hwf Hs) as Hs'.
  apply response_wf_buffer in Hs'. revert Hs'. unfold in_reply.
  destruct (nextPacketReady s); [by intros; apply Hold|]. simpl. intros Hs'.
  apply usb_packet_ok; [done|]. right. split; [done|]. by exists r.
Qed.

Lemma task_preserves w w' h :
  sys_inv {| fw := w; history := h |} → HID_Task ram fuel w = Ok tt w' →
  sys_inv {| fw := w'; history := h |}.
Proof.
  intros Hsys Hrun. pose proof Hsys as [[Hp (l & Hinv & Hh) Hm Hi Hg Hx Hho] [Hr Hs]]. simpl in *.
  destruct (ep_configured (ep (usb w))) eqn:Hconf.
  2: { destruct (HID_Task_idle ram fuel w) as (e' & Hrun' & Hok & Hb & He); [done..|].
       rewrite Hrun' in Hrun. simplify_eq. eapply env_preserves; [done|by exists e'|..]; done. }
  destruct (HID_Task_out ram fuel w) as (e1 & _ & _ & _ & Hout); [done..|by apply Hho|].
  rewrite Hrun in Hout.
  destruct (task_response ram w) as [[] s|] eqn:Hs1; [|done]. clear e1 Hout.
  destruct (HID_Task_post ram fuel w s) as (w'' & Hrun' & Hok & Hpost); [done..|].
  rewrite Hrun in Hrun'. simplify_eq.
  pose proof (deref_wf _ _ Hm) as Hsel. pose proof (deref_genuine h (joy w) Hi Hg) as Hselg.
  assert (response_wf s ∧ (nextPacketReady s = true → packet_ok h (replyBuffer s)))
    as [Hsw Hsr].
  { unfold task_response in Hs1. destruct (ep_out (ep (usb w))) as [pkt|] eqn:Hpk.
    - destruct (host_out _ Hho pkt Hpk) as [Hbs _].
      assert (response_wf s) as Hsw.
      { eapply out_spec_wf; [done|exact Hsel|by apply out_buffer_report|by destruct Hm|done]. }
      split; [done|]. by eapply out_spec_packet.
    - simplify_eq. split; [by destruct Hm|done]. }
  destruct (before_send_keeps (joy w)) as (_ & _ & Hcon).
  pose proof (before_send_mem s (joy w)) as Hbm.
  assert (memory_wf s (joy w)) as Hm1 by (by destruct Hm; split).
  specialize (Hbm Hm1). pose proof (before_send_idle_inv _ Hi) as Hbi.
  destruct (ep_in (ep (usb w))) eqn:Hin; destruct Hpost as (Hj & Hrs & Hep & Hbd);
    split; split; simpl; rewrite ?Hj, ?Hrs, ?Hep, ?Hbd; try done.
  - exists l. split; [|done]. apply before_send_joystick_inv; [done|by destruct Hm].
  - destruct Hbm as [? ? ? ?]. split; try done. apply clear_ready_wf, in_reply_wf; [|done].
    by eapply deref_wf.
  - by rewrite Hcon.
  - apply Forall_app_2; [done|]. apply Forall_singleton, in_reply_packet; try done.
    + by eapply deref_wf.
    + apply deref_genuine; [done|by rewrite Hcon].
  - by exists l.
  - split; simpl; [done|]. rewrite Hin. done.
Qed.

Lemma step_preserves s s' : sys_inv s → step s s' → sys_inv s'.
Proof.
  intros Hinv Hstep. destruct Hstep as
    [w w' h b Hb Henv|w w' h b q Hon Hrx Hrun|w w' h Hrun|w w' h pkt Hc Ho Hb Hl Henv
    |w w' h Hc Hi Henv|w w' h c Henv].
  - pose proof Hinv as [[] _]. eapply env_preserves; try done.
    simpl. by apply Forall_app_2, Forall_singleton.
  - by eapply interrupt_preserves.
  - by eapply task_preserves.
  - pose proof Hinv as [[_ _ _ _ _ ? [Hout Hin]] _]. eapply env_preserves; try done.
    split; simpl; [by intros ? [=<-]|done].
  - pose proof Hinv as [[_ _ _ _ _ ? [Hout Hin]] _]. eapply env_preserves; try done.
    split; simpl; [done|by intros ? [=<-]].
  - pose proof Hinv as [[_ _ _ _ _ ? [Hout Hin]] _]. eapply env_preserves; try done.
    split; simpl; [done|by intros ? [=<-]].
Qed.

Lemma reachable_inv s : reachable s → sys_inv s.
Proof.
  intros (s0 & Hinit & Hsteps). apply initial_inv in Hinit.
  induction Hsteps as [|s0 s1 s2 Hstep _ IH]; [done|]. apply IH. by eapply step_preserves.
Qed.
End preservation.
End system.

(** ** Properties *)

Section properties.
Context {E : Type} `{!BoardOps E, !EndpointOps E, !PlatformView E, !Platform E, !AvrCrc}.

(** The console never sees an input that the host did not send, as long as
    the receive interrupt comes between turns of the main task only: then,
    whatever bytes arrive and whatever the console requests, every packet that
    the firmware sends has 64 bytes and is a reply 0x81, or a 0x21 or 0x30
    report whose controller state is the idle state, the idle state with HOME
    pressed, or faithful to a packet of eight bytes that was received followed
    by its checksum. *)
Lemma sent_packets_genuine ram fuel (s : system (E := E)) :
  (∀ a, is_u8 (ram a)) → (65 ≤ fuel)%nat → reachable ram fuel s →
  Forall (packet_ok (history s)) (ep_sent (ep (usb (fw s)))).
Proof. intros Hram Hfuel Hs. by destruct (reachable_inv ram fuel Hram Hfuel s Hs) as [_ []]. Qed.

(** C18: The firmware keeps its invariants for ever: in every reachable state
    the serial state stands for a state of the protocol, the reports and the
    reply buffer are well formed, the timer has not overflowed and the idle
    report is intact up to its HOME button. *)
Theorem reachable_invariant ram fuel (s : system (E := E)) :
  (∀ a, is_u8 (ram a)) → (65 ≤ fuel)%nat → reachable ram fuel s →
  (∃ l, joystick_inv (joy (fw s)) l) ∧ memory_wf (rsp (fw s)) (joy (fw s)) ∧
  idle_inv (joy (fw s)).
Proof.
  intros Hram Hfuel Hs. destruct (reachable_inv ram fuel Hram Hfuel s Hs) as [[_ (l & Hl & _)] _].
  split_and!; try done. by exists l.
Qed.

(** The firmware does not get stuck: in every reachable state a pending
    byte can be handled by the interrupt handler, and the main task returns,
    unless the console has sent a flash read of 45 to 250 bytes and the reply
    buffer is free. *)
Lemma reachable_progress ram fuel (s : system (E := E)) :
  (∀ a, is_u8 (ram a)) → (65 ≤ fuel)%nat → reachable ram fuel s →
  (rx_pending (board (usb (fw s))) ≠ [] → ∃ w', USART1_RX_vect (fw s) = Ok tt w') ∧
  ((∀ pkt, ep_out (ep (usb (fw s))) = Some pkt →
      nextPacketReady (rsp (fw s)) = true ∨
      oversized_read (out_buffer pkt) (out_count pkt) = false) →
   ∃ w', HID_Task ram fuel (fw s) = Ok tt w').
Proof.
  intros Hram Hfuel Hs.
  destruct (reachable_inv ram fuel Hram Hfuel s Hs) as [[Hp (l & Hl & _) Hm _ _ Hx Hh] _].
  split.
  - intros Hne. destruct (rx_pending (board (usb (fw s)))) as [|b q] eqn:Hrx; [done|].
    apply Forall_cons in Hx as [Hb _].
    pose proof (USART1_RX_step (fw s) l b q Hp Hl Hrx Hb) as Hpost.
    destruct (link_step l b) as [[??]?]. destruct Hpost as (w' & Hrun & _). by exists w'.
  - intros Hfit. destruct (ep_configured (ep (usb (fw s)))) eqn:Hconf.
    2: { destruct (HID_Task_idle ram fuel (fw s) Hp Hconf) as (e' & Hrun & _). by eexists. }
    assert (∃ s1, task_response ram (fw s) = Ok tt s1) as [s1 Hs1].
    { unfold task_response. destruct (ep_out (ep (usb (fw s)))) as [pkt|] eqn:Hout; [|eauto].
      destruct (host_out _ Hh pkt Hout) as [Hbs _].
      pose proof (out_spec_faults ram (deref_selected (joy (fw s))) (out_buffer pkt)
        (out_count pkt) (rsp (fw s)) (out_buffer_report pkt Hbs)) as Hf.
      destruct (Hfit pkt eq_refl) as [Hc|Hc]; rewrite Hc in Hf;
        [rewrite andb_false_r in Hf|]; exact Hf. }
    destruct (HID_Task_post ram fuel (fw s) s1) as (w' & Hrun & _); [done..|]. by exists w'.
Qed.
End properties.

(** ** Instances on the reference board *)

Import Demo.

Definition demo_start (rx : list Z) : system (E := ref_board) :=
  {| fw := {| usb := demo_usb rx;
              rsp := set_ready (usb_packet 0x81 0x01 ([0x00; 0x03] ++ mac_address)) response_init;
              joy := main_joystick |};
     history := [] |}.

(** After one turn of the main loop and one interrupt. *)
Definition demo_next : option (system (E := ref_board)) :=
  w1 ← final (HID_Task (λ _, 0) 65 (fw (demo_start [0xFF])));
  w2 ← final (USART1_RX_vect w1);
  Some {| fw := w2; history := [0xFF] |}.

Lemma demo_start_initial rx : bytes rx → initial (demo_start rx).
Proof.
  intros Hrx. exists (demo_usb rx). split; [exact I|]. split; [reflexivity|]. split; [reflexivity|].
  split; [done|]. split; [|reflexivity].
  split; [done|by intros ? [=<-]].
Qed.

Lemma demo_reachable s : demo_next = Some s → reachable (λ _, 0) 65 s.
Proof.
  unfold demo_next. intros Hs. apply bind_Some in Hs as (w1 & H1 & Hs).
  apply bind_Some in Hs as (w2 & H2 & [= <-]).
  assert (rx_isr_on (board (usb w1)) = true ∧ rx_pending (board (usb w1)) = [0xFF]) as [Hon Hrx].
  { vm_compute in H1. injection H1 as <-. by split. }
  apply final_Some in H1, H2.
  exists (demo_start [0xFF]). split; [by apply demo_start_initial, (bool_decide_unpack _)|].
  eapply rtc_l; [by eapply step_task|].
  eapply rtc_l; [|apply rtc_refl]. by eapply (step_interrupt _ _ _ _ [] 0xFF []).
Qed.

Lemma reachable_invariant_witness :
  ∃ s, demo_next = Some s ∧ idle_inv (joy (fw s)).
Proof.
  eexists. split; [vm_compute; reflexivity|].
  apply (reachable_invariant (λ _, 0) 65); [unfold is_u8; lia|lia|].
  apply demo_reachable. vm_compute. reflexivity.
Defined.
