(* ===== verification/InputPath.v ===== *)
(** * From the serial line to the console

    The parts of the firmware together: a packet that arrives on the serial
    line, the interrupt handler that accepts it, and the reports that the main
    task sends while the console polls. *)

From S2P Require Import Prelude Datatypes Descriptors State Interfaces Response.
From S2P Require Import Joystick Reports SerialLink Failsafe HidTask System.

#[local] Opaque report_bytes.

Section path.
Context {E : Type} `{!BoardOps E, !EndpointOps E, !PlatformView E, !Platform E}.
Context (ram : Z → Z) (fuel : nat).

(** The console polls [n] times: each time it takes the packet that waits, and
    the main task makes a turn.  The turns end, and then [Q] holds. *)
Fixpoint polled (n : nat) (Q : firmware E → Prop) (w : firmware E) : Prop :=
  match n with
  | O => Q w
  | S n => ∀ w1, env_changes w w1 (board (usb w)) (set_in (Some []) (ep (usb w))) →
                 ∃ w', HID_Task ram fuel w1 = Ok tt w' ∧ polled n Q w'
  end.

(** Report number [i] of the polls after a packet, which left the firmware in [w0]. *)
Definition report_packet (w0 : firmware E) (i : nat) : list Z :=
  usb_packet 0x30 (Nat.iter (S i) next_counter (counter (rsp w0)))
    (report_bytes (shown_report (stage_at (8 * Z.of_nat i)) (joy w0))).

(** The firmware after [k] polls. *)
Record quiet (w0 : firmware E) (k : nat) (w : firmware E) : Prop := {
  q_plat : plat_ok (usb w);
  q_memory : memory_wf (rsp w) (joy w);
  q_idle : idle_inv (joy w);
  q_synced : state (joy w) = SYNCED;
  q_timer : millis (joy w) = timer_at k;
  q_report : controllerReport (joy w) = controllerReport (joy w0);
  q_free : nextPacketReady (rsp w) = false;
  q_counter : counter (rsp w) = Nat.iter k next_counter (counter (rsp w0));
  q_conf : ep_configured (ep (usb w)) = true;
  q_out : ep_out (ep (usb w)) = None;
  q_sent : ep_sent (ep (usb w)) = ep_sent (ep (usb w0)) ++ map (report_packet w0) (seq 0 k);
}.

Lemma quiet_poll w0 k w w1 :
  (∀ a, is_u8 (ram a)) → (65 ≤ fuel)%nat → quiet w0 k w →
  env_changes w w1 (board (usb w)) (set_in (Some []) (ep (usb w))) →
  ∃ w', HID_Task ram fuel w1 = Ok tt w' ∧ quiet w0 (S k) w'.
Proof.
  intros Hram Hfuel [] (e' & -> & Hok & Hb & He).
  destruct (timer_at_step k (joy w)) as [Hst Hmil]; [done..|].
  destruct (HID_Task_post ram fuel (set_usb e' w) (rsp w)) as (w' & Hrun & Hpost);
    [done..|by cbn; rewrite He|split; cbn; rewrite He; cbn; [by rewrite q_out0|by intros ? [= <-]]| |].
  { unfold task_response. cbn. by rewrite He; cbn; rewrite q_out0. }
  exists w'. split; [done|]. destruct Hpost as [Hok' Hpost]. cbn in Hpost. rewrite He in Hpost.
  cbn in Hpost. destruct Hpost as (Hj & Hr & He' & Hb').
  assert (memory_wf (rsp w') (joy w')) as Hmem.
  { pose proof (before_send_mem _ _ q_memory0) as Hm. rewrite Hr, Hj. destruct (Hm) as [? ? ? ?].
    split; try done. by apply clear_ready_wf, in_reply_wf; [apply (deref_wf _ _ Hm)|]. }
  rewrite before_send_report, stage_report_shown, Hst in Hr, He' by done.
  unfold in_reply in Hr, He'. rewrite q_free0 in Hr, He'.
  destruct (before_send_keeps (joy w)) as (Hks & _ & Hkc).
  split; try done; rewrite ?Hj, ?Hr, ?He', ?Hks, ?Hkc; try done.
  - by apply before_send_idle_inv.
  - cbn. by rewrite q_counter0.
  - cbn [send_in ep_sent set_selected set_out set_in replyBuffer set_ready].
    rewrite q_sent0, seq_S, map_app, <- app_assoc. cbn [map Nat.add]. unfold report_packet at 3.
    cbn [Nat.iter nat_rect]. rewrite q_counter0. unfold shown_report. by rewrite q_report0.
Qed.

Lemma quiet_polls w0 n k w :
  (∀ a, is_u8 (ram a)) → (65 ≤ fuel)%nat → quiet w0 k w → polled n (quiet w0 (k + n)) w.
Proof.
  intros Hram Hfuel. revert k w. induction n as [|n IH]; intros k w Hw; cbn [polled].
  - by rewrite Nat.add_0_r.
  - intros w1 Hw1. destruct (quiet_poll w0 k w w1) as (w' & Hrun & Hq); [done..|].
    exists w'. split; [done|]. rewrite Nat.add_succ_r. by apply (IH (S k)).
Qed.

Lemma polled_mono n (Q R : firmware E → Prop) w :
  (∀ w, Q w → R w) → polled n Q w → polled n R w.
Proof.
  intros HQR. revert w. induction n as [|n IH]; intros w; cbn [polled]; [apply HQR|].
  intros Hw w1 Hw1. destruct (Hw w1 Hw1) as (w' & ? & ?). eauto.
Qed.

(** C3: What the player presses reaches the console.  A packet framed with its
    checksum arrives while the link is synchronised and no request of the
    console is open; nine interrupts accept it.  Then, as long as the console
    polls and no other packet comes, every turn of the main task ends and sends
    exactly one packet: an input report 0x30 with the next value of the counter,
    which is three more modulo 256.  Its controller state is faithful to the packet for the first
    fifteen polls (120 ms), then idle, then idle with HOME pressed from the
    hundredth poll on (800 ms), and idle again after 125 polls. *)
Theorem input_reaches_console `{!AvrCrc, !AvrCrcSpec} (w : firmware E) p q n :
  (∀ a, is_u8 (ram a)) → (65 ≤ fuel)%nat →
  plat_ok (usb w) → joystick_inv (joy w) (LinkSynced []) → memory_wf (rsp w) (joy w) →
  idle_inv (joy w) → nextPacketReady (rsp w) = false →
  ep_configured (ep (usb w)) = true → ep_out (ep (usb w)) = None →
  length p = 8%nat → bytes p → rx_pending (board (usb w)) = p ++ crc8_of p :: q →
  ∃ w0, interrupts 9 w = Ok tt w0 ∧ faithful p (controllerReport (joy w0)) ∧
    polled n (λ w', ep_sent (ep (usb w')) =
                    ep_sent (ep (usb w)) ++ map (report_packet w0) (seq 0 n)) w0.
Proof.
  intros Hram Hfuel Hok Hinv Hmem Hidle Hfree Hconf Hout Hp Hb Hrx.
  destruct (frame_accepted w p q) as
    (w0 & Hrun & Hok0 & Hinv0 & (Hi0 & Hf & _ & Hm0) & _ & _ & Hr0 & He0); [done..|].
  exists w0. split_and!; [done|done|]. eapply polled_mono, (quiet_polls w0 n 0); [|done..|].
  - intros w' Hw'. by rewrite (q_sent _ _ _ Hw'), He0.
  - destruct Hinv0 as [Hl _ _ _ Hc Hi _], Hmem as [Hs _ _ _]. cbn in Hl.
    split; rewrite ?Hr0, ?He0; try done; [|by unfold idle_inv; rewrite Hi0|by destruct Hl|].
    + split; try done. rewrite Hm0. lia.
    + by rewrite app_nil_r.
Qed.
End path.

Import Demo.

(** On the reference board a poll can be run. *)
Fixpoint run_polls (ram : Z → Z) (fuel n : nat) : M (firmware ref_board) unit :=
  match n with
  | O => mret tt
  | S n =>
      modify (λ w, set_usb {| rb_board := rb_board (usb w); rb_ep := set_in (Some []) (rb_ep (usb w)) |} w);;
      HID_Task ram fuel;;
      run_polls ram fuel n
  end.

Lemma polled_run ram fuel n Q (w : firmware ref_board) :
  polled ram fuel n Q w → ∃ w', run_polls ram fuel n w = Ok tt w' ∧ Q w'.
Proof.
  revert w. induction n as [|n IH]; intros w Hp; [by exists w|].
  destruct (Hp (set_usb {| rb_board := rb_board (usb w); rb_ep := set_in (Some []) (rb_ep (usb w)) |} w))
    as (w1 & Hrun & Hp1); [by eexists|].
  destruct (IH w1 Hp1) as (w' & Hrun' & HQ). exists w'. split; [|done].
  cbn [run_polls]. run_step (modify_run (λ w : firmware ref_board,
    set_usb {| rb_board := rb_board (usb w); rb_ep := set_in (Some []) (rb_ep (usb w)) |} w) w).
  by run_step Hrun.
Qed.

Lemma input_reaches_console_witness :
  ∃ w0 w', interrupts 9 (demo_world (demo_packet ++ [crc8_of demo_packet]) demo_synced) = Ok tt w0 ∧
    faithful demo_packet (controllerReport (joy w0)) ∧
    run_polls (λ _, 0) 65 126 w0 = Ok tt w' ∧
    ep_sent (ep (usb w')) = map (report_packet w0) (seq 0 126).
Proof.
  destruct (input_reaches_console (λ _, 0) 65
    (demo_world (demo_packet ++ [crc8_of demo_packet]) demo_synced) demo_packet [] 126)
    as (w0 & Hrun & Hf & Hp);
    [unfold is_u8; lia|lia|exact I|apply demo_synced_inv|apply demo_memory|reflexivity|reflexivity|
     reflexivity|reflexivity|reflexivity|apply (bool_decide_unpack _); vm_compute; exact I|reflexivity|].
  destruct (polled_run _ _ _ _ _ Hp) as (w' & Hpolls & Hsent).
  exists w0, w'. split; [exact Hrun|]. split; [exact Hf|]. split; [exact Hpolls|exact Hsent].
Defined.
