(* ===== verification/Actions.v ===== *)
(** * Trees of actions

    Code that an interrupt can break into: a tree of atomic actions, between
    which the interrupt may come. *)

From S2P Require Import Prelude.

Inductive prog (S A : Type) : Type :=
| Done (a : A)
| Act (X : Type) (m : M S X) (k : X → prog S A).
Arguments Done {S A}.
Arguments Act {S A X}.

#[export] Instance prog_ret S : MRet (prog S) := λ A a, Done a.
Fixpoint prog_bind_go {S A B} (f : A → prog S B) (p : prog S A) : prog S B :=
  match p with
  | Done a => f a
  | Act m k => Act m (λ x, prog_bind_go f (k x))
  end.
#[export] Instance prog_bind S : MBind (prog S) := λ A B f p, prog_bind_go f p.

(** One action. *)
Definition act {S A} (m : M S A) : prog S A := Act m Done.

(** The run without interrupts. *)
Fixpoint run {S A} (p : prog S A) : M S A :=
  match p with
  | Done a => mret a
  | Act m k => m ≫= λ x, run (k x)
  end.

Lemma run_bind {S A B} (p : prog S A) (f : A → prog S B) s :
  run (p ≫= f) s = (run p ≫= λ a, run (f a)) s.
Proof.
  unfold mbind, prog_bind, M_bind. revert s. induction p as [a|X m k IH]; intros s; [done|].
  cbn [prog_bind_go run]. unfold mbind, M_bind. destruct (m s) as [x s'|]; [apply IH|done].
Qed.

Lemma run_act {S A} (m : M S A) s : run (act m) s = m s.
Proof. cbn. unfold mbind, M_bind, mret, M_ret. by destruct (m s). Qed.
