(* ===== verification/RingBuffer.v ===== *)
(** * The ring buffer

    [LUFA/Drivers/Misc/RingBuffer.h], a queue of bytes that one thread of
    execution fills and another empties, usually an interrupt handler and the
    main program.  Each function is a tree of atomic actions; a section with
    interrupts disabled is one action.  The theorem lets the actions of the two
    threads interleave in every order. *)

From stdpp Require Import relations.
From S2P Require Import Prelude Actions.

(** ** The code *)

(** Pointers are offsets in the array object that [DataPtr] points into. *)
Record RingBuffer_t := {
  In : nat; Out : nat; Start : nat; End_ : nat;
  Size : Z; Count : Z
}.

(** The structure, the array and the status register with the interrupt flag. *)
Record ring := { Buffer : RingBuffer_t; Data : list Z; SREG : Z }.

Definition set_Buffer (b : RingBuffer_t) (s : ring) : ring :=
  {| Buffer := b; Data := Data s; SREG := SREG s |}.
Definition set_Data (d : list Z) (s : ring) : ring :=
  {| Buffer := Buffer s; Data := d; SREG := SREG s |}.
Definition set_SREG (r : Z) (s : ring) : ring :=
  {| Buffer := Buffer s; Data := Data s; SREG := r |}.
Definition set_In (p : nat) (b : RingBuffer_t) : RingBuffer_t :=
  {| In := p; Out := Out b; Start := Start b; End_ := End_ b; Size := Size b; Count := Count b |}.
Definition set_Out (p : nat) (b : RingBuffer_t) : RingBuffer_t :=
  {| In := In b; Out := p; Start := Start b; End_ := End_ b; Size := Size b; Count := Count b |}.
Definition set_Count (n : Z) (b : RingBuffer_t) : RingBuffer_t :=
  {| In := In b; Out := Out b; Start := Start b; End_ := End_ b; Size := Size b; Count := n |}.

(** [GetGlobalInterruptMask], [GlobalInterruptDisable], the statements, and
    [SetGlobalInterruptMask]. *)
Definition critical {A} (m : M ring A) : M ring A :=
  CurrentGlobalInt ← gets SREG;
  modify (set_SREG (Z.land CurrentGlobalInt 0x7F));;
  a ← m;
  modify (set_SREG CurrentGlobalInt);;
  mret a.

Definition RingBuffer_InitBuffer (DataPtr : nat) (Size : Z) : M ring unit :=
  critical (modify (set_Buffer
    {| In := DataPtr; Out := DataPtr; Start := DataPtr; End_ := (DataPtr + Z.to_nat Size)%nat;
       Size := Size; Count := 0 |})).

Definition RingBuffer_GetCount : prog ring Z := act (critical (gets (λ s, Count (Buffer s)))).

Definition RingBuffer_GetFreeCount : prog ring Z :=
  n ← RingBuffer_GetCount;
  size ← act (gets (λ s, Size (Buffer s)));
  mret (u16 (size - n)).

Definition RingBuffer_IsEmpty : prog ring bool := n ← RingBuffer_GetCount; mret (n =? 0).

Definition RingBuffer_IsFull : prog ring bool :=
  n ← RingBuffer_GetCount;
  size ← act (gets (λ s, Size (Buffer s)));
  mret (n =? size).

(** The statements of [RingBuffer_Insert]: [*Buffer->In = Data], [++Buffer->In],
    the test against the end, and the critical section. *)
Definition store_in (b : Z) : M ring unit :=
  s ← get_st; d ← checked (store_at (In (Buffer s)) b (Data s)); modify (set_Data d).
Definition advance_in : M ring unit :=
  modify (λ s, set_Buffer (set_In (S (In (Buffer s))) (Buffer s)) s).
Definition wrap_in : M ring unit :=
  modify (λ s, if decide (In (Buffer s) = End_ (Buffer s))
               then set_Buffer (set_In (Start (Buffer s)) (Buffer s)) s else s).
Definition count_in : M ring unit :=
  critical (modify (λ s, set_Buffer (set_Count (u16 (Count (Buffer s) + 1)) (Buffer s)) s)).

Definition RingBuffer_Insert (b : Z) : prog ring unit :=
  act (store_in b);; act advance_in;; act wrap_in;; act count_in.

(** The statements of [RingBuffer_Remove]. *)
Definition load_out : M ring Z := s ← get_st; checked (Data s !! Out (Buffer s)).
Definition advance_out : M ring unit :=
  modify (λ s, set_Buffer (set_Out (S (Out (Buffer s))) (Buffer s)) s).
Definition wrap_out : M ring unit :=
  modify (λ s, if decide (Out (Buffer s) = End_ (Buffer s))
               then set_Buffer (set_Out (Start (Buffer s)) (Buffer s)) s else s).
Definition count_out : M ring unit :=
  critical (modify (λ s, set_Buffer (set_Count (u16 (Count (Buffer s) - 1)) (Buffer s)) s)).

Definition RingBuffer_Remove : prog ring Z :=
  b ← act load_out; act advance_out;; act wrap_out;; act count_out;; mret b.

Definition RingBuffer_Peek : prog ring Z := act load_out.

(** The tests that the documentation asks for before an insertion or a removal. *)
Definition try_insert (b : Z) : prog ring bool :=
  full ← RingBuffer_IsFull;
  if full : bool then mret false else RingBuffer_Insert b;; mret true.
Definition try_remove : prog ring (option Z) :=
  empty ← RingBuffer_IsEmpty;
  if empty : bool then mret None else b ← RingBuffer_Remove; mret (Some b).

(** ** The two threads *)

Record threads := {
  memory : ring;
  producer : option (Z * prog ring bool);     (* the byte and the rest of [try_insert] *)
  consumer : option (prog ring (option Z));
  accepted : list Z;                          (* bytes whose insertion has returned *)
  removed : list Z                            (* bytes that removals have returned *)
}.

Inductive tstep : threads → threads → Prop :=
| start_insert s co ac re b :
    tstep {| memory := s; producer := None; consumer := co; accepted := ac; removed := re |}
          {| memory := s; producer := Some (b, try_insert b); consumer := co;
             accepted := ac; removed := re |}
| step_insert s co ac re b X (m : M ring X) k x s' :
    m s = Ok x s' →
    tstep {| memory := s; producer := Some (b, Act m k); consumer := co;
             accepted := ac; removed := re |}
          {| memory := s'; producer := Some (b, k x); consumer := co;
             accepted := ac; removed := re |}
| end_insert s co ac re b (ok : bool) :
    tstep {| memory := s; producer := Some (b, Done ok); consumer := co;
             accepted := ac; removed := re |}
          {| memory := s; producer := None; consumer := co;
             accepted := if ok then ac ++ [b] else ac; removed := re |}
| start_remove s pr ac re :
    tstep {| memory := s; producer := pr; consumer := None; accepted := ac; removed := re |}
          {| memory := s; producer := pr; consumer := Some try_remove;
             accepted := ac; removed := re |}
| step_remove s pr ac re X (m : M ring X) k x s' :
    m s = Ok x s' →
    tstep {| memory := s; producer := pr; consumer := Some (Act m k);
             accepted := ac; removed := re |}
          {| memory := s'; producer := pr; consumer := Some (k x);
             accepted := ac; removed := re |}
| end_remove s pr ac re r :
    tstep {| memory := s; producer := pr; consumer := Some (Done r);
             accepted := ac; removed := re |}
          {| memory := s; producer := pr; consumer := None; accepted := ac;
             removed := match r with Some b => re ++ [b] | None => re end |}.

(** Started on a buffer that [RingBuffer_InitBuffer] has set up. *)
Definition treachable (p : nat) (n : Z) (t : threads) : Prop :=
  ∃ s0 s, (p + Z.to_nat n ≤ length (Data s0))%nat ∧ RingBuffer_InitBuffer p n s0 = Ok tt s ∧
    rtc tstep {| memory := s; producer := None; consumer := None; accepted := []; removed := [] |} t.

(** ** The queue that a buffer holds *)

(** The place of the [i]-th byte ever inserted. *)
Definition slot (p n i : nat) : nat := (p + i mod n)%nat.

(** [ins] are all the bytes inserted and [outs] those removed of them. *)
Record queue (p n : nat) (s : ring) (ins outs : list Z) : Prop := {
  q_start : Start (Buffer s) = p;
  q_end : End_ (Buffer s) = (p + n)%nat;
  q_size : Size (Buffer s) = Z.of_nat n;
  q_pos : (0 < n)%nat;
  q_width : Z.of_nat n < 65536;
  q_room : (p + n ≤ length (Data s))%nat;
  q_prefix : outs `prefix_of` ins;
  q_full : (length ins ≤ length outs + n)%nat;
  q_count : Count (Buffer s) = Z.of_nat (length ins - length outs);
  q_data i b : (length outs ≤ i)%nat → ins !! i = Some b → Data s !! slot p n i = Some b
}.

Lemma slot_S p n i :
  (0 < n)%nat →
  slot p n (S i) = if decide (S (slot p n i) = p + n)%nat then p else S (slot p n i).
Proof.
  intros Hn. unfold slot. pose proof (Nat.mod_upper_bound i n) as Hi.
  pose proof (Nat.div_mod_eq i n) as Hd. case_decide as Hw.
  - replace (S i) with (0 + S (i / n) * n)%nat by lia.
    rewrite Nat.Div0.mod_add, Nat.Div0.mod_0_l. lia.
  - rewrite <- Nat.add_succ_r. f_equal. symmetry. apply (Nat.mod_unique _ _ (i / n)); lia.
Qed.

Lemma slot_bound p n i : (0 < n)%nat → (slot p n i < p + n)%nat.
Proof. intros Hn. unfold slot. pose proof (Nat.mod_upper_bound i n). lia. Qed.

(** Within one round the places differ. *)
Lemma slot_inj p n i j : (i < j < i + n)%nat → slot p n i ≠ slot p n j.
Proof.
  intros Hij Heq. unfold slot in Heq.
  pose proof (Nat.div_mod_eq i n). pose proof (Nat.div_mod_eq j n).
  assert (j / n = i / n ∨ i / n < j / n ∨ j / n < i / n)%nat as [?|[?|?]] by lia; nia.
Qed.

(** ** Points of the code *)

(** Where the producer is, and what is left to run. *)
Inductive ppoint :=
| PTest (b : Z) | PSize (b count : Z) | PStore (b : Z) | PAdvance (b : Z) | PWrap (b : Z)
| PCount (b : Z) | PDone (b : Z) (ok : bool).

Definition pbyte (c : ppoint) : Z :=
  match c with
  | PTest b | PSize b _ | PStore b | PAdvance b | PWrap b | PCount b | PDone b _ => b
  end.

Definition pcode (c : ppoint) : prog ring bool :=
  match c with
  | PTest b => try_insert b
  | PSize b count =>
      size ← act (gets (λ s, Size (Buffer s)));
      if count =? size then mret false else RingBuffer_Insert b;; mret true
  | PStore b => RingBuffer_Insert b;; mret true
  | PAdvance _ => act advance_in;; act wrap_in;; act count_in;; mret true
  | PWrap _ => act wrap_in;; act count_in;; mret true
  | PCount _ => act count_in;; mret true
  | PDone _ ok => mret ok
  end.

(** How many actions are left at most. *)
Definition prank (c : ppoint) : nat :=
  match c with
  | PTest _ => 6 | PSize _ _ => 5 | PStore _ => 4 | PAdvance _ => 3 | PWrap _ => 2 | PCount _ => 1
  | PDone _ _ => 0
  end.

(** The byte inserted, once it counts. *)
Definition pdone (c : ppoint) : list Z :=
  match c with PDone b true => [b] | _ => [] end.

Definition producer_at (p n : nat) (s : ring) (ins outs : list Z) (c : ppoint) : Prop :=
  let i := length ins in
  let stored b := (i < length outs + n)%nat ∧ Data s !! slot p n i = Some b in
  match c with
  | PTest _ | PDone _ _ => In (Buffer s) = slot p n i
  | PSize _ count =>
      In (Buffer s) = slot p n i ∧ Z.of_nat (i - length outs) ≤ count ≤ Z.of_nat n
  | PStore _ => In (Buffer s) = slot p n i ∧ (i < length outs + n)%nat
  | PAdvance b => In (Buffer s) = slot p n i ∧ stored b
  | PWrap b => In (Buffer s) = S (slot p n i) ∧ stored b
  | PCount b => In (Buffer s) = slot p n (S i) ∧ stored b
  end.

(** Where the consumer is. *)
Inductive cpoint :=
| CTest | CLoad | CAdvance (b : Z) | CWrap (b : Z) | CCount (b : Z) | CDone (r : option Z).

Definition ccode (c : cpoint) : prog ring (option Z) :=
  match c with
  | CTest => try_remove
  | CLoad => b ← RingBuffer_Remove; mret (Some b)
  | CAdvance b => act advance_out;; act wrap_out;; act count_out;; mret (Some b)
  | CWrap b => act wrap_out;; act count_out;; mret (Some b)
  | CCount b => act count_out;; mret (Some b)
  | CDone r => mret r
  end.

Definition crank (c : cpoint) : nat :=
  match c with CTest => 5 | CLoad => 4 | CAdvance _ => 3 | CWrap _ => 2 | CCount _ => 1 | CDone _ => 0 end.

Definition cdone (c : cpoint) : list Z :=
  match c with CDone (Some b) => [b] | _ => [] end.

Definition consumer_at (p n : nat) (s : ring) (ins outs : list Z) (c : cpoint) : Prop :=
  let i := length outs in
  match c with
  | CTest | CDone _ => Out (Buffer s) = slot p n i
  | CLoad => Out (Buffer s) = slot p n i ∧ (i < length ins)%nat
  | CAdvance b => Out (Buffer s) = slot p n i ∧ ins !! i = Some b
  | CWrap b => Out (Buffer s) = S (slot p n i) ∧ ins !! i = Some b
  | CCount b => Out (Buffer s) = slot p n (S i) ∧ ins !! i = Some b
  end.

(** ** The actions of one thread *)

Lemma critical_modify (f : ring → ring) s :
  critical (modify f) s = Ok tt (set_SREG (SREG s) (f (set_SREG (Z.land (SREG s) 0x7F) s))).
Proof. reflexivity. Qed.

(** Actions that move a pointer keep the queue. *)
Lemma queue_move p n s s' ins outs :
  Start (Buffer s') = Start (Buffer s) → End_ (Buffer s') = End_ (Buffer s) →
  Size (Buffer s') = Size (Buffer s) → Count (Buffer s') = Count (Buffer s) → Data s' = Data s →
  queue p n s ins outs → queue p n s' ins outs.
Proof. intros E1 E2 E3 E4 E5 []. split; rewrite ?E1, ?E2, ?E3, ?E4, ?E5; done. Qed.

Lemma queue_store p n s ins outs b :
  queue p n s ins outs → (length ins < length outs + n)%nat →
  queue p n (set_Data (<[slot p n (length ins) := b]> (Data s)) s) ins outs.
Proof.
  intros [] Hlt. split; try done; cbn [Data set_Data].
  - by rewrite length_insert.
  - intros i b' Hi Hb'. rewrite list_lookup_insert_ne; [by apply q_data0|].
    apply lookup_lt_Some in Hb'. apply not_eq_sym, slot_inj. lia.
Qed.

Lemma queue_push p n s s' ins outs b :
  Start (Buffer s') = Start (Buffer s) → End_ (Buffer s') = End_ (Buffer s) →
  Size (Buffer s') = Size (Buffer s) → Count (Buffer s') = u16 (Count (Buffer s) + 1) →
  Data s' = Data s → queue p n s ins outs → (length ins < length outs + n)%nat →
  Data s !! slot p n (length ins) = Some b → queue p n s' (ins ++ [b]) outs.
Proof.
  intros E1 E2 E3 E4 E5 [] Hlt Hb. pose proof (prefix_length _ _ q_prefix0).
  split; rewrite ?E1, ?E2, ?E3, ?E4, ?E5; try done.
  - by apply prefix_app_r.
  - rewrite length_app. simpl. lia.
  - rewrite q_count0, length_app, u16_id by (unfold is_u16; lia). simpl. lia.
  - intros i b' Hi [Hl|[Hl Hx]]%lookup_app_Some; [by apply q_data0|].
    apply list_lookup_singleton_Some in Hx as [Hx <-].
    by replace i with (length ins) by lia.
Qed.

Lemma queue_pop p n s s' ins outs b :
  Start (Buffer s') = Start (Buffer s) → End_ (Buffer s') = End_ (Buffer s) →
  Size (Buffer s') = Size (Buffer s) → Count (Buffer s') = u16 (Count (Buffer s) - 1) →
  Data s' = Data s → queue p n s ins outs → ins !! length outs = Some b →
  queue p n s' ins (outs ++ [b]).
Proof.
  intros E1 E2 E3 E4 E5 [] Hb. pose proof (lookup_lt_Some _ _ _ Hb).
  destruct q_prefix0 as [q ->].
  split; rewrite ?E1, ?E2, ?E3, ?E4, ?E5; try done.
  - rewrite lookup_app_r, Nat.sub_diag in Hb by lia.
    destruct q as [|c q]; simplify_eq/=. exists q. by rewrite <- app_assoc.
  - rewrite !length_app in *. simpl. lia.
  - rewrite q_count0, !length_app, u16_id; simpl; unfold is_u16; rewrite ?length_app in *; lia.
  - intros i b' Hi. apply q_data0. rewrite length_app in Hi. lia.
Qed.

Lemma producer_step p n s ac outs c :
  queue p n s (ac ++ pdone c) outs → producer_at p n s (ac ++ pdone c) outs c →
  match pcode c with
  | Done ok => c = PDone (pbyte c) ok
  | Act m k => ∃ x s' c', m s = Ok x s' ∧ k x = pcode c' ∧ pbyte c' = pbyte c ∧
      queue p n s' (ac ++ pdone c') outs ∧ producer_at p n s' (ac ++ pdone c') outs c' ∧
      Out (Buffer s') = Out (Buffer s) ∧ pdone c = [] ∧ (prank c' < prank c)%nat
  end.
Proof.
  intros Hq Hc. pose proof (q_pos _ _ _ _ _ Hq) as Hn.
  destruct c as [b|b count|b|b|b|b|b ok]; cbn [pdone] in *; rewrite ?app_nil_r in *.
  - exists (Count (Buffer s)), s, (PSize b (Count (Buffer s))).
    rewrite app_nil_r. split_and!; try done; try (cbn; lia); [by destruct s|].
    cbn. rewrite (q_count _ _ _ _ _ Hq). split; [done|].
    pose proof (q_full _ _ _ _ _ Hq). lia.
  - destruct Hc as [Hin Hle]. exists (Z.of_nat n), s.
    exists (if count =? Z.of_nat n then PDone b false else PStore b).
    assert (pdone (if count =? Z.of_nat n then PDone b false else PStore b) = []) as ->
      by (by destruct (count =? Z.of_nat n)).
    rewrite app_nil_r. split_and!; try done; try (cbn; lia).
    + unfold gets. by rewrite (q_size _ _ _ _ _ Hq).
    + cbn. by destruct (Z.eqb_spec count (Z.of_nat n)).
    + by destruct (Z.eqb_spec count (Z.of_nat n)).
    + destruct (Z.eqb_spec count (Z.of_nat n)); [done|]. split; [done|lia].
    + destruct (Z.eqb_spec count (Z.of_nat n)); cbn; lia.
  - destruct Hc as [Hin Hlt]. pose proof (slot_bound p n (length ac) Hn) as Hb.
    pose proof (q_room _ _ _ _ _ Hq) as Hr.
    exists tt, (set_Data (<[slot p n (length ac) := b]> (Data s)) s), (PAdvance b). rewrite app_nil_r. split_and!; try done; try (cbn; lia).
    + unfold store_in, mbind, M_bind, get_st. rewrite Hin, store_at_insert by lia. reflexivity.
    + by apply queue_store.
    + cbn. rewrite list_lookup_insert_eq by lia. done.
  - destruct Hc as [Hin Hst]. eexists tt, _, (PWrap b). rewrite app_nil_r.
    split_and!; try done; try (cbn; lia); [by apply (queue_move p n s)|]. cbn. by rewrite Hin.
  - destruct Hc as [Hin Hst]. eexists tt, _, (PCount b). rewrite app_nil_r.
    split_and!; try done; try (cbn; lia); cbn [pdone].
    + apply (queue_move p n s); try done; by case_decide.
    + rewrite Hin, (q_end _ _ _ _ _ Hq), (q_start _ _ _ _ _ Hq). cbn.
      rewrite slot_S by done. by case_decide.
    + by case_decide.
  - destruct Hc as (Hin & Hlt & Hd). eexists tt, _, (PDone b true).
    split_and!; try done; try (cbn; lia); [by apply (queue_push p n s)|].
    cbn. rewrite length_app, Nat.add_1_r. done.
  - done.
Qed.

Lemma consumer_step p n s ins re c :
  queue p n s ins (re ++ cdone c) → consumer_at p n s ins (re ++ cdone c) c →
  match ccode c with
  | Done r => c = CDone r
  | Act m k => ∃ x s' c', m s = Ok x s' ∧ k x = ccode c' ∧
      queue p n s' ins (re ++ cdone c') ∧ consumer_at p n s' ins (re ++ cdone c') c' ∧
      In (Buffer s') = In (Buffer s) ∧ Data s' = Data s ∧ cdone c = [] ∧ (crank c' < crank c)%nat
  end.
Proof.
  intros Hq Hc. pose proof (q_pos _ _ _ _ _ Hq) as Hn.
  destruct c as [| |b|b|b|r]; cbn [cdone] in *; rewrite ?app_nil_r in *.
  - exists (Count (Buffer s)), s, (if Count (Buffer s) =? 0 then CDone None else CLoad).
    pose proof (q_count _ _ _ _ _ Hq) as Hcount.
    assert (cdone (if Count (Buffer s) =? 0 then CDone None else CLoad) = []) as ->
      by (by destruct (Count (Buffer s) =? 0)).
    rewrite app_nil_r. split_and!; try done; try (cbn; lia).
    + by destruct s.
    + cbn. by destruct (Count (Buffer s) =? 0).
    + destruct (Z.eqb_spec (Count (Buffer s)) 0); [done|]. split; [done|lia].
    + destruct (Count (Buffer s) =? 0); cbn; lia.
  - destruct Hc as [Hout Hlt]. destruct (lookup_lt_is_Some_2 ins (length re) Hlt) as [b Hb].
    exists b, s, (CAdvance b). rewrite app_nil_r. split_and!; try done; try (cbn; lia).
    unfold load_out, mbind, M_bind, get_st.
    by rewrite Hout, (q_data _ _ _ _ _ Hq (length re) b).
  - destruct Hc as [Hout Hb]. eexists tt, _, (CWrap b). rewrite app_nil_r.
    split_and!; try done; try (cbn; lia); [by apply (queue_move p n s)|]. cbn. by rewrite Hout.
  - destruct Hc as [Hout Hb]. eexists tt, _, (CCount b). rewrite app_nil_r.
    split_and!; try done; try (cbn; lia); cbn [cdone]; [|..|by case_decide|by case_decide].
    + apply (queue_move p n s); try done; by case_decide.
    + rewrite Hout, (q_end _ _ _ _ _ Hq), (q_start _ _ _ _ _ Hq). cbn.
      rewrite slot_S by done. by case_decide.
  - destruct Hc as [Hout Hb]. eexists tt, _, (CDone (Some b)).
    split_and!; try done; try (cbn; lia); [by apply (queue_pop p n s)|].
    cbn. rewrite length_app, Nat.add_1_r. done.
  - done.
Qed.

(** What one thread relies on is kept by the other. *)
Lemma producer_kept p n s s' ins outs outs' c :
  In (Buffer s') = In (Buffer s) → Data s' = Data s → (length outs ≤ length outs')%nat →
  producer_at p n s ins outs c → producer_at p n s' ins outs' c.
Proof. intros E1 E2 Hle. destruct c; cbn; rewrite E1, ?E2; intuition lia. Qed.

Lemma consumer_kept p n s s' ins ins' outs c :
  Out (Buffer s') = Out (Buffer s) → ins `prefix_of` ins' →
  consumer_at p n s ins outs c → consumer_at p n s' ins' outs c.
Proof.
  intros E1 Hp. destruct c; cbn; rewrite E1; try done; intros [? Hl]; split; try done.
  all: try by apply (prefix_lookup_Some _ _ _ _ Hl).
  apply prefix_length in Hp. lia.
Qed.

(** ** The threads together *)

(** [None] is between two calls. *)
Definition pinv (p n : nat) (s : ring) (ac outs : list Z) (code : option (Z * prog ring bool))
    (ins : list Z) : Prop :=
  match code with
  | None => ins = ac ∧ In (Buffer s) = slot p n (length ins)
  | Some (b, k) => ∃ c, k = pcode c ∧ pbyte c = b ∧ ins = ac ++ pdone c ∧
                        producer_at p n s ins outs c
  end.
Definition cinv (p n : nat) (s : ring) (re ins : list Z) (code : option (prog ring (option Z)))
    (outs : list Z) : Prop :=
  match code with
  | None => outs = re ∧ Out (Buffer s) = slot p n (length outs)
  | Some k => ∃ c, k = ccode c ∧ outs = re ++ cdone c ∧ consumer_at p n s ins outs c
  end.

Definition tinv (p n : nat) (t : threads) : Prop :=
  ∃ ins outs, queue p n (memory t) ins outs ∧
    pinv p n (memory t) (accepted t) outs (producer t) ins ∧
    cinv p n (memory t) (removed t) ins (consumer t) outs.

Lemma pinv_kept p n s s' ac outs outs' code ins :
  In (Buffer s') = In (Buffer s) → Data s' = Data s → (length outs ≤ length outs')%nat →
  pinv p n s ac outs code ins → pinv p n s' ac outs' code ins.
Proof.
  intros E1 E2 Hle. destruct code as [[b k]|]; cbn; [|by rewrite E1].
  intros (c & ? & ? & ? & Hc). exists c. split_and!; try done. by apply (producer_kept p n s s' ins outs).
Qed.

Lemma cinv_kept p n s s' re ins ins' code outs :
  Out (Buffer s') = Out (Buffer s) → ins `prefix_of` ins' →
  cinv p n s re ins code outs → cinv p n s' re ins' code outs.
Proof.
  intros E1 Hp. destruct code as [k|]; cbn; [|by rewrite E1].
  intros (c & ? & ? & Hc). exists c. split_and!; try done. by apply (consumer_kept p n s s' ins).
Qed.

Lemma tinv_step p n t t' : tinv p n t → tstep t t' → tinv p n t'.
Proof.
  intros (ins & outs & Hq & Hp & Hc) Hst. destruct Hst; cbn in *.
  - destruct Hp as [-> Hp]. exists ac, outs. split_and!; try done.
    exists (PTest b). cbn. by rewrite app_nil_r.
  - destruct Hp as (c & Hk & <- & -> & Hc'). pose proof (producer_step _ _ _ _ _ _ Hq Hc') as Hs.
    rewrite <- Hk in Hs. destruct Hs as (x' & s'' & c' & Hm & Hk' & Hb & Hq' & Hp' & Ho & Hd & _).
    rewrite H in Hm. injection Hm as <- <-. exists (ac ++ pdone c'), outs.
    split; [done|]. split; [by exists c'|].
    eapply cinv_kept; [done| |done]. rewrite Hd, app_nil_r. by apply prefix_app_r.
  - destruct Hp as (c & Hk & <- & -> & Hc'). pose proof (producer_step _ _ _ _ _ _ Hq Hc') as Hs.
    rewrite <- Hk in Hs. exists (ac ++ pdone c), outs. split_and!; try done.
    rewrite Hs in *. cbn in *. split; [|done]. destruct ok; [done|by rewrite app_nil_r].
  - destruct Hc as [-> Hc]. exists ins, re. split_and!; try done.
    exists CTest. cbn. by rewrite app_nil_r.
  - destruct Hc as (c & Hk & -> & Hc'). pose proof (consumer_step _ _ _ _ _ _ Hq Hc') as Hs.
    rewrite <- Hk in Hs. destruct Hs as (x' & s'' & c' & Hm & Hk' & Hq' & Hp' & Hi & Hda & Hd & _).
    rewrite H in Hm. injection Hm as <- <-. exists ins, (re ++ cdone c').
    split; [done|]. split; [|by exists c'].
    eapply pinv_kept; [done|done| |done]. rewrite Hd, !length_app. cbn. lia.
  - destruct Hc as (c & Hk & -> & Hc'). pose proof (consumer_step _ _ _ _ _ _ Hq Hc') as Hs.
    rewrite <- Hk in Hs. exists ins, (re ++ cdone c). split_and!; try done.
    rewrite Hs in *. cbn in *. split; [|done]. destruct r; [done|by rewrite app_nil_r].
Qed.

(** What counts as inserted and as removed, against what has been returned. *)
Lemma pinv_ins p n s ac outs code ins :
  pinv p n s ac outs code ins → ins `prefix_of` ac ++ from_option (λ c, [c.1]) [] code.
Proof.
  destruct code as [[b k]|]; cbn; [|intros [-> _]; by rewrite app_nil_r].
  intros (c & _ & <- & -> & _). apply prefix_app.
  destruct c as [| | | | | |b' []]; cbn; solve [done | apply prefix_nil].
Qed.

Lemma cinv_outs p n s re ins code outs : cinv p n s re ins code outs → re `prefix_of` outs.
Proof.
  destruct code; cbn; [|by intros [-> _]]. intros (c & _ & -> & _). by apply prefix_app_r.
Qed.

(** ** One thread alone *)

(** The buffer holds the queue [q], and no call is under way. *)
Definition holds (p n : nat) (q : list Z) (s : ring) : Prop :=
  ∃ outs, queue p n s (outs ++ q) outs ∧
    In (Buffer s) = slot p n (length (outs ++ q)) ∧ Out (Buffer s) = slot p n (length outs).

Lemma InitBuffer_queue p n s s0 :
  0 < n < 65536 → (p + Z.to_nat n ≤ length (Data s0))%nat →
  RingBuffer_InitBuffer p n s0 = Ok tt s →
  queue p (Z.to_nat n) s [] [] ∧ In (Buffer s) = slot p (Z.to_nat n) 0 ∧
  Out (Buffer s) = slot p (Z.to_nat n) 0.
Proof.
  intros Hn Hl Hs. injection Hs as <-.
  assert (slot p (Z.to_nat n) 0 = p) as H0 by (unfold slot; rewrite Nat.Div0.mod_0_l; lia).
  split_and!; cbn; [|done..]. split; cbn; try done; lia.
Qed.

Lemma InitBuffer_holds p n s s0 :
  0 < n < 65536 → (p + Z.to_nat n ≤ length (Data s0))%nat →
  RingBuffer_InitBuffer p n s0 = Ok tt s → holds p (Z.to_nat n) [] s ∧ SREG s = SREG s0.
Proof.
  intros Hn Hl Hs. split; [|by injection Hs as <-].
  exists []. by apply (InitBuffer_queue p n s s0).
Qed.

Lemma run_pcode p n ac outs k c s :
  (prank c < k)%nat → queue p n s (ac ++ pdone c) outs → producer_at p n s (ac ++ pdone c) outs c →
  ∃ ok s', run (pcode c) s = Ok ok s' ∧ Out (Buffer s') = Out (Buffer s) ∧
    let ins := ac ++ pdone (PDone (pbyte c) ok) in
    queue p n s' ins outs ∧ In (Buffer s') = slot p n (length ins).
Proof.
  revert c s. induction k as [|k IH]; intros c s Hr Hq Hc; [lia|].
  pose proof (producer_step _ _ _ _ _ _ Hq Hc) as Hs.
  destruct (pcode c) as [ok|X m k'] eqn:Hk.
  - rewrite Hs in Hq, Hc. by exists ok, s.
  - destruct Hs as (x & s1 & c' & Hm & Hk' & Hb & Hq' & Hc' & Ho & _ & Hlt).
    destruct (IH c' s1) as (ok & s' & Hrun & Ho' & Hq2); [lia|done|done|].
    exists ok, s'. cbn [run]. unfold mbind, M_bind. rewrite Hm, Hk', Hrun, Ho', Ho. by rewrite <- Hb.
Qed.

Lemma run_ccode p n ins re k c s :
  (crank c < k)%nat → queue p n s ins (re ++ cdone c) → consumer_at p n s ins (re ++ cdone c) c →
  ∃ r s', run (ccode c) s = Ok r s' ∧ In (Buffer s') = In (Buffer s) ∧
    let outs := re ++ cdone (CDone r) in
    queue p n s' ins outs ∧ Out (Buffer s') = slot p n (length outs).
Proof.
  revert c s. induction k as [|k IH]; intros c s Hr Hq Hc; [lia|].
  pose proof (consumer_step _ _ _ _ _ _ Hq Hc) as Hs.
  destruct (ccode c) as [r|X m k'] eqn:Hk.
  - rewrite Hs in Hq, Hc. by exists r, s.
  - destruct Hs as (x & s1 & c' & Hm & Hk' & Hq' & Hc' & Hi & _ & _ & Hlt).
    destruct (IH c' s1) as (r & s' & Hrun & Hi' & Hq2); [lia|done|done|].
    exists r, s'. cbn [run]. unfold mbind, M_bind. rewrite Hm, Hk', Hrun, Hi', Hi. done.
Qed.

Lemma run_GetCount p n q s : holds p n q s → run RingBuffer_GetCount s = Ok (Z.of_nat (length q)) s.
Proof.
  intros (outs & Hq & _). rewrite <- (Nat.add_sub (length q) (length outs)).
  rewrite Nat.add_comm, <- length_app, <- (q_count _ _ _ _ _ Hq). by destruct s.
Qed.

Lemma GetFreeCount_fields s :
  run RingBuffer_GetFreeCount s = Ok (u16 (Size (Buffer s) - Count (Buffer s))) s.
Proof.
  unfold RingBuffer_GetFreeCount. rewrite run_bind. unfold mbind at 1, M_bind.
  by destruct s.
Qed.

Lemma run_GetFreeCount p n q s :
  holds p n q s → run RingBuffer_GetFreeCount s = Ok (Z.of_nat n - Z.of_nat (length q)) s.
Proof.
  intros (outs & [] & _). rewrite GetFreeCount_fields, q_size0, q_count0, length_app.
  rewrite length_app in q_full0. rewrite u16_id by (unfold is_u16; lia). f_equal. lia.
Qed.

Lemma run_IsEmpty p n q s :
  holds p n q s → run RingBuffer_IsEmpty s = Ok (Z.of_nat (length q) =? 0) s.
Proof.
  intros Hs. unfold RingBuffer_IsEmpty. rewrite run_bind. unfold mbind, M_bind.
  by rewrite (run_GetCount p n q s).
Qed.

Lemma run_IsFull p n q s :
  holds p n q s → run RingBuffer_IsFull s = Ok (Z.of_nat (length q) =? Z.of_nat n) s.
Proof.
  intros Hs. unfold RingBuffer_IsFull. rewrite run_bind. unfold mbind at 1, M_bind.
  rewrite (run_GetCount p n q s), run_bind by done. unfold mbind, M_bind. rewrite run_act. unfold gets.
  destruct Hs as (outs & [] & _). by rewrite q_size0.
Qed.

Lemma run_Peek p n b q s : holds p n (b :: q) s → run RingBuffer_Peek s = Ok b s.
Proof.
  intros (outs & Hq & _ & Hout). cbn. unfold load_out, mbind, M_bind, get_st.
  by rewrite Hout, (q_data _ _ _ _ _ Hq (length outs) b) by (try apply list_lookup_middle; done).
Qed.

Lemma run_Insert p n q b s :
  holds p n q s → (length q < n)%nat →
  ∃ s', run (RingBuffer_Insert b) s = Ok tt s' ∧ holds p n (q ++ [b]) s'.
Proof.
  intros (outs & Hq & Hin & Hout) Hlt.
  destruct (run_pcode p n (outs ++ q) outs 7 (PStore b) s) as (ok & s' & Hrun & Ho & Hq');
    [cbn; lia|by rewrite app_nil_r|cbn; rewrite app_nil_r; split; [done|rewrite length_app; lia]|].
  cbn [pcode] in Hrun. rewrite run_bind in Hrun. unfold mbind, M_bind in Hrun.
  destruct (run (RingBuffer_Insert b) s) as [[] s1|] eqn:Hi; [|done].
  injection Hrun as <- <-. exists s1. split; [done|]. exists outs.
  rewrite (app_assoc outs q [b]). destruct Hq' as [Hq' Hin']. by rewrite Ho.
Qed.

Lemma run_Remove p n b q s :
  holds p n (b :: q) s →
  ∃ s', run RingBuffer_Remove s = Ok b s' ∧ holds p n q s'.
Proof.
  intros (outs & Hq & Hin & Hout).
  assert ((outs ++ b :: q) !! length outs = Some b) as Hb by (by apply list_lookup_middle).
  destruct (run_ccode p n (outs ++ b :: q) outs 6 CLoad s) as (r & s' & Hrun & Hi & Hq' & Ho');
    [cbn; lia|by rewrite app_nil_r| |].
  { cbn. rewrite app_nil_r. split; [done|]. by apply lookup_lt_Some in Hb. }
  assert (run RingBuffer_Remove s = Ok b s') as Hr.
  { cbn [ccode] in Hrun. rewrite run_bind in Hrun. revert Hrun.
    unfold RingBuffer_Remove. cbn. unfold load_out, mbind, M_bind, get_st.
    rewrite Hout, (q_data _ _ _ _ _ Hq _ b ltac:(done) Hb). cbn. by intros [= <- <-]. }
  cbn [ccode] in Hrun. rewrite run_bind in Hrun. unfold mbind, M_bind in Hrun.
  rewrite Hr in Hrun. injection Hrun as <-. exists s'. split; [done|].
  exists (outs ++ [b]). rewrite <- app_assoc. cbn. split_and!; try done. by rewrite Hi.
Qed.

(** What the four actions of an insertion do, whatever the buffer holds. *)
Lemma run_Insert_fields b s :
  (In (Buffer s) < length (Data s))%nat →
  ∃ s', run (RingBuffer_Insert b) s = Ok tt s' ∧ Data s' = <[In (Buffer s) := b]> (Data s) ∧
    Count (Buffer s') = u16 (Count (Buffer s) + 1) ∧ Size (Buffer s') = Size (Buffer s) ∧
    Out (Buffer s') = Out (Buffer s) ∧ SREG s' = SREG s.
Proof.
  intros Hin. cbn. unfold store_in, mbind, M_bind, get_st. rewrite store_at_insert by done.
  eexists. split; [reflexivity|]. cbn. by case_decide.
Qed.

(** An insertion into a full buffer, which the documentation tells the caller
    to avoid: the oldest byte is lost, and the free space that is reported
    wraps around. *)
Lemma Insert_overflow p n q b s :
  holds p n q s → length q = n → Z.of_nat n < 65535 →
  ∃ s', run (RingBuffer_Insert b) s = Ok tt s' ∧ run RingBuffer_GetFreeCount s' = Ok 65535 s' ∧
        run RingBuffer_Peek s' = Ok b s'.
Proof.
  intros (outs & [] & Hin & Hout) Hl Hn. pose proof (slot_bound p n (length (outs ++ q)) q_pos0).
  assert (slot p n (length (outs ++ q)) = slot p n (length outs)) as Hs.
  { unfold slot. rewrite length_app, Hl, <- (Nat.mul_1_l n) at 1. by rewrite Nat.Div0.mod_add. }
  destruct (run_Insert_fields b s) as (s' & Hrun & Hd & Hc & Hz & Ho & _); [lia|].
  exists s'. split; [done|]. split.
  - rewrite GetFreeCount_fields, Hc, Hz, q_size0, q_count0, length_app, Hl. unfold u16.
    replace (length outs + n - length outs)%nat with n by lia.
    rewrite (Z.mod_small (Z.of_nat n + 1)) by lia.
    replace (Z.of_nat n - (Z.of_nat n + 1)) with (-1) by lia. done.
  - cbn. unfold load_out, mbind, M_bind, get_st.
    rewrite Hd, Ho, Hout, Hin, Hs, list_lookup_insert_eq by lia. done.
Qed.

Lemma run_Remove_SREG b s s' : run RingBuffer_Remove s = Ok b s' → SREG s' = SREG s.
Proof.
  cbn. unfold load_out, mbind, M_bind, get_st. destruct (_ !! _); cbn; [|done].
  intros [= <- <-]. cbn. by case_decide.
Qed.

(** C31: Used by one thread, the ring buffer is a queue of at most [Size] bytes:
    initialised it is empty; the counts and the tests tell its length, and
    [RingBuffer_IsEmpty] is true when it holds no byte (the documentation of the
    function says no free space); an insertion into a buffer that is not full appends the byte; the first byte
    is what [RingBuffer_Peek] shows and [RingBuffer_Remove] takes away.  No
    access is outside the array and the interrupt flag ends as it was. *)
Theorem ring_buffer_refines p n :
  0 < n < 65536 →
  (∀ s, (p + Z.to_nat n ≤ length (Data s))%nat →
     ∃ s', RingBuffer_InitBuffer p n s = Ok tt s' ∧ holds p (Z.to_nat n) [] s' ∧ SREG s' = SREG s) ∧
  ∀ q s, holds p (Z.to_nat n) q s →
  run RingBuffer_GetCount s = Ok (Z.of_nat (length q)) s ∧
  run RingBuffer_GetFreeCount s = Ok (n - Z.of_nat (length q)) s ∧
  run RingBuffer_IsEmpty s = Ok (Z.of_nat (length q) =? 0) s ∧
  run RingBuffer_IsFull s = Ok (Z.of_nat (length q) =? n) s ∧
  (∀ b, Z.of_nat (length q) < n →
     ∃ s', run (RingBuffer_Insert b) s = Ok tt s' ∧ holds p (Z.to_nat n) (q ++ [b]) s' ∧
           SREG s' = SREG s) ∧
  (∀ b q', q = b :: q' →
     run RingBuffer_Peek s = Ok b s ∧
     ∃ s', run RingBuffer_Remove s = Ok b s' ∧ holds p (Z.to_nat n) q' s' ∧ SREG s' = SREG s).
Proof.
  intros Hn. split.
  { intros s Hl. eexists. split; [reflexivity|]. by apply (InitBuffer_holds p n _ s). }
  intros q s Hs. pose proof (run_GetFreeCount _ _ _ _ Hs) as Hfree.
  pose proof (run_IsFull _ _ _ _ Hs) as Hfull. rewrite Z2Nat.id in Hfree, Hfull by lia.
  split_and!; eauto using run_GetCount, run_IsEmpty.
  - intros b Hlt. destruct (run_Insert p (Z.to_nat n) q b s Hs ltac:(lia)) as (s' & Hrun & Hs').
    exists s'. split_and!; [done..|]. destruct (run_Insert_fields b s) as (s1 & Hr1 & ? & ? & ? & ? & ?).
    { destruct Hs as (outs & [] & -> & _). pose proof (slot_bound p (Z.to_nat n) (length (outs ++ q))). lia. }
    congruence.
  - intros b q' ->. split; [by eapply run_Peek|].
    destruct (run_Remove _ _ _ _ _ Hs) as (s' & Hrun & Hs'). eauto using run_Remove_SREG.
Qed.

Lemma treachable_inv p n t : 0 < n < 65536 → treachable p n t → tinv p (Z.to_nat n) t.
Proof.
  intros Hn (s0 & s & Hl & Hs & Hsteps).
  destruct (InitBuffer_queue p n s s0 Hn Hl Hs) as (Hq & Hin & Hout).
  assert (tinv p (Z.to_nat n) {| memory := s; producer := None; consumer := None;
            accepted := []; removed := [] |}) as H0 by (exists [], []; done).
  clear Hs. induction Hsteps; eauto using tinv_step.
Qed.

(** C30: Filled by one thread and emptied by another, with their actions in any
    order, the ring buffer loses, repeats and reorders nothing: if each
    insertion is made after [RingBuffer_IsFull] has said no and each removal
    after [RingBuffer_IsEmpty] has, then no action of a thread ever fails, the
    bytes removed are the first of those inserted, in their order (with the
    byte whose insertion is under way as the last one), and between calls the
    buffer holds exactly the bytes that are left. *)
Theorem ring_buffer_fifo p n t :
  0 < n < 65536 → treachable p n t →
  (∀ b X (m : M ring X) k, producer t = Some (b, Act m k) → ∃ x s', m (memory t) = Ok x s') ∧
  (∀ X (m : M ring X) k, consumer t = Some (Act m k) → ∃ x s', m (memory t) = Ok x s') ∧
  removed t `prefix_of` accepted t ++ from_option (λ c, [c.1]) [] (producer t) ∧
  (producer t = None → consumer t = None →
   ∃ q, accepted t = removed t ++ q ∧ holds p (Z.to_nat n) q (memory t)).
Proof.
  intros Hn Ht. apply (treachable_inv _ _ _ Hn) in Ht as (ins & outs & Hq & Hp & Hc). split_and!.
  - intros b X m k Hpr. rewrite Hpr in Hp. destruct Hp as (c & Hk & _ & -> & Hat).
    pose proof (producer_step _ _ _ _ _ _ Hq Hat) as Hs. rewrite <- Hk in Hs.
    destruct Hs as (x & s' & _ & Hm & _). by exists x, s'.
  - intros X m k Hco. rewrite Hco in Hc. destruct Hc as (c & Hk & -> & Hat).
    pose proof (consumer_step _ _ _ _ _ _ Hq Hat) as Hs. rewrite <- Hk in Hs.
    destruct Hs as (x & s' & _ & Hm & _). by exists x, s'.
  - transitivity outs; [by apply (cinv_outs _ _ _ _ _ _ _ Hc)|].
    transitivity ins; [apply (q_prefix _ _ _ _ _ Hq)|by apply (pinv_ins _ _ _ _ _ _ _ Hp)].
  - intros Hpr Hco. rewrite Hpr in Hp. rewrite Hco in Hc. destruct Hp as [-> Hin], Hc as [-> Hout].
    destruct (q_prefix _ _ _ _ _ Hq) as [q Hins]. exists q. split; [done|]. exists (removed t).
    by rewrite <- Hins.
Qed.

(** ** A run *)

(** The next step of the producer, which has the byte [b] to insert next, or
    of the consumer. *)
Inductive turn := Produce (b : Z) | Consume.

Definition play_turn (c : turn) (t : threads) : option threads :=
  let 'Build_threads s pr co ac re := t in
  match c with
  | Produce b =>
      match pr with
      | None => Some (Build_threads s (Some (b, try_insert b)) co ac re)
      | Some (b, Act m k) =>
          match m s with
          | Ok x s' => Some (Build_threads s' (Some (b, k x)) co ac re)
          | Fault _ _ => None
          end
      | Some (b, Done ok) => Some (Build_threads s None co (if ok : bool then ac ++ [b] else ac) re)
      end
  | Consume =>
      match co with
      | None => Some (Build_threads s pr (Some try_remove) ac re)
      | Some (Act m k) =>
          match m s with
          | Ok x s' => Some (Build_threads s' pr (Some (k x)) ac re)
          | Fault _ _ => None
          end
      | Some (Done r) =>
          Some (Build_threads s pr None ac (match r with Some b => re ++ [b] | None => re end))
      end
  end.

Lemma play_turn_step c t t' : play_turn c t = Some t' → tstep t t'.
Proof.
  destruct t as [s pr co ac re], c as [b|]; cbn.
  - destruct pr as [[b' [ok|X m k]]|]; [|destruct (m s) as [x s'|] eqn:Hm|]; intros; simplify_eq; by constructor.
  - destruct co as [[r|X m k]|]; [|destruct (m s) as [x s'|] eqn:Hm|]; intros; simplify_eq; by constructor.
Qed.

Definition play (cs : list turn) (t : threads) : option threads :=
  foldl (λ o c, o ≫= play_turn c) (Some t) cs.

Lemma play_steps cs t t' : play cs t = Some t' → rtc tstep t t'.
Proof.
  revert t'. induction cs as [|c cs IH] using rev_ind; intros t'; unfold play in *.
  - intros [= <-]. apply rtc_refl.
  - rewrite foldl_app. cbn. destruct (foldl _ _ cs) as [t1|] eqn:H1; [|done]. cbn. intros Hc.
    eapply rtc_r; [by apply IH|by apply (play_turn_step c)].
Qed.

(** Room for two bytes.  The byte 7 is inserted; while 8 is being inserted, 7
    is removed; the insertion of 9 has begun. *)
Definition demo_ring : ring :=
  {| Buffer := {| In := 0; Out := 0; Start := 0; End_ := 0; Size := 0; Count := 0 |};
     Data := [0; 0; 0]; SREG := 0x80 |}.
Definition demo_schedule : list turn :=
  replicate 8 (Produce 7) ++ mjoin (replicate 4 [Produce 8; Consume; Produce 8]) ++
  replicate 3 Consume ++ replicate 3 (Produce 9).
Definition demo_start : ring :=
  match RingBuffer_InitBuffer 1 2 demo_ring with Ok _ s => s | Fault _ s => s end.
Definition demo_threads : option threads :=
  play demo_schedule (Build_threads demo_start None None [] []).

Lemma ring_demo_reachable t : demo_threads = Some t → treachable 1 2 t.
Proof.
  unfold demo_threads. intros Ht. apply play_steps in Ht. exists demo_ring, demo_start.
  split; [cbn; lia|]. split; [reflexivity|exact Ht].
Qed.

Lemma demo_result : option_map (λ t, (removed t, accepted t)) demo_threads = Some ([7], [7; 8]).
Proof. vm_compute. reflexivity. Qed.

Lemma ring_buffer_refines_witness :
  ∃ s s', RingBuffer_InitBuffer 1 2 demo_ring = Ok tt s ∧ run (RingBuffer_Insert 7) s = Ok tt s' ∧
          holds 1 2 [7] s'.
Proof.
  destruct (ring_buffer_refines 1 2 ltac:(lia)) as [Hinit Hops].
  destruct (Hinit demo_ring) as (s & Hs & Hh & _); [cbn; lia|].
  destruct (Hops [] s Hh) as (_ & _ & _ & _ & Hins & _).
  destruct (Hins 7) as (s' & Hrun & Hh' & _); [cbn; lia|]. exists s, s'. split_and!; assumption.
Defined.

Lemma ring_buffer_fifo_witness :
  ∃ t, treachable 1 2 t ∧ removed t = [7] ∧ accepted t = [7; 8] ∧
       removed t `prefix_of` accepted t ++ from_option (λ c, [c.1]) [] (producer t).
Proof.
  pose proof demo_result as Hd. destruct demo_threads as [t|] eqn:Ht; [|discriminate].
  injection Hd as Hr Ha. pose proof (ring_demo_reachable t Ht) as Hreach. clear Ht.
  exists t. split; [exact Hreach|]. split; [exact Hr|]. split; [exact Ha|].
  apply (ring_buffer_fifo 1 2 t); [lia|exact Hreach].
Defined.
