(* ===== verification/Tasks.v ===== *)
(** * The main task, action by action

    [HID_Task] of [src/Firmware/Joystick.c] and the code that it calls, as a
    tree of atomic actions between which an interrupt can occur.  An access to
    the hardware is one action, and so is each byte that [memcpy] copies from
    a report that the interrupt handler may change; code that touches only the
    reply buffer or local variables is one action, because the handler does
    not read or write them, and so is filling the IN bank and handing it over,
    because nothing sees the bank before.  The read of the pointer [selectedReport] is taken
    to be one action too.  Without interrupts the tree does what [HID_Task] of
    [Joystick] does. *)

From S2P Require Import Prelude Datatypes EmulatedSPI Descriptors State Interfaces Response.
From S2P Require Import Joystick Reports SerialLink Failsafe HidTask Actions.

(** ** The code *)

Section tasks.
Context {E : Type} `{!BoardOps E, !EndpointOps E}.
Abbreviation P A := (prog (firmware E) A).

(** [while (!cond()) {}] *)
Fixpoint prog_wait (fuel : nat) (cond : M (firmware E) bool) : P unit :=
  match fuel with
  | O => act (fail OutOfFuel)
  | S fuel => b ← act cond; if b : bool then mret tt else prog_wait fuel cond
  end.

(** The report that a pointer points to. *)
Definition deref (p : report_ptr) (j : joystick) : USB_StandardReport_t :=
  match p with PtrController => controllerReport j | PtrIdle => idleReport j end.

Definition put_buffer (buf : list Z) (s : response) : response :=
  {| replyBuffer := buf; counter := counter s; nextPacketReady := nextPacketReady s |}.

(** Byte [i] of [*p] goes to [replyBuffer[2 + i]]. *)
Definition copy_byte (p : report_ptr) (i : nat) : M (firmware E) unit :=
  w ← get_st;
  b ← checked (report_bytes (deref p (joy w)) !! i);
  buf ← checked (store_at (2 + i) b (replyBuffer (rsp w)));
  on_rsp (modify (put_buffer buf)).

(** [memcpy(&replyBuffer[2], p, sizeof(USB_StandardReport_t))]: [n] bytes are left. *)
Fixpoint copy_report (n : nat) (p : report_ptr) (i : nat) : P unit :=
  match n with
  | O => mret tt
  | S n => act (copy_byte p i);; copy_report n p (S i)
  end.
(** The start of a reply: [memset] and the first two bytes. *)
Definition begin_reply (code command : Z) : M response unit :=
  buf ← checked (store_at 0 code (memset 0 (Z.to_nat JOYSTICK_EPSIZE)));
  buf ← checked (store_at 1 command buf);
  modify (put_buffer buf).

(** [memcpy(&replyBuffer[off], &data[0], len)] of data that only this task uses. *)
Definition put_data (off : nat) (data : list Z) (len : Z) : M response unit :=
  s ← get_st;
  buf ← checked (memcpy off data (Z.to_nat len) (replyBuffer s));
  put_st (put_buffer buf s).

Definition mark_ready : M response unit := modify (λ s, set_ready (replyBuffer s) s).

Definition bump_counter : M response unit :=
  modify (λ s, set_counter (u8 (counter s + COUNTER_INCREMENT)) s).

(** [prepare_reply], where [copy] is the [memcpy] of the data. *)
Definition prepare_reply_prog (code command : Z) (copy : P unit) : P unit :=
  s ← act (gets rsp);
  if nextPacketReady s then mret tt else
  act (on_rsp (begin_reply code command));;
  copy;;
  act (on_rsp mark_ready).

Definition prepare_standard_report_prog (p : report_ptr) : P unit :=
  s ← act (gets rsp);
  if nextPacketReady s then mret tt else
  act (on_rsp bump_counter);;
  s ← act (gets rsp);
  prepare_reply_prog 0x30 (counter s) (copy_report sizeof_StandardReport p 0).

Definition prepare_uart_reply_prog (code subcommand : Z) (data : list Z) (len : Z) : P unit :=
  s ← act (gets rsp);
  if nextPacketReady s then mret tt else
  act (on_rsp (bump_counter;; s ← get_st; begin_reply 0x21 (counter s)));;
  p ← act (gets (λ w, selectedReport (joy w)));
  copy_report sizeof_StandardReport p 0;;
  let n := sizeof_StandardReport in
  act (on_rsp (put_data (n + 2) [code] 1;; put_data (n + 3) [subcommand] 1;;
               put_data (n + 4) data len;; mark_ready)).

Definition prepare_spi_reply_prog (address size : Z) : P unit :=
  b ← act (checked (
    data ← spi_read address size;
    b ← store_at 0 (Z.land address 0xFF) (memset 0 (Z.to_nat (5 + size)));
    b ← store_at 1 (Z.land (Z.shiftr address 8) 0xFF) b;
    b ← store_at 2 0x00 b;
    b ← store_at 3 0x00 b;
    b ← store_at 4 (u8 size) b;
    memcpy 5 data (Z.to_nat size) b));
  prepare_uart_reply_prog 0x90 (Switch_Subcommand_code SUBCOMMAND_SPI_FLASH_READ) b (u8 (5 + size)).

Definition process_OUT_report_prog (ram : Z → Z) (ReportData : list Z) (ReportSize : Z) : P unit :=
  r0 ← act (checked (ReportData !! 0%nat));
  if r0 =? 0x80 then
    r1 ← act (checked (ReportData !! 1%nat));
    if r1 =? 0x01 then act (on_rsp prepare_8101)
    else if (r1 =? 0x02) || (r1 =? 0x03) then act (on_rsp (prepare_reply 0x81 r1 [] 0))
    else if r1 =? 0x04 then
      p ← act (gets (λ w, selectedReport (joy w)));
      prepare_standard_report_prog p
    else act (on_rsp (prepare_reply 0x81 r1 [] 0))
  else if (r0 =? 0x01) && (ReportSize >? 16) then
    subcommand ← act (checked (ReportData !! 10%nat));
    match of_code subcommand with
    | Some SUBCOMMAND_BLUETOOTH_MANUAL_PAIRING =>
        prepare_uart_reply_prog 0x81 subcommand [ram 0x03] 1
    | Some SUBCOMMAND_REQUEST_DEVICE_INFO =>
        buf ← act (checked device_info);
        prepare_uart_reply_prog 0x82 subcommand buf (Z.of_nat (length buf))
    | Some SUBCOMMAND_SET_INPUT_REPORT_MODE
    | Some SUBCOMMAND_SET_SHIPMENT_LOW_POWER_STATE
    | Some SUBCOMMAND_SET_PLAYER_LIGHTS
    | Some SUBCOMMAND_SET_HOME_LIGHTS
    | Some SUBCOMMAND_ENABLE_IMU
    | Some SUBCOMMAND_ENABLE_VIBRATION =>
        prepare_uart_reply_prog 0x80 subcommand [] 0
    | Some SUBCOMMAND_TRIGGER_BUTTONS_ELAPSED_TIME =>
        prepare_uart_reply_prog 0x83 subcommand [] 0
    | Some SUBCOMMAND_SET_NFC_IR_MCU_CONFIG =>
        let buf := [0x01; 0x00; 0xFF; 0x00; 0x03; 0x00; 0x05; 0x01] in
        prepare_uart_reply_prog 0xA0 subcommand buf (Z.of_nat (length buf))
    | Some SUBCOMMAND_SPI_FLASH_READ =>
        '(r11, r12, size) ← act (checked (
          r12 ← ReportData !! 12%nat; r11 ← ReportData !! 11%nat; size ← ReportData !! 15%nat;
          Some (r11, r12, size)));
        prepare_spi_reply_prog (u16 (Z.lor (Z.shiftl r12 8) r11)) size
    | _ => prepare_uart_reply_prog 0x80 subcommand [] 0
    end
  else mret tt.

(** [CALLBACK_beforeSend] between the two switches of the interrupt. *)
Definition choose_report_prog : P unit :=
  j ← act (gets joy);
  if decide (state j = SYNCED) then
    if millis j >=? MILLIS_UNTIL_PAUSE then
      (if (millis j >=? MILLIS_UNTIL_HOME) &&
          (millis j <? MILLIS_UNTIL_HOME + MILLIS_HOME_PRESSED) then
         act (on_usb (LEDs_SetAllLEDs LEDMASK_PAUSE_HOME_BUFFER));;
         act (upd (select_idle true))
       else
         act (on_usb (LEDs_SetAllLEDs LEDMASK_PAUSE_EMPTY_BUFFER));;
         act (upd (select_idle false)));;
      if millis j <? MILLIS_UNTIL_HOME + MILLIS_HOME_PRESSED then act (upd add_8ms) else mret tt
    else
      act (on_usb (LEDs_SetAllLEDs LEDMASK_SYNCED));;
      act (upd (set_selectedReport PtrController));;
      act (upd add_8ms)
  else
    act (on_usb (LEDs_SetAllLEDs LEDMASK_NOT_SYNCED));;
    act (upd (select_idle false)).

Definition send_IN_report_prog (fuel : nat) : P unit :=
  act (on_usb disable_rx_isr);;
  choose_report_prog;;
  act (on_usb enable_rx_isr);;
  s ← act (gets rsp);
  (if negb (nextPacketReady s) then
     p ← act (gets (λ w, selectedReport (joy w)));
     prepare_standard_report_prog p
   else mret tt);;
  act (on_usb (Endpoint_SelectEndpoint JOYSTICK_IN_EPADDR));;
  prog_wait fuel (on_usb Endpoint_IsINReady);;
  s ← act (gets rsp);
  act (wait_until fuel
         (on_usb (r ← Endpoint_Write_Stream_LE (replyBuffer s) JOYSTICK_EPSIZE;
                  mret (r =? ENDPOINT_RWSTREAM_NoError)));;
       on_usb Endpoint_ClearIN);;
  act (on_rsp (modify clear_ready)).

Fixpoint read_OUT_prog (fuel : nat) (buf : list Z) (ReportSize : Z) : P (list Z * Z) :=
  match fuel with
  | O => act (fail OutOfFuel)
  | S fuel =>
      allowed ← act (on_usb Endpoint_IsReadWriteAllowed);
      if allowed : bool then
        b ← act (on_usb Endpoint_Read_8);
        if ReportSize <? JOYSTICK_EPSIZE then
          buf ← act (checked (store_at (Z.to_nat ReportSize) b buf));
          read_OUT_prog fuel buf (u16 (ReportSize + 1))
        else read_OUT_prog fuel buf ReportSize
      else mret (buf, ReportSize)
  end.

Definition HID_Task_prog (ram : Z → Z) (fuel : nat) : P unit :=
  configured ← act (on_usb USB_DeviceConfigured);
  if negb configured then mret tt else
  act (on_usb (Endpoint_SelectEndpoint JOYSTICK_OUT_EPADDR));;
  received ← act (on_usb Endpoint_IsOUTReceived);
  (if received : bool then
     '(ReportData, ReportSize) ← read_OUT_prog fuel (memset 0 (Z.to_nat JOYSTICK_EPSIZE)) 0;
     act (on_usb Endpoint_ClearOUT);;
     process_OUT_report_prog ram ReportData (u8 ReportSize)
   else mret tt);;
  act (on_usb (Endpoint_SelectEndpoint JOYSTICK_IN_EPADDR));;
  ready ← act (on_usb Endpoint_IsINReady);
  if ready : bool then send_IN_report_prog fuel else mret tt.
End tasks.

(** ** Without interrupts *)

Section uninterrupted.
Context {E : Type} `{!BoardOps E, !EndpointOps E}.
Implicit Types w : firmware E.

(** Where the function returns, the tree of its actions gives the same. *)
Definition agrees {A} (p : prog (firmware E) A) (m : M (firmware E) A) w : Prop :=
  ∀ a w', m w = Ok a w' → run p w = Ok a w'.

Lemma agrees_act {A} (m : M (firmware E) A) w : agrees (act m) m w.
Proof. intros a w'. by rewrite run_act. Qed.

Lemma agrees_ret {A} (a : A) w : agrees (mret a) (mret a) w.
Proof. by intros a' w'. Qed.

Lemma agrees_bind {A B} (p : prog (firmware E) A) m (f : A → prog (firmware E) B) g w :
  agrees p m w → (∀ a w', m w = Ok a w' → agrees (f a) (g a) w') → agrees (p ≫= f) (m ≫= g) w.
Proof.
  intros Hp Hf b w'. rewrite run_bind. unfold mbind, M_bind. destruct (m w) as [a w1|] eqn:Hm; [|done].
  intros Hg. rewrite (Hp a w1 Hm). by apply (Hf a w1 eq_refl).
Qed.

(** Actions that the function does not have change nothing. *)
Lemma agrees_get {A B} (get : firmware E → A) (f : A → prog (firmware E) B) m w :
  agrees (f (get w)) m w → agrees (act (gets get) ≫= f) m w.
Proof. intros Hf b w' Hm. by apply Hf. Qed.

Lemma agrees_wait fuel cond w : agrees (prog_wait fuel cond) (wait_until fuel cond) w.
Proof.
  revert w. induction fuel as [|fuel IH]; intros w; [apply agrees_act|].
  apply agrees_bind; [apply agrees_act|]. intros [] w' _; [apply agrees_ret|apply IH].
Qed.

Lemma agrees_read_OUT fuel : ∀ buf n w, agrees (read_OUT_prog fuel buf n) (read_OUT fuel buf n) w.
Proof.
  induction fuel as [|fuel IH]; intros buf n w; [apply agrees_act|].
  apply agrees_bind; [apply agrees_act|]. intros [] w1 _; [|apply agrees_ret].
  apply agrees_bind; [apply agrees_act|]. intros b w2 _. destruct (n <? JOYSTICK_EPSIZE); [|apply IH].
  apply agrees_bind; [apply agrees_act|]. intros buf' w3 _. apply IH.
Qed.

(** The bytes one by one, or all at once. *)
Lemma copy_report_run p w n : ∀ i s pre post mid,
  let rb := report_bytes (deref p (joy w)) in
  length rb = (i + n)%nat → length pre = 2%nat → length mid = n →
  replyBuffer s = pre ++ take i rb ++ mid ++ post →
  run (copy_report n p i) (set_rsp s w) =
  Ok tt (set_rsp (put_buffer (pre ++ rb ++ post) s) w).
Proof.
  induction n as [|n IH]; intros i s pre post mid rb Hrb Hpre Hmid Hbuf.
  { destruct mid; [|done]. rewrite take_ge in Hbuf by lia. cbn [app] in Hbuf.
    rewrite <- Hbuf. by destruct s. }
  destruct mid as [|m mid]; [done|]. cbn [copy_report]. rewrite run_bind. unfold mbind at 1, M_bind at 1.
  rewrite run_act. unfold copy_byte, mbind, M_bind, get_st. cbn [joy rsp set_rsp]. fold rb.
  destruct (lookup_lt_is_Some_2 rb i ltac:(lia)) as [b Hb]. rewrite Hb. cbn [checked mret M_ret].
  rewrite store_at_insert by (cbn [rsp set_rsp]; rewrite Hbuf, !length_app, length_take, Hrb, Hpre, Hmid; lia).
  cbn [checked mret M_ret]. unfold on_rsp, zoom, modify. cbn [rsp set_rsp].
  replace (<[(2 + i)%nat := b]> (replyBuffer s)) with (pre ++ take (S i) rb ++ mid ++ post).
  - change (set_rsp ?x (set_rsp s w)) with (set_rsp x w).
    rewrite (IH (S i) _ pre post mid); [done|fold rb; lia|done|by simplify_eq/=|done].
  - rewrite Hbuf, <- Hpre, insert_app_r, (take_S_r _ _ b) by done.
    rewrite <- !app_assoc. f_equal. rewrite insert_app_r_alt by (rewrite length_take; lia).
    rewrite length_take, Nat.min_l, Nat.sub_diag by lia. done.
Qed.

Lemma run_act_bind {A B} (m : M (firmware E) A) (f : A → prog (firmware E) B) w a w' :
  m w = Ok a w' → run (act m ≫= f) w = run (f a) w'.
Proof. intros Hm. rewrite run_bind. unfold mbind, M_bind. by rewrite run_act, Hm. Qed.

Lemma on_rsp_run {A} (m : M response A) w a s : m (rsp w) = Ok a s → on_rsp m w = Ok a (set_rsp s w).
Proof. intros Hm. unfold on_rsp, zoom. by rewrite Hm. Qed.

Lemma begin_reply_run code command s :
  begin_reply code command s = Ok tt (put_buffer (packet [code; command]) s).
Proof. reflexivity. Qed.

(** After the start of a reply and the copy of the report. *)
Lemma copy_started p w s code command :
  length (report_bytes (deref p (joy w))) = 11%nat →
  replyBuffer s = packet [code; command] →
  run (copy_report sizeof_StandardReport p 0) (set_rsp s w) =
  Ok tt (set_rsp (put_buffer (usb_packet code command (report_bytes (deref p (joy w)))) s) w).
Proof.
  intros Hl Hs. rewrite (copy_report_run p w _ 0 s [code; command] (memset 0 51) (memset 0 11)); try done.
  do 3 f_equal. unfold usb_packet, pad. rewrite <- app_assoc. do 2 f_equal. rewrite length_app, Hl. done.
Qed.

Lemma agrees_standard p r w :
  deref p (joy w) = r → length (analog r) = 6%nat →
  agrees (prepare_standard_report_prog p) (on_rsp (prepare_standard_report r)) w.
Proof.
  intros Hr Ha a w'. assert (length (report_bytes r) = 11%nat) as Hl by by apply report_bytes_length.
  unfold prepare_standard_report_prog, prepare_reply_prog.
  rewrite (run_act_bind _ _ w (rsp w) w) by done.
  destruct (nextPacketReady (rsp w)) eqn:Hrd.
  { unfold on_rsp, zoom, prepare_standard_report, mbind, M_bind, get_st. rewrite Hrd. by destruct w. }
  rewrite (on_rsp_run _ _ _ _ (prepare_standard_report_free (rsp w) r Hrd Ha)). intros [= <- <-].
  erewrite run_act_bind by by apply on_rsp_run. erewrite run_act_bind by done.
  erewrite run_act_bind by done. cbn [rsp set_rsp set_counter nextPacketReady]. rewrite Hrd.
  erewrite run_act_bind by (apply on_rsp_run; apply begin_reply_run).
  rewrite run_bind. unfold mbind, M_bind. cbn [rsp set_rsp].
  change (set_rsp ?x (set_rsp ?y w)) with (set_rsp x w).
  erewrite copy_started by (done || by rewrite Hr). rewrite run_act, Hr.
  by erewrite on_rsp_run by done.
Qed.

(** The end of a 0x21 reply, after the report. *)
Definition uart_end (code subcommand : Z) (data : list Z) (len : Z) (buf : list Z) : option (list Z) :=
  buf ← store_at (sizeof_StandardReport + 2) code buf;
  buf ← store_at (sizeof_StandardReport + 3) subcommand buf;
  memcpy (sizeof_StandardReport + 4) data (Z.to_nat len) buf.

Lemma uart_reply_Ok r code subcommand data len s s' :
  nextPacketReady s = false → length (analog r) = 6%nat →
  prepare_uart_reply r code subcommand data len s = Ok tt s' →
  ∃ buf, uart_end code subcommand data len
           (usb_packet 0x21 (next_counter (counter s)) (report_bytes r)) = Some buf ∧
         s' = set_ready buf (set_counter (next_counter (counter s)) s).
Proof.
  intros Hs Ha. assert (length (report_bytes r) = 11%nat) as Hl by by apply report_bytes_length.
  unfold prepare_uart_reply, mbind, M_bind, get_st. rewrite Hs, memset_pad.
  change (Z.to_nat JOYSTICK_EPSIZE) with 64%nat. rewrite store_at_pad by (simpl; lia).
  cbn [checked mret M_ret app]. rewrite store_at_pad by (simpl; lia).
  cbn [checked mret M_ret app]. change sizeof_StandardReport with 11%nat.
  rewrite memcpy_pad; [|done|by rewrite Hl|cbn; lia].
  rewrite take_ge by lia. cbn [checked mret M_ret].
  unfold uart_end, usb_packet. cbn [counter set_counter]. fold (next_counter (counter s)).
  change (Z.to_nat JOYSTICK_EPSIZE) with 64%nat. change sizeof_StandardReport with 11%nat.
  destruct (store_at (11 + 2) code _) as [b1|]; [|done]. cbn [checked mret M_ret mbind option_bind].
  destruct (store_at (11 + 3) subcommand b1) as [b2|]; [|done]. cbn [checked mret M_ret mbind option_bind].
  destruct (memcpy (11 + 4) data (Z.to_nat len) b2) as [b3|]; [|done].
  intros [= <-]. by exists b3.
Qed.

Lemma put_data_run off data len s buf :
  memcpy off data (Z.to_nat len) (replyBuffer s) = Some buf →
  put_data off data len s = Ok tt (put_buffer buf s).
Proof. intros Hb. unfold put_data, mbind, M_bind, get_st. by rewrite Hb. Qed.

Lemma uart_end_run code subcommand data len s buf :
  uart_end code subcommand data len (replyBuffer s) = Some buf →
  (put_data (sizeof_StandardReport + 2) [code] 1;; put_data (sizeof_StandardReport + 3) [subcommand] 1;;
   put_data (sizeof_StandardReport + 4) data len;; mark_ready) s = Ok tt (set_ready buf s).
Proof.
  unfold uart_end. intros (b1 & H1 & (b2 & H2 & H3)%bind_Some)%bind_Some.
  run_step (put_data_run _ [code] 1 s b1 H1).
  run_step (put_data_run _ [subcommand] 1 (put_buffer b1 s) b2 H2).
  run_step (put_data_run _ data len (put_buffer b2 (put_buffer b1 s)) buf H3). done.
Qed.

Lemma agrees_uart r code subcommand data len w :
  deref_selected (joy w) = r → length (analog r) = 6%nat →
  agrees (prepare_uart_reply_prog code subcommand data len)
         (on_rsp (prepare_uart_reply r code subcommand data len)) w.
Proof.
  intros Hr Ha a w' Hm. assert (length (report_bytes r) = 11%nat) as Hl by by apply report_bytes_length. unfold prepare_uart_reply_prog.
  rewrite (run_act_bind _ _ w (rsp w) w) by done.
  unfold on_rsp, zoom in Hm. destruct (nextPacketReady (rsp w)) eqn:Hrd.
  { unfold prepare_uart_reply, mbind, M_bind, get_st in Hm. rewrite Hrd in Hm.
    injection Hm as <- <-. by destruct w. }
  destruct (prepare_uart_reply _ _ _ _ _ _) as [[] s'|] eqn:Hu; [|done]. injection Hm as <- <-.
  destruct (uart_reply_Ok r code subcommand data len (rsp w) s' Hrd Ha Hu) as (buf & Hend & ->).
  erewrite run_act_bind by by apply on_rsp_run. erewrite run_act_bind by done.
  cbn [joy set_rsp]. rewrite run_bind. unfold mbind at 1, M_bind at 1.
  erewrite (copy_started _ w) by (done || by unfold deref_selected in Hr; unfold deref; rewrite Hr).
  rewrite run_act. erewrite on_rsp_run; [reflexivity|]. cbn [rsp set_rsp].
  change (deref (selectedReport (joy w)) (joy w)) with (deref_selected (joy w)). rewrite Hr.
  by rewrite (uart_end_run _ _ _ _ _ buf).
Qed.

Lemma agrees_spi r address size w :
  deref_selected (joy w) = r → length (analog r) = 6%nat →
  agrees (prepare_spi_reply_prog address size) (on_rsp (prepare_spi_reply r address size)) w.
Proof.
  intros Hr Ha a w' Hm. unfold prepare_spi_reply_prog. rewrite run_bind. unfold mbind at 1, M_bind at 1.
  rewrite run_act. revert Hm. unfold on_rsp, zoom, prepare_spi_reply. unfold mbind at 1, M_bind at 1.
  destruct (spi_read address size) as [d|]; [|done]. cbn [checked mret M_ret mbind option_bind].
  repeat (let b := fresh "b" in unfold mbind at 1, M_bind at 1;
          match goal with |- context [checked ?o] => destruct o as [b|]; [|done] end;
          cbn [checked mret M_ret mbind option_bind]).
  exact (agrees_uart r _ _ _ _ w Hr Ha a w').
Qed.

Lemma agrees_checked {A} (o : option A) (f : A → prog (firmware E) unit) (g : A → M response unit) w :
  (∀ x, o = Some x → agrees (f x) (on_rsp (g x)) w) →
  agrees (act (checked o) ≫= f) (on_rsp (checked o ≫= g)) w.
Proof. intros Hf a w'. destruct o as [x|]; [|done]. by apply (Hf x). Qed.

Lemma agrees_process ram r d n w :
  deref_selected (joy w) = r → length (analog r) = 6%nat →
  agrees (process_OUT_report_prog ram d n) (on_rsp (process_OUT_report ram r d n)) w.
Proof.
  intros Hr Ha. unfold process_OUT_report_prog, process_OUT_report.
  apply agrees_checked. intros r0 _. destruct (r0 =? 0x80).
  { apply agrees_checked. intros r1 _. repeat (case_match; [apply agrees_act|]).
    case_match; [|apply agrees_act]. apply agrees_get. by apply agrees_standard. }
  case_match; [|by intros a w' [= <- <-]; destruct w].
  apply agrees_checked. intros sub _.
  destruct (of_code sub) as [[]|]; try by apply agrees_uart.
  intros a w'. unfold mbind at 1. destruct (d !! 12%nat) as [r12|]; [|done].
  destruct (d !! 11%nat) as [r11|]; [|done]. destruct (d !! 15%nat) as [size|]; [|done].
  exact (agrees_spi r _ _ w Hr Ha a w').
Qed.

(** The reports keep their shape. *)
Definition shaped (j : joystick) : Prop :=
  length (analog (controllerReport j)) = 6%nat ∧ length (analog (idleReport j)) = 6%nat.

Lemma shaped_selected j : shaped j → length (analog (deref_selected j)) = 6%nat.
Proof. intros [? ?]. unfold deref_selected. by destruct (selectedReport j). Qed.

Lemma on_usb_joy {A} (m : M E A) w a w' : on_usb m w = Ok a w' → joy w' = joy w.
Proof. unfold on_usb, zoom. destruct (m (usb w)); [|done]. by intros [= _ <-]. Qed.

Lemma choose_report_shaped w w' : shaped (joy w) → choose_report w = Ok tt w' → shaped (joy w').
Proof.
  intros [Hc Hi]. unfold choose_report, upd, on_joy, when, zoom, modify, mbind, M_bind, mret, M_ret, gets.
  repeat case_match; intros; simplify_eq;
    repeat match goal with H : on_usb _ _ = Ok _ _ |- _ => apply on_usb_joy in H end;
    split; simpl; congruence.
Qed.

Lemma agrees_get_st {A} (p : prog (firmware E) A) k w : agrees p (k w) w → agrees p (get_st ≫= k) w.
Proof. done. Qed.
Lemma agrees_assoc {A B C} (p : prog (firmware E) C) (m : M (firmware E) A) (f : A → M _ B) g w :
  agrees p (m ≫= λ a, f a ≫= g) w → agrees p ((m ≫= f) ≫= g) w.
Proof.
  intros Hp c w' Hm. apply Hp. revert Hm. unfold mbind, M_bind. by destruct (m w) as [a w1|].
Qed.

Lemma agrees_group {A B C} (p : prog (firmware E) C) (m : M (firmware E) A) (f : A → M _ B) g w :
  agrees p ((m ≫= f) ≫= g) w → agrees p (m ≫= λ a, f a ≫= g) w.
Proof.
  intros Hp c w' Hm. apply Hp. revert Hm. unfold mbind, M_bind. by destruct (m w) as [a w1|].
Qed.

Lemma agrees_choose w : agrees choose_report_prog choose_report w.
Proof.
  unfold choose_report_prog, choose_report. apply agrees_bind; [apply agrees_act|]. intros j w1 _.
  repeat case_match; unfold when; repeat first
    [apply agrees_act | apply agrees_ret | apply agrees_bind; [|intros [] ? _]].
Qed.

Lemma agrees_send fuel w :
  shaped (joy w) → agrees (send_IN_report_prog fuel) (send_IN_report fuel) w.
Proof.
  intros Hw. unfold send_IN_report_prog, send_IN_report, CALLBACK_beforeSend.
  apply agrees_assoc, agrees_bind; [apply agrees_act|]. intros [] w1 H1.
  apply agrees_assoc, agrees_bind; [apply agrees_choose|]. intros [] w2 H2.
  apply agrees_bind; [apply agrees_act|]. intros [] w3 H3.
  apply agrees_get, agrees_get_st.
  assert (shaped (joy w3)) as Hw3.
  { rewrite (on_usb_joy _ _ _ _ H3). eapply choose_report_shaped; [|done].
    by rewrite (on_usb_joy _ _ _ _ H1). }
  apply agrees_bind.
  { unfold when. destruct (negb _); [|apply agrees_ret]. apply agrees_get, agrees_standard; [done|].
    by apply shaped_selected. }
  intros [] w4 _. apply agrees_bind; [apply agrees_act|]. intros [] w5 _.
  apply agrees_bind; [apply agrees_wait|]. intros [] w6 _. apply agrees_get, agrees_get_st.
  apply agrees_group, agrees_bind; [apply agrees_act|]. intros [] w7 _. apply agrees_act.
Qed.

Lemma read_OUT_joy fuel : ∀ buf n w a w', read_OUT fuel buf n w = Ok a w' → joy w' = joy w.
Proof.
  induction fuel as [|fuel IH]; intros buf n w a w'; [done|]. cbn [read_OUT]. unfold mbind, M_bind.
  destruct (on_usb Endpoint_IsReadWriteAllowed w) as [[] w1|] eqn:H1; [| |done];
    apply on_usb_joy in H1; [|by intros [= _ <-]].
  destruct (on_usb Endpoint_Read_8 w1) as [b w2|] eqn:H2; [|done]. apply on_usb_joy in H2.
  destruct (n <? JOYSTICK_EPSIZE); [|by intros ->%IH; congruence].
  destruct (store_at _ _ _) as [buf'|]; [|done]. intros ->%IH. congruence.
Qed.

Lemma on_rsp_joy {A} (m : M response A) w a w' : on_rsp m w = Ok a w' → joy w' = joy w.
Proof. unfold on_rsp, zoom. destruct (m (rsp w)); [|done]. by intros [= _ <-]. Qed.

(** The first half of the task does not touch the reports. *)
Lemma out_half_joy ram fuel (received : bool) w a w' :
  (if received then
     '(ReportData, ReportSize) ← read_OUT fuel (memset 0 (Z.to_nat JOYSTICK_EPSIZE)) 0;
     on_usb Endpoint_ClearOUT;;
     w ← get_st;
     on_rsp (process_OUT_report ram (deref_selected (joy w)) ReportData (u8 ReportSize))
   else mret tt) w = Ok a w' → joy w' = joy w.
Proof.
  destruct received; [|by intros [= _ <-]]. unfold mbind, M_bind, get_st.
  destruct (read_OUT _ _ _ w) as [[d n] w1|] eqn:H1; [|done]. apply read_OUT_joy in H1.
  destruct (on_usb Endpoint_ClearOUT w1) as [[] w2|] eqn:H2; [|done]. apply on_usb_joy in H2.
  intros ->%on_rsp_joy. congruence.
Qed.

Lemma agrees_task ram fuel w : shaped (joy w) → agrees (HID_Task_prog ram fuel) (HID_Task ram fuel) w.
Proof.
  intros Hw. unfold HID_Task_prog, HID_Task.
  apply agrees_bind; [apply agrees_act|]. intros [] w1 H1%on_usb_joy; [|apply agrees_ret]. cbn [negb].
  apply agrees_bind; [apply agrees_act|]. intros [] w2 H2%on_usb_joy.
  apply agrees_bind; [apply agrees_act|]. intros received w3 H3%on_usb_joy.
  assert (joy w3 = joy w) as Hj by congruence.
  apply agrees_bind.
  { destruct received; [|apply agrees_ret].
    apply agrees_bind; [apply agrees_read_OUT|]. intros [d n] w4 H4%read_OUT_joy.
    apply agrees_bind; [apply agrees_act|]. intros [] w5 H5%on_usb_joy.
    apply agrees_get_st, agrees_process; [done|]. apply shaped_selected. congruence. }
  intros [] w6 H6%out_half_joy. apply agrees_bind; [apply agrees_act|]. intros [] w7 H7%on_usb_joy.
  apply agrees_bind; [apply agrees_act|]. intros ready w8 H8%on_usb_joy.
  destruct ready; [|apply agrees_ret]. apply agrees_send. congruence.
Qed.
End uninterrupted.

(** The tree of actions is the main task: wherever [HID_Task] returns, the
    uninterrupted run of its actions, with the reports copied byte by byte and
    the reply built in place, returns in the same state. *)
Lemma HID_Task_uninterrupted {E} `{!BoardOps E, !EndpointOps E} ram fuel (w w' : firmware E) :
  shaped (joy w) → HID_Task ram fuel w = Ok tt w' → run (HID_Task_prog ram fuel) w = Ok tt w'.
Proof. intros Hw. by apply agrees_task. Qed.
