(* ===== verification/RelyGuarantee.v ===== *)
(** * Rely and guarantee for the main task

    The receive interrupt of [src/Firmware/Joystick.c] may come between any two
    actions of [HID_Task] while it is enabled.  This file has the steps of the
    interrupted program and the rules of a logic in which every action of the
    task keeps an invariant whatever the interrupt handler, the serial line and
    the console do between the actions. *)

From stdpp Require Import relations.
From S2P Require Import Prelude Datatypes EmulatedSPI Descriptors State Interfaces Response.
From S2P Require Import Joystick Reports SerialLink Failsafe HidTask System Actions Tasks.

#[local] Opaque report_bytes.

Section logic.
Context {E : Type} `{!BoardOps E, !EndpointOps E, !PlatformView E, !Platform E, !AvrCrc}.
Context (ram : Z → Z) (fuel : nat) (req : list Z → Prop).

(** Whether packets are to be genuine as a whole, in runs without a tear. *)
Context (strict : bool).
Abbreviation system := (@System.system E).
Abbreviation P A := (prog (firmware E) A).

(** ** Steps *)

(** What can happen between two actions of the task; [req] are the packets
    that the console may send. *)
Inductive interference : system → system → Prop :=
| meet_uart w w' h b :
    is_u8 b →
    env_changes w w' (set_rx_pending (rx_pending (board (usb w)) ++ [b]) (board (usb w)))
      (ep (usb w)) →
    interference {| fw := w; history := h |} {| fw := w'; history := h |}
| meet_interrupt w w' h b q :
    rx_isr_on (board (usb w)) = true → rx_pending (board (usb w)) = b :: q →
    USART1_RX_vect w = Ok tt w' →
    interference {| fw := w; history := h |} {| fw := w'; history := h ++ [b] |}
| meet_request w w' h pkt :
    ep_configured (ep (usb w)) = true → ep_out (ep (usb w)) = None →
    req pkt → bytes pkt → (length pkt ≤ 64)%nat →
    env_changes w w' (board (usb w)) (set_out (Some pkt) (ep (usb w))) →
    interference {| fw := w; history := h |} {| fw := w'; history := h |}
| meet_collect w w' h :
    ep_configured (ep (usb w)) = true → ep_in (ep (usb w)) = None →
    env_changes w w' (board (usb w)) (set_in (Some []) (ep (usb w))) →
    interference {| fw := w; history := h |} {| fw := w'; history := h |}.

(** The rest of the task that runs, and the state. *)
Record config := { code : P unit; sys : system }.

(** The host configures the device in a control request, which the main loop
    serves between two turns of the task. *)
Inductive pstep : config → config → Prop :=
| pstep_act X (m : M (firmware E) X) k w h x w' :
    m w = Ok x w' →
    pstep {| code := Act m k; sys := {| fw := w; history := h |} |}
          {| code := k x; sys := {| fw := w'; history := h |} |}
| pstep_interference c s s' :
    interference s s' → pstep {| code := c; sys := s |} {| code := c; sys := s' |}
| pstep_loop s :
    pstep {| code := Done tt; sys := s |} {| code := HID_Task_prog ram fuel; sys := s |}
| pstep_configure w w' h c :
    env_changes w w' (board (usb w))
      {| ep_configured := c; ep_selected := ep_selected (ep (usb w)); ep_out := None;
         ep_in := Some []; ep_sent := ep_sent (ep (usb w)) |} →
    pstep {| code := Done tt; sys := {| fw := w; history := h |} |}
          {| code := Done tt; sys := {| fw := w'; history := h |} |}.

(** Nothing is in the OUT bank at start-up: the endpoint is not configured. *)
Definition preachable (c : config) : Prop :=
  ∃ s0, initial s0 ∧ ep_out (ep (usb (fw s0))) = None ∧
        rtc pstep {| code := Done tt; sys := s0 |} c.

(** ** Tears *)

(** An action in the middle of a copy: byte 0 has been copied and byte [i] is next. *)
Definition copying {X} (m : M (firmware E) X) : Prop :=
  ∃ p i, (0 < i < sizeof_StandardReport)%nat ∧
    existT X m = existT (P := λ X, M (firmware E) X) unit (copy_byte p i).

Definition same_report (s s' : system) : Prop :=
  controllerReport (joy (fw s')) = controllerReport (joy (fw s)).

(** A step of the program that does not replace the controller state in the
    middle of its copy. *)
Definition untorn (c c' : config) : Prop :=
  match code c with
  | Done _ => True
  | Act m _ => copying m → same_report (sys c) (sys c')
  end.
Definition untorn_step (c c' : config) : Prop := pstep c c' ∧ untorn c c'.

(** The runs in which no packet is accepted while a report is being copied. *)
Definition untorn_reachable (c : config) : Prop :=
  ∃ s0, initial s0 ∧ ep_out (ep (usb (fw s0))) = None ∧
        rtc untorn_step {| code := Done tt; sys := s0 |} c.

(** Interference before the action [m]. *)
Definition meets {X} (m : M (firmware E) X) (s s' : system) : Prop :=
  interference s s' ∧ (strict = true → copying m → same_report s s').

(** ** The invariant *)

(** Byte [i] of a report is that of a controller state that was received, or
    of an idle one. *)
Definition byte_genuine (h : list Z) (i : nat) (b : Z) : Prop :=
  ∃ r, genuine h r ∧ report_bytes r !! i = Some b.

Definition bytes_genuine (h : list Z) (n : nat) (p : list Z) : Prop :=
  ∀ i, (i < n)%nat → ∃ b, p !! (2 + i)%nat = Some b ∧ byte_genuine h i b.

Definition packet_bytes_ok (h : list Z) (p : list Z) : Prop :=
  length p = 64%nat ∧ bytes p ∧
  (nth 0 p 0 = 0x81 ∨ ((nth 0 p 0 = 0x21 ∨ nth 0 p 0 = 0x30) ∧ bytes_genuine h 11 p)).

Definition packet_good (h : list Z) (p : list Z) : Prop :=
  if strict then packet_ok h p else packet_bytes_ok h p.

Definition inv (s : system) : Prop := core_inv s ∧ packets_inv packet_good s.

Lemma bytes_genuine_mono h h' n p : bytes_genuine h n p → bytes_genuine (h ++ h') n p.
Proof.
  intros Hp i Hi. destruct (Hp i Hi) as (b & Hb & r & Hr & Hl). exists b. split; [done|].
  exists r. split; [by apply genuine_mono|done].
Qed.

Lemma packet_bytes_ok_mono h h' p : packet_bytes_ok h p → packet_bytes_ok (h ++ h') p.
Proof.
  intros (? & ? & [?|[? ?]]); split_and!; try done; [by left|right].
  split; [done|by apply bytes_genuine_mono].
Qed.

Lemma packet_good_mono h h' p : packet_good h p → packet_good (h ++ h') p.
Proof. unfold packet_good. destruct strict; [apply packet_ok_mono|apply packet_bytes_ok_mono]. Qed.

(** The OUT bank, when it holds something, holds a whole packet. *)
Definition whole (s : system) : Prop := ∀ l, ep_out (ep (usb (fw s))) = Some l → req l.

(** The console never asks for more of the flash than a reply can hold. *)
Definition fitting : Prop :=
  ∀ pkt, req pkt → oversized_read (out_buffer pkt) (out_count pkt) = false.

(** What interference leaves alone. *)
Record frame (s s' : system) : Prop := {
  fr_rsp : rsp (fw s') = rsp (fw s);
  fr_conf : ep_configured (ep (usb (fw s'))) = ep_configured (ep (usb (fw s)));
  fr_selected : ep_selected (ep (usb (fw s'))) = ep_selected (ep (usb (fw s)));
  fr_sent : ep_sent (ep (usb (fw s'))) = ep_sent (ep (usb (fw s)));
  fr_out l : ep_out (ep (usb (fw s))) = Some l → ep_out (ep (usb (fw s'))) = Some l;
  fr_in l : ep_in (ep (usb (fw s))) = Some l → ep_in (ep (usb (fw s'))) = Some l;
  fr_history : ∃ h, history s' = history s ++ h;
  fr_isr : rx_isr_on (board (usb (fw s'))) = rx_isr_on (board (usb (fw s)));
  fr_whole : whole s → whole s';
  fr_joy : rx_isr_on (board (usb (fw s))) = false → joy (fw s') = joy (fw s);
  fr_idle : idleReport (joy (fw s')) = idleReport (joy (fw s));
}.

#[local] Instance frame_refl : Reflexive frame.
Proof. intros s. split; try done. exists []. by rewrite app_nil_r. Qed.
#[local] Instance frame_trans : Transitive frame.
Proof.
  intros s1 s2 s3 [] []. split; try (etrans; eauto; fail); eauto.
  - destruct fr_history0 as [h1 E1], fr_history1 as [h2 E2]. exists (h1 ++ h2).
    by rewrite E2, E1, app_assoc.
  - intros Hoff. rewrite fr_joy1; [by apply fr_joy0|congruence].
Qed.

Lemma interference_frame s s' : inv s → interference s s' → inv s' ∧ frame s s'.
Proof.
  intros [Hc Hp] Hstep. destruct Hstep as
    [w w' h b Hb Henv|w w' h b q Hon Hrx Hrun|w w' h pkt Hcf Ho Hq Hb Hl Henv|w w' h Hcf Hi Henv].
  2: { destruct (interrupt_core w w' h b q Hc Hrx Hrun) as (Hc' & Hr & He & Hisr & Hid). split; [split|].
       - done.
       - eapply packets_mono; [|done| |done]; [by intros; apply packet_good_mono|by rewrite He].
       - split; unfold whole; simpl; rewrite ?He; try done; [by exists [b]|congruence]. }
  all: assert (core_inv {| fw := w'; history := h |}) as Hc';
    [pose proof Hc as [_ _ _ _ _ Hrx [Hho Hhi]]; eapply env_core; [done|exact Henv|..]; simpl; try done|].
  - by apply Forall_app_2, Forall_singleton.
  - destruct Henv as (e' & -> & Hok & Hbd & He). split; [split; [done|]|].
    + destruct Hp. split; simpl in *; rewrite ?He; done.
    + split; unfold whole; simpl; rewrite ?He, ?Hbd; try done. exists []. by rewrite app_nil_r.
  - split; simpl; [by intros ? [=<-]|done].
  - destruct Henv as (e' & -> & Hok & Hbd & He). split; [split; [done|]|].
    + destruct Hp. split; simpl in *; rewrite ?He; done.
    + split; unfold whole; simpl; rewrite ?He, ?Hbd; try done; [congruence| |by intros _ ? [= <-]].
      exists []. by rewrite app_nil_r.
  - split; simpl; [done|by intros ? [=<-]].
  - destruct Henv as (e' & -> & Hok & Hbd & He). split; [split; [done|]|].
    + destruct Hp. split; simpl in *; rewrite ?He; done.
    + split; unfold whole; simpl; rewrite ?He, ?Hbd; try done; [congruence|]. exists []. by rewrite app_nil_r.
Qed.

Lemma interferences_frame {X} (m : M (firmware E) X) s s' :
  inv s → rtc (meets m) s s' →
  inv s' ∧ frame s s' ∧ (strict = true → copying m → same_report s s').
Proof.
  intros Hs Hrtc. induction Hrtc as [s|s1 s2 s3 [H12 Hsame] _ IH]; [done|].
  destruct (interference_frame s1 s2 Hs H12) as [H2 Hf]. destruct (IH H2) as (H3 & Hf' & Hsame').
  split; [done|]. split; [by etrans|]. intros Hst Hm. unfold same_report in *. rewrite Hsame' by done. by apply Hsame.
Qed.

(** ** Rely and guarantee *)

(** From [s], the actions of [p] keep the invariant under interference, and
    [Q] holds at the end.  There is a fault only when the console may send an
    oversized read. *)
Fixpoint safe {A} (p : P A) (Q : A → system → Prop) (s : system) : Prop :=
  match p with
  | Done a => Q a s
  | Act m k =>
      ∀ s1, rtc (meets m) s s1 →
      match m (fw s1) with
      | Ok x w' => let s2 := {| fw := w'; history := history s1 |} in inv s2 ∧ safe (k x) Q s2
      | Fault _ _ => ¬ fitting
      end
  end.

Lemma safe_bind {A B} (p : P A) (f : A → P B) Q s :
  safe p (λ a s', safe (f a) Q s') s → safe (p ≫= f) Q s.
Proof.
  revert s. induction p as [a|X m k IH]; intros s; [done|]. intros Hp s1 Hs1. specialize (Hp s1 Hs1).
  destruct (m (fw s1)) as [x w'|]; [|done]. destruct Hp as [Hinv Hk]. split; [done|by apply IH].
Qed.

Lemma safe_mono {A} (p : P A) (Q Q' : A → system → Prop) s :
  (∀ a s', Q a s' → Q' a s') → safe p Q s → safe p Q' s.
Proof.
  intros HQ. revert s. induction p as [a|X m k IH]; intros s; [apply HQ|].
  intros Hp s1 Hs1. specialize (Hp s1 Hs1). destruct (m (fw s1)) as [x w'|]; [|done].
  destruct Hp as [Hinv Hk]. split; [done|by apply IH].
Qed.

(** One action: it may rely on the frame and must restore the invariant.  In
    the middle of a copy it may rely on the report, too. *)
Lemma safe_act_copy {A} (m : M (firmware E) A) (Q : A → system → Prop) s :
  inv s →
  (∀ w h, inv {| fw := w; history := h |} → frame s {| fw := w; history := h |} →
     (strict = true → copying m → same_report s {| fw := w; history := h |}) →
     match m w with
     | Ok a w' => inv {| fw := w'; history := h |} ∧ Q a {| fw := w'; history := h |}
     | Fault _ _ => ¬ fitting
     end) →
  safe (act m) Q s.
Proof.
  intros Hs Hm [w h] Hrtc. destruct (interferences_frame _ _ _ Hs Hrtc) as (Hi & Hf & Hsame).
  cbn [fw history]. specialize (Hm w h Hi Hf Hsame). by destruct (m w).
Qed.

Lemma safe_act {A} (m : M (firmware E) A) (Q : A → system → Prop) s :
  inv s →
  (∀ w h, inv {| fw := w; history := h |} → frame s {| fw := w; history := h |} →
     match m w with
     | Ok a w' => inv {| fw := w'; history := h |} ∧ Q a {| fw := w'; history := h |}
     | Fault _ _ => ¬ fitting
     end) →
  safe (act m) Q s.
Proof. intros Hs Hm. apply safe_act_copy; [done|]. intros w h Hi Hf _. by apply Hm. Qed.

(** An operation of the driver, with its law. *)
Lemma safe_usb {A} (m : M E A) (Q : A → system → Prop) s :
  inv s →
  (∀ w h, inv {| fw := w; history := h |} → frame s {| fw := w; history := h |} →
     ∃ a bv ev, runs m (usb w) a bv ev ∧ bytes (rx_pending bv) ∧ host_ok ev ∧
       (ep_sent ev = ep_sent (ep (usb w)) ∨
        ∃ p, ep_sent ev = ep_sent (ep (usb w)) ++ [p] ∧ packet_good h p) ∧
       ∀ e', board e' = bv → ep e' = ev → inv {| fw := set_usb e' w; history := h |} →
             Q a {| fw := set_usb e' w; history := h |}) →
  safe (act (on_usb m)) Q s.
Proof.
  intros Hs Hm. apply safe_act; [done|]. intros w h Hi Hf.
  destruct (Hm w h Hi Hf) as (a' & bv & ev & Hruns & Hbx & Hho & Hsent & HQ).
  destruct (on_usb_runs _ w _ _ _ Hruns) as (e' & -> & Hok & Hb & He).
  assert (inv {| fw := set_usb e' w; history := h |}) as Hi'; [|by auto].
  destruct Hi as [Hc [Hrd Hs']]. split.
  - eapply env_core; [done|by exists e'|done|done].
  - split; [done|]. simpl in *. rewrite He. destruct Hsent as [->|(p & -> & Hp)]; [done|].
    by apply Forall_app_2, Forall_singleton.
Qed.

Lemma safe_gets {A} (get : firmware E → A) (Q : A → system → Prop) s :
  inv s → (∀ s', inv s' → frame s s' → Q (get (fw s')) s') → safe (act (gets get)) Q s.
Proof.
  intros Hs HQ. apply safe_act; [done|]. intros w h Hi Hf. cbn. split; [done|]. exact (HQ _ Hi Hf).
Qed.

(** An action on the reply buffer. *)
Lemma safe_rsp {A} (m : M response A) (Q : A → system → Prop) s :
  inv s →
  (∀ w h, inv {| fw := w; history := h |} → frame s {| fw := w; history := h |} →
     match m (rsp w) with
     | Ok a r =>
         response_wf r ∧ (nextPacketReady r = true → packet_good h (replyBuffer r)) ∧
         (inv {| fw := set_rsp r w; history := h |} → Q a {| fw := set_rsp r w; history := h |})
     | Fault _ _ => ¬ fitting
     end) →
  safe (act (on_rsp m)) Q s.
Proof.
  intros Hs Hm. apply safe_act; [done|]. intros w h Hi Hf. specialize (Hm w h Hi Hf).
  unfold on_rsp, zoom. destruct (m (rsp w)) as [a r|]; [|done]. destruct Hm as (Hwf & Hrd & HQ).
  assert (inv {| fw := set_rsp r w; history := h |}) as Hi'; [|by auto].
  destruct Hi as [[? ? [] ? ? ? ?] [_ Hs']]. split; split; done.
Qed.

Lemma safe_checked {A} (o : option A) (Q : A → system → Prop) s :
  inv s → (o = None → ¬ fitting) → (∀ x s', o = Some x → inv s' → frame s s' → Q x s') →
  safe (act (checked o)) Q s.
Proof.
  intros Hs HN HQ. apply safe_act; [done|]. intros w h Hi Hf. destruct o as [x|]; cbn; auto.
Qed.
End logic.
