(* ===== verification/Preemption.v ===== *)
(** * Interrupts inside the main task

    The main task of [src/Firmware/Joystick.c] in the logic of
    [RelyGuarantee]: what the console gets, and that the task does not get
    stuck, when the receive interrupt comes between any two of its actions. *)

From stdpp Require Import relations.
From S2P Require Import Prelude Datatypes EmulatedSPI Descriptors State Interfaces Response.
From S2P Require Import Joystick Reports SerialLink Failsafe HidTask System Actions Tasks RelyGuarantee.

#[local] Opaque report_bytes.

Section preemption.
Context {E : Type} `{!BoardOps E, !EndpointOps E, !PlatformView E, !Platform E, !AvrCrc}.
Context (ram : Z → Z) (fuel : nat) (req : list Z → Prop) (strict : bool).
Hypothesis enough_fuel : (65 ≤ fuel)%nat.
Abbreviation system := (@System.system E).
Abbreviation P A := (prog (firmware E) A).
Abbreviation inv := (inv strict).
Abbreviation safe := (safe req strict).
Abbreviation frame := (frame req).
Abbreviation whole := (whole req).
Abbreviation fitting := (fitting req).

(** ** Building a reply *)

Lemma inv_response s : inv s → response_wf (rsp (fw s)).
Proof. by intros [[_ _ [] _ _ _ _] _]. Qed.

Definition is_ready (s : system) : Prop := nextPacketReady (rsp (fw s)) = true.

(** The first [n] bytes of a report that is copied from [p]: each is genuine,
    or, in runs without a tear, they are those of one genuine report, which [p]
    still points to. *)
Definition partial (h : list Z) (j : joystick) (p : report_ptr) (n : nat) (buf : list Z) : Prop :=
  if strict then
    n = 0%nat ∨ ∃ r, genuine h r ∧ report_wf r ∧
      (∀ i, (i < n)%nat → buf !! (2 + i)%nat = report_bytes r !! i) ∧ ((n < 11)%nat → r = deref p j)
  else bytes_genuine h n buf.

Lemma partial_mono h h' j j' p n buf buf' :
  partial h j p n buf → (n ≤ 11)%nat → (∀ i, (i < 13)%nat → buf' !! i = buf !! i) →
  (strict = true → (0 < n < 11)%nat → deref p j' = deref p j) →
  partial (h ++ h') j' p n buf'.
Proof.
  unfold partial. intros Hp Hn Hbuf Hj. destruct strict.
  - destruct (decide (n = 0%nat)) as [->|Hn0]; [by left|].
    destruct Hp as [|(r & Hg & Hwf & Hb & Hr)]; [done|]. right. exists r.
    split; [by apply genuine_mono|]. split; [done|].
    split; [intros i Hi; rewrite Hbuf by lia; by apply Hb|].
    intros Hlt. rewrite Hj by (done || lia). by apply Hr.
  - intros i Hi. destruct (bytes_genuine_mono h h' n buf Hp i Hi) as (b & Hb & Hg). exists b.
    by rewrite Hbuf by lia.
Qed.

Lemma partial_good h j p buf :
  length buf = 64%nat → bytes buf → nth 0 buf 0 = 0x21 ∨ nth 0 buf 0 = 0x30 → partial h j p 11 buf →
  packet_good strict h buf.
Proof.
  unfold partial, packet_good. intros Hl Hb H0 Hp. destruct strict; (split; [done|]; split; [done|]; right; split; [done|]).
  - destruct Hp as [|(r & Hg & Hwf & Hr & _)]; [done|]. exists r. split; [done|]. apply list_eq. intros i.
    destruct (decide (i < 11)%nat) as [Hi|Hi]; [by rewrite lookup_take_lt, lookup_drop, Hr|].
    rewrite lookup_take_ge by lia. symmetry. apply lookup_ge_None_2.
    rewrite report_bytes_length by apply Hwf. unfold sizeof_StandardReport. lia.
  - done.
Qed.

(** A reply whose first [n] report bytes have been copied from [p]. *)
Definition building (p : report_ptr) (n : nat) (s : system) : Prop :=
  nextPacketReady (rsp (fw s)) = false ∧
  (nth 0 (replyBuffer (rsp (fw s))) 0 = 0x21 ∨ nth 0 (replyBuffer (rsp (fw s))) 0 = 0x30) ∧
  partial (history s) (joy (fw s)) p n (replyBuffer (rsp (fw s))).

Lemma building_frame p n s s' :
  frame s s' → (n ≤ 11)%nat → (strict = true → (0 < n < 11)%nat → same_report s s') →
  building p n s → building p n s'.
Proof.
  intros Hf Hle Hsame (Hn & H0 & Hb). destruct (fr_history _ _ _ Hf) as [h Hh]. unfold building.
  rewrite (fr_rsp _ _ _ Hf), Hh. split_and!; [done..|].
  eapply partial_mono; [exact Hb|done|done|]. intros Hst Hlt. specialize (Hsame Hst Hlt).
  destruct p; [exact Hsame|exact (fr_idle _ _ _ Hf)].
Qed.

Lemma deref_inv p s :
  inv s → genuine (history s) (deref p (joy (fw s))) ∧ report_wf (deref p (joy (fw s))).
Proof.
  intros [[_ _ [] Hi Hg _ _] _]. destruct p; simpl; [done|]. split; [by apply idle_genuine|done].
Qed.

Lemma put_byte_wf r i b :
  response_wf r → is_u8 b → response_wf (put_buffer (<[i := b]> (replyBuffer r)) r).
Proof. intros [Hl Hb Hc] Hu. split; simpl; [by rewrite length_insert|by apply Forall_insert|done]. Qed.

(** One more byte. *)
Lemma partial_S h j p i b buf :
  partial h j p i buf → (i < 11)%nat → length buf = 64%nat →
  genuine h (deref p j) → report_wf (deref p j) → report_bytes (deref p j) !! i = Some b →
  partial h j p (S i) (<[(2 + i)%nat := b]> buf).
Proof.
  unfold partial. intros Hp Hi Hl Hg Hwf Hb. destruct strict.
  - right. exists (deref p j). split_and!; [done..| |done]. intros k Hk.
    destruct (decide (k = i)) as [->|Hne]; [by rewrite list_lookup_insert_eq by lia|].
    rewrite list_lookup_insert_ne by lia. destruct Hp as [->|(r & _ & _ & Hr & Heq)]; [lia|].
    rewrite <- Heq by lia. apply Hr. lia.
  - intros k Hk. destruct (decide (k = i)) as [->|Hne].
    + exists b. rewrite list_lookup_insert_eq by lia. split; [done|]. by eexists.
    + destruct (Hp k ltac:(lia)) as (b' & Hb' & Hg'). exists b'. by rewrite list_lookup_insert_ne by lia.
Qed.

Lemma copy_byte_safe p i s :
  inv s → building p i s → (i < 11)%nat →
  safe (act (copy_byte p i)) (λ _ s', inv s' ∧ building p (S i) s') s.
Proof.
  intros Hs Hbld Hi. apply safe_act_copy; [done|]. intros w h Hw Hf Hsame.
  apply (building_frame p i _ _ Hf) in Hbld as (Hn & H0 & Hbg); [|lia|].
  2: { intros Hst Hlt. apply Hsame; [done|]. by exists p, i. }
  destruct (deref_inv p _ Hw) as [Hg Hwf]. cbn [fw history] in *.
  pose proof (inv_response _ Hw) as Hr. cbn [fw] in Hr. pose proof (reply_length _ Hr) as Hlen.
  unfold copy_byte, mbind, M_bind, get_st.
  destruct (lookup_lt_is_Some_2 (report_bytes (deref p (joy w))) i) as [b Hb];
    [by rewrite report_bytes_length by apply Hwf|].
  rewrite Hb. cbn [checked mret M_ret]. rewrite store_at_insert by lia. cbn.
  set (buf := <[(2 + i)%nat := b]> (replyBuffer (rsp w))) in *.
  assert (is_u8 b) as Hu by exact (Forall_lookup_1 _ _ _ _ (report_bytes_bytes _ Hwf) Hb).
  assert (inv {| fw := set_rsp (put_buffer buf (rsp w)) w; history := h |}) as Hinv.
  { pose proof (put_byte_wf _ (2 + i) b Hr Hu). destruct Hw as [[? ? [] ? ? ? ?] [_ ?]].
    split; split; try done. intros Hrd. simpl in Hrd. congruence. }
  split; [done|]. split; [done|]. split_and!; simpl; [done| |by apply partial_S].
  unfold buf. by destruct (replyBuffer (rsp w)) as [|? [|]].
Qed.

Lemma copy_report_safe p n : ∀ i s, inv s → building p i s → (i + n = 11)%nat →
  safe (copy_report n p i) (λ _ s', inv s' ∧ building p 11 s') s.
Proof.
  induction n as [|n IH]; intros i s Hs Hb Hn; cbn [copy_report].
  { rewrite Nat.add_0_r in Hn. by subst i. }
  apply safe_bind. eapply safe_mono; [|apply copy_byte_safe; [done..|lia]].
  intros _ s' [Hs' Hb']. apply IH; [done..|lia].
Qed.

Lemma partial_0 h j p buf : partial h j p 0 buf.
Proof. unfold partial. destruct strict; [by left|]. intros i Hi. lia. Qed.

Lemma begin_reply_safe p c command s :
  inv s → nextPacketReady (rsp (fw s)) = false → c = 0x21 ∨ c = 0x30 → is_u8 command →
  safe (act (on_rsp (begin_reply c command))) (λ _ s', inv s' ∧ building p 0 s') s.
Proof.
  intros Hs Hn Hc Hu. apply safe_rsp; [done|]. intros w h Hw Hf.
  rewrite begin_reply_run. pose proof (inv_response _ Hw) as Hr. cbn [fw] in Hr.
  assert (nextPacketReady (rsp w) = false) as Hn' by (rewrite <- Hn; f_equal; apply (fr_rsp _ _ _ Hf)).
  split_and!.
  - apply (packet_wf _ _ _); [simpl; lia| |apply Hr].
    constructor; [unfold is_u8; destruct Hc; lia|by constructor].
  - simpl. congruence.
  - intros Hi. split; [done|]. split_and!; simpl; [done|done|apply partial_0].
Qed.

Lemma mark_ready_safe p s :
  inv s → building p 11 s → safe (act (on_rsp mark_ready)) (λ _ s', inv s' ∧ is_ready s') s.
Proof.
  intros Hs Hb. apply safe_rsp; [done|]. intros w h Hw Hf. cbn.
  destruct (building_frame p 11 _ _ Hf ltac:(lia) ltac:(lia) Hb) as (_ & H0 & Hbg). cbn [fw history] in *.
  pose proof (inv_response _ Hw) as [Hl Hbs Hc]. cbn [fw] in *.
  split_and!; [by split|intros _|by intros]. by eapply partial_good.
Qed.

Lemma standard_report_safe p s :
  inv s → safe (prepare_standard_report_prog p) (λ _ s', inv s' ∧ is_ready s') s.
Proof.
  intros Hs. apply safe_bind, safe_gets; [done|]. intros s1 Hs1 _.
  destruct (nextPacketReady (rsp (fw s1))) eqn:Hn; [done|].
  apply safe_bind. apply safe_rsp; [done|]. intros w h Hw Hf.
  cbn [bump_counter modify]. pose proof (inv_response _ Hw) as [Hl Hb Hc]. pose proof (fr_rsp _ _ _ Hf) as Hr. cbn [fw] in *.
  split_and!; [split; simpl; [done..|apply u8_range]|simpl; congruence|]. intros Hs2.
  apply safe_bind, safe_gets; [done|]. intros s3 Hs3 Hf3.
  apply safe_bind, safe_gets; [done|]. intros s4 Hs4 Hf4.
  assert (nextPacketReady (rsp (fw s4)) = false) as Hn4
    by (rewrite (fr_rsp _ _ _ Hf4), (fr_rsp _ _ _ Hf3); simpl; congruence).
  rewrite Hn4. apply safe_bind. eapply safe_mono; [|apply (begin_reply_safe p); [done..|by right|]];
    [|apply (inv_response _ Hs3)].
  intros _ s5 [Hs5 Hb5]. apply safe_bind. eapply safe_mono; [|by apply copy_report_safe].
  intros _ s6 [Hs6 Hb6]. by apply (mark_ready_safe p).
Qed.

(** The end of a 0x21 reply leaves the report alone. *)
Lemma memcpy_keeps off src n dst d :
  memcpy off src n dst = Some d → bytes src → bytes dst →
  length d = length dst ∧ bytes d ∧ ∀ i, (i < off)%nat → d !! i = dst !! i.
Proof.
  unfold memcpy, memcpy_at. intros Hm Hs Hd. repeat case_decide; simplify_eq.
  split_and!.
  - rewrite !length_app, length_take, length_drop. lia.
  - apply Forall_app_2; [by apply Forall_take|apply Forall_app_2; [by apply Forall_take|by apply Forall_drop]].
  - intros i Hi. rewrite lookup_app_l by (rewrite length_take; lia). by apply lookup_take_lt.
Qed.

Lemma put_data_spec off data len r :
  bytes data → response_wf r →
  match put_data off data len r with
  | Ok _ r' => response_wf r' ∧ nextPacketReady r' = nextPacketReady r ∧
               ∀ i, (i < off)%nat → replyBuffer r' !! i = replyBuffer r !! i
  | Fault _ _ => ¬ (Z.to_nat len ≤ length data ∧ off + Z.to_nat len ≤ 64)%nat
  end.
Proof.
  intros Hd [Hl Hb Hc]. unfold put_data, mbind, M_bind, get_st.
  destruct (memcpy off data (Z.to_nat len) (replyBuffer r)) as [buf|] eqn:Hm; cbn.
  - destruct (memcpy_keeps _ _ _ _ _ Hm Hd Hb) as (Hl' & Hb' & Hk).
    split_and!; [split; simpl; [congruence|done|done]|done|done].
  - intros [H1 H2]. rewrite memcpy_Some in Hm; [done|done|]. rewrite Hl. exact H2.
Qed.

(** The data fits the reply, or the console sends requests that do not fit. *)
Definition data_fits (data : list Z) (len : Z) : Prop :=
  fitting → (Z.to_nat len ≤ length data ∧ 15 + Z.to_nat len ≤ 64)%nat.

Lemma uart_end_safe p c sub data len s :
  inv s → building p 11 s → is_u8 c → is_u8 sub → bytes data → data_fits data len →
  safe (act (on_rsp (put_data (sizeof_StandardReport + 2) [c] 1;;
    put_data (sizeof_StandardReport + 3) [sub] 1;;
    put_data (sizeof_StandardReport + 4) data len;; mark_ready))) (λ _ s', inv s') s.
Proof.
  intros Hs Hb Hc Hsub Hd Hfit. apply safe_rsp; [done|]. intros w h Hw Hf.
  destruct (building_frame p 11 _ _ Hf ltac:(lia) ltac:(lia) Hb) as (_ & H0 & Hbg).
  pose proof (inv_response _ Hw) as Hr.
  cbn [fw history] in *. unfold mbind, M_bind. change sizeof_StandardReport with 11%nat.
  pose proof (put_data_spec (11 + 2) [c] 1 _ ltac:(by apply Forall_singleton) Hr) as H1.
  destruct (put_data (11 + 2) _ _ _) as [[] r1|]; [|exfalso; apply H1; simpl; lia].
  destruct H1 as (Hr1 & _ & Hk1).
  pose proof (put_data_spec (11 + 3) [sub] 1 _ ltac:(by apply Forall_singleton) Hr1) as H2.
  destruct (put_data (11 + 3) _ _ _) as [[] r2|]; [|exfalso; apply H2; simpl; lia].
  destruct H2 as (Hr2 & _ & Hk2). pose proof (put_data_spec (11 + 4) data len _ Hd Hr2) as H3.
  destruct (put_data (11 + 4) _ _ _) as [[] r3|]; [|intros Hft; by apply H3, Hfit].
  destruct H3 as (Hr3 & _ & Hk3). cbn [mark_ready modify].
  assert (∀ i, (i < 13)%nat → replyBuffer r3 !! i = replyBuffer (rsp w) !! i) as Hk
    by (intros i Hi; by rewrite Hk3, Hk2, Hk1 by lia).
  split_and!; [by destruct Hr3|intros _|by intros]. cbn [replyBuffer set_ready].
  apply (partial_good h (joy w) p); [apply Hr3..| |].
  - by rewrite !nth_lookup, Hk, <- nth_lookup by lia.
  - rewrite <- (app_nil_r h). by eapply partial_mono; [exact Hbg|lia|done|].
Qed.

Lemma uart_reply_safe c sub data len s :
  inv s → is_u8 c → is_u8 sub → bytes data → data_fits data len →
  safe (prepare_uart_reply_prog c sub data len) (λ _ s', inv s') s.
Proof.
  intros Hs Hc Hsub Hd Hfit. apply safe_bind, safe_gets; [done|]. intros s1 Hs1 _.
  destruct (nextPacketReady (rsp (fw s1))) eqn:Hn; [done|].
  apply safe_bind. apply safe_rsp; [done|]. intros w h Hw Hf.
  unfold mbind, M_bind, get_st. cbn [bump_counter modify]. rewrite begin_reply_run.
  pose proof (inv_response _ Hw) as [Hl Hb Hcn]. pose proof (fr_rsp _ _ _ Hf) as Hr. cbn [fw] in *.
  pose proof (next_counter_range (counter (rsp w))) as Hnc.
  split_and!; [|simpl; congruence|].
  { apply (packet_wf [0x21; next_counter (counter (rsp w))] (set_counter _ _)); [simpl; lia| |done].
    constructor; [done|by apply Forall_singleton]. }
  intros Hs2. apply safe_bind, safe_gets; [done|]. intros s3 Hs3 Hf3.
  apply safe_bind. eapply safe_mono; [|apply copy_report_safe; [done| |done]].
  - intros _ s4 [Hs4 Hb4]. by eapply uart_end_safe.
  - eapply building_frame; [exact Hf3|lia|lia|]. split_and!; simpl; [congruence|by left|apply partial_0].
Qed.

(** ** The requests *)

(** The replies 0x81. *)
Lemma reply_81_safe (m : M response unit) cmd data s :
  (∀ r, nextPacketReady r = true → m r = Ok tt r) →
  (∀ r, nextPacketReady r = false → m r = Ok tt (set_ready (usb_packet 0x81 cmd data) r)) →
  is_u8 cmd → bytes data → (length data ≤ 62)%nat → inv s →
  safe (act (on_rsp m)) (λ _ s', inv s') s.
Proof.
  intros Hbusy Hfree Hcmd Hd Hlen Hs. apply safe_rsp; [done|]. intros w h Hw Hf.
  destruct (nextPacketReady (rsp w)) eqn:Hn.
  { rewrite Hbusy by done. split; [exact (inv_response _ Hw)|].
    split; [|by intros]. destruct Hw as [_ [Hrd _]]. exact Hrd. }
  rewrite Hfree by done.
  pose proof (inv_response _ Hw) as [_ _ Hc]. cbn [fw] in Hc.
  assert (response_wf (set_ready (usb_packet 0x81 cmd data) (rsp w))) as Hwf.
  { apply (packet_wf _ (rsp w)); [simpl; lia| |done]. constructor; [done|by constructor]. }
  split; [done|]. split; [|by intros]. intros _. destruct Hwf as [Hl Hb _].
  unfold packet_good. destruct strict; (split_and!; [done|done|by left]).
Qed.

Lemma spi_reply_data address size : is_u8 size →
  ∃ data,
  (d ← spi_read address size;
   b ← store_at 0 (Z.land address 0xFF) (memset 0 (Z.to_nat (5 + size)));
   b ← store_at 1 (Z.land (Z.shiftr address 8) 0xFF) b;
   b ← store_at 2 0x00 b;
   b ← store_at 3 0x00 b;
   b ← store_at 4 (u8 size) b;
   memcpy 5 d (Z.to_nat size) b) = Some data ∧ bytes data ∧ length data = Z.to_nat (5 + size).
Proof.
  intros Hsz. destruct (Z_of_nat_complete size) as [n ->]; [apply Hsz|]. rewrite spi_read_eq.
  replace (5 + Z.of_nat n) with (Z.of_nat (5 + n)) by lia. rewrite !Nat2Z.id.
  cbn [mbind option_bind]. change 0xFF with 255. rewrite !land_255.
  rewrite memset_pad. fill_buffer. rewrite memcpy_pad by (autorewrite with fw; simpl; lia).
  eexists. split; [reflexivity|]. pose proof u8_range. split.
  - apply pad_bytes, Forall_app_2; [|by apply Forall_take, flash_read_bytes].
    by repeat (apply Forall_cons; split); [apply u8_range..|done|done|apply u8_range|].
  - rewrite pad_length; [done|]. rewrite length_app, length_take, flash_read_length. simpl. lia.
Qed.

Hypothesis ram_bytes : ∀ a, is_u8 (ram a).

(** The replies to requests other than a flash read fit. *)
Lemma small_fits data len : len = Z.of_nat (length data) → (length data ≤ 49)%nat → data_fits data len.
Proof. intros -> Hl _. rewrite Nat2Z.id. lia. Qed.

Lemma spi_fits d n data size :
  out_report d n → (fitting → oversized_read d n = false) → nth 0 d 0 = 1 → 16 < n →
  nth 10 d 0 = 0x10 → nth 15 d 0 = size → length data = Z.to_nat (5 + size) →
  data_fits data (u8 (5 + size)).
Proof.
  intros Hout Hov H0 Hn H10 H15 Hl Hf. specialize (Hov Hf). unfold oversized_read in Hov.
  rewrite H0, H10, H15, (proj2 (Z.ltb_lt _ _)) in Hov by done. cbn [Z.eqb Pos.eqb andb] in Hov.
  pose proof (out_nth_byte _ _ 15 Hout ltac:(lia)) as Hb. rewrite H15 in Hb. unfold is_u8, u8 in *.
  rewrite Hl. assert ((5 + size) mod 256 = if size <? 251 then 5 + size else size - 251) as ->
    by (destruct (Z.ltb_spec size 251); div_lia).
  apply andb_false_iff in Hov. destruct (Z.ltb_spec size 251); lia.
Qed.

Lemma process_80_safe d n s :
  inv s → out_report d n → safe (
    r1 ← act (checked (d !! 1%nat));
    if r1 =? 0x01 then act (on_rsp prepare_8101)
    else if (r1 =? 0x02) || (r1 =? 0x03) then act (on_rsp (prepare_reply 0x81 r1 [] 0))
    else if r1 =? 0x04 then
      p ← act (gets (λ w, selectedReport (joy w)));
      prepare_standard_report_prog p
    else act (on_rsp (prepare_reply 0x81 r1 [] 0))) (λ _ s', inv s') s.
Proof.
  intros Hs Hout. rewrite (out_lookup _ _ 1 Hout) by lia.
  pose proof (out_nth_byte _ _ 1 Hout ltac:(lia)) as Hu.
  apply safe_bind, safe_checked; [done..|]. intros r1 s1 [= <-] Hs1 _. set (r1 := nth 1 d 0) in *.
  assert (∀ s, inv s → safe (act (on_rsp (prepare_reply 0x81 r1 [] 0))) (λ _ s', inv s') s) as H81.
  { intros s2. apply (reply_81_safe _ r1 []); [intros r Hr; by apply prepare_busy
      |intros r Hr; apply (prepare_reply_free r 0x81 r1 [] Hr); simpl; lia|done|done|simpl; lia]. }
  destruct (r1 =? 0x01).
  { eapply reply_81_safe; [intros r Hr; by apply prepare_busy
      |intros r Hr; by apply prepare_8101_free|done|by apply (bool_decide_unpack _)|simpl; lia|done]. }
  destruct (_ || _); [by apply H81|]. destruct (r1 =? 0x04); [|by apply H81].
  apply safe_bind, safe_gets; [done|]. intros s2 Hs2 _.
  eapply safe_mono; [|by apply standard_report_safe]. by intros ? s3 [? _].
Qed.

Lemma process_safe d n s :
  inv s → out_report d n → (fitting → oversized_read d n = false) →
  safe (process_OUT_report_prog ram d n) (λ _ s', inv s') s.
Proof.
  intros Hs Hout Hov. unfold process_OUT_report_prog.
  rewrite (out_lookup _ _ 0 Hout), (out_lookup _ _ 10 Hout), (out_lookup _ _ 11 Hout),
    (out_lookup _ _ 12 Hout), (out_lookup _ _ 15 Hout) by lia.
  apply safe_bind, safe_checked; [done..|]. intros r0 s0 [= <-] Hs0 _.
  destruct (_ =? 0x80); [by apply (process_80_safe d n)|].
  destruct (_ && _) eqn:Hcmd; [|done]. apply andb_true_iff in Hcmd as [H0 Hn].
  apply Z.eqb_eq in H0. apply Z.gtb_lt in Hn.
  apply safe_bind, safe_checked; [done..|]. intros sub s1 [= <-] Hs1 _.
  pose proof (out_nth_byte _ _ 10 Hout ltac:(lia)) as Hu. pose proof (out_nth_byte _ _ 15 Hout ltac:(lia)).
  destruct (of_code _) as [[]|] eqn:Hsub;
    try (apply uart_reply_safe; [done..|by apply small_fits; simpl; lia]).
  - apply uart_reply_safe; try done; [by apply Forall_singleton|by apply small_fits; simpl; lia].
  - apply safe_bind, safe_checked; [done..|]. intros buf s2 Hbuf Hs2 _. injection Hbuf as <-.
    apply uart_reply_safe; try done; [by apply (bool_decide_unpack _)|by apply small_fits; simpl; lia].
  - apply safe_bind, safe_checked; [done..|]. intros [[r11 r12] size] s2 [= <- <- <-] Hs2 _.
    destruct (spi_reply_data (u16 (Z.lor (Z.shiftl (nth 12 d 0) 8) (nth 11 d 0))) (nth 15 d 0))
      as (data & Hdata & Hb & Hl); [done|]. unfold prepare_spi_reply_prog. rewrite Hdata.
    apply safe_bind, safe_checked; [done..|]. intros b s3 [= <-] Hs3 _.
    apply uart_reply_safe; try done. apply of_code_Some in Hsub. by eapply (spi_fits d n).
  - apply uart_reply_safe; try done; [by apply (bool_decide_unpack _)|by apply small_fits; simpl; lia].
Qed.

(** ** The callback *)

(** A change of the variables of [Joystick.c] while the interrupt is off. *)
Lemma safe_upd f s :
  inv s → rx_isr_on (board (usb (fw s))) = false →
  (memory_wf (rsp (fw s)) (joy (fw s)) → memory_wf (rsp (fw s)) (f (joy (fw s)))) →
  (idle_inv (joy (fw s)) → idle_inv (f (joy (fw s)))) →
  (∀ l, joystick_inv (joy (fw s)) l → joystick_inv (f (joy (fw s))) l) →
  controllerReport (f (joy (fw s))) = controllerReport (joy (fw s)) →
  safe (act (upd f)) (λ _ s', inv s' ∧ rx_isr_on (board (usb (fw s'))) = false ∧
                              joy (fw s') = f (joy (fw s))) s.
Proof.
  intros Hs Hoff Hm Hi Hl Hc. apply safe_act; [done|]. intros w h Hw Hf.
  unfold upd, on_joy, zoom, modify. pose proof (fr_joy _ _ _ Hf Hoff) as Hj. pose proof (fr_rsp _ _ _ Hf) as Hr.
  pose proof (fr_isr _ _ _ Hf) as Hisr. cbn [fw] in *. rewrite <- Hj, <- Hr in *.
  assert (inv {| fw := set_joy (f (joy w)) w; history := h |}) as Hw'.
  { destruct Hw as [[Hp (l & Hl' & Hh) Hm' Hi' Hg Hx Hho] [Hrd Hse]]. cbn [fw history] in *.
    split; split; simpl; try done; [by exists l; auto|by auto|by auto|by rewrite Hc]. }
  split; [done|]. split_and!; simpl; [done|congruence|done].
Qed.

(** The state of the callback: the variables are [j] and the interrupt is off. *)
Definition calm (j : joystick) (s : system) : Prop :=
  inv s ∧ rx_isr_on (board (usb (fw s))) = false ∧ joy (fw s) = j.

Lemma leds_safe m j s :
  calm j s → Z.land m LEDS_ALL_LEDS = m → safe (act (on_usb (LEDs_SetAllLEDs m))) (λ _, calm j) s.
Proof.
  intros (Hs & Hoff & Hj) Hm. apply safe_usb; [done|]. intros w h Hw Hf.
  pose proof (fr_joy _ _ _ Hf Hoff) as Hj'. pose proof (fr_isr _ _ _ Hf) as Hisr.
  pose proof Hw as [[Hp _ _ _ _ Hx Hho] _]. cbn [fw] in *.
  do 3 eexists. split; [by apply LEDs_SetAllLEDs_spec|]. split_and!; [done..|by left|].
  intros e' Hb He Hi. split; [done|]. simpl. rewrite Hb. simpl. split; congruence.
Qed.

Lemma select_idle_safe b j s :
  calm j s → safe (act (upd (select_idle b))) (λ _, calm (select_idle b j)) s.
Proof.
  intros (Hs & Hoff & <-). apply safe_upd; try done.
  - intros []. split; try done. by apply set_button_home_wf.
  - intros l []. split; try done. by apply set_button_home_wf.
Qed.

Lemma select_controller_safe j s :
  calm j s →
  safe (act (upd (set_selectedReport PtrController))) (λ _, calm (set_selectedReport PtrController j)) s.
Proof.
  intros (Hs & Hoff & <-). apply safe_upd; try done; [intros []|intros l []]; by split.
Qed.

Lemma add_8ms_safe j s : calm j s → millis j < 1000 → safe (act (upd add_8ms)) (λ _, calm (add_8ms j)) s.
Proof.
  intros (Hs & Hoff & <-) Hm. pose proof Hs as [[_ _ [_ _ _ Ht] _ _ _ _] _].
  assert (u16 (millis (joy (fw s)) + 8) = millis (joy (fw s)) + 8) as Hu
    by (apply u16_id; unfold is_u16; lia).
  apply safe_upd; try done; [intros []|intros l []]; split; try done;
    unfold add_8ms; simpl; rewrite Hu; unfold is_u16; lia.
Qed.

Lemma choose_report_safe j s :
  calm j s → safe choose_report_prog (λ _ s', inv s' ∧ rx_isr_on (board (usb (fw s'))) = false) s.
Proof.
  intros Hs. pose proof Hs as (Hi & Hoff & Hj). apply safe_bind, safe_gets; [done|].
  intros s1 Hs1 Hf. assert (calm j s1) as Hc.
  { split; [done|]. rewrite (fr_isr _ _ _ Hf), (fr_joy _ _ _ Hf Hoff). done. }
  assert (joy (fw s1) = j) as -> by apply Hc. clear s Hs Hi Hoff Hj Hf Hs1.
  assert (∀ j' s', calm j' s' → inv s' ∧ rx_isr_on (board (usb (fw s'))) = false) as Hend
    by (intros j' s' (? & ? & _); done).
  assert (∀ m b s', calm j s' → Z.land m LEDS_ALL_LEDS = m →
    safe (act (on_usb (LEDs_SetAllLEDs m));; act (upd (select_idle b))) (λ _, calm (select_idle b j)) s')
    as Hidle.
  { intros m b s' Hs' Hm. apply safe_bind. eapply safe_mono; [|by apply (leds_safe _ j)].
    intros ? s2 Hs2. by apply select_idle_safe. }
  destruct (decide (state j = SYNCED)).
  2: { eapply safe_mono; [|by apply Hidle]. intros ? s2. apply Hend. }
  destruct (millis j >=? MILLIS_UNTIL_PAUSE) eqn:Hpause.
  - apply safe_bind. eapply (safe_mono _ _ _ (λ _ s', ∃ b, calm (select_idle b j) s')).
    2: { destruct (_ && _); (eapply safe_mono; [|by apply Hidle]); intros ? ? Hc'; eexists; exact Hc'. }
    intros ? s2 [b Hs2]. case_match eqn:Hlt; [|by eapply Hend].
    eapply safe_mono; [|apply add_8ms_safe; [done|]]; [intros ? s3; apply Hend|].
    apply Z.ltb_lt in Hlt. exact Hlt.
  - apply safe_bind. eapply safe_mono; [|by apply (leds_safe _ j)]. intros ? s2 Hs2.
    apply safe_bind. eapply safe_mono; [|by apply (select_controller_safe j)]. intros ? s3 Hs3.
    eapply safe_mono; [|apply (add_8ms_safe (set_selectedReport PtrController j)); [exact Hs3|]]; [intros ? s4; apply Hend|].
    rewrite Z.geb_leb in Hpause. apply Z.leb_gt in Hpause. unfold MILLIS_UNTIL_PAUSE in Hpause.
    cbn [millis set_selectedReport]. lia.
Qed.

(** ** Code that does not touch the endpoints *)

Fixpoint off_endpoints {A} (p : P A) : Prop :=
  match p with
  | Done _ => True
  | Act m k => (∀ w x w', plat_ok (usb w) → m w = Ok x w' → ep (usb w') = ep (usb w)) ∧
               ∀ x, off_endpoints (k x)
  end.

Lemma off_bind {A B} (p : P A) (f : A → P B) :
  off_endpoints p → (∀ a, off_endpoints (f a)) → off_endpoints (p ≫= f).
Proof. intros Hp Hf. induction p as [a|X m k IH]; [apply Hf|]. destruct Hp. split; eauto. Qed.
Lemma off_gets {A} (get : firmware E → A) : off_endpoints (act (gets get)).
Proof. split; [|done]. by intros w x w' _ [= _ <-]. Qed.
Lemma off_rsp {A} (m : M response A) : off_endpoints (act (on_rsp m)).
Proof. split; [|done]. intros w x w' _. unfold on_rsp, zoom. destruct (m _); [|done]. by intros [= _ <-]. Qed.
Lemma off_upd f : off_endpoints (act (upd f)).
Proof. split; [|done]. intros w x w' _ Hrun. by injection Hrun as _ <-. Qed.
Lemma off_leds m : Z.land m LEDS_ALL_LEDS = m → off_endpoints (act (on_usb (LEDs_SetAllLEDs m))).
Proof.
  intros Hm. split; [|done]. intros w x w' Hok Hrun.
  destruct (on_usb_runs _ w _ _ _ (LEDs_SetAllLEDs_spec _ m Hok Hm)) as (e' & Hr & _ & _ & He).
  rewrite Hr in Hrun. by injection Hrun as _ <-.
Qed.

Lemma off_copy n p : ∀ i, off_endpoints (copy_report n p i).
Proof.
  induction n as [|n IH]; intros i; [done|]. apply off_bind; [|by intros]. split; [|done].
  intros w x w' _. unfold copy_byte, mbind, M_bind, get_st.
  destruct (_ !! i); [|done]. cbn [checked mret M_ret]. destruct (store_at _ _ _); [|done].
  intros Hrun. by injection Hrun as _ <-.
Qed.

#[local] Hint Resolve off_gets off_rsp off_upd off_copy : core.

Lemma off_choose : off_endpoints choose_report_prog.
Proof.
  apply off_bind; [done|]. intros j. repeat case_match;
    repeat first [apply off_leds; done | done | apply off_bind; [|intros []]].
Qed.

Lemma off_standard p : off_endpoints (prepare_standard_report_prog p).
Proof.
  unfold prepare_standard_report_prog, prepare_reply_prog.
  apply off_bind; [done|]. intros r. case_match; [done|].
  apply off_bind; [done|]. intros []. apply off_bind; [done|]. intros r2.
  apply off_bind; [done|]. intros r3. case_match; [done|].
  apply off_bind; [done|]. intros []. apply off_bind; [done|]. by intros [].
Qed.

Lemma off_checked {A} (o : option A) : off_endpoints (act (checked o)).
Proof. split; [|done]. intros w x w' _. destruct o; [|done]. by intros [= _ <-]. Qed.

#[local] Hint Resolve off_checked off_standard : core.

Lemma off_uart c sub data len : off_endpoints (prepare_uart_reply_prog c sub data len).
Proof.
  unfold prepare_uart_reply_prog. apply off_bind; [done|]. intros r. case_match; [done|].
  apply off_bind; [done|]. intros []. apply off_bind; [done|]. intros p. apply off_bind; [done|].
  by intros [].
Qed.

#[local] Hint Resolve off_uart : core.

Lemma off_process d n : off_endpoints (process_OUT_report_prog ram d n).
Proof.
  unfold process_OUT_report_prog, prepare_spi_reply_prog.
  repeat first [done | case_match | apply off_bind; [|intros ?]].
Qed.

(** The IN bank stays free, and the selected endpoint the same, meanwhile. *)
Definition in_free (s : system) : Prop :=
  ep_selected (ep (usb (fw s))) = JOYSTICK_IN_EPADDR ∧ ep_in (ep (usb (fw s))) = Some [] ∧ whole s.

Lemma in_free_frame s s' : frame s s' → in_free s → in_free s'.
Proof.
  intros Hf (Hs & Hi & Hp). split_and!; [by rewrite (fr_selected _ _ _ Hf)|by apply (fr_in _ _ _ Hf)|].
  by apply (fr_whole _ _ _ Hf).
Qed.

Lemma in_free_ep s s' : ep (usb (fw s')) = ep (usb (fw s)) → in_free s → in_free s'.
Proof. unfold in_free, whole, RelyGuarantee.whole. by intros ->. Qed.

Lemma whole_out s : ep_out (ep (usb (fw s))) = None → whole s.
Proof. intros Hn l Hl. congruence. Qed.

Lemma whole_ep s s' : ep_out (ep (usb (fw s'))) = ep_out (ep (usb (fw s))) → whole s → whole s'.
Proof. unfold whole, RelyGuarantee.whole. by intros ->. Qed.

(** Code that does not touch the endpoints keeps what is known of them. *)
Lemma safe_off {A} (J : system → Prop) (p : P A) Q s :
  (∀ s s', frame s s' → J s → J s') → (∀ s s', ep (usb (fw s')) = ep (usb (fw s)) → J s → J s') →
  inv s → off_endpoints p → J s → safe p Q s → safe p (λ a s', Q a s' ∧ J s') s.
Proof.
  intros HJf HJe. revert s. induction p as [a|X m k IH]; intros s Hs Hoff Hin Hsafe; [done|].
  destruct Hoff as [Hm Hk]. intros s1 Hrtc. specialize (Hsafe s1 Hrtc).
  destruct (interferences_frame _ _ _ _ _ Hs Hrtc) as (Hs1 & Hf & _). apply (HJf _ _ Hf) in Hin.
  destruct (m (fw s1)) as [x w'|] eqn:Hrun; [|done]. destruct Hsafe as [Hi2 Hsafe]. split; [done|].
  apply IH; [done|by apply Hk| |done]. eapply HJe; [|exact Hin].
  exact (Hm _ _ _ (si_plat _ (proj1 Hs1)) Hrun).
Qed.

(** ** Sending *)

Lemma wait_safe cond (Q : unit → system → Prop) s :
  inv s → safe (act cond) (λ b s', b = true ∧ Q tt s') s → safe (prog_wait fuel cond) Q s.
Proof.
  intros Hs Hc. destruct fuel as [|n]; [lia|]. cbn [prog_wait].
  apply safe_bind. eapply safe_mono; [|exact Hc]. by intros b s' [-> HQ].
Qed.

Lemma hand_over_safe buf s :
  inv s → in_free s → is_ready s → buf = replyBuffer (rsp (fw s)) →
  safe (act (wait_until fuel
         (on_usb (r ← Endpoint_Write_Stream_LE buf JOYSTICK_EPSIZE;
                  mret (r =? ENDPOINT_RWSTREAM_NoError)));;
       on_usb Endpoint_ClearIN)) (λ _ s', inv s' ∧ whole s') s.
Proof.
  intros Hs Hin Hrd ->. apply safe_act; [done|]. intros w h Hw Hf.
  apply (in_free_frame _ _ Hf) in Hin as (Hsel & Hin & Hpr). pose proof (fr_rsp _ _ _ Hf) as Hr.
  unfold is_ready in Hrd. rewrite <- Hr in Hrd |- *.
  pose proof (inv_response _ Hw) as [Hl Hb _]. cbn [fw history] in *.
  destruct Hw as [Hc [Hrdy Hse]]. cbn [fw history] in *. pose proof (si_plat _ Hc) as Hok. cbn [fw] in Hok.
  unfold mbind at 1, M_bind at 1. destruct fuel as [|n]; [lia|]. cbn [wait_until].
  unfold mbind at 1, M_bind at 1.
  destruct (write_stream_spec (usb w) (replyBuffer (rsp w)) Hok Hsel Hin Hb Hl)
    as (e1 & H1 & Hok1 & Hb1 & He1).
  unfold on_usb at 1, zoom, mbind at 1, M_bind at 1. rewrite H1. cbn [mret M_ret].
  change (ENDPOINT_RWSTREAM_NoError =? _) with true. cbv iota. cbn [mret M_ret].
  destruct (on_usb_runs Endpoint_ClearIN (set_usb e1 w) _ _ _
    (clear_in_spec e1 (replyBuffer (rsp w)) Hok1 ltac:(by rewrite He1) ltac:(by rewrite He1)))
    as (e2 & -> & Hok2 & Hb2 & He2).
  change (set_usb e2 (set_usb e1 w)) with (set_usb e2 w).
  cbn [usb set_usb] in Hb2, He2. rewrite Hb1 in Hb2. rewrite He1 in He2.
  assert (inv {| fw := set_usb e2 w; history := h |}).
  2: { split; [done|]. split; [done|]. eapply whole_ep; [|exact Hpr]. cbn. by rewrite He2. }
  split.
  - pose proof Hc as [_ _ _ _ _ Hx [Hho _]]. eapply env_core; [done|by exists e2| |].
    + done.
    + by split; simpl.
  - split; [done|]. simpl. rewrite He2. simpl. apply Forall_app_2; [done|]. by apply Forall_singleton, Hrdy.
Qed.

Lemma select_safe a s :
  inv s → a = JOYSTICK_IN_EPADDR ∨ a = JOYSTICK_OUT_EPADDR →
  safe (act (on_usb (Endpoint_SelectEndpoint a))) (λ _ s', inv s' ∧
    ep_selected (ep (usb (fw s'))) = a ∧ rsp (fw s') = rsp (fw s) ∧ (whole s → whole s') ∧
    ∀ l, ep_in (ep (usb (fw s))) = Some l → ep_in (ep (usb (fw s'))) = Some l) s.
Proof.
  intros Hs Ha. apply safe_usb; [done|]. intros w h Hw Hf.
  pose proof Hw as [[Hok _ _ _ _ Hx [Hho Hhi]] _]. cbn [fw] in *.
  do 3 eexists. split; [by apply select_spec|]. split_and!; [done|by split|by left|].
  intros e' Hb He Hi. split; [done|]. cbn [fw usb rsp set_usb]. rewrite He. split; [done|].
  split; [exact (fr_rsp _ _ _ Hf)|]. split; [|exact (fr_in _ _ _ Hf)].
  intros Hp. eapply whole_ep; [|by apply (fr_whole _ _ _ Hf)]. cbn. by rewrite He.
Qed.

Lemma in_ready_safe s :
  inv s → in_free s →
  safe (act (on_usb Endpoint_IsINReady)) (λ b s', b = true ∧ inv s' ∧ in_free s' ∧ rsp (fw s') = rsp (fw s)) s.
Proof.
  intros Hs Hin. apply safe_usb; [done|]. intros w h Hw Hf.
  pose proof (in_free_frame _ _ Hf Hin) as Hfree. pose proof Hfree as (Hsel & Hin' & _).
  pose proof Hw as [[Hok _ _ _ _ Hx Hho] _]. cbn [fw] in *.
  do 3 eexists. split; [by apply is_in_ready_spec|]. split_and!; [done|done|by left|].
  intros e' Hb He Hi. rewrite Hin', bool_decide_eq_true_2 by eauto. split; [done|]. split; [done|].
  split; [by eapply in_free_ep; [|exact Hfree]|exact (fr_rsp _ _ _ Hf)].
Qed.

Lemma isr_switch_safe (b : bool) (Q : unit → system → Prop) s :
  inv s → in_free s →
  (∀ s', inv s' → in_free s' → rx_isr_on (board (usb (fw s'))) = b → rsp (fw s') = rsp (fw s) → Q tt s') →
  safe (act (on_usb (if b then enable_rx_isr else disable_rx_isr))) Q s.
Proof.
  intros Hs Hin HQ. apply safe_usb; [done|]. intros w h Hw Hf.
  pose proof (in_free_frame _ _ Hf Hin) as Hin'. pose proof Hw as [[Hok _ _ _ _ Hx Hho] _]. cbn [fw] in *.
  exists tt, (set_rx_isr b (board (usb w))), (ep (usb w)).
  split; [destruct b; [by apply enable_rx_isr_spec|by apply disable_rx_isr_spec]|].
  split_and!; [done|done|by left|]. intros e' Hb He Hi.
  apply HQ; [done|by eapply in_free_ep; [|exact Hin']|cbn; by rewrite Hb|exact (fr_rsp _ _ _ Hf)].
Qed.

Lemma send_safe s :
  inv s → in_free s → safe (send_IN_report_prog fuel) (λ _ s', inv s' ∧ whole s') s.
Proof.
  intros Hs Hin. unfold send_IN_report_prog.
  apply safe_bind, (isr_switch_safe false); [done..|]. intros s1 Hs1 Hin1 Hoff _.
  apply safe_bind. eapply safe_mono; [|apply (safe_off in_free);
    [apply in_free_frame|apply in_free_ep|done|apply off_choose|done|by apply (choose_report_safe (joy (fw s1)))]].
  intros ? s2 [[Hs2 _] Hin2]. apply safe_bind, (isr_switch_safe true); [done..|].
  intros s3 Hs3 Hin3 _ _. apply safe_bind, safe_gets; [done|]. intros s4 Hs4 Hf4.
  apply (in_free_frame _ _ Hf4) in Hin3 as Hin4. apply safe_bind.
  eapply (safe_mono _ _ _ (λ _ s', (inv s' ∧ is_ready s') ∧ in_free s')).
  2: { destruct (nextPacketReady (rsp (fw s4))) eqn:Hrd; cbn [negb]; [done|].
       apply safe_bind, safe_gets; [done|]. intros s5 Hs5 Hf5. apply (safe_off in_free);
         [apply in_free_frame|apply in_free_ep|done|apply off_standard|by eapply in_free_frame|by apply standard_report_safe]. }
  intros ? s5 [[Hs5 Hrd5] Hin5]. apply safe_bind.
  eapply safe_mono; [|apply select_safe; [done|by left]]. intros ? s6 (Hs6 & Hsel6 & Hr6 & Hp6 & Hin6).
  assert (in_free s6) as Hf6 by (split_and!; [done|apply Hin6, Hin5|apply Hp6, Hin5]).
  apply safe_bind, wait_safe; [done|]. eapply safe_mono; [|by apply in_ready_safe].
  intros b s7 (-> & Hs7 & Hin7 & Hr7). split; [done|].
  apply safe_bind, safe_gets; [done|]. intros s8 Hs8 Hf8. apply safe_bind.
  eapply safe_mono; [|apply hand_over_safe; [done|by eapply in_free_frame| |done]].
  - intros ? s9 [Hs9 Hp9]. apply safe_rsp; [done|]. intros w h Hw Hf. cbn [modify].
    pose proof (inv_response _ Hw) as []. split_and!; [done..|]. intros Hi. split; [done|].
    eapply whole_ep; [|by apply (fr_whole _ _ _ Hf)]. done.
  - unfold is_ready in *. by rewrite (fr_rsp _ _ _ Hf8), Hr7, Hr6.
Qed.

(** ** Receiving *)

(** The OUT endpoint is selected and its bank holds [l]. *)
Definition out_holds (l : list Z) (s : system) : Prop :=
  ep_selected (ep (usb (fw s))) = JOYSTICK_OUT_EPADDR ∧ ep_out (ep (usb (fw s))) = Some l.

Lemma out_holds_frame l s s' : frame s s' → out_holds l s → out_holds l s'.
Proof.
  intros Hf [Hs Ho]. split; [by rewrite (fr_selected _ _ _ Hf)|by apply (fr_out _ _ _ Hf)].
Qed.

(** An operation on the OUT endpoint. *)
Lemma safe_out {A} (m : M E A) (Q : A → system → Prop) l s :
  inv s → out_holds l s →
  (∀ e, plat_ok e → ep_selected (ep e) = JOYSTICK_OUT_EPADDR → ep_out (ep e) = Some l → bytes l →
     ∃ a o, runs m e a (board e) (set_out o (ep e)) ∧
       (∀ pkt, o = Some pkt → bytes pkt ∧ (length pkt ≤ length l)%nat) ∧
       ∀ s', inv s' → ep_selected (ep (usb (fw s'))) = JOYSTICK_OUT_EPADDR →
             ep_out (ep (usb (fw s'))) = o → Q a s') →
  safe (act (on_usb m)) Q s.
Proof.
  intros Hs Ho Hm. apply safe_usb; [done|]. intros w h Hw Hf.
  destruct (out_holds_frame _ _ _ Hf Ho) as [Hsel Hout].
  pose proof Hw as [[Hok _ _ _ _ Hx [Hho Hhi]] _]. cbn [fw] in *. destruct (Hho l Hout) as [Hb Hl].
  destruct (Hm (usb w) Hok Hsel Hout Hb) as (a & o & Hrun & Ho' & HQ).
  exists a, (board (usb w)), (set_out o (ep (usb w))). split; [done|].
  split_and!; [done| |by left|].
  - split; simpl; [|done]. intros pkt Hp. destruct (Ho' pkt Hp). split; [done|lia].
  - intros e' Hb' He Hi. apply HQ; [done|cbn; by rewrite He..].
Qed.

Lemma set_out_same v l : ep_out v = l → set_out l v = v.
Proof. intros <-. by destruct v. Qed.

Lemma read_OUT_safe l : ∀ n pre s,
  inv s → out_holds l s → (length l < n)%nat → (length pre ≤ 64)%nat →
  safe (read_OUT_prog n (packet pre) (Z.of_nat (length pre)))
    (λ r s', r = (packet (take 64 (pre ++ l)), Z.of_nat (length (take 64 (pre ++ l)))) ∧ inv s' ∧
             out_holds [] s') s.
Proof.
  induction l as [|b l IH]; intros [|n] pre s Hs Ho Hn Hpre; try (simpl in Hn; lia);
    cbn [read_OUT_prog].
  - apply safe_bind, (safe_out _ _ []); [done..|]. intros e Hok Hsel Hout Hl.
    exists (bool_decide ([] ≠@{list Z} [])), (Some []). split; [|split].
    { rewrite set_out_same by done. by apply rw_allowed_spec. }
    { by intros pkt [= <-]. }
    intros s1 Hs1 Hsel1 Hout1. rewrite bool_decide_eq_false_2 by auto. cbn.
    by rewrite app_nil_r, take_ge.
  - apply safe_bind, (safe_out _ _ (b :: l)); [done..|]. intros e Hok Hsel Hout Hl.
    exists (bool_decide (b :: l ≠ [])), (Some (b :: l)). split; [|split].
    { rewrite set_out_same by done. by apply rw_allowed_spec. }
    { by intros pkt [= <-]. }
    intros s1 Hs1 Hsel1 Hout1. rewrite bool_decide_eq_true_2 by done.
    apply safe_bind, (safe_out _ _ (b :: l)); [done|by split|]. intros e2 Hok2 Hsel2 Hout2 _.
    apply Forall_cons in Hl as [Hb Hl]. exists b, (Some l). split; [by apply read_8_spec|].
    split; [intros pkt [= <-]; simpl; split; [done|lia]|]. intros s3 Hs3 Hsel3 Hout3.
    change JOYSTICK_EPSIZE with 64. simpl in Hn. destruct (Z.ltb_spec (Z.of_nat (length pre)) 64).
    + change (packet pre) with (pad 64 pre). rewrite Nat2Z.id, store_at_pad by lia.
      apply safe_bind, safe_checked; [done..|]. intros buf s4 [= <-] Hs4 Hf4.
      replace (u16 (Z.of_nat (length pre) + 1)) with (Z.of_nat (length (pre ++ [b])))
        by (rewrite length_app, u16_id; simpl; unfold is_u16; lia).
      eapply safe_mono; [|apply (IH n (pre ++ [b]) s4);
        [done|by eapply out_holds_frame|lia|rewrite length_app; simpl; lia]].
      intros a s5. by rewrite <- app_assoc.
    + eapply safe_mono; [|apply (IH n pre s3); [done|done|lia|done]].
      intros a s5. by rewrite !take_app_le by lia.
Qed.

Lemma clear_out_safe l s :
  inv s → out_holds l s → safe (act (on_usb Endpoint_ClearOUT)) (λ _ s', inv s' ∧ whole s') s.
Proof.
  intros Hs Ho. apply (safe_out _ _ l); [done..|]. intros e Hok Hsel Hout Hl.
  exists tt, None. split; [by eapply clear_out_spec|]. split; [done|].
  intros s' Hs' _ Hn. split; [done|by apply whole_out].
Qed.

(** ** The task *)

(** An OUT packet that is a request. *)
Lemma request_safe l s :
  inv s → out_holds l s → req l →
  safe ('(ReportData, ReportSize) ← read_OUT_prog fuel (memset 0 (Z.to_nat JOYSTICK_EPSIZE)) 0;
        act (on_usb Endpoint_ClearOUT);;
        process_OUT_report_prog ram ReportData (u8 ReportSize)) (λ _ s', inv s' ∧ whole s') s.
Proof.
  intros Hs Ho Hl. pose proof Hs as [[_ _ _ _ _ _ [Hho _]] _].
  destruct (Hho l (proj2 Ho)) as [Hb Hlen]. apply safe_bind.
  change (memset 0 (Z.to_nat JOYSTICK_EPSIZE)) with (packet []).
  eapply safe_mono; [|apply (read_OUT_safe l fuel []); [done..|lia|simpl; lia]].
  intros [d n] s4 ([= -> ->] & Hs4 & Ho4). cbn [app]. apply safe_bind.
  eapply safe_mono; [|by apply (clear_out_safe [])]. intros ? s5 [Hs5 Hp5].
  pose proof (out_buffer_report l Hb) as Hrep.
  rewrite u8_id by (destruct Hrep; unfold is_u8, out_count in *; lia).
  apply (safe_off whole); [intros s6 s7 Hf; apply (fr_whole _ _ _ Hf)| |done| |done|].
  - intros s6 s7 He. apply whole_ep. by rewrite He.
  - apply off_process.
  - apply (process_safe (out_buffer l) (out_count l)); [done|done|]. intros Hfit. by apply Hfit.
Qed.

Lemma task_safe s :
  inv s → whole s → safe (HID_Task_prog ram fuel) (λ _ s', inv s' ∧ whole s') s.
Proof.
  intros Hs Hp. unfold HID_Task_prog. apply safe_bind, safe_usb; [done|]. intros w h Hw Hf.
  pose proof Hw as [[Hok _ _ _ _ Hx Hho] _]. pose proof (fr_whole _ _ _ Hf Hp) as Hp1. cbn [fw] in *.
  do 3 eexists. split; [by apply configured_spec|]. split_and!; [done|done|by left|].
  intros e' Hb He Hs1.
  assert (whole {| fw := set_usb e' w; history := h |}) as Hp1'
    by (eapply whole_ep; [|exact Hp1]; cbn; by rewrite He).
  destruct (ep_configured _); [|done]. cbn [negb].
  apply safe_bind. eapply safe_mono; [|apply select_safe; [done|by right]].
  intros ? s2 (Hs2 & Hsel2 & _ & Hp2 & _). specialize (Hp2 Hp1'). apply safe_bind.
  eapply (safe_mono _ _ _ (λ b s', inv s' ∧ whole s' ∧ (b = true → ∃ l, out_holds l s'))).
  2: { apply safe_usb; [done|]. intros w3 h3 Hw3 Hf3. pose proof (fr_selected _ _ _ Hf3) as Hsel3.
       pose proof (fr_whole _ _ _ Hf3 Hp2) as Hp3.
       pose proof Hw3 as [[Hok3 _ _ _ _ Hx3 Hho3] _]. cbn [fw] in *. rewrite Hsel2 in Hsel3.
       do 3 eexists. split; [by apply is_out_received_spec|]. split_and!; [done|done|by left|].
       intros e3 Hb3 He3 Hs3. split; [done|]. split.
       { eapply whole_ep; [|exact Hp3]. cbn. by rewrite He3. }
       intros [l Hl]%bool_decide_eq_true. exists l. split; cbn [fw usb set_usb]; by rewrite He3. }
  intros received s3 (Hs3 & Hp3 & Hout). apply safe_bind.
  eapply (safe_mono _ _ _ (λ _ s', inv s' ∧ whole s')).
  2: { destruct received; [|done]. destruct (Hout eq_refl) as [l Ho].
       apply (request_safe l); [done..|]. apply Hp3, Ho. }
  intros ? s6 [Hs6 Hp6]. apply safe_bind. eapply safe_mono; [|apply select_safe; [done|by left]].
  intros ? s7 (Hs7 & Hsel7 & _ & Hp7 & _). specialize (Hp7 Hp6). apply safe_bind.
  eapply (safe_mono _ _ _ (λ b s', inv s' ∧ whole s' ∧ (b = true → in_free s'))).
  2: { apply safe_usb; [done|]. intros w8 h8 Hw8 Hf8. pose proof (fr_selected _ _ _ Hf8) as Hsel8.
       pose proof (fr_whole _ _ _ Hf8 Hp7) as Hp8.
       pose proof Hw8 as [[Hok8 _ _ _ _ Hx8 Hho8] _]. cbn [fw] in *. rewrite Hsel7 in Hsel8.
       do 3 eexists. split; [by apply is_in_ready_spec|]. split_and!; [done|done|by left|].
       intros e8 Hb8 He8 Hs8.
       assert (whole {| fw := set_usb e8 w8; history := h8 |}) as Hp9
         by (eapply whole_ep; [|exact Hp8]; cbn; by rewrite He8).
       split; [done|]. split; [done|]. intros [l Hl]%bool_decide_eq_true.
       pose proof (host_in _ Hho8 l Hl) as ->. split_and!; cbn [fw usb set_usb]; by rewrite ?He8. }
  intros ready s8 (Hs8 & Hp8 & Hin). destruct ready; [|done]. by apply send_safe; auto.
Qed.

Lemma packet_ok_bytes h p : packet_ok h p → packet_bytes_ok h p.
Proof.
  intros (Hl & Hb & [H81|(H0 & r & Hg & Hr)]); split_and!; try done; [by left|right].
  split; [done|]. intros i Hi.
  destruct (lookup_lt_is_Some_2 p (2 + i) ltac:(lia)) as [b Hb']. exists b. split; [done|].
  exists r. split; [done|]. rewrite <- Hr, lookup_take_lt, lookup_drop by done. done.
Qed.

Lemma initial_safe s : initial s → inv s.
Proof.
  intros [Hc [Hrd Hs]]%initial_inv. split; [done|]. unfold packet_good. destruct strict; [by split|].
  split; [by intros; apply packet_ok_bytes, Hrd|]. eapply Forall_impl; [exact Hs|].
  intros; by apply packet_ok_bytes.
Qed.

Definition config_inv (c : config) : Prop :=
  inv (sys c) ∧ safe (code c) (λ _ s', inv s' ∧ whole s') (sys c).

Lemma pstep_preserves c c' :
  config_inv c → pstep ram fuel req c c' → (strict = true → untorn c c') → config_inv c'.
Proof.
  intros [Hi Hs] Hstep Hu. destruct Hstep as [X m k w h x w' Hm|c s s' Hint|s|w w' h b Henv];
    cbn [code sys] in *.
  - specialize (Hs _ (rtc_refl _ _)). cbn [fw history] in Hs. by rewrite Hm in Hs.
  - destruct (interference_frame _ _ _ _ Hi Hint) as [Hi' Hf]. split; [done|]. cbn [code sys].
    destruct c as [a|X m k]; [|intros s1 Hs1; apply Hs; eapply rtc_l; [by split|done]].
    split; [done|]. apply (fr_whole _ _ _ Hf), Hs.
  - split; [done|]. apply task_safe; [done|apply Hs].
  - destruct Hi as [Hc [Hrd Hse]]. pose proof Hc as [_ _ _ _ _ Hx [Hho _]].
    assert (inv {| fw := w'; history := h |}) as Hi'.
    { split.
      + eapply env_core; [done|exact Henv|done|]. split; simpl; [done|by intros ? [= <-]].
      + destruct Henv as (e' & -> & _ & _ & He). split; simpl in *; [done|]. by rewrite He. }
    split; [done|]. split; [done|]. apply whole_out.
    destruct Henv as (e' & -> & _ & _ & He). simpl. by rewrite He.
Qed.

Lemma reachable_config s0 c :
  initial s0 → ep_out (ep (usb (fw s0))) = None →
  rtc (λ c c', pstep ram fuel req c c' ∧ (strict = true → untorn c c')) {| code := Done tt; sys := s0 |} c →
  config_inv c.
Proof.
  intros Hinit Hout Hsteps. assert (config_inv {| code := Done tt; sys := s0 |}) as H0.
  { pose proof (initial_safe _ Hinit). split; [done|]. split; [done|by apply whole_out]. }
  induction Hsteps as [|c0 c1 c2 [Hstep Hu] _ IH]; [done|]. apply IH. by eapply pstep_preserves.
Qed.
End preemption.

Section reachable.
Context {E : Type} `{!BoardOps E, !EndpointOps E, !PlatformView E, !Platform E, !AvrCrc}.
Context (ram : Z → Z) (fuel : nat) (req : list Z → Prop).
Context (Hram : ∀ a, is_u8 (ram a)) (Hfuel : (65 ≤ fuel)%nat).

Lemma preachable_inv (c : config (E := E)) : preachable ram fuel req c → config_inv req false c.
Proof.
  intros (s0 & Hinit & Hout & Hsteps). eapply (reachable_config ram fuel req false); [done..|].
  eapply rtc_subrel; [|exact Hsteps]. by intros c1 c2.
Qed.

Lemma untorn_inv (c : config (E := E)) : untorn_reachable ram fuel req c → config_inv req true c.
Proof.
  intros (s0 & Hinit & Hout & Hsteps). eapply (reachable_config ram fuel req true); [done..|].
  eapply rtc_subrel; [|exact Hsteps]. by intros c1 c2 [].
Qed.
End reachable.

(** C1: Every report that the console gets shows one controller state, if no
    packet of the serial line is completed in the middle of a copy.  With the
    receive interrupt between any two actions of the main task, in every run in
    which the controller state is not replaced while bytes 1 to 10 of a report
    are still to be copied, every packet that is sent has 64 bytes and is a
    reply 0x81 or carries, as a whole, the report of the idle state, the idle
    state with HOME, or a state faithful to a packet that was received with
    its checksum.  (Bytes that do not complete a packet may come at any time.) *)
Theorem untorn_packets_genuine {E : Type}
    `{!BoardOps E, !EndpointOps E, !PlatformView E, !Platform E, !AvrCrc}
    ram fuel req (c : config (E := E)) :
  (∀ a, is_u8 (ram a)) → (65 ≤ fuel)%nat → untorn_reachable ram fuel req c →
  Forall (packet_ok (history (sys c))) (ep_sent (ep (usb (fw (sys c))))).
Proof. intros Hram Hf Hc. by destruct (untorn_inv ram fuel req Hram Hf c Hc) as [[_ []] _]. Qed.

(** C2: With the receive interrupt between any two actions of the main task,
    every byte of every report that the console gets is genuine: a packet has
    64 bytes, and it is a reply 0x81, or each of the eleven bytes of its report
    is the byte at that place of the idle report, the idle report with HOME, or
    a report faithful to a packet that was received with its checksum. *)
Theorem sent_bytes_genuine {E : Type}
    `{!BoardOps E, !EndpointOps E, !PlatformView E, !Platform E, !AvrCrc}
    ram fuel req (c : config (E := E)) :
  (∀ a, is_u8 (ram a)) → (65 ≤ fuel)%nat → preachable ram fuel req c →
  Forall (packet_bytes_ok (history (sys c))) (ep_sent (ep (usb (fw (sys c))))).
Proof. intros Hram Hf Hc. by destruct (preachable_inv ram fuel req Hram Hf c Hc) as [[_ []] _]. Qed.

(** C9: The interrupted firmware never gets stuck: if the console never asks for
    more of the flash than a reply can hold, then wherever the receive
    interrupt, the serial line and the console interleave with the actions of
    the main task, the next action of the task returns: no access is out of
    bounds and no wait of the task is in vain. *)
Theorem interrupted_task_progress {E : Type}
    `{!BoardOps E, !EndpointOps E, !PlatformView E, !Platform E, !AvrCrc}
    ram fuel (req : list Z → Prop) (c : config (E := E)) :
  (∀ a, is_u8 (ram a)) → (65 ≤ fuel)%nat →
  (∀ pkt, req pkt → oversized_read (out_buffer pkt) (out_count pkt) = false) →
  preachable ram fuel req c →
  match code c with
  | Done _ => True
  | Act m k => ∃ x w', m (fw (sys c)) = Ok x w'
  end.
Proof.
  intros Hram Hf Hreq Hc. destruct (preachable_inv ram fuel req Hram Hf c Hc) as [_ Hs].
  destruct c as [[a|X m k] s]; [done|]. specialize (Hs s (rtc_refl _ _)). cbn [code sys] in *.
  destruct (m (fw s)) as [x w'|]; [by eexists _, _|]. by destruct Hs.
Qed.
