(* ===== verification/TornReport.v ===== *)
(** * A torn report

    A run of the interrupted program in which the console gets a report that
    mixes two packets: the copy of [*selectedReport] in [src/Firmware/Response.c]
    is made with the receive interrupt enabled. *)

From stdpp Require Import relations.
From S2P Require Import Prelude Datatypes EmulatedSPI Descriptors State Interfaces Response.
From S2P Require Import Joystick Reports SerialLink Failsafe HidTask System Actions Tasks RelyGuarantee.
From S2P Require Import Preemption.

#[local] Opaque report_bytes.

(** ** A schedule on the reference board *)

Import Demo.

(** A console that does not ask for too much of the flash. *)
Definition demo_req (pkt : list Z) : Prop :=
  oversized_read (out_buffer pkt) (out_count pkt) = false.

(** What comes next: an action of the task, the interrupt, the next turn of the
    loop, or the console takes the packet. *)
Inductive choice := Run | Irq | Loop | Collect.

Definition play_one (c : choice) (s : config (E := ref_board)) : option (config (E := ref_board)) :=
  let w := fw (sys s) in
  let v := ep (usb w) in
  match c, code s with
  | Run, Act m k =>
      match m w with
      | Ok x w' => Some {| code := k x; sys := {| fw := w'; history := history (sys s) |} |}
      | Fault _ _ => None
      end
  | Irq, p =>
      match rx_isr_on (board (usb w)), rx_pending (board (usb w)), USART1_RX_vect w with
      | true, b :: _, Ok _ w' =>
          Some {| code := p; sys := {| fw := w'; history := history (sys s) ++ [b] |} |}
      | _, _, _ => None
      end
  | Loop, Done _ => Some {| code := HID_Task_prog (λ _, 0) 65; sys := sys s |}
  | Collect, p =>
      match ep_configured v, ep_in v with
      | true, None =>
          let e := {| rb_board := rb_board (usb w); rb_ep := set_in (Some []) v |} in
          Some {| code := p; sys := {| fw := set_usb e w; history := history (sys s) |} |}
      | _, _ => None
      end
  | _, _ => None
  end.

Definition play (cs : list choice) (s : config (E := ref_board)) : option (config (E := ref_board)) :=
  foldl (λ o c, o ≫= play_one c) (Some s) cs.

Lemma play_one_sound c s s' : play_one c s = Some s' → pstep (λ _, 0) 65 demo_req s s'.
Proof.
  destruct s as [p [w h]]. unfold play_one. cbn [sys fw code history].
  destruct c; [destruct p as [|X m k]; [done|]| |destruct p as [[]|]; [|done]|].
  - destruct (m w) as [x w'|] eqn:Hm; [|done]. intros [= <-]. by apply pstep_act.
  - destruct (rx_isr_on _) eqn:Hon; [|done]. destruct (rx_pending _) as [|b q] eqn:Hrx; [done|].
    destruct (USART1_RX_vect w) as [[] w'|] eqn:Hv; [|done]. intros [= <-].
    by eapply pstep_interference, meet_interrupt.
  - intros [= <-]. apply pstep_loop.
  - destruct (ep_configured _) eqn:Hc; [|done]. destruct (ep_in _) eqn:Hi; [done|]. intros [= <-].
    eapply pstep_interference, meet_collect; [done..|]. by eexists.
Qed.

Lemma play_sound cs s s' : play cs s = Some s' → rtc (pstep (λ _, 0) 65 demo_req) s s'.
Proof.
  unfold play. revert s. induction cs as [|c cs IH]; intros s; cbn [foldl].
  { intros [= <-]. apply rtc_refl. }
  cbn [mbind option_bind]. destruct (play_one c s) as [s1|] eqn:Hc.
  - intros Hs. eapply rtc_l; [by apply (play_one_sound c)|by apply IH].
  - clear. induction cs; [done|]. done.
Qed.

(** The A button with the sticks at rest, then HOME with the left stick to
    the right. *)
Definition demo_first : list Z := [0; 4; 8; 0x80; 0x80; 0x80; 0x80; 0].
Definition demo_second : list Z := [0x10; 0; 8; 0xC0; 0x80; 0x80; 0x80; 0].

Definition demo_line : list Z :=
  [0xFF; 0x33; 0xCC] ++ (demo_first ++ [crc8_of demo_first]) ++
  (demo_second ++ [crc8_of demo_second]).

(** The reply of start-up goes out, the handshake and the first packet come
    in, and the second packet comes in while the first is copied. *)
Definition demo_schedule : list choice :=
  [Loop] ++ replicate 16 Run ++ replicate 12 Irq ++ [Collect; Loop] ++ replicate 22 Run ++
  replicate 9 Irq ++ replicate 13 Run.

Definition demo_config : option (config (E := ref_board)) :=
  play demo_schedule {| code := Done tt; sys := demo_start demo_line |}.

(** The packets in a history, found by their checksums. *)
Definition packets_in (h : list Z) : list (list Z) :=
  omap (λ i, let p := take 8 (drop i h) in
             if bool_decide (h !! (i + 8)%nat = Some (crc8_of p)) then Some p else None)
       (seq 0 (length h)).

Lemma received_packet_in h p : received_packet h p → p ∈ packets_in h.
Proof.
  intros (Hl & h1 & h2 & ->). apply list_elem_of_omap. exists (length h1).
  assert (take 8 (drop (length h1) (h1 ++ p ++ [crc8_of p] ++ h2)) = p) as Ht
    by (rewrite drop_app_length, <- Hl; apply take_app_length).
  split.
  - apply elem_of_seq. rewrite !length_app. simpl. lia.
  - cbv zeta. rewrite Ht, bool_decide_eq_true_2; [done|].
    rewrite lookup_app_r, lookup_app_r by lia. by replace (_ - _ - _)%nat with 0%nat by lia.
Qed.

(** The controller state of a packet with the A button and the left stick moved. *)
Lemma torn_not_genuine h r :
  packets_in h = [demo_first; demo_second] → genuine h r →
  report_bytes r ≠ [145; 8; 128; 0; 8; 140; 128; 8; 136; 128; 0].
Proof.
  intros Hh Hg Hr.
  assert (report_wf r) as Hwf.
  { destruct Hg as [->|[->|(p & _ & Hf)]]; [eauto with fw..|by destruct Hf]. }
  apply report_roundtrip in Hwf. rewrite Hr in Hwf. vm_compute in Hwf. injection Hwf as <-.
  destruct Hg as [Hg|[Hg|(p & Hp%received_packet_in & Hf)]].
  1-2: apply (f_equal button_a) in Hg; vm_compute in Hg; discriminate.
  rewrite Hh in Hp. destruct Hf as [_ Hbtn _ Hleft _].
  apply elem_of_cons in Hp as [->|Hp%list_elem_of_singleton].
  - vm_compute in Hleft. discriminate.
  - subst p. specialize (Hbtn SWITCH_A). vm_compute in Hbtn. discriminate.
Qed.

(** The buttons and the left stick of a serial packet. *)
Definition packet_button (p : list Z) (b : JoystickButtons_t) : bool :=
  Z.testbit (nth 1 p 0 + 256 * nth 0 p 0) (Z.log2 (JoystickButtons_code b)).
Definition packet_left (p : list Z) : Z * Z := (16 * nth 3 p 0 + 8, 16 * nth 4 p 0 + 8).

(** The torn report: the A button, and the left stick to the right. *)
Lemma torn_bytes :
  ∃ r, report_bytes r = [145; 8; 128; 0; 8; 140; 128; 8; 136; 128; 0] ∧
       (∀ b, report_button r b = packet_button demo_first b) ∧
       stick_of (take 3 (analog r)) = Some (packet_left demo_second).
Proof.
  exists (default initialize_idle_report (report_of_bytes [145; 8; 128; 0; 8; 140; 128; 8; 136; 128; 0])).
  split; [vm_compute; reflexivity|]. split; [intros []; vm_compute; reflexivity|vm_compute; reflexivity].
Qed.

Lemma demo_line_bytes : bytes demo_line.
Proof. apply (bool_decide_unpack _). vm_compute. exact I. Qed.

Lemma play_preachable cs c :
  play cs {| code := Done tt; sys := demo_start demo_line |} = Some c →
  preachable (λ _, 0) 65 demo_req c.
Proof.
  intros Hc. exists (demo_start demo_line). split_and!.
  - exact (demo_start_initial _ demo_line_bytes).
  - reflexivity.
  - exact (play_sound _ _ _ Hc).
Qed.

Lemma demo_preachable c : demo_config = Some c → preachable (λ _, 0) 65 demo_req c.
Proof. exact (play_preachable demo_schedule c). Qed.

(** What the run leaves: the packets that came in, and the code and the report
    of those that went out. *)
Definition observe (c : config (E := ref_board)) : list (list Z) * list (Z * list Z) :=
  (packets_in (history (sys c)),
   (λ p, (nth 0 p 0, take 11 (drop 2 p))) <$> ep_sent (ep (usb (fw (sys c))))).

Lemma demo_observed :
  observe <$> demo_config =
  Some ([demo_first; demo_second],
        [(0x81, [0; 3] ++ mac_address ++ [0; 0; 0]);
         (0x30, [145; 8; 128; 0; 8; 140; 128; 8; 136; 128; 0])]).
Proof. vm_compute. reflexivity. Qed.

Lemma demo_run :
  ∃ c, demo_config = Some c ∧ packets_in (history (sys c)) = [demo_first; demo_second] ∧
       ∃ p1 p, ep_sent (ep (usb (fw (sys c)))) = [p1; p] ∧ nth 0 p 0 = 0x30 ∧
         take 11 (drop 2 p) = [145; 8; 128; 0; 8; 140; 128; 8; 136; 128; 0].
Proof.
  pose proof demo_observed as Hrun. revert Hrun. generalize demo_config as o.
  generalize ([0; 3] ++ mac_address ++ [0; 0; 0]) as l. intros l o Hrun.
  destruct o as [c|]; [|discriminate Hrun]. exists c. split; [done|].
  apply Some_inj in Hrun. split; [exact (f_equal fst Hrun)|].
  apply (f_equal snd) in Hrun. unfold observe in Hrun. cbn [snd] in Hrun.
  destruct (ep_sent (ep (usb (fw (sys c))))) as [|p1 [|p [|]]]; try discriminate Hrun.
  exists p1, p. split; [done|]. split; [exact (f_equal (λ l, fst (nth 1 l (0, []))) Hrun)|].
  exact (f_equal (λ l, snd (nth 1 l (0, []))) Hrun).
Qed.

Lemma sent_bytes_genuine_witness :
  ∃ c, demo_config = Some c ∧ length (ep_sent (ep (usb (fw (sys c))))) = 2%nat ∧
       Forall (packet_bytes_ok (history (sys c))) (ep_sent (ep (usb (fw (sys c))))).
Proof.
  destruct demo_run as (c & Hc & _ & p1 & p2 & Hs & _). exists c. split; [exact Hc|].
  split; [rewrite Hs; reflexivity|].
  apply (sent_bytes_genuine (λ _, 0) 65 demo_req); [unfold is_u8; lia|lia|exact (demo_preachable c Hc)].
Defined.

(** ** A schedule without a tear *)

#[local] Instance report_eq_dec : EqDecision USB_StandardReport_t.
Proof. solve_decision. Defined.

(** Between two turns, or with the controller state as it was. *)
Definition calm_step (s s' : config (E := ref_board)) : bool :=
  match code s with Done _ => true | Act _ _ => false end ||
  bool_decide (controllerReport (joy (fw (sys s'))) = controllerReport (joy (fw (sys s)))).

Definition play_calm (cs : list choice) (s : config (E := ref_board)) : option (config (E := ref_board)) :=
  foldl (λ o c, s ← o; s' ← play_one c s; if calm_step s s' then Some s' else None) (Some s) cs.

Lemma calm_step_untorn s s' : calm_step s s' = true → untorn s s'.
Proof.
  unfold calm_step, untorn. destruct (code s); [done|]. cbn [orb]. by intros Heq%bool_decide_eq_true _.
Qed.

Lemma play_calm_sound cs s s' : play_calm cs s = Some s' → rtc (untorn_step (λ _, 0) 65 demo_req) s s'.
Proof.
  unfold play_calm. revert s. induction cs as [|c cs IH]; intros s; cbn [foldl].
  { intros [= <-]. apply rtc_refl. }
  cbn [mbind option_bind]. destruct (play_one c s) as [s1|] eqn:Hc; cbn [mbind option_bind].
  - destruct (calm_step s s1) eqn:Hq.
    + intros Hs. eapply rtc_l; [|by apply IH]. split; [by apply (play_one_sound c)|by apply calm_step_untorn].
    + clear. induction cs; [done|]. done.
  - clear. induction cs; [done|]. done.
Qed.

(** Five bytes of the second packet come in while the first is copied, and the
    rest between two turns. *)
Definition calm_schedule : list choice :=
  [Loop] ++ replicate 16 Run ++ replicate 12 Irq ++ [Collect; Loop] ++ replicate 22 Run ++
  replicate 5 Irq ++ replicate 13 Run ++ replicate 4 Irq ++ [Collect; Loop] ++ replicate 35 Run.

Definition calm_config : option (config (E := ref_board)) :=
  play_calm calm_schedule {| code := Done tt; sys := demo_start demo_line |}.

Lemma calm_observed : ∃ c, calm_config = Some c ∧ length (ep_sent (ep (usb (fw (sys c))))) = 3%nat.
Proof.
  assert ((λ c, length (ep_sent (ep (usb (fw (sys c)))))) <$> calm_config = Some 3%nat) as Hc
    by (vm_compute; reflexivity).
  apply fmap_Some in Hc as (c & Hc & Hl). exists c. split; [exact Hc|exact (eq_sym Hl)].
Qed.

Lemma play_calm_reachable cs c :
  play_calm cs {| code := Done tt; sys := demo_start demo_line |} = Some c →
  untorn_reachable (λ _, 0) 65 demo_req c.
Proof.
  intros Hc. exists (demo_start demo_line). split_and!.
  - exact (demo_start_initial _ demo_line_bytes).
  - reflexivity.
  - exact (play_calm_sound _ _ _ Hc).
Qed.

Lemma calm_reachable c : calm_config = Some c → untorn_reachable (λ _, 0) 65 demo_req c.
Proof. exact (play_calm_reachable calm_schedule c). Qed.

Lemma untorn_packets_genuine_witness :
  ∃ c, calm_config = Some c ∧ length (ep_sent (ep (usb (fw (sys c))))) = 3%nat ∧
       Forall (packet_ok (history (sys c))) (ep_sent (ep (usb (fw (sys c))))).
Proof.
  destruct calm_observed as (c & Hc & Hl). exists c. split; [exact Hc|]. split; [exact Hl|].
  apply (untorn_packets_genuine (λ _, 0) 65 demo_req); [unfold is_u8; lia|lia|exact (calm_reachable c Hc)].
Defined.

(** The middle of the run, where the second packet has come in. *)
Definition demo_middle : option (config (E := ref_board)) :=
  play (take 59 demo_schedule) {| code := Done tt; sys := demo_start demo_line |}.

Lemma demo_middle_preachable c : demo_middle = Some c → preachable (λ _, 0) 65 demo_req c.
Proof. unfold demo_middle. exact (play_preachable (take 59 demo_schedule) c). Qed.

Lemma demo_middle_running :
  ∃ c, demo_middle = Some c ∧ match code c with Done _ => False | Act _ _ => True end.
Proof.
  assert ((λ c, match code c with Done _ => false | Act _ _ => true end) <$> demo_middle = Some true)
    as Hm by (vm_compute; reflexivity).
  apply fmap_Some in Hm as (c & Hc & Hcode). exists c. split; [exact Hc|].
  by destruct (code c).
Qed.

Lemma interrupted_task_progress_witness :
  ∃ c, demo_middle = Some c ∧
       match code c with Done _ => False | Act m k => ∃ x w', m (fw (sys c)) = Ok x w' end.
Proof.
  destruct demo_middle_running as (c & Hc & Hcode). exists c. split; [exact Hc|].
  pose proof (demo_middle_preachable c Hc) as Hr. clear Hc.
  pose proof (interrupted_task_progress (λ _, 0) 65 demo_req c) as Hp.
  destruct (code c); [destruct Hcode|].
  apply Hp; [unfold is_u8; lia|lia|intros pkt Hq; exact Hq|exact Hr].
Defined.

Lemma packets_in_received h p : p ∈ packets_in h → length p = 8%nat → received_packet h p.
Proof.
  intros (i & Hi & Hp)%list_elem_of_omap Hl. split; [done|]. cbv zeta in Hp.
  case_bool_decide as Hc; [|done]. injection Hp as Hp. rewrite Hp in Hc.
  exists (take i h), (drop (i + 9) h). rewrite <- (take_drop i h) at 1. f_equal.
  rewrite <- (take_drop 8 (drop i h)) at 1. rewrite Hp. f_equal. rewrite drop_drop.
  apply list_eq. intros [|k]; [rewrite lookup_drop, Nat.add_0_r; exact Hc|].
  rewrite lookup_app_r by (cbn; lia). rewrite !lookup_drop. f_equal. cbn. lia.
Qed.

(** C10: A report can be torn.  [CALLBACK_beforeSend] switches the receive
    interrupt off only while it chooses the report; the report is copied after
    that.  In this run two packets are received, and the console gets an input
    report whose buttons are those of the first packet and whose left stick is
    that of the second, where the packets differ in both: a controller state
    that is not idle and that no received packet has. *)
Theorem torn_report :
  ∃ (c : config (E := ref_board)) p r p1 p2, preachable (λ _, 0) 65 demo_req c ∧
    p ∈ ep_sent (ep (usb (fw (sys c)))) ∧ nth 0 p 0 = 0x30 ∧ take 11 (drop 2 p) = report_bytes r ∧
    received_packet (history (sys c)) p1 ∧ received_packet (history (sys c)) p2 ∧
    (∀ b, report_button r b = packet_button p1 b) ∧
    stick_of (take 3 (analog r)) = Some (packet_left p2) ∧
    (∃ b, packet_button p1 b ≠ packet_button p2 b) ∧ packet_left p1 ≠ packet_left p2 ∧
    ¬ genuine (history (sys c)) r.
Proof.
  destruct demo_run as (c & Hc & Hpk & p1 & p & Hs & H0 & Hr).
  pose proof (demo_preachable c Hc) as Hreach. clear Hc.
  destruct torn_bytes as (r & Hrb & Hbtn & Hleft).
  exists c, p, r, demo_first, demo_second. split_and!; try done.
  - rewrite Hs. set_solver.
  - congruence.
  - apply packets_in_received; [|done]. rewrite Hpk. set_solver.
  - apply packets_in_received; [|done]. rewrite Hpk. set_solver.
  - by exists SWITCH_A.
  - intros Hg. by eapply torn_not_genuine.
Qed.
