(* ===== verification/Hardware.v ===== *)
(** * The registers of the microcontroller

    The drivers of the USB library and [src/Firmware/avr.h] are sequences of
    reads and writes of the registers of an ATmega16U2.  [Mcu] is that
    interface; the drivers are defined over any instance of it.  [hwview] and
    the functions on it say what the datasheet documents of the registers that
    the drivers use, and [McuSpec] states that an instance behaves that way.
    The names and the positions of the bits are those of the device header. *)

From S2P Require Import Prelude.

Inductive reg :=
| UENUM | UECONX | UECFG0X | UECFG1X | UESTA0X | UEIENX | UEINTX | UEINT | UEDATX | UEBCLX | UERST
| UDCON | UDINT | UDIEN | UDADDR | UDFNUM | USBCON | PLLCSR | REGCR
| UBRR1 | UCSR1A | UCSR1B | UCSR1C | UCSR1D | UDR1
| DDRD | PORTD | PIND | MCUSR | SREG.

#[export] Instance reg_eq_dec : EqDecision reg.
Proof. solve_decision. Defined.

(** ** Bits *)

Definition FIFOCON : Z := 7.     (* UEINTX *)
Definition RWAL : Z := 5.
Definition RXSTPI : Z := 3.
Definition RXOUTI : Z := 2.
Definition TXINI : Z := 0.
Definition STALLRQ : Z := 5.     (* UECONX *)
Definition STALLRQC : Z := 4.
Definition RSTDT : Z := 3.
Definition EPEN : Z := 0.
Definition EPTYPE0 : Z := 6.     (* UECFG0X *)
Definition EPDIR : Z := 0.
Definition EPSIZE0 : Z := 4.     (* UECFG1X *)
Definition EPBK0 : Z := 2.
Definition ALLOC : Z := 1.
Definition CFGOK : Z := 7.       (* UESTA0X *)
Definition NBUSYBK0 : Z := 0.
Definition RXSTPE : Z := 3.      (* UEIENX *)
Definition DETACH : Z := 0.      (* UDCON *)
Definition RMWKUP : Z := 1.
Definition SUSPI : Z := 0.       (* UDINT *)
Definition SOFI : Z := 2.
Definition EORSTI : Z := 3.
Definition WAKEUPI : Z := 4.
Definition SUSPE : Z := 0.       (* UDIEN *)
Definition SOFE : Z := 2.
Definition EORSTE : Z := 3.
Definition WAKEUPE : Z := 4.
Definition ADDEN : Z := 7.       (* UDADDR *)
Definition USBE : Z := 7.        (* USBCON *)
Definition FRZCLK : Z := 5.
Definition PLLP0 : Z := 2.       (* PLLCSR *)
Definition PLLE : Z := 1.
Definition PLOCK : Z := 0.
Definition REGDIS : Z := 0.      (* REGCR *)
Definition RXC1 : Z := 7.        (* UCSR1A *)
Definition UDRE1 : Z := 5.
Definition U2X1 : Z := 1.
Definition RXCIE1 : Z := 7.      (* UCSR1B *)
Definition RXEN1 : Z := 4.
Definition TXEN1 : Z := 3.
Definition UCSZ11 : Z := 2.      (* UCSR1C *)
Definition UCSZ10 : Z := 1.
Definition WDRF : Z := 3.        (* MCUSR *)
Definition SREG_I : Z := 7.      (* SREG *)

(** ** The interface of the drivers *)

(** Besides the registers: the routines of the C library of the compiler that
    the firmware calls, and the constants that its [util/setbaud.h] computes. *)
Class Mcu (H : Type) := {
  rd : reg → M H Z;
  wr : reg → Z → M H unit;
  wdt_disable : M H unit;
  clock_prescale_set : Z → M H unit;
  boot_signature_byte_get : Z → M H Z;
  UBRR_VALUE : Z;
  USE_2X : bool;
}.

(** [~m] in eight bits. *)
Definition inv8 (m : Z) : Z := 255 - m.

(** ** What the datasheet documents *)

(** The host at the other end of the control endpoint.  It acts after some
    polls of the device: it takes the IN packet that waits, and at the end of
    the data stage of a control read, when it has all the bytes that it asked
    for or a packet that is not full, it sends the empty OUT packet of the
    status stage.  In a control write it sends the packets [h_data] of the data
    stage, each when the SETUP packet and the one before it are acknowledged.
    [h_delays] are the numbers of polls before its actions. *)
Record host := {
  h_idle : nat;
  h_delays : list nat;
  h_reading : bool;              (** the transfer is a control read *)
  h_want : nat;                  (** its [wLength] *)
  h_status : bool;               (** the status packet was sent *)
  h_data : list (list Z);        (** OUT packets still to be sent *)
}.

(** The control endpoint: the bytes of the SETUP packet that are not read
    yet, the bytes in the IN bank, whether that bank waits for the host, the
    packets of this transfer that the host has taken, and the OUT packet. *)
Record ctl := {
  c_setup : option (list Z);
  c_bank : list Z;
  c_busy : bool;
  c_taken : list (list Z);
  c_out : option (list Z);
  c_host : host;
}.

Record hwview := {
  v_uenum : Z;
  v_ctl : ctl;                   (** endpoint 0 *)
  v_in : option (list Z);        (** bank of endpoint 1, when it is free *)
  v_sent : list (list Z);        (** packets that left it *)
  v_out : option (list Z);       (** packet in the bank of endpoint 2 *)
  v_rx : list Z;                 (** bytes that the UART received *)
  v_tx : list Z;                 (** bytes that it sent *)
  v_txd : list nat;              (** polls until the transmitter is free, for each byte to send *)
  v_pll : nat;                   (** polls until the PLL has locked *)
  v_sig : Z → Z;                 (** the signature row *)
  v_frames : list (Z * bool);    (** frame numbers, as they will be read, and whether the host has
                                     taken the packet of the IN endpoint by then *)
  v_regs : reg → Z;              (** the other registers *)
  v_epregs : Z → reg → Z;        (** registers that exist once per endpoint *)
}.

(** *** Updates *)

Definition with_ctl (c : ctl) (v : hwview) : hwview :=
  {| v_uenum := v_uenum v; v_ctl := c; v_in := v_in v; v_sent := v_sent v; v_out := v_out v;
     v_rx := v_rx v; v_tx := v_tx v; v_txd := v_txd v; v_pll := v_pll v; v_sig := v_sig v;
     v_frames := v_frames v; v_regs := v_regs v; v_epregs := v_epregs v |}.
Definition with_uenum (n : Z) (v : hwview) : hwview :=
  {| v_uenum := n; v_ctl := v_ctl v; v_in := v_in v; v_sent := v_sent v; v_out := v_out v;
     v_rx := v_rx v; v_tx := v_tx v; v_txd := v_txd v; v_pll := v_pll v; v_sig := v_sig v;
     v_frames := v_frames v; v_regs := v_regs v; v_epregs := v_epregs v |}.
Definition with_in (b : option (list Z)) (s : list (list Z)) (v : hwview) : hwview :=
  {| v_uenum := v_uenum v; v_ctl := v_ctl v; v_in := b; v_sent := s; v_out := v_out v;
     v_rx := v_rx v; v_tx := v_tx v; v_txd := v_txd v; v_pll := v_pll v; v_sig := v_sig v;
     v_frames := v_frames v; v_regs := v_regs v; v_epregs := v_epregs v |}.
Definition with_out (b : option (list Z)) (v : hwview) : hwview :=
  {| v_uenum := v_uenum v; v_ctl := v_ctl v; v_in := v_in v; v_sent := v_sent v; v_out := b;
     v_rx := v_rx v; v_tx := v_tx v; v_txd := v_txd v; v_pll := v_pll v; v_sig := v_sig v;
     v_frames := v_frames v; v_regs := v_regs v; v_epregs := v_epregs v |}.
Definition with_uart (rx tx : list Z) (d : list nat) (v : hwview) : hwview :=
  {| v_uenum := v_uenum v; v_ctl := v_ctl v; v_in := v_in v; v_sent := v_sent v;
     v_out := v_out v; v_rx := rx; v_tx := tx; v_txd := d; v_pll := v_pll v; v_sig := v_sig v;
     v_frames := v_frames v; v_regs := v_regs v; v_epregs := v_epregs v |}.
Definition with_pll (n : nat) (v : hwview) : hwview :=
  {| v_uenum := v_uenum v; v_ctl := v_ctl v; v_in := v_in v; v_sent := v_sent v;
     v_out := v_out v; v_rx := v_rx v; v_tx := v_tx v; v_txd := v_txd v; v_pll := n;
     v_sig := v_sig v; v_frames := v_frames v; v_regs := v_regs v; v_epregs := v_epregs v |}.
Definition with_frames (l : list (Z * bool)) (v : hwview) : hwview :=
  {| v_uenum := v_uenum v; v_ctl := v_ctl v; v_in := v_in v; v_sent := v_sent v;
     v_out := v_out v; v_rx := v_rx v; v_tx := v_tx v; v_txd := v_txd v; v_pll := v_pll v;
     v_sig := v_sig v; v_frames := l; v_regs := v_regs v; v_epregs := v_epregs v |}.
Definition with_reg (r : reg) (x : Z) (v : hwview) : hwview :=
  {| v_uenum := v_uenum v; v_ctl := v_ctl v; v_in := v_in v; v_sent := v_sent v;
     v_out := v_out v; v_rx := v_rx v; v_tx := v_tx v; v_txd := v_txd v; v_pll := v_pll v;
     v_sig := v_sig v; v_frames := v_frames v;
     v_regs := λ r', if decide (r = r') then x else v_regs v r'; v_epregs := v_epregs v |}.
Definition with_epreg (n : Z) (r : reg) (x : Z) (v : hwview) : hwview :=
  {| v_uenum := v_uenum v; v_ctl := v_ctl v; v_in := v_in v; v_sent := v_sent v;
     v_out := v_out v; v_rx := v_rx v; v_tx := v_tx v; v_txd := v_txd v; v_pll := v_pll v;
     v_sig := v_sig v; v_frames := v_frames v; v_regs := v_regs v;
     v_epregs := λ n' r', if decide (n = n' ∧ r = r') then x else v_epregs v n' r' |}.

(** Disabling the controller resets its registers. *)
Definition usb_reset (v : hwview) : hwview :=
  with_reg UDCON (BV DETACH) (with_reg UDINT 0 (with_reg UDIEN 0 (with_reg UDADDR 0
      {| v_uenum := 0; v_ctl := v_ctl v; v_in := None; v_sent := v_sent v; v_out := None;
         v_rx := v_rx v; v_tx := v_tx v; v_txd := v_txd v; v_pll := v_pll v; v_sig := v_sig v;
         v_frames := v_frames v; v_regs := v_regs v; v_epregs := λ _ _, 0 |}))).

(** *** The host *)

Definition next_delay (h : host) (status : bool) (data : list (list Z)) : host :=
  {| h_idle := default 0%nat (head (h_delays h)); h_delays := tail (h_delays h);
     h_reading := h_reading h; h_want := h_want h; h_status := status; h_data := data |}.

(** The OUT packet that the host can send now. *)
Definition data_ready (c : ctl) : option (list Z * list (list Z)) :=
  match h_data (c_host c), c_setup c, c_out c with
  | p :: rest, None, None => if h_reading (c_host c) then None else Some (p, rest)
  | _, _, _ => None
  end.

(** The data stage of a control read is over. *)
Definition has_all (want : nat) (taken : list (list Z)) : bool :=
  bool_decide (want ≤ length (concat taken))%nat ||
  match last taken with Some p => bool_decide (length p < 32)%nat | None => false end.

Definition host_tick (c : ctl) : ctl :=
  let h := c_host c in
  match h_idle h with
  | S n =>
      {| c_setup := c_setup c; c_bank := c_bank c; c_busy := c_busy c; c_taken := c_taken c;
         c_out := c_out c;
         c_host := {| h_idle := n; h_delays := h_delays h; h_reading := h_reading h;
                      h_want := h_want h; h_status := h_status h; h_data := h_data h |} |}
  | O =>
      if h_reading h && has_all (h_want h) (c_taken c) then
        if h_status h then c
        else
          {| c_setup := c_setup c; c_bank := c_bank c; c_busy := c_busy c; c_taken := c_taken c;
             c_out := Some []; c_host := next_delay h true (h_data h) |}
      else if c_busy c then
        {| c_setup := c_setup c; c_bank := []; c_busy := false;
           c_taken := c_taken c ++ [c_bank c]; c_out := c_out c;
           c_host := next_delay h (h_status h) (h_data h) |}
      else match data_ready c with
           | Some (p, rest) =>
               {| c_setup := c_setup c; c_bank := c_bank c; c_busy := c_busy c; c_taken := c_taken c;
                  c_out := Some p; c_host := next_delay h (h_status h) rest |}
           | None => c
           end
  end.

(** A host that reads sends no data. *)
Lemma data_ready_reading c : h_reading (c_host c) = true → data_ready c = None.
Proof. intros Hr. unfold data_ready. rewrite Hr. by destruct (h_data (c_host c)), (c_setup c), (c_out c). Qed.
Lemma data_ready_nil c : h_data (c_host c) = [] → data_ready c = None.
Proof. intros Hd. unfold data_ready. by rewrite Hd. Qed.

(** *** Reading *)

(** The flags of the selected endpoint, low bit first.  The datasheet says that
    RWAL is not to be used for the control endpoint; it reads as zero here, and
    control transfers do not test it. *)
Definition ueintx_bits (v : hwview) : list bool :=
  if v_uenum v =? 0 then
    let c := v_ctl v in
    [negb (c_busy c); false; bool_decide (is_Some (c_out c)); bool_decide (is_Some (c_setup c));
     false; false; false; false]
  else if v_uenum v =? 1 then
    match v_in v with
    | Some l => [true; false; false; false; false; bool_decide (length l < 64)%nat; false; true]
    | None => [false; false; false; false; false; false; false; false]
    end
  else if v_uenum v =? 2 then
    match v_out v with
    | Some l => [false; false; true; false; false; bool_decide (l ≠ []); false; true]
    | None => [false; false; false; false; false; false; false; false]
    end
  else [false; false; false; false; false; false; false; false].

(** The bytes of the 176 of DPRAM that an endpoint uses. *)
Definition ep_memory (cfg1 : Z) : Z :=
  if has cfg1 (BV ALLOC) then
    2 ^ (3 + Z.land (Z.shiftr cfg1 EPSIZE0) 0x07) * (1 + Z.land (Z.shiftr cfg1 EPBK0) 0x03)
  else 0.
Definition dpram_used (v : hwview) : Z :=
  foldr Z.add 0 (map (λ n, ep_memory (v_epregs v n UECFG1X)) [0; 1; 2; 3; 4]).

(** The transmitter can take a byte. *)
Definition tx_free (v : hwview) : bool :=
  match v_txd v with [] | O :: _ => true | _ => false end.

(** The bits STALLRQC and RSTDT read as zero. *)
Definition ueconx_read (x : Z) : Z := Z.land x (inv8 (Z.lor (BV STALLRQC) (BV RSTDT))).

Definition reg_value (r : reg) (v : hwview) : Z :=
  match r with
  | UENUM => v_uenum v
  | UEINTX => of_bits (ueintx_bits v)
  | UEDATX =>
      if v_uenum v =? 0 then
        match c_setup (v_ctl v) with
        | Some l => default 0 (head l)
        | None => default 0 (head (default [] (c_out (v_ctl v))))
        end
      else if v_uenum v =? 2 then default 0 (head (default [] (v_out v)))
      else 0
  | UEBCLX =>
      if v_uenum v =? 0 then
        match c_setup (v_ctl v), c_out (v_ctl v) with
        | Some l, _ => Z.of_nat (length l)
        | None, Some l => Z.of_nat (length l)
        | None, None => Z.of_nat (length (c_bank (v_ctl v)))
        end
      else if v_uenum v =? 1 then Z.of_nat (length (default [] (v_in v)))
      else Z.of_nat (length (default [] (v_out v)))
  | UESTA0X =>
      if has (v_epregs v (v_uenum v) UECFG1X) (BV ALLOC) && (dpram_used v <=? 176)
      then BV CFGOK else 0
  | UECONX => ueconx_read (v_epregs v (v_uenum v) UECONX)
  | UECFG0X | UECFG1X | UEIENX => v_epregs v (v_uenum v) r
  | UCSR1A =>
      Z.lor (Z.lor (Z.land (v_regs v UCSR1A) (BV U2X1)) (if tx_free v then BV UDRE1 else 0))
        (match v_rx v with [] => 0 | _ :: _ => BV RXC1 end)
  | UDR1 => default 0 (head (v_rx v))
  | UDFNUM => default 0 (fst <$> head (v_frames v))
  | PLLCSR =>
      if has (v_regs v PLLCSR) (BV PLLE) && (v_pll v =? 0)%nat then Z.lor (v_regs v PLLCSR) (BV PLOCK)
      else v_regs v PLLCSR
  | _ => v_regs v r
  end.

(** The effect of a read: time passes before a flag is read, and the data
    registers are queues. *)
Definition count_down (l : list nat) : list nat :=
  match l with [] => [] | n :: l => pred n :: l end.

Definition before_read (r : reg) (v : hwview) : hwview :=
  match r with
  | UEINTX => with_ctl (host_tick (v_ctl v)) v
  | UCSR1A => with_uart (v_rx v) (v_tx v) (count_down (v_txd v)) v
  | PLLCSR => with_pll (pred (v_pll v)) v
  | _ => v
  end.

Definition pop_setup (c : ctl) : ctl :=
  {| c_setup := tail <$> c_setup c; c_bank := c_bank c; c_busy := c_busy c;
     c_taken := c_taken c; c_out := match c_setup c with Some _ => c_out c
                                                       | None => tail <$> c_out c end;
     c_host := c_host c |}.

(** The bank of the IN endpoint after a read of the frame number: while the
    device waits for it, the host may take the packet, which frees the bank. *)
Definition polled (v : hwview) : option (list Z) :=
  if v_uenum v =? 1 then
    match v_in v, head (v_frames v) with
    | None, Some (_, true) => Some []
    | bank, _ => bank
    end
  else v_in v.

Lemma polled_free v p : v_in v = Some p → polled v = Some p.
Proof. unfold polled. intros ->. by case_match. Qed.
Lemma polled_other v : v_uenum v ≠ 1 → polled v = v_in v.
Proof. unfold polled. by intros ->%Z.eqb_neq. Qed.

Definition after_read (r : reg) (v : hwview) : hwview :=
  match r with
  | UEDATX =>
      if v_uenum v =? 0 then with_ctl (pop_setup (v_ctl v)) v
      else if v_uenum v =? 2 then with_out (tail <$> v_out v) v
      else v
  | UDR1 => with_uart (tail (v_rx v)) (v_tx v) (v_txd v) v
  | UDFNUM => with_frames (tail (v_frames v)) (with_in (polled v) (v_sent v) v)
  | _ => v
  end.

(** *** Writing *)

(** A zero in a flag of UEINTX acknowledges it; a one has no effect. *)
Definition ack_ctl (x : Z) (c : ctl) : ctl :=
  {| c_setup := if has x (BV RXSTPI) then c_setup c else None;
     c_bank := c_bank c;
     c_busy := if has x (BV TXINI) then c_busy c else true;
     c_taken := c_taken c;
     c_out := if has x (BV RXOUTI) then c_out c else None;
     c_host := c_host c |}.

Definition push_bank (x : Z) (c : ctl) : ctl :=
  {| c_setup := c_setup c; c_bank := c_bank c ++ [x]; c_busy := c_busy c; c_taken := c_taken c;
     c_out := c_out c; c_host := c_host c |}.

(** A bank that is allocated is empty. *)
Definition fresh_ctl (c : ctl) : ctl :=
  {| c_setup := None; c_bank := []; c_busy := false; c_taken := c_taken c; c_out := None;
     c_host := c_host c |}.

(** STALLRQC clears STALLRQ. *)
Definition ueconx_value (x : Z) : Z :=
  if has x (BV STALLRQC) then Z.land x (inv8 (BV STALLRQ)) else x.

Definition after_write (r : reg) (x : Z) (v : hwview) : hwview :=
  match r with
  | UENUM => with_uenum x v
  | UEINTX =>
      if v_uenum v =? 0 then with_ctl (ack_ctl x (v_ctl v)) v
      else if v_uenum v =? 1 then
        match v_in v with
        | Some l => if has x (BV FIFOCON) then v else with_in None (v_sent v ++ [l]) v
        | None => v
        end
      else if v_uenum v =? 2 then if has x (BV FIFOCON) then v else with_out None v
      else v
  | UEDATX =>
      if v_uenum v =? 0 then with_ctl (push_bank x (v_ctl v)) v
      else if v_uenum v =? 1 then
        match v_in v with
        | Some l => if decide (length l < 64)%nat then with_in (Some (l ++ [x])) (v_sent v) v else v
        | None => v
        end
      else v
  | UECONX => with_epreg (v_uenum v) UECONX (ueconx_value x) v
  | UECFG0X | UEIENX => with_epreg (v_uenum v) r x v
  | UECFG1X =>
      let v := with_epreg (v_uenum v) UECFG1X x v in
      if has x (BV ALLOC) then
        if v_uenum v =? 0 then with_ctl (fresh_ctl (v_ctl v)) v
        else if v_uenum v =? 1 then with_in (Some []) (v_sent v) v
        else if v_uenum v =? 2 then with_out None v
        else v
      else v
  | UERST =>
      let v := if has x (BV 1) then with_in (Some []) (v_sent v) v else v in
      if has x (BV 2) then with_out None v else v
  | UESTA0X | UEBCLX | UDFNUM => v
  | UDINT => with_reg UDINT (Z.land (v_regs v UDINT) x) v
  | UDCON => with_reg UDCON (Z.land x (inv8 (BV RMWKUP))) v
  | UCSR1A => with_reg UCSR1A (Z.land x (BV U2X1)) v
  | UDR1 => with_uart (v_rx v) (v_tx v ++ [x]) (tail (v_txd v)) v
  | USBCON => let v := with_reg USBCON x v in if has x (BV USBE) then v else usb_reset v
  | PIND => with_reg PORTD (Z.lxor (v_regs v PORTD) x) v
  | _ => with_reg r x v
  end.

(** ** An instance that behaves as documented *)

Class McuSpec (H : Type) `{!Mcu H} := {
  hw_ok : H → Prop;
  hw : H → hwview;
  rd_spec r h : hw_ok h →
    ∃ h', rd r h = Ok (reg_value r (before_read r (hw h))) h' ∧ hw_ok h' ∧
          hw h' = after_read r (before_read r (hw h));
  wr_spec r x h : hw_ok h →
    ∃ h', wr r x h = Ok tt h' ∧ hw_ok h' ∧ hw h' = after_write r x (hw h);
  wdt_spec h : hw_ok h → ∃ h', wdt_disable h = Ok tt h' ∧ hw_ok h' ∧ hw h' = hw h;
  clock_spec x h : hw_ok h → ∃ h', clock_prescale_set x h = Ok tt h' ∧ hw_ok h' ∧ hw h' = hw h;
  signature_spec a h : hw_ok h →
    ∃ h', boot_signature_byte_get a h = Ok (u8 (v_sig (hw h) a)) h' ∧ hw_ok h' ∧ hw h' = hw h;
  (** one million baud without error at 16 MHz *)
  setbaud_spec : UBRR_VALUE = 0 ∧ USE_2X = false;
}.

(** The view itself is an instance. *)
#[export] Instance view_Mcu : Mcu hwview := {
  rd r := λ v, Ok (reg_value r (before_read r v)) (after_read r (before_read r v));
  wr r x := λ v, Ok tt (after_write r x v);
  wdt_disable := mret tt;
  clock_prescale_set _ := mret tt;
  boot_signature_byte_get a := gets (λ v, u8 (v_sig v a));
  UBRR_VALUE := 0;
  USE_2X := false;
}.

#[export] Instance view_McuSpec : McuSpec hwview.
Proof. refine {| hw_ok _ := True; hw v := v |}; intros; by eexists. Defined.
