(* ===== verification/Lufa.v ===== *)
(** * The state of the USB library and the transfer to registers

    The variables of the device side of LUFA, the standard control requests
    ([StdRequestType.h], [Device.h]) and access to the registers from its
    code.  [sim] relates a driver that runs on a microcontroller to the same
    driver on the documented view of the registers: a driver is verified on
    the view and the result holds for every [McuSpec]. *)

From S2P Require Import Prelude StdDescriptors Hardware.

(** ** Device states and control requests *)

Inductive USB_Device_States_t :=
| DEVICE_STATE_Unattached | DEVICE_STATE_Powered | DEVICE_STATE_Default
| DEVICE_STATE_Addressed | DEVICE_STATE_Configured | DEVICE_STATE_Suspended.

#[export] Instance USB_Device_States_eq_dec : EqDecision USB_Device_States_t.
Proof. solve_decision. Defined.

Definition CONTROL_REQTYPE_DIRECTION : Z := 0x80.
Definition CONTROL_REQTYPE_TYPE : Z := 0x60.
Definition CONTROL_REQTYPE_RECIPIENT : Z := 0x1F.
Definition REQDIR_HOSTTODEVICE : Z := Z.shiftl 0 7.
Definition REQDIR_DEVICETOHOST : Z := Z.shiftl 1 7.
Definition REQTYPE_STANDARD : Z := Z.shiftl 0 5.
Definition REQTYPE_CLASS : Z := Z.shiftl 1 5.
Definition REQTYPE_VENDOR : Z := Z.shiftl 2 5.
Definition REQREC_DEVICE : Z := Z.shiftl 0 0.
Definition REQREC_INTERFACE : Z := Z.shiftl 1 0.
Definition REQREC_ENDPOINT : Z := Z.shiftl 2 0.
Definition REQREC_OTHER : Z := Z.shiftl 3 0.

(** [a | b | c] *)
Definition reqtype (dir type rec : Z) : Z := Z.lor (Z.lor dir type) rec.

Record USB_Request_Header_t := {
  bmRequestType : Z;             (** [uint8_t] *)
  bRequest : Z;                  (** [uint8_t] *)
  wValue : Z;                    (** [uint16_t] *)
  wIndex : Z;                    (** [uint16_t] *)
  wLength : Z;                   (** [uint16_t] *)
}.

(** The structure overlaid on its eight bytes, which are stored little-endian. *)
Definition header_of_bytes (l : list Z) : option USB_Request_Header_t :=
  match l with
  | [t; r; v0; v1; i0; i1; n0; n1] =>
      Some {| bmRequestType := t; bRequest := r; wValue := v0 + 256 * v1;
              wIndex := i0 + 256 * i1; wLength := n0 + 256 * n1 |}
  | _ => None
  end.

Definition header_bytes (q : USB_Request_Header_t) : list Z :=
  [bmRequestType q; bRequest q; wValue q mod 256; wValue q / 256;
   wIndex q mod 256; wIndex q / 256; wLength q mod 256; wLength q / 256].

Inductive USB_Control_Request_t :=
| REQ_GetStatus | REQ_ClearFeature | REQ_SetFeature | REQ_SetAddress | REQ_GetDescriptor
| REQ_SetDescriptor | REQ_GetConfiguration | REQ_SetConfiguration | REQ_GetInterface
| REQ_SetInterface | REQ_SynchFrame.

Definition USB_Control_Request_code (r : USB_Control_Request_t) : Z :=
  match r with
  | REQ_GetStatus => 0 | REQ_ClearFeature => 1 | REQ_SetFeature => 3 | REQ_SetAddress => 5
  | REQ_GetDescriptor => 6 | REQ_SetDescriptor => 7 | REQ_GetConfiguration => 8
  | REQ_SetConfiguration => 9 | REQ_GetInterface => 10 | REQ_SetInterface => 11
  | REQ_SynchFrame => 12
  end.

#[export] Instance USB_Control_Request_enum : CEnum USB_Control_Request_t.
Proof.
  refine {| enum_all := [REQ_GetStatus; REQ_ClearFeature; REQ_SetFeature; REQ_SetAddress;
                         REQ_GetDescriptor; REQ_SetDescriptor; REQ_GetConfiguration;
                         REQ_SetConfiguration; REQ_GetInterface; REQ_SetInterface;
                         REQ_SynchFrame];
            enum_code := USB_Control_Request_code |}; solve_enum.
Defined.

Definition FEATURE_SEL_EndpointHalt : Z := 0x00.
Definition FEATURE_SEL_DeviceRemoteWakeup : Z := 0x01.
Definition FEATURE_SEL_TestMode : Z := 0x02.
Definition FEATURE_SELFPOWERED_ENABLED : Z := BV 0.
Definition FEATURE_REMOTE_WAKEUP_ENABLED : Z := BV 1.

(** ** The state *)

Record lufa (H : Type) := {
  mcu : H;
  USB_DeviceState : USB_Device_States_t;
  USB_ControlRequest : USB_Request_Header_t;
  USB_Device_ConfigurationNumber : Z;          (** [uint8_t] *)
  USB_Device_CurrentlySelfPowered : bool;
  USB_Device_RemoteWakeupEnabled : bool;
  USB_IsInitialized : bool;
}.
Arguments mcu {H}.
Arguments USB_DeviceState {H}.
Arguments USB_ControlRequest {H}.
Arguments USB_Device_ConfigurationNumber {H}.
Arguments USB_Device_CurrentlySelfPowered {H}.
Arguments USB_Device_RemoteWakeupEnabled {H}.
Arguments USB_IsInitialized {H}.

Section updates.
Context {H : Type}.
Definition set_mcu {H'} (h : H') (l : lufa H) : lufa H' :=
  {| mcu := h; USB_DeviceState := USB_DeviceState l; USB_ControlRequest := USB_ControlRequest l;
     USB_Device_ConfigurationNumber := USB_Device_ConfigurationNumber l;
     USB_Device_CurrentlySelfPowered := USB_Device_CurrentlySelfPowered l;
     USB_Device_RemoteWakeupEnabled := USB_Device_RemoteWakeupEnabled l;
     USB_IsInitialized := USB_IsInitialized l |}.
Definition set_DeviceState (s : USB_Device_States_t) (l : lufa H) : lufa H :=
  {| mcu := mcu l; USB_DeviceState := s; USB_ControlRequest := USB_ControlRequest l;
     USB_Device_ConfigurationNumber := USB_Device_ConfigurationNumber l;
     USB_Device_CurrentlySelfPowered := USB_Device_CurrentlySelfPowered l;
     USB_Device_RemoteWakeupEnabled := USB_Device_RemoteWakeupEnabled l;
     USB_IsInitialized := USB_IsInitialized l |}.
Definition set_ControlRequest (q : USB_Request_Header_t) (l : lufa H) : lufa H :=
  {| mcu := mcu l; USB_DeviceState := USB_DeviceState l; USB_ControlRequest := q;
     USB_Device_ConfigurationNumber := USB_Device_ConfigurationNumber l;
     USB_Device_CurrentlySelfPowered := USB_Device_CurrentlySelfPowered l;
     USB_Device_RemoteWakeupEnabled := USB_Device_RemoteWakeupEnabled l;
     USB_IsInitialized := USB_IsInitialized l |}.
Definition set_ConfigurationNumber (n : Z) (l : lufa H) : lufa H :=
  {| mcu := mcu l; USB_DeviceState := USB_DeviceState l; USB_ControlRequest := USB_ControlRequest l;
     USB_Device_ConfigurationNumber := n;
     USB_Device_CurrentlySelfPowered := USB_Device_CurrentlySelfPowered l;
     USB_Device_RemoteWakeupEnabled := USB_Device_RemoteWakeupEnabled l;
     USB_IsInitialized := USB_IsInitialized l |}.
Definition set_CurrentlySelfPowered (b : bool) (l : lufa H) : lufa H :=
  {| mcu := mcu l; USB_DeviceState := USB_DeviceState l; USB_ControlRequest := USB_ControlRequest l;
     USB_Device_ConfigurationNumber := USB_Device_ConfigurationNumber l;
     USB_Device_CurrentlySelfPowered := b;
     USB_Device_RemoteWakeupEnabled := USB_Device_RemoteWakeupEnabled l;
     USB_IsInitialized := USB_IsInitialized l |}.
Definition set_RemoteWakeupEnabled (b : bool) (l : lufa H) : lufa H :=
  {| mcu := mcu l; USB_DeviceState := USB_DeviceState l; USB_ControlRequest := USB_ControlRequest l;
     USB_Device_ConfigurationNumber := USB_Device_ConfigurationNumber l;
     USB_Device_CurrentlySelfPowered := USB_Device_CurrentlySelfPowered l;
     USB_Device_RemoteWakeupEnabled := b; USB_IsInitialized := USB_IsInitialized l |}.
Definition set_IsInitialized (b : bool) (l : lufa H) : lufa H :=
  {| mcu := mcu l; USB_DeviceState := USB_DeviceState l; USB_ControlRequest := USB_ControlRequest l;
     USB_Device_ConfigurationNumber := USB_Device_ConfigurationNumber l;
     USB_Device_CurrentlySelfPowered := USB_Device_CurrentlySelfPowered l;
     USB_Device_RemoteWakeupEnabled := USB_Device_RemoteWakeupEnabled l;
     USB_IsInitialized := b |}.

Definition on_mcu {A} (m : M H A) : M (lufa H) A := zoom mcu set_mcu m.
End updates.

(** ** Registers from the code of the library *)

Section registers.
Context {H : Type} `{!Mcu H}.

Definition get_reg (r : reg) : M (lufa H) Z := on_mcu (rd r).
Definition set_reg (r : reg) (x : Z) : M (lufa H) unit := on_mcu (wr r x).

(** [r |= m], [r &= ~m] and the truth value of [r & m] *)
Definition set_bits (r : reg) (m : Z) : M (lufa H) unit :=
  v ← get_reg r; set_reg r (Z.lor v m).
Definition clear_bits (r : reg) (m : Z) : M (lufa H) unit :=
  v ← get_reg r; set_reg r (Z.land v (inv8 m)).
Definition test_bits (r : reg) (m : Z) : M (lufa H) bool :=
  v ← get_reg r; mret (has v m).
End registers.

(** ** Drivers on a microcontroller and on the view *)

Section sim.
Context {H : Type} `{!Mcu H} `{!McuSpec H}.

(** The library on the documented view. *)
Definition view (l : lufa H) : lufa hwview := set_mcu (hw (mcu l)) l.

Definition sim {A} (m : M (lufa H) A) (m' : M (lufa hwview) A) : Prop :=
  ∀ l, hw_ok (mcu l) →
    match m l with
    | Ok a l' => m' (view l) = Ok a (view l') ∧ hw_ok (mcu l')
    | Fault e l' => m' (view l) = Fault e (view l') ∧ hw_ok (mcu l')
    end.

(** A result on the view is a result on the microcontroller. *)
Lemma sim_Ok {A} (m : M (lufa H) A) m' l a lv :
  sim m m' → hw_ok (mcu l) → m' (view l) = Ok a lv →
  ∃ l', m l = Ok a l' ∧ view l' = lv ∧ hw_ok (mcu l').
Proof.
  intros Hs Hok Hm. specialize (Hs l Hok). destruct (m l) as [a' l'|e l'].
  - destruct Hs as [Hs ?]. rewrite Hm in Hs. simplify_eq. by eexists.
  - destruct Hs as [Hs ?]. rewrite Hm in Hs. done.
Qed.

Lemma sim_Fault {A} (m : M (lufa H) A) m' l e lv :
  sim m m' → hw_ok (mcu l) → m' (view l) = Fault e lv →
  ∃ l', m l = Fault e l' ∧ view l' = lv ∧ hw_ok (mcu l').
Proof.
  intros Hs Hok Hm. specialize (Hs l Hok). destruct (m l) as [a' l'|e' l'].
  - destruct Hs as [Hs ?]. rewrite Hm in Hs. done.
  - destruct Hs as [Hs ?]. rewrite Hm in Hs. simplify_eq. by eexists.
Qed.

Lemma sim_ret {A} (a : A) : sim (mret a) (mret a).
Proof. intros l Hl. done. Qed.

Lemma sim_bind {A B} (m : M (lufa H) A) m' (k : A → M (lufa H) B) k' :
  sim m m' → (∀ a, sim (k a) (k' a)) → sim (m ≫= k) (m' ≫= k').
Proof.
  intros Hm Hk l Hl. unfold mbind, M_bind. specialize (Hm l Hl).
  destruct (m l) as [a l'|e l']; destruct Hm as [-> Hl']; [|done]. by apply Hk.
Qed.

Lemma sim_fail {A} e : sim (A := A) (fail e) (fail e).
Proof. intros l Hl. done. Qed.

Lemma sim_gets {A} (f : lufa H → A) (f' : lufa hwview → A) :
  (∀ l, f l = f' (view l)) → sim (gets f) (gets f').
Proof. intros Hf l Hl. unfold gets. by rewrite Hf. Qed.

Lemma sim_modify f f' : (∀ l, view (f l) = f' (view l) ∧ mcu (f l) = mcu l) →
  sim (modify f) (modify f').
Proof.
  intros Hf l Hl. unfold modify. destruct (Hf l) as [-> Hm]. by rewrite Hm.
Qed.

Lemma sim_if {A} (b : bool) (m n : M (lufa H) A) m' n' :
  sim m m' → sim n n' → sim (if b then m else n) (if b then m' else n').
Proof. by destruct b. Qed.

Lemma sim_when (b : bool) m m' : sim m m' → sim (when b m) (when b m').
Proof. intros. unfold when. by apply sim_if; [|apply sim_ret]. Qed.

Lemma sim_wait_until fuel cond cond' :
  sim cond cond' → sim (wait_until fuel cond) (wait_until fuel cond').
Proof.
  intros Hc. induction fuel as [|fuel IH]; cbn [wait_until]; [apply sim_fail|].
  apply sim_bind; [done|]. intros []; [apply sim_ret|done].
Qed.

Lemma sim_hw {A} (m : M H A) (m' : M hwview A) :
  (∀ h, hw_ok h → ∃ a h', m h = Ok a h' ∧ hw_ok h' ∧ m' (hw h) = Ok a (hw h')) →
  sim (on_mcu m) (on_mcu m').
Proof.
  intros Hm l Hl. unfold on_mcu, zoom. destruct (Hm (mcu l) Hl) as (a & h' & -> & Hok & Hv).
  split; [|done]. cbn [view mcu set_mcu]. by rewrite Hv.
Qed.

Lemma sim_get_reg r : sim (get_reg r) (get_reg r).
Proof.
  apply sim_hw. intros h Hh. destruct (rd_spec r h Hh) as (h' & -> & Hok & Hv).
  eexists _, h'. repeat split; [done|]. by rewrite Hv.
Qed.

Lemma sim_set_reg r x : sim (set_reg r x) (set_reg r x).
Proof.
  apply sim_hw. intros h Hh. destruct (wr_spec r x h Hh) as (h' & -> & Hok & Hv).
  eexists _, h'. repeat split; [done|]. by rewrite Hv.
Qed.

Lemma sim_set_bits r m : sim (set_bits r m) (set_bits r m).
Proof. exact (sim_bind _ _ _ _ (sim_get_reg r) (λ v, sim_set_reg r (Z.lor v m))). Qed.
Lemma sim_clear_bits r m : sim (clear_bits r m) (clear_bits r m).
Proof. exact (sim_bind _ _ _ _ (sim_get_reg r) (λ v, sim_set_reg r (Z.land v (inv8 m)))). Qed.
Lemma sim_test_bits r m : sim (test_bits r m) (test_bits r m).
Proof. exact (sim_bind _ _ _ _ (sim_get_reg r) (λ v, sim_ret (has v m))). Qed.

Lemma sim_wdt : sim (on_mcu wdt_disable) (on_mcu wdt_disable).
Proof.
  apply sim_hw. intros h Hh. destruct (wdt_spec h Hh) as (h' & -> & Hok & Hv).
  eexists _, h'. repeat split; [done|]. by rewrite Hv.
Qed.

Lemma sim_clock x : sim (on_mcu (clock_prescale_set x)) (on_mcu (clock_prescale_set x)).
Proof.
  apply sim_hw. intros h Hh. destruct (clock_spec x h Hh) as (h' & -> & Hok & Hv).
  eexists _, h'. repeat split; [done|]. by rewrite Hv.
Qed.

Lemma sim_signature a :
  sim (on_mcu (boot_signature_byte_get a)) (on_mcu (boot_signature_byte_get a)).
Proof.
  apply sim_hw. intros h Hh. destruct (signature_spec a h Hh) as (h' & -> & Hok & Hv).
  eexists _, h'. repeat split; [done|]. by rewrite Hv.
Qed.
End sim.

Create HintDb sim.
#[export] Hint Resolve sim_ret sim_bind sim_fail sim_if sim_when sim_wait_until sim_get_reg
  sim_set_reg sim_set_bits sim_clear_bits sim_test_bits sim_wdt sim_clock sim_signature : sim.

(** Proves [sim p p] for a driver [p]: the known drivers are hints, a matching
    construct is split, and a driver without a lemma of its own is unfolded. *)
Ltac head_of t := match t with ?f _ => head_of f | _ => t end.
Ltac sim_step :=
  match goal with
  | |- sim _ _ => solve [auto with sim nocore]
  | |- sim (mbind _ _) _ => apply sim_bind
  | |- sim (gets _) _ => apply sim_gets; done
  | |- sim (modify _) _ => apply sim_modify; done
  | |- sim (when _ _) _ => apply sim_when
  | |- sim (wait_until _ _) _ => apply sim_wait_until
  | |- sim (match ?x with _ => _ end) _ => destruct x
  | |- sim (let _ := _ in _) _ => cbv zeta
  | |- ∀ _, _ => intros ?
  | |- sim ?p _ => let f := head_of p in unfold f
  end.
Ltac solve_sim := intros; repeat sim_step.
