(* ===== verification/Board.v ===== *)
(** * The drivers of the board

    [src/Firmware/avr.h] (UART, watchdog), the LEDs of the Arduino UNO
    ([LUFA/Drivers/Board/AVR8/UNO/LEDs.h]) and the global interrupt flag
    ([LUFA/Common/Common.h]), on the registers. *)

From S2P Require Import Prelude Datatypes StdDescriptors Hardware Lufa Interfaces.

Section board.
Context {H : Type} `{!Mcu H} (fuel : nat).

(** ** avr.h *)

Definition BAUD : Z := 1000000.

Definition USART_Init : M (lufa H) unit :=
  set_reg UBRR1 UBRR_VALUE;;
  (if USE_2X then set_bits UCSR1A (BV U2X1) else clear_bits UCSR1A (BV U2X1));;
  set_reg UCSR1C (Z.lor (BV UCSZ11) (BV UCSZ10));;
  set_reg UCSR1D 0;;
  set_reg UCSR1B (Z.lor (BV RXEN1) (BV TXEN1));;
  set_bits DDRD (BV 3);;
  set_bits PORTD (BV 2).

Definition disable_watchdog : M (lufa H) unit :=
  clear_bits MCUSR (BV WDRF);;
  on_mcu wdt_disable.

Definition disable_rx_isr : M (lufa H) unit := clear_bits UCSR1B (BV RXCIE1).
Definition enable_rx_isr : M (lufa H) unit := set_bits UCSR1B (BV RXCIE1).

Definition send_byte (c : Z) : M (lufa H) unit :=
  wait_until fuel (test_bits UCSR1A (BV UDRE1));;
  set_reg UDR1 c.

Definition recv_byte : M (lufa H) Z :=
  wait_until fuel (test_bits UCSR1A (BV RXC1));;
  get_reg UDR1.

(** ** LEDs.h: the LEDs are lit by a zero *)

Definition LEDs_Init : M (lufa H) unit :=
  set_bits DDRD LEDS_ALL_LEDS;;
  set_bits PORTD LEDS_ALL_LEDS.
Definition LEDs_Disable : M (lufa H) unit :=
  clear_bits DDRD LEDS_ALL_LEDS;;
  set_bits PORTD LEDS_ALL_LEDS.
Definition LEDs_TurnOnLEDs (LEDMask : Z) : M (lufa H) unit := clear_bits PORTD LEDMask.
Definition LEDs_TurnOffLEDs (LEDMask : Z) : M (lufa H) unit := set_bits PORTD LEDMask.
Definition LEDs_SetAllLEDs (LEDMask : Z) : M (lufa H) unit :=
  v ← get_reg PORTD;
  set_reg PORTD (Z.land (Z.lor v LEDS_ALL_LEDS) (inv8 LEDMask)).
Definition LEDs_ChangeLEDs (LEDMask ActiveMask : Z) : M (lufa H) unit :=
  v ← get_reg PORTD;
  set_reg PORTD (Z.land (Z.lor v LEDMask) (inv8 ActiveMask)).
Definition LEDs_ToggleLEDs (LEDMask : Z) : M (lufa H) unit := set_reg PIND LEDMask.
Definition LEDs_GetLEDs : M (lufa H) Z :=
  v ← get_reg PORTD;
  mret (Z.land (inv8 v) LEDS_ALL_LEDS).

(** ** Common.h: the interrupt flag is a bit of the status register *)

Definition GetGlobalInterruptMask : M (lufa H) Z := get_reg SREG.
Definition SetGlobalInterruptMask (GlobalIntState : Z) : M (lufa H) unit :=
  set_reg SREG GlobalIntState.
Definition GlobalInterruptEnable : M (lufa H) unit := set_bits SREG (BV SREG_I).
Definition GlobalInterruptDisable : M (lufa H) unit := clear_bits SREG (BV SREG_I).
End board.

(** [Delay_MS]; [const] is whether the compiler knows the argument, and
    [_delay_ms] is the delay of avr-libc. *)
Definition Delay_MS {S : Type} (_delay_ms : Z → M S unit) (const : bool) (Milliseconds : Z) :
  M S unit :=
  if const then _delay_ms Milliseconds
  else Nat.iter (Z.to_nat Milliseconds) (λ rest, _delay_ms 1;; rest) (mret tt).

Definition MAX (x y : Z) : Z := if x >? y then x else y.
Definition MIN (x y : Z) : Z := if x <? y then x else y.

Definition BitReverse (Byte : Z) : Z :=
  let Byte := u8 (Z.lor (Z.shiftr (Z.land Byte 0xF0) 4) (Z.shiftl (Z.land Byte 0x0F) 4)) in
  let Byte := u8 (Z.lor (Z.shiftr (Z.land Byte 0xCC) 2) (Z.shiftl (Z.land Byte 0x33) 2)) in
  u8 (Z.lor (Z.shiftr (Z.land Byte 0xAA) 1) (Z.shiftl (Z.land Byte 0x55) 1)).

(** Bit [i] of the result is bit [7 - i] of the argument. *)
Lemma BitReverse_testbit (b i : Z) :
  is_u8 b → 0 ≤ i < 8 → Z.testbit (BitReverse b) i = Z.testbit b (7 - i).
Proof.
  intros Hb Hi.
  assert (Forall (λ i, Z.testbit (BitReverse b) i = Z.testbit b (7 - i)) (seqZ 0 8)) as Hall
    by (by_bytes (λ b, Forall (λ i, Z.testbit (BitReverse b) i = Z.testbit b (7 - i)) (seqZ 0 8))).
  rewrite Forall_forall in Hall. apply Hall, elem_of_seqZ. lia.
Qed.

(** The constants of the baud rate are those of the view. *)
Lemma sim_USART_Init {H} `{!Mcu H} `{!McuSpec H} : sim USART_Init USART_Init.
Proof.
  unfold USART_Init. destruct (setbaud_spec (H := H)) as [-> ->].
  destruct (setbaud_spec (H := hwview)) as [-> ->]. solve_sim.
Qed.

#[export] Hint Resolve sim_USART_Init : sim.
