(* ===== verification/Device.v ===== *)
(** * The USB controller: power, interrupts, address

    The inline functions of [USBController_AVR8.h], [USBInterrupt_AVR8.h] and
    [Device_AVR8.h] for the ATmega16U2 (a controller of LUFA's series 2) in
    device mode, with [USB_INT_DisableAllInterrupts] and
    [USB_INT_ClearAllInterrupts] of [USBInterrupt_AVR8.c] and
    [USB_Device_SendRemoteWakeup] of [Device_AVR8.c]. *)

From S2P Require Import Prelude StdDescriptors Descriptors Hardware Lufa Board.

(** The options of [Config/LUFAConfig.h]. *)
Definition USB_DEVICE_OPT_FULLSPEED : Z := Z.shiftl 0 0.
Definition USB_OPT_REG_DISABLED : Z := Z.shiftl 1 1.
Definition USB_OPT_REG_ENABLED : Z := Z.shiftl 0 1.
Definition USB_OPT_REG_KEEP_ENABLED : Z := Z.shiftl 1 3.
Definition USB_OPT_MANUAL_PLL : Z := Z.shiftl 1 2.
Definition USB_OPT_AUTO_PLL : Z := Z.shiftl 0 2.
Definition USE_STATIC_OPTIONS : Z :=
  Z.lor (Z.lor USB_DEVICE_OPT_FULLSPEED USB_OPT_REG_ENABLED) USB_OPT_AUTO_PLL.
Definition USB_Options : Z := USE_STATIC_OPTIONS.
Definition USB_Device_ControlEndpointSize : Z := FIXED_CONTROL_ENDPOINT_SIZE.
Definition USB_STREAM_TIMEOUT_MS : Z := 100.
(** The prescaler for a clock of 16 MHz. *)
Definition USB_PLL_PSC : Z := BV PLLP0.

Inductive USB_Interrupts_t :=
| USB_INT_WAKEUPI | USB_INT_SUSPI | USB_INT_EORSTI | USB_INT_SOFI | USB_INT_RXSTPI.

Section device.
Context {H : Type} `{!Mcu H} (fuel : nat).

(** ** USBController_AVR8.h *)

Definition USB_Detach : M (lufa H) unit := set_bits UDCON (BV DETACH).
Definition USB_Attach : M (lufa H) unit := clear_bits UDCON (BV DETACH).
Definition USB_PLL_On : M (lufa H) unit :=
  set_reg PLLCSR USB_PLL_PSC;;
  set_reg PLLCSR (Z.lor USB_PLL_PSC (BV PLLE)).
Definition USB_PLL_Off : M (lufa H) unit := set_reg PLLCSR 0.
Definition USB_PLL_IsReady : M (lufa H) bool := test_bits PLLCSR (BV PLOCK).
Definition USB_REG_On : M (lufa H) unit := clear_bits REGCR (BV REGDIS).
Definition USB_REG_Off : M (lufa H) unit := set_bits REGCR (BV REGDIS).
Definition USB_CLK_Freeze : M (lufa H) unit := set_bits USBCON (BV FRZCLK).
Definition USB_CLK_Unfreeze : M (lufa H) unit := clear_bits USBCON (BV FRZCLK).
Definition USB_Controller_Enable : M (lufa H) unit := set_bits USBCON (BV USBE).
Definition USB_Controller_Disable : M (lufa H) unit := clear_bits USBCON (BV USBE).
Definition USB_Controller_Reset : M (lufa H) unit :=
  clear_bits USBCON (BV USBE);;
  set_bits USBCON (BV USBE).

(** ** USBInterrupt_AVR8.h *)

Definition USB_INT_Enable (Interrupt : USB_Interrupts_t) : M (lufa H) unit :=
  match Interrupt with
  | USB_INT_WAKEUPI => set_bits UDIEN (BV WAKEUPE)
  | USB_INT_SUSPI => set_bits UDIEN (BV SUSPE)
  | USB_INT_EORSTI => set_bits UDIEN (BV EORSTE)
  | USB_INT_SOFI => set_bits UDIEN (BV SOFE)
  | USB_INT_RXSTPI => set_bits UEIENX (BV RXSTPE)
  end.

Definition USB_INT_Disable (Interrupt : USB_Interrupts_t) : M (lufa H) unit :=
  match Interrupt with
  | USB_INT_WAKEUPI => clear_bits UDIEN (BV WAKEUPE)
  | USB_INT_SUSPI => clear_bits UDIEN (BV SUSPE)
  | USB_INT_EORSTI => clear_bits UDIEN (BV EORSTE)
  | USB_INT_SOFI => clear_bits UDIEN (BV SOFE)
  | USB_INT_RXSTPI => clear_bits UEIENX (BV RXSTPE)
  end.

Definition USB_INT_Clear (Interrupt : USB_Interrupts_t) : M (lufa H) unit :=
  match Interrupt with
  | USB_INT_WAKEUPI => clear_bits UDINT (BV WAKEUPI)
  | USB_INT_SUSPI => clear_bits UDINT (BV SUSPI)
  | USB_INT_EORSTI => clear_bits UDINT (BV EORSTI)
  | USB_INT_SOFI => clear_bits UDINT (BV SOFI)
  | USB_INT_RXSTPI => clear_bits UEINTX (BV RXSTPI)
  end.

Definition USB_INT_IsEnabled (Interrupt : USB_Interrupts_t) : M (lufa H) bool :=
  match Interrupt with
  | USB_INT_WAKEUPI => test_bits UDIEN (BV WAKEUPE)
  | USB_INT_SUSPI => test_bits UDIEN (BV SUSPE)
  | USB_INT_EORSTI => test_bits UDIEN (BV EORSTE)
  | USB_INT_SOFI => test_bits UDIEN (BV SOFE)
  | USB_INT_RXSTPI => test_bits UEIENX (BV RXSTPE)
  end.

Definition USB_INT_HasOccurred (Interrupt : USB_Interrupts_t) : M (lufa H) bool :=
  match Interrupt with
  | USB_INT_WAKEUPI => test_bits UDINT (BV WAKEUPI)
  | USB_INT_SUSPI => test_bits UDINT (BV SUSPI)
  | USB_INT_EORSTI => test_bits UDINT (BV EORSTI)
  | USB_INT_SOFI => test_bits UDINT (BV SOFI)
  | USB_INT_RXSTPI => test_bits UEINTX (BV RXSTPI)
  end.

Definition USB_INT_DisableAllInterrupts : M (lufa H) unit := set_reg UDIEN 0.
Definition USB_INT_ClearAllInterrupts : M (lufa H) unit := set_reg UDINT 0.

(** ** Device_AVR8.h *)

Definition USB_Device_GetFrameNumber : M (lufa H) Z := get_reg UDFNUM.
Definition USB_Device_EnableSOFEvents : M (lufa H) unit := USB_INT_Enable USB_INT_SOFI.
Definition USB_Device_DisableSOFEvents : M (lufa H) unit := USB_INT_Disable USB_INT_SOFI.

Definition USB_Device_SetDeviceAddress (Address : Z) : M (lufa H) unit :=
  v ← get_reg UDADDR;
  set_reg UDADDR (Z.lor (Z.land v (BV ADDEN)) (Z.land Address 0x7F)).
Definition USB_Device_EnableDeviceAddress (Address : Z) : M (lufa H) unit :=
  set_bits UDADDR (BV ADDEN).
Definition USB_Device_IsAddressSet : M (lufa H) bool := test_bits UDADDR (BV ADDEN).

Definition USE_INTERNAL_SERIAL : Z := 0xDC.
Definition INTERNAL_SERIAL_LENGTH_BITS : Z := 80.
Definition INTERNAL_SERIAL_START_ADDRESS : Z := 0x0E.

(** The loop of [USB_Device_GetSerialString]: [n] characters are left. *)
Fixpoint serial_chars (n : nat) (SerialCharNum SigReadAddress : Z) : M (lufa H) (list Z) :=
  match n with
  | O => mret []
  | S n =>
      SerialByte ← on_mcu (boot_signature_byte_get SigReadAddress);
      let odd := has SerialCharNum 0x01 in
      let SerialByte := if odd then Z.shiftr SerialByte 4 else SerialByte in
      let SigReadAddress := if odd then u8 (SigReadAddress + 1) else SigReadAddress in
      let SerialByte := Z.land SerialByte 0x0F in
      let c := if SerialByte >=? 10 then (65 - 10) + SerialByte else 48 + SerialByte in
      rest ← serial_chars n (u8 (SerialCharNum + 1)) SigReadAddress;
      mret (c :: rest)
  end.

Definition USB_Device_GetSerialString : M (lufa H) (list Z) :=
  CurrentGlobalInt ← GetGlobalInterruptMask;
  GlobalInterruptDisable;;
  UnicodeString ← serial_chars (Z.to_nat (INTERNAL_SERIAL_LENGTH_BITS / 4)) 0
                    INTERNAL_SERIAL_START_ADDRESS;
  SetGlobalInterruptMask CurrentGlobalInt;;
  mret UnicodeString.

(** ** Device_AVR8.c *)

Definition USB_Device_SendRemoteWakeup : M (lufa H) unit :=
  (if negb (has USB_Options USB_OPT_MANUAL_PLL) then
     USB_PLL_On;;
     wait_until fuel USB_PLL_IsReady
   else mret tt);;
  USB_CLK_Unfreeze;;
  set_bits UDCON (BV RMWKUP);;
  wait_until fuel (b ← test_bits UDCON (BV RMWKUP); mret (negb b)).
End device.

Lemma sim_serial_chars {H} `{!Mcu H} `{!McuSpec H} n i a :
  sim (serial_chars n i a) (serial_chars n i a).
Proof.
  revert i a. induction n as [|n IH]; intros i a; cbn [serial_chars]; solve_sim.
Qed.

#[export] Hint Resolve sim_serial_chars : sim.
