(* ===== verification/Endpoint.v ===== *)
(** * The endpoints of the device

    [LUFA/Drivers/USB/Core/AVR8/Endpoint_AVR8.h] and [Endpoint_AVR8.c] on the
    registers.  [fuel] bounds the busy-wait loops. *)

From S2P Require Import Prelude StdDescriptors Hardware Lufa Device.

Definition ENDPOINT_EPNUM_MASK : Z := 0x0F.
Definition ENDPOINT_CONTROLEP : Z := 0.
Definition ENDPOINT_TOTAL_ENDPOINTS : Z := 5.

Definition ENDPOINT_READYWAIT_NoError : Z := 0.
Definition ENDPOINT_READYWAIT_EndpointStalled : Z := 1.
Definition ENDPOINT_READYWAIT_DeviceDisconnected : Z := 2.
Definition ENDPOINT_READYWAIT_BusSuspended : Z := 3.
Definition ENDPOINT_READYWAIT_Timeout : Z := 4.

Record USB_Endpoint_Table_t := {
  et_Address : Z;                (** [uint8_t] *)
  et_Size : Z;                   (** [uint16_t] *)
  et_Type : Z;                   (** [uint8_t] *)
  et_Banks : Z;                  (** [uint8_t] *)
}.

(** The loop of [Endpoint_BytesToEPSizeMask].  [CheckBytes] is zero after
    thirteen doublings, so a loop of fourteen rounds never ends. *)
Fixpoint size_mask_loop (n : nat) (Bytes MaskVal CheckBytes : Z) : option Z :=
  match n with
  | O => None
  | S n =>
      if CheckBytes <? Bytes
      then size_mask_loop n Bytes (u8 (MaskVal + 1)) (u16 (Z.shiftl CheckBytes 1))
      else Some (u8 (Z.shiftl MaskVal EPSIZE0))
  end.
Definition Endpoint_BytesToEPSizeMask (Bytes : Z) : option Z := size_mask_loop 14 Bytes 0 8.

Section endpoint.
Context {H : Type} `{!Mcu H} (fuel : nat).

(** ** Endpoint_AVR8.h *)

Definition Endpoint_BytesInEndpoint : M (lufa H) Z := get_reg UEBCLX.
Definition Endpoint_GetEndpointDirection : M (lufa H) Z :=
  b ← test_bits UECFG0X (BV EPDIR);
  mret (if b : bool then ENDPOINT_DIR_IN else ENDPOINT_DIR_OUT).
Definition Endpoint_GetCurrentEndpoint : M (lufa H) Z :=
  n ← get_reg UENUM;
  d ← Endpoint_GetEndpointDirection;
  mret (Z.lor (Z.land n ENDPOINT_EPNUM_MASK) d).
Definition Endpoint_SelectEndpoint (Address : Z) : M (lufa H) unit :=
  set_reg UENUM (Z.land Address ENDPOINT_EPNUM_MASK).
Definition Endpoint_ResetEndpoint (Address : Z) : M (lufa H) unit :=
  set_reg UERST (u8 (BV (Z.land Address ENDPOINT_EPNUM_MASK)));;
  set_reg UERST 0.
Definition Endpoint_EnableEndpoint : M (lufa H) unit := set_bits UECONX (BV EPEN).
Definition Endpoint_DisableEndpoint : M (lufa H) unit := clear_bits UECONX (BV EPEN).
Definition Endpoint_IsEnabled : M (lufa H) bool := test_bits UECONX (BV EPEN).
Definition Endpoint_GetBusyBanks : M (lufa H) Z :=
  v ← get_reg UESTA0X; mret (Z.land v (Z.shiftl 0x03 NBUSYBK0)).

Fixpoint abort_loop (n : nat) : M (lufa H) unit :=
  match n with
  | O => fail OutOfFuel
  | S n =>
      busy ← Endpoint_GetBusyBanks;
      if busy =? 0 then mret tt else
      set_bits UEINTX (BV RXOUTI);;
      wait_until fuel (b ← test_bits UEINTX (BV RXOUTI); mret (negb b));;
      abort_loop n
  end.
Definition Endpoint_AbortPendingIN : M (lufa H) unit := abort_loop fuel.

Definition Endpoint_IsReadWriteAllowed : M (lufa H) bool := test_bits UEINTX (BV RWAL).
Definition Endpoint_IsConfigured : M (lufa H) bool := test_bits UESTA0X (BV CFGOK).
Definition Endpoint_GetEndpointInterrupts : M (lufa H) Z := get_reg UEINT.
Definition Endpoint_HasEndpointInterrupted (Address : Z) : M (lufa H) bool :=
  v ← Endpoint_GetEndpointInterrupts;
  mret (has v (BV (Z.land Address ENDPOINT_EPNUM_MASK))).
Definition Endpoint_IsINReady : M (lufa H) bool := test_bits UEINTX (BV TXINI).
Definition Endpoint_IsOUTReceived : M (lufa H) bool := test_bits UEINTX (BV RXOUTI).
Definition Endpoint_IsSETUPReceived : M (lufa H) bool := test_bits UEINTX (BV RXSTPI).
Definition Endpoint_ClearSETUP : M (lufa H) unit := clear_bits UEINTX (BV RXSTPI).
Definition Endpoint_ClearIN : M (lufa H) unit :=
  clear_bits UEINTX (Z.lor (BV TXINI) (BV FIFOCON)).
Definition Endpoint_ClearOUT : M (lufa H) unit :=
  clear_bits UEINTX (Z.lor (BV RXOUTI) (BV FIFOCON)).
Definition Endpoint_StallTransaction : M (lufa H) unit := set_bits UECONX (BV STALLRQ).
Definition Endpoint_ClearStall : M (lufa H) unit := set_bits UECONX (BV STALLRQC).
Definition Endpoint_IsStalled : M (lufa H) bool := test_bits UECONX (BV STALLRQ).
Definition Endpoint_ResetDataToggle : M (lufa H) unit := set_bits UECONX (BV RSTDT).
Definition Endpoint_SetEndpointDirection (DirectionMask : Z) : M (lufa H) unit :=
  v ← get_reg UECFG0X;
  set_reg UECFG0X (Z.lor (Z.land v (inv8 (BV EPDIR)))
                         (if DirectionMask =? 0 then 0 else BV EPDIR)).

Definition Endpoint_Read_8 : M (lufa H) Z := get_reg UEDATX.
Definition Endpoint_Write_8 (Data : Z) : M (lufa H) unit := set_reg UEDATX Data.
Definition Endpoint_Discard_8 : M (lufa H) unit := get_reg UEDATX;; mret tt.
Definition Endpoint_Read_16_LE : M (lufa H) Z :=
  b0 ← get_reg UEDATX; b1 ← get_reg UEDATX; mret (b0 + 256 * b1).
Definition Endpoint_Read_16_BE : M (lufa H) Z :=
  b1 ← get_reg UEDATX; b0 ← get_reg UEDATX; mret (b0 + 256 * b1).
Definition Endpoint_Write_16_LE (Data : Z) : M (lufa H) unit :=
  set_reg UEDATX (Z.land Data 0xFF);; set_reg UEDATX (u8 (Z.shiftr Data 8)).
Definition Endpoint_Write_16_BE (Data : Z) : M (lufa H) unit :=
  set_reg UEDATX (u8 (Z.shiftr Data 8));; set_reg UEDATX (Z.land Data 0xFF).
Definition Endpoint_Discard_16 : M (lufa H) unit :=
  get_reg UEDATX;; get_reg UEDATX;; mret tt.
Definition Endpoint_Read_32_LE : M (lufa H) Z :=
  b0 ← get_reg UEDATX; b1 ← get_reg UEDATX; b2 ← get_reg UEDATX; b3 ← get_reg UEDATX;
  mret (b0 + 256 * b1 + 65536 * b2 + 16777216 * b3).
Definition Endpoint_Read_32_BE : M (lufa H) Z :=
  b3 ← get_reg UEDATX; b2 ← get_reg UEDATX; b1 ← get_reg UEDATX; b0 ← get_reg UEDATX;
  mret (b0 + 256 * b1 + 65536 * b2 + 16777216 * b3).
Definition Endpoint_Write_32_LE (Data : Z) : M (lufa H) unit :=
  set_reg UEDATX (Z.land Data 0xFF);; set_reg UEDATX (u8 (Z.shiftr Data 8));;
  set_reg UEDATX (u8 (Z.shiftr Data 16));; set_reg UEDATX (u8 (Z.shiftr Data 24)).
Definition Endpoint_Write_32_BE (Data : Z) : M (lufa H) unit :=
  set_reg UEDATX (u8 (Z.shiftr Data 24));; set_reg UEDATX (u8 (Z.shiftr Data 16));;
  set_reg UEDATX (u8 (Z.shiftr Data 8));; set_reg UEDATX (Z.land Data 0xFF).
Definition Endpoint_Discard_32 : M (lufa H) unit :=
  get_reg UEDATX;; get_reg UEDATX;; get_reg UEDATX;; get_reg UEDATX;; mret tt.

(** ** Endpoint_AVR8.c *)

(** The selected endpoint is allocated anew. *)
Definition configure_one (UECFG0XTemp UECFG1XTemp UEIENXTemp : Z) : M (lufa H) bool :=
  Endpoint_DisableEndpoint;;
  clear_bits UECFG1X (BV ALLOC);;
  Endpoint_EnableEndpoint;;
  set_reg UECFG0X UECFG0XTemp;;
  set_reg UECFG1X UECFG1XTemp;;
  set_reg UEIENX UEIENXTemp;;
  Endpoint_IsConfigured.

(** The loop of [Endpoint_ConfigureEndpoint_Prv]; [n] endpoints
    are left.  The memory of the endpoints above the new one moves, so they
    are configured again. *)
Fixpoint configure_loop (n : nat) (EPNum Number UECFG0XData UECFG1XData : Z) : M (lufa H) bool :=
  match n with
  | O => Endpoint_SelectEndpoint Number;; mret true
  | S n =>
      Endpoint_SelectEndpoint EPNum;;
      temp ← (if EPNum =? Number then mret (UECFG0XData, UECFG1XData, 0)
              else c0 ← get_reg UECFG0X; c1 ← get_reg UECFG1X; i ← get_reg UEIENX;
                   mret (c0, c1, i));
      if negb (has temp.1.2 (BV ALLOC))
      then configure_loop n (u8 (EPNum + 1)) Number UECFG0XData UECFG1XData
      else
        configured ← configure_one temp.1.1 temp.1.2 temp.2;
        if negb configured then mret false
        else configure_loop n (u8 (EPNum + 1)) Number UECFG0XData UECFG1XData
  end.
Definition Endpoint_ConfigureEndpoint_Prv (Number UECFG0XData UECFG1XData : Z) : M (lufa H) bool :=
  configure_loop (Z.to_nat (ENDPOINT_TOTAL_ENDPOINTS - Number)) Number Number
    UECFG0XData UECFG1XData.

Definition Endpoint_ConfigureEndpoint (Address Type_ Size Banks : Z) : M (lufa H) bool :=
  let Number := Z.land Address ENDPOINT_EPNUM_MASK in
  if Number >=? ENDPOINT_TOTAL_ENDPOINTS then mret false else
  match Endpoint_BytesToEPSizeMask Size with
  | None => fail OutOfFuel
  | Some mask =>
      Endpoint_ConfigureEndpoint_Prv Number
        (u8 (Z.lor (Z.shiftl Type_ EPTYPE0) (if has Address ENDPOINT_DIR_IN then BV EPDIR else 0)))
        (Z.lor (Z.lor (BV ALLOC) (if Banks >? 1 then BV EPBK0 else 0)) mask)
  end.

Fixpoint Endpoint_ConfigureEndpointTable (Table : list USB_Endpoint_Table_t) : M (lufa H) bool :=
  match Table with
  | [] => mret true
  | e :: Table =>
      if et_Address e =? 0 then Endpoint_ConfigureEndpointTable Table else
      ok ← Endpoint_ConfigureEndpoint (et_Address e) (et_Type e) (et_Size e) (et_Banks e);
      if negb ok then mret false else Endpoint_ConfigureEndpointTable Table
  end.

Fixpoint clear_loop (n : nat) (EPNum : Z) : M (lufa H) unit :=
  match n with
  | O => mret tt
  | S n =>
      Endpoint_SelectEndpoint EPNum;;
      set_reg UEIENX 0;;
      set_reg UEINTX 0;;
      set_reg UECFG1X 0;;
      Endpoint_DisableEndpoint;;
      clear_loop n (u8 (EPNum + 1))
  end.
Definition Endpoint_ClearEndpoints : M (lufa H) unit :=
  set_reg UEINT 0;;
  clear_loop (Z.to_nat ENDPOINT_TOTAL_ENDPOINTS) 0.

(** [while (!cond()) if (USB_DeviceState == DEVICE_STATE_Unattached) return;]:
    [false] when it returned. *)
Fixpoint status_wait (n : nat) (cond : M (lufa H) bool) : M (lufa H) bool :=
  match n with
  | O => fail OutOfFuel
  | S n =>
      b ← cond;
      if b : bool then mret true else
      s ← gets USB_DeviceState;
      if decide (s = DEVICE_STATE_Unattached) then mret false else status_wait n cond
  end.

Definition Endpoint_ClearStatusStage : M (lufa H) unit :=
  q ← gets USB_ControlRequest;
  if has (bmRequestType q) REQDIR_DEVICETOHOST then
    ok ← status_wait fuel Endpoint_IsOUTReceived;
    if ok : bool then Endpoint_ClearOUT else mret tt
  else
    ok ← status_wait fuel Endpoint_IsINReady;
    if ok : bool then Endpoint_ClearIN else mret tt.

(** The endless loop of [Endpoint_WaitUntilReady]. *)
Fixpoint ready_loop (n : nat) (TimeoutMSRem PreviousFrameNumber : Z) : M (lufa H) Z :=
  match n with
  | O => fail OutOfFuel
  | S n =>
      d ← Endpoint_GetEndpointDirection;
      ready ← (if d =? ENDPOINT_DIR_IN then Endpoint_IsINReady else Endpoint_IsOUTReceived);
      if ready : bool then mret ENDPOINT_READYWAIT_NoError else
      s ← gets USB_DeviceState;
      if decide (s = DEVICE_STATE_Unattached) then mret ENDPOINT_READYWAIT_DeviceDisconnected
      else if decide (s = DEVICE_STATE_Suspended) then mret ENDPOINT_READYWAIT_BusSuspended
      else
        stalled ← Endpoint_IsStalled;
        if stalled : bool then mret ENDPOINT_READYWAIT_EndpointStalled else
        CurrentFrameNumber ← USB_Device_GetFrameNumber;
        if CurrentFrameNumber =? PreviousFrameNumber
        then ready_loop n TimeoutMSRem PreviousFrameNumber
        else if TimeoutMSRem =? 0 then mret ENDPOINT_READYWAIT_Timeout
        else ready_loop n (u8 (TimeoutMSRem - 1)) CurrentFrameNumber
  end.
Definition Endpoint_WaitUntilReady : M (lufa H) Z :=
  PreviousFrameNumber ← USB_Device_GetFrameNumber;
  ready_loop fuel USB_STREAM_TIMEOUT_MS PreviousFrameNumber.
End endpoint.

(** ** On a microcontroller that behaves as documented *)

Section sims.
Context {H : Type} `{!Mcu H} `{!McuSpec H}.

Lemma sim_configure_loop n EPNum Number c0 c1 :
  sim (configure_loop n EPNum Number c0 c1) (configure_loop n EPNum Number c0 c1).
Proof. revert EPNum. induction n as [|n IH]; intros EPNum; cbn [configure_loop]; solve_sim. Qed.

Lemma sim_status_wait n c c' : sim c c' → sim (status_wait n c) (status_wait n c').
Proof. intros Hc. induction n as [|n IH]; cbn [status_wait]; solve_sim. Qed.

Lemma sim_IsOUTReceived : sim Endpoint_IsOUTReceived Endpoint_IsOUTReceived.
Proof. solve_sim. Qed.
Lemma sim_IsINReady : sim Endpoint_IsINReady Endpoint_IsINReady.
Proof. solve_sim. Qed.

Lemma sim_ready_loop n t p : sim (ready_loop n t p) (ready_loop n t p).
Proof. revert t p. induction n as [|n IH]; intros t p; cbn [ready_loop]; solve_sim. Qed.
End sims.

#[export] Hint Resolve sim_configure_loop sim_status_wait sim_IsOUTReceived sim_IsINReady
  sim_ready_loop : sim.
