(* ===== verification/ControlStream.v ===== *)
(** * Control transfers with data

    The templates [Template_Endpoint_Control_W.c] and
    [Template_Endpoint_Control_R.c] and the functions that
    [EndpointStream_AVR8.c] makes of them.  The little-endian functions walk
    the buffer upwards from its first byte, the big-endian ones downwards from
    its last. *)

From S2P Require Import Prelude StdDescriptors Hardware Lufa Device Endpoint.

Definition ENDPOINT_RWCSTREAM_NoError : Z := 0.
Definition ENDPOINT_RWCSTREAM_HostAborted : Z := 1.
Definition ENDPOINT_RWCSTREAM_DeviceDisconnected : Z := 2.
Definition ENDPOINT_RWCSTREAM_BusSuspended : Z := 3.

(** [*DataStream], where [DataStream] points to index [i] of the buffer. *)
Definition byte_at (buf : list Z) (i : Z) : option Z :=
  if 0 <=? i then buf !! Z.to_nat i else None.
Definition byte_put (i : Z) (b : Z) (buf : list Z) : option (list Z) :=
  if 0 <=? i then store_at (Z.to_nat i) b buf else None.

(** avr-libc's [eeprom_update_byte] on a buffer in the EEPROM: the byte is
    programmed only if it differs from the one that is there. *)
Definition eeprom_update_byte (i : Z) (b : Z) (buf : list Z) : option (list Z) :=
  v ← byte_at buf i; if v =? b then Some buf else byte_put i b buf.

(** [TEMPLATE_BUFFER_OFFSET] and [TEMPLATE_BUFFER_MOVE(p, 1)] *)
Inductive endianness := LE | BE.
Definition buffer_offset (d : endianness) (Length : Z) : Z :=
  match d with LE => 0 | BE => Length - 1 end.
Definition buffer_move (d : endianness) (i : Z) : Z :=
  match d with LE => i + 1 | BE => i - 1 end.

Section control.
Context {H : Type} `{!Mcu H} (fuel : nat).

(** The state tests at the head of each loop: [Some] is the code returned. *)
Definition state_abort (setup : bool) : M (lufa H) (option Z) :=
  s ← gets USB_DeviceState;
  if decide (s = DEVICE_STATE_Unattached) then mret (Some ENDPOINT_RWCSTREAM_DeviceDisconnected)
  else if decide (s = DEVICE_STATE_Suspended) then mret (Some ENDPOINT_RWCSTREAM_BusSuspended)
  else if setup then
    b ← Endpoint_IsSETUPReceived;
    mret (if b : bool then Some ENDPOINT_RWCSTREAM_HostAborted else None)
  else mret None.

(** ** Device to host *)

(** [while (Length && (BytesInEndpoint < USB_Device_ControlEndpointSize))];
    [n] is the room in the bank and one. *)
Fixpoint put_bytes (n : nat) (d : endianness) (buf : list Z)
    (DataStream Length BytesInEndpoint : Z) : M (lufa H) (Z * Z * Z) :=
  match n with
  | O => fail OutOfFuel
  | S n =>
      if negb (Length =? 0) && (BytesInEndpoint <? USB_Device_ControlEndpointSize) then
        b ← checked (byte_at buf DataStream);
        Endpoint_Write_8 b;;
        put_bytes n d buf (buffer_move d DataStream) (Length - 1) (BytesInEndpoint + 1)
      else mret (DataStream, Length, BytesInEndpoint)
  end.

(** [while (Length || LastPacketFull)]: [None] when the loop is left. *)
Fixpoint write_loop (n : nat) (d : endianness) (buf : list Z) (DataStream Length : Z)
    (LastPacketFull : bool) : M (lufa H) (option Z) :=
  match n with
  | O => fail OutOfFuel
  | S n =>
      if (Length =? 0) && negb LastPacketFull then mret None else
      abort ← state_abort true;
      match abort with
      | Some ErrorCode => mret (Some ErrorCode)
      | None =>
          received ← Endpoint_IsOUTReceived;
          if received : bool then mret None else
          ready ← Endpoint_IsINReady;
          if ready : bool then
            BytesInEndpoint ← Endpoint_BytesInEndpoint;
            r ← put_bytes (S (Z.to_nat USB_Device_ControlEndpointSize)) d buf
                  DataStream Length BytesInEndpoint;
            Endpoint_ClearIN;;
            write_loop n d buf r.1.1 r.1.2 (r.2 =? USB_Device_ControlEndpointSize)
          else write_loop n d buf DataStream Length LastPacketFull
      end
  end.

(** [while (!Endpoint_IsOUTReceived())] *)
Fixpoint status_loop (n : nat) : M (lufa H) Z :=
  match n with
  | O => fail OutOfFuel
  | S n =>
      received ← Endpoint_IsOUTReceived;
      if received : bool then mret ENDPOINT_RWCSTREAM_NoError else
      abort ← state_abort true;
      match abort with
      | Some ErrorCode => mret ErrorCode
      | None => status_loop n
      end
  end.

Definition write_control_stream (d : endianness) (Buffer : list Z) (Length : Z) : M (lufa H) Z :=
  let DataStream := buffer_offset d Length in
  q ← gets USB_ControlRequest;
  Length' ← (if Length >? wLength q then mret (wLength q)
             else (if Length =? 0 then Endpoint_ClearIN else mret tt);; mret Length);
  left ← write_loop fuel d Buffer DataStream Length' false;
  match left with
  | Some ErrorCode => mret ErrorCode
  | None => status_loop fuel
  end.

(** The buffer is in RAM, in flash ([pgm_read_byte]; the descriptors are there)
    or in the EEPROM ([eeprom_read_byte]). *)
Definition Endpoint_Write_Control_Stream_LE := write_control_stream LE.
Definition Endpoint_Write_Control_Stream_BE := write_control_stream BE.
Definition Endpoint_Write_Control_PStream_LE := write_control_stream LE.
Definition Endpoint_Write_Control_PStream_BE := write_control_stream BE.
Definition Endpoint_Write_Control_EStream_LE := write_control_stream LE.
Definition Endpoint_Write_Control_EStream_BE := write_control_stream BE.

(** ** Host to device *)

(** [put] stores the byte read: [byte_put] in RAM, [eeprom_update_byte] in the
    EEPROM. *)
Section read.
Context (put : Z → Z → list Z → option (list Z)).

(** [while (Length && Endpoint_BytesInEndpoint())] *)
Fixpoint take_bytes (n : nat) (d : endianness) (buf : list Z) (DataStream Length : Z) :
  M (lufa H) (list Z * Z * Z) :=
  match n with
  | O => fail OutOfFuel
  | S n =>
      if Length =? 0 then mret (buf, DataStream, Length) else
      bytes_left ← Endpoint_BytesInEndpoint;
      if bytes_left =? 0 then mret (buf, DataStream, Length) else
      b ← Endpoint_Read_8;
      buf ← checked (put DataStream b buf);
      take_bytes n d buf (buffer_move d DataStream) (Length - 1)
  end.

Fixpoint read_loop (n : nat) (d : endianness) (buf : list Z) (DataStream Length : Z) :
  M (lufa H) (list Z * option Z) :=
  match n with
  | O => fail OutOfFuel
  | S n =>
      if Length =? 0 then mret (buf, None) else
      abort ← state_abort true;
      match abort with
      | Some ErrorCode => mret (buf, Some ErrorCode)
      | None =>
          received ← Endpoint_IsOUTReceived;
          if received : bool then
            r ← take_bytes fuel d buf DataStream Length;
            Endpoint_ClearOUT;;
            read_loop n d r.1.1 r.1.2 r.2
          else read_loop n d buf DataStream Length
      end
  end.

Fixpoint in_ready_loop (n : nat) : M (lufa H) Z :=
  match n with
  | O => fail OutOfFuel
  | S n =>
      ready ← Endpoint_IsINReady;
      if ready : bool then mret ENDPOINT_RWCSTREAM_NoError else
      abort ← state_abort false;
      match abort with
      | Some ErrorCode => mret ErrorCode
      | None => in_ready_loop n
      end
  end.

Definition read_control_stream (d : endianness) (Buffer : list Z) (Length : Z) :
  M (lufa H) (list Z * Z) :=
  let DataStream := buffer_offset d Length in
  (if Length =? 0 then Endpoint_ClearOUT else mret tt);;
  r ← read_loop fuel d Buffer DataStream Length;
  match r.2 with
  | Some ErrorCode => mret (r.1, ErrorCode)
  | None => c ← in_ready_loop fuel; mret (r.1, c)
  end.
End read.

Definition Endpoint_Read_Control_Stream_LE := read_control_stream byte_put LE.
Definition Endpoint_Read_Control_Stream_BE := read_control_stream byte_put BE.
Definition Endpoint_Read_Control_EStream_LE := read_control_stream eeprom_update_byte LE.
Definition Endpoint_Read_Control_EStream_BE := read_control_stream eeprom_update_byte BE.
End control.

Section sims.
Context {H : Type} `{!Mcu H} `{!McuSpec H}.

Lemma sim_checked {A} (o : option A) : sim (checked o) (checked o).
Proof. unfold checked. solve_sim. Qed.

Lemma sim_state_abort b : sim (state_abort b) (state_abort b).
Proof. solve_sim. Qed.

#[local] Hint Resolve sim_checked sim_state_abort : sim.

Lemma sim_put_bytes n d buf i k b : sim (put_bytes n d buf i k b) (put_bytes n d buf i k b).
Proof. revert i k b. induction n as [|n IH]; intros; cbn [put_bytes]; solve_sim. Qed.

#[local] Hint Resolve sim_put_bytes : sim.

Lemma sim_write_loop n d buf i k f : sim (write_loop n d buf i k f) (write_loop n d buf i k f).
Proof. revert i k f. induction n as [|n IH]; intros; cbn [write_loop]; solve_sim. Qed.

Lemma sim_status_loop n : sim (status_loop n) (status_loop n).
Proof. induction n as [|n IH]; cbn [status_loop]; solve_sim. Qed.

#[local] Hint Resolve sim_write_loop sim_status_loop : sim.

Lemma sim_write_control_stream fuel d buf k :
  sim (write_control_stream fuel d buf k) (write_control_stream fuel d buf k).
Proof. solve_sim. Qed.
End sims.

#[export] Hint Resolve sim_write_control_stream sim_checked : sim.
