(* ===== verification/Requests.v ===== *)
(** * Control requests

    [LUFA/Drivers/USB/Core/DeviceStandardReq.c] and [USBTask.c], with the
    events of [src/Firmware/Joystick.c] that they raise. *)

From S2P Require Import Prelude Datatypes StdDescriptors Descriptors Hardware Lufa Board Device Endpoint.
From S2P Require Import ControlStream.

Section requests.
Context {H : Type} `{!Mcu H} (fuel : nat).

(** ** The events of the firmware *)

Definition EVENT_USB_Device_ConfigurationChanged : M (lufa H) unit :=
  ok1 ← Endpoint_ConfigureEndpoint JOYSTICK_IN_EPADDR EP_TYPE_INTERRUPT JOYSTICK_EPSIZE 1;
  ok2 ← Endpoint_ConfigureEndpoint JOYSTICK_OUT_EPADDR EP_TYPE_INTERRUPT JOYSTICK_EPSIZE 1;
  if negb (ok1 && ok2) then
    LEDs_SetAllLEDs LEDMASK_NOT_SYNCED;;
    fail Halted
  else mret tt.

Definition EVENT_USB_Device_ControlRequest : M (lufa H) unit :=
  q ← gets USB_ControlRequest;
  if bRequest q =? HID_REQ_SetIdle then
    if bmRequestType q =? reqtype REQDIR_HOSTTODEVICE REQTYPE_CLASS REQREC_INTERFACE then
      Endpoint_ClearSETUP;;
      Endpoint_ClearStatusStage fuel
    else mret tt
  else mret tt.

(** ** The standard requests *)

Definition USB_Device_SetAddress : M (lufa H) unit :=
  q ← gets USB_ControlRequest;
  let DeviceAddress := Z.land (wValue q) 0x7F in
  USB_Device_SetDeviceAddress DeviceAddress;;
  Endpoint_ClearSETUP;;
  Endpoint_ClearStatusStage fuel;;
  wait_until fuel Endpoint_IsINReady;;
  USB_Device_EnableDeviceAddress DeviceAddress;;
  modify (set_DeviceState (if DeviceAddress =? 0 then DEVICE_STATE_Default
                           else DEVICE_STATE_Addressed)).

Definition USB_Device_SetConfiguration : M (lufa H) unit :=
  q ← gets USB_ControlRequest;
  if u8 (wValue q) >? FIXED_NUM_CONFIGURATIONS then mret tt else
  Endpoint_ClearSETUP;;
  modify (set_ConfigurationNumber (u8 (wValue q)));;
  Endpoint_ClearStatusStage fuel;;
  n ← gets USB_Device_ConfigurationNumber;
  (if negb (n =? 0) then modify (set_DeviceState DEVICE_STATE_Configured)
   else
     a ← USB_Device_IsAddressSet;
     modify (set_DeviceState (if a : bool then DEVICE_STATE_Configured
                              else DEVICE_STATE_Powered)));;
  EVENT_USB_Device_ConfigurationChanged.

Definition USB_Device_GetConfiguration : M (lufa H) unit :=
  Endpoint_ClearSETUP;;
  n ← gets USB_Device_ConfigurationNumber;
  Endpoint_Write_8 n;;
  Endpoint_ClearIN;;
  Endpoint_ClearStatusStage fuel.

(** The characters as they lie in memory, after the header. *)
Definition USB_Device_GetInternalSerialDescriptor : M (lufa H) unit :=
  UnicodeString ← USB_Device_GetSerialString;
  let chars := INTERNAL_SERIAL_LENGTH_BITS / 4 in
  let SignatureDescriptor :=
    [USB_STRING_LEN chars; DTYPE_code DTYPE_String] ++ concat (map le16 UnicodeString) in
  Endpoint_ClearSETUP;;
  Endpoint_Write_Control_Stream_LE fuel SignatureDescriptor (2 + 2 * chars);;
  Endpoint_ClearOUT.

Definition USB_Device_GetDescriptor : M (lufa H) unit :=
  q ← gets USB_ControlRequest;
  if wValue q =? Z.lor (Z.shiftl (DTYPE_code DTYPE_String) 8) USE_INTERNAL_SERIAL
  then USB_Device_GetInternalSerialDescriptor else
  let d := CALLBACK_USB_GetDescriptor (wValue q) (wIndex q) in
  if d.2 =? NO_DESCRIPTOR then mret tt else
  Endpoint_ClearSETUP;;
  DescriptorPointer ← checked d.1;
  Endpoint_Write_Control_PStream_LE fuel DescriptorPointer d.2;;
  Endpoint_ClearOUT.

Definition USB_Device_GetStatus : M (lufa H) unit :=
  q ← gets USB_ControlRequest;
  CurrentStatus ←
    (if bmRequestType q =? reqtype REQDIR_DEVICETOHOST REQTYPE_STANDARD REQREC_DEVICE then
       self ← gets USB_Device_CurrentlySelfPowered;
       wake ← gets USB_Device_RemoteWakeupEnabled;
       mret (Some (Z.lor (if self : bool then FEATURE_SELFPOWERED_ENABLED else 0)
                         (if wake : bool then FEATURE_REMOTE_WAKEUP_ENABLED else 0)))
     else if bmRequestType q =? reqtype REQDIR_DEVICETOHOST REQTYPE_STANDARD REQREC_ENDPOINT then
       let EndpointIndex := Z.land (u8 (wIndex q)) ENDPOINT_EPNUM_MASK in
       if EndpointIndex >=? ENDPOINT_TOTAL_ENDPOINTS then mret None else
       Endpoint_SelectEndpoint EndpointIndex;;
       stalled ← Endpoint_IsStalled;
       Endpoint_SelectEndpoint ENDPOINT_CONTROLEP;;
       mret (Some (Z.b2z stalled))
     else mret None);
  match CurrentStatus with
  | None => mret tt
  | Some CurrentStatus =>
      Endpoint_ClearSETUP;;
      Endpoint_Write_16_LE CurrentStatus;;
      Endpoint_ClearIN;;
      Endpoint_ClearStatusStage fuel
  end.

(** [go] is [false] where the C function returns early. *)
Definition USB_Device_ClearSetFeature : M (lufa H) unit :=
  q ← gets USB_ControlRequest;
  let recipient := Z.land (bmRequestType q) CONTROL_REQTYPE_RECIPIENT in
  let set_feature := bRequest q =? USB_Control_Request_code REQ_SetFeature in
  go ← (if recipient =? REQREC_DEVICE then
          if u8 (wValue q) =? FEATURE_SEL_DeviceRemoteWakeup then
            modify (set_RemoteWakeupEnabled set_feature);; mret true
          else mret false
        else if recipient =? REQREC_ENDPOINT then
          if u8 (wValue q) =? FEATURE_SEL_EndpointHalt then
            let EndpointIndex := Z.land (u8 (wIndex q)) ENDPOINT_EPNUM_MASK in
            if (EndpointIndex =? ENDPOINT_CONTROLEP) ||
               (EndpointIndex >=? ENDPOINT_TOTAL_ENDPOINTS) then mret false else
            Endpoint_SelectEndpoint EndpointIndex;;
            enabled ← Endpoint_IsEnabled;
            (if enabled : bool then
               if set_feature then Endpoint_StallTransaction
               else
                 Endpoint_ClearStall;;
                 Endpoint_ResetEndpoint EndpointIndex;;
                 Endpoint_ResetDataToggle
             else mret tt);;
            mret true
          else mret true
        else mret false);
  if go : bool then
    Endpoint_SelectEndpoint ENDPOINT_CONTROLEP;;
    Endpoint_ClearSETUP;;
    Endpoint_ClearStatusStage fuel
  else mret tt.

(** ** Dispatch *)

(** The eight bytes of the request. *)
Fixpoint read_header (n : nat) : M (lufa H) (list Z) :=
  match n with
  | O => mret []
  | S n => b ← Endpoint_Read_8; l ← read_header n; mret (b :: l)
  end.

Definition sizeof_Request_Header : Z := 8.

Definition standard_request (bmRequestType : Z) (r : option USB_Control_Request_t) :
  M (lufa H) unit :=
  let std dir rec := reqtype dir REQTYPE_STANDARD rec in
  match r with
  | Some REQ_GetStatus =>
      when ((bmRequestType =? std REQDIR_DEVICETOHOST REQREC_DEVICE) ||
            (bmRequestType =? std REQDIR_DEVICETOHOST REQREC_ENDPOINT)) USB_Device_GetStatus
  | Some REQ_ClearFeature | Some REQ_SetFeature =>
      when ((bmRequestType =? std REQDIR_HOSTTODEVICE REQREC_DEVICE) ||
            (bmRequestType =? std REQDIR_HOSTTODEVICE REQREC_ENDPOINT)) USB_Device_ClearSetFeature
  | Some REQ_SetAddress =>
      when (bmRequestType =? std REQDIR_HOSTTODEVICE REQREC_DEVICE) USB_Device_SetAddress
  | Some REQ_GetDescriptor =>
      when ((bmRequestType =? std REQDIR_DEVICETOHOST REQREC_DEVICE) ||
            (bmRequestType =? std REQDIR_DEVICETOHOST REQREC_INTERFACE)) USB_Device_GetDescriptor
  | Some REQ_GetConfiguration =>
      when (bmRequestType =? std REQDIR_DEVICETOHOST REQREC_DEVICE) USB_Device_GetConfiguration
  | Some REQ_SetConfiguration =>
      when (bmRequestType =? std REQDIR_HOSTTODEVICE REQREC_DEVICE) USB_Device_SetConfiguration
  | _ => mret tt
  end.

Definition USB_Device_ProcessControlRequest : M (lufa H) unit :=
  l ← read_header (Z.to_nat sizeof_Request_Header);
  q ← checked (header_of_bytes l);
  modify (set_ControlRequest q);;
  EVENT_USB_Device_ControlRequest;;
  pending ← Endpoint_IsSETUPReceived;
  (if pending : bool then
     q ← gets USB_ControlRequest;
     standard_request (bmRequestType q) (of_code (bRequest q))
   else mret tt);;
  pending ← Endpoint_IsSETUPReceived;
  if pending : bool then
    Endpoint_ClearSETUP;;
    Endpoint_StallTransaction
  else mret tt.

(** ** USBTask.c *)

Definition USB_DeviceTask : M (lufa H) unit :=
  s ← gets USB_DeviceState;
  if decide (s = DEVICE_STATE_Unattached) then mret tt else
  PrevEndpoint ← Endpoint_GetCurrentEndpoint;
  Endpoint_SelectEndpoint ENDPOINT_CONTROLEP;;
  pending ← Endpoint_IsSETUPReceived;
  (if pending : bool then USB_Device_ProcessControlRequest else mret tt);;
  Endpoint_SelectEndpoint PrevEndpoint.

Definition USB_USBTask : M (lufa H) unit := USB_DeviceTask.
End requests.

Section sims.
Context {H : Type} `{!Mcu H} `{!McuSpec H}.

Lemma sim_read_header n : sim (read_header n) (read_header n).
Proof. induction n as [|n IH]; cbn [read_header]; solve_sim. Qed.

#[local] Hint Resolve sim_read_header : sim.

Lemma sim_USB_USBTask fuel : sim (USB_USBTask fuel) (USB_USBTask fuel).
Proof.
  solve_sim.
Qed.
End sims.

#[export] Hint Resolve sim_USB_USBTask : sim.
