(* ===== verification/Streams.v ===== *)
(** * Streams over the endpoints of the reports

    The template [Template_Endpoint_RW.c] and the functions that
    [EndpointStream_AVR8.c] makes of it, and the streams of that file that
    have no buffer.  A stream serves control requests ([USB_USBTask]) each
    time that its endpoint is full or empty. *)

From S2P Require Import Prelude StdDescriptors Hardware Lufa Device Endpoint ControlStream Requests.

Definition ENDPOINT_RWSTREAM_NoError : Z := 0.
Definition ENDPOINT_RWSTREAM_EndpointStalled : Z := 1.
Definition ENDPOINT_RWSTREAM_DeviceDisconnected : Z := 2.
Definition ENDPOINT_RWSTREAM_BusSuspended : Z := 3.
Definition ENDPOINT_RWSTREAM_Timeout : Z := 4.
Definition ENDPOINT_RWSTREAM_IncompleteTransfer : Z := 5.

(** [TEMPLATE_BUFFER_MOVE(p, n)] *)
Definition buffer_skip (d : endianness) (i n : Z) : Z :=
  match d with LE => i + n | BE => i - n end.

Section streams.
Context {H : Type} `{!Mcu H} (fuel : nat).

(** The template: [clear] is [TEMPLATE_CLEAR_ENDPOINT] and [transfer] is
    [TEMPLATE_TRANSFER_BYTE] at an index of the buffer.  [BytesProcessed] is
    the value behind the pointer, if there is one; the results are the error
    code, the buffer and the new value. *)
Section template.
Context (d : endianness) (clear : M (lufa H) unit)
        (transfer : Z → list Z → M (lufa H) (list Z)).

Fixpoint rw_loop (n : nat) (buf : list Z) (DataStream Length BytesInTransfer : Z)
    (BytesProcessed : option Z) : M (lufa H) (Z * list Z * option Z) :=
  match n with
  | O => fail OutOfFuel
  | S n =>
      if Length =? 0 then mret (ENDPOINT_RWSTREAM_NoError, buf, BytesProcessed) else
      allowed ← Endpoint_IsReadWriteAllowed;
      if negb allowed then
        clear;;
        USB_USBTask fuel;;
        match BytesProcessed with
        | Some p =>
            mret (ENDPOINT_RWSTREAM_IncompleteTransfer, buf, Some (u16 (p + BytesInTransfer)))
        | None =>
            ErrorCode ← Endpoint_WaitUntilReady fuel;
            if negb (ErrorCode =? 0) then mret (ErrorCode, buf, BytesProcessed)
            else rw_loop n buf DataStream Length BytesInTransfer BytesProcessed
        end
      else
        buf ← transfer DataStream buf;
        rw_loop n buf (buffer_move d DataStream) (Length - 1) (u16 (BytesInTransfer + 1))
          BytesProcessed
  end.

Definition rw_stream (Buffer : list Z) (Length : Z) (BytesProcessed : option Z) :
  M (lufa H) (Z * list Z * option Z) :=
  let DataStream := buffer_offset d Length in
  ErrorCode ← Endpoint_WaitUntilReady fuel;
  if negb (ErrorCode =? 0) then mret (ErrorCode, Buffer, BytesProcessed) else
  let p := default 0 BytesProcessed in
  rw_loop fuel Buffer (buffer_skip d DataStream p) (u16 (Length - p)) 0 BytesProcessed.
End template.

Definition write_byte (i : Z) (buf : list Z) : M (lufa H) (list Z) :=
  b ← checked (byte_at buf i); Endpoint_Write_8 b;; mret buf.
Definition read_byte (i : Z) (buf : list Z) : M (lufa H) (list Z) :=
  b ← Endpoint_Read_8; checked (byte_put i b buf).
Definition read_eeprom_byte (i : Z) (buf : list Z) : M (lufa H) (list Z) :=
  b ← Endpoint_Read_8; checked (eeprom_update_byte i b buf).

(** Writing: the error code.  The buffer is in RAM, for the [P] functions in
    flash and for the [E] functions in the EEPROM. *)
Definition write_stream (d : endianness) (Buffer : list Z) (Length : Z) (p : option Z) :
  M (lufa H) (Z * option Z) :=
  r ← rw_stream d Endpoint_ClearIN write_byte Buffer Length p; mret (r.1.1, r.2).
Definition Endpoint_Write_Stream_LE := write_stream LE.
Definition Endpoint_Write_Stream_BE := write_stream BE.
Definition Endpoint_Write_PStream_LE := write_stream LE.
Definition Endpoint_Write_PStream_BE := write_stream BE.
Definition Endpoint_Write_EStream_LE := write_stream LE.
Definition Endpoint_Write_EStream_BE := write_stream BE.
Definition Endpoint_Read_Stream_LE := rw_stream LE Endpoint_ClearOUT read_byte.
Definition Endpoint_Read_Stream_BE := rw_stream BE Endpoint_ClearOUT read_byte.
Definition Endpoint_Read_EStream_LE := rw_stream LE Endpoint_ClearOUT read_eeprom_byte.
Definition Endpoint_Read_EStream_BE := rw_stream BE Endpoint_ClearOUT read_eeprom_byte.

(** [Endpoint_Discard_Stream] and [Endpoint_Null_Stream], which do not run the
    control task. *)
Fixpoint plain_loop (n : nat) (clear byte : M (lufa H) unit) (Length BytesInTransfer : Z)
    (BytesProcessed : option Z) : M (lufa H) (Z * option Z) :=
  match n with
  | O => fail OutOfFuel
  | S n =>
      if negb (BytesInTransfer <? Length) then mret (ENDPOINT_RWSTREAM_NoError, BytesProcessed) else
      allowed ← Endpoint_IsReadWriteAllowed;
      if negb allowed then
        clear;;
        match BytesProcessed with
        | Some _ => mret (ENDPOINT_RWSTREAM_IncompleteTransfer, Some BytesInTransfer)
        | None =>
            ErrorCode ← Endpoint_WaitUntilReady fuel;
            if negb (ErrorCode =? 0) then mret (ErrorCode, BytesProcessed)
            else plain_loop n clear byte Length BytesInTransfer BytesProcessed
        end
      else
        byte;;
        plain_loop n clear byte Length (u16 (BytesInTransfer + 1)) BytesProcessed
  end.

Definition plain_stream (clear byte : M (lufa H) unit) (Length : Z) (BytesProcessed : option Z) :
  M (lufa H) (Z * option Z) :=
  let BytesInTransfer := default 0 BytesProcessed in
  ErrorCode ← Endpoint_WaitUntilReady fuel;
  if negb (ErrorCode =? 0) then mret (ErrorCode, BytesProcessed) else
  plain_loop fuel clear byte Length BytesInTransfer BytesProcessed.

Definition Endpoint_Discard_Stream := plain_stream Endpoint_ClearOUT Endpoint_Discard_8.
Definition Endpoint_Null_Stream := plain_stream Endpoint_ClearIN (Endpoint_Write_8 0).
End streams.

Section sims.
Context {H : Type} `{!Mcu H} `{!McuSpec H}.

Lemma sim_rw_loop fuel d clear clear' transfer transfer' n buf i k t p :
  sim clear clear' → (∀ i buf, sim (transfer i buf) (transfer' i buf)) →
  sim (rw_loop fuel d clear transfer n buf i k t p) (rw_loop fuel d clear' transfer' n buf i k t p).
Proof.
  intros Hc Ht. revert buf i k t p. induction n as [|n IH]; intros; cbn [rw_loop]; solve_sim; apply Ht.
Qed.

Lemma sim_rw_stream fuel d clear clear' transfer transfer' buf k p :
  sim clear clear' → (∀ i buf, sim (transfer i buf) (transfer' i buf)) →
  sim (rw_stream fuel d clear transfer buf k p) (rw_stream fuel d clear' transfer' buf k p).
Proof. intros Hc Ht. unfold rw_stream. solve_sim. by apply sim_rw_loop. Qed.

Lemma sim_write_stream fuel d buf k p :
  sim (write_stream fuel d buf k p) (write_stream fuel d buf k p).
Proof.
  unfold write_stream. apply sim_bind; [|solve_sim]. apply sim_rw_stream; solve_sim.
Qed.
Lemma sim_read_stream fuel buf k p :
  sim (Endpoint_Read_Stream_LE fuel buf k p) (Endpoint_Read_Stream_LE fuel buf k p).
Proof. apply sim_rw_stream; solve_sim. Qed.
End sims.

#[export] Hint Resolve sim_write_stream sim_read_stream : sim.
