(* ===== verification/ClassDriver.v ===== *)
(** * What the class drivers share

    The state of a class driver, and the byte pipes that the CDC and the
    printer driver of LUFA have word for word in common: [SendByte], [Flush],
    [SendData], [SendString], [BytesReceived] and [ReceiveByte], here without
    the test whether the device is connected that stands at the head of each. *)

From S2P Require Import Prelude StdDescriptors Hardware Lufa Device Endpoint ControlStream Requests Streams.

(** The library, the structure [I] of the driver and the state of the application. *)
Record driver (H I A : Type) := { lib : lufa H; info : I; app : A }.
Arguments lib {H I A}.
Arguments info {H I A}.
Arguments app {H I A}.
Arguments Build_driver {H I A}.

Definition set_lib {H I A} (l : lufa H) (s : driver H I A) : driver H I A :=
  Build_driver l (info s) (app s).

Definition on_lib {H I A B} : M (lufa H) B → M (driver H I A) B := zoom lib set_lib.
Definition on_app {H I A B} : M A B → M (driver H I A) B :=
  zoom app (λ a s, Build_driver (lib s) (info s) a).
Definition upd_info {H I A} (f : I → I) : M (driver H I A) unit :=
  modify (λ s, Build_driver (lib s) (f (info s)) (app s)).

(** [e->Type = type] *)
Definition set_type (type : Z) (e : USB_Endpoint_Table_t) : USB_Endpoint_Table_t :=
  {| et_Address := et_Address e; et_Size := et_Size e; et_Type := type; et_Banks := et_Banks e |}.

Definition class_request (dir : Z) : Z := reqtype dir REQTYPE_CLASS REQREC_INTERFACE.

(** [strlen]: [None] when no zero ends the string. *)
Fixpoint strlen (String : list Z) : option nat :=
  match String with
  | [] => None
  | b :: String => if b =? 0 then Some 0%nat else S <$> strlen String
  end.

(** Configure the endpoints in turn; stop at the first that fails. *)
Fixpoint configure_all {H} `{!Mcu H} (es : list USB_Endpoint_Table_t) : M (lufa H) bool :=
  match es with
  | [] => mret true
  | e :: es =>
      ok ← Endpoint_ConfigureEndpointTable [e];
      if negb ok then mret false else configure_all es
  end.

Section pipe.
Context {H : Type} `{!Mcu H} (fuel : nat).

(** [DataINEndpoint.Address] and [DataOUTEndpoint.Address] *)
Context (IN OUT : Z).

Definition pipe_SendData (Buffer : list Z) (Length : Z) : M (lufa H) Z :=
  Endpoint_SelectEndpoint IN;;
  r ← Endpoint_Write_Stream_LE fuel Buffer Length None;
  mret r.1.

Definition pipe_SendString (String : list Z) : M (lufa H) Z :=
  Endpoint_SelectEndpoint IN;;
  n ← checked (strlen String);
  r ← Endpoint_Write_Stream_LE fuel String (Z.of_nat n) None;
  mret r.1.

Definition pipe_SendByte (Data : Z) : M (lufa H) Z :=
  Endpoint_SelectEndpoint IN;;
  allowed ← Endpoint_IsReadWriteAllowed;
  ErrorCode ← (if negb allowed then Endpoint_ClearIN;; Endpoint_WaitUntilReady fuel
               else mret ENDPOINT_READYWAIT_NoError);
  if negb (ErrorCode =? ENDPOINT_READYWAIT_NoError) then mret ErrorCode else
  Endpoint_Write_8 Data;;
  mret ENDPOINT_READYWAIT_NoError.

Definition pipe_Flush : M (lufa H) Z :=
  Endpoint_SelectEndpoint IN;;
  n ← Endpoint_BytesInEndpoint;
  if n =? 0 then mret ENDPOINT_READYWAIT_NoError else
  allowed ← Endpoint_IsReadWriteAllowed;
  Endpoint_ClearIN;;
  if negb allowed then
    ErrorCode ← Endpoint_WaitUntilReady fuel;
    if negb (ErrorCode =? ENDPOINT_READYWAIT_NoError) then mret ErrorCode else
    Endpoint_ClearIN;; mret ENDPOINT_READYWAIT_NoError
  else mret ENDPOINT_READYWAIT_NoError.

(** The automatic flush of the tasks. *)
Definition pipe_task : M (lufa H) unit :=
  Endpoint_SelectEndpoint IN;;
  ready ← Endpoint_IsINReady;
  if ready : bool then pipe_Flush;; mret tt else mret tt.

Definition pipe_BytesReceived : M (lufa H) Z :=
  Endpoint_SelectEndpoint OUT;;
  received ← Endpoint_IsOUTReceived;
  if received : bool then
    n ← Endpoint_BytesInEndpoint;
    if n =? 0 then Endpoint_ClearOUT;; mret 0
    else Endpoint_BytesInEndpoint
  else mret 0.

Definition pipe_ReceiveByte : M (lufa H) Z :=
  Endpoint_SelectEndpoint OUT;;
  received ← Endpoint_IsOUTReceived;
  if received : bool then
    n ← Endpoint_BytesInEndpoint;
    ReceivedByte ← (if n =? 0 then mret (-1) else Endpoint_Read_8);
    n ← Endpoint_BytesInEndpoint;
    (if n =? 0 then Endpoint_ClearOUT else mret tt);;
    mret ReceivedByte
  else mret (-1).
End pipe.
