(* ===== verification/HIDClassDevice.v ===== *)
(** * The HID class driver for devices

    [LUFA/Drivers/USB/Class/Device/HIDClassDevice.c] and [.h] on the endpoint
    driver.  The two callbacks belong to the application and are parameters; so
    is what the stack holds before an array is filled.  [fuel] bounds the
    busy-wait loops. *)

From S2P Require Import Prelude StdDescriptors Hardware Lufa Device Endpoint ControlStream Requests Streams ClassDriver.

(** ** The state *)

Record USB_ClassInfo_HID_Device_t := {
  InterfaceNumber : Z;                          (** [Config], [uint8_t] *)
  ReportINEndpoint : USB_Endpoint_Table_t;
  PrevReportINBuffer : option (list Z);         (** [NULL] or a buffer *)
  PrevReportINBufferSize : Z;                   (** [uint8_t] *)
  UsingReportProtocol : bool;                   (** [State] *)
  PrevFrameNum : Z;                             (** [uint16_t] *)
  IdleCount : Z;                                (** [uint16_t] *)
  IdleMSRemaining : Z;                          (** [uint16_t] *)
}.

Definition set_Config (e : USB_Endpoint_Table_t) (b : option (list Z))
    (i : USB_ClassInfo_HID_Device_t) : USB_ClassInfo_HID_Device_t :=
  {| InterfaceNumber := InterfaceNumber i; ReportINEndpoint := e; PrevReportINBuffer := b;
     PrevReportINBufferSize := PrevReportINBufferSize i;
     UsingReportProtocol := UsingReportProtocol i; PrevFrameNum := PrevFrameNum i;
     IdleCount := IdleCount i; IdleMSRemaining := IdleMSRemaining i |}.
Definition set_State (p : bool) (f c r : Z) (i : USB_ClassInfo_HID_Device_t) :
    USB_ClassInfo_HID_Device_t :=
  {| InterfaceNumber := InterfaceNumber i; ReportINEndpoint := ReportINEndpoint i;
     PrevReportINBuffer := PrevReportINBuffer i;
     PrevReportINBufferSize := PrevReportINBufferSize i;
     UsingReportProtocol := p; PrevFrameNum := f; IdleCount := c; IdleMSRemaining := r |}.

Definition set_prev (b : option (list Z)) (i : USB_ClassInfo_HID_Device_t) :=
  set_Config (ReportINEndpoint i) b i.
Definition set_protocol (p : bool) (i : USB_ClassInfo_HID_Device_t) :=
  set_State p (PrevFrameNum i) (IdleCount i) (IdleMSRemaining i) i.
Definition set_frame (f : Z) (i : USB_ClassInfo_HID_Device_t) :=
  set_State (UsingReportProtocol i) f (IdleCount i) (IdleMSRemaining i) i.
Definition set_idle (c : Z) (i : USB_ClassInfo_HID_Device_t) :=
  set_State (UsingReportProtocol i) (PrevFrameNum i) c (IdleMSRemaining i) i.
Definition set_remaining (r : Z) (i : USB_ClassInfo_HID_Device_t) :=
  set_State (UsingReportProtocol i) (PrevFrameNum i) (IdleCount i) r i.

Abbreviation hid H A := (driver H USB_ClassInfo_HID_Device_t A).

Section driver.
Context {H A : Type} `{!Mcu H} (fuel : nat) (junk : Z).

(** [CALLBACK_HID_Device_CreateHIDReport]: the report ID, the type and the
    buffer go in; the result of the function, the report ID, the buffer and the
    size come out. *)
Context (CreateHIDReport : USB_ClassInfo_HID_Device_t → Z → Z → list Z → M A (bool * Z * list Z * Z)).
(** [CALLBACK_HID_Device_ProcessHIDReport]: the report ID, the type, the data and its size. *)
Context (ProcessHIDReport : USB_ClassInfo_HID_Device_t → Z → Z → list Z → Z → M A unit).

Definition HID_REPORT_ITEM_In_code : Z := 0.

(** [if (PrevReportINBuffer != NULL) memcpy(PrevReportINBuffer, ReportData, PrevReportINBufferSize)] *)
Definition save_report (ReportData : list Z) : M (hid H A) unit :=
  i ← gets info;
  match PrevReportINBuffer i with
  | None => mret tt
  | Some prev =>
      prev ← checked (memcpy 0 ReportData (Z.to_nat (PrevReportINBufferSize i)) prev);
      upd_info (set_prev (Some prev))
  end.

Definition GetReport (q : USB_Request_Header_t) : M (hid H A) unit :=
  i ← gets info;
  let ReportID := Z.land (wValue q) 0xFF in
  let ReportType := u8 (Z.shiftr (wValue q) 8 - 1) in
  r ← on_app (CreateHIDReport i ReportID ReportType (memset 0 (Z.to_nat (PrevReportINBufferSize i))));
  let '(_, ReportID, ReportData, ReportSize) := r in
  save_report ReportData;;
  on_lib (Endpoint_SelectEndpoint ENDPOINT_CONTROLEP;;
          Endpoint_ClearSETUP;;
          when (negb (ReportID =? 0)) (Endpoint_Write_8 ReportID);;
          Endpoint_Write_Control_Stream_LE fuel ReportData ReportSize;;
          Endpoint_ClearOUT).

Definition SetReport (q : USB_Request_Header_t) : M (hid H A) unit :=
  i ← gets info;
  let ReportSize := wLength q in
  let ReportID := Z.land (wValue q) 0xFF in
  let ReportType := u8 (Z.shiftr (wValue q) 8 - 1) in
  let skip := if ReportID =? 0 then 0 else 1 in
  r ← on_lib (Endpoint_ClearSETUP;;
              r ← Endpoint_Read_Control_Stream_LE fuel (memset junk (Z.to_nat ReportSize)) ReportSize;
              Endpoint_ClearIN;;
              mret r);
  on_app (ProcessHIDReport i ReportID ReportType (drop (Z.to_nat skip) r.1) (u16 (ReportSize - skip))).

(** The requests that answer with one byte. *)
Definition reply_byte (b : Z) : M (lufa H) unit :=
  Endpoint_ClearSETUP;;
  wait_until fuel Endpoint_IsINReady;;
  Endpoint_Write_8 b;;
  Endpoint_ClearIN;;
  Endpoint_ClearStatusStage fuel.

(** [switch (USB_ControlRequest.bRequest)] *)
Definition process_switch (q : USB_Request_Header_t) (i : USB_ClassInfo_HID_Device_t) : M (hid H A) unit :=
  let from_device := bmRequestType q =? class_request REQDIR_DEVICETOHOST in
  let to_device := bmRequestType q =? class_request REQDIR_HOSTTODEVICE in
  if bRequest q =? HID_REQ_GetReport then when from_device (GetReport q)
  else if bRequest q =? HID_REQ_SetReport then when to_device (SetReport q)
  else if bRequest q =? HID_REQ_GetProtocol then
    when from_device (on_lib (reply_byte (Z.b2z (UsingReportProtocol i))))
  else if bRequest q =? HID_REQ_SetProtocol then
    when to_device
      (on_lib (Endpoint_ClearSETUP;; Endpoint_ClearStatusStage fuel);;
       upd_info (set_protocol (negb (Z.land (wValue q) 0xFF =? 0x00))))
  else if bRequest q =? HID_REQ_SetIdle then
    when to_device
      (on_lib (Endpoint_ClearSETUP;; Endpoint_ClearStatusStage fuel);;
       upd_info (set_idle (Z.shiftr (Z.land (wValue q) 0xFF00) 6)))
  else if bRequest q =? HID_REQ_GetIdle then
    when from_device (on_lib (reply_byte (u8 (Z.shiftr (IdleCount i) 2))))
  else mret tt.

Definition HID_Device_ProcessControlRequest : M (hid H A) unit :=
  pending ← on_lib Endpoint_IsSETUPReceived;
  if negb pending then mret tt else
  q ← on_lib (gets USB_ControlRequest);
  i ← gets info;
  if negb (wIndex q =? InterfaceNumber i) then mret tt else
  process_switch q i.

Definition HID_Device_ConfigureEndpoints : M (hid H A) bool :=
  upd_info (set_State true 0 500 0);;
  upd_info (λ i, set_Config (set_type EP_TYPE_INTERRUPT (ReportINEndpoint i)) (PrevReportINBuffer i) i);;
  i ← gets info;
  on_lib (Endpoint_ConfigureEndpointTable [ReportINEndpoint i]).

(** [memcmp(a, b, n) != 0]; [None] is a read out of bounds. *)
Definition memcmp_differ (a b : list Z) (n : Z) : option bool :=
  if decide (Z.to_nat n ≤ length a ∧ Z.to_nat n ≤ length b)%nat
  then Some (negb (bool_decide (take (Z.to_nat n) a = take (Z.to_nat n) b))) else None.

(** The report goes to the bank of the endpoint [Address]. *)
Definition send_report (Address ReportID : Z) (ReportINData : list Z) (ReportINSize : Z) :
  M (lufa H) unit :=
  Endpoint_SelectEndpoint Address;;
  when (negb (ReportID =? 0)) (Endpoint_Write_8 ReportID);;
  Endpoint_Write_Stream_LE fuel ReportINData ReportINSize None;;
  Endpoint_ClearIN.

(** The body of the task, once the bank can be written.  The callbacks act on the
    state of the application and on the report, not on the registers. *)
Definition create_and_send : M (hid H A) unit :=
  i ← gets info;
  r ← on_app (CreateHIDReport i 0 HID_REPORT_ITEM_In_code (memset 0 (Z.to_nat (PrevReportINBufferSize i))));
  let '(ForceSend, ReportID, ReportINData, ReportINSize) := r in
  let IdlePeriodElapsed := negb (IdleCount i =? 0) && (IdleMSRemaining i =? 0) in
  StatesChanged ←
    match PrevReportINBuffer i with
    | None => mret false
    | Some prev => checked (memcmp_differ ReportINData prev ReportINSize)
    end;
  save_report ReportINData;;
  when (negb (ReportINSize =? 0) && (ForceSend || StatesChanged || IdlePeriodElapsed))
    (upd_info (λ i, set_remaining (IdleCount i) i);;
     on_lib (send_report (et_Address (ReportINEndpoint i)) ReportID ReportINData ReportINSize)).

Definition HID_Device_USBTask : M (hid H A) unit :=
  s ← on_lib (gets USB_DeviceState);
  if negb (bool_decide (s = DEVICE_STATE_Configured)) then mret tt else
  i ← gets info;
  f ← on_lib USB_Device_GetFrameNumber;
  if PrevFrameNum i =? f then mret tt else
  on_lib (Endpoint_SelectEndpoint (et_Address (ReportINEndpoint i)));;
  allowed ← on_lib Endpoint_IsReadWriteAllowed;
  if negb allowed then mret tt else
  create_and_send;;
  f ← on_lib USB_Device_GetFrameNumber;
  upd_info (set_frame f).

Definition HID_Device_MillisecondElapsed : M (hid H A) unit :=
  upd_info (λ i, if IdleMSRemaining i =? 0 then i else set_remaining (u16 (IdleMSRemaining i - 1)) i).
End driver.
