(* ===== verification/CDCClassDevice.v ===== *)
(** * The CDC-ACM class driver: a virtual serial port

    [LUFA/Drivers/USB/Class/Device/CDCClassDevice.c] and [.h], with what they
    use of [Class/Common/CDCClassCommon.h].  The events belong to the
    application and are parameters. *)

From S2P Require Import Prelude StdDescriptors Hardware Lufa Device Endpoint ControlStream Requests Streams.
From S2P Require Import ClassDriver.

Definition CDC_CONTROL_LINE_OUT_DTR : Z := Z.shiftl 1 0.
Definition CDC_CONTROL_LINE_OUT_RTS : Z := Z.shiftl 1 1.
Definition CDC_CONTROL_LINE_IN_DCD : Z := Z.shiftl 1 0.
Definition CDC_CONTROL_LINE_IN_DSR : Z := Z.shiftl 1 1.
Definition CDC_CONTROL_LINE_IN_BREAK : Z := Z.shiftl 1 2.
Definition CDC_CONTROL_LINE_IN_RING : Z := Z.shiftl 1 3.
Definition CDC_CONTROL_LINE_IN_FRAMEERROR : Z := Z.shiftl 1 4.
Definition CDC_CONTROL_LINE_IN_PARITYERROR : Z := Z.shiftl 1 5.
Definition CDC_CONTROL_LINE_IN_OVERRUNERROR : Z := Z.shiftl 1 6.

Definition CDC_REQ_SendEncapsulatedCommand : Z := 0x00.
Definition CDC_REQ_GetEncapsulatedResponse : Z := 0x01.
Definition CDC_REQ_SetLineEncoding : Z := 0x20.
Definition CDC_REQ_GetLineEncoding : Z := 0x21.
Definition CDC_REQ_SetControlLineState : Z := 0x22.
Definition CDC_REQ_SendBreak : Z := 0x23.
Definition CDC_NOTIF_SerialState : Z := 0x20.

(** ** The state *)

Record CDC_LineEncoding_t := {
  BaudRateBPS : Z;                              (** [uint32_t] *)
  CharFormat : Z;                               (** [uint8_t] *)
  ParityType : Z;                               (** [uint8_t] *)
  DataBits : Z;                                 (** [uint8_t] *)
}.

Record USB_ClassInfo_CDC_Device_t := {
  ControlInterfaceNumber : Z;                   (** [Config], [uint8_t] *)
  DataINEndpoint : USB_Endpoint_Table_t;
  DataOUTEndpoint : USB_Endpoint_Table_t;
  NotificationEndpoint : USB_Endpoint_Table_t;
  HostToDevice : Z;                             (** [State.ControlLineStates], [uint16_t] *)
  DeviceToHost : Z;
  LineEncoding : CDC_LineEncoding_t;
}.

Definition set_State (h d : Z) (e : CDC_LineEncoding_t) (i : USB_ClassInfo_CDC_Device_t) :
    USB_ClassInfo_CDC_Device_t :=
  {| ControlInterfaceNumber := ControlInterfaceNumber i; DataINEndpoint := DataINEndpoint i;
     DataOUTEndpoint := DataOUTEndpoint i; NotificationEndpoint := NotificationEndpoint i;
     HostToDevice := h; DeviceToHost := d; LineEncoding := e |}.
Definition set_LineEncoding (e : CDC_LineEncoding_t) (i : USB_ClassInfo_CDC_Device_t) :=
  set_State (HostToDevice i) (DeviceToHost i) e i.
Definition set_HostToDevice (h : Z) (i : USB_ClassInfo_CDC_Device_t) :=
  set_State h (DeviceToHost i) (LineEncoding i) i.
Definition set_types (i : USB_ClassInfo_CDC_Device_t) : USB_ClassInfo_CDC_Device_t :=
  {| ControlInterfaceNumber := ControlInterfaceNumber i;
     DataINEndpoint := set_type EP_TYPE_BULK (DataINEndpoint i);
     DataOUTEndpoint := set_type EP_TYPE_BULK (DataOUTEndpoint i);
     NotificationEndpoint := set_type EP_TYPE_INTERRUPT (NotificationEndpoint i);
     HostToDevice := HostToDevice i; DeviceToHost := DeviceToHost i; LineEncoding := LineEncoding i |}.

Abbreviation cdc H A := (driver H USB_ClassInfo_CDC_Device_t A).

Section driver.
Context {H A : Type} `{!Mcu H} (fuel : nat).

(** The events of the application; [BreakSent] gets the duration. *)
Context (EVENT_CDC_Device_LineEncodingChanged : USB_ClassInfo_CDC_Device_t → M A unit).
Context (EVENT_CDC_Device_ControLineStateChanged : USB_ClassInfo_CDC_Device_t → M A unit).
Context (EVENT_CDC_Device_BreakSent : USB_ClassInfo_CDC_Device_t → Z → M A unit).

(** An event, with the structure as it is when it is raised. *)
Definition raise (event : USB_ClassInfo_CDC_Device_t → M A unit) : M (cdc H A) unit :=
  i ← gets info; on_app (event i).

(** ** Control requests *)

Definition write_line_encoding (e : CDC_LineEncoding_t) : M (lufa H) unit :=
  Endpoint_Write_32_LE (BaudRateBPS e);;
  Endpoint_Write_8 (CharFormat e);;
  Endpoint_Write_8 (ParityType e);;
  Endpoint_Write_8 (DataBits e).

Definition read_line_encoding : M (lufa H) CDC_LineEncoding_t :=
  baud ← Endpoint_Read_32_LE;
  format ← Endpoint_Read_8;
  parity ← Endpoint_Read_8;
  bits ← Endpoint_Read_8;
  mret {| BaudRateBPS := baud; CharFormat := format; ParityType := parity; DataBits := bits |}.

Definition GetLineEncoding (e : CDC_LineEncoding_t) : M (lufa H) unit :=
  Endpoint_ClearSETUP;;
  wait_until fuel Endpoint_IsINReady;;
  write_line_encoding e;;
  Endpoint_ClearIN;;
  Endpoint_ClearStatusStage fuel.

(** [None] when the device was detached.  The driver stores each field as it is
    read; nothing looks at the structure before the event, so it is stored as a
    whole with the result. *)
Definition SetLineEncoding : M (lufa H) (option CDC_LineEncoding_t) :=
  Endpoint_ClearSETUP;;
  received ← status_wait fuel Endpoint_IsOUTReceived;
  if negb received then mret None else
  e ← read_line_encoding;
  Endpoint_ClearOUT;;
  Endpoint_ClearStatusStage fuel;;
  mret (Some e).

Definition CDC_switch (q : USB_Request_Header_t) (i : USB_ClassInfo_CDC_Device_t) : M (cdc H A) unit :=
  let from_device := bmRequestType q =? class_request REQDIR_DEVICETOHOST in
  let to_device := bmRequestType q =? class_request REQDIR_HOSTTODEVICE in
  if bRequest q =? CDC_REQ_GetLineEncoding then
    when from_device (on_lib (GetLineEncoding (LineEncoding i)))
  else if bRequest q =? CDC_REQ_SetLineEncoding then
    when to_device
      (e ← on_lib SetLineEncoding;
       match e with
       | None => mret tt
       | Some e => upd_info (set_LineEncoding e);; raise EVENT_CDC_Device_LineEncodingChanged
       end)
  else if bRequest q =? CDC_REQ_SetControlLineState then
    when to_device
      (on_lib (Endpoint_ClearSETUP;; Endpoint_ClearStatusStage fuel);;
       upd_info (set_HostToDevice (wValue q));;
       raise EVENT_CDC_Device_ControLineStateChanged)
  else if bRequest q =? CDC_REQ_SendBreak then
    when to_device
      (on_lib (Endpoint_ClearSETUP;; Endpoint_ClearStatusStage fuel);;
       raise (λ i, EVENT_CDC_Device_BreakSent i (u8 (wValue q))))
  else mret tt.

Definition CDC_Device_ProcessControlRequest : M (cdc H A) unit :=
  pending ← on_lib Endpoint_IsSETUPReceived;
  if negb pending then mret tt else
  q ← on_lib (gets USB_ControlRequest);
  i ← gets info;
  if negb (wIndex q =? ControlInterfaceNumber i) then mret tt else
  CDC_switch q i.

Definition CDC_Device_ConfigureEndpoints : M (cdc H A) bool :=
  upd_info (set_State 0 0 {| BaudRateBPS := 0; CharFormat := 0; ParityType := 0; DataBits := 0 |});;
  upd_info set_types;;
  i ← gets info;
  on_lib (configure_all [DataINEndpoint i; DataOUTEndpoint i; NotificationEndpoint i]).

(** ** The data pipes *)

(** [if ((USB_DeviceState != DEVICE_STATE_Configured) || !(BaudRateBPS)) return result;] *)
Definition connected {B} (result : B) (body : USB_ClassInfo_CDC_Device_t → M (lufa H) B) : M (cdc H A) B :=
  s ← on_lib (gets USB_DeviceState);
  i ← gets info;
  if negb (bool_decide (s = DEVICE_STATE_Configured)) || (BaudRateBPS (LineEncoding i) =? 0)
  then mret result else on_lib (body i).

Definition in_address (i : USB_ClassInfo_CDC_Device_t) : Z := et_Address (DataINEndpoint i).
Definition out_address (i : USB_ClassInfo_CDC_Device_t) : Z := et_Address (DataOUTEndpoint i).

Definition CDC_Device_USBTask : M (cdc H A) unit := connected tt (λ i, pipe_task fuel (in_address i)).
Definition CDC_Device_SendString (String : list Z) : M (cdc H A) Z :=
  connected ENDPOINT_RWSTREAM_DeviceDisconnected (λ i, pipe_SendString fuel (in_address i) String).
Definition CDC_Device_SendData (Buffer : list Z) (Length : Z) : M (cdc H A) Z :=
  connected ENDPOINT_RWSTREAM_DeviceDisconnected (λ i, pipe_SendData fuel (in_address i) Buffer Length).
Definition CDC_Device_SendString_P (String : list Z) : M (cdc H A) Z :=
  connected ENDPOINT_RWSTREAM_DeviceDisconnected (λ i,
    Endpoint_SelectEndpoint (in_address i);;
    n ← checked (strlen String);
    r ← Endpoint_Write_PStream_LE fuel String (Z.of_nat n) None;
    mret r.1).
Definition CDC_Device_SendData_P (Buffer : list Z) (Length : Z) : M (cdc H A) Z :=
  connected ENDPOINT_RWSTREAM_DeviceDisconnected (λ i,
    Endpoint_SelectEndpoint (in_address i);;
    r ← Endpoint_Write_PStream_LE fuel Buffer Length None;
    mret r.1).
Definition CDC_Device_SendByte (Data : Z) : M (cdc H A) Z :=
  connected ENDPOINT_RWSTREAM_DeviceDisconnected (λ i, pipe_SendByte fuel (in_address i) Data).
Definition CDC_Device_Flush : M (cdc H A) Z :=
  connected ENDPOINT_RWSTREAM_DeviceDisconnected (λ i, pipe_Flush fuel (in_address i)).
Definition CDC_Device_BytesReceived : M (cdc H A) Z :=
  connected 0 (λ i, pipe_BytesReceived (out_address i)).
Definition CDC_Device_ReceiveByte : M (cdc H A) Z :=
  connected (-1) (λ i, pipe_ReceiveByte (out_address i)).

(** [CDC_Device_putchar] and [CDC_Device_getchar] for the stream of a driver;
    the codes [_FDEV_ERR] and [_FDEV_EOF] are those of avr-libc. *)
Definition CDC_Device_putchar (FDEV_ERR c : Z) : M (cdc H A) Z :=
  e ← CDC_Device_SendByte (u8 c);
  mret (if e =? 0 then c else FDEV_ERR).
Definition CDC_Device_getchar (FDEV_EOF : Z) : M (cdc H A) Z :=
  ReceivedByte ← CDC_Device_ReceiveByte;
  mret (if ReceivedByte <? 0 then FDEV_EOF else ReceivedByte).

(** ** Notifications *)

Definition Notification : USB_Request_Header_t :=
  {| bmRequestType := class_request REQDIR_DEVICETOHOST; bRequest := CDC_NOTIF_SerialState;
     wValue := 0; wIndex := 0; wLength := 2 |}.

Definition CDC_Device_SendControlLineStateChange : M (cdc H A) unit :=
  connected tt (λ i,
    Endpoint_SelectEndpoint (et_Address (NotificationEndpoint i));;
    Endpoint_Write_Stream_LE fuel (header_bytes Notification) sizeof_Request_Header None;;
    Endpoint_Write_Stream_LE fuel (le16 (DeviceToHost i)) 2 None;;
    Endpoint_ClearIN).
End driver.
