(* ===== verification/PrinterClassDevice.v ===== *)
(** * The printer class driver

    [LUFA/Drivers/USB/Class/Device/PrinterClassDevice.c] and [.h], with the
    constants of [Class/Common/PrinterClassCommon.h].  The event belongs to the
    application and is a parameter. *)

From S2P Require Import Prelude StdDescriptors Hardware Lufa Device Endpoint ControlStream Requests Streams.
From S2P Require Import ClassDriver.

Definition PRNT_PORTSTATUS_NOTERROR : Z := Z.shiftl 1 3.
Definition PRNT_PORTSTATUS_SELECT : Z := Z.shiftl 1 4.
Definition PRNT_PORTSTATUS_PAPEREMPTY : Z := Z.shiftl 1 5.
Definition PRNT_CSCP_PrinterClass : Z := 0x07.
Definition PRNT_CSCP_PrinterSubclass : Z := 0x01.
Definition PRNT_CSCP_BidirectionalProtocol : Z := 0x02.
Definition PRNT_REQ_GetDeviceID : Z := 0x00.
Definition PRNT_REQ_GetPortStatus : Z := 0x01.
Definition PRNT_REQ_SoftReset : Z := 0x02.

Record USB_ClassInfo_PRNT_Device_t := {
  InterfaceNumber : Z;                          (** [Config], [uint8_t] *)
  DataINEndpoint : USB_Endpoint_Table_t;
  DataOUTEndpoint : USB_Endpoint_Table_t;
  IEEE1284String : list Z;                      (** with its terminating zero *)
  PortStatus : Z;                               (** [State], [uint8_t] *)
  IsPrinterReset : bool;
}.

Definition set_State (p : Z) (r : bool) (i : USB_ClassInfo_PRNT_Device_t) : USB_ClassInfo_PRNT_Device_t :=
  {| InterfaceNumber := InterfaceNumber i; DataINEndpoint := DataINEndpoint i;
     DataOUTEndpoint := DataOUTEndpoint i; IEEE1284String := IEEE1284String i;
     PortStatus := p; IsPrinterReset := r |}.
Definition set_reset (r : bool) (i : USB_ClassInfo_PRNT_Device_t) := set_State (PortStatus i) r i.
Definition set_types (i : USB_ClassInfo_PRNT_Device_t) : USB_ClassInfo_PRNT_Device_t :=
  {| InterfaceNumber := InterfaceNumber i; DataINEndpoint := set_type EP_TYPE_BULK (DataINEndpoint i);
     DataOUTEndpoint := set_type EP_TYPE_BULK (DataOUTEndpoint i); IEEE1284String := IEEE1284String i;
     PortStatus := PortStatus i; IsPrinterReset := IsPrinterReset i |}.

Abbreviation prnt H A := (driver H USB_ClassInfo_PRNT_Device_t A).

Section driver.
Context {H A : Type} `{!Mcu H} (fuel : nat).
Context (EVENT_PRNT_Device_SoftReset : USB_ClassInfo_PRNT_Device_t → M A unit).

Definition GetDeviceID (IEEE1284String : list Z) : M (lufa H) unit :=
  Endpoint_ClearSETUP;;
  ready ← status_wait fuel Endpoint_IsINReady;
  if negb ready then mret tt else
  n ← checked (strlen IEEE1284String);
  let IEEEStringLen := u16 (Z.of_nat n) in
  Endpoint_Write_16_BE (u16 (IEEEStringLen + 2));;
  Endpoint_Write_Control_Stream_LE fuel IEEE1284String IEEEStringLen;;
  Endpoint_ClearStatusStage fuel.

Definition GetPortStatus (PortStatus : Z) : M (lufa H) unit :=
  Endpoint_ClearSETUP;;
  ready ← status_wait fuel Endpoint_IsINReady;
  if negb ready then mret tt else
  Endpoint_Write_8 PortStatus;;
  Endpoint_ClearIN;;
  Endpoint_ClearStatusStage fuel.

Definition PRNT_switch (q : USB_Request_Header_t) (i : USB_ClassInfo_PRNT_Device_t) : M (prnt H A) unit :=
  let from_device := bmRequestType q =? class_request REQDIR_DEVICETOHOST in
  let to_device := bmRequestType q =? class_request REQDIR_HOSTTODEVICE in
  if bRequest q =? PRNT_REQ_GetDeviceID then
    when from_device (on_lib (GetDeviceID (IEEE1284String i)))
  else if bRequest q =? PRNT_REQ_GetPortStatus then
    when from_device (on_lib (GetPortStatus (PortStatus i)))
  else if bRequest q =? PRNT_REQ_SoftReset then
    when to_device
      (on_lib (Endpoint_ClearSETUP;; Endpoint_ClearStatusStage fuel);;
       upd_info (set_reset true);;
       i ← gets info;
       on_app (EVENT_PRNT_Device_SoftReset i))
  else mret tt.

Definition PRNT_Device_ProcessControlRequest : M (prnt H A) unit :=
  pending ← on_lib Endpoint_IsSETUPReceived;
  if negb pending then mret tt else
  q ← on_lib (gets USB_ControlRequest);
  i ← gets info;
  if negb (wIndex q =? InterfaceNumber i) then mret tt else
  PRNT_switch q i.

Definition PRNT_Device_ConfigureEndpoints : M (prnt H A) bool :=
  upd_info (set_State 0 false);;
  upd_info (set_State (Z.lor PRNT_PORTSTATUS_NOTERROR PRNT_PORTSTATUS_SELECT) false);;
  upd_info set_types;;
  i ← gets info;
  on_lib (configure_all [DataINEndpoint i; DataOUTEndpoint i]).

(** [if (USB_DeviceState != DEVICE_STATE_Configured) return result;] *)
Definition connected {B} (result : B) (body : USB_ClassInfo_PRNT_Device_t → M (lufa H) B) : M (prnt H A) B :=
  s ← on_lib (gets USB_DeviceState);
  i ← gets info;
  if negb (bool_decide (s = DEVICE_STATE_Configured)) then mret result else on_lib (body i).

Definition in_address (i : USB_ClassInfo_PRNT_Device_t) : Z := et_Address (DataINEndpoint i).
Definition out_address (i : USB_ClassInfo_PRNT_Device_t) : Z := et_Address (DataOUTEndpoint i).

(** Both endpoints start anew. *)
Definition reset_pipes (IN OUT : Z) : M (lufa H) unit :=
  Endpoint_ResetEndpoint OUT;;
  Endpoint_ResetEndpoint IN;;
  Endpoint_SelectEndpoint OUT;;
  Endpoint_ClearStall;;
  Endpoint_ResetDataToggle;;
  Endpoint_SelectEndpoint IN;;
  Endpoint_ClearStall;;
  Endpoint_ResetDataToggle.

Definition PRNT_Device_USBTask : M (prnt H A) unit :=
  s ← on_lib (gets USB_DeviceState);
  if negb (bool_decide (s = DEVICE_STATE_Configured)) then mret tt else
  i ← gets info;
  on_lib (pipe_task fuel (in_address i));;
  i ← gets info;
  when (IsPrinterReset i)
    (on_lib (reset_pipes (in_address i) (out_address i));;
     upd_info (set_reset false)).

Definition PRNT_Device_SendString (String : list Z) : M (prnt H A) Z :=
  connected ENDPOINT_RWSTREAM_DeviceDisconnected (λ i, pipe_SendString fuel (in_address i) String).
Definition PRNT_Device_SendData (Buffer : list Z) (Length : Z) : M (prnt H A) Z :=
  connected ENDPOINT_RWSTREAM_DeviceDisconnected (λ i, pipe_SendData fuel (in_address i) Buffer Length).
Definition PRNT_Device_SendByte (Data : Z) : M (prnt H A) Z :=
  connected ENDPOINT_RWSTREAM_DeviceDisconnected (λ i, pipe_SendByte fuel (in_address i) Data).
Definition PRNT_Device_Flush : M (prnt H A) Z :=
  connected ENDPOINT_RWSTREAM_DeviceDisconnected (λ i, pipe_Flush fuel (in_address i)).
Definition PRNT_Device_BytesReceived : M (prnt H A) Z :=
  connected 0 (λ i, pipe_BytesReceived (out_address i)).
Definition PRNT_Device_ReceiveByte : M (prnt H A) Z :=
  connected (-1) (λ i, pipe_ReceiveByte (out_address i)).

(** [PRNT_Device_putchar] and [PRNT_Device_getchar] for the stream of a driver. *)
Definition PRNT_Device_putchar (FDEV_ERR c : Z) : M (prnt H A) Z :=
  e ← PRNT_Device_SendByte (u8 c);
  mret (if e =? 0 then 0 else FDEV_ERR).
Definition PRNT_Device_getchar (FDEV_EOF : Z) : M (prnt H A) Z :=
  ReceivedByte ← PRNT_Device_ReceiveByte;
  mret (if ReceivedByte <? 0 then FDEV_EOF else ReceivedByte).
End driver.
