(* ===== verification/MIDIClassDevice.v ===== *)
(** * The MIDI class driver

    [LUFA/Drivers/USB/Class/Device/MIDIClassDevice.c] and [.h], with the event
    packet and the macros of [Class/Common/MIDIClassCommon.h]. *)

From S2P Require Import Prelude StdDescriptors Hardware Lufa Device Endpoint ControlStream Requests Streams.
From S2P Require Import ClassDriver.

Definition MIDI_COMMAND_SYSEX_2BYTE : Z := 0x20.
Definition MIDI_COMMAND_SYSEX_3BYTE : Z := 0x30.
Definition MIDI_COMMAND_SYSEX_START_3BYTE : Z := 0x40.
Definition MIDI_COMMAND_SYSEX_END_1BYTE : Z := 0x50.
Definition MIDI_COMMAND_SYSEX_1BYTE : Z := MIDI_COMMAND_SYSEX_END_1BYTE.
Definition MIDI_COMMAND_SYSEX_END_2BYTE : Z := 0x60.
Definition MIDI_COMMAND_SYSEX_END_3BYTE : Z := 0x70.
Definition MIDI_COMMAND_NOTE_OFF : Z := 0x80.
Definition MIDI_COMMAND_NOTE_ON : Z := 0x90.
Definition MIDI_COMMAND_NOTE_PRESSURE : Z := 0xA0.
Definition MIDI_COMMAND_CONTROL_CHANGE : Z := 0xB0.
Definition MIDI_COMMAND_PROGRAM_CHANGE : Z := 0xC0.
Definition MIDI_COMMAND_CHANNEL_PRESSURE : Z := 0xD0.
Definition MIDI_COMMAND_PITCH_WHEEL_CHANGE : Z := 0xE0.
Definition MIDI_STANDARD_VELOCITY : Z := 64.
Definition MIDI_CHANNEL (channel : Z) : Z := channel - 1.
Definition MIDI_EVENT (virtualcable command : Z) : Z :=
  Z.lor (Z.shiftl virtualcable 4) (Z.shiftr command 4).

Record MIDI_EventPacket_t := { Event : Z; Data1 : Z; Data2 : Z; Data3 : Z }.
Definition MIDI_EventPacket_bytes (e : MIDI_EventPacket_t) : list Z := [Event e; Data1 e; Data2 e; Data3 e].
Definition MIDI_EventPacket_of (l : list Z) : option MIDI_EventPacket_t :=
  match l with
  | [e; a; b; c] => Some {| Event := e; Data1 := a; Data2 := b; Data3 := c |}
  | _ => None
  end.
Definition sizeof_MIDI_EventPacket : Z := 4.

(** The state has no fields in use. *)
Record USB_ClassInfo_MIDI_Device_t := {
  StreamingInterfaceNumber : Z;
  DataINEndpoint : USB_Endpoint_Table_t;
  DataOUTEndpoint : USB_Endpoint_Table_t;
}.
Definition set_types (i : USB_ClassInfo_MIDI_Device_t) : USB_ClassInfo_MIDI_Device_t :=
  {| StreamingInterfaceNumber := StreamingInterfaceNumber i;
     DataINEndpoint := set_type EP_TYPE_BULK (DataINEndpoint i);
     DataOUTEndpoint := set_type EP_TYPE_BULK (DataOUTEndpoint i) |}.

Abbreviation midi H A := (driver H USB_ClassInfo_MIDI_Device_t A).

Section driver.
Context {H A : Type} `{!Mcu H} (fuel : nat).

Definition MIDI_Device_ConfigureEndpoints : M (midi H A) bool :=
  upd_info set_types;;
  i ← gets info;
  on_lib (configure_all [DataINEndpoint i; DataOUTEndpoint i]).

(** [if (USB_DeviceState != DEVICE_STATE_Configured) return result;] *)
Definition connected {B} (result : B) (body : USB_ClassInfo_MIDI_Device_t → M (lufa H) B) : M (midi H A) B :=
  s ← on_lib (gets USB_DeviceState);
  i ← gets info;
  if negb (bool_decide (s = DEVICE_STATE_Configured)) then mret result else on_lib (body i).

Definition in_address (i : USB_ClassInfo_MIDI_Device_t) : Z := et_Address (DataINEndpoint i).
Definition out_address (i : USB_ClassInfo_MIDI_Device_t) : Z := et_Address (DataOUTEndpoint i).

Definition flush (IN : Z) : M (lufa H) Z :=
  Endpoint_SelectEndpoint IN;;
  n ← Endpoint_BytesInEndpoint;
  if n =? 0 then mret ENDPOINT_READYWAIT_NoError else
  Endpoint_ClearIN;;
  ErrorCode ← Endpoint_WaitUntilReady fuel;
  if negb (ErrorCode =? ENDPOINT_READYWAIT_NoError) then mret ErrorCode
  else mret ENDPOINT_READYWAIT_NoError.

Definition MIDI_Device_Flush : M (midi H A) Z :=
  connected ENDPOINT_RWSTREAM_DeviceDisconnected (λ i, flush (in_address i)).

Definition MIDI_Device_USBTask : M (midi H A) unit :=
  connected tt (λ i,
    Endpoint_SelectEndpoint (in_address i);;
    ready ← Endpoint_IsINReady;
    when ready (flush (in_address i);; mret tt)).

Definition send_event (IN : Z) (event : list Z) : M (lufa H) Z :=
  Endpoint_SelectEndpoint IN;;
  r ← Endpoint_Write_Stream_LE fuel event sizeof_MIDI_EventPacket None;
  if negb (r.1 =? ENDPOINT_RWSTREAM_NoError) then mret r.1 else
  allowed ← Endpoint_IsReadWriteAllowed;
  when (negb allowed) Endpoint_ClearIN;;
  mret ENDPOINT_RWSTREAM_NoError.

Definition MIDI_Device_SendEventPacket (e : MIDI_EventPacket_t) : M (midi H A) Z :=
  connected ENDPOINT_RWSTREAM_DeviceDisconnected (λ i, send_event (in_address i) (MIDI_EventPacket_bytes e)).

(** The result of the function and the bytes behind the pointer [Event]. *)
Definition receive_event (OUT : Z) (event : list Z) : M (lufa H) (bool * list Z) :=
  Endpoint_SelectEndpoint OUT;;
  received ← Endpoint_IsOUTReceived;
  if negb received then mret (false, event) else
  allowed ← Endpoint_IsReadWriteAllowed;
  if negb allowed then mret (false, event) else
  r ← Endpoint_Read_Stream_LE fuel event sizeof_MIDI_EventPacket None;
  allowed ← Endpoint_IsReadWriteAllowed;
  when (negb allowed) Endpoint_ClearOUT;;
  mret (true, r.1.2).

Definition MIDI_Device_ReceiveEventPacket (event : list Z) : M (midi H A) (bool * list Z) :=
  connected (false, event) (λ i, receive_event (out_address i) event).
End driver.
