(* ===== verification/Controller.v ===== *)
(** * The USB controller: start, stop, interrupts

    [LUFA/Drivers/USB/Core/AVR8/USBController_AVR8.c] and the interrupt
    handler of [USBInterrupt_AVR8.c], for the ATmega16U2 in device mode, and
    [SetupHardware] of [src/Firmware/Joystick.c]. *)

From S2P Require Import Prelude StdDescriptors Hardware Lufa Board Device Endpoint.

Section controller.
Context {H : Type} `{!Mcu H} (fuel : nat).

(** ** USBController_AVR8.c *)

Definition USB_Init_Device : M (lufa H) unit :=
  modify (set_DeviceState DEVICE_STATE_Unattached);;
  modify (set_ConfigurationNumber 0);;
  modify (set_RemoteWakeupEnabled false);;
  modify (set_CurrentlySelfPowered false);;
  Endpoint_ConfigureEndpoint ENDPOINT_CONTROLEP EP_TYPE_CONTROL USB_Device_ControlEndpointSize 1;;
  USB_INT_Clear USB_INT_SUSPI;;
  USB_INT_Enable USB_INT_SUSPI;;
  USB_INT_Enable USB_INT_EORSTI;;
  USB_Attach.

Definition USB_ResetInterface : M (lufa H) unit :=
  USB_INT_DisableAllInterrupts;;
  USB_INT_ClearAllInterrupts;;
  USB_Controller_Reset;;
  USB_CLK_Unfreeze;;
  when (negb (has USB_Options USB_OPT_MANUAL_PLL))
    (USB_PLL_On;; wait_until fuel USB_PLL_IsReady);;
  USB_Init_Device.

Definition USB_Init : M (lufa H) unit :=
  (if negb (has USB_Options USB_OPT_REG_DISABLED) then USB_REG_On else USB_REG_Off);;
  modify (set_IsInitialized true);;
  USB_ResetInterface.

Definition USB_Disable : M (lufa H) unit :=
  USB_INT_DisableAllInterrupts;;
  USB_INT_ClearAllInterrupts;;
  USB_Detach;;
  USB_Controller_Disable;;
  when (negb (has USB_Options USB_OPT_MANUAL_PLL)) USB_PLL_Off;;
  when (negb (has USB_Options USB_OPT_REG_KEEP_ENABLED)) USB_REG_Off;;
  modify (set_IsInitialized false).

(** ** USBInterrupt_AVR8.c

    The events that it raises are empty in the firmware
    ([EVENT_USB_Device_Connect], [EVENT_USB_Device_Disconnect]) or the empty
    stub of the library. *)

Definition int_fires (i : USB_Interrupts_t) : M (lufa H) bool :=
  occurred ← USB_INT_HasOccurred i;
  if occurred : bool then USB_INT_IsEnabled i else mret false.

Definition USB_GEN_vect : M (lufa H) unit :=
  sof ← int_fires USB_INT_SOFI;
  when sof (USB_INT_Clear USB_INT_SOFI);;
  susp ← int_fires USB_INT_SUSPI;
  when susp
    (USB_INT_Disable USB_INT_SUSPI;;
     USB_INT_Enable USB_INT_WAKEUPI;;
     USB_CLK_Freeze;;
     when (negb (has USB_Options USB_OPT_MANUAL_PLL)) USB_PLL_Off;;
     modify (set_DeviceState DEVICE_STATE_Unattached));;
  wake ← int_fires USB_INT_WAKEUPI;
  when wake
    (when (negb (has USB_Options USB_OPT_MANUAL_PLL))
       (USB_PLL_On;; wait_until fuel USB_PLL_IsReady);;
     USB_CLK_Unfreeze;;
     USB_INT_Clear USB_INT_WAKEUPI;;
     USB_INT_Disable USB_INT_WAKEUPI;;
     USB_INT_Enable USB_INT_SUSPI;;
     n ← gets USB_Device_ConfigurationNumber;
     if negb (n =? 0) then modify (set_DeviceState DEVICE_STATE_Configured)
     else
       a ← USB_Device_IsAddressSet;
       modify (set_DeviceState (if a : bool then DEVICE_STATE_Addressed
                                else DEVICE_STATE_Powered)));;
  rst ← int_fires USB_INT_EORSTI;
  when rst
    (USB_INT_Clear USB_INT_EORSTI;;
     modify (set_DeviceState DEVICE_STATE_Default);;
     modify (set_ConfigurationNumber 0);;
     USB_INT_Clear USB_INT_SUSPI;;
     USB_INT_Disable USB_INT_SUSPI;;
     USB_INT_Enable USB_INT_WAKEUPI;;
     Endpoint_ConfigureEndpoint ENDPOINT_CONTROLEP EP_TYPE_CONTROL USB_Device_ControlEndpointSize
       1;;
     mret tt).

(** ** Joystick.c *)

Definition clock_div_1 : Z := 0.

Definition SetupHardware : M (lufa H) unit :=
  disable_watchdog;;
  on_mcu (clock_prescale_set clock_div_1);;
  USART_Init;;
  LEDs_Init;;
  USB_Init.
End controller.

Section sims.
Context {H : Type} `{!Mcu H} `{!McuSpec H}.

Lemma sim_USB_GEN_vect fuel : sim (USB_GEN_vect fuel) (USB_GEN_vect fuel).
Proof. solve_sim. Qed.
Lemma sim_USB_Disable : sim USB_Disable USB_Disable.
Proof. solve_sim. Qed.
Lemma sim_SetupHardware fuel : sim (SetupHardware fuel) (SetupHardware fuel).
Proof. solve_sim. Qed.
End sims.

#[export] Hint Resolve sim_USB_GEN_vect sim_USB_Disable sim_SetupHardware : sim.
