(* ===== verification/ControlFacts.v ===== *)
(** * Control transfers: what the host receives

    The operations of the control endpoint as functions on its state, and the
    data stage of a control read: whatever the delays of the host, it receives
    the bytes that it asked for. *)

From S2P Require Import Prelude StdDescriptors Hardware Lufa Board Device Endpoint ControlStream.

(** ** The operations of the control endpoint *)

Definition at_ctl (c : ctl) (l : lufa hwview) : lufa hwview :=
  set_mcu (with_ctl c (mcu l)) l.

Definition set_busy (c : ctl) : ctl :=
  {| c_setup := c_setup c; c_bank := c_bank c; c_busy := true; c_taken := c_taken c;
     c_out := c_out c; c_host := c_host c |}.
Definition drop_out (c : ctl) : ctl :=
  {| c_setup := c_setup c; c_bank := c_bank c; c_busy := c_busy c; c_taken := c_taken c;
     c_out := None; c_host := c_host c |}.
Definition drop_setup (c : ctl) : ctl :=
  {| c_setup := None; c_bank := c_bank c; c_busy := c_busy c; c_taken := c_taken c;
     c_out := c_out c; c_host := c_host c |}.
Definition push_all (l : list Z) (c : ctl) : ctl :=
  {| c_setup := c_setup c; c_bank := c_bank c ++ l; c_busy := c_busy c; c_taken := c_taken c;
     c_out := c_out c; c_host := c_host c |}.

Section operations.
Context (l : lufa hwview) (Hsel : v_uenum (mcu l) = 0).

Lemma get_ueintx c :
  get_reg UEINTX (at_ctl c l) =
  Ok (of_bits [negb (c_busy (host_tick c)); false; bool_decide (is_Some (c_out (host_tick c)));
               bool_decide (is_Some (c_setup (host_tick c))); false; false; false; false])
     (at_ctl (host_tick c) l).
Proof.
  unfold get_reg, on_mcu, zoom. cbn [rd view_Mcu mcu at_ctl set_mcu before_read after_read].
  cbn [reg_value]. unfold ueintx_bits. cbn [v_uenum with_ctl v_ctl]. by rewrite Hsel.
Qed.

Lemma set_ueintx c x :
  set_reg UEINTX x (at_ctl c l) = Ok tt (at_ctl (ack_ctl x c) l).
Proof.
  unfold set_reg, on_mcu, zoom. cbn [wr view_Mcu mcu at_ctl set_mcu after_write v_uenum with_ctl].
  by rewrite Hsel.
Qed.

(** The flags and their acknowledgement. *)
Ltac flag := unfold test_bits, clear_bits, mbind, M_bind; rewrite get_ueintx;
  repeat case_bool_decide; repeat (destruct (c_busy _)); done.

Lemma ctl_IsINReady c :
  Endpoint_IsINReady (at_ctl c l) = Ok (negb (c_busy (host_tick c))) (at_ctl (host_tick c) l).
Proof. unfold Endpoint_IsINReady. flag. Qed.
Lemma ctl_IsOUTReceived c :
  Endpoint_IsOUTReceived (at_ctl c l) =
  Ok (bool_decide (is_Some (c_out (host_tick c)))) (at_ctl (host_tick c) l).
Proof. unfold Endpoint_IsOUTReceived. flag. Qed.
Lemma ctl_IsSETUPReceived c :
  Endpoint_IsSETUPReceived (at_ctl c l) =
  Ok (bool_decide (is_Some (c_setup (host_tick c)))) (at_ctl (host_tick c) l).
Proof. unfold Endpoint_IsSETUPReceived. flag. Qed.

Lemma ack_ctl_ext x c c' : ack_ctl x c = c' → Ok tt (at_ctl (ack_ctl x c) l) = Ok (S := lufa hwview) tt (at_ctl c' l).
Proof. by intros ->. Qed.

Ltac ack := unfold clear_bits, mbind, M_bind; rewrite get_ueintx; rewrite set_ueintx;
  apply ack_ctl_ext; destruct (host_tick _) as [s k b t o h]; unfold ack_ctl; cbn;
  destruct s, b, o; done.

Lemma ctl_ClearIN c :
  Endpoint_ClearIN (at_ctl c l) = Ok tt (at_ctl (set_busy (host_tick c)) l).
Proof. unfold Endpoint_ClearIN. ack. Qed.
Lemma ctl_ClearOUT c :
  Endpoint_ClearOUT (at_ctl c l) = Ok tt (at_ctl (drop_out (host_tick c)) l).
Proof. unfold Endpoint_ClearOUT. ack. Qed.
Lemma ctl_ClearSETUP c :
  Endpoint_ClearSETUP (at_ctl c l) = Ok tt (at_ctl (drop_setup (host_tick c)) l).
Proof. unfold Endpoint_ClearSETUP. ack. Qed.

Lemma ctl_Write_8 c b : Endpoint_Write_8 b (at_ctl c l) = Ok tt (at_ctl (push_bank b c) l).
Proof.
  unfold Endpoint_Write_8, set_reg, on_mcu, zoom.
  cbn [wr view_Mcu mcu at_ctl set_mcu after_write v_uenum with_ctl]. by rewrite Hsel.
Qed.

Lemma ctl_Read_8 c b s :
  c_setup c = Some (b :: s) → Endpoint_Read_8 (at_ctl c l) = Ok b (at_ctl (pop_setup c) l).
Proof.
  intros Hs. unfold Endpoint_Read_8, get_reg, on_mcu, zoom.
  cbn [rd view_Mcu mcu at_ctl set_mcu before_read after_read reg_value v_uenum with_ctl v_ctl].
  rewrite Hsel. cbn [Z.eqb]. by rewrite Hs.
Qed.

Lemma ctl_BytesInEndpoint c :
  c_setup c = None → c_out c = None ∨ c_out c = Some [] → c_bank c = [] →
  Endpoint_BytesInEndpoint (at_ctl c l) = Ok 0 (at_ctl c l).
Proof.
  intros Hs Ho Hb. unfold Endpoint_BytesInEndpoint, get_reg, on_mcu, zoom.
  cbn [rd view_Mcu mcu at_ctl set_mcu before_read after_read reg_value v_uenum with_ctl v_ctl].
  rewrite Hsel. cbn [Z.eqb]. rewrite Hs, Hb. by destruct Ho as [-> | ->].
Qed.
End operations.

(** ** The packets of a control read *)

(** The packets that the device has handed over, taken or not. *)
Definition written (c : ctl) : list (list Z) :=
  c_taken c ++ (if c_busy c then [c_bank c] else []).

(** How long the host can still wait. *)
Definition host_wait (c : ctl) : nat :=
  h_idle (c_host c) + sum_list (h_delays (c_host c)) + (if c_busy c then 1 else 0) +
  (if h_status (c_host c) then 0 else 1).

(** The device has sent [i] bytes of [data] in packets that are full but for
    the last; [full] says that the last one is full.  The host asked for
    [want] bytes and ends the data stage when it has them. *)
Record sending (data : list Z) (want i : nat) (full : bool) (c : ctl) : Prop := {
  sd_setup : c_setup c = None;
  sd_reading : h_reading (c_host c) = true;
  sd_want : h_want (c_host c) = want;
  sd_status : h_status (c_host c) = bool_decide (is_Some (c_out c));
  sd_out : c_out c = None ∨ c_out c = Some [];
  sd_done : h_status (c_host c) = true → has_all want (c_taken c) = true;
  sd_bank : c_busy c = false → c_bank c = [];
  sd_i : (i ≤ length data `min` want)%nat;
  sd_data : concat (written c) = take i data;
  sd_shape : ∃ fulls rest, written c = fulls ++ rest ∧ Forall (λ p, length p = 32%nat) fulls ∧
    ((rest = [] ∧ full = bool_decide (fulls ≠ [])) ∨
     (∃ p, rest = [p] ∧ (length p < 32)%nat ∧ i = (length data `min` want)%nat ∧ full = false));
}.

(** The host has taken [reply] and the transfer is over. *)
Record delivered (reply : list Z) (c : ctl) : Prop := {
  dl_setup : c_setup c = None;
  dl_data : concat (c_taken c) = reply;
  dl_size : Forall (λ p, length p ≤ 32)%nat (c_taken c);
  dl_reading : h_reading (c_host c) = true;
  dl_status : h_status (c_host c) = true;
  dl_all : has_all (h_want (c_host c)) (c_taken c) = true;
}.

Lemma delivered_tick reply c : delivered reply c → delivered reply (host_tick c).
Proof.
  intros [Hs Hd Hz Hr Hst Ha]. unfold host_tick. destruct (h_idle _); [|by constructor].
  rewrite Hr, Ha, Hst. by constructor.
Qed.

Lemma delivered_drop_out reply c : delivered reply c → delivered reply (drop_out c).
Proof. intros []. by constructor. Qed.

Section sending.
Context (data : list Z) (want : nat).
Local Abbreviation total := (length data `min` want)%nat.

Lemma sending_tick i full c : sending data want i full c → sending data want i full (host_tick c).
Proof.
  intros [Hs Hr Hw Hst Hout Hd Hb Hi Hda Hsh]. unfold host_tick.
  destruct (h_idle (c_host c)) as [|n]; [|by constructor].
  rewrite Hr, Hw. cbn [andb]. destruct (has_all want (c_taken c)) eqn:Hall.
  - destruct (h_status (c_host c)) eqn:Hst'; constructor; cbn; auto; by rewrite Hst'.
  - destruct (c_busy c) eqn:Hbusy;
      [|rewrite (data_ready_reading c Hr); constructor; rewrite ?Hall, ?Hbusy; done].
    assert (written c = (c_taken c ++ [c_bank c]) ++ []) as Hwr.
    { unfold written. by rewrite Hbusy, app_nil_r. }
    constructor; cbn; try done.
    + intros Ht. by apply Hd in Ht.
    + by rewrite <- Hda, Hwr.
    + by rewrite <- Hwr.
Qed.

Lemma wait_tick i full c : sending data want i full c → (host_wait (host_tick c) ≤ host_wait c)%nat.
Proof.
  intros [_ Hr Hw _ _ _ _ _ _ _]. unfold host_tick, host_wait.
  destruct (h_idle (c_host c)) as [|n] eqn:Hid; [|cbn; lia].
  rewrite Hr, Hw. cbn [andb]. destruct (has_all _ _).
  - destruct (h_status (c_host c)) eqn:Hst; [rewrite Hid, Hst; lia|].
    cbn. destruct (h_delays (c_host c)); cbn; lia.
  - destruct (c_busy c) eqn:Hb; [|rewrite (data_ready_reading c Hr), Hb, Hid; lia].
    cbn. destruct (h_delays (c_host c)); cbn; lia.
Qed.

(** While the host owes an answer, each poll brings it nearer. *)
Lemma wait_tick_lt i full c :
  sending data want i full c → c_out c = None →
  c_busy c = true ∨ has_all want (c_taken c) = true →
  (host_wait (host_tick c) < host_wait c)%nat.
Proof.
  intros [_ Hr Hw Hst _ _ _ _ _ _] Ho Hbusy. rewrite Ho, bool_decide_eq_false_2 in Hst.
  2: { by intros [? ?]. }
  unfold host_tick, host_wait. destruct (h_idle (c_host c)) as [|n] eqn:Hid; [|cbn; lia].
  rewrite Hr, Hw, Hst. cbn [andb]. destruct (has_all _ _).
  - cbn. destruct (h_delays (c_host c)); cbn; lia.
  - destruct Hbusy as [Hbusy|?]; [|done]. rewrite Hbusy. cbn.
    destruct (h_delays (c_host c)), (h_status (c_host c)); cbn; lia.
Qed.

(** When the host is content it has the whole reply. *)
Lemma sending_has_all i full c :
  sending data want i full c → has_all want (c_taken c) = true →
  concat (c_taken c) = take want data ∧ Forall (λ p, length p ≤ 32)%nat (c_taken c).
Proof.
  intros [_ _ _ _ _ _ _ Hi Hda (fulls & rest & Hwr & Hfull & Hrest)] Hall.
  assert (Forall (λ p, length p ≤ 32)%nat (written c)) as Hle.
  { rewrite Hwr. apply Forall_app. split; [eapply Forall_impl; [done|]; simpl; lia|].
    destruct Hrest as [[-> _]|(p & -> & ? & _)]; [constructor|].
    apply Forall_singleton. lia. }
  unfold written in *. apply Forall_app in Hle as [Hle _]. split; [|done].
  assert (take want data = take total data) as ->.
  { destruct (decide (want ≤ length data)%nat); [by rewrite Nat.min_r|].
    rewrite Nat.min_l by lia. rewrite !take_ge; lia || done. }
  unfold has_all in Hall. apply orb_prop in Hall as [Hall|Hall].
  - apply bool_decide_eq_true in Hall. rewrite concat_app in Hda.
    assert (length (concat (c_taken c)) ≤ i)%nat.
    { apply (f_equal length) in Hda. rewrite length_app, length_take in Hda. lia. }
    assert (i = total) as -> by lia.
    rewrite <- (take_app_length (concat (c_taken c)) (concat (if c_busy c then [c_bank c] else []))).
    rewrite Hda, take_take. f_equal. lia.
  - destruct (last (c_taken c)) as [p|] eqn:Hlast; [|done].
    apply bool_decide_eq_true in Hall. apply last_Some in Hlast as [pre Hpre].
    assert (∀ q, q ∈ fulls → length q = 32%nat) as Hfulls by (by apply Forall_forall).
    destruct Hrest as [[-> _]|(q & -> & Hq & -> & _)].
    + exfalso. assert (p ∈ fulls); [|naive_solver lia].
      rewrite app_nil_r in Hwr. rewrite <- Hwr, Hpre. set_solver.
    + destruct (c_busy c).
      * apply app_inj_tail in Hwr as [Hwr _]. exfalso.
        assert (p ∈ fulls); [|naive_solver lia]. rewrite <- Hwr, Hpre. set_solver.
      * by rewrite app_nil_r in Hda.
Qed.

(** When everything is sent and taken, the host is content. *)
Lemma sending_all_taken c :
  sending data want total false c → (0 < length data)%nat → c_busy c = false →
  has_all want (c_taken c) = true.
Proof.
  intros [_ _ _ _ _ _ _ _ Hda (fulls & rest & Hwr & Hfull & Hrest)] Hlen Hbusy.
  unfold written in *. rewrite Hbusy, app_nil_r in *. unfold has_all.
  destruct Hrest as [[-> Hf]|(p & -> & Hp & _)].
  - destruct fulls as [|q fulls]; [|by rewrite bool_decide_eq_true_2 in Hf by done].
    rewrite Hwr in *. cbn in Hda. apply (f_equal length) in Hda. rewrite length_take in Hda.
    cbn in Hda. rewrite bool_decide_eq_true_2; [done|]. cbn. lia.
  - rewrite Hwr, last_snoc. rewrite (bool_decide_eq_true_2 (_ < _)%nat) by done.
    by rewrite orb_true_r.
Qed.
End sending.

(** ** The loops of the data stage *)

Section stage.
Context (l : lufa hwview) (Hsel : v_uenum (mcu l) = 0).
Context (Hstate : USB_DeviceState l ≠ DEVICE_STATE_Unattached ∧
                  USB_DeviceState l ≠ DEVICE_STATE_Suspended).
(** The buffer holds [data] and may be longer. *)
Context (data beyond : list Z) (want : nat).
Local Abbreviation buffer := (data ++ beyond).
Local Abbreviation total := (length data `min` want)%nat.

Lemma push_all_nil c : push_all [] c = c.
Proof. destruct c. unfold push_all. cbn. by rewrite app_nil_r. Qed.
Lemma push_all_bank b p c : push_all p (push_bank b c) = push_all (b :: p) c.
Proof. destruct c. unfold push_all, push_bank. cbn. by rewrite <- app_assoc. Qed.

(** A bank is filled with the next bytes. *)
Lemma put_bytes_spec n i k b c :
  (32 < n + b)%nat → (b ≤ 32)%nat → (i + k ≤ length data)%nat →
  let m := (k `min` (32 - b))%nat in
  put_bytes n LE buffer (Z.of_nat i) (Z.of_nat k) (Z.of_nat b) (at_ctl c l) =
  Ok (Z.of_nat (i + m), Z.of_nat (k - m), Z.of_nat (b + m))
     (at_ctl (push_all (take m (drop i data)) c) l).
Proof.
  revert i k b c. induction n as [|n IH]; intros i k b c Hn Hb Hk; [lia|]. cbn [put_bytes].
  change USB_Device_ControlEndpointSize with 32.
  destruct k as [|k]; [|destruct (decide (b = 32%nat)) as [->|Hne]].
  - cbn. rewrite push_all_nil. by rewrite !Nat.add_0_r.
  - rewrite Nat.min_0_r, take_0, push_all_nil, !Nat.add_0_r, Nat.sub_0_r. done.
  - destruct (Z.eqb_spec (Z.of_nat (S k)) 0); [lia|].
    destruct (Z.ltb_spec (Z.of_nat b) 32); [|lia]. cbn [negb andb].
    destruct (lookup_lt_is_Some_2 data i ltac:(lia)) as [x Hx].
    unfold byte_at. replace (0 <=? Z.of_nat i) with true by lia. rewrite Nat2Z.id.
    rewrite (lookup_app_l_Some _ beyond _ _ Hx).
    cbn [checked]. unfold mbind, M_bind, mret, M_ret. rewrite ctl_Write_8 by done.
    cbn [buffer_move].
    replace (Z.of_nat i + 1) with (Z.of_nat (S i)) by lia.
    replace (Z.of_nat (S k) - 1) with (Z.of_nat k) by lia.
    replace (Z.of_nat b + 1) with (Z.of_nat (S b)) by lia.
    rewrite IH by lia. rewrite (drop_S data x i Hx).
    replace (S k `min` (32 - b))%nat with (S (k `min` (32 - S b))) by lia.
    cbn [take]. rewrite push_all_bank.
    replace (i + S (k `min` (32 - S b)))%nat with (S i + k `min` (32 - S b))%nat by lia.
    replace (b + S (k `min` (32 - S b)))%nat with (S b + k `min` (32 - S b))%nat by lia.
    done.
Qed.

(** Nothing aborts the stage. *)
Lemma state_abort_None i full c :
  sending data want i full c →
  state_abort true (at_ctl c l) = Ok None (at_ctl (host_tick c) l).
Proof.
  intros Hc. unfold state_abort, gets, mbind, M_bind.
  destruct Hstate as [H1 H2]. cbn [USB_DeviceState at_ctl set_mcu].
  rewrite decide_False, decide_False by done. rewrite ctl_IsSETUPReceived by done.
  by rewrite (sd_setup _ _ _ _ _ (sending_tick _ _ _ _ _ Hc)).
Qed.

(** The next packet is sent. *)
Lemma sending_packet i full c :
  sending data want i full c → c_busy c = false →
  (i < total)%nat ∨ full = true →
  let m := ((total - i) `min` 32)%nat in
  sending data want (i + m) (bool_decide (m = 32%nat))
    (set_busy (push_all (take m (drop i data)) c)).
Proof.
  intros [Hs Hr Hw Hst Hout Hd Hb Hi Hda (fulls & rest & Hwr & Hfull & Hrest)] Hbusy Hgo m.
  assert (length (take m (drop i data)) = m) as Hm by (rewrite length_take, length_drop; lia).
  specialize (Hb Hbusy). unfold written in *. rewrite Hbusy, app_nil_r in *.
  constructor; cbn; try done.
  - lia.
  - unfold written. cbn. rewrite Hb, concat_app, Hda. cbn. rewrite app_nil_r.
    by rewrite take_take_drop.
  - assert (rest = []) as ->.
    { destruct Hrest as [[? _]|(p & -> & _ & -> & ->)]; [done|]. destruct Hgo; [lia|done]. }
    rewrite app_nil_r in Hwr. unfold written. cbn. rewrite Hb. cbn [app].
    destruct (bool_decide_reflect (m = 32%nat)) as [Hmm|Hmm].
    + exists (fulls ++ [take m (drop i data)]), []. rewrite app_nil_r, Hwr.
      split; [done|].
      split; [apply Forall_app; split; [done|]; apply Forall_singleton|].
      { rewrite Hm. exact Hmm. }
      left. split; [done|]. rewrite bool_decide_eq_true_2; [done|]. by destruct fulls.
    + exists fulls, [take m (drop i data)]. rewrite Hwr. split; [done|]. split; [done|].
      right. eexists. split; [done|]. rewrite Hm. split; [lia|]. split; [lia|done].
Qed.

(** The potential of the loop: the waiting of the host and the packets that
    are left. *)
Definition rank (i : nat) (full : bool) (c : ctl) : nat :=
  host_wait c + 2 * (total - i) + (if full then 2 else 0).

Lemma tick_push p c : c_busy c = false → host_tick (push_all p c) = push_all p (host_tick c).
Proof.
  destruct c as [s k b t o [n ds r w st d]]. cbn. intros ->. unfold host_tick, push_all, data_ready. cbn.
  destruct n; [|done]. destruct r; cbn.
  - destruct (has_all w t); [by destruct st|]. by destruct d, s, o.
  - by destruct d, s, o.
Qed.

Lemma tick_not_busy c : c_busy c = false → c_busy (host_tick c) = false.
Proof.
  intros Hb. unfold host_tick. destruct (h_idle _); [|done].
  destruct (_ && _); [by destruct (h_status (c_host c))|]. rewrite Hb.
  by destruct (data_ready c) as [[]|].
Qed.

Lemma bind3_continue {S A B C D} (m : M S A) (p : A → M S B) (q : M S C) (k : B → M S D) s x s' :
  (a ← m; r ← p a; q;; mret r) s = Ok x s' → (a ← m; r ← p a; q;; k r) s = k x s'.
Proof.
  unfold mbind, M_bind, mret, M_ret. destruct (m s) as [a s1|]; [|done].
  destruct (p a s1) as [r s2|]; [|done]. destruct (q s2); [|done]. intros. by simplify_eq.
Qed.

Lemma tick_out c x : c_out c = Some x → is_Some (c_out (host_tick c)).
Proof.
  intros Hx. unfold host_tick. destruct (h_idle _); [|cbn; by rewrite Hx].
  destruct (_ && _); [destruct (h_status (c_host c)); cbn; rewrite ?Hx; by eexists|].
  destruct (c_busy c); cbn; rewrite ?Hx; [by eexists|].
  destruct (data_ready c) as [[]|]; cbn; rewrite ?Hx; by eexists.
Qed.

(** One packet leaves the loop of the template. *)
Lemma write_packet i full c :
  sending data want i full c → c_busy c = false → (i < total)%nat ∨ full = true →
  ∃ c' m,
    (b ← Endpoint_BytesInEndpoint;
     r ← put_bytes (S (Z.to_nat USB_Device_ControlEndpointSize)) LE buffer
           (Z.of_nat i) (Z.of_nat (total - i)) b;
     Endpoint_ClearIN;; mret r) (at_ctl c l) =
      Ok (Z.of_nat (i + m), Z.of_nat (total - (i + m)), Z.of_nat m) (at_ctl c' l) ∧
    sending data want (i + m) (bool_decide (m = 32%nat)) c' ∧
    (rank (i + m) (bool_decide (m = 32%nat)) c' < rank i full c)%nat.
Proof.
  intros Hc Hbusy Hgo. set (m := ((total - i) `min` 32)%nat).
  pose proof (sd_i _ _ _ _ _ Hc) as Hi.
  pose proof (sending_tick _ _ _ _ _ Hc) as Hc1. pose proof (wait_tick _ _ _ _ _ Hc) as Hw1.
  pose proof (tick_not_busy _ Hbusy) as Hb1.
  exists (set_busy (push_all (take m (drop i data)) (host_tick c))), m.
  split; [|split].
  - unfold mbind, M_bind.
    rewrite ctl_BytesInEndpoint by (done || by eapply sd_setup || by eapply sd_out || by eapply sd_bank).
    change 0 with (Z.of_nat 0). change (Z.to_nat USB_Device_ControlEndpointSize) with 32%nat.
    rewrite put_bytes_spec by lia.
    rewrite ctl_ClearIN by done. rewrite tick_push by done.
    unfold mret, M_ret. rewrite Nat.sub_0_r. fold m.
    replace (total - i - m)%nat with (total - (i + m))%nat by lia. done.
  - by apply (sending_packet i full).
  - unfold rank. unfold host_wait at 1. cbn.
    unfold host_wait in Hw1 at 1. rewrite Hb1 in Hw1.
    destruct (bool_decide_reflect (m = 32%nat)), full; lia.
Qed.

(** The loop sends everything, or stops when the host has enough. *)
Lemma write_loop_spec n i full c :
  sending data want i full c → (rank i full c < n)%nat →
  ∃ i' full' c',
    write_loop n LE buffer (Z.of_nat i) (Z.of_nat (total - i)) full (at_ctl c l) =
      Ok None (at_ctl c' l) ∧
    sending data want i' full' c' ∧ (host_wait c' ≤ rank i full c)%nat ∧
    (is_Some (c_out c') ∨ (i' = total ∧ full' = false)).
Proof.
  revert i full c. induction n as [|n IH]; intros i full c Hc Hn; [lia|]. cbn [write_loop].
  pose proof (sd_i _ _ _ _ _ Hc) as Hi.
  destruct ((Z.of_nat (total - i) =? 0) && negb full) eqn:Hend.
  { exists i, full, c. split; [done|]. split; [done|]. split; [unfold rank; lia|]. right.
    apply andb_prop in Hend as [He Hf]. apply Z.eqb_eq in He. destruct full; [done|]. lia. }
  assert ((i < total)%nat ∨ full = true) as Hgo.
  { destruct full; [by right|]. left. cbn in Hend. rewrite andb_true_r in Hend.
    apply Z.eqb_neq in Hend. lia. }
  unfold mbind at 1, M_bind at 1. rewrite (state_abort_None _ _ _ Hc).
  pose proof (sending_tick _ _ _ _ _ Hc) as Hc1. pose proof (wait_tick _ _ _ _ _ Hc) as Hw1.
  set (c1 := host_tick c) in *. clearbody c1.
  unfold mbind at 1, M_bind at 1. rewrite ctl_IsOUTReceived by done.
  pose proof (sending_tick _ _ _ _ _ Hc1) as Hc2. pose proof (wait_tick _ _ _ _ _ Hc1) as Hw2.
  set (c2 := host_tick c1) in *.
  destruct (bool_decide_reflect (is_Some (c_out c2))) as [Hout|Hout].
  { exists i, full, c2. split; [done|]. split; [done|]. split; [unfold rank; lia|]. by left. }
  clearbody c2.
  unfold mbind at 1, M_bind at 1. rewrite ctl_IsINReady by done.
  pose proof (sending_tick _ _ _ _ _ Hc2) as Hc3. pose proof (wait_tick _ _ _ _ _ Hc2) as Hw3.
  destruct (c_busy (host_tick c2)) eqn:Hb3; cbn [negb].
  - destruct (IH i full (host_tick c2)) as (i' & full' & c' & Hrun & Hs' & Hw' & Hend'); [done| |].
    + unfold rank in *. assert (host_wait (host_tick c2) < host_wait c2)%nat; [|lia].
      assert (c_busy c2 = true) as Hb2.
      { destruct (c_busy c2) eqn:Hb2; [done|]. by rewrite tick_not_busy in Hb3. }
      eapply wait_tick_lt; [done|by apply eq_None_not_Some|by left].
    + exists i', full', c'. split; [done|]. split; [done|]. split; [|done].
      unfold rank in *. lia.
  - destruct (write_packet i full (host_tick c2) Hc3 Hb3 Hgo) as (c' & m & Hrun & Hs' & Hlt).
    rewrite (bind3_continue _ _ _ _ _ _ _ Hrun). cbn [fst snd].
    replace (Z.of_nat m =? USB_Device_ControlEndpointSize) with (bool_decide (m = 32%nat)).
    2: { change USB_Device_ControlEndpointSize with 32.
         destruct (bool_decide_reflect (m = 32%nat)); symmetry; [apply Z.eqb_eq|apply Z.eqb_neq]; lia. }
    unfold rank in *.
    destruct (IH _ _ _ Hs') as (i' & full' & c'' & Hrun' & Hs'' & Hw' & Hend'); [lia|].
    exists i', full', c''. split; [done|]. split; [done|]. split; [lia|done].
Qed.

(** The wait for the status stage ends. *)
Lemma status_loop_spec n i full c :
  (0 < length data)%nat → sending data want i full c →
  is_Some (c_out c) ∨ (i = total ∧ full = false) → (host_wait c < n)%nat →
  ∃ c', status_loop n (at_ctl c l) = Ok ENDPOINT_RWCSTREAM_NoError (at_ctl c' l) ∧
        sending data want i full c' ∧ c_out c' = Some [] ∧ (host_wait c' ≤ host_wait c)%nat.
Proof.
  intros Hlen. revert c. induction n as [|n IH]; intros c Hc Hend Hn; [lia|]. cbn [status_loop].
  unfold mbind at 1, M_bind at 1. rewrite ctl_IsOUTReceived by done.
  pose proof (sending_tick _ _ _ _ _ Hc) as Hc1. pose proof (wait_tick _ _ _ _ _ Hc) as Hw1.
  destruct (bool_decide_reflect (is_Some (c_out (host_tick c)))) as [Hout|Hout].
  { exists (host_tick c). split; [done|]. split; [done|]. split; [|done].
    destruct (sd_out _ _ _ _ _ Hc1) as [Ho|Ho]; [|done]. rewrite Ho in Hout. by destruct Hout. }
  assert (c_out (host_tick c) = None) as Ho by (by apply eq_None_not_Some).
  unfold mbind at 1, M_bind at 1. rewrite (state_abort_None _ _ _ Hc1).
  assert (i = total ∧ full = false) as [-> ->].
  { destruct Hend as [[x Hx]|Hend]; [|done]. exfalso. apply Hout.
    by apply (tick_out c x). }
  assert (host_wait (host_tick (host_tick c)) < host_wait (host_tick c))%nat.
  { eapply wait_tick_lt; [done..|]. destruct (c_busy (host_tick c)) eqn:Hb; [by left|right].
    by apply (sending_all_taken data). }
  destruct (IH (host_tick (host_tick c))) as (c' & ? & ? & ? & ?);
    [by apply sending_tick|by right|lia|].
  exists c'. split; [done|]. split; [done|]. split; [done|lia].
Qed.

(** The reply to a control read, from the cleared SETUP packet on. *)
Lemma write_control_stream_spec fuel c :
  sending data want 0 false c → (0 < length data)%nat →
  wLength (USB_ControlRequest l) = Z.of_nat want →
  (host_wait c + 2 * total < fuel)%nat →
  ∃ c', write_control_stream fuel LE buffer (Z.of_nat (length data)) (at_ctl c l) =
          Ok ENDPOINT_RWCSTREAM_NoError (at_ctl c' l) ∧
        delivered (take want data) c'.
Proof.
  intros Hc Hlen Hq Hfuel. unfold write_control_stream.
  unfold mbind at 1, M_bind at 1, gets. cbn [USB_ControlRequest at_ctl set_mcu]. rewrite Hq.
  assert ((if Z.of_nat (length data) >? Z.of_nat want then mret (Z.of_nat want)
           else (if Z.of_nat (length data) =? 0 then Endpoint_ClearIN else mret tt);;
                mret (Z.of_nat (length data)) : M (lufa hwview) Z) = mret (Z.of_nat (total - 0)))
    as ->.
  { destruct (Z.gtb_spec (Z.of_nat (length data)) (Z.of_nat want)).
    - f_equal. lia.
    - destruct (Z.eqb_spec (Z.of_nat (length data)) 0); [lia|].
      replace (total - 0)%nat with (length data) by lia. done. }
  unfold mbind at 1, M_bind at 1, mret at 1, M_ret at 1.
  unfold mbind at 1, M_bind at 1. cbn [buffer_offset].
  destruct (write_loop_spec fuel 0 false c Hc) as (i & full & c1 & Hrun & Hc1 & Hw1 & Hend).
  { unfold rank. lia. }
  change (Z.of_nat 0) with 0 in Hrun. rewrite Hrun.
  destruct (status_loop_spec fuel i full c1 Hlen Hc1 Hend) as (c2 & Hrun2 & Hc2 & Hout & Hw2).
  { unfold rank in Hw1. lia. }
  exists c2. split; [done|].
  assert (h_status (c_host c2) = true) as Hst.
  { rewrite (sd_status _ _ _ _ _ Hc2), Hout. by apply bool_decide_eq_true_2. }
  pose proof (sd_done _ _ _ _ _ Hc2 Hst) as Hall.
  destruct (sending_has_all _ _ _ _ _ Hc2 Hall). constructor; try done.
  - by eapply sd_setup.
  - by eapply sd_reading.
  - by rewrite (sd_want _ _ _ _ _ Hc2).
Qed.
End stage.
