(* ===== verification/EndpointFacts.v ===== *)
(** * Configuring endpoints

    [Endpoint_ConfigureEndpoint] on the documented registers: it succeeds when
    the memory of all the endpoints fits the 176 bytes of the controller, and
    it leaves the configuration of the other endpoints as it was. *)

From S2P Require Import Prelude StdDescriptors Descriptors Hardware Lufa Board Device Endpoint.

(** The registers that [Endpoint_ConfigureEndpoint_Prv] keeps. *)
Definition is_cfg (r : reg) : bool :=
  match r with UECFG0X | UECFG1X | UEIENX => true | _ => false end.

(** The library and everything but the endpoint registers, the selection and
    the banks are as before. *)
Record same_rest (l l' : lufa hwview) : Prop := {
  sr_regs : v_regs (mcu l') = v_regs (mcu l);
  sr_sent : v_sent (mcu l') = v_sent (mcu l);
  sr_rx : v_rx (mcu l') = v_rx (mcu l);
  sr_tx : v_tx (mcu l') = v_tx (mcu l);
  sr_txd : v_txd (mcu l') = v_txd (mcu l);
  sr_pll : v_pll (mcu l') = v_pll (mcu l);
  sr_state : USB_DeviceState l' = USB_DeviceState l;
  sr_request : USB_ControlRequest l' = USB_ControlRequest l;
  sr_conf : USB_Device_ConfigurationNumber l' = USB_Device_ConfigurationNumber l;
  sr_wakeup : USB_Device_RemoteWakeupEnabled l' = USB_Device_RemoteWakeupEnabled l;
  sr_self : USB_Device_CurrentlySelfPowered l' = USB_Device_CurrentlySelfPowered l;
  sr_init : USB_IsInitialized l' = USB_IsInitialized l;
}.

#[export] Instance same_rest_refl : Reflexive same_rest.
Proof. intros l. by constructor. Qed.
#[export] Instance same_rest_trans : Transitive same_rest.
Proof. intros l1 l2 l3 [] []. constructor; congruence. Qed.

(** Setting EPEN sets it. *)
Lemma enabled_value x : has (ueconx_value (Z.lor x (BV EPEN))) (BV EPEN) = true.
Proof.
  assert (Z.testbit (ueconx_value (Z.lor x (BV EPEN))) 0 = true) as Hb.
  { unfold ueconx_value. destruct (has _ _);
      rewrite ?Z.land_spec, ?Z.lor_spec; change (Z.testbit (BV EPEN) 0) with true;
      by rewrite orb_true_r. }
  unfold has. apply negb_true_iff, Z.eqb_neq. intros H0.
  apply (f_equal (λ z, Z.testbit z 0)) in H0. rewrite Z.land_spec, Hb in H0. done.
Qed.

Lemma stalled_value x : has (ueconx_value (Z.lor (ueconx_read x) (BV STALLRQ))) (BV STALLRQ) = true.
Proof.
  unfold ueconx_value. replace (has (Z.lor (ueconx_read x) (BV STALLRQ)) (BV STALLRQC)) with false.
  - unfold has. rewrite Z.land_lor_distr_l, Z.land_diag. apply negb_true_iff, Z.eqb_neq.
    intros H0%Z.lor_eq_0_iff. by destruct H0.
  - unfold has, ueconx_read. rewrite Z.land_lor_distr_l, <- Z.land_assoc.
    change (Z.land (inv8 _) (BV STALLRQC)) with 0. by rewrite Z.land_0_r.
Qed.

(** ** One endpoint *)

Definition ep_reg (l : lufa hwview) (n : Z) (r : reg) : Z := v_epregs (mcu l) n r.
Definition ep_mem (l : lufa hwview) (n : Z) : Z := ep_memory (ep_reg l n UECFG1X).
Definition all_mem (l : lufa hwview) : Z :=
  ep_mem l 0 + ep_mem l 1 + ep_mem l 2 + ep_mem l 3 + ep_mem l 4.

(** What happens to the banks when endpoint [n] is allocated. *)
Record banks_reset (n : Z) (l l' : lufa hwview) : Prop := {
  br_ctl : v_ctl (mcu l') = if n =? 0 then fresh_ctl (v_ctl (mcu l)) else v_ctl (mcu l);
  br_in : v_in (mcu l') = if n =? 1 then Some [] else v_in (mcu l);
  br_out : v_out (mcu l') = if n =? 2 then None else v_out (mcu l);
}.

Section one.
Context (n c0 c1 ie : Z) (Halloc : has c1 (BV ALLOC) = true).

Definition new_cfg (l : lufa hwview) (m : Z) (r : reg) : Z :=
  if m =? n then match r with UECFG0X => c0 | UECFG1X => c1 | UEIENX => ie | _ => ep_reg l m r end
  else ep_reg l m r.

Lemma not_alloc x : has (Z.land x (inv8 (BV ALLOC))) (BV ALLOC) = false.
Proof.
  unfold has. rewrite <- Z.land_assoc. change (Z.land (inv8 (BV ALLOC)) (BV ALLOC)) with 0.
  by rewrite Z.land_0_r.
Qed.

(** The registers of the selected endpoint, one access at a time. *)
Definition put_ep (r : reg) (x : Z) (l : lufa hwview) : lufa hwview :=
  set_mcu (with_epreg (v_uenum (mcu l)) r x (mcu l)) l.
Definition reset_bank (l : lufa hwview) : lufa hwview :=
  let v := mcu l in
  set_mcu (if v_uenum v =? 0 then with_ctl (fresh_ctl (v_ctl v)) v
           else if v_uenum v =? 1 then with_in (Some []) (v_sent v) v
           else if v_uenum v =? 2 then with_out None v else v) l.

Lemma ueconx_set m l :
  set_bits UECONX m l =
  Ok tt (put_ep UECONX (ueconx_value (Z.lor (ueconx_read (ep_reg l (v_uenum (mcu l)) UECONX)) m)) l).
Proof. by destruct l. Qed.
Lemma ueconx_clear m l :
  clear_bits UECONX m l =
  Ok tt (put_ep UECONX (ueconx_value (Z.land (ueconx_read (ep_reg l (v_uenum (mcu l)) UECONX)) (inv8 m))) l).
Proof. by destruct l. Qed.
Lemma uecfg1x_free l :
  clear_bits UECFG1X (BV ALLOC) l =
  Ok tt (put_ep UECFG1X (Z.land (ep_reg l (v_uenum (mcu l)) UECFG1X) (inv8 (BV ALLOC))) l).
Proof.
  destruct l as [v]. unfold clear_bits, mbind, M_bind, get_reg, set_reg, on_mcu, zoom.
  cbn [rd wr view_Mcu mcu set_mcu before_read after_read after_write reg_value].
  by rewrite not_alloc.
Qed.

Lemma uecfg1x_alloc l : set_reg UECFG1X c1 l = Ok tt (reset_bank (put_ep UECFG1X c1 l)).
Proof.
  destruct l as [v]. unfold set_reg, on_mcu, zoom. cbn [wr view_Mcu mcu after_write].
  by rewrite Halloc.
Qed.

Lemma uecfg0x_put l : set_reg UECFG0X c0 l = Ok tt (put_ep UECFG0X c0 l).
Proof. done. Qed.
Lemma ueienx_put l : set_reg UEIENX ie l = Ok tt (put_ep UEIENX ie l).
Proof. done. Qed.

Lemma ep_reg_put r x l m r' :
  ep_reg (put_ep r x l) m r' =
  if decide (v_uenum (mcu l) = m ∧ r = r') then x else ep_reg l m r'.
Proof. done. Qed.
Lemma uenum_put r x l : v_uenum (mcu (put_ep r x l)) = v_uenum (mcu l).
Proof. done. Qed.
Lemma reset_bank_keeps l :
  ep_reg (reset_bank l) = ep_reg l ∧ v_uenum (mcu (reset_bank l)) = v_uenum (mcu l) ∧
  same_rest l (reset_bank l).
Proof.
  destruct l as [v]. unfold reset_bank, ep_reg. cbn.
  destruct (v_uenum v =? 0); [|destruct (v_uenum v =? 1); [|destruct (v_uenum v =? 2)]];
    repeat split.
Qed.

Lemma reset_bank_banks l : banks_reset (v_uenum (mcu l)) l (reset_bank l).
Proof.
  destruct l as [v]. unfold reset_bank. cbn. constructor; cbn;
  destruct (v_uenum v =? 0) eqn:E0; destruct (v_uenum v =? 1) eqn:E1;
    destruct (v_uenum v =? 2) eqn:E2; done || lia.
Qed.

Lemma same_rest_put r x l : same_rest l (put_ep r x l).
Proof. by constructor. Qed.

Lemma IsConfigured_run l :
  has (ep_reg l (v_uenum (mcu l)) UECFG1X) (BV ALLOC) = true →
  Endpoint_IsConfigured l = Ok (all_mem l <=? 176) l.
Proof.
  intros Ha. destruct l as [v]. unfold Endpoint_IsConfigured, test_bits, mbind, M_bind, get_reg,
    on_mcu, zoom. cbn [rd view_Mcu mcu set_mcu before_read after_read reg_value].
  unfold ep_reg in Ha. cbn in Ha. rewrite Ha. cbn [andb].
  replace (dpram_used v) with (all_mem {| mcu := v; USB_DeviceState := USB_DeviceState;
    USB_ControlRequest := USB_ControlRequest;
    USB_Device_ConfigurationNumber := USB_Device_ConfigurationNumber;
    USB_Device_CurrentlySelfPowered := USB_Device_CurrentlySelfPowered;
    USB_Device_RemoteWakeupEnabled := USB_Device_RemoteWakeupEnabled;
    USB_IsInitialized := USB_IsInitialized |}).
  - by destruct (_ <=? 176).
  - unfold all_mem, ep_mem, ep_reg, dpram_used. cbn. lia.
Qed.

(** Two register addresses differ. *)
Ltac no_pair := first [done | intros [? ?]; congruence | split; congruence | congruence].

Lemma configure_one_spec l :
  v_uenum (mcu l) = n →
  ∃ l', configure_one c0 c1 ie l = Ok (all_mem l' <=? 176) l' ∧
    same_rest l l' ∧ banks_reset n l l' ∧ v_uenum (mcu l') = n ∧
    (∀ m r, is_cfg r = true → ep_reg l' m r = new_cfg l m r) ∧
    has (ep_reg l' n UECONX) (BV EPEN) = true ∧
    (∀ m, m ≠ n → ep_reg l' m UECONX = ep_reg l m UECONX).
Proof.
  intros Hsel. unfold configure_one, Endpoint_DisableEndpoint, Endpoint_EnableEndpoint.
  run_step (ueconx_clear (BV EPEN) l). set (l1 := put_ep _ _ l).
  run_step (uecfg1x_free l1). set (l2 := put_ep _ _ l1).
  run_step (ueconx_set (BV EPEN) l2). set (l3 := put_ep _ _ l2).
  run_step (uecfg0x_put l3). run_step (uecfg1x_alloc (put_ep UECFG0X c0 l3)).
  set (l4 := put_ep UECFG1X c1 _). run_step (ueienx_put (reset_bank l4)).
  set (l5 := put_ep UEIENX ie _).
  destruct (reset_bank_keeps l4) as (Hep & Hun & Hrest).
  assert (∀ m r, ep_reg l5 m r =
    if decide (n = m ∧ UEIENX = r) then ie else
    if decide (n = m ∧ UECFG1X = r) then c1 else
    if decide (n = m ∧ UECFG0X = r) then c0 else ep_reg l3 m r) as H5.
  { intros m r. unfold l5. rewrite ep_reg_put, Hun, Hep. unfold l4. rewrite !ep_reg_put.
    by rewrite <- Hsel. }
  exists l5. split; [|split_and!].
  - apply IsConfigured_run. change (v_uenum (mcu l5)) with (v_uenum (mcu (reset_bank l4))).
    rewrite Hun. change (v_uenum (mcu l4)) with (v_uenum (mcu l)). rewrite Hsel, H5.
    rewrite decide_False by (intros [_ ?]; done). by rewrite decide_True by done.
  - etransitivity; [|apply same_rest_put]. etransitivity; [|exact Hrest]. by constructor.
  - destruct (reset_bank_banks l4) as [Hc Hi Ho]. rewrite <- Hsel. by constructor.
  - change (v_uenum (mcu l5)) with (v_uenum (mcu (reset_bank l4))). by rewrite Hun.
  - intros m r Hr. rewrite H5. unfold new_cfg.
    destruct (Z.eqb_spec m n) as [->|Hne].
    + destruct r; try done; repeat case_decide;
        match goal with
        | _ => done
        | Hd : ¬ (_ ∧ _) |- _ => exfalso; apply Hd; done
        | Hd : _ ∧ _ |- _ => exfalso; by destruct Hd
        end.
    + rewrite !decide_False by no_pair. unfold l3, l2, l1. rewrite !ep_reg_put.
      rewrite !decide_False; [done|cbn..]; rewrite Hsel; no_pair.
  - rewrite H5. rewrite !decide_False by no_pair. unfold l3. rewrite ep_reg_put.
    rewrite decide_True by (cbn; no_pair). apply enabled_value.
  - intros m Hm. rewrite H5. unfold l3, l2, l1. rewrite !ep_reg_put.
    rewrite !decide_False; [done|cbn; rewrite ?Hsel; no_pair..].
Qed.
End one.

(** ** All of them *)

(** The endpoints are configured as before; those that were enabled still are. *)
Record same_cfg (l l' : lufa hwview) : Prop := {
  sc_rest : same_rest l l';
  sc_cfg : ∀ m r, is_cfg r = true → ep_reg l' m r = ep_reg l m r;
  sc_enabled : ∀ m, has (ep_reg l m UECONX) (BV EPEN) = true →
                    has (ep_reg l' m UECONX) (BV EPEN) = true;
}.

#[export] Instance same_cfg_refl : Reflexive same_cfg.
Proof. intros l. by constructor. Qed.
#[export] Instance same_cfg_trans : Transitive same_cfg.
Proof.
  intros l1 l2 l3 [H1 C1 E1] [H2 C2 E2]. constructor; [by etransitivity| |by auto].
  intros m r Hr. by rewrite C2, C1.
Qed.

Lemma same_cfg_mem l l' : same_cfg l l' → all_mem l' = all_mem l.
Proof. intros Hc. unfold all_mem, ep_mem. by rewrite !(sc_cfg _ _ Hc). Qed.

Definition allocated (l : lufa hwview) (n : Z) : bool := has (ep_reg l n UECFG1X) (BV ALLOC).

(** The endpoints above the new one are configured again: their banks are
    emptied. *)
Lemma configure_rest k m Number c0 c1 l :
  m = 5 - Z.of_nat k → 0 ≤ Number < m → 0 < m → all_mem l ≤ 176 →
  ∃ l', configure_loop k m Number c0 c1 l = Ok true l' ∧ same_cfg l l' ∧
        v_uenum (mcu l') = Z.land Number ENDPOINT_EPNUM_MASK ∧
        v_ctl (mcu l') = v_ctl (mcu l) ∧
        v_in (mcu l') = (if (m <=? 1) && allocated l 1 then Some [] else v_in (mcu l)) ∧
        v_out (mcu l') = (if (m <=? 2) && allocated l 2 then None else v_out (mcu l)).
Proof.
  revert m l. induction k as [|k IH]; intros m l Hm HN Hpos Hmem; cbn [configure_loop].
  { eexists. split; [reflexivity|]. split; [by constructor|]. cbn.
    replace (m <=? 1) with false by (symmetry; apply Z.leb_gt; lia).
    replace (m <=? 2) with false by (symmetry; apply Z.leb_gt; lia). done. }
  assert (m = 1 ∨ m = 2 ∨ m = 3 ∨ m = 4) as Hcases by lia.
  assert (Z.land m ENDPOINT_EPNUM_MASK = m) as Hmask.
  { by destruct Hcases as [->|[->|[->| ->]]]. }
  assert (Endpoint_SelectEndpoint m l = Ok tt (set_mcu (with_uenum m (mcu l)) l)) as Hsel.
  { unfold Endpoint_SelectEndpoint. by rewrite Hmask. }
  run_step Hsel. set (l0 := set_mcu _ l).
  assert (same_cfg l l0) as H0 by (by constructor).
  destruct (Z.eqb_spec m Number) as [|_]; [lia|].
  assert ((c0 ← get_reg UECFG0X; c1 ← get_reg UECFG1X; i ← get_reg UEIENX;
           mret (c0, c1, i)) l0 =
          Ok (ep_reg l m UECFG0X, ep_reg l m UECFG1X, ep_reg l m UEIENX) l0) as Hget.
  { by destruct l. }
  run_step Hget. cbn [fst snd].
  assert (u8 (m + 1) = m + 1) as Hu by (apply u8_id; unfold is_u8; lia). rewrite Hu.
  fold (allocated l m). destruct (allocated l m) eqn:Ha; cbn [negb].
  - destruct (configure_one_spec m (ep_reg l m UECFG0X) (ep_reg l m UECFG1X) (ep_reg l m UEIENX)
      Ha l0 eq_refl) as (l1 & Hrun & Hrest & [Hbc Hbi Hbo] & _ & Hcfg & Hen & Hoth).
    assert (same_cfg l l1) as H1.
    { constructor; [by etransitivity; [apply H0|]| |].
      - intros j r Hr. rewrite Hcfg by done. unfold new_cfg.
        destruct (Z.eqb_spec j m) as [->|]; [by destruct r|done].
      - intros j Hj. destruct (decide (j = m)) as [->|Hne]; [done|]. by rewrite Hoth. }
    rewrite (same_cfg_mem _ _ H1), (proj2 (Z.leb_le _ _) Hmem) in Hrun.
    destruct (IH (m + 1) l1) as (l2 & Hrun2 & Hc2 & Hu2 & Hct2 & Hi2 & Ho2);
      [lia|lia|lia|by rewrite (same_cfg_mem _ _ H1)|].
    exists l2. split.
    { by run_step Hrun. }
    split; [by etransitivity|]. split; [done|].
    unfold allocated in Hi2, Ho2. rewrite !(sc_cfg _ _ H1) in Hi2, Ho2 by done.
    fold (allocated l 1) in Hi2. fold (allocated l 2) in Ho2.
    rewrite Hct2, Hi2, Ho2, Hbc, Hbi, Hbo.
    destruct Hcases as [->|[->|[->| ->]]]; cbn in *; rewrite ?Ha; split_and!; try done;
      by destruct (allocated l 2).
  - destruct (IH (m + 1) l0) as (l2 & Hrun2 & Hc2 & Hu2 & Hct2 & Hi2 & Ho2);
      [lia|lia|lia|by rewrite (same_cfg_mem _ _ H0)|].
    exists l2. split; [done|]. split; [by etransitivity|]. split; [done|].
    rewrite Hct2, Hi2, Ho2. change (allocated l0) with (allocated l).
    destruct Hcases as [->|[->|[->| ->]]]; cbn in *; rewrite ?Ha; split_and!; try done.
Qed.

(** What a successful configuration of endpoint [n] leaves. *)
Record configured (n c0 c1 : Z) (l l' : lufa hwview) : Prop := {
  cf_rest : same_rest l l';
  cf_sel : v_uenum (mcu l') = n;
  cf_cfg : ∀ m r, is_cfg r = true → ep_reg l' m r = new_cfg n c0 c1 0 l m r;
  cf_enabled : has (ep_reg l' n UECONX) (BV EPEN) = true;
  cf_others : ∀ m, has (ep_reg l m UECONX) (BV EPEN) = true →
                   has (ep_reg l' m UECONX) (BV EPEN) = true;
  cf_ctl : v_ctl (mcu l') = if n =? 0 then fresh_ctl (v_ctl (mcu l)) else v_ctl (mcu l);
  cf_in : v_in (mcu l') = if (n =? 1) || (n <? 1) && allocated l 1 then Some [] else v_in (mcu l);
  cf_out : v_out (mcu l') = if (n =? 2) || (n <? 2) && allocated l 2 then None else v_out (mcu l);
}.

(** What a configuration that does not fit leaves: the registers of endpoint [n]
    hold what was asked and its bank is reset, but no other endpoint was
    reached. *)
Record not_configured (n c0 c1 : Z) (l l' : lufa hwview) : Prop := {
  nc_rest : same_rest l l';
  nc_sel : v_uenum (mcu l') = n;
  nc_cfg : ∀ m r, is_cfg r = true → ep_reg l' m r = new_cfg n c0 c1 0 l m r;
  nc_others : ∀ m, m ≠ n → ep_reg l' m UECONX = ep_reg l m UECONX;
  nc_banks : banks_reset n l l';
}.

Lemma new_cfg_mem n c0 c1 ie l l' :
  0 ≤ n < 5 → (∀ m r, is_cfg r = true → ep_reg l' m r = new_cfg n c0 c1 ie l m r) →
  all_mem l' = all_mem l - ep_mem l n + ep_memory c1.
Proof.
  intros Hn Hcfg. unfold all_mem, ep_mem. rewrite !Hcfg by done. unfold new_cfg.
  assert (n = 0 ∨ n = 1 ∨ n = 2 ∨ n = 3 ∨ n = 4) as Hcases by lia.
  destruct Hcases as [->|[->|[->|[->| ->]]]]; cbn [Z.eqb Pos.eqb]; lia.
Qed.

Lemma ConfigureEndpoint_Prv_spec n c0 c1 l :
  0 ≤ n < 5 → has c1 (BV ALLOC) = true →
  if all_mem l - ep_mem l n + ep_memory c1 <=? 176
  then ∃ l', Endpoint_ConfigureEndpoint_Prv n c0 c1 l = Ok true l' ∧ configured n c0 c1 l l'
  else ∃ l', Endpoint_ConfigureEndpoint_Prv n c0 c1 l = Ok false l' ∧ not_configured n c0 c1 l l'.
Proof.
  intros Hn Ha. unfold Endpoint_ConfigureEndpoint_Prv, ENDPOINT_TOTAL_ENDPOINTS.
  destruct (Z.to_nat (5 - n)) as [|k] eqn:Hk; [lia|]. cbn [configure_loop].
  assert (Z.land n ENDPOINT_EPNUM_MASK = n) as Hmask.
  { assert (n = 0 ∨ n = 1 ∨ n = 2 ∨ n = 3 ∨ n = 4) as Hcases by lia.
    by destruct Hcases as [->|[->|[->|[->| ->]]]]. }
  assert (Endpoint_SelectEndpoint n l = Ok tt (set_mcu (with_uenum n (mcu l)) l)) as Hsel.
  { unfold Endpoint_SelectEndpoint. by rewrite Hmask. }
  run_step Hsel. set (l0 := set_mcu _ l). rewrite Z.eqb_refl.
  run_step (ret_run (c0, c1, 0) l0). cbn [fst snd]. rewrite Ha. cbn [negb].
  destruct (configure_one_spec n c0 c1 0 Ha l0 eq_refl)
    as (l1 & Hrun & Hrest & [Hbc Hbi Hbo] & Hu1 & Hcfg & Hen & Hoth).
  run_step Hrun. rewrite (new_cfg_mem n c0 c1 0 l l1 Hn Hcfg).
  destruct (Z.leb_spec (all_mem l - ep_mem l n + ep_memory c1) 176) as [Hfit|]; cbn [negb].
  2: { exists l1. split; [done|]. split; [|done..|by constructor]. etransitivity; [|done]. by constructor. }
  assert (u8 (n + 1) = n + 1) as -> by (apply u8_id; unfold is_u8; lia).
  destruct (configure_rest k (n + 1) n c0 c1 l1) as (l2 & Hrun2 & Hc2 & Hu2 & Hct2 & Hi2 & Ho2);
    [lia|lia|lia|by rewrite (new_cfg_mem n c0 c1 0 l l1 Hn Hcfg)|].
  exists l2. split; [done|]. constructor.
  - etransitivity; [|apply Hc2]. etransitivity; [|done]. by constructor.
  - by rewrite Hu2.
  - intros m r Hr. rewrite (sc_cfg _ _ Hc2) by done. by rewrite Hcfg.
  - by apply (sc_enabled _ _ Hc2).
  - intros m Hm. apply (sc_enabled _ _ Hc2). destruct (decide (m = n)) as [->|]; [done|].
    by rewrite Hoth.
  - by rewrite Hct2, Hbc.
  - rewrite Hi2, Hbi. unfold allocated. rewrite Hcfg by done. unfold new_cfg.
    change (v_in (mcu l0)) with (v_in (mcu l)). change (ep_reg l0) with (ep_reg l).
    assert (n = 0 ∨ n = 1 ∨ n = 2 ∨ n = 3 ∨ n = 4) as Hcases by lia.
    by destruct Hcases as [->|[->|[->|[->| ->]]]].
  - rewrite Ho2, Hbo. unfold allocated. rewrite Hcfg by done. unfold new_cfg.
    change (v_out (mcu l0)) with (v_out (mcu l)). change (ep_reg l0) with (ep_reg l).
    assert (n = 0 ∨ n = 1 ∨ n = 2 ∨ n = 3 ∨ n = 4) as Hcases by lia.
    destruct Hcases as [->|[->|[->|[->| ->]]]]; cbn; by rewrite ?if_same.
Qed.

(** ** The endpoints of the firmware *)

(** The values of the registers for an interrupt endpoint of 64 bytes. *)
Definition CFG1_64 : Z := 0x32.
Definition CFG0_IN : Z := 0xC1.
Definition CFG0_OUT : Z := 0xC0.

Lemma ConfigureEndpoint_IN :
  Endpoint_ConfigureEndpoint JOYSTICK_IN_EPADDR EP_TYPE_INTERRUPT JOYSTICK_EPSIZE 1 =
  Endpoint_ConfigureEndpoint_Prv (H := hwview) 1 CFG0_IN CFG1_64.
Proof. done. Qed.
Lemma ConfigureEndpoint_OUT :
  Endpoint_ConfigureEndpoint JOYSTICK_OUT_EPADDR EP_TYPE_INTERRUPT JOYSTICK_EPSIZE 1 =
  Endpoint_ConfigureEndpoint_Prv (H := hwview) 2 CFG0_OUT CFG1_64.
Proof. done. Qed.
Lemma ConfigureEndpoint_control :
  Endpoint_ConfigureEndpoint ENDPOINT_CONTROLEP EP_TYPE_CONTROL USB_Device_ControlEndpointSize 1 =
  Endpoint_ConfigureEndpoint_Prv (H := hwview) 0 0 0x22.
Proof. done. Qed.
