(* ===== verification/RequestFacts.v ===== *)
(** * What the control requests do

    The standard requests through [USB_USBTask], for a host with any delays. *)

From S2P Require Import Prelude StdDescriptors Descriptors DescriptorFacts Hardware Lufa Board.
From S2P Require Import Device Endpoint ControlStream Requests ControlFacts EndpointFacts.

(** ** A request arrives *)

(** The control endpoint when the SETUP packet of [q] has arrived; the host
    waits for [idle] polls before its first action, then as [delays] say. *)
Definition request_ctl (q : USB_Request_Header_t) (idle : nat) (delays : list nat) : ctl :=
  {| c_setup := Some (header_bytes q); c_bank := []; c_busy := false; c_taken := []; c_out := None;
     c_host := {| h_idle := idle; h_delays := delays;
                  h_reading := has (bmRequestType q) REQDIR_DEVICETOHOST;
                  h_want := Z.to_nat (wLength q); h_status := false; h_data := [] |} |}.

Record request_wf (q : USB_Request_Header_t) : Prop := {
  wf_type : is_u8 (bmRequestType q);
  wf_request : is_u8 (bRequest q);
  wf_value : is_u16 (wValue q);
  wf_index : is_u16 (wIndex q);
  wf_length : is_u16 (wLength q);
  (** a control read has a data stage *)
  wf_read : has (bmRequestType q) REQDIR_DEVICETOHOST = true → 0 < wLength q;
}.

(** The host waits for the answer to a request. *)
Record arriving (want : nat) (rd : bool) (c : ctl) : Prop := {
  ar_bank : c_bank c = [];
  ar_busy : c_busy c = false;
  ar_taken : c_taken c = [];
  ar_out : c_out c = None;
  ar_reading : h_reading (c_host c) = rd;
  ar_want : h_want (c_host c) = want;
  ar_status : h_status (c_host c) = false;
  ar_data : h_data (c_host c) = [];
  ar_pos : rd = true → (0 < want)%nat;
}.

Lemma request_arriving q idle delays :
  request_wf q →
  arriving (Z.to_nat (wLength q)) (has (bmRequestType q) REQDIR_DEVICETOHOST)
    (request_ctl q idle delays).
Proof. intros Hq. constructor; try done. intros Hr. apply (wf_read q Hq) in Hr. lia. Qed.

Lemma arriving_tick want rd c :
  arriving want rd c →
  arriving want rd (host_tick c) ∧ c_setup (host_tick c) = c_setup c ∧
  (host_wait (host_tick c) ≤ host_wait c)%nat.
Proof.
  destruct c as [s k b t o [n ds r w st d]]. intros [Hk Hb Ht Ho Hr Hw Hst Hd Hp]; cbn in *.
  subst. unfold host_tick, host_wait; cbn. destruct n; cbn; [|split; [by constructor|split; [done|lia]]].
  destruct rd; cbn; [|split; [by constructor|split; [done|lia]]].
  unfold has_all. cbn. rewrite bool_decide_eq_false_2 by (specialize (Hp eq_refl); lia).
  cbn. split; [by constructor|split; [done|lia]].
Qed.

Lemma arriving_sending data want c :
  arriving want true c → sending data want 0 false (drop_setup c).
Proof.
  destruct c as [s k b t o [n ds r w st]]. intros [Hk Hb Ht Ho Hr Hw Hst Hp]; cbn in *. subst.
  constructor; try done; [by left|cbn; lia|]. exists [], []. repeat split; [constructor|]. by left.
Qed.

Lemma header_of_header_bytes q : request_wf q → header_of_bytes (header_bytes q) = Some q.
Proof.
  intros [_ _ Hv Hi Hl _]. destruct q as [t r v i n]. unfold header_bytes, header_of_bytes. cbn in *.
  do 2 f_equal; unfold is_u16 in *; div_lia.
Qed.

(** ** The frame of the task *)

Section frame.
Context (fuel : nat).

(** Endpoint zero selected. *)
Definition at_zero (l : lufa hwview) : lufa hwview := set_mcu (with_uenum 0 (mcu l)) l.
Definition restore (n : Z) (l : lufa hwview) : lufa hwview := set_mcu (with_uenum n (mcu l)) l.

(** What a request that does not configure the device leaves alone. *)
Record kept (l l' : lufa hwview) : Prop := {
  kp_regs : ∀ r, r ≠ UDADDR → v_regs (mcu l') r = v_regs (mcu l) r;
  kp_epregs : v_epregs (mcu l') = v_epregs (mcu l);
  kp_sent : v_sent (mcu l') = v_sent (mcu l);
  kp_txd : v_txd (mcu l') = v_txd (mcu l);
}.

Lemma at_ctl_self l : at_ctl (v_ctl (mcu l)) l = l.
Proof. destruct l as [m]. by destruct m. Qed.
Lemma at_zero_ctl l : at_zero l = at_ctl (v_ctl (mcu l)) (at_zero l).
Proof. destruct l as [m]. by destruct m. Qed.

Lemma select_run a l :
  Endpoint_SelectEndpoint a l = Ok tt (restore (Z.land a ENDPOINT_EPNUM_MASK) l).
Proof. done. Qed.

Lemma current_masked n d :
  0 ≤ n < 16 → d = ENDPOINT_DIR_IN ∨ d = ENDPOINT_DIR_OUT →
  Z.land (Z.lor (Z.land n ENDPOINT_EPNUM_MASK) d) ENDPOINT_EPNUM_MASK = n.
Proof.
  intros Hn Hd. assert (is_u8 n) as Hu by (unfold is_u8; lia). revert Hn.
  destruct Hd as [-> | ->]; revert n Hu.
  - intros n Hu. by_bytes (λ n, 0 ≤ n < 16 → Z.land (Z.lor (Z.land n 15) 128) 15 = n).
  - intros n Hu. by_bytes (λ n, 0 ≤ n < 16 → Z.land (Z.lor (Z.land n 15) 0) 15 = n).
Qed.

Lemma current_run l :
  ∃ d, Endpoint_GetCurrentEndpoint l = Ok (Z.lor (Z.land (v_uenum (mcu l)) ENDPOINT_EPNUM_MASK) d) l ∧
       (d = ENDPOINT_DIR_IN ∨ d = ENDPOINT_DIR_OUT).
Proof.
  exists (if has (v_epregs (mcu l) (v_uenum (mcu l)) UECFG0X) (BV EPDIR)
          then ENDPOINT_DIR_IN else ENDPOINT_DIR_OUT).
  split; [by destruct l|]. destruct (has _ _); auto.
Qed.

Lemma USB_USBTask_request l l' :
  USB_DeviceState l ≠ DEVICE_STATE_Unattached → 0 ≤ v_uenum (mcu l) < 16 →
  is_Some (c_setup (host_tick (v_ctl (mcu l)))) →
  USB_Device_ProcessControlRequest fuel (at_ctl (host_tick (v_ctl (mcu l))) (at_zero l)) =
    Ok tt l' →
  USB_USBTask fuel l = Ok tt (restore (v_uenum (mcu l)) l').
Proof.
  intros Hst Hn Hset Hp. unfold USB_USBTask, USB_DeviceTask.
  run_step (gets_run USB_DeviceState l). rewrite decide_False by done.
  destruct (current_run l) as (d & Hd & Hdir). run_step Hd.
  run_step (select_run ENDPOINT_CONTROLEP l).
  change (restore _ l) with (at_zero l). rewrite (at_zero_ctl l).
  run_step (ctl_IsSETUPReceived (at_zero l) eq_refl (v_ctl (mcu l))).
  rewrite bool_decide_eq_true_2 by done. run_step Hp.
  rewrite select_run. by rewrite current_masked.
Qed.

(** The eight bytes are read. *)
Lemma read_header_run l c s :
  v_uenum (mcu l) = 0 → c_setup c = Some s →
  read_header (length s) (at_ctl c l) =
  Ok s (at_ctl {| c_setup := Some []; c_bank := c_bank c; c_busy := c_busy c;
                  c_taken := c_taken c; c_out := c_out c; c_host := c_host c |} l).
Proof.
  intros Hsel. revert c. induction s as [|b s IH]; intros c Hs; cbn [length read_header].
  - destruct c. cbn in *. by rewrite Hs.
  - run_step (ctl_Read_8 l Hsel c b s Hs).
    assert (c_setup (pop_setup c) = Some s) as Hs' by (unfold pop_setup; cbn; by rewrite Hs).
    run_step (IH (pop_setup c) Hs'). unfold pop_setup. cbn. by rewrite Hs.
Qed.
End frame.

(** The state after the header is read, and the end of the dispatch. *)
Definition header_read (c : ctl) : ctl :=
  {| c_setup := Some []; c_bank := c_bank c; c_busy := c_busy c; c_taken := c_taken c;
     c_out := c_out c; c_host := c_host c |}.
Definition ctl_of (l : lufa hwview) : ctl := v_ctl (mcu l).
Definition ticked (l : lufa hwview) : lufa hwview := at_ctl (host_tick (ctl_of l)) l.

Definition stall_rest : M (lufa hwview) unit :=
  pending ← Endpoint_IsSETUPReceived;
  if pending : bool then Endpoint_ClearSETUP;; Endpoint_StallTransaction else mret tt.

(** The only request that the firmware itself answers. *)
Definition is_SetIdle (q : USB_Request_Header_t) : bool :=
  (bRequest q =? HID_REQ_SetIdle) &&
  (bmRequestType q =? reqtype REQDIR_HOSTTODEVICE REQTYPE_CLASS REQREC_INTERFACE).

(** What follows the reading of the header. *)
Definition process_rest (fuel : nat) : M (lufa hwview) unit :=
  EVENT_USB_Device_ControlRequest fuel;;
  pending ← Endpoint_IsSETUPReceived;
  (if pending : bool then
     q ← gets USB_ControlRequest;
     standard_request fuel (bmRequestType q) (of_code (bRequest q))
   else mret tt);;
  stall_rest.

Lemma process_header fuel l q c :
  v_uenum (mcu l) = 0 → request_wf q → c_setup c = Some (header_bytes q) →
  USB_Device_ProcessControlRequest fuel (at_ctl c l) =
  process_rest fuel (at_ctl (header_read c) (set_ControlRequest q l)).
Proof.
  intros Hsel Hq Hs. unfold USB_Device_ProcessControlRequest.
  assert (Z.to_nat sizeof_Request_Header = length (header_bytes q)) as -> by done.
  run_step (read_header_run l c _ Hsel Hs).
  rewrite (header_of_header_bytes q Hq). cbn [checked].
  change (at_ctl _ l) with (at_ctl (header_read c) l).
  run_step (ret_run q (at_ctl (header_read c) l)).
  by run_step (modify_run (set_ControlRequest q) (at_ctl (header_read c) l)).
Qed.

Lemma process_standard fuel l q c l2 :
  v_uenum (mcu l) = 0 → request_wf q → c_setup c = Some (header_bytes q) →
  arriving (Z.to_nat (wLength q)) (has (bmRequestType q) REQDIR_DEVICETOHOST) c →
  is_SetIdle q = false →
  standard_request fuel (bmRequestType q) (of_code (bRequest q))
    (at_ctl (host_tick (header_read c)) (set_ControlRequest q l)) = Ok tt l2 →
  USB_Device_ProcessControlRequest fuel (at_ctl c l) = stall_rest l2.
Proof.
  intros Hsel Hq Hs Hc Hr Hstd. rewrite (process_header fuel l q c) by done. unfold process_rest.
  assert (EVENT_USB_Device_ControlRequest fuel (at_ctl (header_read c) (set_ControlRequest q l)) =
          Ok tt (at_ctl (header_read c) (set_ControlRequest q l))) as Hev.
  { unfold EVENT_USB_Device_ControlRequest.
    run_step (gets_run USB_ControlRequest (at_ctl (header_read c) (set_ControlRequest q l))).
    cbn [USB_ControlRequest at_ctl set_mcu set_ControlRequest].
    unfold is_SetIdle in Hr. destruct (_ =? HID_REQ_SetIdle); [|done].
    cbn [andb] in Hr. by rewrite Hr. }
  run_step Hev. run_step (ctl_IsSETUPReceived (set_ControlRequest q l) Hsel (header_read c)).
  assert (arriving (Z.to_nat (wLength q)) (has (bmRequestType q) REQDIR_DEVICETOHOST)
            (header_read c)) as Hc' by (by destruct Hc; constructor).
  destruct (arriving_tick _ _ _ Hc') as (_ & Hset & _). rewrite Hset. cbn [header_read c_setup].
  rewrite bool_decide_eq_true_2 by (by eexists).
  by rewrite (bind_Ok _ _ _ _ _ (Hstd : (q ← gets USB_ControlRequest;
    standard_request fuel (bmRequestType q) (of_code (bRequest q)))
      (at_ctl (host_tick (header_read c)) (set_ControlRequest q l)) = _)).
Qed.

(** A request that was answered is not stalled. *)
Lemma stall_rest_answered l c :
  v_uenum (mcu l) = 0 → c_setup (host_tick c) = None →
  stall_rest (at_ctl c l) = Ok tt (at_ctl (host_tick c) l).
Proof.
  intros Hsel Hs. unfold stall_rest. run_step (ctl_IsSETUPReceived l Hsel c).
  rewrite Hs. by rewrite bool_decide_eq_false_2 by (by intros [? ?]).
Qed.

Lemma tick_setup c : c_setup (host_tick c) = c_setup c.
Proof.
  unfold host_tick. destruct (h_idle _); [|done].
  destruct (_ && _); [by destruct (h_status (c_host c))|]. destruct (c_busy c); [done|].
  by destruct (data_ready c) as [[]|].
Qed.

(** ** GET_DESCRIPTOR *)

(** The descriptor that a request names. *)
Definition descriptor (wValue wIndex : Z) : option (list Z) :=
  match CALLBACK_USB_GetDescriptor wValue wIndex with
  | (Some mem, size) => if size =? NO_DESCRIPTOR then None else Some (take (Z.to_nat size) mem)
  | (None, _) => None
  end.

Definition serial_request (q : USB_Request_Header_t) : bool :=
  wValue q =? Z.lor (Z.shiftl (DTYPE_code DTYPE_String) 8) USE_INTERNAL_SERIAL.

(** A request that is answered with the first [wLength] bytes of an object. *)
Lemma control_answer fuel l q c mem size :
  v_uenum (mcu l) = 0 → request_wf q → USB_ControlRequest l = q →
  USB_DeviceState l ≠ DEVICE_STATE_Unattached → USB_DeviceState l ≠ DEVICE_STATE_Suspended →
  arriving (Z.to_nat (wLength q)) true c → 0 < size ≤ Z.of_nat (length mem) →
  (host_wait c + 2 * Z.to_nat size < fuel)%nat →
  ∃ c', (Endpoint_ClearSETUP;; write_control_stream fuel LE mem size;; Endpoint_ClearOUT)
          (at_ctl c l) = Ok tt (at_ctl c' l) ∧
        delivered (take (Z.to_nat (wLength q)) (take (Z.to_nat size) mem)) c'.
Proof.
  intros Hsel Hwf Hq Hs1 Hs2 Hc Hsize Hfuel. destruct (arriving_tick _ _ _ Hc) as (Hc1 & _ & Hw1).
  run_step (ctl_ClearSETUP l Hsel c). set (d := take (Z.to_nat size) mem) in *.
  assert (length d = Z.to_nat size) as Hlen by (unfold d; rewrite length_take_le; lia).
  pose proof (arriving_sending d _ _ Hc1) as Hsend.
  destruct (write_control_stream_spec l Hsel (conj Hs1 Hs2) d (drop (Z.to_nat size) mem)
    (Z.to_nat (wLength q)) fuel _ Hsend) as (c2 & Hrun & Hdel).
  { lia. }
  { rewrite Hq, Z2Nat.id; [done|]. pose proof (wf_length q Hwf). unfold is_u16 in *. lia. }
  { unfold host_wait in *. cbn in *. lia. }
  assert (d ++ drop (Z.to_nat size) mem = mem) as Hmem by apply take_drop.
  rewrite Hmem, Hlen, Z2Nat.id in Hrun by lia. run_step Hrun.
  rewrite ctl_ClearOUT by done. eexists. split; [done|].
  by apply delivered_drop_out, delivered_tick.
Qed.

Lemma GetDescriptor_run fuel l q c d :
  v_uenum (mcu l) = 0 → request_wf q → USB_ControlRequest l = q →
  USB_DeviceState l ≠ DEVICE_STATE_Unattached → USB_DeviceState l ≠ DEVICE_STATE_Suspended →
  arriving (Z.to_nat (wLength q)) true c → serial_request q = false →
  descriptor (wValue q) (wIndex q) = Some d →
  (host_wait c + 2 * length d < fuel)%nat →
  ∃ c', USB_Device_GetDescriptor fuel (at_ctl c l) = Ok tt (at_ctl c' l) ∧
        delivered (take (Z.to_nat (wLength q)) d) c'.
Proof.
  intros Hsel Hwf Hq Hs1 Hs2 Hc Hser Hd Hfuel. unfold USB_Device_GetDescriptor.
  run_step (gets_run USB_ControlRequest (at_ctl c l)).
  change (USB_ControlRequest (at_ctl c l)) with (USB_ControlRequest l). rewrite Hq.
  unfold serial_request in Hser. rewrite Hser. unfold descriptor in Hd.
  pose proof (GetDescriptor_object (wValue q) (wIndex q) (wf_value q Hwf)) as Hobj.
  destruct (CALLBACK_USB_GetDescriptor (wValue q) (wIndex q)) as [[mem|] size]; [|done].
  cbn [fst snd]. destruct (size =? NO_DESCRIPTOR); [done|]. injection Hd as <-.
  destruct Hobj as ([Hpos Hle] & _). rewrite length_take_le in Hfuel by lia.
  by apply (control_answer fuel l q c mem size).
Qed.

(** ** The whole task on a microcontroller *)

Section task.
Context {H : Type} `{!Mcu H} `{!McuSpec H} (fuel : nat).
Context (l : lufa H) (q : USB_Request_Header_t) (idle : nat) (delays : list nat).
Context (Hok : hw_ok (mcu l)) (Hctl : v_ctl (hw (mcu l)) = request_ctl q idle delays).
Context (Hn : 0 ≤ v_uenum (hw (mcu l)) < 16) (Hwf : request_wf q).
Context (Hst : USB_DeviceState l ≠ DEVICE_STATE_Unattached).

(** The state in which the handler of the request starts. *)
Definition start_ctl : ctl := host_tick (header_read (host_tick (request_ctl q idle delays))).
Definition start_view : lufa hwview := set_ControlRequest q (at_zero (view l)).

Lemma start_arriving :
  arriving (Z.to_nat (wLength q)) (has (bmRequestType q) REQDIR_DEVICETOHOST) start_ctl ∧
  is_Some (c_setup start_ctl) ∧ (host_wait start_ctl ≤ idle + sum_list delays + 1)%nat.
Proof.
  destruct (arriving_tick _ _ _ (request_arriving q idle delays Hwf)) as (Har1 & _ & Hw1).
  set (c1 := host_tick (request_ctl q idle delays)) in *.
  assert (arriving (Z.to_nat (wLength q)) (has (bmRequestType q) REQDIR_DEVICETOHOST)
    (header_read c1)) as Har2 by (by destruct Har1; constructor).
  destruct (arriving_tick _ _ _ Har2) as (Har3 & Hset3 & Hw3). unfold start_ctl. fold c1.
  split; [done|]. split; [rewrite Hset3; by eexists|].
  assert (host_wait (request_ctl q idle delays) = idle + sum_list delays + 1)%nat
    by (unfold host_wait; cbn; lia).
  unfold host_wait in Hw3 at 2. cbn in Hw3. unfold host_wait in Hw1 at 1. cbn in Hw1. lia.
Qed.

Lemma task_process l3 :
  USB_Device_ProcessControlRequest fuel
    (at_ctl (host_tick (request_ctl q idle delays)) (at_zero (view l))) = Ok tt l3 →
  ∃ l', USB_USBTask fuel l = Ok tt l' ∧ hw_ok (mcu l') ∧
        view l' = restore (v_uenum (hw (mcu l))) l3.
Proof.
  intros Hrun.
  assert (USB_USBTask fuel (view l) = Ok tt (restore (v_uenum (hw (mcu l))) l3)) as Hview.
  { apply USB_USBTask_request; [done|done| |]; cbn [mcu view set_mcu]; rewrite Hctl, ?tick_setup;
      [by eexists|done]. }
  destruct (sim_Ok _ _ _ _ _ (sim_USB_USBTask fuel) Hok Hview) as (l' & Hl' & Hv & Hok').
  by exists l'.
Qed.

Lemma task_standard l2 l3 :
  is_SetIdle q = false →
  standard_request fuel (bmRequestType q) (of_code (bRequest q)) (at_ctl start_ctl start_view) =
    Ok tt l2 →
  stall_rest l2 = Ok tt l3 →
  ∃ l', USB_USBTask fuel l = Ok tt l' ∧ hw_ok (mcu l') ∧
        view l' = restore (v_uenum (hw (mcu l))) l3.
Proof.
  intros Hidle Hstd Hrest. apply task_process.
  rewrite (process_standard fuel (at_zero (view l)) q _ l2); try done.
  - by rewrite tick_setup.
  - apply arriving_tick. by apply request_arriving.
Qed.
End task.

(** The whole request, with what it leaves alone. *)
Lemma GetDescriptor_task {H} `{!Mcu H} `{!McuSpec H} fuel (l : lufa H) q idle delays d :
  hw_ok (mcu l) →
  v_ctl (hw (mcu l)) = request_ctl q idle delays → 0 ≤ v_uenum (hw (mcu l)) < 16 →
  request_wf q → bRequest q = USB_Control_Request_code REQ_GetDescriptor →
  bmRequestType q = reqtype REQDIR_DEVICETOHOST REQTYPE_STANDARD REQREC_DEVICE ∨
  bmRequestType q = reqtype REQDIR_DEVICETOHOST REQTYPE_STANDARD REQREC_INTERFACE →
  serial_request q = false → descriptor (wValue q) (wIndex q) = Some d →
  USB_DeviceState l ≠ DEVICE_STATE_Unattached → USB_DeviceState l ≠ DEVICE_STATE_Suspended →
  (idle + sum_list delays + 2 * length d + 1 < fuel)%nat →
  ∃ l', USB_USBTask fuel l = Ok tt l' ∧ hw_ok (mcu l') ∧
        delivered (take (Z.to_nat (wLength q)) d) (v_ctl (hw (mcu l'))) ∧
        v_uenum (hw (mcu l')) = v_uenum (hw (mcu l)) ∧
        USB_DeviceState l' = USB_DeviceState l ∧ kept (view l) (view l').
Proof.
  intros Hok Hctl Hn Hwf Hreq Htype Hser Hd Hs1 Hs2 Hfuel.
  assert (has (bmRequestType q) REQDIR_DEVICETOHOST = true) as Hdir
    by (by destruct Htype as [-> | ->]).
  destruct (start_arriving q idle delays Hwf) as (Har & _ & Hw). rewrite Hdir in Har.
  destruct (GetDescriptor_run fuel (start_view l q) q (start_ctl q idle delays) d)
    as (c' & Hrun & Hdel); try done; [lia|].
  destruct (task_standard fuel l q idle delays Hok Hctl Hn Hwf Hs1 (at_ctl c' (start_view l q))
    (at_ctl (host_tick c') (start_view l q))) as (l' & Hl' & Hok' & Hv).
  { unfold is_SetIdle. by rewrite Hreq. }
  { rewrite Hreq, <- Hrun. cbn [standard_request of_code]. by destruct Htype as [-> | ->]. }
  { apply stall_rest_answered; [done|]. rewrite tick_setup. apply Hdel. }
  exists l'. split; [done|]. split; [done|].
  apply (f_equal mcu) in Hv as Hm. apply (f_equal USB_DeviceState) in Hv as Hst. cbn in Hm, Hst.
  rewrite Hm. cbn. split; [by apply delivered_tick|]. split; [done|]. split; [done|].
  rewrite Hv. by split.
Qed.

(** C11: A GET_DESCRIPTOR request delivers the descriptor: on a microcontroller
    that behaves as documented, whatever the delays of the host, the task
    returns and the host has received exactly the first [wLength] bytes of the
    descriptor that the request names, in packets of at most 32 bytes, and the
    selected endpoint and the state of the device are as before. *)
Theorem GetDescriptor_delivers {H} `{!Mcu H} `{!McuSpec H} fuel (l : lufa H) q idle delays d :
  hw_ok (mcu l) →
  v_ctl (hw (mcu l)) = request_ctl q idle delays → 0 ≤ v_uenum (hw (mcu l)) < 16 →
  request_wf q → bRequest q = USB_Control_Request_code REQ_GetDescriptor →
  bmRequestType q = reqtype REQDIR_DEVICETOHOST REQTYPE_STANDARD REQREC_DEVICE ∨
  bmRequestType q = reqtype REQDIR_DEVICETOHOST REQTYPE_STANDARD REQREC_INTERFACE →
  serial_request q = false → descriptor (wValue q) (wIndex q) = Some d →
  USB_DeviceState l ≠ DEVICE_STATE_Unattached → USB_DeviceState l ≠ DEVICE_STATE_Suspended →
  (idle + sum_list delays + 2 * length d + 1 < fuel)%nat →
  ∃ l', USB_USBTask fuel l = Ok tt l' ∧ hw_ok (mcu l') ∧
        delivered (take (Z.to_nat (wLength q)) d) (v_ctl (hw (mcu l'))) ∧
        v_uenum (hw (mcu l')) = v_uenum (hw (mcu l)) ∧
        USB_DeviceState l' = USB_DeviceState l.
Proof.
  intros. destruct (GetDescriptor_task fuel l q idle delays d) as (l' & ? & ? & ? & ? & ? & _); try done.
  by exists l'.
Qed.

(** ** Requests that the device refuses *)

(** An unknown code, direction or recipient; a status of an endpoint that the
    controller does not have; a feature of the device other than remote wakeup;
    the halt of the control endpoint or of one that the controller does not
    have; a descriptor that does not exist; a configuration above 1.  (An
    unknown feature of an endpoint is not among them: see [StatusFacts].) *)
Definition refused (q : USB_Request_Header_t) : bool :=
  let t := bmRequestType q in
  let std dir rec := t =? reqtype dir REQTYPE_STANDARD rec in
  let index := Z.land (u8 (wIndex q)) ENDPOINT_EPNUM_MASK in
  negb (is_SetIdle q) &&
  match of_code (bRequest q) with
  | Some REQ_GetStatus =>
      negb (std REQDIR_DEVICETOHOST REQREC_DEVICE || std REQDIR_DEVICETOHOST REQREC_ENDPOINT) ||
      std REQDIR_DEVICETOHOST REQREC_ENDPOINT && (index >=? ENDPOINT_TOTAL_ENDPOINTS)
  | Some REQ_ClearFeature | Some REQ_SetFeature =>
      negb (std REQDIR_HOSTTODEVICE REQREC_DEVICE || std REQDIR_HOSTTODEVICE REQREC_ENDPOINT) ||
      std REQDIR_HOSTTODEVICE REQREC_DEVICE &&
        negb (u8 (wValue q) =? FEATURE_SEL_DeviceRemoteWakeup) ||
      std REQDIR_HOSTTODEVICE REQREC_ENDPOINT && (u8 (wValue q) =? FEATURE_SEL_EndpointHalt) &&
        ((index =? ENDPOINT_CONTROLEP) || (index >=? ENDPOINT_TOTAL_ENDPOINTS))
  | Some REQ_SetAddress => negb (std REQDIR_HOSTTODEVICE REQREC_DEVICE)
  | Some REQ_GetDescriptor =>
      negb (std REQDIR_DEVICETOHOST REQREC_DEVICE || std REQDIR_DEVICETOHOST REQREC_INTERFACE) ||
      negb (serial_request q) && bool_decide (descriptor (wValue q) (wIndex q) = None)
  | Some REQ_GetConfiguration => negb (std REQDIR_DEVICETOHOST REQREC_DEVICE)
  | Some REQ_SetConfiguration =>
      negb (std REQDIR_HOSTTODEVICE REQREC_DEVICE) || (u8 (wValue q) >? FIXED_NUM_CONFIGURATIONS)
  | _ => true
  end.

Lemma GetDescriptor_none q :
  request_wf q → descriptor (wValue q) (wIndex q) = None →
  ((CALLBACK_USB_GetDescriptor (wValue q) (wIndex q)).2 =? NO_DESCRIPTOR) = true.
Proof.
  intros Hwf Hd. pose proof (GetDescriptor_object (wValue q) (wIndex q) (wf_value q Hwf)) as Hobj.
  unfold descriptor in Hd. destruct (CALLBACK_USB_GetDescriptor _ _) as [[mem|] size].
  - cbn. by destruct (size =? NO_DESCRIPTOR).
  - cbn. by rewrite Hobj.
Qed.

(** Where a handler gives up it has changed nothing. *)
Section refusals.
Context (fuel : nat) (l : lufa hwview) (c : ctl).
Local Abbreviation q := (USB_ControlRequest l).

Lemma GetStatus_refused :
  bmRequestType q = reqtype REQDIR_DEVICETOHOST REQTYPE_STANDARD REQREC_ENDPOINT →
  (Z.land (u8 (wIndex q)) ENDPOINT_EPNUM_MASK >=? ENDPOINT_TOTAL_ENDPOINTS) = true →
  USB_Device_GetStatus fuel (at_ctl c l) = Ok tt (at_ctl c l).
Proof.
  intros Ht Hi. unfold USB_Device_GetStatus. run_step (gets_run USB_ControlRequest (at_ctl c l)).
  change (USB_ControlRequest (at_ctl c l)) with q. rewrite Ht. cbv zeta. by rewrite Hi.
Qed.

Lemma ClearSetFeature_refused :
  bmRequestType q = reqtype REQDIR_HOSTTODEVICE REQTYPE_STANDARD REQREC_DEVICE ∧
    (u8 (wValue q) =? FEATURE_SEL_DeviceRemoteWakeup) = false ∨
  bmRequestType q = reqtype REQDIR_HOSTTODEVICE REQTYPE_STANDARD REQREC_ENDPOINT ∧
    (u8 (wValue q) =? FEATURE_SEL_EndpointHalt) = true ∧
    (Z.land (u8 (wIndex q)) ENDPOINT_EPNUM_MASK =? ENDPOINT_CONTROLEP) ||
    (Z.land (u8 (wIndex q)) ENDPOINT_EPNUM_MASK >=? ENDPOINT_TOTAL_ENDPOINTS) = true →
  USB_Device_ClearSetFeature fuel (at_ctl c l) = Ok tt (at_ctl c l).
Proof.
  intros Ht. unfold USB_Device_ClearSetFeature.
  run_step (gets_run USB_ControlRequest (at_ctl c l)).
  change (USB_ControlRequest (at_ctl c l)) with q. cbv zeta.
  destruct Ht as [[-> Hv]|(-> & Hv & Hi)]; rewrite Hv.
  - done.
  - by rewrite Hi.
Qed.

Lemma GetDescriptor_refused :
  request_wf q → serial_request q = false → descriptor (wValue q) (wIndex q) = None →
  USB_Device_GetDescriptor fuel (at_ctl c l) = Ok tt (at_ctl c l).
Proof.
  intros Hwf Hser Hd. unfold USB_Device_GetDescriptor.
  run_step (gets_run USB_ControlRequest (at_ctl c l)).
  change (USB_ControlRequest (at_ctl c l)) with q. unfold serial_request in Hser. rewrite Hser.
  cbv zeta. by rewrite (GetDescriptor_none q Hwf Hd).
Qed.

Lemma SetConfiguration_refused :
  (u8 (wValue q) >? FIXED_NUM_CONFIGURATIONS) = true →
  USB_Device_SetConfiguration fuel (at_ctl c l) = Ok tt (at_ctl c l).
Proof.
  intros Hv. unfold USB_Device_SetConfiguration.
  run_step (gets_run USB_ControlRequest (at_ctl c l)).
  change (USB_ControlRequest (at_ctl c l)) with q. by rewrite Hv.
Qed.

Lemma refused_run q' :
  q = q' → request_wf q' → refused q' = true →
  standard_request fuel (bmRequestType q') (of_code (bRequest q')) (at_ctl c l) = Ok tt (at_ctl c l).
Proof.
  intros <- Hwf Href. unfold refused in Href. apply andb_prop in Href as [_ Href].
  destruct (of_code (bRequest q)) as [r|] eqn:Hr; [|done].
  destruct r; cbn [standard_request]; try done; unfold when.
  all: match goal with |- (if ?b then _ else _) _ = _ => destruct b eqn:Hb; [|done] end.
  all: cbn [negb orb] in Href; try done.
  - apply andb_prop in Href as [Ht%Z.eqb_eq Hi]. by apply GetStatus_refused.
  - apply ClearSetFeature_refused. apply orb_prop in Href as [Href|Href];
      [left|right]; apply andb_prop in Href as [Ht Hv].
    + apply Z.eqb_eq in Ht. by apply negb_true_iff in Hv.
    + apply andb_prop in Ht as [Ht%Z.eqb_eq Hf]. done.
  - apply ClearSetFeature_refused. apply orb_prop in Href as [Href|Href];
      [left|right]; apply andb_prop in Href as [Ht Hv].
    + apply Z.eqb_eq in Ht. by apply negb_true_iff in Hv.
    + apply andb_prop in Ht as [Ht%Z.eqb_eq Hf]. done.
  - apply andb_prop in Href as [Hser%negb_true_iff Hd%bool_decide_eq_true].
    by apply GetDescriptor_refused.
  - by apply SetConfiguration_refused.
Qed.
End refusals.

(** The end of a refused request: the SETUP packet is dropped and the
    endpoint stalls. *)
Lemma stall_rest_refused l c :
  v_uenum (mcu l) = 0 → is_Some (c_setup c) →
  stall_rest (at_ctl c l) =
  Ok tt (put_ep UECONX (ueconx_value (Z.lor (ueconx_read (ep_reg l 0 UECONX)) (BV STALLRQ)))
           (at_ctl (drop_setup (host_tick (host_tick c))) l)).
Proof.
  intros Hsel Hs. unfold stall_rest. run_step (ctl_IsSETUPReceived l Hsel c).
  rewrite tick_setup, bool_decide_eq_true_2 by done. run_step (ctl_ClearSETUP l Hsel (host_tick c)).
  unfold Endpoint_StallTransaction. rewrite ueconx_set. cbn [at_ctl mcu set_mcu v_uenum with_ctl].
  rewrite Hsel. done.
Qed.

(** A refused request receives no data and no acknowledgement, the control
    endpoint stalls, and nothing of the device but the stored request changes. *)
Lemma unsupported_request_stalls {H} `{!Mcu H} `{!McuSpec H} fuel (l : lufa H) q idle delays :
  hw_ok (mcu l) →
  v_ctl (hw (mcu l)) = request_ctl q idle delays → 0 ≤ v_uenum (hw (mcu l)) < 16 →
  request_wf q → USB_DeviceState l ≠ DEVICE_STATE_Unattached → refused q = true →
  ∃ l', USB_USBTask fuel l = Ok tt l' ∧ hw_ok (mcu l') ∧
        c_setup (v_ctl (hw (mcu l'))) = None ∧ written (v_ctl (hw (mcu l'))) = [] ∧
        has (v_epregs (hw (mcu l')) 0 UECONX) (BV STALLRQ) = true ∧
        v_uenum (hw (mcu l')) = v_uenum (hw (mcu l)) ∧ v_regs (hw (mcu l')) = v_regs (hw (mcu l)) ∧
        set_ControlRequest q (set_mcu (mcu l') l) = l'.
Proof.
  intros Hok Hctl Hn Hwf Hst Href. destruct (start_arriving q idle delays Hwf) as (Har & Hset & _).
  destruct (task_standard fuel l q idle delays Hok Hctl Hn Hwf Hst
    (at_ctl (start_ctl q idle delays) (start_view l q))
    (put_ep UECONX (ueconx_value (Z.lor (ueconx_read (ep_reg (start_view l q) 0 UECONX)) (BV STALLRQ)))
       (at_ctl (drop_setup (host_tick (host_tick (start_ctl q idle delays)))) (start_view l q))))
    as (l' & Hl' & Hok' & Hv).
  { unfold refused in Href. apply andb_prop in Href as [Hi _]. by apply negb_true_iff in Hi. }
  { exact (refused_run fuel (start_view l q) _ q eq_refl Hwf Href). }
  { exact (stall_rest_refused (start_view l q) _ eq_refl Hset). }
  exists l'. split; [exact Hl'|]. split; [exact Hok'|].
  destruct (arriving_tick _ _ _ Har) as (Har1 & _). destruct (arriving_tick _ _ _ Har1) as (Har2 & _).
  revert Har2 Hv. generalize (host_tick (host_tick (start_ctl q idle delays))). clear.
  intros c3 Har Hv. destruct l as [h ? ? ? ? ? ?], l' as [h' ? ? ? ? ? ?].
  unfold view, set_mcu, restore, start_view, at_zero, put_ep in Hv. cbn in Hv.
  injection Hv as Hm -> -> -> -> -> ->.
  cbn [mcu]. rewrite Hm. cbn. split; [done|]. split; [|split_and!; try done].
  - unfold written. cbn. by rewrite (ar_taken _ _ _ Har), (ar_busy _ _ _ Har).
  - apply stalled_value.
Qed.

(** ** Requests without data *)

(** The empty packet of the status stage is sent, or sent and taken. *)
Record acked (c : ctl) : Prop := {
  ak_setup : c_setup c = None;
  ak_written : written c = [[]];
  ak_out : c_out c = None;
  ak_reading : h_reading (c_host c) = false;
  ak_data : h_data (c_host c) = [];
}.

Lemma acked_tick c : acked c → acked (host_tick c) ∧ (host_wait (host_tick c) ≤ host_wait c)%nat ∧
  (c_busy c = true → host_wait (host_tick c) < host_wait c)%nat.
Proof.
  destruct c as [s k b t o [n ds r w st d]]. unfold host_tick, host_wait, written. intros [Hs Hw Ho Hr Hd].
  cbn in *. subst. destruct n; cbn; [|split_and!; [by constructor|lia|lia]].
  destruct b; cbn; [|split_and!; [by constructor|lia|done]].
  split; [constructor; cbn; try done; unfold written; cbn; by rewrite app_nil_r|].
  destruct ds; cbn; destruct st; lia.
Qed.

Section acknowledge.
Context (fuel : nat) (l : lufa hwview) (want : nat).
Context (Hsel : v_uenum (mcu l) = 0) (Hfuel : (0 < fuel)%nat).

Lemma arriving_drop c : arriving want false c → arriving want false (drop_setup c).
Proof. intros []. by constructor. Qed.

(** The status stage of a request without data. *)
Lemma ClearStatusStage_IN c :
  has (bmRequestType (USB_ControlRequest l)) REQDIR_DEVICETOHOST = false →
  c_setup c = None → arriving want false c →
  ∃ c', Endpoint_ClearStatusStage fuel (at_ctl c l) = Ok tt (at_ctl c' l) ∧ acked c' ∧
        (host_wait c' ≤ S (host_wait c))%nat.
Proof.
  intros Hdir Hs Hc. destruct (arriving_tick _ _ _ Hc) as (Hc1 & Hs1 & Hw1).
  destruct (arriving_tick _ _ _ Hc1) as (Hc2 & Hs2 & Hw2).
  exists (set_busy (host_tick (host_tick c))). unfold Endpoint_ClearStatusStage.
  run_step (gets_run USB_ControlRequest (at_ctl c l)).
  change (USB_ControlRequest (at_ctl c l)) with (USB_ControlRequest l). rewrite Hdir.
  split; [|split].
  - destruct fuel as [|n]; [lia|]. cbn [status_wait].
    assert ((b ← Endpoint_IsINReady;
             if b : bool then mret true
             else s ← gets USB_DeviceState;
                  if decide (s = DEVICE_STATE_Unattached) then mret false
                  else status_wait n Endpoint_IsINReady) (at_ctl c l) =
            Ok true (at_ctl (host_tick c) l)) as Hwait.
    { run_step (ctl_IsINReady l Hsel c). by rewrite (ar_busy _ _ _ Hc1). }
    run_step Hwait. by rewrite ctl_ClearIN.
  - constructor; cbn.
    + by rewrite Hs2, Hs1.
    + unfold written. cbn. by rewrite (ar_taken _ _ _ Hc2), (ar_bank _ _ _ Hc2).
    + by apply (ar_out _ _ _ Hc2).
    + by apply (ar_reading _ _ _ Hc2).
    + by apply (ar_data _ _ _ Hc2).
  - unfold host_wait in *. cbn in *. rewrite (ar_busy _ _ _ Hc2) in Hw2. lia.
Qed.

(** The host takes the packet. *)
Lemma wait_taken n c :
  acked c → (host_wait c < n)%nat →
  ∃ c', wait_until n Endpoint_IsINReady (at_ctl c l) = Ok tt (at_ctl c' l) ∧ acked c' ∧
        c_busy c' = false.
Proof.
  clear fuel Hfuel. revert c. induction n as [|n IH]; intros c Hc Hn; [lia|]. cbn [wait_until].
  destruct (acked_tick _ Hc) as (Hc1 & Hle & Hlt).
  run_step (ctl_IsINReady l Hsel c). destruct (c_busy (host_tick c)) eqn:Hb; cbn [negb].
  - apply IH; [done|]. assert (c_busy c = true); [|specialize (Hlt ltac:(done)); lia].
    destruct (c_busy c) eqn:Hb'; [done|]. by rewrite tick_not_busy in Hb.
  - by exists (host_tick c).
Qed.
End acknowledge.

(** ** SET_ADDRESS *)

Definition put_reg (r : reg) (x : Z) (l : lufa hwview) : lufa hwview :=
  set_mcu (with_reg r x (mcu l)) l.

Lemma address_value old a :
  0 ≤ a < 128 → Z.lor (Z.lor (Z.land old (BV ADDEN)) (Z.land a 0x7F)) (BV ADDEN) = 128 + a.
Proof.
  intros Ha. rewrite <- Z.lor_assoc, (Z.lor_comm (Z.land a _)), Z.lor_assoc.
  assert (Z.lor (Z.land old (BV ADDEN)) (BV ADDEN) = BV ADDEN) as ->.
  { apply Z.bits_inj'. intros i _. rewrite Z.lor_spec, Z.land_spec.
    by destruct (Z.testbit old i), (Z.testbit (BV ADDEN) i). }
  assert (is_u8 a) as Hu by (unfold is_u8; lia). revert Ha.
  by_bytes (λ a, 0 ≤ a < 128 → Z.lor 128 (Z.land a 127) = 128 + a).
Qed.

Lemma SetAddress_run fuel l c :
  v_uenum (mcu l) = 0 → request_wf (USB_ControlRequest l) →
  has (bmRequestType (USB_ControlRequest l)) REQDIR_DEVICETOHOST = false →
  arriving (Z.to_nat (wLength (USB_ControlRequest l))) false c →
  (S (host_wait c) < fuel)%nat →
  let a := Z.land (wValue (USB_ControlRequest l)) 0x7F in
  ∃ c' l', USB_Device_SetAddress fuel (at_ctl c l) = Ok tt (at_ctl c' l') ∧ acked c' ∧
           c_busy c' = false ∧ v_uenum (mcu l') = 0 ∧ v_regs (mcu l') UDADDR = 128 + a ∧
           USB_DeviceState l' = (if a =? 0 then DEVICE_STATE_Default else DEVICE_STATE_Addressed) ∧
           kept l l'.
Proof.
  intros Hsel Hwf Hdir Hc Hfuel a. unfold USB_Device_SetAddress.
  run_step (gets_run USB_ControlRequest (at_ctl c l)). cbv zeta.
  change (USB_ControlRequest (at_ctl c l)) with (USB_ControlRequest l). fold a.
  assert (0 ≤ a < 128) as Ha.
  { unfold a. rewrite (Z.land_ones _ 7) by lia. apply Z.mod_pos_bound. lia. }
  set (l1 := put_reg UDADDR (Z.lor (Z.land (v_regs (mcu l) UDADDR) (BV ADDEN)) (Z.land a 0x7F)) l).
  assert (USB_Device_SetDeviceAddress a (at_ctl c l) = Ok tt (at_ctl c l1)) as Hset
    by (by destruct l).
  run_step Hset. run_step (ctl_ClearSETUP l1 Hsel c).
  destruct (arriving_tick _ _ _ Hc) as (Hc1 & _ & Hw1).
  destruct (ClearStatusStage_IN fuel l1 _ Hsel ltac:(lia) (drop_setup (host_tick c)) Hdir eq_refl
    (arriving_drop _ _ Hc1)) as (c2 & Hrun2 & Hc2 & Hw2).
  run_step Hrun2.
  destruct (wait_taken l1 Hsel fuel c2 Hc2) as (c3 & Hrun3 & Hc3 & Hb3).
  { change (host_wait (drop_setup (host_tick c))) with (host_wait (host_tick c)) in Hw2. lia. }
  run_step Hrun3.
  set (l2 := put_reg UDADDR (Z.lor (v_regs (mcu l1) UDADDR) (BV ADDEN)) l1).
  assert (USB_Device_EnableDeviceAddress a (at_ctl c3 l1) = Ok tt (at_ctl c3 l2)) as Hen by done.
  run_step Hen.
  exists c3, (set_DeviceState (if a =? 0 then DEVICE_STATE_Default else DEVICE_STATE_Addressed) l2).
  split; [done|]. split; [done|]. split; [done|]. split; [done|]. split; [cbn; by apply address_value|].
  split; [done|]. split; try done. intros r Hr. cbn. by rewrite !decide_False by done.
Qed.

(** The whole request, with what it leaves alone. *)
Lemma SetAddress_task {H} `{!Mcu H} `{!McuSpec H} fuel (l : lufa H) q idle delays :
  hw_ok (mcu l) →
  v_ctl (hw (mcu l)) = request_ctl q idle delays → 0 ≤ v_uenum (hw (mcu l)) < 16 →
  request_wf q → bRequest q = USB_Control_Request_code REQ_SetAddress →
  bmRequestType q = reqtype REQDIR_HOSTTODEVICE REQTYPE_STANDARD REQREC_DEVICE →
  USB_DeviceState l ≠ DEVICE_STATE_Unattached → (idle + sum_list delays + 2 < fuel)%nat →
  let a := Z.land (wValue q) 0x7F in
  ∃ l', USB_USBTask fuel l = Ok tt l' ∧ hw_ok (mcu l') ∧
        c_taken (v_ctl (hw (mcu l'))) = [[]] ∧ written (v_ctl (hw (mcu l'))) = [[]] ∧
        v_regs (hw (mcu l')) UDADDR = 128 + a ∧
        USB_DeviceState l' = (if a =? 0 then DEVICE_STATE_Default else DEVICE_STATE_Addressed) ∧
        v_uenum (hw (mcu l')) = v_uenum (hw (mcu l)) ∧ kept (view l) (view l').
Proof.
  intros Hok Hctl Hn Hwf Hreq Htype Hst Hfuel a.
  destruct (start_arriving q idle delays Hwf) as (Har & _ & Hw). rewrite Htype in Har.
  destruct (SetAddress_run fuel (start_view l q) (start_ctl q idle delays))
    as (c' & l1 & Hrun & Hack & Hb & Hsel & Haddr & Hs & Hkept); try done.
  { cbn. by rewrite Htype. }
  { lia. }
  destruct (task_standard fuel l q idle delays Hok Hctl Hn Hwf Hst (at_ctl c' l1)
    (at_ctl (host_tick c') l1)) as (l' & Hl' & Hok' & Hv).
  { unfold is_SetIdle. by rewrite Hreq. }
  { rewrite Hreq, Htype, <- Hrun. done. }
  { apply stall_rest_answered; [done|]. rewrite tick_setup. apply Hack. }
  exists l'. split; [done|]. split; [done|].
  apply (f_equal mcu) in Hv as Hm. apply (f_equal USB_DeviceState) in Hv as Hst'. cbn in Hm, Hst'.
  destruct (acked_tick _ Hack) as (Hack' & _). pose proof (ak_written _ Hack') as Hwr.
  rewrite Hm. cbn. split; [|split; [done|split; [done|split; [by rewrite Hst', Hs|split; [done|]]]]].
  2: { rewrite Hv. destruct Hkept. by split. }
  unfold written in Hwr. rewrite (tick_not_busy _ Hb), app_nil_r in Hwr. done.
Qed.

(** SET_ADDRESS acknowledges the request, waits until the host has taken
    the acknowledgement and then answers to the new address: the address
    register holds the seven bits of [wValue] with the enable bit, and the
    device is addressed (or back in the default state for address zero). *)
Lemma SetAddress_enables {H} `{!Mcu H} `{!McuSpec H} fuel (l : lufa H) q idle delays :
  hw_ok (mcu l) →
  v_ctl (hw (mcu l)) = request_ctl q idle delays → 0 ≤ v_uenum (hw (mcu l)) < 16 →
  request_wf q → bRequest q = USB_Control_Request_code REQ_SetAddress →
  bmRequestType q = reqtype REQDIR_HOSTTODEVICE REQTYPE_STANDARD REQREC_DEVICE →
  USB_DeviceState l ≠ DEVICE_STATE_Unattached → (idle + sum_list delays + 2 < fuel)%nat →
  let a := Z.land (wValue q) 0x7F in
  ∃ l', USB_USBTask fuel l = Ok tt l' ∧ hw_ok (mcu l') ∧
        c_taken (v_ctl (hw (mcu l'))) = [[]] ∧ v_regs (hw (mcu l')) UDADDR = 128 + a ∧
        USB_DeviceState l' = (if a =? 0 then DEVICE_STATE_Default else DEVICE_STATE_Addressed) ∧
        v_uenum (hw (mcu l')) = v_uenum (hw (mcu l)).
Proof.
  intros. destruct (SetAddress_task fuel l q idle delays) as (l' & ? & ? & ? & _ & ? & ? & ? & _); try done.
  by exists l'.
Qed.

(** ** SET_CONFIGURATION *)

(** There is room for the two endpoints of the firmware. *)
Definition ep_room (l : lufa hwview) : Prop :=
  ep_mem l 0 + ep_mem l 3 + ep_mem l 4 ≤ 48 ∧ ep_mem l 2 ≤ 64.

(** Both endpoints of the firmware are enabled, empty and configured as the
    descriptors say: interrupt endpoints of 64 bytes, IN and OUT. *)
Record endpoints_up (l : lufa hwview) : Prop := {
  up_in_cfg : ep_reg l 1 UECFG0X = CFG0_IN ∧ ep_reg l 1 UECFG1X = CFG1_64;
  up_out_cfg : ep_reg l 2 UECFG0X = CFG0_OUT ∧ ep_reg l 2 UECFG1X = CFG1_64;
  up_in_on : has (ep_reg l 1 UECONX) (BV EPEN) = true;
  up_out_on : has (ep_reg l 2 UECONX) (BV EPEN) = true;
  up_in : v_in (mcu l) = Some [];
  up_out : v_out (mcu l) = None;
}.

Lemma ConfigurationChanged_run l :
  ep_room l →
  ∃ l', EVENT_USB_Device_ConfigurationChanged l = Ok tt l' ∧ same_rest l l' ∧
        v_ctl (mcu l') = v_ctl (mcu l) ∧ v_uenum (mcu l') = 2 ∧ endpoints_up l' ∧
        ep_room l'.
Proof.
  intros [H034 H2]. unfold EVENT_USB_Device_ConfigurationChanged.
  rewrite ConfigureEndpoint_IN, ConfigureEndpoint_OUT.
  pose proof (ConfigureEndpoint_Prv_spec 1 CFG0_IN CFG1_64 l ltac:(lia) eq_refl) as Hone.
  change (ep_memory CFG1_64) with 64 in Hone.
  destruct (Z.leb_spec (all_mem l - ep_mem l 1 + 64) 176) as [_|Hbad];
    [|unfold all_mem in Hbad; lia].
  destruct Hone as (l1 & Hrun1 & C1). run_step Hrun1.
  pose proof (ConfigureEndpoint_Prv_spec 2 CFG0_OUT CFG1_64 l1 ltac:(lia) eq_refl) as Htwo.
  change (ep_memory CFG1_64) with 64 in Htwo.
  assert (ep_mem l1 0 = ep_mem l 0 ∧ ep_mem l1 1 = 64 ∧ ep_mem l1 3 = ep_mem l 3 ∧
          ep_mem l1 4 = ep_mem l 4) as (M0 & M1 & M3 & M4).
  { unfold ep_mem. by rewrite !(cf_cfg _ _ _ _ _ C1). }
  destruct (Z.leb_spec (all_mem l1 - ep_mem l1 2 + 64) 176) as [_|Hbad];
    [|unfold all_mem in Hbad; lia].
  destruct Htwo as (l2 & Hrun2 & C2). run_step Hrun2. cbn [negb andb].
  exists l2. split; [done|]. split; [etransitivity; [apply C1|apply C2]|].
  split; [by rewrite (cf_ctl _ _ _ _ _ C2), (cf_ctl _ _ _ _ _ C1)|].
  split; [by apply C2|]. split.
  - constructor.
    + rewrite !(cf_cfg _ _ _ _ _ C2) by done. cbn. rewrite !(cf_cfg _ _ _ _ _ C1) by done. done.
    + rewrite !(cf_cfg _ _ _ _ _ C2) by done. done.
    + apply (cf_others _ _ _ _ _ C2), C1.
    + apply C2.
    + by rewrite (cf_in _ _ _ _ _ C2), (cf_in _ _ _ _ _ C1).
    + by rewrite (cf_out _ _ _ _ _ C2).
  - unfold ep_room, ep_mem in *. rewrite !(cf_cfg _ _ _ _ _ C2) by done. cbn.
    change (ep_memory CFG1_64) with 64. rewrite !(cf_cfg _ _ _ _ _ C1) by done. cbn. lia.
Qed.

Lemma stall_rest_out l :
  v_uenum (mcu l) = 2 → stall_rest l = Ok tt (at_ctl (host_tick (v_ctl (mcu l))) l).
Proof.
  intros Hsel. unfold stall_rest, Endpoint_IsSETUPReceived, test_bits, get_reg, on_mcu, zoom.
  unfold mbind, M_bind. cbn [rd view_Mcu before_read after_read reg_value].
  unfold ueintx_bits. cbn [v_uenum with_ctl v_out]. rewrite Hsel. cbn [Z.eqb Pos.eqb].
  destruct (v_out (mcu l)) as [o|]; [|done]. by destruct (bool_decide (o ≠ [])).
Qed.

Lemma SetConfiguration_run fuel l c :
  v_uenum (mcu l) = 0 → (0 < fuel)%nat → ep_room l →
  has (bmRequestType (USB_ControlRequest l)) REQDIR_DEVICETOHOST = false →
  arriving (Z.to_nat (wLength (USB_ControlRequest l))) false c →
  let n := u8 (wValue (USB_ControlRequest l)) in
  n ≤ FIXED_NUM_CONFIGURATIONS →
  ∃ l', USB_Device_SetConfiguration fuel (at_ctl c l) = Ok tt l' ∧ acked (v_ctl (mcu l')) ∧
        v_uenum (mcu l') = 2 ∧ endpoints_up l' ∧ ep_room l' ∧ v_regs (mcu l') = v_regs (mcu l) ∧
        v_sent (mcu l') = v_sent (mcu l) ∧ v_txd (mcu l') = v_txd (mcu l) ∧
        USB_Device_ConfigurationNumber l' = n ∧
        USB_DeviceState l' =
          if negb (n =? 0) || has (v_regs (mcu l) UDADDR) (BV ADDEN)
          then DEVICE_STATE_Configured else DEVICE_STATE_Powered.
Proof.
  intros Hsel Hfuel Hroom Hdir Hc n Hn. unfold USB_Device_SetConfiguration.
  run_step (gets_run USB_ControlRequest (at_ctl c l)).
  change (USB_ControlRequest (at_ctl c l)) with (USB_ControlRequest l). fold n.
  destruct (Z.gtb_spec n FIXED_NUM_CONFIGURATIONS); [lia|].
  run_step (ctl_ClearSETUP l Hsel c). destruct (arriving_tick _ _ _ Hc) as (Hc1 & _ & _).
  set (l1 := set_ConfigurationNumber n l).
  run_step (modify_run (set_ConfigurationNumber n) (at_ctl (drop_setup (host_tick c)) l)).
  change (set_ConfigurationNumber n (at_ctl _ l)) with (at_ctl (drop_setup (host_tick c)) l1).
  destruct (ClearStatusStage_IN fuel l1 _ Hsel Hfuel (drop_setup (host_tick c)) Hdir eq_refl
    (arriving_drop _ _ Hc1)) as (c2 & Hrun2 & Hc2 & _).
  run_step Hrun2. run_step (gets_run USB_Device_ConfigurationNumber (at_ctl c2 l1)).
  change (USB_Device_ConfigurationNumber (at_ctl c2 l1)) with n.
  set (st := if negb (n =? 0) || has (v_regs (mcu l) UDADDR) (BV ADDEN)
             then DEVICE_STATE_Configured else DEVICE_STATE_Powered).
  assert ((if negb (n =? 0) then modify (set_DeviceState DEVICE_STATE_Configured)
           else a ← USB_Device_IsAddressSet;
                modify (set_DeviceState (if a : bool then DEVICE_STATE_Configured
                                         else DEVICE_STATE_Powered))) (at_ctl c2 l1) =
          Ok tt (at_ctl c2 (set_DeviceState st l1))) as Hst.
  { unfold st. destruct (negb (n =? 0)); by destruct l. }
  run_step Hst.
  destruct (ConfigurationChanged_run (at_ctl c2 (set_DeviceState st l1)))
    as (l' & Hrun & Hrest & Hctl & Hu & Hup & Hroom'); [done|].
  exists l'. split; [done|]. split; [by rewrite Hctl|]. split; [done|]. split; [done|].
  split; [done|]. split; [by rewrite (sr_regs _ _ Hrest)|].
  split; [by rewrite (sr_sent _ _ Hrest)|]. split; [by rewrite (sr_txd _ _ Hrest)|].
  split; [by rewrite (sr_conf _ _ Hrest)|by rewrite (sr_state _ _ Hrest)].
Qed.

(** The whole request, with what it leaves alone. *)
Lemma SetConfiguration_task {H} `{!Mcu H} `{!McuSpec H} fuel (l : lufa H) q idle delays :
  hw_ok (mcu l) →
  v_ctl (hw (mcu l)) = request_ctl q idle delays → 0 ≤ v_uenum (hw (mcu l)) < 16 →
  request_wf q → bRequest q = USB_Control_Request_code REQ_SetConfiguration →
  bmRequestType q = reqtype REQDIR_HOSTTODEVICE REQTYPE_STANDARD REQREC_DEVICE →
  u8 (wValue q) ≤ FIXED_NUM_CONFIGURATIONS → ep_room (view l) →
  USB_DeviceState l ≠ DEVICE_STATE_Unattached → (0 < fuel)%nat →
  ∃ l', USB_USBTask fuel l = Ok tt l' ∧ hw_ok (mcu l') ∧
        written (v_ctl (hw (mcu l'))) = [[]] ∧ endpoints_up (view l') ∧ ep_room (view l') ∧
        USB_Device_ConfigurationNumber l' = u8 (wValue q) ∧
        USB_DeviceState l' =
          (if negb (u8 (wValue q) =? 0) || has (v_regs (hw (mcu l)) UDADDR) (BV ADDEN)
           then DEVICE_STATE_Configured else DEVICE_STATE_Powered) ∧
        v_uenum (hw (mcu l')) = v_uenum (hw (mcu l)) ∧
        v_regs (hw (mcu l')) = v_regs (hw (mcu l)) ∧ v_sent (hw (mcu l')) = v_sent (hw (mcu l)) ∧
        v_txd (hw (mcu l')) = v_txd (hw (mcu l)).
Proof.
  intros Hok Hctl Hn Hwf Hreq Htype Hv Hroom Hst Hfuel.
  destruct (start_arriving q idle delays Hwf) as (Har & _ & Hw). rewrite Htype in Har.
  destruct (SetConfiguration_run fuel (start_view l q) (start_ctl q idle delays))
    as (l1 & Hrun & Hack & Hsel & Hup & Hroom' & Hregs & Hsent & Htxd & Hnum & Hs);
    try done.
  { cbn. by rewrite Htype. }
  destruct (task_standard fuel l q idle delays Hok Hctl Hn Hwf Hst l1
    (at_ctl (host_tick (v_ctl (mcu l1))) l1)) as (l' & Hl' & Hok' & Hv').
  { unfold is_SetIdle. by rewrite Hreq. }
  { rewrite Hreq, Htype, <- Hrun. done. }
  { by apply stall_rest_out. }
  exists l'. split; [done|]. split; [done|]. rewrite Hv'.
  apply (f_equal mcu) in Hv' as Hm. apply (f_equal USB_DeviceState) in Hv' as Hst'.
  apply (f_equal USB_Device_ConfigurationNumber) in Hv' as Hnum'. cbn in Hm, Hst', Hnum'.
  rewrite Hm. cbn. destruct (acked_tick _ Hack) as (Hack' & _).
  split; [apply Hack'|]. split; [by destruct Hup; constructor|]. split; [done|].
  split; [by rewrite Hnum'|]. split; [by rewrite Hst', Hs|].
  by rewrite Hregs, Hsent, Htxd.
Qed.

(** C16: SET_CONFIGURATION with 0 or 1 is acknowledged and brings both report
    endpoints up, enabled and empty, as the descriptors declare them: they fit
    the memory of the controller beside the control endpoint, so the endless
    loop of the firmware on a failed configuration is not reached.  The device
    is then configured, also for configuration 0 when it has an address. *)
Theorem SetConfiguration_configures {H} `{!Mcu H} `{!McuSpec H} fuel (l : lufa H) q idle delays :
  hw_ok (mcu l) →
  v_ctl (hw (mcu l)) = request_ctl q idle delays → 0 ≤ v_uenum (hw (mcu l)) < 16 →
  request_wf q → bRequest q = USB_Control_Request_code REQ_SetConfiguration →
  bmRequestType q = reqtype REQDIR_HOSTTODEVICE REQTYPE_STANDARD REQREC_DEVICE →
  u8 (wValue q) ≤ FIXED_NUM_CONFIGURATIONS → ep_room (view l) →
  USB_DeviceState l ≠ DEVICE_STATE_Unattached → (0 < fuel)%nat →
  ∃ l', USB_USBTask fuel l = Ok tt l' ∧ hw_ok (mcu l') ∧
        written (v_ctl (hw (mcu l'))) = [[]] ∧ endpoints_up (view l') ∧ ep_room (view l') ∧
        USB_Device_ConfigurationNumber l' = u8 (wValue q) ∧
        USB_DeviceState l' =
          (if negb (u8 (wValue q) =? 0) || has (v_regs (hw (mcu l)) UDADDR) (BV ADDEN)
           then DEVICE_STATE_Configured else DEVICE_STATE_Powered) ∧
        v_uenum (hw (mcu l')) = v_uenum (hw (mcu l)).
Proof.
  intros. destruct (SetConfiguration_task fuel l q idle delays)
    as (l' & ? & ? & ? & ? & ? & ? & ? & ? & _); [done..|]. by exists l'.
Qed.

(** ** Instances *)

Module Demo.
(** An attached device whose control endpoint is configured, with the SETUP
    packet of [q] received and a host that is slow now and then. *)
Definition demo_view (c : ctl) : hwview :=
  {| v_uenum := 2; v_ctl := c; v_in := None; v_sent := []; v_out := None; v_rx := []; v_tx := [];
     v_txd := []; v_pll := 0; v_sig := λ _, 0; v_frames := []; v_regs := λ _, 0;
     v_epregs := λ n r, if decide (n = 0 ∧ r = UECFG1X) then 0x22 else 0 |}.
Definition demo_header (t r v n : Z) : USB_Request_Header_t :=
  {| bmRequestType := t; bRequest := r; wValue := v; wIndex := 0; wLength := n |}.
Definition demo_lufa (q : USB_Request_Header_t) : lufa hwview :=
  {| mcu := demo_view (request_ctl q 3 [2; 0; 5]%nat); USB_DeviceState := DEVICE_STATE_Default;
     USB_ControlRequest := q; USB_Device_ConfigurationNumber := 0;
     USB_Device_CurrentlySelfPowered := false; USB_Device_RemoteWakeupEnabled := false;
     USB_IsInitialized := true |}.
End Demo.
Import Demo.

Ltac demo_start := first [exact I | reflexivity | cbn; lia].
Ltac demo_wf := constructor; cbn; unfold is_u8, is_u16; try lia; vm_compute; congruence.

Lemma GetDescriptor_delivers_witness :
  ∃ l', USB_USBTask 200 (demo_lufa (demo_header 0x80 6 0x0200 64)) = Ok tt l' ∧
        delivered (take 64 (Configuration_bytes ConfigurationDescriptor)) (v_ctl (mcu l')).
Proof.
  destruct (GetDescriptor_delivers 200 (demo_lufa (demo_header 0x80 6 0x0200 64))
    (demo_header 0x80 6 0x0200 64) 3 [2; 0; 5]%nat (Configuration_bytes ConfigurationDescriptor))
    as (l' & Hrun & _ & Hdel & _).
  1-3: demo_start.
  - demo_wf.
  - reflexivity.
  - by left.
  - vm_compute. reflexivity.
  - vm_compute. reflexivity.
  - discriminate.
  - discriminate.
  - apply Nat.ltb_lt. vm_compute. reflexivity.
  - exists l'. split; [exact Hrun|exact Hdel].
Defined.

Lemma SetConfiguration_configures_witness :
  ∃ l', USB_USBTask 200 (demo_lufa (demo_header 0 9 1 0)) = Ok tt l' ∧ endpoints_up (view l') ∧
        USB_DeviceState l' = DEVICE_STATE_Configured.
Proof.
  destruct (SetConfiguration_configures 200 (demo_lufa (demo_header 0 9 1 0))
    (demo_header 0 9 1 0) 3 [2; 0; 5]%nat) as (l' & Hrun & _ & _ & Hup & _ & _ & Hst & _).
  1-3: demo_start.
  - demo_wf.
  - reflexivity.
  - reflexivity.
  - vm_compute. discriminate.
  - split; vm_compute; discriminate.
  - discriminate.
  - lia.
  - exists l'. split; [exact Hrun|]. split; [exact Hup|exact Hst].
Defined.
