(* ===== verification/ControlWrite.v ===== *)
(** * Control transfers: what the device receives

    The data stage of a control write: whatever the delays of the host and
    however it splits the data into packets, [Endpoint_Read_Control_Stream_LE]
    fills the buffer with exactly the bytes that were sent. *)

From S2P Require Import Prelude StdDescriptors Hardware Lufa Board Device Endpoint ControlStream.
From S2P Require Import Requests ControlFacts RequestFacts.

(** ** The OUT bank of the control endpoint *)

Definition set_out_bank (p : list Z) (c : ctl) : ctl :=
  {| c_setup := c_setup c; c_bank := c_bank c; c_busy := c_busy c; c_taken := c_taken c;
     c_out := Some p; c_host := c_host c |}.

Section bank.
Context (l : lufa hwview) (Hsel : v_uenum (mcu l) = 0).

Lemma ctl_BytesIn_out c p :
  c_setup c = None → c_out c = Some p →
  Endpoint_BytesInEndpoint (at_ctl c l) = Ok (Z.of_nat (length p)) (at_ctl c l).
Proof.
  intros Hs Ho. unfold Endpoint_BytesInEndpoint, get_reg, on_mcu, zoom.
  cbn [rd view_Mcu mcu at_ctl set_mcu before_read after_read reg_value v_uenum with_ctl v_ctl].
  rewrite Hsel. cbn [Z.eqb]. by rewrite Hs, Ho.
Qed.

Lemma ctl_Read_out c b p :
  c_setup c = None → c_out c = Some (b :: p) →
  Endpoint_Read_8 (at_ctl c l) = Ok b (at_ctl (set_out_bank p c) l).
Proof.
  intros Hs Ho. unfold Endpoint_Read_8, get_reg, on_mcu, zoom.
  cbn [rd view_Mcu mcu at_ctl set_mcu before_read after_read reg_value v_uenum with_ctl v_ctl].
  rewrite Hsel. cbn [Z.eqb]. rewrite Hs, Ho. unfold pop_setup, set_out_bank. by rewrite Hs, Ho.
Qed.

(** ** One packet *)

(** A store at the end of what was received: the same in RAM and EEPROM. *)
Definition stores_next (put : Z → Z → list Z → option (list Z)) : Prop :=
  ∀ got x room b, put (Z.of_nat (length got)) b (got ++ x :: room) = Some (got ++ b :: room).

Lemma of_nat_nonneg n : (0 <=? Z.of_nat n) = true.
Proof. apply Z.leb_le. lia. Qed.

Lemma byte_put_next : stores_next byte_put.
Proof.
  intros got x room b. unfold byte_put. rewrite of_nat_nonneg, Nat2Z.id.
  rewrite store_at_insert; [|rewrite length_app; cbn [length]; lia].
  rewrite insert_app_r_alt by done. by rewrite Nat.sub_diag.
Qed.

Lemma eeprom_update_next : stores_next eeprom_update_byte.
Proof.
  intros got x room b. unfold eeprom_update_byte, byte_at.
  rewrite of_nat_nonneg, Nat2Z.id, list_lookup_middle by done. cbn. destruct (Z.eqb_spec x b) as [->|]; [done|].
  apply byte_put_next.
Qed.

Context (put : Z → Z → list Z → option (list Z)) (Hput : stores_next put).

Lemma take_bytes_spec n got room p c :
  c_setup c = None → c_out c = Some p → (length p < n)%nat → (length p ≤ length room)%nat →
  take_bytes put n LE (got ++ room) (Z.of_nat (length got)) (Z.of_nat (length room)) (at_ctl c l) =
  Ok (got ++ p ++ drop (length p) room, Z.of_nat (length (got ++ p)),
      Z.of_nat (length (drop (length p) room))) (at_ctl (set_out_bank [] c) l).
Proof.
  revert n got room c. induction p as [|b p IH]; intros n got room c Hs Ho Hn Hr;
    (destruct n as [|n]; [cbn in *; lia|]); cbn [take_bytes].
  - rewrite drop_0, app_nil_r. cbn [length app].
    assert (set_out_bank [] c = c) as -> by (destruct c; unfold set_out_bank; cbn in *; by rewrite Ho).
    destruct (Z.eqb_spec (Z.of_nat (length room)) 0); [done|].
    run_step (ctl_BytesIn_out c [] Hs Ho). done.
  - destruct room as [|x room]; [cbn in Hr; lia|]. cbn [length] in *.
    destruct (Z.eqb_spec (Z.of_nat (S (length room))) 0); [lia|].
    run_step (ctl_BytesIn_out c (b :: p) Hs Ho).
    destruct (Z.eqb_spec (Z.of_nat (length (b :: p))) 0) as [Hz|_]; [cbn in Hz; lia|].
    run_step (ctl_Read_out c b p Hs Ho). rewrite Hput. cbn [checked].
    run_step (ret_run (got ++ b :: room) (at_ctl (set_out_bank p c) l)). cbn [buffer_move].
    replace (Z.of_nat (length got) + 1) with (Z.of_nat (length (got ++ [b]))) by (rewrite length_app; cbn; lia).
    replace (Z.of_nat (S (length room)) - 1) with (Z.of_nat (length room)) by lia.
    rewrite cons_middle, app_assoc. rewrite IH by (done || lia). cbn [drop].
    by rewrite <- !app_assoc.
Qed.
End bank.

(** ** The data stage *)

(** The host still has to send [rest], part of which may be in the bank. *)
Record receiving (rest : list Z) (c : ctl) : Prop := {
  rv_setup : c_setup c = None;
  rv_bank : c_bank c = [];
  rv_busy : c_busy c = false;
  rv_taken : c_taken c = [];
  rv_reading : h_reading (c_host c) = false;
  rv_status : h_status (c_host c) = false;
  rv_data : default [] (c_out c) ++ concat (h_data (c_host c)) = rest;
  rv_packets : Forall (λ p, 0 < length p ≤ 32)%nat (option_list (c_out c) ++ h_data (c_host c));
}.

(** Polls until the host has sent everything. *)
Definition send_wait (c : ctl) : nat :=
  h_idle (c_host c) + sum_list (h_delays (c_host c)) + 2 * length (h_data (c_host c)) +
  match c_out c with Some _ => 1 | None => 0 end.

Lemma receiving_tick rest c :
  receiving rest c →
  receiving rest (host_tick c) ∧ (send_wait (host_tick c) ≤ send_wait c)%nat ∧
  (c_out c = None → rest ≠ [] → send_wait (host_tick c) < send_wait c)%nat ∧
  (is_Some (c_out c) → c_out (host_tick c) = c_out c).
Proof.
  destruct c as [s k b t o [n ds r w st d]]. intros [Hs Hk Hb Ht Hr Hst Hd Hp]; cbn in *. subst.
  unfold host_tick, send_wait, data_ready. cbn. destruct n; cbn.
  - destruct d as [|p d]; cbn; [split_and!; [by constructor|lia|by intros ->|done]|].
    destruct o as [q|]; cbn; [split_and!; [by constructor|lia|done|done]|].
    split_and!; [by constructor|destruct ds; cbn; lia|destruct ds; cbn; lia|by intros []].
  - split_and!; [by constructor|lia|lia|done].
Qed.

(** Between the packets and at the end. *)
Lemma receiving_dropped rest p c :
  receiving rest c → c_out c = Some p →
  (0 < length p ≤ 32)%nat ∧ ∃ rest', rest = p ++ rest' ∧ receiving rest' (drop_out c) ∧
  (send_wait (drop_out c) < send_wait c)%nat.
Proof.
  intros [Hs Hk Hb Ht Hr Hst Hd Hp] Ho. rewrite Ho in Hd, Hp. cbn in Hd, Hp.
  apply Forall_cons in Hp as [Hp1 Hp2]. split; [done|].
  exists (concat (h_data (c_host c))). split; [done|].
  split; [by constructor|]. unfold send_wait. cbn. rewrite Ho. lia.
Qed.

Lemma receiving_end c : receiving [] c → c_out c = None ∧ h_data (c_host c) = [].
Proof.
  intros [_ _ _ _ _ _ Hd Hp]. apply app_eq_nil in Hd as [Ho Hd].
  destruct (c_out c) as [p|]; cbn in *; [apply Forall_cons in Hp as [? _]; subst; cbn in *; lia|].
  split; [done|]. destruct (h_data (c_host c)) as [|p d]; [done|].
  apply Forall_cons in Hp as [? _]. cbn in Hd. apply app_eq_nil in Hd as [-> _]. cbn in *. lia.
Qed.

Lemma receiving_arriving c : receiving [] c → arriving (h_want (c_host c)) false c.
Proof.
  intros Hc. destruct (receiving_end c Hc) as [Ho Hd]. destruct Hc. by constructor.
Qed.

(** The host does not touch a packet in the bank. *)
Lemma tick_set_out rest p q c :
  receiving rest c → c_out c = Some q → host_tick (set_out_bank p c) = set_out_bank p (host_tick c).
Proof.
  destruct c as [s k b t o [n ds r w st d]]. intros [Hs Hk Hb Ht Hr Hst Hd Hp] Ho; cbn in *. subst.
  unfold host_tick, data_ready, set_out_bank. cbn. destruct n; cbn; [|done]. by destruct d.
Qed.

(** Packets stay whole. *)
Lemma tick_packets rest c :
  receiving rest c →
  option_list (c_out (host_tick c)) ++ h_data (c_host (host_tick c)) =
  option_list (c_out c) ++ h_data (c_host c).
Proof.
  destruct c as [s k b t o [n ds r w st d]]. intros [Hs Hk Hb Ht Hr Hst Hd Hp]; cbn in *. subst.
  unfold host_tick, data_ready. cbn. destruct n; cbn; [|done]. by destruct d, o.
Qed.

Lemma tick_want c : h_want (c_host (host_tick c)) = h_want (c_host c).
Proof.
  unfold host_tick. destruct (h_idle _); [|done].
  destruct (_ && _); [by destruct (h_status (c_host c))|]. destruct (c_busy c); [done|].
  by destruct (data_ready c) as [[]|].
Qed.

Section stage.
Context (fuel : nat) (l : lufa hwview) (Hsel : v_uenum (mcu l) = 0).
Context (Hstate : USB_DeviceState l ≠ DEVICE_STATE_Unattached ∧
                  USB_DeviceState l ≠ DEVICE_STATE_Suspended).
Context (put : Z → Z → list Z → option (list Z)) (Hput : stores_next put) (Hfuel : (32 < fuel)%nat).

Lemma state_abort_receiving rest c :
  receiving rest c → state_abort true (at_ctl c l) = Ok None (at_ctl (host_tick c) l).
Proof.
  intros Hc. unfold state_abort, gets, mbind, M_bind.
  destruct Hstate as [H1 H2]. cbn [USB_DeviceState at_ctl set_mcu].
  rewrite decide_False, decide_False by done. rewrite ctl_IsSETUPReceived by done.
  by rewrite tick_setup, (rv_setup _ _ Hc).
Qed.

Lemma read_loop_spec n got room rest c :
  receiving rest c → length room = length rest → (send_wait c < n)%nat →
  ∃ c', read_loop fuel put n LE (got ++ room) (Z.of_nat (length got)) (Z.of_nat (length room)) (at_ctl c l) =
    Ok (got ++ rest, None) (at_ctl c' l) ∧ receiving [] c' ∧ h_want (c_host c') = h_want (c_host c) ∧
    (send_wait c' ≤ send_wait c)%nat.
Proof.
  revert got room rest c. induction n as [|n IH]; intros got room rest c Hc Hlen Hn; [lia|].
  cbn [read_loop]. destruct rest as [|b rest].
  { apply nil_length_inv in Hlen as ->. rewrite app_nil_r. by exists c. }
  destruct (Z.eqb_spec (Z.of_nat (length room)) 0); [cbn in *; lia|].
  destruct (receiving_tick _ _ Hc) as (Hc1 & Hw1 & Hlt1 & _).
  destruct (receiving_tick _ _ Hc1) as (Hc2 & Hw2 & Hlt2 & Hk2).
  run_step (state_abort_receiving _ _ Hc). run_step (ctl_IsOUTReceived l Hsel (host_tick c)).
  set (c2 := host_tick (host_tick c)) in *.
  assert (h_want (c_host c2) = h_want (c_host c)) as Hwant by (unfold c2; by rewrite !tick_want).
  destruct (c_out c2) as [p|] eqn:Hout.
  - rewrite bool_decide_eq_true_2 by (by eexists).
    destruct (receiving_tick _ _ Hc2) as (Hc3 & Hw3 & _ & Hk3). rewrite Hout in Hk3.
    destruct (receiving_dropped _ p _ Hc3 (Hk3 ltac:(by eexists))) as (Hp & rest' & Hrest & Hc4 & Hw4).
    assert (length room = length p + length rest')%nat as Hroom by (by rewrite Hlen, Hrest, length_app).
    run_step (take_bytes_spec l Hsel put Hput fuel got room p c2 (rv_setup _ _ Hc2) Hout ltac:(lia) ltac:(lia)).
    run_step (ctl_ClearOUT l Hsel (set_out_bank [] c2)).
    rewrite (tick_set_out _ _ _ _ Hc2 Hout).
    change (drop_out (set_out_bank [] ?c)) with (drop_out c). cbn [fst snd]. rewrite app_assoc.
    destruct (IH (got ++ p) (drop (length p) room) rest' (drop_out (host_tick c2)) Hc4)
      as (c' & Hrun & Hc' & Hw' & Hle); [rewrite length_drop; lia|lia|].
    exists c'. rewrite Hrun, <- app_assoc, Hrest. split_and!; [done|done| |lia].
    rewrite Hw'. cbn. by rewrite tick_want.
  - rewrite bool_decide_eq_false_2 by (by intros [? ?]).
    assert (c_out (host_tick c) = None) as Hout1.
    { apply eq_None_not_Some. intros Hs. rewrite <- (Hk2 Hs) in Hs. by destruct Hs. }
    destruct (IH got room (b :: rest) c2 Hc2 Hlen) as (c' & Hrun & Hc' & Hw' & Hle); [specialize (Hlt2 Hout1 ltac:(done)); lia|].
    exists c'. rewrite Hrun, Hw'. split_and!; [done|done|done|lia].
Qed.
(** [while (!(Endpoint_IsOUTReceived()))] ends with the first packet in the bank. *)
Lemma status_wait_packet n p rest c :
  receiving (p ++ rest) c → head (option_list (c_out c) ++ h_data (c_host c)) = Some p →
  (send_wait c < n)%nat →
  ∃ c', status_wait n Endpoint_IsOUTReceived (at_ctl c l) = Ok true (at_ctl c' l) ∧
    receiving (p ++ rest) c' ∧ c_out c' = Some p ∧ h_want (c_host c') = h_want (c_host c) ∧
    (send_wait c' ≤ send_wait c)%nat.
Proof.
  clear fuel Hfuel put Hput. revert c. induction n as [|n IH]; intros c Hc Hps Hn; [lia|]. cbn [status_wait].
  destruct (receiving_tick _ _ Hc) as (Hc1 & Hw1 & Hlt1 & Hk1). pose proof (tick_packets _ _ Hc) as Hpk.
  run_step (ctl_IsOUTReceived l Hsel c).
  destruct (c_out (host_tick c)) as [x|] eqn:Hout.
  - rewrite bool_decide_eq_true_2 by (by eexists). exists (host_tick c). rewrite tick_want.
    rewrite <- Hpk in Hps. injection Hps as ->. by split_and!.
  - rewrite bool_decide_eq_false_2 by (by intros [? ?]).
    assert (c_out c = None) as Ho.
    { apply eq_None_not_Some. intros Hs. rewrite <- (Hk1 Hs) in Hs. by destruct Hs. }
    assert (p ++ rest ≠ []) as Hne.
    { rewrite Ho in Hps. destruct Hc as [_ _ _ _ _ _ _ Hp]. rewrite Ho in Hp. cbn in Hps, Hp.
      destruct (h_data (c_host c)); [done|]. injection Hps as ->.
      apply Forall_cons in Hp as [Hp _]. by destruct p; cbn in Hp; [lia|]. }
    run_step (gets_run USB_DeviceState (at_ctl (host_tick c) l)).
    rewrite decide_False by apply Hstate.
    specialize (Hlt1 Ho Hne).
    destruct (IH (host_tick c) Hc1) as (c' & Hrun & Hc' & Hp' & Hw' & Hle); [by rewrite Hout, Hpk|lia|].
    exists c'. rewrite Hw', tick_want. split_and!; [done|done|done|done|lia].
Qed.

(** The whole transfer: afterwards the host waits for the status stage. *)
Lemma read_control_stream_view Buffer data c :
  receiving data c → length Buffer = length data → (send_wait c < fuel)%nat →
  ∃ c', read_control_stream fuel put LE Buffer (Z.of_nat (length data)) (at_ctl c l) =
    Ok (data, ENDPOINT_RWCSTREAM_NoError) (at_ctl c' l) ∧
    c_setup c' = None ∧ arriving (h_want (c_host c)) false c'.
Proof.
  intros Hc Hlen Hw. unfold read_control_stream. cbn [buffer_offset].
  assert (∃ c1, (if Z.of_nat (length data) =? 0 then Endpoint_ClearOUT else mret tt) (at_ctl c l) =
      Ok tt (at_ctl c1 l) ∧ receiving data c1 ∧ (send_wait c1 ≤ send_wait c)%nat ∧
      h_want (c_host c1) = h_want (c_host c)) as (c1 & Hrun1 & Hc1 & Hw1 & Hwant1).
  { destruct data as [|b data]; [|by exists c]. destruct (receiving_tick _ _ Hc) as (Hc1 & Hw1 & _).
    exists (drop_out (host_tick c)). cbn [length Z.of_nat Z.eqb]. rewrite ctl_ClearOUT by done.
    destruct (receiving_end _ Hc1) as [Ho Hd].
    assert (drop_out (host_tick c) = host_tick c) as ->
      by (destruct (host_tick c); unfold drop_out; cbn in *; by rewrite Ho).
    by rewrite tick_want. }
  run_step Hrun1. rewrite <- Hlen.
  destruct (read_loop_spec fuel [] Buffer data c1 Hc1 Hlen) as (c2 & Hrun2 & Hc2 & Hwant2 & _); [lia|].
  cbn [app length] in Hrun2. change (Z.of_nat 0) with 0 in Hrun2. run_step Hrun2. cbn [fst snd].
  destruct (receiving_tick _ _ Hc2) as (Hc3 & _).
  assert (in_ready_loop fuel (at_ctl c2 l) = Ok ENDPOINT_RWCSTREAM_NoError (at_ctl (host_tick c2) l)) as Hrun3.
  { destruct fuel as [|n]; [lia|]. cbn [in_ready_loop]. run_step (ctl_IsINReady l Hsel c2).
    by rewrite (rv_busy _ _ Hc3). }
  run_step Hrun3. exists (host_tick c2). split_and!; [done|by apply Hc3|].
  rewrite <- Hwant1, <- Hwant2, <- tick_want. by apply receiving_arriving.
Qed.
End stage.

(** ** On every microcontroller *)

Section sims.
Context {H : Type} `{!Mcu H} `{!McuSpec H} (put : Z → Z → list Z → option (list Z)).

Lemma sim_take_bytes n d buf i k : sim (take_bytes put n d buf i k) (take_bytes put n d buf i k).
Proof. revert buf i k. induction n as [|n IH]; intros; cbn [take_bytes]; solve_sim. Qed.
#[local] Hint Resolve sim_take_bytes sim_state_abort : sim.
Lemma sim_read_loop fuel n d buf i k : sim (read_loop fuel put n d buf i k) (read_loop fuel put n d buf i k).
Proof. revert buf i k. induction n as [|n IH]; intros; cbn [read_loop]; solve_sim. Qed.
Lemma sim_in_ready_loop n : sim (in_ready_loop n) (in_ready_loop n).
Proof. induction n as [|n IH]; cbn [in_ready_loop]; solve_sim. Qed.
#[local] Hint Resolve sim_read_loop sim_in_ready_loop : sim.
Lemma sim_read_control_stream fuel d buf k :
  sim (read_control_stream fuel put d buf k) (read_control_stream fuel put d buf k).
Proof. solve_sim. Qed.
End sims.
#[export] Hint Resolve sim_read_control_stream : sim.
