(* ===== verification/Driver.v ===== *)
(** * The drivers implement what the firmware relies on

    The class [Platform] of [Interfaces] is discharged for the code of the
    drivers on any microcontroller that behaves as documented, so everything
    proved of the firmware against that class holds of the firmware on the
    registers. *)

From S2P Require Import Prelude Datatypes StdDescriptors Descriptors Hardware Lufa Interfaces Board Device.
From S2P Require Import Endpoint ControlStream Requests Streams.

(** ** The operations *)

Section operations.
Context {H : Type} `{!Mcu H} (fuel : nat).

#[local] Instance lufa_BoardOps : BoardOps (lufa H) := {
  Interfaces.recv_byte := Board.recv_byte fuel;
  Interfaces.send_byte := Board.send_byte fuel;
  Interfaces.disable_rx_isr := Board.disable_rx_isr;
  Interfaces.enable_rx_isr := Board.enable_rx_isr;
  Interfaces.LEDs_SetAllLEDs := Board.LEDs_SetAllLEDs;
}.

#[local] Instance lufa_EndpointOps : EndpointOps (lufa H) := {
  USB_DeviceConfigured :=
    s ← gets USB_DeviceState; mret (bool_decide (s = DEVICE_STATE_Configured));
  Interfaces.Endpoint_SelectEndpoint := Endpoint.Endpoint_SelectEndpoint;
  Interfaces.Endpoint_IsOUTReceived := Endpoint.Endpoint_IsOUTReceived;
  Interfaces.Endpoint_IsReadWriteAllowed := Endpoint.Endpoint_IsReadWriteAllowed;
  Interfaces.Endpoint_Read_8 := Endpoint.Endpoint_Read_8;
  Interfaces.Endpoint_ClearOUT := Endpoint.Endpoint_ClearOUT;
  Interfaces.Endpoint_IsINReady := Endpoint.Endpoint_IsINReady;
  Interfaces.Endpoint_Write_Stream_LE buf len :=
    r ← Streams.Endpoint_Write_Stream_LE fuel buf len None; mret r.1;
  Interfaces.Endpoint_ClearIN := Endpoint.Endpoint_ClearIN;
}.
End operations.

(** ** The view of the firmware on the registers *)

Definition selected_address (n : Z) : Z :=
  if n =? 1 then JOYSTICK_IN_EPADDR else if n =? 2 then JOYSTICK_OUT_EPADDR else 0.

Definition board_of (l : lufa hwview) : board_view :=
  {| rx_pending := v_rx (mcu l); tx_log := v_tx (mcu l);
     leds_lit := Z.land (inv8 (v_regs (mcu l) PORTD)) LEDS_ALL_LEDS;
     rx_isr_on := has (v_regs (mcu l) UCSR1B) (BV RXCIE1) |}.
Definition ep_of (l : lufa hwview) : ep_view :=
  {| ep_configured := bool_decide (USB_DeviceState l = DEVICE_STATE_Configured);
     ep_selected := selected_address (v_uenum (mcu l));
     ep_out := v_out (mcu l); ep_in := v_in (mcu l); ep_sent := v_sent (mcu l) |}.

(** The registers hold bytes, endpoint 1 is an IN endpoint, and the loops have
    the fuel that the transmitter needs. *)
Record view_ok (fuel : nat) (l : lufa hwview) : Prop := {
  ok_portd : is_u8 (v_regs (mcu l) PORTD);
  ok_ucsr1b : is_u8 (v_regs (mcu l) UCSR1B);
  ok_in : has (v_epregs (mcu l) 1 UECFG0X) (BV EPDIR) = true;
  ok_txd : Forall (λ n, n < fuel)%nat (v_txd (mcu l));
  ok_fuel : (64 < fuel)%nat;
}.

Section platform.
Context {H : Type} `{!Mcu H} `{!McuSpec H} (fuel : nat).

#[local] Instance lufa_view : PlatformView (lufa H) := {
  plat_ok l := hw_ok (mcu l) ∧ view_ok fuel (view l);
  board l := board_of (view l);
  ep l := ep_of (view l);
}.

Lemma runs_view {A} (m : M (lufa H) A) m' l r lv :
  sim m m' → plat_ok l → m' (view l) = Ok r lv → view_ok fuel lv →
  ∀ bv ev, board_of lv = bv → ep_of lv = ev → runs m l r bv ev.
Proof.
  intros Hs [Hok _] Hrun Hv bv ev <- <-.
  destruct (sim_Ok _ _ _ _ _ Hs Hok Hrun) as (l' & Hm & <- & Hok'). by exists l'.
Qed.
End platform.

(** ** The operations on the view *)

Lemma has_lor_r x n : 0 ≤ n → has (Z.lor x (BV n)) (BV n) = true.
Proof.
  intros Hn. rewrite has_bit, Z.lor_spec, <- (has_bit (BV n)) by done.
  unfold has. rewrite Z.land_diag. unfold BV. rewrite Z.shiftl_1_l.
  destruct (Z.eqb_spec (2 ^ n) 0); [|by rewrite orb_true_r].
  pose proof (Z.pow_pos_nonneg 2 n). lia.
Qed.

Definition put_uart (l : lufa hwview) (rx tx : list Z) (d : list nat) : lufa hwview :=
  set_mcu (with_uart rx tx d (mcu l)) l.

Lemma put_uart_self l : put_uart l (v_rx (mcu l)) (v_tx (mcu l)) (v_txd (mcu l)) = l.
Proof. destruct l as [v]. by destruct v. Qed.

Section view.
Context (fuel : nat) (l : lufa hwview) (Hok : view_ok fuel l).

Lemma count_down_ok d :
  Forall (λ n, n < fuel)%nat d → Forall (λ n, n < fuel)%nat (count_down d).
Proof. intros Hd. destruct d; [done|]. inversion Hd; subst. constructor; [lia|done]. Qed.

Lemma put_uart_ok rx tx d :
  Forall (λ n, n < fuel)%nat d → view_ok fuel (put_uart l rx tx d).
Proof. intros Hd. by destruct Hok; constructor. Qed.

Lemma recv_byte_view b q :
  v_rx (mcu l) = b :: q →
  Board.recv_byte fuel l = Ok b (put_uart l q (v_tx (mcu l)) (count_down (v_txd (mcu l)))).
Proof.
  intros Hrx. unfold Board.recv_byte. pose proof (ok_fuel _ _ Hok) as Hf.
  destruct fuel as [|n]; [lia|].
  assert (test_bits UCSR1A (BV RXC1) l =
          Ok true (put_uart l (v_rx (mcu l)) (v_tx (mcu l)) (count_down (v_txd (mcu l))))) as Ht.
  { unfold test_bits, mbind, M_bind, get_reg, on_mcu, zoom.
    cbn [rd view_Mcu before_read after_read reg_value v_rx with_uart]. rewrite Hrx.
    by rewrite has_lor_r. }
  run_step (wait_until_ready n _ _ _ Ht).
  unfold get_reg, on_mcu, zoom, put_uart. cbn. by rewrite Hrx.
Qed.

Lemma wait_transmitter n d :
  match d with [] => True | k :: _ => (k < n)%nat end → (0 < n)%nat →
  ∃ d', wait_until n (test_bits UCSR1A (BV UDRE1)) (put_uart l (v_rx (mcu l)) (v_tx (mcu l)) d) =
          Ok tt (put_uart l (v_rx (mcu l)) (v_tx (mcu l)) d') ∧ tail d' = tail d.
Proof.
  revert d. induction n as [|n IH]; intros d Hd Hn; [lia|]. cbn [wait_until].
  set (c := count_down d).
  assert (test_bits UCSR1A (BV UDRE1) (put_uart l (v_rx (mcu l)) (v_tx (mcu l)) d) =
          Ok (match c with [] | O :: _ => true | _ => false end)
             (put_uart l (v_rx (mcu l)) (v_tx (mcu l)) c)) as Ht.
  { unfold test_bits, mbind, M_bind, get_reg, on_mcu, zoom.
    cbn [rd view_Mcu before_read after_read reg_value put_uart mcu set_mcu v_rx with_uart].
    unfold tx_free. cbn [v_txd with_uart]. fold c. unfold mret, M_ret.
    f_equal. rewrite has_bit, !Z.lor_spec, Z.land_spec by done.
    rewrite andb_false_r. cbn [orb].
    destruct c as [|[|k] c']; destruct (v_rx (mcu l)); done. }
  run_step Ht. unfold c. destruct d as [|k d]; cbn [count_down].
  { by exists []. }
  destruct k as [|[|k]]; cbn [pred].
  - by exists (0%nat :: d).
  - by exists (0%nat :: d).
  - destruct (IH (S k :: d)) as (d' & Hrun & Htl); [lia|lia|]. by exists d'.
Qed.

Lemma send_byte_view x :
  Board.send_byte fuel x l =
  Ok tt (put_uart l (v_rx (mcu l)) (v_tx (mcu l) ++ [x]) (tail (v_txd (mcu l)))).
Proof.
  unfold Board.send_byte. pose proof (ok_fuel _ _ Hok) as Hf. pose proof (ok_txd _ _ Hok) as Hd.
  destruct (wait_transmitter fuel (v_txd (mcu l))) as (d & Hrun & Htl); [|lia|].
  { destruct (v_txd (mcu l)); [done|]. by inversion Hd. }
  rewrite put_uart_self in Hrun. run_step Hrun. rewrite <- Htl. done.
Qed.

(** The other registers of the board. *)
Lemma rx_isr_view b :
  (if b : bool then Board.enable_rx_isr else Board.disable_rx_isr) l =
  Ok tt (set_mcu (with_reg UCSR1B
    (let v := v_regs (mcu l) UCSR1B in
     if b then Z.lor v (BV RXCIE1) else Z.land v (inv8 (BV RXCIE1))) (mcu l)) l).
Proof. by destruct b, l. Qed.

Lemma LEDs_view m :
  Board.LEDs_SetAllLEDs m l =
  Ok tt (set_mcu (with_reg PORTD
    (Z.land (Z.lor (v_regs (mcu l) PORTD) LEDS_ALL_LEDS) (inv8 m)) (mcu l)) l).
Proof. by destruct l. Qed.

(** ** The endpoints *)

Definition tick : lufa hwview := set_mcu (with_ctl (host_tick (v_ctl (mcu l))) (mcu l)) l.

Lemma flag_view m :
  test_bits UEINTX m l = Ok (has (of_bits (ueintx_bits (mcu tick))) m) tick.
Proof. done. Qed.
End view.

Section endpoints.
Context (l : lufa hwview).

Section out.
Context (Hsel : v_uenum (mcu l) = 2).

Lemma out_bits :
  ueintx_bits (mcu (tick l)) =
  match v_out (mcu l) with
  | Some p => [false; false; true; false; false; bool_decide (p ≠ []); false; true]
  | None => [false; false; false; false; false; false; false; false]
  end.
Proof. unfold ueintx_bits, tick. cbn. by rewrite Hsel. Qed.

Lemma IsOUTReceived_view :
  Endpoint.Endpoint_IsOUTReceived l = Ok (bool_decide (is_Some (v_out (mcu l)))) (tick l).
Proof.
  unfold Endpoint.Endpoint_IsOUTReceived. rewrite flag_view, out_bits.
  destruct (v_out (mcu l)) as [p|]; [|done]. by destruct (bool_decide (p ≠ [])).
Qed.

Lemma IsReadWriteAllowed_out p :
  v_out (mcu l) = Some p →
  Endpoint.Endpoint_IsReadWriteAllowed l = Ok (bool_decide (p ≠ [])) (tick l).
Proof.
  intros Hp. unfold Endpoint.Endpoint_IsReadWriteAllowed. rewrite flag_view, out_bits, Hp.
  by destruct (bool_decide (p ≠ [])).
Qed.

Lemma Read_8_out b p :
  v_out (mcu l) = Some (b :: p) →
  Endpoint.Endpoint_Read_8 l = Ok b (set_mcu (with_out (Some p) (mcu l)) l).
Proof.
  intros Hp. unfold Endpoint.Endpoint_Read_8, get_reg, on_mcu, zoom.
  cbn [rd view_Mcu before_read after_read reg_value]. rewrite Hsel. cbn [Z.eqb Pos.eqb].
  by rewrite Hp.
Qed.

Lemma ClearOUT_view p :
  v_out (mcu l) = Some p →
  Endpoint.Endpoint_ClearOUT l = Ok tt (set_mcu (with_out None (mcu (tick l))) l).
Proof.
  intros Hp. unfold Endpoint.Endpoint_ClearOUT, clear_bits, mbind, M_bind, get_reg, set_reg, on_mcu,
    zoom. cbn [rd wr view_Mcu before_read after_read reg_value mcu set_mcu].
  change (with_ctl _ (mcu l)) with (mcu (tick l)). rewrite out_bits, Hp.
  unfold after_write. cbn [v_uenum tick mcu set_mcu with_ctl]. rewrite Hsel. cbn [Z.eqb Pos.eqb].
  by destruct (bool_decide (p ≠ [])).
Qed.
End out.

Section in_.
Context (Hsel : v_uenum (mcu l) = 1).

Lemma in_bits :
  ueintx_bits (mcu (tick l)) =
  match v_in (mcu l) with
  | Some p => [true; false; false; false; false; bool_decide (length p < 64)%nat; false; true]
  | None => [false; false; false; false; false; false; false; false]
  end.
Proof. unfold ueintx_bits, tick. cbn. by rewrite Hsel. Qed.

Lemma IsINReady_view :
  Endpoint.Endpoint_IsINReady l = Ok (bool_decide (is_Some (v_in (mcu l)))) (tick l).
Proof.
  unfold Endpoint.Endpoint_IsINReady. rewrite flag_view, in_bits.
  destruct (v_in (mcu l)) as [p|]; [|done]. by destruct (bool_decide (length p < 64)%nat).
Qed.

Lemma IsReadWriteAllowed_in p :
  v_in (mcu l) = Some p →
  Endpoint.Endpoint_IsReadWriteAllowed l = Ok (bool_decide (length p < 64)%nat) (tick l).
Proof.
  intros Hp. unfold Endpoint.Endpoint_IsReadWriteAllowed. rewrite flag_view, in_bits, Hp.
  by destruct (bool_decide (length p < 64)%nat).
Qed.

Lemma Write_8_in p b :
  v_in (mcu l) = Some p → (length p < 64)%nat →
  Endpoint.Endpoint_Write_8 b l =
  Ok tt (set_mcu (with_in (Some (p ++ [b])) (v_sent (mcu l)) (mcu l)) l).
Proof.
  intros Hp Hlen. unfold Endpoint.Endpoint_Write_8, set_reg, on_mcu, zoom.
  cbn [wr view_Mcu after_write]. rewrite Hsel. cbn [Z.eqb Pos.eqb]. rewrite Hp.
  by rewrite decide_True.
Qed.

Lemma ClearIN_view p :
  v_in (mcu l) = Some p →
  Endpoint.Endpoint_ClearIN l =
  Ok tt (set_mcu (with_in None (v_sent (mcu l) ++ [p]) (mcu (tick l))) l).
Proof.
  intros Hp. unfold Endpoint.Endpoint_ClearIN, clear_bits, mbind, M_bind, get_reg, set_reg, on_mcu,
    zoom. cbn [rd wr view_Mcu before_read after_read reg_value mcu set_mcu].
  change (with_ctl _ (mcu l)) with (mcu (tick l)). rewrite in_bits, Hp.
  unfold after_write. cbn [v_uenum tick mcu set_mcu with_ctl v_in]. rewrite Hsel. cbn [Z.eqb Pos.eqb].
  rewrite Hp. by destruct (bool_decide (length p < 64)%nat).
Qed.
End in_.
End endpoints.

(** ** Writing a report *)

Section stream.
Context (fuel : nat) (l : lufa hwview) (Hsel : v_uenum (mcu l) = 1).
Context (pre buf : list Z) (len : nat) (Hlen : (len ≤ length buf)%nat).
Context (Hroom : (length pre + len ≤ 64)%nat).

(** The bank holds [p]; the host of the control endpoint is at [c]. *)
Definition in_bank (c : ctl) (p : list Z) : lufa hwview :=
  set_mcu (with_in (Some p) (v_sent (mcu l)) (with_ctl c (mcu l))) l.

(** The first [len] bytes of [buf] follow the bytes [pre] in the bank. *)
Lemma rw_loop_view n i t c :
  (i ≤ len)%nat → (len - i < n)%nat →
  ∃ c', rw_loop fuel LE Endpoint.Endpoint_ClearIN write_byte n buf (Z.of_nat i)
          (Z.of_nat (len - i)) t None (in_bank c (pre ++ take i buf)) =
        Ok (ENDPOINT_RWSTREAM_NoError, buf, None) (in_bank c' (pre ++ take len buf)).
Proof.
  revert i t c. induction n as [|n IH]; intros i t c Hi Hn; [lia|]. cbn [rw_loop].
  destruct (Z.eqb_spec (Z.of_nat (len - i)) 0) as [|Hne].
  { exists c. by replace i with len by lia. }
  assert (length (pre ++ take i buf) < 64)%nat as Hfree
    by (rewrite length_app, length_take; lia).
  run_step (IsReadWriteAllowed_in (in_bank c (pre ++ take i buf)) Hsel (pre ++ take i buf) eq_refl).
  rewrite bool_decide_eq_true_2 by done. cbn [negb].
  change (tick (in_bank c (pre ++ take i buf))) with (in_bank (host_tick c) (pre ++ take i buf)).
  destruct (lookup_lt_is_Some_2 buf i ltac:(lia)) as [b Hb].
  assert (write_byte (Z.of_nat i) buf (in_bank (host_tick c) (pre ++ take i buf)) =
          Ok buf (in_bank (host_tick c) (pre ++ take (S i) buf))) as Hw.
  { unfold write_byte, byte_at. destruct (Z.leb_spec 0 (Z.of_nat i)); [|lia].
    rewrite Nat2Z.id, Hb. cbn [checked].
    run_step (ret_run b (in_bank (host_tick c) (pre ++ take i buf))).
    run_step (Write_8_in (in_bank (host_tick c) (pre ++ take i buf)) Hsel _ b eq_refl Hfree).
    by rewrite (take_S_r buf i b Hb), app_assoc. }
  run_step Hw. cbn [buffer_move].
  replace (Z.of_nat i + 1) with (Z.of_nat (S i)) by lia.
  replace (Z.of_nat (len - i) - 1) with (Z.of_nat (len - S i)) by lia.
  apply IH; lia.
Qed.

End stream.

Lemma in_bank_self l p : v_in (mcu l) = Some p → in_bank l (v_ctl (mcu l)) p = l.
Proof. destruct l as [v], v. cbn. by intros ->. Qed.

(** The frame number was read. *)
Definition popped (l : lufa hwview) : lufa hwview :=
  set_mcu (with_frames (tail (v_frames (mcu l))) (with_in (polled (mcu l)) (v_sent (mcu l)) (mcu l))) l.

Lemma WaitUntilReady_in fuel l p :
  v_uenum (mcu l) = 1 → has (v_epregs (mcu l) 1 UECFG0X) (BV EPDIR) = true →
  v_in (mcu l) = Some p → (0 < fuel)%nat →
  Endpoint.Endpoint_WaitUntilReady fuel l = Ok ENDPOINT_READYWAIT_NoError (tick (popped l)).
Proof.
  intros Hsel Hdir Hin Hf. unfold Endpoint_WaitUntilReady. destruct fuel as [|n]; [lia|].
  run_step (eq_refl : USB_Device_GetFrameNumber l = Ok _ (popped l)). cbn [ready_loop].
  assert (Endpoint_GetEndpointDirection (popped l) = Ok ENDPOINT_DIR_IN (popped l)) as Hd.
  { unfold Endpoint_GetEndpointDirection, test_bits, mbind, M_bind, get_reg, on_mcu, zoom.
    cbn [rd view_Mcu before_read after_read reg_value popped mcu set_mcu v_uenum v_epregs with_in with_frames].
    by rewrite Hsel, Hdir. }
  run_step Hd. cbn [Z.eqb Pos.eqb ENDPOINT_DIR_IN].
  run_step (IsINReady_view (popped l) Hsel). cbn [popped mcu set_mcu v_in with_in with_frames].
  by rewrite (polled_free _ p Hin).
Qed.

Lemma write_stream_view fuel l pre buf len :
  v_uenum (mcu l) = 1 → (len ≤ length buf)%nat → (length pre + len ≤ 64)%nat →
  v_in (mcu l) = Some pre → has (v_epregs (mcu l) 1 UECFG0X) (BV EPDIR) = true → (64 < fuel)%nat →
  ∃ c, Streams.Endpoint_Write_Stream_LE fuel buf (Z.of_nat len) None l =
       Ok (ENDPOINT_RWSTREAM_NoError, None) (in_bank (popped l) c (pre ++ take len buf)).
Proof.
  intros Hsel Hbuf Hroom Hin Hdir Hf. unfold Streams.Endpoint_Write_Stream_LE, write_stream, rw_stream.
  destruct (rw_loop_view fuel (popped l) Hsel pre buf len Hbuf Hroom fuel 0 0 (host_tick (v_ctl (mcu l))))
    as (c & Hrun); [lia|lia|].
  exists c. cbv zeta.
  assert (tick (popped l) = in_bank (popped l) (host_tick (v_ctl (mcu l))) (pre ++ take 0 buf)) as Ht.
  { symmetry. rewrite app_nil_r. apply (in_bank_self (tick (popped l)) pre). by apply polled_free. }
  rewrite <- Ht, Nat.sub_0_r in Hrun.
  assert ((ErrorCode ← Endpoint_WaitUntilReady fuel;
           if negb (ErrorCode =? 0) then mret (ErrorCode, buf, None)
           else rw_loop fuel LE Endpoint.Endpoint_ClearIN write_byte fuel buf
                  (buffer_skip LE (buffer_offset LE (Z.of_nat len)) (default 0 None))
                  (u16 (Z.of_nat len - default 0 None)) 0 None) l =
          Ok (ENDPOINT_RWSTREAM_NoError, buf, None) (in_bank (popped l) c (pre ++ take len buf))) as Hall.
  { run_step (WaitUntilReady_in fuel l pre Hsel Hdir Hin ltac:(lia)).
    cbn [default]. rewrite Z.sub_0_r, u16_id by (unfold is_u16; lia). exact Hrun. }
  run_step Hall. done.
Qed.

(** ** The laws *)

Section laws.
Context {H : Type} `{!Mcu H} `{!McuSpec H} (fuel : nat).
#[local] Hint Extern 0 (BoardOps _) => exact (lufa_BoardOps fuel) : typeclass_instances.
#[local] Hint Extern 0 (EndpointOps _) => exact (lufa_EndpointOps fuel) : typeclass_instances.
#[local] Hint Extern 0 (PlatformView _) => exact (lufa_view fuel) : typeclass_instances.

Lemma tick_ok lv : view_ok fuel lv → view_ok fuel (tick lv).
Proof. intros []. by constructor. Qed.

Lemma selected_OUT l : ep_selected (ep_of l) = JOYSTICK_OUT_EPADDR → v_uenum (mcu l) = 2.
Proof.
  unfold ep_of, selected_address. cbn. destruct (Z.eqb_spec (v_uenum (mcu l)) 1); [done|].
  by destruct (Z.eqb_spec (v_uenum (mcu l)) 2).
Qed.

Lemma selected_IN l : ep_selected (ep_of l) = JOYSTICK_IN_EPADDR → v_uenum (mcu l) = 1.
Proof.
  unfold ep_of, selected_address. cbn. destruct (Z.eqb_spec (v_uenum (mcu l)) 1); [done|].
  by destruct (Z.eqb_spec (v_uenum (mcu l)) 2).
Qed.

(** The bytes of the two registers of the board. *)
Lemma ucsr1b_values x :
  is_u8 x →
  is_u8 (Z.lor x (BV RXCIE1)) ∧ has (Z.lor x (BV RXCIE1)) (BV RXCIE1) = true ∧
  is_u8 (Z.land x (inv8 (BV RXCIE1))) ∧ has (Z.land x (inv8 (BV RXCIE1))) (BV RXCIE1) = false.
Proof.
  intros Hx. by_bytes (λ x, is_u8 (Z.lor x (BV RXCIE1)) ∧ has (Z.lor x (BV RXCIE1)) (BV RXCIE1) = true ∧
    is_u8 (Z.land x (inv8 (BV RXCIE1))) ∧ has (Z.land x (inv8 (BV RXCIE1))) (BV RXCIE1) = false).
Qed.

Lemma portd_values p m :
  is_u8 p → Z.land m LEDS_ALL_LEDS = m →
  let p' := Z.land (Z.lor p LEDS_ALL_LEDS) (inv8 m) in
  is_u8 p' ∧ Z.land (inv8 p') LEDS_ALL_LEDS = m.
Proof.
  intros Hp Hm.
  assert (m = 0 ∨ m = 16 ∨ m = 32 ∨ m = 48) as Hcases.
  { assert (Z.land (m mod 64) LEDS_ALL_LEDS = m) as Hmod.
    { rewrite <- Hm at 2. change 64 with (2 ^ 6).
      rewrite <- (Z.land_ones m 6), <- Z.land_assoc by lia. done. }
    rewrite <- Hmod. assert (is_u8 (m mod 64)) as Hu by (unfold is_u8; div_lia).
    revert Hu. generalize (m mod 64). intros r Hu.
    by_bytes (λ r, Z.land r LEDS_ALL_LEDS = 0 ∨ Z.land r LEDS_ALL_LEDS = 16 ∨
                   Z.land r LEDS_ALL_LEDS = 32 ∨ Z.land r LEDS_ALL_LEDS = 48). }
  destruct Hcases as [->|[->|[->| ->]]]; match goal with |- context [inv8 ?m] =>
    by_bytes (λ p, is_u8 (Z.land (Z.lor p LEDS_ALL_LEDS) (inv8 m)) ∧
      Z.land (inv8 (Z.land (Z.lor p LEDS_ALL_LEDS) (inv8 m))) LEDS_ALL_LEDS = m) end.
Qed.

(** Closes a law from the run of the operation on the view. *)
Ltac law run :=
  eapply (runs_view fuel); [|done|exact run| | |];
  [cbn [Interfaces.recv_byte Interfaces.send_byte Interfaces.disable_rx_isr
        Interfaces.enable_rx_isr Interfaces.LEDs_SetAllLEDs USB_DeviceConfigured
        Interfaces.Endpoint_SelectEndpoint Interfaces.Endpoint_IsOUTReceived
        Interfaces.Endpoint_IsReadWriteAllowed Interfaces.Endpoint_Read_8
        Interfaces.Endpoint_ClearOUT Interfaces.Endpoint_IsINReady
        Interfaces.Endpoint_Write_Stream_LE Interfaces.Endpoint_ClearIN
        lufa_BoardOps lufa_EndpointOps]; solve_sim| | |].

Lemma board_laws :
  (∀ e b q, plat_ok e → rx_pending (board e) = b :: q →
     runs Interfaces.recv_byte e b (set_rx_pending q (board e)) (ep e)) ∧
  (∀ e c, plat_ok e → is_u8 c → runs (Interfaces.send_byte c) e tt (add_tx c (board e)) (ep e)) ∧
  (∀ e, plat_ok e → runs Interfaces.disable_rx_isr e tt (set_rx_isr false (board e)) (ep e)) ∧
  (∀ e, plat_ok e → runs Interfaces.enable_rx_isr e tt (set_rx_isr true (board e)) (ep e)) ∧
  (∀ e m, plat_ok e → Z.land m LEDS_ALL_LEDS = m →
     runs (Interfaces.LEDs_SetAllLEDs m) e tt (set_leds m (board e)) (ep e)).
Proof.
  split_and!.
  - intros e b q Hok Hq. pose proof Hok as [_ Hv].
    law (recv_byte_view fuel (view e) Hv b q Hq); [|done|done].
    apply put_uart_ok; [done|]. apply count_down_ok, Hv.
  - intros e c Hok _. pose proof Hok as [_ Hv].
    law (send_byte_view fuel (view e) Hv c); [|done|done].
    apply put_uart_ok; [done|]. destruct (ok_txd _ _ Hv); done.
  - intros e Hok. pose proof Hok as [_ Hv]. law (rx_isr_view fuel (view e) Hv false).
    + destruct Hv. constructor; try done. by apply ucsr1b_values.
    + unfold set_rx_isr, board_of. cbn. f_equal. by apply ucsr1b_values, Hv.
    + done.
  - intros e Hok. pose proof Hok as [_ Hv]. law (rx_isr_view fuel (view e) Hv true).
    + destruct Hv. constructor; try done. by apply ucsr1b_values.
    + unfold set_rx_isr, board_of. cbn. f_equal. by apply ucsr1b_values, Hv.
    + done.
  - intros e m Hok Hm. pose proof Hok as [_ Hv]. law (LEDs_view fuel (view e) Hv m).
    + destruct Hv. constructor; try done. by apply portd_values.
    + unfold set_leds, board_of. cbn. f_equal. apply portd_values; [apply Hv|done].
    + done.
Qed.

Lemma out_laws :
  (∀ e, plat_ok e → ep_selected (ep e) = JOYSTICK_OUT_EPADDR →
     runs Interfaces.Endpoint_IsOUTReceived e (bool_decide (is_Some (ep_out (ep e))))
       (board e) (ep e)) ∧
  (∀ e l, plat_ok e → ep_selected (ep e) = JOYSTICK_OUT_EPADDR → ep_out (ep e) = Some l →
     runs Interfaces.Endpoint_IsReadWriteAllowed e (bool_decide (l ≠ [])) (board e) (ep e)) ∧
  (∀ e b l, plat_ok e → ep_selected (ep e) = JOYSTICK_OUT_EPADDR → ep_out (ep e) = Some (b :: l) →
     runs Interfaces.Endpoint_Read_8 e b (board e) (set_out (Some l) (ep e))) ∧
  (∀ e l, plat_ok e → ep_selected (ep e) = JOYSTICK_OUT_EPADDR → ep_out (ep e) = Some l →
     runs Interfaces.Endpoint_ClearOUT e tt (board e) (set_out None (ep e))).
Proof.
  split_and!.
  - intros e Hok Hsel%selected_OUT. pose proof Hok as [_ Hv].
    law (IsOUTReceived_view (view e) Hsel); [by apply tick_ok|done|done].
  - intros e l Hok Hsel%selected_OUT Hl. pose proof Hok as [_ Hv].
    law (IsReadWriteAllowed_out (view e) Hsel l Hl); [by apply tick_ok|done|done].
  - intros e b l Hok Hsel%selected_OUT Hl. pose proof Hok as [_ Hv].
    law (Read_8_out (view e) Hsel b l Hl); [by destruct Hv; constructor|done|done].
  - intros e l Hok Hsel%selected_OUT Hl. pose proof Hok as [_ Hv].
    law (ClearOUT_view (view e) Hsel l Hl); [by destruct Hv; constructor|done|done].
Qed.

Lemma in_laws :
  (∀ e, plat_ok e → ep_selected (ep e) = JOYSTICK_IN_EPADDR →
     runs Interfaces.Endpoint_IsINReady e (bool_decide (is_Some (ep_in (ep e)))) (board e) (ep e)) ∧
  (∀ e buf, plat_ok e → ep_selected (ep e) = JOYSTICK_IN_EPADDR → ep_in (ep e) = Some [] →
     bytes buf → length buf = Z.to_nat JOYSTICK_EPSIZE →
     runs (Interfaces.Endpoint_Write_Stream_LE buf JOYSTICK_EPSIZE) e
       Interfaces.ENDPOINT_RWSTREAM_NoError (board e) (set_in (Some buf) (ep e))) ∧
  (∀ e l, plat_ok e → ep_selected (ep e) = JOYSTICK_IN_EPADDR → ep_in (ep e) = Some l →
     runs Interfaces.Endpoint_ClearIN e tt (board e) (send_in l (ep e))).
Proof.
  split_and!.
  - intros e Hok Hsel%selected_IN. pose proof Hok as [_ Hv].
    law (IsINReady_view (view e) Hsel); [by apply tick_ok|done|done].
  - intros e buf Hok Hsel%selected_IN Hin _ Hlen. pose proof Hok as [_ Hv].
    change (Z.to_nat JOYSTICK_EPSIZE) with 64%nat in Hlen.
    destruct (write_stream_view fuel (view e) [] buf 64 Hsel ltac:(lia) ltac:(cbn; lia) Hin
      (ok_in _ _ Hv) (ok_fuel _ _ Hv)) as (c & Hrun).
    rewrite take_ge in Hrun by lia. cbn [app] in Hrun.
    assert ((r ← Streams.Endpoint_Write_Stream_LE fuel buf JOYSTICK_EPSIZE None; mret r.1)
              (view e) = Ok Interfaces.ENDPOINT_RWSTREAM_NoError (in_bank (popped (view e)) c buf))
      as Hrun' by (by run_step Hrun).
    law Hrun'; [by destruct Hv; constructor|done|done].
  - intros e l Hok Hsel%selected_IN Hl. pose proof Hok as [_ Hv].
    law (ClearIN_view (view e) Hsel l Hl); [by destruct Hv; constructor|done|done].
Qed.

Lemma selection_laws :
  (∀ e, plat_ok e → runs USB_DeviceConfigured e (ep_configured (ep e)) (board e) (ep e)) ∧
  (∀ e a, plat_ok e → a = JOYSTICK_IN_EPADDR ∨ a = JOYSTICK_OUT_EPADDR →
     runs (Interfaces.Endpoint_SelectEndpoint a) e tt (board e) (set_selected a (ep e))).
Proof.
  split.
  - intros e Hok. pose proof Hok as [_ Hv]. eexists. split; [done|]. by split.
  - intros e a Hok Ha. pose proof Hok as [_ Hv].
    assert (Endpoint.Endpoint_SelectEndpoint a (view e) = Ok tt
      (set_mcu (with_uenum (if decide (a = JOYSTICK_IN_EPADDR) then 1 else 2) (mcu (view e))) (view e)))
      as Hrun by (by destruct Ha as [-> | ->]).
    law Hrun; [by destruct Hv; constructor|done|by destruct Ha as [-> | ->]].
Qed.

(** What the firmware relies on holds of the drivers. *)
Lemma lufa_platform : Platform (lufa H).
Proof.
  destruct board_laws as (? & ? & ? & ? & ?). destruct out_laws as (? & ? & ? & ?).
  destruct in_laws as (? & ? & ?). destruct selection_laws. by split.
Qed.
End laws.
