(* ===== verification/SerialDriver.v ===== *)
(** * The USART driver of LUFA

    [LUFA/Drivers/Peripheral/AVR8/Serial_AVR8.h] and [.c].  The firmware drives
    the UART with its own [avr.h]; at the same baud rate the two configure the
    UART alike, and they send and receive the same bytes.  (The bit TXC1 of
    [Serial_IsSendComplete] is not a part of the view of the hardware.) *)

From S2P Require Import Prelude StdDescriptors Hardware Lufa Interfaces Board Driver.

(** The clock of the [Makefile], in Hz. *)
Definition F_CPU : Z := 16000000.

(** The unsigned 32-bit arithmetic of the macros; a rate of zero divides by zero. *)
Definition baud_value (clock Baud : Z) : option Z :=
  if Baud =? 0 then None else Some (u32 (u32 (clock + Baud / 2) / Baud - 1)).
Definition SERIAL_UBBRVAL (Baud : Z) : option Z := baud_value (F_CPU / 16) Baud.
Definition SERIAL_2X_UBBRVAL (Baud : Z) : option Z := baud_value (F_CPU / 8) Baud.

Section driver.
Context {H : Type} `{!Mcu H} (fuel : nat).

Definition Serial_Init (BaudRate : Z) (DoubleSpeed : bool) : M (lufa H) unit :=
  v ← checked (if DoubleSpeed then SERIAL_2X_UBBRVAL BaudRate else SERIAL_UBBRVAL BaudRate);
  set_reg UBRR1 (u16 v);;
  set_reg UCSR1C (Z.lor (BV UCSZ11) (BV UCSZ10));;
  set_reg UCSR1A (if DoubleSpeed then BV U2X1 else 0);;
  set_reg UCSR1B (Z.lor (BV TXEN1) (BV RXEN1));;
  set_bits DDRD (BV 3);;
  set_bits PORTD (BV 2).

Definition Serial_Disable : M (lufa H) unit :=
  set_reg UCSR1B 0;;
  set_reg UCSR1A 0;;
  set_reg UCSR1C 0;;
  set_reg UBRR1 0;;
  clear_bits DDRD (BV 3);;
  clear_bits PORTD (BV 2).

Definition Serial_IsCharReceived : M (lufa H) bool := test_bits UCSR1A (BV RXC1).
Definition Serial_IsSendReady : M (lufa H) bool := test_bits UCSR1A (BV UDRE1).

(** The argument is a [char]; the register takes its low byte. *)
Definition Serial_SendByte (DataByte : Z) : M (lufa H) unit :=
  wait_until fuel Serial_IsSendReady;;
  set_reg UDR1 (u8 DataByte).

Definition Serial_ReceiveByte : M (lufa H) Z :=
  received ← Serial_IsCharReceived;
  if negb received then mret (-1) else get_reg UDR1.

(** The bytes from the pointer to the end of the memory behind it. *)
Fixpoint Serial_SendString (StringPtr : list Z) : M (lufa H) unit :=
  match StringPtr with
  | [] => fail Undefined
  | CurrByte :: StringPtr =>
      if CurrByte =? 0 then mret tt else Serial_SendByte CurrByte;; Serial_SendString StringPtr
  end.
Definition Serial_SendString_P := Serial_SendString.

Fixpoint send_bytes (Buffer : list Z) (Length : nat) : M (lufa H) unit :=
  match Length, Buffer with
  | O, _ => mret tt
  | S Length, CurrByte :: Buffer => Serial_SendByte CurrByte;; send_bytes Buffer Length
  | S _, [] => fail Undefined
  end.
Definition Serial_SendData (Buffer : list Z) (Length : Z) : M (lufa H) unit :=
  send_bytes Buffer (Z.to_nat Length).

(** The functions of a stream; [_FDEV_EOF] is that of avr-libc. *)
Definition Serial_putchar (DataByte : Z) : M (lufa H) Z := Serial_SendByte DataByte;; mret 0.
Definition Serial_getchar (FDEV_EOF : Z) : M (lufa H) Z :=
  received ← Serial_IsCharReceived;
  if negb received then mret FDEV_EOF else Serial_ReceiveByte.
Definition Serial_getchar_Blocking : M (lufa H) Z :=
  wait_until fuel Serial_IsCharReceived;;
  Serial_ReceiveByte.
End driver.

(** ** The configuration *)

(** The divisor is the nearest: the rate that the UART runs at, [clock / (v + 1)],
    is no further from the rate asked for than rounding the divisor explains. *)
Lemma baud_value_nearest clock Baud v :
  0 ≤ clock < 2147483648 → 0 < Baud ≤ clock → baud_value clock Baud = Some v →
  0 ≤ v ∧ 2 * Z.abs (clock - Baud * (v + 1)) ≤ Baud.
Proof.
  intros Hc Hb. unfold baud_value. destruct (Z.eqb_spec Baud 0); [lia|]. intros [= <-].
  pose proof (Z.div_mod Baud 2 ltac:(lia)) as Hh. pose proof (Z.mod_pos_bound Baud 2 ltac:(lia)) as Hm2.
  assert (u32 (clock + Baud / 2) = clock + Baud / 2) as ->.
  { unfold u32. apply Z.mod_small. lia. }
  pose proof (Z.div_mod (clock + Baud / 2) Baud ltac:(lia)) as Hd.
  pose proof (Z.mod_pos_bound (clock + Baud / 2) Baud ltac:(lia)) as Hm.
  set (k := (clock + Baud / 2) / Baud) in *.
  assert (1 ≤ k) by (unfold k; apply Z.div_le_lower_bound; lia).
  assert (k ≤ clock + Baud / 2) by (unfold k; apply Z.div_le_upper_bound; nia).
  assert (u32 (k - 1) = k - 1) as -> by (unfold u32; apply Z.mod_small; lia).
  split; [lia|]. replace (k - 1 + 1) with k by lia. lia.
Qed.

Lemma u2x_cleared x : Z.land (Z.land x (inv8 (BV U2X1))) (BV U2X1) = 0.
Proof. rewrite <- Z.land_assoc. apply Z.land_0_r. Qed.

Lemma init_view (l : lufa hwview) :
  ∃ v1 v2, Serial_Init BAUD false l = Ok tt v1 ∧ USART_Init l = Ok tt v2 ∧
    (∀ r, r ≠ UCSR1D → v_regs (mcu v1) r = v_regs (mcu v2) r) ∧
    v_regs (mcu v1) UCSR1D = v_regs (mcu l) UCSR1D.
Proof.
  do 2 eexists. split; [reflexivity|]. split; [reflexivity|]. split; [|done].
  intros r Hr. destruct r; try done. symmetry. exact (u2x_cleared _).
Qed.

(** The registers of the UART after an initialisation at the firmware's rate
    are those that [avr.h] writes, but for UCSR1D, which LUFA leaves alone. *)
Lemma Serial_Init_USART_Init {H} `{!Mcu H} `{!McuSpec H} (l : lufa H) :
  hw_ok (mcu l) →
  ∃ l1 l2, Serial_Init BAUD false l = Ok tt l1 ∧ USART_Init l = Ok tt l2 ∧
    (∀ r, r ≠ UCSR1D → v_regs (hw (mcu l1)) r = v_regs (hw (mcu l2)) r) ∧
    v_regs (hw (mcu l1)) UCSR1D = v_regs (hw (mcu l)) UCSR1D.
Proof.
  intros Hok. pose proof sim_USART_Init as Hs2.
  assert (sim (H := H) (Serial_Init BAUD false) (Serial_Init BAUD false)) as Hs1 by solve_sim.
  destruct (init_view (view l)) as (v1 & v2 & H1 & H2 & Hregs & Hd).
  destruct (sim_Ok _ _ _ _ _ Hs1 Hok H1) as (l1 & Hl1 & <- & _).
  destruct (sim_Ok _ _ _ _ _ Hs2 Hok H2) as (l2 & Hl2 & <- & _).
  by exists l1, l2.
Qed.

(** ** Sending and receiving *)

Section view.
Context (fuel : nat).

Lemma Serial_SendByte_view (l : lufa hwview) b :
  view_ok fuel l → is_u8 b →
  Serial_SendByte fuel b l = Ok tt (put_uart l (v_rx (mcu l)) (v_tx (mcu l) ++ [b]) (tail (v_txd (mcu l)))).
Proof. intros Hok Hb. rewrite <- (send_byte_view fuel l Hok). unfold Serial_SendByte. by rewrite u8_id. Qed.

Lemma send_bytes_view (l : lufa hwview) bs rest :
  view_ok fuel l → bytes bs →
  ∃ d, send_bytes fuel (bs ++ rest) (length bs) l = Ok tt (put_uart l (v_rx (mcu l)) (v_tx (mcu l) ++ bs) d) ∧
       view_ok fuel (put_uart l (v_rx (mcu l)) (v_tx (mcu l) ++ bs) d).
Proof.
  revert l. induction bs as [|b bs IH]; intros l Hok Hb.
  { exists (v_txd (mcu l)). rewrite app_nil_r, put_uart_self. by destruct rest. }
  apply Forall_cons in Hb as [Hb Hbs]. cbn [send_bytes app length].
  run_step (Serial_SendByte_view l b Hok Hb). set (l1 := put_uart _ _ _ _).
  assert (view_ok fuel l1) as Hok1 by (apply put_uart_ok; [done|]; destruct (ok_txd _ _ Hok); done).
  destruct (IH l1 Hok1 Hbs) as (d & Hrun & Hok'). exists d. cbn in Hrun, Hok'.
  rewrite <- !app_assoc in Hrun, Hok'. done.
Qed.
(** A string is sent up to its zero. *)
Lemma SendString_bytes bs rest (l : lufa hwview) :
  Forall (λ b, b ≠ 0) bs → Serial_SendString fuel (bs ++ 0 :: rest) l = send_bytes fuel bs (length bs) l.
Proof.
  revert l. induction bs as [|b bs IH]; intros l Hb; [done|].
  apply Forall_cons in Hb as [Hb Hbs]. cbn [Serial_SendString send_bytes app length].
  rewrite (proj2 (Z.eqb_neq b 0) Hb). unfold mbind, M_bind.
  destruct (Serial_SendByte fuel b l); [|done..]. by apply IH.
Qed.

Lemma Serial_ReceiveByte_view (l : lufa hwview) :
  Serial_ReceiveByte l =
  Ok (default (-1) (head (v_rx (mcu l))))
    (put_uart l (tail (v_rx (mcu l))) (v_tx (mcu l)) (count_down (v_txd (mcu l)))).
Proof.
  unfold Serial_ReceiveByte, Serial_IsCharReceived.
  assert (test_bits UCSR1A (BV RXC1) l = Ok (bool_decide (v_rx (mcu l) ≠ []))
    (put_uart l (v_rx (mcu l)) (v_tx (mcu l)) (count_down (v_txd (mcu l))))) as Ht.
  { unfold test_bits, mbind, M_bind, get_reg, on_mcu, zoom.
    cbn [rd view_Mcu before_read after_read reg_value v_rx with_uart]. unfold mret, M_ret. f_equal.
    destruct (v_rx (mcu l)) as [|b q]; [|by rewrite has_lor_r].
    rewrite Z.lor_0_r, has_bit, Z.lor_spec, Z.land_spec by done. rewrite andb_false_r. by case_match. }
  run_step Ht. destruct l as [v]; destruct v as [? ? ? ? ? rx]; by destruct rx.
Qed.
End view.

Lemma sim_SendString {H} `{!Mcu H} `{!McuSpec H} fuel bs :
  sim (H := H) (Serial_SendString fuel bs) (Serial_SendString fuel bs).
Proof. induction bs as [|b bs IH]; cbn [Serial_SendString]; solve_sim; done. Qed.

(** On every microcontroller the bytes before the zero are sent, in order. *)
Lemma Serial_SendString_sends {H} `{!Mcu H} `{!McuSpec H} fuel (l : lufa H) bs rest :
  hw_ok (mcu l) → view_ok fuel (view l) → bytes bs → Forall (λ b, b ≠ 0) bs →
  ∃ l', Serial_SendString fuel (bs ++ 0 :: rest) l = Ok tt l' ∧
        v_tx (hw (mcu l')) = v_tx (hw (mcu l)) ++ bs ∧ v_rx (hw (mcu l')) = v_rx (hw (mcu l)).
Proof.
  intros Hok Hv Hb Hz. destruct (send_bytes_view fuel (view l) bs [] Hv Hb) as (d & Hrun & _).
  rewrite app_nil_r, <- (SendString_bytes fuel bs rest) in Hrun by done.
  destruct (sim_Ok _ _ _ _ _ (sim_SendString fuel _) Hok Hrun) as (l' & Hl & Hv' & _).
  exists l'. split; [done|]. apply (f_equal mcu) in Hv'. cbn in Hv'. by rewrite Hv'.
Qed.
