(* ===== verification/ControllerFacts.v ===== *)
(** * Start and bus events of the controller

    [SetupHardware] and the interrupt handler [USB_GEN_vect] on the documented
    registers. *)

From S2P Require Import Prelude Datatypes StdDescriptors Descriptors Interfaces Hardware Lufa Board Device.
From S2P Require Import Endpoint Controller EndpointFacts RequestFacts Driver.
Import RequestFacts.Demo.

(** ** Registers that are only memory *)

Definition plain (r : reg) : bool :=
  match r with
  | DDRD | PORTD | MCUSR | SREG | REGCR | UDIEN | UBRR1 | UCSR1B | UCSR1C | UCSR1D | UDADDR => true
  | _ => false
  end.

Lemma plain_put r x l : plain r = true → set_reg r x l = Ok tt (put_reg r x l).
Proof. by destruct r. Qed.
Lemma plain_set r m l :
  plain r = true → set_bits r m l = Ok tt (put_reg r (Z.lor (v_regs (mcu l) r) m) l).
Proof. intros Hr. destruct l. by destruct r. Qed.
Lemma plain_clear r m l :
  plain r = true → clear_bits r m l = Ok tt (put_reg r (Z.land (v_regs (mcu l) r) (inv8 m)) l).
Proof. intros Hr. destruct l. by destruct r. Qed.
Lemma plain_test r m l : plain r = true → test_bits r m l = Ok (has (v_regs (mcu l) r) m) l.
Proof. intros Hr. destruct l. by destruct r. Qed.

(** Flags of UDINT are cleared by writing zeros; UDCON forgets a wakeup. *)
Lemma udint_clear m l :
  clear_bits UDINT m l =
  Ok tt (put_reg UDINT (Z.land (v_regs (mcu l) UDINT) (Z.land (v_regs (mcu l) UDINT) (inv8 m))) l).
Proof. by destruct l. Qed.
Lemma udint_zero l : set_reg UDINT 0 l = Ok tt (put_reg UDINT 0 l).
Proof.
  destruct l as [v]. unfold set_reg, on_mcu, zoom. cbn [wr view_Mcu mcu set_mcu after_write].
  by rewrite Z.land_0_r.
Qed.

Lemma udint_test m l : test_bits UDINT m l = Ok (has (v_regs (mcu l) UDINT) m) l.
Proof. by destruct l. Qed.
Lemma udcon_clear m l :
  clear_bits UDCON m l =
  Ok tt (put_reg UDCON (Z.land (Z.land (v_regs (mcu l) UDCON) (inv8 m)) (inv8 (BV RMWKUP))) l).
Proof. by destruct l. Qed.
Lemma pllcsr_put x l : set_reg PLLCSR x l = Ok tt (put_reg PLLCSR x l).
Proof. by destruct l. Qed.

Lemma put_reg_eq r x l : v_regs (mcu (put_reg r x l)) r = x.
Proof. unfold put_reg. cbn. by rewrite decide_True. Qed.
Lemma put_reg_ne r r' x l : r ≠ r' → v_regs (mcu (put_reg r x l)) r' = v_regs (mcu l) r'.
Proof. intros Hr. unfold put_reg. cbn. by rewrite decide_False. Qed.

(** Runs the next operation with [H] and names its result. *)
Ltac next_state H l E :=
  run_step H; match goal with |- context [?m (put_reg ?r ?x ?l0)] =>
                remember (put_reg r x l0) as l eqn:E end.

(** Looks a register up through named states. *)
Ltac look :=
  repeat match goal with
         | |- context [v_regs (mcu (put_reg ?r ?x ?l0)) ?r'] =>
             first [rewrite (put_reg_eq r x l0) | rewrite (put_reg_ne r r' x l0) by done]
         | E : ?l = put_reg ?r ?x ?l0 |- context [v_regs (mcu ?l) ?r'] =>
             rewrite E; first [rewrite put_reg_eq | rewrite (put_reg_ne r r' x l0) by done]
         end.

(** ** Controller and PLL *)

(** The state after the controller was disabled. *)
Definition off_state (l : lufa hwview) : lufa hwview :=
  set_mcu (usb_reset (with_reg USBCON (Z.land (v_regs (mcu l) USBCON) (inv8 (BV USBE))) (mcu l))) l.

Lemma usbcon_off l : clear_bits USBCON (BV USBE) l = Ok tt (off_state l).
Proof.
  destruct l as [v]. unfold clear_bits, mbind, M_bind, get_reg, set_reg, on_mcu, zoom.
  cbn [rd wr view_Mcu mcu set_mcu before_read after_read reg_value after_write].
  replace (has (Z.land (v_regs v USBCON) (inv8 (BV USBE))) (BV USBE)) with false; [done|].
  unfold has. rewrite <- Z.land_assoc. change (Z.land (inv8 (BV USBE)) (BV USBE)) with 0.
  by rewrite Z.land_0_r.
Qed.

Lemma usbcon_on l :
  set_bits USBCON (BV USBE) l = Ok tt (put_reg USBCON (Z.lor (v_regs (mcu l) USBCON) (BV USBE)) l).
Proof.
  destruct l as [v]. unfold set_bits, mbind, M_bind, get_reg, set_reg, on_mcu, zoom.
  cbn [rd wr view_Mcu mcu set_mcu before_read after_read reg_value after_write].
  by rewrite has_lor_r.
Qed.

Lemma usbcon_unfreeze l :
  has (v_regs (mcu l) USBCON) (BV USBE) = true →
  USB_CLK_Unfreeze l =
  Ok tt (put_reg USBCON (Z.land (v_regs (mcu l) USBCON) (inv8 (BV FRZCLK))) l).
Proof.
  intros Hon. destruct l as [v].
  unfold USB_CLK_Unfreeze, clear_bits, mbind, M_bind, get_reg, set_reg, on_mcu, zoom.
  cbn [rd wr view_Mcu mcu set_mcu before_read after_read reg_value after_write].
  cbn in Hon. unfold has in *. rewrite <- Z.land_assoc.
  change (Z.land (inv8 (BV FRZCLK)) (BV USBE)) with (BV USBE). by rewrite Hon.
Qed.

Definition at_pll (k : nat) (l : lufa hwview) : lufa hwview := set_mcu (with_pll k (mcu l)) l.

Lemma wait_pll n k l :
  v_regs (mcu l) PLLCSR = Z.lor USB_PLL_PSC (BV PLLE) → (k < n)%nat →
  wait_until n USB_PLL_IsReady (at_pll k l) = Ok tt (at_pll 0 l).
Proof.
  intros Hon. revert k. induction n as [|n IH]; intros k Hk; [lia|]. cbn [wait_until].
  assert (USB_PLL_IsReady (at_pll k l) = Ok (pred k =? 0)%nat (at_pll (pred k) l)) as Hr.
  { unfold USB_PLL_IsReady, test_bits, mbind, M_bind, get_reg, on_mcu, zoom.
    cbn [rd view_Mcu before_read after_read reg_value at_pll mcu set_mcu v_regs with_pll v_pll].
    rewrite Hon. by destruct (pred k =? 0)%nat. }
  run_step Hr. destruct (Nat.eqb_spec (pred k) 0) as [->|Hne]; [done|]. apply IH. lia.
Qed.

(** ** The board *)

Lemma clock_run l : on_mcu (clock_prescale_set clock_div_1) l = Ok tt l.
Proof. by destruct l. Qed.
Lemma wdt_run l : on_mcu wdt_disable l = Ok tt l.
Proof. by destruct l. Qed.
Lemma ucsr1a_clear m l :
  ∃ x, clear_bits UCSR1A m l =
    Ok tt (put_reg UCSR1A x (put_uart l (v_rx (mcu l)) (v_tx (mcu l)) (count_down (v_txd (mcu l))))).
Proof. eexists. by destruct l. Qed.

Lemma USART_Init_run l :
  ∃ x, USART_Init l =
    Ok tt (put_reg PORTD (Z.lor (v_regs (mcu l) PORTD) (BV 2))
          (put_reg DDRD (Z.lor (v_regs (mcu l) DDRD) (BV 3))
          (put_reg UCSR1B 0x18 (put_reg UCSR1D 0 (put_reg UCSR1C 0x06 (put_reg UCSR1A x
          (put_uart (put_reg UBRR1 0 l) (v_rx (mcu l)) (v_tx (mcu l))
             (count_down (v_txd (mcu l)))))))))).
Proof.
  unfold USART_Init. cbn [USE_2X UBRR_VALUE view_Mcu].
  run_step (plain_put UBRR1 0 l eq_refl).
  destruct (ucsr1a_clear (BV U2X1) (put_reg UBRR1 0 l)) as [x Hx]. exists x. run_step Hx.
  set (l1 := put_reg UCSR1A x _). change (v_rx (mcu (put_reg UBRR1 0 l))) with (v_rx (mcu l)) in l1.
  run_step (plain_put UCSR1C (Z.lor (BV UCSZ11) (BV UCSZ10)) l1 eq_refl).
  set (l2 := put_reg UCSR1C _ l1). run_step (plain_put UCSR1D 0 l2 eq_refl).
  set (l3 := put_reg UCSR1D _ l2).
  run_step (plain_put UCSR1B (Z.lor (BV RXEN1) (BV TXEN1)) l3 eq_refl).
  set (l4 := put_reg UCSR1B _ l3). run_step (plain_set DDRD (BV 3) l4 eq_refl).
  rewrite plain_set by done. done.
Qed.

Lemma watchdog_run l :
  disable_watchdog l = Ok tt (put_reg MCUSR (Z.land (v_regs (mcu l) MCUSR) (inv8 (BV WDRF))) l).
Proof. unfold disable_watchdog. run_step (plain_clear MCUSR (BV WDRF) l eq_refl). apply wdt_run. Qed.

Lemma LEDs_Init_run l :
  LEDs_Init l = Ok tt (put_reg PORTD (Z.lor (v_regs (mcu l) PORTD) LEDS_ALL_LEDS)
                      (put_reg DDRD (Z.lor (v_regs (mcu l) DDRD) LEDS_ALL_LEDS) l)).
Proof.
  unfold LEDs_Init. run_step (plain_set DDRD LEDS_ALL_LEDS l eq_refl).
  exact (plain_set PORTD LEDS_ALL_LEDS (put_reg DDRD (Z.lor (v_regs (mcu l) DDRD) LEDS_ALL_LEDS) l) eq_refl).
Qed.

(** ** Start-up *)

Lemma pll_start fuel l :
  (v_pll (mcu l) < fuel)%nat →
  (USB_PLL_On;; wait_until fuel USB_PLL_IsReady) l =
  Ok tt (at_pll 0 (put_reg PLLCSR (Z.lor USB_PLL_PSC (BV PLLE)) (put_reg PLLCSR USB_PLL_PSC l))).
Proof.
  intros Hpll. set (l1 := put_reg PLLCSR USB_PLL_PSC l).
  set (l2 := put_reg PLLCSR (Z.lor USB_PLL_PSC (BV PLLE)) l1).
  assert (USB_PLL_On l = Ok tt l2) as Hon.
  { unfold USB_PLL_On. run_step (pllcsr_put USB_PLL_PSC l). apply pllcsr_put. }
  run_step Hon. exact (wait_pll fuel (v_pll (mcu l)) l2 (put_reg_eq PLLCSR _ l1) Hpll).
Qed.

(** The controller after a reset: its registers have their initial values, the
    clock runs and no endpoint is allocated; the rest is as before. *)
Record controller_on (l l' : lufa hwview) : Prop := {
  on_usbcon : has (v_regs (mcu l') USBCON) (BV USBE) = true;
  on_udcon : v_regs (mcu l') UDCON = BV DETACH;
  on_udien : v_regs (mcu l') UDIEN = 0;
  on_udaddr : v_regs (mcu l') UDADDR = 0;
  on_epregs : ∀ n r, v_epregs (mcu l') n r = 0;
  on_banks : v_in (mcu l') = None ∧ v_out (mcu l') = None;
  on_regs : ∀ r, r ∈ [UBRR1; UCSR1B; UCSR1C; UCSR1D; DDRD; PORTD; SREG; MCUSR] →
                 v_regs (mcu l') r = v_regs (mcu l) r;
  on_serial : v_rx (mcu l') = v_rx (mcu l) ∧ v_tx (mcu l') = v_tx (mcu l) ∧
              v_txd (mcu l') = v_txd (mcu l);
  on_init : USB_IsInitialized l' = USB_IsInitialized l;
}.

Definition reset_controller (fuel : nat) : M (lufa hwview) unit :=
  USB_INT_DisableAllInterrupts;; USB_INT_ClearAllInterrupts;; USB_Controller_Reset;;
  USB_CLK_Unfreeze;;
  when (negb (has USB_Options USB_OPT_MANUAL_PLL)) (USB_PLL_On;; wait_until fuel USB_PLL_IsReady).

Lemma ResetInterface_split fuel l :
  USB_ResetInterface fuel l = (reset_controller fuel;; USB_Init_Device) l.
Proof. unfold USB_ResetInterface, reset_controller, mbind, M_bind. repeat case_match; simplify_eq; done. Qed.

Lemma controller_on_pll k l l' : controller_on l l' → controller_on l (at_pll k l').
Proof. by intros []. Qed.

Lemma reset_controller_run fuel l :
  (v_pll (mcu l) < fuel)%nat →
  ∃ l', reset_controller fuel l = Ok tt l' ∧ controller_on l l'.
Proof.
  intros Hpll. unfold reset_controller.
  next_state (plain_put UDIEN 0 l eq_refl) l1 E1.
  next_state (udint_zero l1) l2 E2.
  assert (USB_Controller_Reset l2 =
          Ok tt (put_reg USBCON (Z.lor (v_regs (mcu (off_state l2)) USBCON) (BV USBE)) (off_state l2)))
    as Hreset.
  { unfold USB_Controller_Reset. run_step (usbcon_off l2). apply usbcon_on. }
  next_state Hreset l4 E4.
  assert (has (v_regs (mcu l4) USBCON) (BV USBE) = true) as Hon by (look; by rewrite has_lor_r).
  next_state (usbcon_unfreeze l4 Hon) l5 E5.
  assert (v_pll (mcu l5) < fuel)%nat as Hpll5 by (by rewrite E5, E4, E2, E1).
  exists (at_pll 0 (put_reg PLLCSR (Z.lor USB_PLL_PSC (BV PLLE)) (put_reg PLLCSR USB_PLL_PSC l5))).
  split; [exact (pll_start fuel l5 Hpll5)|].
  remember (put_reg PLLCSR USB_PLL_PSC l5) as l6 eqn:E6.
  remember (put_reg PLLCSR (Z.lor USB_PLL_PSC (BV PLLE)) l6) as l7 eqn:E7.
  apply (controller_on_pll 0). constructor.
  - look. unfold has. rewrite <- Z.land_assoc.
    change (Z.land (inv8 (BV FRZCLK)) (BV USBE)) with (BV USBE). by apply has_lor_r.
  - by look.
  - by look.
  - by look.
  - intros n r. by rewrite E7, E6, E5, E4.
  - by rewrite E7, E6, E5, E4.
  - intros r Hr. transitivity (v_regs (mcu (off_state l2)) r).
    + repeat (apply elem_of_cons in Hr as [->|Hr]; [by look|]). by apply elem_of_nil in Hr.
    + transitivity (v_regs (mcu l2) r);
        repeat (apply elem_of_cons in Hr as [->|Hr]; [done || by look|]); by apply elem_of_nil in Hr.
  - by rewrite E7, E6, E5, E4, E2, E1.
  - by rewrite E7, E6, E5, E4, E2, E1.
Qed.

(** What the registers of the board hold after start-up. *)
Definition board_regs : list reg := [UBRR1; UCSR1B; UCSR1C; UCSR1D; DDRD; PORTD; SREG; MCUSR].

Lemma board_regs_put r x l l' :
  r ∉ board_regs → (∀ r', r' ∈ board_regs → v_regs (mcu l') r' = v_regs (mcu l) r') →
  ∀ r', r' ∈ board_regs → v_regs (mcu (put_reg r x l')) r' = v_regs (mcu l) r'.
Proof. intros Hr Hl r' Hr'. rewrite put_reg_ne; [by apply Hl|]. by intros <-. Qed.

(** An attached device that the host has not reset yet: only the control
    endpoint is configured, with 32 bytes. *)
Record attached (l l' : lufa hwview) : Prop := {
  at_state : USB_DeviceState l' = DEVICE_STATE_Unattached;
  at_conf : USB_Device_ConfigurationNumber l' = 0;
  at_init : USB_IsInitialized l' = USB_IsInitialized l;
  at_detach : has (v_regs (mcu l') UDCON) (BV DETACH) = false;
  at_susp : has (v_regs (mcu l') UDIEN) (BV SUSPE) = true;
  at_eorst : has (v_regs (mcu l') UDIEN) (BV EORSTE) = true;
  at_address : v_regs (mcu l') UDADDR = v_regs (mcu l) UDADDR;
  at_sel : v_uenum (mcu l') = 0;
  at_control : ep_reg l' 0 UECFG1X = 0x22 ∧ has (ep_reg l' 0 UECONX) (BV EPEN) = true;
  at_others : ∀ n, n ≠ 0 → ep_reg l' n UECFG1X = 0;
  at_board : ∀ r, r ∈ board_regs → v_regs (mcu l') r = v_regs (mcu l) r;
  at_serial : v_rx (mcu l') = v_rx (mcu l) ∧ v_tx (mcu l') = v_tx (mcu l) ∧
              v_txd (mcu l') = v_txd (mcu l);
}.

Lemma has_land_inv x n : 0 ≤ n < 8 → has (Z.land x (inv8 (BV n))) (BV n) = false.
Proof.
  intros Hn. unfold has. rewrite <- Z.land_assoc.
  assert (Z.land (inv8 (BV n)) (BV n) = 0) as ->.
  { assert (n = 0 ∨ n = 1 ∨ n = 2 ∨ n = 3 ∨ n = 4 ∨ n = 5 ∨ n = 6 ∨ n = 7) as Hc by lia.
    by destruct Hc as [->|[->|[->|[->|[->|[->|[->| ->]]]]]]]. }
  by rewrite Z.land_0_r.
Qed.

Lemma has_land x m k : has x k = false → has (Z.land x m) k = false.
Proof.
  unfold has. intros H. apply negb_false_iff, Z.eqb_eq in H. apply negb_false_iff, Z.eqb_eq.
  rewrite <- Z.land_assoc, (Z.land_comm m), Z.land_assoc, H. done.
Qed.

Lemma has_lor x m k : has x k = true → has (Z.lor x m) k = true.
Proof.
  unfold has. intros H. apply negb_true_iff, Z.eqb_neq in H. apply negb_true_iff, Z.eqb_neq.
  rewrite Z.land_lor_distr_l. intros [H0 _]%Z.lor_eq_0_iff. done.
Qed.

(** The device variables at the start of [USB_Init_Device]. *)
Definition init_vars (l : lufa hwview) : lufa hwview :=
  set_CurrentlySelfPowered false (set_RemoteWakeupEnabled false
    (set_ConfigurationNumber 0 (set_DeviceState DEVICE_STATE_Unattached l))).

Lemma USB_Init_Device_run l :
  (∀ n r, v_epregs (mcu l) n r = 0) →
  ∃ l', USB_Init_Device l = Ok tt l' ∧ attached l l'.
Proof.
  intros Hep. unfold USB_Init_Device.
  run_step (modify_run (set_DeviceState DEVICE_STATE_Unattached) l).
  run_step (modify_run (set_ConfigurationNumber 0) (set_DeviceState DEVICE_STATE_Unattached l)).
  run_step (modify_run (set_RemoteWakeupEnabled false)
    (set_ConfigurationNumber 0 (set_DeviceState DEVICE_STATE_Unattached l))).
  run_step (modify_run (set_CurrentlySelfPowered false) (set_RemoteWakeupEnabled false
    (set_ConfigurationNumber 0 (set_DeviceState DEVICE_STATE_Unattached l)))).
  change (set_CurrentlySelfPowered false _) with (init_vars l).
  rewrite ConfigureEndpoint_control.
  pose proof (ConfigureEndpoint_Prv_spec 0 0 0x22 (init_vars l) ltac:(lia) eq_refl) as Hcfg.
  assert (∀ n r, ep_reg (init_vars l) n r = 0) as Hep' by done.
  unfold all_mem, ep_mem in Hcfg. rewrite !Hep' in Hcfg.
  destruct Hcfg as (l1 & Hrun & [Crest Csel Ccfg Cen _ _ _ _]). run_step Hrun.
  next_state (udint_clear (BV SUSPI) l1) l2 E2.
  next_state (plain_set UDIEN (BV SUSPE) l2 eq_refl) l3 E3.
  next_state (plain_set UDIEN (BV EORSTE) l3 eq_refl) l4 E4.
  unfold USB_Attach. rewrite (udcon_clear (BV DETACH) l4).
  remember (put_reg UDCON _ l4) as l5 eqn:E5. exists l5. split; [done|].
  assert (∀ n r, ep_reg l5 n r = ep_reg l1 n r) as He by (intros; by rewrite E5, E4, E3, E2).
  constructor.
  - rewrite E5, E4, E3, E2. apply Crest.
  - rewrite E5, E4, E3, E2. apply Crest.
  - rewrite E5, E4, E3, E2. apply Crest.
  - look. apply has_land, has_land_inv. done.
  - look. apply has_lor, has_lor_r. done.
  - look. by apply has_lor_r.
  - look. by rewrite (sr_regs _ _ Crest).
  - rewrite E5, E4, E3, E2. apply Csel.
  - rewrite !He. split; [by rewrite Ccfg|done].
  - intros n Hn. rewrite He, Ccfg by done. unfold new_cfg.
    by rewrite (proj2 (Z.eqb_neq n 0)).
  - rewrite E5, E4, E3, E2.
    do 4 (apply board_regs_put; [apply (bool_decide_unpack _); by vm_compute|]).
    intros r _. by rewrite (sr_regs _ _ Crest).
  - rewrite E5, E4, E3, E2. split_and!; apply Crest.
Qed.

(** What [SetupHardware] leaves: the serial line at one million baud, eight
    bits, no parity, one stop bit, receiver and transmitter on and the receive
    interrupt off; the LEDs off; the device attached. *)
Record started (l l' : lufa hwview) : Prop := {
  st_baud : v_regs (mcu l') UBRR1 = 0;
  st_frame : v_regs (mcu l') UCSR1C = 0x06;
  st_uart : v_regs (mcu l') UCSR1B = 0x18;
  st_portd : v_regs (mcu l') PORTD = Z.lor (Z.lor (v_regs (mcu l) PORTD) (BV 2)) LEDS_ALL_LEDS;
  st_ddrd : v_regs (mcu l') DDRD = Z.lor (Z.lor (v_regs (mcu l) DDRD) (BV 3)) LEDS_ALL_LEDS;
  st_wdrf : has (v_regs (mcu l') MCUSR) (BV WDRF) = false;
  st_init : USB_IsInitialized l' = true;
  st_attached : attached l' l';
  st_address : v_regs (mcu l') UDADDR = 0;
  st_txd : v_txd (mcu l') = count_down (v_txd (mcu l));
}.

(** The board before the controller starts. *)
Lemma board_run l :
  ∃ l', (disable_watchdog;; on_mcu (clock_prescale_set clock_div_1);; USART_Init;; LEDs_Init) l =
          Ok tt l' ∧
    v_regs (mcu l') UBRR1 = 0 ∧ v_regs (mcu l') UCSR1C = 0x06 ∧ v_regs (mcu l') UCSR1B = 0x18 ∧
    v_regs (mcu l') PORTD = Z.lor (Z.lor (v_regs (mcu l) PORTD) (BV 2)) LEDS_ALL_LEDS ∧
    v_regs (mcu l') DDRD = Z.lor (Z.lor (v_regs (mcu l) DDRD) (BV 3)) LEDS_ALL_LEDS ∧
    has (v_regs (mcu l') MCUSR) (BV WDRF) = false ∧
    v_txd (mcu l') = count_down (v_txd (mcu l)) ∧ v_pll (mcu l') = v_pll (mcu l).
Proof.
  next_state (watchdog_run l) l1 E1. run_step (clock_run l1).
  destruct (USART_Init_run l1) as [x Hu]. run_step Hu.
  remember (put_uart (put_reg UBRR1 0 l1) _ _ _) as l2 eqn:E2.
  remember (put_reg UCSR1A x l2) as l3 eqn:E3. remember (put_reg UCSR1C 0x06 l3) as l4 eqn:E4.
  remember (put_reg UCSR1D 0 l4) as l5 eqn:E5. remember (put_reg UCSR1B 0x18 l5) as l6 eqn:E6.
  remember (put_reg DDRD _ l6) as l7 eqn:E7. remember (put_reg PORTD _ l7) as l8 eqn:E8.
  rewrite LEDs_Init_run. remember (put_reg DDRD _ l8) as l9 eqn:E9.
  remember (put_reg PORTD _ l9) as l10 eqn:E10. exists l10. split; [done|].
  assert (∀ r, v_regs (mcu l2) r = v_regs (mcu (put_reg UBRR1 0 l1)) r) as H2
    by (intros; by rewrite E2).
  split_and!.
  - look. rewrite H2. by rewrite put_reg_eq.
  - by look.
  - by look.
  - by look.
  - by look.
  - look. rewrite H2, put_reg_ne by done. look. by apply has_land_inv.
  - by rewrite E10, E9, E8, E7, E6, E5, E4, E3, E2, E1.
  - by rewrite E10, E9, E8, E7, E6, E5, E4, E3, E2, E1.
Qed.

Lemma SetupHardware_run fuel l :
  (v_pll (mcu l) < fuel)%nat → ∃ l', SetupHardware fuel l = Ok tt l' ∧ started l l'.
Proof.
  intros Hpll. destruct (board_run l) as (l1 & Hb & Hbaud & Hframe & Huart & Hpd & Hdd & Hwd & Htx & Hp).
  assert (SetupHardware fuel l = USB_Init fuel l1) as ->.
  { transitivity (((disable_watchdog;; on_mcu (clock_prescale_set clock_div_1);; USART_Init;;
                    LEDs_Init);; USB_Init fuel) l); [|by run_step Hb].
    unfold SetupHardware, mbind, M_bind. repeat case_match; simplify_eq; done. }
  unfold USB_Init. change (negb (has USB_Options USB_OPT_REG_DISABLED)) with true. cbv iota.
  next_state (plain_clear REGCR (BV REGDIS) l1 eq_refl) l2 E2.
  run_step (modify_run (set_IsInitialized true) l2).
  remember (set_IsInitialized true l2) as l3 eqn:E3. rewrite ResetInterface_split.
  destruct (reset_controller_run fuel l3) as (l4 & Hrun4 & C4); [rewrite E3, E2; change (v_pll (mcu l1) < fuel)%nat; lia|].
  run_step Hrun4.
  destruct (USB_Init_Device_run l4 (on_epregs _ _ C4)) as (l5 & Hrun5 & A5).
  exists l5. split; [done|].
  assert (∀ r, r ∈ board_regs → v_regs (mcu l5) r = v_regs (mcu l1) r) as Hregs.
  { intros r Hr. rewrite (at_board _ _ A5), (on_regs _ _ C4) by done.
    change (v_regs (mcu l3) r = v_regs (mcu l1) r). rewrite E3.
    change (v_regs (mcu (set_IsInitialized true l2)) r) with (v_regs (mcu l2) r). rewrite E2.
    apply (board_regs_put REGCR _ l1 l1); [apply (bool_decide_unpack _); by vm_compute|done..]. }
  constructor; try (rewrite Hregs; [done|apply (bool_decide_unpack _); by vm_compute]).
  - rewrite (at_init _ _ A5), (on_init _ _ C4). by rewrite E3.
  - by destruct A5; constructor.
  - rewrite (at_address _ _ A5). apply C4.
  - destruct (at_serial _ _ A5) as (_ & _ & ->), (on_serial _ _ C4) as (_ & _ & ->).
    by rewrite E3, E2.
Qed.

(** ** The interrupt handler *)

Definition int_flag (i : USB_Interrupts_t) : Z :=
  match i with
  | USB_INT_WAKEUPI => WAKEUPI | USB_INT_SUSPI => SUSPI | USB_INT_EORSTI => EORSTI
  | USB_INT_SOFI => SOFI | USB_INT_RXSTPI => RXSTPI
  end.

(** The bus interrupt [i] has occurred and is enabled; its enable bit is at the
    position of its flag. *)
Definition fires (i : USB_Interrupts_t) (l : lufa hwview) : bool :=
  has (v_regs (mcu l) UDINT) (BV (int_flag i)) && has (v_regs (mcu l) UDIEN) (BV (int_flag i)).

Lemma int_fires_run i l : i ≠ USB_INT_RXSTPI → int_fires i l = Ok (fires i l) l.
Proof.
  intros Hi. unfold int_fires, fires.
  assert (USB_INT_HasOccurred i l = Ok (has (v_regs (mcu l) UDINT) (BV (int_flag i))) l) as Ho
    by (destruct i; done || exact (udint_test _ l)).
  run_step Ho. destruct (has (v_regs (mcu l) UDINT) _); [|done].
  destruct i; done || exact (plain_test UDIEN _ l eq_refl).
Qed.

(** Clearing one flag or bit keeps the others. *)
Lemma has_land_other x m n :
  0 ≤ m < 8 → 0 ≤ n < 8 → m ≠ n → has (Z.land x (inv8 (BV m))) (BV n) = has x (BV n).
Proof.
  intros Hm Hn Hmn. rewrite !has_bit, Z.land_spec by lia.
  assert (Z.testbit (inv8 (BV m)) n = true) as ->; [|by rewrite andb_true_r].
  assert (∀ k, 0 ≤ k < 8 → k = 0 ∨ k = 1 ∨ k = 2 ∨ k = 3 ∨ k = 4 ∨ k = 5 ∨ k = 6 ∨ k = 7) as Hc by lia.
  destruct (Hc m Hm) as [->|[->|[->|[->|[->|[->|[->| ->]]]]]]];
    destruct (Hc n Hn) as [->|[->|[->|[->|[->|[->|[->| ->]]]]]]]; done.
Qed.

Lemma has_clear_other x m n :
  0 ≤ m < 8 → 0 ≤ n < 8 → m ≠ n →
  has (Z.land x (Z.land x (inv8 (BV m)))) (BV n) = has x (BV n).
Proof. intros. rewrite Z.land_assoc, Z.land_diag. by apply has_land_other. Qed.
Lemma has_lor_other x m n :
  0 ≤ m → 0 ≤ n → m ≠ n → has (Z.lor x (BV m)) (BV n) = has x (BV n).
Proof.
  intros. rewrite !has_bit, Z.lor_spec by lia. unfold BV.
  rewrite Z.shiftl_1_l, Z.pow2_bits_false, orb_false_r by lia. done.
Qed.

(** The state after the start-of-frame event: one flag of UDINT may be
    cleared. *)
Definition sof_state (l : lufa hwview) : lufa hwview :=
  if fires USB_INT_SOFI l
  then put_reg UDINT (Z.land (v_regs (mcu l) UDINT)
                        (Z.land (v_regs (mcu l) UDINT) (inv8 (BV SOFI)))) l
  else l.

Lemma sof_run l : when (fires USB_INT_SOFI l) (USB_INT_Clear USB_INT_SOFI) l = Ok tt (sof_state l).
Proof. unfold sof_state. destruct (fires USB_INT_SOFI l); [exact (udint_clear (BV SOFI) l)|done]. Qed.

Lemma sof_regs l r : r ≠ UDINT → v_regs (mcu (sof_state l)) r = v_regs (mcu l) r.
Proof. intros Hr. unfold sof_state. destruct (fires _ l); [|done]. by apply put_reg_ne. Qed.
Lemma sof_fires i l :
  i = USB_INT_SUSPI ∨ i = USB_INT_WAKEUPI ∨ i = USB_INT_EORSTI → fires i (sof_state l) = fires i l.
Proof.
  intros Hi. unfold fires. rewrite (sof_regs l UDIEN) by done. f_equal.
  unfold sof_state. destruct (fires USB_INT_SOFI l); [|done]. rewrite put_reg_eq.
  apply has_clear_other; destruct Hi as [->|[->| ->]]; (unfold int_flag, SOFI, SUSPI, WAKEUPI, EORSTI; lia).
Qed.

(** Everything but the flags of UDINT is as before. *)
Record sof_kept (l l' : lufa hwview) : Prop := {
  sk_epregs : v_epregs (mcu l') = v_epregs (mcu l);
  sk_sent : v_sent (mcu l') = v_sent (mcu l);
  sk_in : v_in (mcu l') = v_in (mcu l);
  sk_out : v_out (mcu l') = v_out (mcu l);
  sk_pll : v_pll (mcu l') = v_pll (mcu l);
  sk_txd : v_txd (mcu l') = v_txd (mcu l);
  sk_state : USB_DeviceState l' = USB_DeviceState l;
  sk_conf : USB_Device_ConfigurationNumber l' = USB_Device_ConfigurationNumber l;
}.
Lemma sof_keeps l : sof_kept l (sof_state l).
Proof. unfold sof_state. destruct (fires _ l); by constructor. Qed.

(** What a bus reset leaves: a device in the default state that is not
    configured, with an empty control endpoint, which is selected; the other
    endpoints keep their configuration. *)
Record bus_reset (l l' : lufa hwview) : Prop := {
  br_state : USB_DeviceState l' = DEVICE_STATE_Default;
  br_conf : USB_Device_ConfigurationNumber l' = 0;
  br_flag : has (v_regs (mcu l') UDINT) (BV EORSTI) = false;
  br_susp : fires USB_INT_SUSPI l' = false;
  br_wake : has (v_regs (mcu l') UDIEN) (BV WAKEUPE) = true;
  br_sel : v_uenum (mcu l') = 0;
  br_control : ep_reg l' 0 UECFG1X = 0x22 ∧ has (ep_reg l' 0 UECONX) (BV EPEN) = true;
  br_bank : c_setup (v_ctl (mcu l')) = None ∧ c_bank (v_ctl (mcu l')) = [] ∧
            c_busy (v_ctl (mcu l')) = false ∧ c_out (v_ctl (mcu l')) = None;
  br_others : ∀ n r, n ≠ 0 → is_cfg r = true → ep_reg l' n r = ep_reg l n r;
  br_sent : v_sent (mcu l') = v_sent (mcu l);
  br_regs : ∀ r, r ≠ UDINT → r ≠ UDIEN → v_regs (mcu l') r = v_regs (mcu l) r;
  br_txd : v_txd (mcu l') = v_txd (mcu l);
}.

Lemma bus_reset_run fuel l :
  fires USB_INT_EORSTI l = true → fires USB_INT_SUSPI l = false →
  fires USB_INT_WAKEUPI l = false → all_mem l - ep_mem l 0 + 32 ≤ 176 →
  ∃ l', USB_GEN_vect fuel l = Ok tt l' ∧ bus_reset l l'.
Proof.
  intros He Hs Hw Hmem. unfold USB_GEN_vect.
  run_step (int_fires_run USB_INT_SOFI l ltac:(done)). run_step (sof_run l).
  pose proof (sof_keeps l) as K. pose proof (sof_regs l) as Kr.
  rewrite <- (sof_fires USB_INT_EORSTI) in He by tauto.
  rewrite <- (sof_fires USB_INT_SUSPI) in Hs by tauto.
  rewrite <- (sof_fires USB_INT_WAKEUPI) in Hw by tauto.
  remember (sof_state l) as l1 eqn:E1. clear E1.
  run_step (int_fires_run USB_INT_SUSPI l1 ltac:(done)). rewrite Hs. run_step (ret_run tt l1).
  run_step (int_fires_run USB_INT_WAKEUPI l1 ltac:(done)). rewrite Hw. run_step (ret_run tt l1).
  run_step (int_fires_run USB_INT_EORSTI l1 ltac:(done)). rewrite He. cbn [when].
  next_state (udint_clear (BV EORSTI) l1) l2 E2.
  run_step (modify_run (set_DeviceState DEVICE_STATE_Default) l2).
  run_step (modify_run (set_ConfigurationNumber 0) (set_DeviceState DEVICE_STATE_Default l2)).
  remember (set_ConfigurationNumber 0 _) as l3 eqn:E3.
  next_state (udint_clear (BV SUSPI) l3) l4 E4.
  next_state (plain_clear UDIEN (BV SUSPE) l4 eq_refl) l5 E5.
  next_state (plain_set UDIEN (BV WAKEUPE) l5 eq_refl) l6 E6.
  assert (∀ n r, ep_reg l6 n r = ep_reg l n r) as Hep.
  { intros n r. unfold ep_reg. rewrite <- (sk_epregs _ _ K). by rewrite E6, E5, E4, E3, E2. }
  rewrite ConfigureEndpoint_control.
  pose proof (ConfigureEndpoint_Prv_spec 0 0 0x22 l6 ltac:(lia) eq_refl) as Hcfg.
  change (ep_memory 0x22) with 32 in Hcfg.
  assert (all_mem l6 - ep_mem l6 0 + 32 = all_mem l - ep_mem l 0 + 32) as Hm.
  { unfold all_mem, ep_mem. by rewrite !Hep. }
  rewrite Hm, (proj2 (Z.leb_le _ _) Hmem) in Hcfg.
  destruct Hcfg as (l7 & Hrun & [Crest Csel Ccfg Cen _ Cctl _ _]). run_step Hrun.
  exists l7. split; [done|]. pose proof (sr_regs _ _ Crest) as Hregs.
  assert (∀ r, v_regs (mcu l3) r = v_regs (mcu l2) r) as H3 by (intros; by rewrite E3).
  constructor.
  - rewrite (sr_state _ _ Crest), E6, E5, E4, E3. done.
  - rewrite (sr_conf _ _ Crest), E6, E5, E4, E3. done.
  - rewrite Hregs. look. rewrite H3, has_clear_other by (unfold SUSPI, EORSTI; lia). look.
    rewrite Z.land_assoc, Z.land_diag. by apply has_land_inv.
  - unfold fires. rewrite Hregs. look.
    rewrite andb_comm, has_lor_other by (unfold int_flag, WAKEUPE, SUSPI; lia).
    rewrite (has_land_inv _ SUSPE); done.
  - rewrite Hregs. look. by apply has_lor_r.
  - done.
  - split; [by rewrite Ccfg|done].
  - by rewrite Cctl.
  - intros n r Hn Hr. rewrite Ccfg by done. unfold new_cfg. by rewrite (proj2 (Z.eqb_neq n 0)), Hep.
  - rewrite (sr_sent _ _ Crest), <- (sk_sent _ _ K). by rewrite E6, E5, E4, E3, E2.
  - intros r Hr1 Hr2. rewrite Hregs, <- (Kr r Hr1). look. rewrite H3. by look.
  - rewrite (sr_txd _ _ Crest), <- (sk_txd _ _ K). by rewrite E6, E5, E4, E3, E2.
Qed.

Lemma usbcon_freeze l :
  has (v_regs (mcu l) USBCON) (BV USBE) = true →
  USB_CLK_Freeze l = Ok tt (put_reg USBCON (Z.lor (v_regs (mcu l) USBCON) (BV FRZCLK)) l).
Proof.
  intros Hon. destruct l as [v].
  unfold USB_CLK_Freeze, set_bits, mbind, M_bind, get_reg, set_reg, on_mcu, zoom.
  cbn [rd wr view_Mcu mcu set_mcu before_read after_read reg_value after_write].
  cbn in Hon. by rewrite (has_lor _ _ _ Hon).
Qed.

(** A suspended device: the controller's clock and the PLL are stopped, and
    only a wakeup is awaited.  The library treats it as not attached. *)
Record suspended (l l' : lufa hwview) : Prop := {
  su_state : USB_DeviceState l' = DEVICE_STATE_Unattached;
  su_conf : USB_Device_ConfigurationNumber l' = USB_Device_ConfigurationNumber l;
  su_frozen : has (v_regs (mcu l') USBCON) (BV FRZCLK) = true;
  su_on : has (v_regs (mcu l') USBCON) (BV USBE) = true;
  su_pll : v_regs (mcu l') PLLCSR = 0;
  su_susp : has (v_regs (mcu l') UDIEN) (BV SUSPE) = false;
  su_wake : has (v_regs (mcu l') UDIEN) (BV WAKEUPE) = true;
  su_epregs : v_epregs (mcu l') = v_epregs (mcu l);
  su_address : v_regs (mcu l') UDADDR = v_regs (mcu l) UDADDR;
}.

(** The handler of SUSPI. *)
Lemma suspend_body l1 :
  has (v_regs (mcu l1) USBCON) (BV USBE) = true →
  ∃ l2, (USB_INT_Disable USB_INT_SUSPI;; USB_INT_Enable USB_INT_WAKEUPI;; USB_CLK_Freeze;;
         when (negb (has USB_Options USB_OPT_MANUAL_PLL)) USB_PLL_Off;;
         modify (set_DeviceState DEVICE_STATE_Unattached)) l1 = Ok tt l2 ∧ suspended l1 l2 ∧
        v_regs (mcu l2) UDINT = v_regs (mcu l1) UDINT ∧
        has (v_regs (mcu l2) UDIEN) (BV EORSTE) = has (v_regs (mcu l1) UDIEN) (BV EORSTE).
Proof.
  intros Hon.
  next_state (plain_clear UDIEN (BV SUSPE) l1 eq_refl) l2 E2.
  next_state (plain_set UDIEN (BV WAKEUPE) l2 eq_refl) l3 E3.
  assert (has (v_regs (mcu l3) USBCON) (BV USBE) = true) as Hon3 by (by look).
  next_state (usbcon_freeze l3 Hon3) l4 E4.
  next_state (pllcsr_put 0 l4 : USB_PLL_Off l4 = _) l5 E5.
  exists (set_DeviceState DEVICE_STATE_Unattached l5). split; [done|].
  assert (∀ r, v_regs (mcu (set_DeviceState DEVICE_STATE_Unattached l5)) r = v_regs (mcu l5) r)
    as H5 by done.
  split; [constructor; rewrite ?H5|split; rewrite H5].
  - done.
  - by rewrite E5, E4, E3, E2.
  - look. by apply has_lor_r.
  - look. by apply has_lor.
  - by look.
  - look. rewrite has_lor_other by (unfold WAKEUPE, SUSPE; lia). by apply has_land_inv.
  - look. by apply has_lor_r.
  - by rewrite E5, E4, E3, E2.
  - by look.
  - by look.
  - look. rewrite has_lor_other, has_land_other by (unfold WAKEUPE, SUSPE, EORSTE; lia). done.
Qed.

Lemma suspend_run fuel l :
  fires USB_INT_SUSPI l = true → has (v_regs (mcu l) UDINT) (BV WAKEUPI) = false →
  fires USB_INT_EORSTI l = false → has (v_regs (mcu l) USBCON) (BV USBE) = true →
  ∃ l', USB_GEN_vect fuel l = Ok tt l' ∧ suspended l l'.
Proof.
  intros Hs Hw He Hon. unfold USB_GEN_vect.
  run_step (int_fires_run USB_INT_SOFI l ltac:(done)). run_step (sof_run l).
  pose proof (sof_keeps l) as K. pose proof (sof_regs l) as Kr.
  assert (has (v_regs (mcu (sof_state l)) UDINT) (BV WAKEUPI) = false) as Hw1.
  { unfold sof_state. destruct (fires USB_INT_SOFI l); [|done]. rewrite put_reg_eq.
    by rewrite has_clear_other by (unfold SOFI, WAKEUPI; lia). }
  rewrite <- (sof_fires USB_INT_EORSTI) in He by tauto.
  rewrite <- (sof_fires USB_INT_SUSPI) in Hs by tauto.
  rewrite <- (Kr USBCON) in Hon by done.
  remember (sof_state l) as l1 eqn:E1. clear E1.
  run_step (int_fires_run USB_INT_SUSPI l1 ltac:(done)). rewrite Hs. cbn [when].
  destruct (suspend_body l1 Hon) as (l2 & Hrun & S2 & Hint & Hen).
  run_step Hrun.
  run_step (int_fires_run USB_INT_WAKEUPI l2 ltac:(done)). unfold fires at 1.
  rewrite Hint. change (int_flag USB_INT_WAKEUPI) with WAKEUPI. rewrite Hw1. cbn [andb when].
  run_step (ret_run tt l2). run_step (int_fires_run USB_INT_EORSTI l2 ltac:(done)).
  replace (fires USB_INT_EORSTI l2) with false
    by (unfold fires in *; rewrite Hint; change (int_flag USB_INT_EORSTI) with EORSTE; by rewrite Hen).
  exists l2. split; [done|]. destruct S2. constructor; try done.
  - by rewrite su_conf0, (sk_conf _ _ K).
  - by rewrite su_epregs0, (sk_epregs _ _ K).
  - by rewrite su_address0, Kr.
Qed.

(** A device that the bus has woken: clock and PLL run, and the state follows
    from the configuration and the address. *)
Record awake (l l' : lufa hwview) : Prop := {
  aw_state : USB_DeviceState l' =
    (if negb (USB_Device_ConfigurationNumber l =? 0) then DEVICE_STATE_Configured
     else if has (v_regs (mcu l) UDADDR) (BV ADDEN) then DEVICE_STATE_Addressed
     else DEVICE_STATE_Powered);
  aw_conf : USB_Device_ConfigurationNumber l' = USB_Device_ConfigurationNumber l;
  aw_clock : has (v_regs (mcu l') USBCON) (BV FRZCLK) = false;
  aw_pll : has (v_regs (mcu l') PLLCSR) (BV PLLE) = true ∧ v_pll (mcu l') = 0%nat;
  aw_flag : has (v_regs (mcu l') UDINT) (BV WAKEUPI) = false;
  aw_wake : has (v_regs (mcu l') UDIEN) (BV WAKEUPE) = false;
  aw_susp : has (v_regs (mcu l') UDIEN) (BV SUSPE) = true;
  aw_epregs : v_epregs (mcu l') = v_epregs (mcu l);
  aw_address : v_regs (mcu l') UDADDR = v_regs (mcu l) UDADDR;
}.

Definition wake_state : M (lufa hwview) unit :=
  n ← gets USB_Device_ConfigurationNumber;
  if negb (n =? 0) then modify (set_DeviceState DEVICE_STATE_Configured)
  else
    a ← USB_Device_IsAddressSet;
    modify (set_DeviceState (if a : bool then DEVICE_STATE_Addressed else DEVICE_STATE_Powered)).

Lemma wake_state_run l :
  wake_state l =
  Ok tt (set_DeviceState
    (if negb (USB_Device_ConfigurationNumber l =? 0) then DEVICE_STATE_Configured
     else if has (v_regs (mcu l) UDADDR) (BV ADDEN) then DEVICE_STATE_Addressed
     else DEVICE_STATE_Powered) l).
Proof.
  unfold wake_state. run_step (gets_run USB_Device_ConfigurationNumber l).
  destruct (negb _); [done|]. run_step (plain_test UDADDR (BV ADDEN) l eq_refl). by destruct (has _ _).
Qed.

(** The handler of WAKEUPI. *)
Lemma wake_body fuel l1 :
  has (v_regs (mcu l1) USBCON) (BV USBE) = true → (v_pll (mcu l1) < fuel)%nat →
  ∃ l2, (when (negb (has USB_Options USB_OPT_MANUAL_PLL)) (USB_PLL_On;; wait_until fuel USB_PLL_IsReady);;
         USB_CLK_Unfreeze;; USB_INT_Clear USB_INT_WAKEUPI;; USB_INT_Disable USB_INT_WAKEUPI;;
         USB_INT_Enable USB_INT_SUSPI;; wake_state) l1 = Ok tt l2 ∧ awake l1 l2 ∧
        fires USB_INT_EORSTI l2 = fires USB_INT_EORSTI l1.
Proof.
  intros Hon Hpll. run_step (pll_start fuel l1 Hpll).
  remember (put_reg PLLCSR USB_PLL_PSC l1) as l2 eqn:E2.
  remember (put_reg PLLCSR (Z.lor USB_PLL_PSC (BV PLLE)) l2) as l3 eqn:E3.
  remember (at_pll 0 l3) as l4 eqn:E4.
  assert (∀ r, v_regs (mcu l4) r = v_regs (mcu l3) r) as H4 by (intros; by rewrite E4).
  assert (has (v_regs (mcu l4) USBCON) (BV USBE) = true) as Hon4 by (rewrite H4; by look).
  next_state (usbcon_unfreeze l4 Hon4) l5 E5.
  next_state (udint_clear (BV WAKEUPI) l5) l6 E6.
  next_state (plain_clear UDIEN (BV WAKEUPE) l6 eq_refl) l7 E7.
  next_state (plain_set UDIEN (BV SUSPE) l7 eq_refl) l8 E8.
  rewrite wake_state_run. set (s := if negb _ then _ else _).
  exists (set_DeviceState s l8). split; [done|].
  assert (∀ r, v_regs (mcu (set_DeviceState s l8)) r = v_regs (mcu l8) r) as H8 by done.
  assert (USB_Device_ConfigurationNumber l8 = USB_Device_ConfigurationNumber l1) as Hconf
    by (by rewrite E8, E7, E6, E5, E4, E3, E2).
  assert (v_regs (mcu l8) UDADDR = v_regs (mcu l1) UDADDR) as Haddr by (look; rewrite H4; by look).
  split; [constructor; rewrite ?H8|].
  - change (USB_DeviceState (set_DeviceState s l8)) with s. unfold s. by rewrite Hconf, Haddr.
  - done.
  - look. by apply has_land_inv.
  - split; [look; rewrite H4; by look|by rewrite E8, E7, E6, E5, E4].
  - look. rewrite Z.land_assoc, Z.land_diag. by apply has_land_inv.
  - look. rewrite has_lor_other by (unfold WAKEUPE, SUSPE; lia). by apply has_land_inv.
  - look. by apply has_lor_r.
  - by rewrite E8, E7, E6, E5, E4, E3, E2.
  - done.
  - unfold fires. rewrite (H8 UDINT), (H8 UDIEN). look. rewrite (H4 UDINT), (H4 UDIEN). look.
    rewrite has_clear_other, has_lor_other, has_land_other
      by (unfold int_flag, WAKEUPI, WAKEUPE, SUSPE, EORSTI; lia). done.
Qed.

Lemma wakeup_run fuel l :
  fires USB_INT_WAKEUPI l = true → fires USB_INT_SUSPI l = false →
  fires USB_INT_EORSTI l = false → has (v_regs (mcu l) USBCON) (BV USBE) = true →
  (v_pll (mcu l) < fuel)%nat →
  ∃ l', USB_GEN_vect fuel l = Ok tt l' ∧ awake l l'.
Proof.
  intros Hw Hs He Hon Hpll. unfold USB_GEN_vect.
  run_step (int_fires_run USB_INT_SOFI l ltac:(done)). run_step (sof_run l).
  pose proof (sof_keeps l) as K. pose proof (sof_regs l) as Kr.
  rewrite <- (sof_fires USB_INT_EORSTI) in He by tauto.
  rewrite <- (sof_fires USB_INT_SUSPI) in Hs by tauto.
  rewrite <- (sof_fires USB_INT_WAKEUPI) in Hw by tauto.
  rewrite <- (Kr USBCON) in Hon by done. rewrite <- (sk_pll _ _ K) in Hpll.
  remember (sof_state l) as l1 eqn:E1. clear E1.
  run_step (int_fires_run USB_INT_SUSPI l1 ltac:(done)). rewrite Hs. run_step (ret_run tt l1).
  run_step (int_fires_run USB_INT_WAKEUPI l1 ltac:(done)). rewrite Hw. cbn [when].
  destruct (wake_body fuel l1 Hon Hpll) as (l2 & Hrun & [] & Hf). unfold wake_state in Hrun.
  run_step Hrun. run_step (int_fires_run USB_INT_EORSTI l2 ltac:(done)). rewrite Hf, He.
  exists l2. split; [done|]. rewrite (sk_conf _ _ K) in *. rewrite (sk_epregs _ _ K) in *.
  rewrite Kr in * by done. by constructor.
Qed.

(** Enabling interrupts after the start-up. *)
Lemma started_sreg l l' x : started l l' → started l (put_reg SREG x l').
Proof.
  intros [H1 H2 H3 H4 H5 H6 H7 A H9 H10]. constructor; rewrite ?put_reg_ne by done; try done.
  destruct A. constructor; rewrite ?put_reg_ne by done; done.
Qed.

Lemma start_run fuel l :
  (v_pll (mcu l) < fuel)%nat →
  ∃ l', (SetupHardware fuel;; GlobalInterruptEnable) l = Ok tt l' ∧ started l l' ∧
        has (v_regs (mcu l') SREG) (BV SREG_I) = true.
Proof.
  intros Hpll. destruct (SetupHardware_run fuel l Hpll) as (l1 & Hrun & S1). run_step Hrun.
  unfold GlobalInterruptEnable. rewrite plain_set by done.
  remember (put_reg SREG _ l1) as l2 eqn:E2. exists l2. split; [done|].
  split; [rewrite E2; by apply started_sreg|]. look. by apply has_lor_r.
Qed.

(** After the start-up there is room for the endpoints of the reports. *)
Lemma started_room l l' : started l l' → ep_room l'.
Proof.
  intros [_ _ _ _ _ _ _ A _ _]. destruct (at_control _ _ A) as [Hc _].
  unfold ep_room, ep_mem. rewrite Hc, !(at_others _ _ A) by lia. vm_compute. split; discriminate.
Qed.

(** ** The interrupt handler on a microcontroller *)

Section handler.
Context {H : Type} `{!Mcu H} `{!McuSpec H} (fuel : nat).

(** C22: A bus reset brings the device to the default state without a
    configuration, clears the reset flag, waits for a wakeup instead of a
    suspend, and leaves the control endpoint empty, enabled and configured
    with 32 bytes; the other endpoints keep their configuration.  The control
    endpoint is then the selected one, whatever was selected before the
    interrupt. *)
Theorem USB_GEN_vect_reset (l : lufa H) :
  hw_ok (mcu l) → fires USB_INT_EORSTI (view l) = true → fires USB_INT_SUSPI (view l) = false →
  fires USB_INT_WAKEUPI (view l) = false →
  all_mem (view l) - ep_mem (view l) 0 + USB_Device_ControlEndpointSize ≤ 176 →
  ∃ l', USB_GEN_vect fuel l = Ok tt l' ∧ hw_ok (mcu l') ∧ bus_reset (view l) (view l').
Proof.
  intros Hok He Hs Hw Hm. destruct (bus_reset_run fuel (view l) He Hs Hw Hm) as (lv & Hrun & Hb).
  destruct (sim_Ok _ _ l tt lv (sim_USB_GEN_vect fuel) Hok Hrun) as (l' & Hl & <- & Hok').
  by exists l'.
Qed.

(** C23: When the bus is suspended, the handler stops the clock of the
    controller and the PLL, waits only for a wakeup, and the library treats
    the device as not attached, so that the main loop sends nothing; the
    configuration and the endpoints are kept. *)
Theorem USB_GEN_vect_suspend (l : lufa H) :
  hw_ok (mcu l) → fires USB_INT_SUSPI (view l) = true →
  has (v_regs (hw (mcu l)) UDINT) (BV WAKEUPI) = false → fires USB_INT_EORSTI (view l) = false →
  has (v_regs (hw (mcu l)) USBCON) (BV USBE) = true →
  ∃ l', USB_GEN_vect fuel l = Ok tt l' ∧ hw_ok (mcu l') ∧ suspended (view l) (view l').
Proof.
  intros Hok Hs Hw He Hon. destruct (suspend_run fuel (view l) Hs Hw He Hon) as (lv & Hrun & Hb).
  destruct (sim_Ok _ _ l tt lv (sim_USB_GEN_vect fuel) Hok Hrun) as (l' & Hl & <- & Hok').
  by exists l'.
Qed.

(** C24: A wakeup of the bus restarts the PLL, waits until it has locked,
    restarts the clock and awaits the next suspend; the state of the device
    is the one that its configuration and its address call for. *)
Theorem USB_GEN_vect_wakeup (l : lufa H) :
  hw_ok (mcu l) → fires USB_INT_WAKEUPI (view l) = true → fires USB_INT_SUSPI (view l) = false →
  fires USB_INT_EORSTI (view l) = false → has (v_regs (hw (mcu l)) USBCON) (BV USBE) = true →
  (v_pll (hw (mcu l)) < fuel)%nat →
  ∃ l', USB_GEN_vect fuel l = Ok tt l' ∧ hw_ok (mcu l') ∧ awake (view l) (view l').
Proof.
  intros Hok Hw Hs He Hon Hp. destruct (wakeup_run fuel (view l) Hw Hs He Hon Hp) as (lv & Hrun & Hb).
  destruct (sim_Ok _ _ l tt lv (sim_USB_GEN_vect fuel) Hok Hrun) as (l' & Hl & <- & Hok').
  by exists l'.
Qed.
End handler.

(** ** Instances *)

(** A configured device with the interrupt flags [flags], of which the bits
    [enabled] are enabled. *)
Definition demo_bus (flags enabled : Z) : lufa hwview :=
  let l := demo_lufa (demo_header 0 0 0 0) in
  set_ConfigurationNumber 1
    (set_mcu (with_reg UDINT flags (with_reg UDIEN enabled (with_reg USBCON (BV USBE)
                (with_pll 3 (mcu l))))) l).

Lemma USB_GEN_vect_reset_witness :
  ∃ l', USB_GEN_vect 10 (demo_bus (BV EORSTI) (BV EORSTI)) = Ok tt l' ∧
        bus_reset (demo_bus (BV EORSTI) (BV EORSTI)) (view l').
Proof.
  destruct (USB_GEN_vect_reset 10 (demo_bus (BV EORSTI) (BV EORSTI))) as (l' & Hrun & _ & Hb).
  - exact I.
  - vm_compute. reflexivity.
  - vm_compute. reflexivity.
  - vm_compute. reflexivity.
  - vm_compute. discriminate.
  - exists l'. split; [exact Hrun|exact Hb].
Defined.

Lemma USB_GEN_vect_suspend_witness :
  ∃ l', USB_GEN_vect 10 (demo_bus (BV SUSPI) (BV SUSPI)) = Ok tt l' ∧
        USB_DeviceState l' = DEVICE_STATE_Unattached.
Proof.
  destruct (USB_GEN_vect_suspend 10 (demo_bus (BV SUSPI) (BV SUSPI))) as (l' & Hrun & _ & Hb).
  - exact I.
  - vm_compute. reflexivity.
  - vm_compute. reflexivity.
  - vm_compute. reflexivity.
  - vm_compute. reflexivity.
  - exists l'. split; [exact Hrun|exact (su_state _ _ Hb)].
Defined.

Lemma USB_GEN_vect_wakeup_witness :
  ∃ l', USB_GEN_vect 10 (demo_bus (BV WAKEUPI) (BV WAKEUPI)) = Ok tt l' ∧
        USB_DeviceState l' = DEVICE_STATE_Configured.
Proof.
  destruct (USB_GEN_vect_wakeup 10 (demo_bus (BV WAKEUPI) (BV WAKEUPI))) as (l' & Hrun & _ & Hb).
  - exact I.
  - vm_compute. reflexivity.
  - vm_compute. reflexivity.
  - vm_compute. reflexivity.
  - vm_compute. reflexivity.
  - apply Nat.ltb_lt. vm_compute. reflexivity.
  - exists l'. split; [exact Hrun|exact (aw_state _ _ Hb)].
Defined.
