(* ===== verification/StatusFacts.v ===== *)
(** * Status, configuration and features

    The standard requests whose answer is at most two bytes, and the requests
    that set or clear a feature. *)

From S2P Require Import Prelude StdDescriptors Descriptors Hardware Lufa Board Device Endpoint.
From S2P Require Import ControlStream Requests ControlFacts EndpointFacts RequestFacts Driver.
From S2P Require Import ControllerFacts.
Import RequestFacts.Demo.

(** ** Answers of one packet *)

Section short.
Context (fuel : nat) (l : lufa hwview) (data : list Z) (want : nat).
Context (Hsel : v_uenum (mcu l) = 0) (Hstate : USB_DeviceState l ≠ DEVICE_STATE_Unattached).
Context (Hdir : has (bmRequestType (USB_ControlRequest l)) REQDIR_DEVICETOHOST = true).
Context (Hlen : (0 < length data < 32)%nat) (Hwant : (length data ≤ want)%nat).

(** The host answers the last packet with its status packet. *)
Lemma status_wait_out n c :
  sending data want (length data) false c → (host_wait c < n)%nat →
  ∃ c', status_wait n Endpoint_IsOUTReceived (at_ctl c l) = Ok true (at_ctl c' l) ∧
        sending data want (length data) false c' ∧ c_out c' = Some [].
Proof.
  assert (length data `min` want = length data)%nat as Htotal by lia.
  revert c. induction n as [|n IH]; intros c Hc Hn; [lia|]. cbn [status_wait].
  pose proof (sending_tick _ _ _ _ _ Hc) as Hc1. pose proof (wait_tick _ _ _ _ _ Hc) as Hw1.
  run_step (ctl_IsOUTReceived l Hsel c).
  destruct (bool_decide_reflect (is_Some (c_out (host_tick c)))) as [Hout|Hout].
  { exists (host_tick c). split; [done|]. split; [done|].
    destruct (sd_out _ _ _ _ _ Hc1) as [Ho|Ho]; [|done]. rewrite Ho in Hout. by destruct Hout. }
  run_step (gets_run USB_DeviceState (at_ctl (host_tick c) l)).
  rewrite decide_False by done.
  assert (c_out c = None) as Ho.
  { destruct (c_out c) as [x|] eqn:Hx; [|done]. exfalso. apply Hout. by apply (tick_out c x). }
  assert (host_wait (host_tick c) < host_wait c)%nat.
  { eapply wait_tick_lt; [done..|]. destruct (c_busy c) eqn:Hb; [by left|right].
    apply (sending_all_taken data); [by rewrite Htotal|lia|done]. }
  destruct (IH (host_tick c)) as (c' & ? & ? & ?); [done|lia|]. by exists c'.
Qed.

(** The answer is in an empty bank: it is handed over and the transfer ends. *)
Lemma reply_end c :
  sending data want 0 false c → c_busy c = false → (host_wait c + 1 < fuel)%nat →
  ∃ c', (Endpoint_ClearIN;; Endpoint_ClearStatusStage fuel) (at_ctl (push_all data c) l) =
          Ok tt (at_ctl c' l) ∧ delivered data c'.
Proof.
  intros Hs Hb Hfuel. run_step (ctl_ClearIN l Hsel (push_all data c)).
  rewrite tick_push by done. pose proof (tick_not_busy _ Hb) as Hb2.
  pose proof (sending_tick _ _ _ _ _ Hs) as Hs2. pose proof (wait_tick _ _ _ _ _ Hs) as Hw2.
  pose proof (sending_packet data want 0 false _ Hs2 Hb2) as Hp. cbv zeta in Hp.
  replace ((length data `min` want - 0) `min` 32)%nat with (length data) in Hp by lia.
  rewrite bool_decide_eq_false_2, drop_0, firstn_all in Hp by lia.
  assert (0 < length data `min` want)%nat as Hpos by lia. specialize (Hp (or_introl Hpos)).
  cbn [Nat.add] in Hp.
  set (c3 := set_busy _) in *.
  assert (host_wait c3 < fuel)%nat as Hw3.
  { unfold c3, host_wait in *. cbn in *. rewrite Hb2 in Hw2. lia. }
  clearbody c3. unfold Endpoint_ClearStatusStage.
  run_step (gets_run USB_ControlRequest (at_ctl c3 l)).
  change (USB_ControlRequest (at_ctl c3 l)) with (USB_ControlRequest l). rewrite Hdir.
  destruct (status_wait_out fuel c3 Hp Hw3) as (c4 & Hrun & Hs4 & Hout). run_step Hrun.
  rewrite ctl_ClearOUT by done. eexists. split; [done|].
  apply delivered_drop_out, delivered_tick.
  assert (h_status (c_host c4) = true) as Hst.
  { rewrite (sd_status _ _ _ _ _ Hs4), Hout. by apply bool_decide_eq_true_2. }
  pose proof (sd_done _ _ _ _ _ Hs4 Hst) as Hall.
  destruct (sending_has_all _ _ _ _ _ Hs4 Hall) as [Hd Hz]. constructor; try done.
  - by eapply sd_setup.
  - by rewrite Hd, firstn_all2.
  - by eapply sd_reading.
  - by rewrite (sd_want _ _ _ _ _ Hs4).
Qed.

(** [put] writes the answer to the bank. *)
Lemma short_reply (put : M (lufa hwview) unit) c :
  (∀ c, put (at_ctl c l) = Ok tt (at_ctl (push_all data c) l)) →
  arriving want true c → (host_wait c + 1 < fuel)%nat →
  ∃ c', (Endpoint_ClearSETUP;; put;; Endpoint_ClearIN;; Endpoint_ClearStatusStage fuel) (at_ctl c l) =
          Ok tt (at_ctl c' l) ∧ delivered data c'.
Proof.
  intros Hput Hc Hfuel. destruct (arriving_tick _ _ _ Hc) as (Hc1 & _ & Hw1).
  run_step (ctl_ClearSETUP l Hsel c).
  pose proof (arriving_sending data _ _ Hc1) as Hs. set (c1 := drop_setup (host_tick c)) in *.
  assert (host_wait c1 = host_wait (host_tick c)) as Hw by done.
  run_step (Hput c1). apply reply_end; [done|apply Hc1|lia].
Qed.
End short.

(** ** GET_CONFIGURATION *)

Lemma GetConfiguration_run fuel l want c :
  v_uenum (mcu l) = 0 → USB_DeviceState l ≠ DEVICE_STATE_Unattached →
  has (bmRequestType (USB_ControlRequest l)) REQDIR_DEVICETOHOST = true → (1 ≤ want)%nat →
  arriving want true c → (host_wait c + 1 < fuel)%nat →
  ∃ c', USB_Device_GetConfiguration fuel (at_ctl c l) = Ok tt (at_ctl c' l) ∧
        delivered [USB_Device_ConfigurationNumber l] c'.
Proof.
  intros Hsel Hst Hdir Hwant Hc Hfuel.
  destruct (short_reply fuel l [USB_Device_ConfigurationNumber l] want Hsel Hst Hdir ltac:(cbn; lia)
    ltac:(cbn; lia) (Endpoint_Write_8 (USB_Device_ConfigurationNumber l)) c) as (c' & Hrun & Hdel);
    [|done|done|].
  { intros c0. by rewrite ctl_Write_8. }
  exists c'. split; [|done]. rewrite <- Hrun. unfold USB_Device_GetConfiguration.
  run_step (ctl_ClearSETUP l Hsel c). by run_step (ctl_ClearSETUP l Hsel c).
Qed.

(** ** GET_STATUS *)

(** The status of the device or of the endpoint that the request names. *)
Definition status_value (l : lufa hwview) (q : USB_Request_Header_t) : Z :=
  if bmRequestType q =? reqtype REQDIR_DEVICETOHOST REQTYPE_STANDARD REQREC_DEVICE then
    (if USB_Device_CurrentlySelfPowered l then 1 else 0) +
    (if USB_Device_RemoteWakeupEnabled l then 2 else 0)
  else Z.b2z (has (ep_reg l (Z.land (u8 (wIndex q)) ENDPOINT_EPNUM_MASK) UECONX) (BV STALLRQ)).

Lemma has_stallrq_read x : has (ueconx_read x) (BV STALLRQ) = has x (BV STALLRQ).
Proof.
  unfold has, ueconx_read. rewrite <- Z.land_assoc.
  by change (Z.land (inv8 (Z.lor (BV STALLRQC) (BV RSTDT))) (BV STALLRQ)) with (BV STALLRQ).
Qed.

Lemma index_masked i :
  Z.land (Z.land (u8 i) ENDPOINT_EPNUM_MASK) ENDPOINT_EPNUM_MASK = Z.land (u8 i) ENDPOINT_EPNUM_MASK.
Proof. by rewrite <- Z.land_assoc. Qed.

(** Reading the stall bit of another endpoint leaves everything as it was. *)
Lemma peek_stalled l c n :
  v_uenum (mcu l) = 0 → Z.land n ENDPOINT_EPNUM_MASK = n →
  (Endpoint_SelectEndpoint n;; stalled ← Endpoint_IsStalled;
   Endpoint_SelectEndpoint ENDPOINT_CONTROLEP;; mret (Some (Z.b2z stalled))) (at_ctl c l) =
  Ok (Some (Z.b2z (has (ep_reg l n UECONX) (BV STALLRQ)))) (at_ctl c l).
Proof.
  intros Hsel Hn. run_step (select_run n (at_ctl c l)). rewrite Hn.
  assert (Endpoint_IsStalled (restore n (at_ctl c l)) =
          Ok (has (ueconx_read (ep_reg l n UECONX)) (BV STALLRQ)) (restore n (at_ctl c l))) as Hi
    by (by destruct l).
  run_step Hi. run_step (select_run ENDPOINT_CONTROLEP (restore n (at_ctl c l))).
  rewrite has_stallrq_read. unfold mret, M_ret. do 2 f_equal.
  destruct l as [v]. destruct v. cbn in Hsel. by rewrite Hsel.
Qed.

Lemma GetStatus_run fuel l q want c :
  v_uenum (mcu l) = 0 → USB_DeviceState l ≠ DEVICE_STATE_Unattached → USB_ControlRequest l = q →
  bmRequestType q = reqtype REQDIR_DEVICETOHOST REQTYPE_STANDARD REQREC_DEVICE ∨
  (bmRequestType q = reqtype REQDIR_DEVICETOHOST REQTYPE_STANDARD REQREC_ENDPOINT ∧
   Z.land (u8 (wIndex q)) ENDPOINT_EPNUM_MASK < ENDPOINT_TOTAL_ENDPOINTS) →
  (2 ≤ want)%nat → arriving want true c → (host_wait c + 1 < fuel)%nat →
  ∃ c', USB_Device_GetStatus fuel (at_ctl c l) = Ok tt (at_ctl c' l) ∧
        delivered [status_value l q; 0] c'.
Proof.
  intros Hsel Hst Hq Hrec Hwant Hc Hfuel.
  set (s := status_value l q).
  assert (s = 0 ∨ s = 1 ∨ s = 2 ∨ s = 3) as Hs.
  { unfold s, status_value. destruct (_ =? _); [|by destruct (has _ _); auto].
    destruct (USB_Device_CurrentlySelfPowered l), (USB_Device_RemoteWakeupEnabled l); auto. }
  assert (has (bmRequestType (USB_ControlRequest l)) REQDIR_DEVICETOHOST = true) as Hdir.
  { rewrite Hq. by destruct Hrec as [->|[-> _]]. }
  destruct (short_reply fuel l [s; 0] want Hsel Hst Hdir ltac:(cbn; lia) ltac:(cbn; lia)
    (Endpoint_Write_16_LE s) c) as (c' & Hrun & Hdel); [|done|done|].
  { intros c0. unfold Endpoint_Write_16_LE.
    run_step (ctl_Write_8 l Hsel c0 (Z.land s 0xFF)).
    transitivity (Endpoint_Write_8 (u8 (Z.shiftr s 8)) (at_ctl (push_bank (Z.land s 0xFF) c0) l)); [done|].
    rewrite ctl_Write_8 by done. do 2 f_equal. unfold push_bank, push_all. cbn.
    f_equal. rewrite <- app_assoc. by destruct Hs as [->|[->|[->| ->]]]. }
  exists c'. split; [|done]. rewrite <- Hrun. unfold USB_Device_GetStatus.
  run_step (gets_run USB_ControlRequest (at_ctl c l)).
  change (USB_ControlRequest (at_ctl c l)) with (USB_ControlRequest l). rewrite Hq.
  match goal with |- mbind _ ?m _ = _ => assert (m (at_ctl c l) = Ok (Some s) (at_ctl c l)) as Hval end.
  { unfold s, status_value. destruct Hrec as [Ht|[Ht Hi]]; rewrite Ht; cbn [reqtype Z.eqb].
    - destruct l as [v st cr cn [] []]; done.
    - change (reqtype REQDIR_DEVICETOHOST REQTYPE_STANDARD REQREC_ENDPOINT =?
              reqtype REQDIR_DEVICETOHOST REQTYPE_STANDARD REQREC_DEVICE) with false.
      rewrite Z.eqb_refl. cbv iota.
      rewrite Z.geb_leb, (proj2 (Z.leb_gt _ _) Hi).
      by apply peek_stalled; [|apply index_masked]. }
  by run_step Hval.
Qed.

(** ** SET_FEATURE and CLEAR_FEATURE *)

(** The end of the request: the acknowledgement. *)
Lemma feature_end fuel l want c :
  has (bmRequestType (USB_ControlRequest l)) REQDIR_DEVICETOHOST = false →
  arriving want false c → (0 < fuel)%nat →
  ∃ c', (Endpoint_SelectEndpoint ENDPOINT_CONTROLEP;; Endpoint_ClearSETUP;;
         Endpoint_ClearStatusStage fuel) (at_ctl c l) = Ok tt (at_ctl c' (at_zero l)) ∧ acked c'.
Proof.
  intros Hdir Hc Hfuel. run_step (select_run ENDPOINT_CONTROLEP (at_ctl c l)).
  change (restore (Z.land ENDPOINT_CONTROLEP ENDPOINT_EPNUM_MASK) (at_ctl c l))
    with (at_ctl c (at_zero l)).
  run_step (ctl_ClearSETUP (at_zero l) eq_refl c).
  destruct (arriving_tick _ _ _ Hc) as (Hc1 & _ & _).
  destruct (ClearStatusStage_IN fuel (at_zero l) want eq_refl Hfuel (drop_setup (host_tick c)))
    as (c' & Hrun & Hack & _); [done|done|by apply arriving_drop|]. by exists c'.
Qed.

(** The halt of endpoint [n], which is selected. *)
Definition halt_endpoint (on : bool) (n : Z) : M (lufa hwview) unit :=
  enabled ← Endpoint_IsEnabled;
  if enabled : bool then
    if on then Endpoint_StallTransaction
    else Endpoint_ClearStall;; Endpoint_ResetEndpoint n;; Endpoint_ResetDataToggle
  else mret tt.

(** Endpoint [n] is halted or not, and the rest is as before but for the banks. *)
Record halted (on : bool) (n : Z) (l l' : lufa hwview) : Prop := {
  ha_stall : has (ep_reg l' n UECONX) (BV STALLRQ) = on;
  ha_others : ∀ m r, (m, r) ≠ (n, UECONX) → ep_reg l' m r = ep_reg l m r;
  ha_sel : v_uenum (mcu l') = v_uenum (mcu l);
  ha_ctl : v_ctl (mcu l') = v_ctl (mcu l);
  ha_rest : same_rest l l';
}.

Lemma has_epen_read x : has (ueconx_read x) (BV EPEN) = has x (BV EPEN).
Proof.
  unfold has, ueconx_read. rewrite <- Z.land_assoc.
  by change (Z.land (inv8 (Z.lor (BV STALLRQC) (BV RSTDT))) (BV EPEN)) with (BV EPEN).
Qed.

Lemma unstalled_value x :
  has (ueconx_value (Z.lor (ueconx_read x) (BV STALLRQC))) (BV STALLRQ) = false.
Proof. unfold ueconx_value. rewrite has_lor_r by done. by apply has_land_inv. Qed.
Lemma toggle_value x :
  has x (BV STALLRQ) = false → has (ueconx_value (Z.lor (ueconx_read x) (BV RSTDT))) (BV STALLRQ) = false.
Proof.
  intros Hx. assert (has (Z.lor (ueconx_read x) (BV RSTDT)) (BV STALLRQ) = false) as Hs.
  { by rewrite has_lor_other, has_stallrq_read by (unfold RSTDT, STALLRQ; lia). }
  unfold ueconx_value. destruct (has _ (BV STALLRQC)); [by apply has_land|done].
Qed.

(** Resetting an endpoint empties its bank. *)
Lemma ResetEndpoint_run n l :
  ∃ l', Endpoint_ResetEndpoint n l = Ok tt l' ∧ v_epregs (mcu l') = v_epregs (mcu l) ∧
        v_uenum (mcu l') = v_uenum (mcu l) ∧ v_ctl (mcu l') = v_ctl (mcu l) ∧ same_rest l l'.
Proof.
  eexists. split; [reflexivity|]. cbn [mcu set_mcu after_write].
  change (has 0 (BV 1)) with false. change (has 0 (BV 2)) with false. cbv iota.
  split_and!; repeat case_match; try done; by constructor.
Qed.

Lemma halt_run on n l :
  v_uenum (mcu l) = n → has (ep_reg l n UECONX) (BV EPEN) = true →
  ∃ l', halt_endpoint on n l = Ok tt l' ∧ halted on n l l'.
Proof.
  intros Hsel Hen. unfold halt_endpoint.
  assert (Endpoint_IsEnabled l = Ok true l) as Hi.
  { transitivity (Ok (has (ueconx_read (ep_reg l (v_uenum (mcu l)) UECONX)) (BV EPEN)) l);
      [by destruct l|]. by rewrite has_epen_read, Hsel, Hen. }
  run_step Hi. destruct on.
  - unfold Endpoint_StallTransaction. rewrite ueconx_set, Hsel.
    eexists. split; [done|]. constructor; [|intros m r Hm|done|done|apply same_rest_put].
    + rewrite ep_reg_put, decide_True by done. apply stalled_value.
    + rewrite ep_reg_put, decide_False; [done|]. rewrite Hsel. by intros [-> <-].
  - unfold Endpoint_ClearStall. run_step (ueconx_set (BV STALLRQC) l). rewrite Hsel.
    remember (put_ep UECONX _ l) as l1 eqn:E1.
    destruct (ResetEndpoint_run n l1) as (l2 & Hrun & He & Hu & Hc & Hr). run_step Hrun.
    unfold Endpoint_ResetDataToggle. rewrite ueconx_set.
    assert (v_uenum (mcu l1) = n) as Hsel1 by (by rewrite E1).
    assert (has (ep_reg l1 n UECONX) (BV STALLRQ) = false) as Hs1.
    { rewrite E1, ep_reg_put, decide_True by done. apply unstalled_value. }
    eexists. split; [done|]. rewrite Hu, Hsel1. constructor.
    + rewrite ep_reg_put, decide_True by (by rewrite Hu). apply toggle_value.
      unfold ep_reg. by rewrite He.
    + intros m r Hm. rewrite ep_reg_put, decide_False by (rewrite Hu, Hsel1; intros [-> <-]; done).
      transitivity (ep_reg l1 m r); [unfold ep_reg; by rewrite He|].
      rewrite E1, ep_reg_put, decide_False; [done|]. rewrite Hsel. by intros [-> <-].
    + cbn. by rewrite Hu, Hsel1.
    + cbn. by rewrite Hc, E1.
    + etransitivity; [|apply same_rest_put]. etransitivity; [|exact Hr]. rewrite E1. apply same_rest_put.
Qed.

(** Whether the request sets the feature. *)
Definition sets (q : USB_Request_Header_t) : bool :=
  bRequest q =? USB_Control_Request_code REQ_SetFeature.

Lemma feature_wakeup_run fuel l q want c :
  USB_ControlRequest l = q →
  bmRequestType q = reqtype REQDIR_HOSTTODEVICE REQTYPE_STANDARD REQREC_DEVICE →
  u8 (wValue q) = FEATURE_SEL_DeviceRemoteWakeup → arriving want false c → (0 < fuel)%nat →
  ∃ c', USB_Device_ClearSetFeature fuel (at_ctl c l) =
          Ok tt (at_ctl c' (at_zero (set_RemoteWakeupEnabled (sets q) l))) ∧ acked c'.
Proof.
  intros Hq Ht Hv Hc Hfuel. unfold USB_Device_ClearSetFeature.
  run_step (gets_run USB_ControlRequest (at_ctl c l)).
  change (USB_ControlRequest (at_ctl c l)) with (USB_ControlRequest l). rewrite Hq, Ht, Hv.
  change (Z.land _ CONTROL_REQTYPE_RECIPIENT =? REQREC_DEVICE) with true. cbv iota.
  rewrite Z.eqb_refl. fold (sets q).
  assert ((modify (set_RemoteWakeupEnabled (sets q));; mret true) (at_ctl c l) =
          Ok true (at_ctl c (set_RemoteWakeupEnabled (sets q) l))) as Hm by done.
  run_step Hm. apply (feature_end fuel _ want); [|done|done].
  cbn [USB_ControlRequest set_RemoteWakeupEnabled]. by rewrite Hq, Ht.
Qed.

Lemma feature_halt_run fuel l q want c :
  USB_ControlRequest l = q →
  bmRequestType q = reqtype REQDIR_HOSTTODEVICE REQTYPE_STANDARD REQREC_ENDPOINT →
  u8 (wValue q) = FEATURE_SEL_EndpointHalt →
  let n := Z.land (u8 (wIndex q)) ENDPOINT_EPNUM_MASK in
  0 < n < ENDPOINT_TOTAL_ENDPOINTS → has (ep_reg l n UECONX) (BV EPEN) = true →
  arriving want false c → (0 < fuel)%nat →
  ∃ c' l1, USB_Device_ClearSetFeature fuel (at_ctl c l) = Ok tt (at_ctl c' (at_zero l1)) ∧ acked c' ∧
           halted (sets q) n (restore n (at_ctl c l)) l1.
Proof.
  intros Hq Ht Hv n Hn Hen Hc Hfuel. unfold USB_Device_ClearSetFeature.
  run_step (gets_run USB_ControlRequest (at_ctl c l)).
  change (USB_ControlRequest (at_ctl c l)) with (USB_ControlRequest l). rewrite Hq, Ht, Hv.
  change (Z.land _ CONTROL_REQTYPE_RECIPIENT =? REQREC_DEVICE) with false.
  change (Z.land _ CONTROL_REQTYPE_RECIPIENT =? REQREC_ENDPOINT) with true. cbv iota.
  rewrite Z.eqb_refl. fold (sets q) n.
  replace ((n =? ENDPOINT_CONTROLEP) || (n >=? ENDPOINT_TOTAL_ENDPOINTS)) with false.
  2: { symmetry. rewrite Z.geb_leb. unfold ENDPOINT_CONTROLEP.
       apply orb_false_intro; [apply Z.eqb_neq; lia|apply Z.leb_gt; lia]. }
  destruct (halt_run (sets q) n (restore n (at_ctl c l)) eq_refl Hen) as (l1 & Hrun & Hh).
  assert (at_ctl c l1 = l1) as Hl1 by (rewrite <- (at_ctl_self l1) at 2; by rewrite (ha_ctl _ _ _ _ Hh)).
  assert ((Endpoint_SelectEndpoint n;;
           enabled ← Endpoint_IsEnabled;
           (if enabled : bool then if sets q then Endpoint_StallTransaction
              else Endpoint_ClearStall;; Endpoint_ResetEndpoint n;; Endpoint_ResetDataToggle
            else mret tt);; mret true) (at_ctl c l) = Ok true (at_ctl c l1)) as Hsel.
  { run_step (select_run n (at_ctl c l)).
    rewrite (index_masked (wIndex q) : Z.land n ENDPOINT_EPNUM_MASK = n), Hl1.
    unfold halt_endpoint in Hrun. revert Hrun. unfold mbind, M_bind.
    destruct (Endpoint_IsEnabled _); [|done]. by intros ->. }
  run_step Hsel.
  destruct (feature_end fuel l1 want c) as (c' & Hend & Hack); [|done|done|].
  { rewrite (sr_request _ _ (ha_rest _ _ _ _ Hh)). cbn. by rewrite Hq, Ht. }
  by exists c', l1.
Qed.

(** Requests that are acknowledged without effect: a feature of an endpoint
    other than the halt, and the halt of an endpoint that is not enabled. *)
Record ignored (l : lufa hwview) (q : USB_Request_Header_t) : Prop := {
  ig_request : bRequest q = USB_Control_Request_code REQ_SetFeature ∨
               bRequest q = USB_Control_Request_code REQ_ClearFeature;
  ig_type : bmRequestType q = reqtype REQDIR_HOSTTODEVICE REQTYPE_STANDARD REQREC_ENDPOINT;
  ig_feature :
    let n := Z.land (u8 (wIndex q)) ENDPOINT_EPNUM_MASK in
    u8 (wValue q) = FEATURE_SEL_EndpointHalt →
    0 < n < ENDPOINT_TOTAL_ENDPOINTS ∧ has (ep_reg l n UECONX) (BV EPEN) = false;
}.

Lemma feature_ignored_run fuel l q want c :
  USB_ControlRequest l = q → ignored l q → arriving want false c → (0 < fuel)%nat →
  ∃ c', USB_Device_ClearSetFeature fuel (at_ctl c l) = Ok tt (at_ctl c' (at_zero l)) ∧ acked c'.
Proof.
  intros Hq [_ Ht Hv] Hc Hfuel. unfold USB_Device_ClearSetFeature.
  run_step (gets_run USB_ControlRequest (at_ctl c l)).
  change (USB_ControlRequest (at_ctl c l)) with (USB_ControlRequest l). rewrite Hq, Ht.
  change (Z.land _ CONTROL_REQTYPE_RECIPIENT =? REQREC_DEVICE) with false.
  change (Z.land _ CONTROL_REQTYPE_RECIPIENT =? REQREC_ENDPOINT) with true. cbv iota.
  destruct (feature_end fuel l want c) as (c' & Hend & Hack); [by rewrite Hq, Ht|done|done|].
  exists c'. split; [|done]. destruct (Z.eqb_spec (u8 (wValue q)) FEATURE_SEL_EndpointHalt) as [Hh|_].
  2: { by run_step (ret_run true (at_ctl c l)). }
  destruct (Hv Hh) as [Hn Hen]. set (n := Z.land (u8 (wIndex q)) ENDPOINT_EPNUM_MASK) in *.
  replace ((n =? ENDPOINT_CONTROLEP) || (n >=? ENDPOINT_TOTAL_ENDPOINTS)) with false.
  2: { symmetry. rewrite Z.geb_leb. unfold ENDPOINT_CONTROLEP.
       apply orb_false_intro; [apply Z.eqb_neq; lia|apply Z.leb_gt; lia]. }
  assert ((Endpoint_SelectEndpoint n;;
           enabled ← Endpoint_IsEnabled;
           (if enabled : bool then if sets q then Endpoint_StallTransaction
              else Endpoint_ClearStall;; Endpoint_ResetEndpoint n;; Endpoint_ResetDataToggle
            else mret tt);; mret true) (at_ctl c l) = Ok true (restore n (at_ctl c l))) as Hsel.
  { run_step (select_run n (at_ctl c l)).
    rewrite (index_masked (wIndex q) : Z.land n ENDPOINT_EPNUM_MASK = n).
    assert (Endpoint_IsEnabled (restore n (at_ctl c l)) = Ok false (restore n (at_ctl c l))) as Hi.
    { transitivity (Ok (has (ueconx_read (ep_reg l n UECONX)) (BV EPEN)) (restore n (at_ctl c l)));
        [by destruct l|]. by rewrite has_epen_read, Hen. }
    by run_step Hi. }
  run_step Hsel. rewrite <- Hend. by destruct l.
Qed.

(** ** SET_IDLE *)

Lemma SetIdle_run fuel l q c :
  v_uenum (mcu l) = 0 → request_wf q → is_SetIdle q = true → c_setup c = Some (header_bytes q) →
  arriving (Z.to_nat (wLength q)) (has (bmRequestType q) REQDIR_DEVICETOHOST) c → (0 < fuel)%nat →
  ∃ c', USB_Device_ProcessControlRequest fuel (at_ctl c l) =
          Ok tt (at_ctl c' (set_ControlRequest q l)) ∧ acked c'.
Proof.
  intros Hsel Hwf Hidle Hs Hc Hf. rewrite (process_header fuel l q c) by done.
  unfold is_SetIdle in Hidle. apply andb_true_iff in Hidle as [Hr Ht]. apply Z.eqb_eq in Hr, Ht.
  assert (arriving (Z.to_nat (wLength q)) false (header_read c)) as Hc'
    by (rewrite Ht in Hc; by destruct Hc; constructor).
  set (l1 := set_ControlRequest q l).
  destruct (arriving_tick _ _ _ Hc') as (Hc1 & _ & _).
  destruct (ClearStatusStage_IN fuel l1 (Z.to_nat (wLength q)) Hsel Hf (drop_setup (host_tick (header_read c))))
    as (c2 & Hrun & Hack & _); [cbn; by rewrite Ht|done|by apply arriving_drop|].
  assert (EVENT_USB_Device_ControlRequest fuel (at_ctl (header_read c) l1) = Ok tt (at_ctl c2 l1)) as Hev.
  { unfold EVENT_USB_Device_ControlRequest. run_step (gets_run USB_ControlRequest (at_ctl (header_read c) l1)).
    cbn [USB_ControlRequest at_ctl set_mcu l1 set_ControlRequest]. rewrite Hr, Ht, !Z.eqb_refl.
    by run_step (ctl_ClearSETUP l1 Hsel (header_read c)). }
  unfold process_rest. run_step Hev. run_step (ctl_IsSETUPReceived l1 Hsel c2).
  destruct (acked_tick _ Hack) as (Hack1 & _). rewrite (ak_setup _ Hack1), bool_decide_eq_false_2 by (by intros [? ?]).
  run_step (ret_run tt (at_ctl (host_tick c2) l1)). exists (host_tick (host_tick c2)).
  destruct (acked_tick _ Hack1) as (Hack2 & _). split; [|done].
  apply stall_rest_answered; [done|apply Hack2].
Qed.

(** ** On a microcontroller *)

Section reads.
Context {H : Type} `{!Mcu H} `{!McuSpec H} (fuel : nat).
Context (l : lufa H) (q : USB_Request_Header_t) (idle : nat) (delays : list nat).

(** A request that arrives while the device is attached. *)
Record asked : Prop := {
  as_ok : hw_ok (mcu l);
  as_ctl : v_ctl (hw (mcu l)) = request_ctl q idle delays;
  as_sel : 0 ≤ v_uenum (hw (mcu l)) < 16;
  as_wf : request_wf q;
  as_state : USB_DeviceState l ≠ DEVICE_STATE_Unattached;
  as_fuel : (idle + sum_list delays + 3 < fuel)%nat;
}.

(** The host has the answer, and nothing of the device but the stored request
    changed. *)
Definition answered (reply : list Z) : Prop :=
  ∃ l', USB_USBTask fuel l = Ok tt l' ∧ hw_ok (mcu l') ∧ delivered reply (v_ctl (hw (mcu l'))) ∧
        v_uenum (hw (mcu l')) = v_uenum (hw (mcu l)) ∧ v_regs (hw (mcu l')) = v_regs (hw (mcu l)) ∧
        v_epregs (hw (mcu l')) = v_epregs (hw (mcu l)) ∧
        set_ControlRequest q (set_mcu (mcu l') l) = l'.

Lemma task_delivers reply c' :
  asked → is_SetIdle q = false →
  standard_request fuel (bmRequestType q) (of_code (bRequest q))
    (at_ctl (start_ctl q idle delays) (start_view l q)) = Ok tt (at_ctl c' (start_view l q)) →
  delivered reply c' → answered reply.
Proof.
  intros [Hok Hctl Hn Hwf Hst _] Hidle Hrun Hdel.
  destruct (task_standard fuel l q idle delays Hok Hctl Hn Hwf Hst (at_ctl c' (start_view l q))
    (at_ctl (host_tick c') (start_view l q))) as (l' & Hl' & Hok' & Hv); [done|done| |].
  { apply stall_rest_answered; [done|]. rewrite tick_setup. apply Hdel. }
  exists l'. split; [done|]. split; [done|].
  apply (f_equal mcu) in Hv as Hm. cbn in Hm. rewrite Hm. cbn.
  split; [by apply delivered_tick|]. split; [done|]. split; [done|]. split; [done|].
  clear -Hv. destruct l as [h ? ? ? ? ? ?], l' as [h' ? ? ? ? ? ?].
  unfold view, set_mcu, restore, start_view, at_zero in Hv. cbn in Hv.
  by injection Hv as _ -> -> -> -> -> ->.
Qed.

(** GET_CONFIGURATION answers with the number of the current configuration
    and changes nothing. *)
Lemma GetConfiguration_answers :
  asked → bRequest q = USB_Control_Request_code REQ_GetConfiguration →
  bmRequestType q = reqtype REQDIR_DEVICETOHOST REQTYPE_STANDARD REQREC_DEVICE →
  answered [USB_Device_ConfigurationNumber l].
Proof.
  intros Ha Hreq Htype. pose proof Ha as [_ _ _ Hwf Hst Hf].
  destruct (start_arriving q idle delays Hwf) as (Har & _ & Hw). rewrite Htype in Har.
  destruct (GetConfiguration_run fuel (start_view l q) (Z.to_nat (wLength q))
    (start_ctl q idle delays)) as (c' & Hrun & Hdel); try done.
  { cbn. by rewrite Htype. }
  { assert (0 < wLength q) by (apply (wf_read q Hwf); by rewrite Htype). lia. }
  { lia. }
  apply (task_delivers _ c' Ha); [unfold is_SetIdle; by rewrite Hreq| |done].
  rewrite Hreq, Htype, <- Hrun. done.
Qed.

(** C26: GET_STATUS answers with two bytes: for the device whether it is
    self-powered and whether remote wakeup is enabled, for an endpoint whether
    it is halted; nothing changes. *)
Theorem GetStatus_answers :
  asked → bRequest q = USB_Control_Request_code REQ_GetStatus → 2 ≤ wLength q →
  bmRequestType q = reqtype REQDIR_DEVICETOHOST REQTYPE_STANDARD REQREC_DEVICE ∨
  (bmRequestType q = reqtype REQDIR_DEVICETOHOST REQTYPE_STANDARD REQREC_ENDPOINT ∧
   Z.land (u8 (wIndex q)) ENDPOINT_EPNUM_MASK < ENDPOINT_TOTAL_ENDPOINTS) →
  answered [status_value (view l) q; 0].
Proof.
  intros Ha Hreq Hlen Hrec. pose proof Ha as [_ _ _ Hwf Hst Hf].
  destruct (start_arriving q idle delays Hwf) as (Har & _ & Hw).
  assert (has (bmRequestType q) REQDIR_DEVICETOHOST = true) as Hdir by (by destruct Hrec as [->|[-> _]]).
  rewrite Hdir in Har.
  destruct (GetStatus_run fuel (start_view l q) q (Z.to_nat (wLength q)) (start_ctl q idle delays))
    as (c' & Hrun & Hdel); try done; [lia..|].
  apply (task_delivers _ c' Ha); [unfold is_SetIdle; by rewrite Hreq| |done].
  rewrite Hreq, <- Hrun. cbn [standard_request of_code]. by destruct Hrec as [->|[-> _]].
Qed.

(** The host has the acknowledgement of a request without data. *)
Definition acknowledged (l' : lufa H) : Prop :=
  USB_USBTask fuel l = Ok tt l' ∧ hw_ok (mcu l') ∧ written (v_ctl (hw (mcu l'))) = [[]] ∧
  v_uenum (hw (mcu l')) = v_uenum (hw (mcu l)).

Lemma task_acknowledged c' l1 :
  asked → is_SetIdle q = false → v_uenum (mcu l1) = 0 →
  standard_request fuel (bmRequestType q) (of_code (bRequest q))
    (at_ctl (start_ctl q idle delays) (start_view l q)) = Ok tt (at_ctl c' l1) →
  acked c' → ∃ l', acknowledged l' ∧ view l' = restore (v_uenum (hw (mcu l))) (at_ctl (host_tick c') l1).
Proof.
  intros [Hok Hctl Hn Hwf Hst _] Hidle Hsel Hrun Hack.
  destruct (task_standard fuel l q idle delays Hok Hctl Hn Hwf Hst (at_ctl c' l1)
    (at_ctl (host_tick c') l1)) as (l' & Hl' & Hok' & Hv); [done|done| |].
  { apply stall_rest_answered; [done|]. rewrite tick_setup. apply Hack. }
  exists l'. split; [|done]. split; [done|]. split; [done|].
  apply (f_equal mcu) in Hv. cbn in Hv. rewrite Hv. cbn. split; [|done].
  by apply acked_tick.
Qed.

(** SET_FEATURE and CLEAR_FEATURE of the device turn remote wakeup on and
    off, as GET_STATUS then tells, and are acknowledged. *)
Lemma SetFeature_wakeup :
  asked → bRequest q = USB_Control_Request_code REQ_SetFeature ∨
          bRequest q = USB_Control_Request_code REQ_ClearFeature →
  bmRequestType q = reqtype REQDIR_HOSTTODEVICE REQTYPE_STANDARD REQREC_DEVICE →
  u8 (wValue q) = FEATURE_SEL_DeviceRemoteWakeup →
  ∃ l', acknowledged l' ∧ USB_Device_RemoteWakeupEnabled l' = sets q ∧
        USB_DeviceState l' = USB_DeviceState l ∧ v_epregs (hw (mcu l')) = v_epregs (hw (mcu l)).
Proof.
  intros Ha Hreq Htype Hv. pose proof Ha as [_ _ _ Hwf Hst Hf].
  destruct (start_arriving q idle delays Hwf) as (Har & _ & _). rewrite Htype in Har.
  destruct (feature_wakeup_run fuel (start_view l q) q _ (start_ctl q idle delays) eq_refl Htype Hv Har)
    as (c' & Hrun & Hack); [lia|].
  destruct (task_acknowledged c' (at_zero (set_RemoteWakeupEnabled (sets q) (start_view l q))) Ha)
    as (l' & Hl & Hview); [unfold is_SetIdle; by destruct Hreq as [-> | ->]|done| |done|].
  { rewrite Htype, <- Hrun. by destruct Hreq as [-> | ->]. }
  exists l'. split; [done|]. apply (f_equal USB_Device_RemoteWakeupEnabled) in Hview as H1.
  apply (f_equal USB_DeviceState) in Hview as H2. apply (f_equal mcu) in Hview as H3.
  cbn in H1, H2, H3. split; [done|]. split; [done|]. by rewrite H3.
Qed.

(** C27: SET_FEATURE and CLEAR_FEATURE with the halt of an enabled endpoint
    other than the control endpoint set and clear its stall bit, and are
    acknowledged; the configuration of all endpoints and the stall bits of the
    others are kept. *)
Theorem SetFeature_halt :
  asked → bRequest q = USB_Control_Request_code REQ_SetFeature ∨
          bRequest q = USB_Control_Request_code REQ_ClearFeature →
  bmRequestType q = reqtype REQDIR_HOSTTODEVICE REQTYPE_STANDARD REQREC_ENDPOINT →
  u8 (wValue q) = FEATURE_SEL_EndpointHalt →
  let n := Z.land (u8 (wIndex q)) ENDPOINT_EPNUM_MASK in
  0 < n < ENDPOINT_TOTAL_ENDPOINTS → has (v_epregs (hw (mcu l)) n UECONX) (BV EPEN) = true →
  ∃ l', acknowledged l' ∧ has (v_epregs (hw (mcu l')) n UECONX) (BV STALLRQ) = sets q ∧
        (∀ m r, (m, r) ≠ (n, UECONX) → v_epregs (hw (mcu l')) m r = v_epregs (hw (mcu l)) m r) ∧
        USB_DeviceState l' = USB_DeviceState l.
Proof.
  intros Ha Hreq Htype Hv n Hn Hen. pose proof Ha as [_ _ _ Hwf Hst Hf].
  destruct (start_arriving q idle delays Hwf) as (Har & _ & _). rewrite Htype in Har.
  destruct (feature_halt_run fuel (start_view l q) q _ (start_ctl q idle delays) eq_refl Htype Hv Hn Hen
    Har) as (c' & l1 & Hrun & Hack & Hh); [lia|].
  destruct (task_acknowledged c' (at_zero l1) Ha)
    as (l' & Hl & Hview); [unfold is_SetIdle; by destruct Hreq as [-> | ->]|done| |done|].
  { rewrite Htype, <- Hrun. by destruct Hreq as [-> | ->]. }
  exists l'. split; [done|].
  apply (f_equal USB_DeviceState) in Hview as H2. apply (f_equal mcu) in Hview as H3.
  cbn in H2, H3. rewrite H3, H2. cbn. split; [apply Hh|].
  split; [intros m r Hm; by apply (ha_others _ _ _ _ Hh)|].
  by rewrite (sr_state _ _ (ha_rest _ _ _ _ Hh)).
Qed.

(** SET_IDLE, the request that the firmware answers itself: it is
    acknowledged before the standard requests see it, and nothing of the device
    but the stored request changes. *)
Lemma SetIdle_acknowledged :
  asked → is_SetIdle q = true →
  ∃ l', acknowledged l' ∧ set_ControlRequest q (set_mcu (mcu l') l) = l' ∧
        v_regs (hw (mcu l')) = v_regs (hw (mcu l)) ∧ v_epregs (hw (mcu l')) = v_epregs (hw (mcu l)) ∧
        v_sent (hw (mcu l')) = v_sent (hw (mcu l)).
Proof.
  intros [Hok Hctl Hn Hwf Hst Hf] Hidle.
  destruct (SetIdle_run fuel (at_zero (view l)) q (host_tick (request_ctl q idle delays)))
    as (c' & Hrun & Hack); [done|done|done|by rewrite tick_setup| |lia|].
  { apply arriving_tick. by apply request_arriving. }
  destruct (task_process fuel l q idle delays Hok Hctl Hn Hst _ Hrun) as (l' & Hl' & Hok' & Hv).
  exists l'. apply (f_equal mcu) in Hv as Hm. cbn in Hm. unfold acknowledged. rewrite Hm. cbn.
  split_and!; try done; [apply Hack|].
  clear -Hv. destruct l as [h ? ? ? ? ? ?], l' as [h' ? ? ? ? ? ?].
  unfold view, set_mcu, restore, at_zero in Hv. cbn in Hv. by injection Hv as _ -> -> -> -> -> ->.
Qed.
(** SET_FEATURE and CLEAR_FEATURE that are ignored. *)
Lemma feature_ignored :
  asked → ignored (view l) q →
  ∃ l', acknowledged l' ∧ set_ControlRequest q (set_mcu (mcu l') l) = l' ∧
        v_regs (hw (mcu l')) = v_regs (hw (mcu l)) ∧ v_epregs (hw (mcu l')) = v_epregs (hw (mcu l)) ∧
        v_sent (hw (mcu l')) = v_sent (hw (mcu l)).
Proof.
  intros Ha Hig. pose proof Ha as [_ _ _ Hwf Hst Hf]. pose proof Hig as [Hreq Htype Hv].
  destruct (start_arriving q idle delays Hwf) as (Har & _ & _). rewrite Htype in Har.
  destruct (feature_ignored_run fuel (start_view l q) q (Z.to_nat (wLength q)) (start_ctl q idle delays) eq_refl)
    as (c' & Hrun & Hack); [by split|done|lia|].
  destruct (task_acknowledged c' (at_zero (start_view l q)) Ha)
    as (l' & Hl & Hview); [unfold is_SetIdle; by destruct Hreq as [-> | ->]|done| |done|].
  { rewrite Htype, <- Hrun. by destruct Hreq as [-> | ->]. }
  exists l'. apply (f_equal mcu) in Hview as Hm. cbn in Hm. rewrite Hm. split; [done|]. cbn.
  split_and!; try done. clear -Hview. destruct l as [h ? ? ? ? ? ?], l' as [h' ? ? ? ? ? ?].
  unfold view, set_mcu, restore, start_view, at_zero in Hview. cbn in Hview. by injection Hview as _ -> -> -> -> -> ->.
Qed.

(** C21: What becomes of requests that the device cannot serve.  The requests
    of [refused] (an unknown code, direction or recipient, a descriptor that
    does not exist, a configuration above 1, an unknown feature of the device,
    a status or halt of an endpoint that the controller does not have, the halt
    of the control endpoint) receive no data and no acknowledgement: the
    control endpoint stalls.  An unknown feature of an endpoint, and the halt
    of an endpoint that is not enabled, are acknowledged instead, without any
    effect.  In both cases nothing of the device but the stored request and the
    stall changes. *)
Theorem unsupported_requests :
  asked →
  (refused q = true →
   ∃ l', USB_USBTask fuel l = Ok tt l' ∧ hw_ok (mcu l') ∧
         c_setup (v_ctl (hw (mcu l'))) = None ∧ written (v_ctl (hw (mcu l'))) = [] ∧
         has (v_epregs (hw (mcu l')) 0 UECONX) (BV STALLRQ) = true ∧
         v_uenum (hw (mcu l')) = v_uenum (hw (mcu l)) ∧ v_regs (hw (mcu l')) = v_regs (hw (mcu l)) ∧
         set_ControlRequest q (set_mcu (mcu l') l) = l') ∧
  (ignored (view l) q →
   ∃ l', acknowledged l' ∧ set_ControlRequest q (set_mcu (mcu l') l) = l' ∧
         v_regs (hw (mcu l')) = v_regs (hw (mcu l)) ∧ v_epregs (hw (mcu l')) = v_epregs (hw (mcu l)) ∧
         v_sent (hw (mcu l')) = v_sent (hw (mcu l))).
Proof.
  intros Ha. split; [|by apply feature_ignored]. intros Href. destruct Ha as [Hok Hctl Hn Hwf Hst _].
  by apply (unsupported_request_stalls fuel l q idle delays).
Qed.
End reads.

(** ** Instances *)

Lemma demo_asked q :
  request_wf q → asked 200 (demo_lufa q) q 3 [2; 0; 5]%nat.
Proof. intros Hq. constructor; [exact I|done|cbn; lia|done|done|cbn; lia]. Qed.

Lemma GetStatus_answers_witness :
  let q := demo_header 0x82 0 0 2 in
  answered 200 (demo_lufa q) q [status_value (view (demo_lufa q)) q; 0] ∧
  status_value (view (demo_lufa q)) q = 0.
Proof.
  split; [|vm_compute; reflexivity].
  apply (GetStatus_answers 200 (demo_lufa (demo_header 0x82 0 0 2)) (demo_header 0x82 0 0 2) 3
    [2; 0; 5]%nat).
  - apply demo_asked. demo_wf.
  - reflexivity.
  - cbn. lia.
  - right. split; vm_compute; reflexivity.
Defined.

(** The endpoint 1 of a device is halted. *)
Definition demo_halt : USB_Request_Header_t :=
  {| bmRequestType := 2; bRequest := 3; wValue := 0; wIndex := 0x81; wLength := 0 |}.
Definition demo_enabled : lufa hwview :=
  let l := demo_lufa demo_halt in set_mcu (with_epreg 1 UECONX (BV EPEN) (mcu l)) l.

Lemma SetFeature_halt_witness :
  ∃ l', USB_USBTask 200 demo_enabled = Ok tt l' ∧ has (v_epregs (mcu l') 1 UECONX) (BV STALLRQ) = true.
Proof.
  destruct (SetFeature_halt 200 demo_enabled demo_halt 3 [2; 0; 5]%nat) as (l' & [Hrun _] & Hs & _).
  - constructor; [exact I|done|cbn; lia| |done|cbn; lia]. demo_wf.
  - left. reflexivity.
  - reflexivity.
  - reflexivity.
  - vm_compute. split; reflexivity.
  - reflexivity.
  - exists l'. split; [exact Hrun|exact Hs].
Defined.

(** An unknown feature of endpoint 1. *)
Definition demo_unknown : USB_Request_Header_t :=
  {| bmRequestType := 2; bRequest := 3; wValue := 9; wIndex := 0x81; wLength := 0 |}.

Lemma unsupported_requests_witness :
  (∃ l', USB_USBTask 200 (demo_lufa (demo_header 0x80 7 0x0100 18)) = Ok tt l' ∧
         has (v_epregs (mcu l') 0 UECONX) (BV STALLRQ) = true) ∧
  (∃ l', USB_USBTask 200 (demo_lufa demo_unknown) = Ok tt l' ∧ written (v_ctl (mcu l')) = [[]]).
Proof.
  split.
  - destruct (unsupported_requests 200 (demo_lufa (demo_header 0x80 7 0x0100 18)) (demo_header 0x80 7 0x0100 18) 3
      [2; 0; 5]%nat) as [Hstall _]; [apply demo_asked; demo_wf|].
    destruct Hstall as (l' & Hrun & _ & _ & _ & Hs & _); [vm_compute; reflexivity|].
    exists l'. split; [exact Hrun|exact Hs].
  - destruct (unsupported_requests 200 (demo_lufa demo_unknown) demo_unknown 3 [2; 0; 5]%nat) as [_ Hack];
      [apply demo_asked; demo_wf|].
    destruct Hack as (l' & (Hrun & _ & Hw & _) & _); [split; [left; reflexivity|reflexivity|discriminate]|].
    exists l'. split; [exact Hrun|exact Hw].
Defined.
