(* ===== verification/ClassFacts.v ===== *)
(** * What the class drivers rely on

    Runs of the library inside a class driver, and the class requests that the
    drivers answer: with an acknowledgement, with a few bytes, or after the
    host has sent the data of the request. *)

From S2P Require Import Prelude StdDescriptors Hardware Lufa Device Endpoint ControlStream Requests Streams.
From S2P Require Import ControlFacts EndpointFacts RequestFacts ControlWrite Driver StatusFacts ClassDriver.

(** A run of the library on the view is a run inside the driver. *)
Lemma on_lib_run {H I A B} `{!Mcu H} `{!McuSpec H} (m : M (lufa H) B) m' (s : driver H I A) b lv :
  sim m m' → hw_ok (mcu (lib s)) → m' (view (lib s)) = Ok b lv →
  ∃ l', on_lib m s = Ok b (set_lib l' s) ∧ view l' = lv ∧ hw_ok (mcu l').
Proof.
  intros Hsim Hok Hm. destruct (sim_Ok _ _ _ _ _ Hsim Hok Hm) as (l' & Hl & Hv & Hok').
  exists l'. unfold on_lib, zoom. by rewrite Hl.
Qed.

Lemma on_app_run {H I A B} (m : M A B) (s : driver H I A) b a :
  m (app s) = Ok b a → on_app m s = Ok b (Build_driver (lib s) (info s) a).
Proof. intros Hm. unfold on_app, zoom. by rewrite Hm. Qed.

Lemma request_run {H I A} (s : driver H I A) :
  on_lib (gets USB_ControlRequest) s = Ok (USB_ControlRequest (lib s)) s.
Proof. by destruct s. Qed.

(** The cases of the [switch] with a closed request. *)
Ltac switch_case :=
  cbv zeta;
  repeat match goal with |- context [?a =? ?b] =>
    let v := eval vm_compute in (a =? b) in
    match v with true => change (a =? b) with true | false => change (a =? b) with false end; cbv iota
  end; cbn [when].

(** ** A class request whose header was read *)

Section requests.
Context {H : Type} `{!Mcu H} `{!McuSpec H} (fuel : nat).

Record pending (q : USB_Request_Header_t) (l : lufa H) : Prop := {
  pd_ok : hw_ok (mcu l);
  pd_request : USB_ControlRequest l = q;
  pd_wf : request_wf q;
  pd_state : USB_DeviceState l ≠ DEVICE_STATE_Unattached;
  pd_sel : v_uenum (hw (mcu l)) = 0;
  pd_setup : c_setup (v_ctl (hw (mcu l))) = Some [];
  pd_arriving : arriving (Z.to_nat (wLength q)) (has (bmRequestType q) REQDIR_DEVICETOHOST)
    (v_ctl (hw (mcu l)));
  pd_fuel : (host_wait (v_ctl (hw (mcu l))) + 2 < fuel)%nat;
}.

(** A control write: the host will send [packets], as many bytes as the request says. *)
Record pending_data (q : USB_Request_Header_t) (packets : list (list Z)) (l : lufa H) : Prop := {
  pw_ok : hw_ok (mcu l);
  pw_request : USB_ControlRequest l = q;
  pw_wf : request_wf q;
  pw_state : USB_DeviceState l ≠ DEVICE_STATE_Unattached ∧ USB_DeviceState l ≠ DEVICE_STATE_Suspended;
  pw_sel : v_uenum (hw (mcu l)) = 0;
  pw_setup : c_setup (v_ctl (hw (mcu l))) = Some [];
  pw_out : c_out (v_ctl (hw (mcu l))) = None;
  pw_packets : h_data (c_host (v_ctl (hw (mcu l)))) = packets;
  pw_data : receiving (concat packets) (drop_setup (v_ctl (hw (mcu l))));
  pw_length : wLength q = Z.of_nat (length (concat packets));
  pw_fuel : (32 < fuel)%nat ∧ (send_wait (v_ctl (hw (mcu l))) < fuel)%nat;
}.

(** The host waits until the SETUP packet is acknowledged. *)
Lemma receiving_setup_tick data c s :
  receiving data (drop_setup c) → c_setup c = Some s → c_out c = None →
  receiving data (drop_setup (host_tick c)) ∧ c_setup (host_tick c) = Some s ∧
  c_out (host_tick c) = None ∧ h_data (c_host (host_tick c)) = h_data (c_host c) ∧
  (send_wait (host_tick c) ≤ send_wait c)%nat.
Proof.
  destruct c as [s0 k b t o [n ds r w st d]]. intros [_ Hk Hb Ht Hr Hst Hd Hp] Hs Ho; cbn in *. subst.
  unfold host_tick, data_ready, send_wait. cbn.
  destruct n; cbn; [|split_and!; [by constructor|done|done|done|lia]].
  destruct d; (split_and!; [by constructor|done|done|done|cbn; lia]).
Qed.

(** The first test of every handler. *)
Lemma IsSETUPReceived_pending {I A} q (s : driver H I A) :
  pending q (lib s) →
  ∃ l', on_lib Endpoint_IsSETUPReceived s = Ok true (set_lib l' s) ∧ pending q l' ∧
        v_sent (hw (mcu l')) = v_sent (hw (mcu (lib s))).
Proof.
  intros [Hok Hq Hwf Hst Hsel Hset Har Hf].
  destruct (arriving_tick _ _ _ Har) as (Har1 & Hset1 & Hw1).
  destruct (on_lib_run Endpoint_IsSETUPReceived Endpoint_IsSETUPReceived s true
    (at_ctl (host_tick (v_ctl (hw (mcu (lib s))))) (view (lib s)))) as (l' & Hrun & Hv & Hok');
    [solve_sim|done| |].
  { rewrite <- (at_ctl_self (view (lib s))) at 1.
    rewrite (ctl_IsSETUPReceived (view (lib s)) Hsel). cbn [view mcu set_mcu].
    rewrite Hset1, Hset, bool_decide_eq_true_2 by (by eexists). done. }
  exists l'. split; [done|]. apply (f_equal mcu) in Hv as Hm. cbn in Hm.
  apply (f_equal USB_ControlRequest) in Hv as Hq1. apply (f_equal USB_DeviceState) in Hv as Hs1.
  cbn in Hq1, Hs1. split; [|by rewrite Hm].
  split; rewrite ?Hm, ?Hq1, ?Hs1; try done; cbn; [by rewrite Hset1|lia].
Qed.

Lemma IsSETUPReceived_data {I A} q packets (s : driver H I A) :
  pending_data q packets (lib s) →
  ∃ l', on_lib Endpoint_IsSETUPReceived s = Ok true (set_lib l' s) ∧ pending_data q packets l'.
Proof.
  intros [Hok Hq Hwf Hst Hsel Hset Hout Hpk Hrv Hlen [Hf1 Hf2]].
  destruct (receiving_setup_tick _ _ _ Hrv Hset Hout) as (Hrv1 & Hset1 & Hout1 & Hpk1 & Hw1).
  destruct (on_lib_run Endpoint_IsSETUPReceived Endpoint_IsSETUPReceived s true
    (at_ctl (host_tick (v_ctl (hw (mcu (lib s))))) (view (lib s)))) as (l' & Hrun & Hv & Hok');
    [solve_sim|done| |].
  { rewrite <- (at_ctl_self (view (lib s))) at 1.
    rewrite (ctl_IsSETUPReceived (view (lib s)) Hsel). cbn [view mcu set_mcu].
    rewrite Hset1, bool_decide_eq_true_2 by (by eexists). done. }
  exists l'. split; [done|]. apply (f_equal mcu) in Hv as Hm. cbn in Hm.
  apply (f_equal USB_ControlRequest) in Hv as Hq1. apply (f_equal USB_DeviceState) in Hv as Hs1.
  cbn in Hq1, Hs1. split; rewrite ?Hm, ?Hq1, ?Hs1; try done; cbn; [by rewrite Hpk1|lia].
Qed.

(** ** Answers *)

(** An acknowledgement. *)
Lemma ack_view (l : lufa hwview) want c :
  v_uenum (mcu l) = 0 → has (bmRequestType (USB_ControlRequest l)) REQDIR_DEVICETOHOST = false →
  arriving want false c → (0 < fuel)%nat →
  ∃ c', (Endpoint_ClearSETUP;; Endpoint_ClearStatusStage fuel) (at_ctl c l) = Ok tt (at_ctl c' l) ∧
        acked c'.
Proof.
  intros Hsel Hdir Hc Hf. run_step (ctl_ClearSETUP l Hsel c).
  destruct (arriving_tick _ _ _ Hc) as (Hc1 & _ & _).
  destruct (ClearStatusStage_IN fuel l want Hsel Hf (drop_setup (host_tick c)))
    as (c' & Hrun & Hack & _); [done|done|by apply arriving_drop|]. by exists c'.
Qed.

Lemma sim_ack :
  sim (H := H) (Endpoint_ClearSETUP;; Endpoint_ClearStatusStage fuel)
    (Endpoint_ClearSETUP;; Endpoint_ClearStatusStage fuel).
Proof. solve_sim. Qed.

Lemma ack_run {I A} q (s : driver H I A) :
  pending q (lib s) → has (bmRequestType q) REQDIR_DEVICETOHOST = false →
  ∃ l', on_lib (Endpoint_ClearSETUP;; Endpoint_ClearStatusStage fuel) s = Ok tt (set_lib l' s) ∧
        acked (v_ctl (hw (mcu l'))) ∧ v_sent (hw (mcu l')) = v_sent (hw (mcu (lib s))).
Proof.
  intros [Hok Hq Hwf Hst Hsel Hset Har Hf] Hdir. rewrite Hdir in Har.
  destruct (ack_view (view (lib s)) _ (v_ctl (hw (mcu (lib s)))) Hsel ltac:(cbn; by rewrite Hq) Har ltac:(lia))
    as (c' & Hrun & Hack).
  change (v_ctl (hw (mcu (lib s)))) with (v_ctl (mcu (view (lib s)))) in Hrun. rewrite at_ctl_self in Hrun.
  destruct (on_lib_run _ _ s _ _ sim_ack Hok Hrun) as (l2 & Hrun2 & Hv2 & _).
  exists l2. apply (f_equal mcu) in Hv2. cbn in Hv2. by rewrite Hrun2, Hv2.
Qed.

(** An answer of a few bytes, when [ready] has found the bank free. *)
Lemma waited_reply (l : lufa hwview) {B} (ready : M (lufa hwview) B) (r : B) (put : M (lufa hwview) unit) data want c :
  v_uenum (mcu l) = 0 → USB_DeviceState l ≠ DEVICE_STATE_Unattached →
  has (bmRequestType (USB_ControlRequest l)) REQDIR_DEVICETOHOST = true →
  (0 < length data < 32)%nat → (length data ≤ want)%nat →
  (∀ c, c_busy (host_tick c) = false → ready (at_ctl c l) = Ok r (at_ctl (host_tick c) l)) →
  (∀ c, put (at_ctl c l) = Ok tt (at_ctl (push_all data c) l)) →
  arriving want true c → (host_wait c + 1 < fuel)%nat →
  ∃ c', (Endpoint_ClearSETUP;; ready;; put;; Endpoint_ClearIN;; Endpoint_ClearStatusStage fuel) (at_ctl c l) =
          Ok tt (at_ctl c' l) ∧ delivered data c'.
Proof.
  intros Hsel Hst Hdir Hlen Hwant Hready Hput Hc Hf. run_step (ctl_ClearSETUP l Hsel c).
  destruct (arriving_tick _ _ _ Hc) as (Hc1 & _ & Hw1).
  pose proof (arriving_sending data _ _ Hc1) as Hs. set (c1 := drop_setup (host_tick c)) in *.
  assert (c_busy c1 = false) as Hb1 by apply Hc1.
  assert (host_wait c1 = host_wait (host_tick c)) as Hw by done.
  pose proof (wait_tick _ _ _ _ _ Hs) as Hw2. pose proof (tick_not_busy _ Hb1) as Hb2.
  run_step (Hready c1 Hb2). run_step (Hput (host_tick c1)).
  apply (reply_end fuel l data want); try done; [by apply sending_tick|lia].
Qed.

Lemma wait_ready_free (l : lufa hwview) c :
  v_uenum (mcu l) = 0 → (0 < fuel)%nat → c_busy (host_tick c) = false →
  wait_until fuel Endpoint_IsINReady (at_ctl c l) = Ok tt (at_ctl (host_tick c) l).
Proof.
  intros Hsel Hf Hb. destruct fuel as [|n] eqn:Hn; [lia|]. apply wait_until_ready.
  rewrite ctl_IsINReady by done. by rewrite Hb.
Qed.

Lemma status_wait_free (l : lufa hwview) c :
  v_uenum (mcu l) = 0 → (0 < fuel)%nat → c_busy (host_tick c) = false →
  status_wait fuel Endpoint_IsINReady (at_ctl c l) = Ok true (at_ctl (host_tick c) l).
Proof.
  intros Hsel Hf Hb. destruct fuel as [|n] eqn:Hn; [lia|]. cbn [status_wait].
  run_step (ctl_IsINReady l Hsel c). by rewrite Hb.
Qed.

Lemma reply_run {I A} q (s : driver H I A) {B} (ready : M (lufa H) B) ready' r put put' data :
  pending q (lib s) → has (bmRequestType q) REQDIR_DEVICETOHOST = true →
  (0 < length data < 32)%nat → Z.of_nat (length data) ≤ wLength q →
  sim ready ready' → sim put put' →
  (∀ l c, v_uenum (mcu l) = 0 → c_busy (host_tick c) = false →
    ready' (at_ctl c l) = Ok r (at_ctl (host_tick c) l)) →
  (∀ l c, v_uenum (mcu l) = 0 → put' (at_ctl c l) = Ok tt (at_ctl (push_all data c) l)) →
  ∃ l', on_lib (Endpoint_ClearSETUP;; ready;; put;; Endpoint_ClearIN;; Endpoint_ClearStatusStage fuel) s =
          Ok tt (set_lib l' s) ∧
        delivered data (v_ctl (hw (mcu l'))) ∧ v_sent (hw (mcu l')) = v_sent (hw (mcu (lib s))).
Proof.
  intros [Hok Hq Hwf Hst Hsel Hset Har Hf] Hdir Hlen Hwant Hs1 Hs2 Hready Hput. rewrite Hdir in Har.
  destruct (waited_reply (view (lib s)) ready' r put' data (Z.to_nat (wLength q)) (v_ctl (hw (mcu (lib s)))))
    as (c' & Hrun & Hd);
    [done|done|cbn; by rewrite Hq|done|lia|intros; by apply Hready|intros; by apply Hput|done|lia|].
  change (v_ctl (hw (mcu (lib s)))) with (v_ctl (mcu (view (lib s)))) in Hrun. rewrite at_ctl_self in Hrun.
  destruct (on_lib_run (Endpoint_ClearSETUP;; ready;; put;; Endpoint_ClearIN;; Endpoint_ClearStatusStage fuel)
    (Endpoint_ClearSETUP;; ready';; put';; Endpoint_ClearIN;; Endpoint_ClearStatusStage fuel) s _ _
    ltac:(solve_sim; done) Hok Hrun) as (l2 & Hrun2 & Hv2 & _).
  exists l2. apply (f_equal mcu) in Hv2. cbn in Hv2. by rewrite Hrun2, Hv2.
Qed.

(** ** The data of a control write *)

(** [read] takes the data of the request: then the host waits for the status stage. *)
Definition takes_data {B} (read : M (lufa hwview) B) (data : list Z) (r : B) : Prop :=
  ∀ l c, v_uenum (mcu l) = 0 → USB_DeviceState l ≠ DEVICE_STATE_Unattached →
    USB_DeviceState l ≠ DEVICE_STATE_Suspended → receiving data c → (send_wait c < fuel)%nat →
    ∃ c', read (at_ctl c l) = Ok r (at_ctl c' l) ∧ c_setup c' = None ∧ arriving (h_want (c_host c)) false c'.

Lemma read_stream_takes Buffer data :
  (32 < fuel)%nat → length Buffer = length data →
  takes_data (Endpoint_Read_Control_Stream_LE fuel Buffer (Z.of_nat (length data))) data
    (data, ENDPOINT_RWCSTREAM_NoError).
Proof.
  intros Hf Hlen l c Hsel Hst1 Hst2 Hc Hw.
  by apply (read_control_stream_view fuel l Hsel (conj Hst1 Hst2) byte_put byte_put_next).
Qed.
(** An empty IN packet ends a control write. *)
Lemma ClearIN_acks (l : lufa hwview) want c :
  v_uenum (mcu l) = 0 → c_setup c = None → arriving want false c →
  ∃ c', Endpoint_ClearIN (at_ctl c l) = Ok tt (at_ctl c' l) ∧ acked c'.
Proof.
  intros Hsel Hs Hc. destruct (arriving_tick _ _ _ Hc) as (Hc1 & Hs1 & _).
  exists (set_busy (host_tick c)). rewrite ctl_ClearIN by done. split; [done|].
  destruct Hc1 as [Hb _ Ht Ho Hr _ _ Hd _]. constructor; cbn; try done; [by rewrite Hs1|].
  unfold written. cbn. by rewrite Ht, Hb.
Qed.

Lemma data_run {I A} q packets (s : driver H I A) {B} (read : M (lufa H) B) read' r :
  pending_data q packets (lib s) → sim read read' → takes_data read' (concat packets) r →
  ∃ l', on_lib (Endpoint_ClearSETUP;; r ← read; Endpoint_ClearIN;; mret r) s = Ok r (set_lib l' s) ∧
        hw_ok (mcu l') ∧ acked (v_ctl (hw (mcu l'))) ∧ v_sent (hw (mcu l')) = v_sent (hw (mcu (lib s))).
Proof.
  intros [Hok Hq Hwf [Hst1 Hst2] Hsel Hset Hout Hpk Hrv Hlen [Hf1 Hf2]] Hsim Htake.
  set (l := lib s) in *. set (c := v_ctl (hw (mcu l))) in *.
  destruct (receiving_setup_tick _ _ _ Hrv Hset Hout) as (Hrv1 & _ & _ & _ & Hw1).
  assert (send_wait (drop_setup (host_tick c)) = send_wait (host_tick c)) as Hw by done.
  destruct (Htake (view l) _ Hsel Hst1 Hst2 Hrv1 ltac:(lia)) as (c1 & Hread & Hs1 & Ha1).
  destruct (ClearIN_acks (view l) _ c1 Hsel Hs1 Ha1) as (c2 & Hclear & Hack).
  assert ((Endpoint_ClearSETUP;; r ← read'; Endpoint_ClearIN;; mret r) (view l) =
          Ok r (at_ctl c2 (view l))) as Hrun.
  { rewrite <- (at_ctl_self (view l)) at 1. change (v_ctl (mcu (view l))) with c.
    run_step (ctl_ClearSETUP (view l) Hsel c). run_step Hread. by run_step Hclear. }
  destruct (on_lib_run (Endpoint_ClearSETUP;; r ← read; Endpoint_ClearIN;; mret r)
    (Endpoint_ClearSETUP;; r ← read'; Endpoint_ClearIN;; mret r) s _ _ ltac:(solve_sim; done) Hok Hrun)
    as (l2 & Hrun2 & Hv2 & Hok2).
  exists l2. split; [done|]. split; [done|]. apply (f_equal mcu) in Hv2. cbn in Hv2. by rewrite Hv2.
Qed.
End requests.
