(* ===== verification/HIDClassFacts.v ===== *)
(** * The HID class driver: what it sends and what it answers

    The driver of [HIDClassDevice] on every microcontroller that behaves as
    documented, with its IN endpoint at number 1. *)

From S2P Require Import Prelude StdDescriptors Hardware Lufa Device Endpoint ControlStream Requests Streams.
From S2P Require Import ControlFacts EndpointFacts RequestFacts Driver ControlWrite StatusFacts ClassDriver ClassFacts HIDClassDevice.

Section facts.
Context {H A : Type} `{!Mcu H} `{!McuSpec H} (fuel : nat) (junk : Z).
Context (CreateHIDReport : USB_ClassInfo_HID_Device_t → Z → Z → list Z → M A (bool * Z * list Z * Z)).
Context (ProcessHIDReport : USB_ClassInfo_HID_Device_t → Z → Z → list Z → Z → M A unit).
Abbreviation task := (HID_Device_USBTask fuel CreateHIDReport).
Abbreviation process := (HID_Device_ProcessControlRequest fuel junk CreateHIDReport ProcessHIDReport).

(** ** The report task *)

(** The packet of a report. *)
Definition report_packet (ReportID : Z) (data : list Z) (size : Z) : list Z :=
  (if ReportID =? 0 then [] else [ReportID]) ++ take (Z.to_nat size) data.

Lemma sim_send_report Address id data size :
  sim (H := H) (send_report fuel Address id data size) (send_report fuel Address id data size).
Proof. solve_sim. Qed.

Lemma send_report_view (l : lufa hwview) Address id data size :
  Z.land Address ENDPOINT_EPNUM_MASK = 1 → v_in (mcu l) = Some [] →
  has (v_epregs (mcu l) 1 UECFG0X) (BV EPDIR) = true → (64 < fuel)%nat →
  0 ≤ size ≤ Z.of_nat (length data) → (length (report_packet id data size) ≤ 64)%nat →
  ∃ c f, send_report fuel Address id data size l =
    Ok tt (set_mcu (with_in None (v_sent (mcu l) ++ [report_packet id data size])
             (with_ctl c (with_frames f (with_uenum 1 (mcu l))))) l).
Proof.
  intros Ha Hin Hdir Hf Hsize Hlen. unfold send_report.
  run_step (select_run Address l). rewrite Ha.
  set (pre := if id =? 0 then [] else [id]) in *.
  assert (length pre + Z.to_nat size ≤ 64)%nat as Hroom.
  { revert Hlen. unfold report_packet. fold pre. rewrite length_app, length_take. lia. }
  assert (when (negb (id =? 0)) (Endpoint_Write_8 id) (restore 1 l) =
          Ok tt (in_bank (restore 1 l) (v_ctl (mcu l)) pre)) as Hid.
  { unfold pre, when. destruct (id =? 0); cbn [negb].
    - exact (f_equal (Ok tt) (eq_sym (in_bank_self (restore 1 l) [] Hin))).
    - rewrite (Write_8_in (restore 1 l) eq_refl [] id) by (done || cbn; lia). done. }
  run_step Hid.
  destruct (write_stream_view fuel (in_bank (restore 1 l) (v_ctl (mcu l)) pre) pre data
    (Z.to_nat size)) as (c & Hrun); [done|lia|done|done|done|done|].
  rewrite Z2Nat.id in Hrun by lia. run_step Hrun.
  match goal with |- context [Endpoint_ClearIN ?l1] =>
    rewrite (ClearIN_view l1 eq_refl (report_packet id data size)) by done end.
  eexists _, _. reflexivity.
Qed.

(** What the driver decides from: the buffers have the size that the structure
    says, and the endpoint is the IN endpoint 1, ready to take a report. *)
Record hid_ready (s : hid H A) : Prop := {
  hr_ok : hw_ok (mcu (lib s));
  hr_state : USB_DeviceState (lib s) = DEVICE_STATE_Configured;
  hr_address : Z.land (et_Address (ReportINEndpoint (info s))) ENDPOINT_EPNUM_MASK = 1;
  hr_dir : has (v_epregs (hw (mcu (lib s))) 1 UECFG0X) (BV EPDIR) = true;
  hr_prev p : PrevReportINBuffer (info s) = Some p →
    length p = Z.to_nat (PrevReportINBufferSize (info s));
  hr_fuel : (64 < fuel)%nat;
}.

(** The report differs from the last one. *)
Definition report_changed (i : USB_ClassInfo_HID_Device_t) (data : list Z) (size : Z) : bool :=
  match PrevReportINBuffer i with
  | Some p => negb (bool_decide (take (Z.to_nat size) data = take (Z.to_nat size) p))
  | None => false
  end.
Definition idle_elapsed (i : USB_ClassInfo_HID_Device_t) : bool :=
  negb (IdleCount i =? 0) && (IdleMSRemaining i =? 0).
Definition report_due (i : USB_ClassInfo_HID_Device_t) (force : bool) (data : list Z) (size : Z) : bool :=
  negb (size =? 0) && (force || report_changed i data size || idle_elapsed i).

(** The structure after a turn, but for the frame number. *)
Definition hid_next (due : bool) (data : list Z) (i : USB_ClassInfo_HID_Device_t) :
    USB_ClassInfo_HID_Device_t :=
  let i := set_prev ((λ _, data) <$> PrevReportINBuffer i) i in
  if due then set_remaining (IdleCount i) i else i.

Lemma save_report_run (s : hid H A) data :
  (∀ p, PrevReportINBuffer (info s) = Some p → length p = Z.to_nat (PrevReportINBufferSize (info s))) →
  length data = Z.to_nat (PrevReportINBufferSize (info s)) →
  save_report data s =
  Ok tt (Build_driver (lib s) (set_prev ((λ _, data) <$> PrevReportINBuffer (info s)) (info s)) (app s)).
Proof.
  intros Hp Hd. unfold save_report. run_step (gets_run info s).
  destruct (PrevReportINBuffer (info s)) as [p|] eqn:Hprev.
  - specialize (Hp p eq_refl). unfold memcpy. rewrite decide_True by lia.
    rewrite take_ge, memcpy_at_Some by lia. cbn [checked].
    rewrite drop_ge, app_nil_r by lia. cbn [take app]. by run_step (ret_run data s).
  - unfold mret, M_ret. cbn. destruct s as [l i a]. cbn in *. by destruct i; cbn in *; subst.
Qed.

Lemma create_and_send_run (s : hid H A) force id data size a' :
  hid_ready s → v_in (hw (mcu (lib s))) = Some [] →
  CreateHIDReport (info s) 0 HID_REPORT_ITEM_In_code
    (memset 0 (Z.to_nat (PrevReportINBufferSize (info s)))) (app s) = Ok (force, id, data, size) a' →
  length data = Z.to_nat (PrevReportINBufferSize (info s)) → 0 ≤ size ≤ Z.of_nat (length data) →
  (length (report_packet id data size) ≤ 64)%nat →
  let due := report_due (info s) force data size in
  ∃ l', create_and_send fuel CreateHIDReport s = Ok tt (Build_driver l' (hid_next due data (info s)) a') ∧
    hw_ok (mcu l') ∧ USB_DeviceState l' = USB_DeviceState (lib s) ∧
    v_sent (hw (mcu l')) = v_sent (hw (mcu (lib s))) ++ (if due then [report_packet id data size] else []).
Proof.
  intros [Hok Hst Ha Hdir Hp Hf] Hin Hcreate Hlen Hsize Hpk due. unfold create_and_send.
  run_step (gets_run info s).
  assert (on_app (CreateHIDReport (info s) 0 HID_REPORT_ITEM_In_code
     (memset 0 (Z.to_nat (PrevReportINBufferSize (info s))))) s =
     Ok (force, id, data, size) (Build_driver (lib s) (info s) a')) as Hc
    by (unfold on_app, zoom; by rewrite Hcreate).
  run_step Hc. set (s1 := Build_driver (lib s) (info s) a').
  assert ((match PrevReportINBuffer (info s) with
           | None => mret false
           | Some prev => checked (memcmp_differ data prev size)
           end) s1 = Ok (report_changed (info s) data size) s1) as Hcmp.
  { unfold report_changed, memcmp_differ. destruct (PrevReportINBuffer (info s)) as [p|] eqn:Hprev; [|done].
    specialize (Hp p eq_refl). by rewrite decide_True by lia. }
  run_step Hcmp. run_step (save_report_run s1 data Hp Hlen). cbn [s1 lib info app].
  fold (idle_elapsed (info s)). fold (report_due (info s) force data size). fold due.
  unfold hid_next. destruct due; cbn [when].
  - run_step (modify_run (λ s, Build_driver (lib s) (set_remaining (IdleCount (info s)) (info s)) (app s))
      (Build_driver (lib s) (set_prev ((λ _, data) <$> PrevReportINBuffer (info s)) (info s)) a')).
    destruct (send_report_view (view (lib s)) (et_Address (ReportINEndpoint (info s))) id data size)
      as (c & f & Hrun); [done..|].
    destruct (on_lib_run _ _ (Build_driver (lib s) (set_remaining (IdleCount (info s))
      (set_prev ((λ _, data) <$> PrevReportINBuffer (info s)) (info s))) a') _ _ (sim_send_report _ _ _ _) Hok Hrun)
      as (l' & Hl & Hv & Hok').
    exists l'. cbn [info lib app set_prev set_Config IdleCount] in *. rewrite Hl. split; [done|].
    split; [done|]. apply (f_equal USB_DeviceState) in Hv as Hv1. apply (f_equal mcu) in Hv as Hv2.
    cbn in Hv1, Hv2. rewrite Hv2. by rewrite Hv1.
  - exists (lib s). split_and!; try done. by rewrite app_nil_r.
Qed.

(** The current frame number. *)
Definition frame_now (s : hid H A) : Z := default 0 (fst <$> head (v_frames (hw (mcu (lib s))))).

Lemma frame_run (s : hid H A) :
  hw_ok (mcu (lib s)) →
  ∃ l', on_lib USB_Device_GetFrameNumber s = Ok (frame_now s) (set_lib l' s) ∧
        view l' = popped (view (lib s)) ∧ hw_ok (mcu l').
Proof.
  intros Hok. apply (on_lib_run _ USB_Device_GetFrameNumber); [solve_sim|done|reflexivity].
Qed.

(** At most one report in a frame. *)
Lemma USBTask_same_frame (s : hid H A) :
  hw_ok (mcu (lib s)) → PrevFrameNum (info s) = frame_now s →
  ∃ l', task s = Ok tt (set_lib l' s) ∧ v_sent (hw (mcu l')) = v_sent (hw (mcu (lib s))).
Proof.
  intros Hok Hf. unfold HID_Device_USBTask.
  run_step (eq_refl : on_lib (gets USB_DeviceState) s = Ok (USB_DeviceState (lib s)) (set_lib (lib s) s)).
  destruct (bool_decide _); cbn [negb]; [|by exists (lib s)].
  run_step (gets_run info (set_lib (lib s) s)).
  destruct (frame_run (set_lib (lib s) s) Hok) as (l' & Hrun & Hv & _). run_step Hrun.
  cbn [info set_lib]. rewrite Hf. unfold frame_now. cbn [lib set_lib]. rewrite Z.eqb_refl.
  exists l'. split; [done|]. apply (f_equal (λ l, v_sent (mcu l))) in Hv. exact Hv.
Qed.

(** C32: The HID class driver sends a report exactly when it has to.  On a
    configured device, in a new frame and with a free bank, the callback of the
    application makes the report; it goes to the host, after its report ID if
    it has one, exactly when it is not empty and the application asks for it,
    it differs from the last report, or the idle period is over; then the idle
    period starts again.  The report is remembered in any case. *)
Theorem HID_Device_USBTask_sends (s : hid H A) force id data size a' :
  hid_ready s → v_in (hw (mcu (lib s))) = Some [] → PrevFrameNum (info s) ≠ frame_now s →
  CreateHIDReport (info s) 0 HID_REPORT_ITEM_In_code
    (memset 0 (Z.to_nat (PrevReportINBufferSize (info s)))) (app s) = Ok (force, id, data, size) a' →
  length data = Z.to_nat (PrevReportINBufferSize (info s)) → 0 ≤ size ≤ Z.of_nat (length data) →
  (length (report_packet id data size) ≤ 64)%nat →
  let due := report_due (info s) force data size in
  ∃ l' f, task s = Ok tt (Build_driver l' (set_frame f (hid_next due data (info s))) a') ∧
    hw_ok (mcu l') ∧
    v_sent (hw (mcu l')) = v_sent (hw (mcu (lib s))) ++ (if due then [report_packet id data size] else []).
Proof.
  intros Hr Hin Hfr Hcreate Hlen Hsize Hpk due. pose proof Hr as [Hok Hst Ha Hdir Hp Hf].
  unfold HID_Device_USBTask.
  run_step (eq_refl : on_lib (gets USB_DeviceState) s = Ok (USB_DeviceState (lib s)) (set_lib (lib s) s)).
  rewrite Hst, bool_decide_eq_true_2 by done. cbn [negb].
  run_step (gets_run info (set_lib (lib s) s)).
  destruct (frame_run (set_lib (lib s) s) Hok) as (l1 & Hrun1 & Hv1 & Hok1). run_step Hrun1.
  change (frame_now (set_lib (lib s) s)) with (frame_now s). cbn [info set_lib].
  rewrite (proj2 (Z.eqb_neq _ _) Hfr).
  destruct (on_lib_run (Endpoint_SelectEndpoint (et_Address (ReportINEndpoint (info s))))
    (Endpoint_SelectEndpoint (et_Address (ReportINEndpoint (info s)))) (set_lib l1 s) tt _
    ltac:(solve_sim) Hok1 (select_run _ _)) as (l2 & Hrun2 & Hv2 & Hok2).
  run_step Hrun2. rewrite Ha in Hv2. cbn [lib set_lib] in Hv1, Hv2. rewrite Hv1 in Hv2.
  destruct (on_lib_run Endpoint_IsReadWriteAllowed Endpoint_IsReadWriteAllowed (set_lib l2 s) true
    (tick (view l2)) ltac:(solve_sim) Hok2) as (l3 & Hrun3 & Hv3 & Hok3).
  { cbn [lib set_lib]. rewrite (IsReadWriteAllowed_in (view l2) ltac:(by rewrite Hv2) []); [done|].
    rewrite Hv2. by apply polled_free. }
  run_step Hrun3. cbn [negb]. rewrite Hv2 in Hv3.
  assert (USB_DeviceState l3 = DEVICE_STATE_Configured) as Hst3
    by (by apply (f_equal USB_DeviceState) in Hv3; cbn in Hv3; rewrite Hv3).
  apply (f_equal mcu) in Hv3. cbn in Hv3.
  destruct (create_and_send_run (set_lib l3 s) force id data size a') as (l4 & Hrun4 & Hok4 & _ & Hsent);
    [|by cbn; rewrite Hv3; apply polled_free|done..|].
  { split; try done; cbn. by rewrite Hv3. }
  run_step Hrun4. cbn [info lib set_lib] in *. fold due in Hsent |- *.
  destruct (frame_run (Build_driver l4 (hid_next due data (info s)) a') Hok4) as (l5 & Hrun5 & Hv5 & Hok5).
  run_step Hrun5. exists l5. eexists. split; [reflexivity|]. split; [done|].
  apply (f_equal (λ l, v_sent (mcu l))) in Hv5. cbn in Hv5. rewrite Hv5, Hsent, Hv3. done.
Qed.

(** ** The idle period *)

(** [n] milliseconds pass. *)
Lemma milliseconds_elapsed n (s : hid H A) :
  is_u16 (IdleMSRemaining (info s)) →
  ∃ s', Nat.iter n (λ m, HID_Device_MillisecondElapsed;; m) (mret tt) s = Ok tt s' ∧
        info s' = set_remaining (Z.max 0 (IdleMSRemaining (info s) - Z.of_nat n)) (info s) ∧ lib s' = lib s.
Proof.
  revert s. induction n as [|n IH]; intros s Hu.
  - exists s. split; [done|]. split; [|done]. unfold is_u16 in Hu.
    rewrite Z.sub_0_r, Z.max_r by lia. by destruct (info s).
  - cbn [Nat.iter nat_rect]. unfold HID_Device_MillisecondElapsed, upd_info.
    run_step (modify_run (λ s : hid H A, Build_driver (lib s) (if IdleMSRemaining (info s) =? 0 then info s
      else set_remaining (u16 (IdleMSRemaining (info s) - 1)) (info s)) (app s)) s).
    set (s1 := Build_driver _ _ _).
    assert (IdleMSRemaining (info s1) = Z.max 0 (IdleMSRemaining (info s) - 1) ∧
            (∀ r, set_remaining r (info s1) = set_remaining r (info s))) as [H1 H2].
    { unfold is_u16 in Hu. cbn. destruct (Z.eqb_spec (IdleMSRemaining (info s)) 0) as [E|E]; cbn.
      - by rewrite E.
      - rewrite u16_id by (unfold is_u16; lia). split; [lia|done]. }
    destruct (IH s1) as (s' & Hrun & Hi & Hl); [unfold is_u16 in *; rewrite H1; lia|].
    exists s'. split; [exact Hrun|]. split; [|done]. rewrite Hi, H1, H2. f_equal. lia.
Qed.

(** A class request for this interface, whose header was read. *)
Definition class_asked (q : USB_Request_Header_t) (s : hid H A) : Prop :=
  pending fuel q (lib s) ∧ wIndex q = InterfaceNumber (info s).

(** The handler reaches its [switch]. *)
Lemma process_begin (P : lufa H → Prop) q (s : hid H A) :
  (∃ l', on_lib Endpoint_IsSETUPReceived s = Ok true (set_lib l' s) ∧ P l' ∧ USB_ControlRequest l' = q) →
  wIndex q = InterfaceNumber (info s) →
  ∃ l', P l' ∧
    process s = process_switch fuel junk CreateHIDReport ProcessHIDReport q (info s) (set_lib l' s).
Proof.
  intros (l' & Hrun & HP & Hq) Hi. exists l'. split; [done|].
  unfold HID_Device_ProcessControlRequest. run_step Hrun. cbn [negb].
  run_step (request_run (set_lib l' s)). cbn [lib set_lib]. rewrite Hq.
  run_step (gets_run info (set_lib l' s)). cbn [info set_lib]. by rewrite Hi, Z.eqb_refl.
Qed.

Lemma process_pending q (s : hid H A) :
  class_asked q s →
  ∃ l', (pending fuel q l' ∧ v_sent (hw (mcu l')) = v_sent (hw (mcu (lib s)))) ∧
    process s = process_switch fuel junk CreateHIDReport ProcessHIDReport q (info s) (set_lib l' s).
Proof.
  intros [Hp Hi]. apply process_begin; [|done].
  destruct (IsSETUPReceived_pending fuel q s Hp) as (l' & Hrun & Hp' & Hs).
  exists l'. split; [done|]. split; [done|]. apply Hp'.
Qed.

(** [(wValue & 0xFF00) >> 6] is four times the high byte. *)
Lemma idle_milliseconds v : is_u16 v → Z.shiftr (Z.land v 0xFF00) 6 = 4 * (v / 256).
Proof.
  intros Hv. unfold is_u16 in Hv. change 0xFF00 with (Z.shiftl (Z.ones 8) 8).
  replace (Z.land v (Z.shiftl (Z.ones 8) 8)) with (Z.shiftl (Z.land (Z.shiftr v 8) (Z.ones 8)) 8).
  - rewrite Z.land_ones, Z.shiftr_div_pow2, Z.shiftl_mul_pow2, Z.shiftr_div_pow2 by lia.
    change (2 ^ 8) with 256. rewrite Z.mod_small by (split; [apply Z.div_pos|apply Z.div_lt_upper_bound]; lia).
    change (2 ^ 6) with 64. replace (v / 256 * 256) with (4 * (v / 256) * 64) by lia. by rewrite Z.div_mul.
  - apply Z.bits_inj'. intros n Hn. rewrite Z.shiftl_spec, Z.land_spec, Z.land_spec, Z.shiftl_spec by lia.
    destruct (decide (n < 8)) as [E|E]; [rewrite !(Z.testbit_neg_r _ (n - 8)) by lia; by rewrite !andb_false_r|].
    rewrite Z.shiftr_spec by lia. by replace (n - 8 + 8) with n by lia.
Qed.

Lemma process_set_idle q (s : hid H A) :
  class_asked q s → bRequest q = HID_REQ_SetIdle → bmRequestType q = class_request REQDIR_HOSTTODEVICE →
  ∃ l', process s = Ok tt (Build_driver l' (set_idle (4 * (wValue q / 256)) (info s)) (app s)) ∧
        acked (v_ctl (hw (mcu l'))) ∧ v_sent (hw (mcu l')) = v_sent (hw (mcu (lib s))).
Proof.
  intros Ha Hr Ht. destruct (process_pending q s Ha) as (l1 & [Hp Hs1] & ->).
  unfold process_switch. rewrite Hr, Ht. switch_case.
  destruct (ack_run fuel q (set_lib l1 s) Hp ltac:(by rewrite Ht)) as (l2 & Hrun & Hack & Hs2).
  run_step Hrun. exists l2. split; [|by rewrite Hs2].
  by rewrite <- idle_milliseconds by apply Hp.
Qed.

Lemma process_get_idle q (s : hid H A) :
  class_asked q s → bRequest q = HID_REQ_GetIdle → bmRequestType q = class_request REQDIR_DEVICETOHOST →
  1 ≤ wLength q →
  ∃ l', process s = Ok tt (set_lib l' s) ∧
        delivered [u8 (Z.shiftr (IdleCount (info s)) 2)] (v_ctl (hw (mcu l'))) ∧
        v_sent (hw (mcu l')) = v_sent (hw (mcu (lib s))).
Proof.
  intros Ha Hr Ht Hlen. destruct (process_pending q s Ha) as (l1 & [Hp Hs1] & ->).
  unfold process_switch. rewrite Hr, Ht. switch_case.
  destruct (reply_run fuel q (set_lib l1 s) (wait_until fuel Endpoint_IsINReady)
    (wait_until fuel Endpoint_IsINReady) tt (Endpoint_Write_8 (u8 (Z.shiftr (IdleCount (info s)) 2)))
    (Endpoint_Write_8 (u8 (Z.shiftr (IdleCount (info s)) 2))) [u8 (Z.shiftr (IdleCount (info s)) 2)] Hp)
    as (l2 & Hrun & Hd & Hs2); [by rewrite Ht|cbn; lia|cbn; lia|solve_sim|solve_sim| | |].
  - intros l c Hsel Hb. apply wait_ready_free; [done| |done]. destruct Hp as [_ _ _ _ _ _ _ Hf]. lia.
  - intros l c Hsel. by rewrite ctl_Write_8.
  - exists l2. split; [exact Hrun|]. by rewrite Hs2.
Qed.

(** C34: [GET_IDLE] reads back what [SET_IDLE] wrote.  [SET_IDLE] with duration
    [d] in the high byte of [wValue] is acknowledged and stores [4 * d]
    milliseconds; whatever the library and the application do next, a
    [GET_IDLE] that finds the structure as it was left delivers exactly [d]. *)
Theorem idle_roundtrip q (s : hid H A) :
  class_asked q s → bRequest q = HID_REQ_SetIdle → bmRequestType q = class_request REQDIR_HOSTTODEVICE →
  ∃ l1 i1, process s = Ok tt (Build_driver l1 i1 (app s)) ∧ acked (v_ctl (hw (mcu l1))) ∧
    IdleCount i1 = 4 * (wValue q / 256) ∧
    ∀ q2 l a, class_asked q2 (Build_driver l i1 a) → bRequest q2 = HID_REQ_GetIdle →
      bmRequestType q2 = class_request REQDIR_DEVICETOHOST → 1 ≤ wLength q2 →
      ∃ l2, process (Build_driver l i1 a) = Ok tt (Build_driver l2 i1 a) ∧
        delivered [wValue q / 256] (v_ctl (hw (mcu l2))).
Proof.
  intros Ha Hr Ht. destruct (process_set_idle q s Ha Hr Ht) as (l1 & Hrun & Hack & _).
  exists l1, (set_idle (4 * (wValue q / 256)) (info s)). do 3 (split; [done|]).
  intros q2 l a Ha2 Hr2 Ht2 Hl2. destruct (process_get_idle q2 _ Ha2 Hr2 Ht2 Hl2) as (l2 & Hrun2 & Hd & _).
  exists l2. split; [exact Hrun2|]. cbn [info set_idle set_State IdleCount] in Hd.
  destruct Ha as [[_ _ Hwf _ _ _ _ _] _]. pose proof (wf_value q Hwf) as Hv. unfold is_u16 in Hv.
  assert (0 ≤ wValue q / 256 < 256) as Hb by (split; [apply Z.div_pos|apply Z.div_lt_upper_bound]; lia).
  rewrite Z.shiftr_div_pow2 in Hd by lia. change (2 ^ 2) with 4 in Hd.
  rewrite (Z.mul_comm 4), Z.div_mul in Hd by lia. by rewrite u8_id in Hd by (unfold is_u8; lia).
Qed.

(** ** Reports from the host *)

(** C33: A report that the host writes reaches the application.  For every
    [SET_REPORT] request, however the host splits the data into packets and
    whatever its delays, the callback of the application gets the report ID,
    the type and exactly the bytes that were sent, without the first when the
    report has an ID, with their number; then the request is acknowledged. *)
Theorem SetReport_received q packets (s : hid H A) a' :
  let id := wValue q mod 256 in
  let data := concat packets in
  let report := if id =? 0 then data else tail data in
  pending_data fuel q packets (lib s) → wIndex q = InterfaceNumber (info s) →
  bRequest q = HID_REQ_SetReport → bmRequestType q = class_request REQDIR_HOSTTODEVICE →
  (id ≠ 0 → data ≠ []) →
  ProcessHIDReport (info s) id (u8 (wValue q / 256 - 1)) report (Z.of_nat (length report)) (app s) = Ok tt a' →
  ∃ l', process s = Ok tt (Build_driver l' (info s) a') ∧
        acked (v_ctl (hw (mcu l'))) ∧ hw_ok (mcu l').
Proof.
  intros id data report Hp Hi Hr Ht Hne Hcall.
  destruct (process_begin (pending_data fuel q packets) q s) as (l1 & Hp1 & ->); [|done|].
  { destruct (IsSETUPReceived_data fuel q packets s Hp) as (l' & Hrun & Hp').
    exists l'. split; [done|]. split; [done|]. apply Hp'. }
  unfold process_switch. rewrite Hr, Ht. switch_case. unfold SetReport.
  pose proof Hp1 as [_ _ Hwf _ _ _ _ _ _ Hlen [Hf _]]. fold data in Hlen.
  assert (is_u16 (wLength q)) as Hu by apply Hwf. unfold is_u16 in Hu.
  run_step (gets_run info (set_lib l1 s)). cbn [info set_lib]. rewrite Hlen in *.
  destruct (data_run fuel q packets (set_lib l1 s)
    (Endpoint_Read_Control_Stream_LE fuel (memset junk (Z.to_nat (Z.of_nat (length data)))) (Z.of_nat (length data)))
    (Endpoint_Read_Control_Stream_LE fuel (memset junk (Z.to_nat (Z.of_nat (length data)))) (Z.of_nat (length data)))
    (data, ENDPOINT_RWCSTREAM_NoError) Hp1) as (l2 & Hrun & Hok & Hack & _);
    [apply sim_read_control_stream|apply read_stream_takes; [done|rewrite memset_length; lia]|].
  run_step Hrun. exists l2. split; [|done]. change 0xFF with (Z.ones 8).
  rewrite Z.land_ones, Z.shiftr_div_pow2 by lia. change (2 ^ 8) with 256. fold id. cbn [fst].
  rewrite (on_app_run _ _ tt a'); [done|]. cbn [info app set_lib]. rewrite <- Hcall. unfold report.
  destruct (Z.eqb_spec id 0) as [E|E]; cbn [Z.to_nat drop].
  - by rewrite drop_0, Z.sub_0_r, u16_id.
  - clearbody data. destruct data as [|b data]; [by destruct (Hne E)|]. cbn [tail drop length].
    rewrite u16_id by (unfold is_u16; cbn [length] in Hu; lia). do 2 f_equal. lia.
Qed.
End facts.

(** ** Witnesses *)
Module HIDDemo.
(** A configured device whose report changed from [0 0] to [7 9]. *)
Definition demo_create (_ : USB_ClassInfo_HID_Device_t) (_ _ : Z) (_ : list Z) : M unit (bool * Z * list Z * Z) :=
  mret (false, 0, [7; 9], 2).
Definition demo_process (_ : USB_ClassInfo_HID_Device_t) (_ _ : Z) (_ : list Z) (_ : Z) : M unit unit :=
  mret tt.
Definition demo_info : USB_ClassInfo_HID_Device_t :=
  {| InterfaceNumber := 0;
     ReportINEndpoint := {| et_Address := 0x81; et_Size := 8; et_Type := 3; et_Banks := 1 |};
     PrevReportINBuffer := Some [0; 0]; PrevReportINBufferSize := 2; UsingReportProtocol := true;
     PrevFrameNum := 4; IdleCount := 500; IdleMSRemaining := 500 |}.
(** The device after the SETUP packet of [q] was read. *)
Definition demo_lib (q : USB_Request_Header_t) (packets : list (list Z)) : lufa hwview :=
       {| mcu :=
            {| v_uenum := 0;
               v_ctl := {| c_setup := Some []; c_bank := []; c_busy := false; c_taken := []; c_out := None;
                           c_host := {| h_idle := 3; h_delays := [2; 0]%nat;
                                        h_reading := has (bmRequestType q) REQDIR_DEVICETOHOST;
                                        h_want := Z.to_nat (wLength q); h_status := false; h_data := packets |} |};
               v_in := Some []; v_sent := []; v_out := None; v_rx := []; v_tx := []; v_txd := [];
               v_pll := 0; v_sig := λ _, 0; v_frames := [(5, false); (5, false)]; v_regs := λ _, 0;
               v_epregs := λ n r, if decide (n = 1 ∧ r = UECFG0X) then 0xC1 else 0 |};
          USB_DeviceState := DEVICE_STATE_Configured; USB_ControlRequest := q;
          USB_Device_ConfigurationNumber := 1; USB_Device_CurrentlySelfPowered := false;
          USB_Device_RemoteWakeupEnabled := false; USB_IsInitialized := true |}.
Definition demo_hid (q : USB_Request_Header_t) : hid hwview unit :=
  {| lib := demo_lib q []; info := demo_info; app := tt |}.

(** An application that keeps the last report from the host. *)
Definition demo_create_none (_ : USB_ClassInfo_HID_Device_t) (_ _ : Z) (b : list Z) :
    M (list Z) (bool * Z * list Z * Z) := mret (false, 0, b, 0).
Definition demo_keep (_ : USB_ClassInfo_HID_Device_t) (_ _ : Z) (r : list Z) (_ : Z) : M (list Z) unit :=
  modify (λ _, r).
End HIDDemo.
Import RequestFacts.Demo HIDDemo.

Lemma HID_Device_USBTask_sends_witness :
  ∃ l' f, HID_Device_USBTask 100 demo_create (demo_hid (demo_header 0 0 0 0)) =
    Ok tt (Build_driver l' (set_frame f (hid_next true [7; 9] demo_info)) tt) ∧
    v_sent (mcu l') = [[7; 9]].
Proof.
  destruct (HID_Device_USBTask_sends 100 demo_create (demo_hid (demo_header 0 0 0 0)) false 0 [7; 9] 2 tt)
    as (l' & f & Hrun & _ & Hsent).
  - split; [exact I|reflexivity|reflexivity|reflexivity|by intros p [= <-]|lia].
  - reflexivity.
  - discriminate.
  - reflexivity.
  - reflexivity.
  - cbn; lia.
  - vm_compute. lia.
  - exists l', f. split; [exact Hrun|exact Hsent].
Defined.

Lemma demo_class_asked q :
  request_wf q → wIndex q = 0 → class_asked 100 q (demo_hid q).
Proof.
  intros Hwf Hi. split; [|done]. split; try done; [|cbn; lia]. split; try done.
  cbn. intros Hr. pose proof (wf_read q Hwf Hr). lia.
Qed.

Lemma idle_roundtrip_witness :
  ∃ l1 i1, HID_Device_ProcessControlRequest 100 0 demo_create demo_process
      (demo_hid (demo_header 0x21 0x0A 0x1900 0)) = Ok tt (Build_driver l1 i1 tt) ∧ IdleCount i1 = 100 ∧
    ∃ l2, HID_Device_ProcessControlRequest 100 0 demo_create demo_process
      (Build_driver (demo_lib (demo_header 0xA1 0x02 0 1) []) i1 tt) = Ok tt (Build_driver l2 i1 tt) ∧
      delivered [0x19] (v_ctl (mcu l2)).
Proof.
  destruct (idle_roundtrip 100 0 demo_create demo_process (demo_header 0x21 0x0A 0x1900 0)
    (demo_hid (demo_header 0x21 0x0A 0x1900 0))) as (l1 & i1 & Hrun & _ & Hi & Hget).
  - apply demo_class_asked; [demo_wf|reflexivity].
  - reflexivity.
  - reflexivity.
  - exists l1, i1. split; [exact Hrun|]. split; [exact Hi|].
    assert (InterfaceNumber i1 = 0) as Hn by (vm_compute in Hrun; injection Hrun as _ <-; reflexivity).
    destruct (Hget (demo_header 0xA1 0x02 0 1) (demo_lib (demo_header 0xA1 0x02 0 1) []) tt)
      as (l2 & Hrun2 & Hd); [|reflexivity|reflexivity|cbn; lia|exists l2; split; [exact Hrun2|exact Hd]].
    destruct (demo_class_asked (demo_header 0xA1 0x02 0 1)) as [Hp _]; [demo_wf|done|].
    split; [exact Hp|symmetry; exact Hn].
Defined.

Lemma SetReport_received_witness :
  ∃ l', HID_Device_ProcessControlRequest 100 0 demo_create_none demo_keep
    {| lib := demo_lib (demo_header 0x21 0x09 0x0201 3) [[1; 7]; [9]]; info := demo_info; app := [] |} =
    Ok tt (Build_driver l' demo_info [7; 9]) ∧ acked (v_ctl (mcu l')).
Proof.
  destruct (SetReport_received 100 0 demo_create_none demo_keep (demo_header 0x21 0x09 0x0201 3) [[1; 7]; [9]]
    {| lib := demo_lib (demo_header 0x21 0x09 0x0201 3) [[1; 7]; [9]]; info := demo_info; app := [] |} [7; 9])
    as (l' & Hrun & Hack & _).
  - split; try reflexivity; [demo_wf|split; discriminate| |split; cbn; lia].
    split; try reflexivity. repeat constructor.
  - reflexivity.
  - reflexivity.
  - reflexivity.
  - discriminate.
  - reflexivity.
  - exists l'. split; [exact Hrun|exact Hack].
Defined.
