(* ===== verification/SerialFacts.v ===== *)
(** * The serial number of the microcontroller

    String descriptor [USE_INTERNAL_SERIAL]: [USB_Device_GetSerialString] of
    [Device_AVR8.h] and [USB_Device_GetInternalSerialDescriptor] of
    [DeviceStandardReq.c]. *)

From S2P Require Import Prelude Datatypes StdDescriptors Descriptors Hardware Lufa Board Device Endpoint.
From S2P Require Import ControlStream Requests ControlFacts EndpointFacts RequestFacts.
From S2P Require Import Driver ControllerFacts.
Import RequestFacts.Demo.

(** ** The string *)

(** The code of a hexadecimal digit. *)
Definition hex_digit (n : Z) : Z := if n <? 10 then 48 + n else 55 + n.

(** Ten bytes of the signature row from address 14 on, the low digit of each
    byte first. *)
Definition serial_text (sig : Z → Z) : list Z :=
  concat (map (λ k, let b := u8 (sig k) in [hex_digit (b mod 16); hex_digit (b / 16)]) (seqZ 14 10)).

Definition serial_descriptor (sig : Z → Z) : list Z :=
  [42; DTYPE_code DTYPE_String] ++ concat (map le16 (serial_text sig)).

Lemma serial_descriptor_length sig : length (serial_descriptor sig) = 42%nat.
Proof. done. Qed.

(** Two turns of the loop give the two digits of one byte. *)
Lemma digit_eq x : (if x >=? 10 then 65 - 10 + x else 48 + x) = hex_digit x.
Proof. unfold hex_digit. destruct (Z.geb_spec x 10), (Z.ltb_spec x 10); lia. Qed.

Lemma serial_chars_run n : ∀ i a (l : lufa hwview),
  (n ≤ 10)%nat → 0 ≤ i ≤ 10 - Z.of_nat n → 0 ≤ a ≤ 200 - Z.of_nat n →
  serial_chars (2 * n) (2 * i) a l =
  Ok (concat (map (λ k, let b := u8 (v_sig (mcu l) k) in [hex_digit (b mod 16); hex_digit (b / 16)])
                (seqZ a (Z.of_nat n)))) l.
Proof.
  induction n as [|n IH]; intros i a l Hn Hi Ha; [done|].
  replace (2 * S n)%nat with (S (S (2 * n))) by lia. cbn [serial_chars].
  set (b := u8 (v_sig (mcu l) a)).
  assert (0 ≤ b < 256) as Hb by apply u8_range.
  assert (on_mcu (boot_signature_byte_get a) l = Ok b l) as Hget by by destruct l.
  unfold mbind, M_bind. rewrite Hget. cbv iota beta zeta.
  assert (u8 (2 * i + 1) = 2 * i + 1) as -> by (apply u8_id; unfold is_u8; lia).
  change (has ?x 1) with (has x (BV 0)).
  rewrite !has_bit, Z.testbit_even_0, Z.testbit_odd_0 by done.
  cbv iota. rewrite Hget. cbv iota beta.
  replace (2 * i + 1 + 1) with (2 * (i + 1)) by lia.
  rewrite (u8_id (2 * (i + 1))), (u8_id (a + 1)) by (unfold is_u8; lia).
  rewrite IH by lia. unfold mret, M_ret. rewrite !digit_eq.
  change 0x0F with (Z.ones 4). rewrite !Z.land_ones, Z.shiftr_div_pow2 by done.
  rewrite (Z.mod_small (b / 2 ^ 4)) by (change (2 ^ 4) with 16; div_lia).
  rewrite (seqZ_cons a) by lia. cbn [map concat]. fold b.
  by replace (Z.pred (Z.of_nat (S n))) with (Z.of_nat n) by lia; rewrite Z.add_1_r.
Qed.

Lemma GetSerialString_run (l : lufa hwview) :
  USB_Device_GetSerialString l =
  Ok (serial_text (v_sig (mcu l)))
     (put_reg SREG (v_regs (mcu l) SREG)
        (put_reg SREG (Z.land (v_regs (mcu l) SREG) (inv8 (BV SREG_I))) l)).
Proof.
  unfold USB_Device_GetSerialString, GetGlobalInterruptMask, GlobalInterruptDisable,
    SetGlobalInterruptMask.
  assert (get_reg SREG l = Ok (v_regs (mcu l) SREG) l) as Hget by by destruct l.
  run_step Hget. run_step (plain_clear SREG (BV SREG_I) l eq_refl).
  set (l1 := put_reg SREG _ l).
  assert (serial_chars (Z.to_nat (INTERNAL_SERIAL_LENGTH_BITS / 4)) 0 INTERNAL_SERIAL_START_ADDRESS l1 =
    Ok (serial_text (v_sig (mcu l))) l1) as Hchars by (apply (serial_chars_run 10 0 14 l1); lia).
  run_step Hchars. run_step (plain_put SREG (v_regs (mcu l) SREG) l1 eq_refl). done.
Qed.

(** ** The request *)

Lemma GetInternalSerial_run fuel l q c :
  v_uenum (mcu l) = 0 → request_wf q → USB_ControlRequest l = q →
  USB_DeviceState l ≠ DEVICE_STATE_Unattached → USB_DeviceState l ≠ DEVICE_STATE_Suspended →
  arriving (Z.to_nat (wLength q)) true c → serial_request q = true →
  (host_wait c + 84 < fuel)%nat →
  ∃ c' l', USB_Device_GetDescriptor fuel (at_ctl c l) = Ok tt (at_ctl c' l') ∧
    delivered (take (Z.to_nat (wLength q)) (serial_descriptor (v_sig (mcu l)))) c' ∧
    v_uenum (mcu l') = 0 ∧ USB_DeviceState l' = USB_DeviceState l ∧
    ∀ r, v_regs (mcu l') r = v_regs (mcu l) r.
Proof.
  intros Hsel Hwf Hq Hs1 Hs2 Hc Hser Hfuel. unfold USB_Device_GetDescriptor.
  run_step (gets_run USB_ControlRequest (at_ctl c l)).
  change (USB_ControlRequest (at_ctl c l)) with (USB_ControlRequest l). rewrite Hq.
  unfold serial_request in Hser. rewrite Hser. unfold USB_Device_GetInternalSerialDescriptor.
  run_step (GetSerialString_run (at_ctl c l)).
  set (l1 := put_reg SREG (v_regs (mcu l) SREG)
               (put_reg SREG (Z.land (v_regs (mcu l) SREG) (inv8 (BV SREG_I))) l)).
  destruct (control_answer fuel l1 q c (serial_descriptor (v_sig (mcu l))) 42)
    as (c' & Hrun & Hdel); try done.
  exists c', l1. split; [exact Hrun|].
  rewrite (take_ge (serial_descriptor _)) in Hdel by by rewrite serial_descriptor_length.
  split_and!; try done. intros r. unfold l1. destruct (decide (SREG = r)) as [<-|Hr].
  - by rewrite put_reg_eq.
  - by rewrite !put_reg_ne.
Qed.

(** C40: The string descriptor 0xDC is the serial number of the microcontroller:
    the host receives the first [wLength] bytes of a string of twenty
    hexadecimal digits, those of ten bytes of the signature row with the low
    digit first; the interrupt flag, which is cleared while the row is read,
    and all other registers are as before. *)
Theorem GetInternalSerial_delivers {H} `{!Mcu H} `{!McuSpec H} fuel (l : lufa H) q idle delays :
  hw_ok (mcu l) →
  v_ctl (hw (mcu l)) = request_ctl q idle delays → 0 ≤ v_uenum (hw (mcu l)) < 16 →
  request_wf q → bRequest q = USB_Control_Request_code REQ_GetDescriptor →
  bmRequestType q = reqtype REQDIR_DEVICETOHOST REQTYPE_STANDARD REQREC_DEVICE →
  serial_request q = true →
  USB_DeviceState l ≠ DEVICE_STATE_Unattached → USB_DeviceState l ≠ DEVICE_STATE_Suspended →
  (idle + sum_list delays + 85 < fuel)%nat →
  ∃ l', USB_USBTask fuel l = Ok tt l' ∧ hw_ok (mcu l') ∧
        delivered (take (Z.to_nat (wLength q)) (serial_descriptor (v_sig (hw (mcu l)))))
          (v_ctl (hw (mcu l'))) ∧
        v_uenum (hw (mcu l')) = v_uenum (hw (mcu l)) ∧ USB_DeviceState l' = USB_DeviceState l ∧
        ∀ r, v_regs (hw (mcu l')) r = v_regs (hw (mcu l)) r.
Proof.
  intros Hok Hctl Hn Hwf Hreq Htype Hser Hs1 Hs2 Hfuel.
  assert (has (bmRequestType q) REQDIR_DEVICETOHOST = true) as Hdir by by rewrite Htype.
  destruct (start_arriving q idle delays Hwf) as (Har & _ & Hw). rewrite Hdir in Har.
  destruct (GetInternalSerial_run fuel (start_view l q) q (start_ctl q idle delays))
    as (c' & l1 & Hrun & Hdel & Hu1 & Hst1 & Hregs); try done; [lia|].
  destruct (task_standard fuel l q idle delays Hok Hctl Hn Hwf Hs1 (at_ctl c' l1)
    (at_ctl (host_tick c') l1)) as (l' & Hl' & Hok' & Hv).
  { unfold is_SetIdle. by rewrite Hreq. }
  { by rewrite Hreq, Htype, <- Hrun. }
  { apply stall_rest_answered; [done|]. rewrite tick_setup. apply Hdel. }
  exists l'. split; [done|]. split; [done|].
  apply (f_equal mcu) in Hv as Hm. apply (f_equal USB_DeviceState) in Hv as Hst. cbn in Hm, Hst.
  rewrite Hm. cbn. rewrite Hst, Hst1. split_and!; try done. by apply delivered_tick.
Qed.

(** ** Witness *)

Lemma GetInternalSerial_delivers_witness :
  ∃ l', USB_USBTask 200 (demo_lufa (demo_header 0x80 6 0x03DC 255)) = Ok tt l' ∧
        delivered (42 :: 3 :: concat (replicate 20 [48; 0])) (v_ctl (mcu l')).
Proof.
  destruct (GetInternalSerial_delivers 200 (demo_lufa (demo_header 0x80 6 0x03DC 255))
    (demo_header 0x80 6 0x03DC 255) 3 [2; 0; 5]%nat) as (l' & Hrun & _ & Hd & _).
  - exact I.
  - reflexivity.
  - split; reflexivity || discriminate.
  - demo_wf.
  - reflexivity.
  - reflexivity.
  - reflexivity.
  - discriminate.
  - discriminate.
  - cbn. lia.
  - exists l'. split; [exact Hrun|]. exact Hd.
Defined.
