(* ===== verification/WaitFacts.v ===== *)
(** * The timeout of a stream

    [Endpoint_WaitUntilReady] of [Endpoint_AVR8.c] on every endpoint but the
    control endpoint: what it returns for a bank that is ready, for one that the
    host serves in time, for one that it does not serve, and for a device or an
    endpoint that is in no state to wait. *)

From S2P Require Import Prelude StdDescriptors Descriptors Hardware Lufa Board Device Endpoint.
From S2P Require Import ControlStream Requests EndpointFacts RequestFacts Driver ControllerFacts.
From S2P Require Import StatusFacts.
Import RequestFacts.Demo.

(** How often the frame number changes in successive reads after [prev]. *)
Fixpoint frame_changes (prev : Z) (frames : list (Z * bool)) : nat :=
  match frames with
  | [] => 0
  | f :: frames => (if f.1 =? prev then 0 else 1) + frame_changes f.1 frames
  end.

Lemma frame_changes_app prev fs gs :
  (frame_changes prev fs ≤ frame_changes prev (fs ++ gs))%nat.
Proof. revert prev. induction fs as [|f fs IH]; intros prev; cbn; [lia|]. specialize (IH f.1). lia. Qed.

Lemma frame_changes_snoc prev fs f :
  frame_changes prev (fs ++ [f]) =
  (frame_changes prev fs + if (f.1 =? default prev (fst <$> last fs))%Z then 0 else 1)%nat.
Proof.
  revert prev. induction fs as [|g fs IH]; intros prev; cbn [frame_changes app]; [cbn; lia|].
  rewrite IH, last_cons. destruct (last fs); cbn; lia.
Qed.

(** The host takes nothing from the selected endpoint while these frame
    numbers are read. *)
Definition takes_nothing (v : hwview) (frames : list (Z * bool)) : Prop :=
  v_uenum v = 1 → Forall (λ f, f.2 = false) frames.

Lemma takes_cons v f frames :
  takes_nothing v (f :: frames) → (v_uenum v = 1 → f.2 = false) ∧ takes_nothing v frames.
Proof. intros Hq. split; intros E; by apply Hq, Forall_cons in E as []. Qed.

(** An IN endpoint with a free bank, or an OUT endpoint with a packet. *)
Definition bank_ready (v : hwview) : bool :=
  if has (v_epregs v (v_uenum v) UECFG0X) (BV EPDIR)
  then (v_uenum v =? 1) && bool_decide (is_Some (v_in v))
  else (v_uenum v =? 2) && bool_decide (is_Some (v_out v)).
Definition ep_stalled (v : hwview) : bool := has (v_epregs v (v_uenum v) UECONX) (BV STALLRQ).

(** What is returned from a state in which there is nothing to wait for. *)
Definition no_wait (l : lufa hwview) : option Z :=
  if bank_ready (mcu l) then Some ENDPOINT_READYWAIT_NoError
  else if decide (USB_DeviceState l = DEVICE_STATE_Unattached) then
    Some ENDPOINT_READYWAIT_DeviceDisconnected
  else if decide (USB_DeviceState l = DEVICE_STATE_Suspended) then Some ENDPOINT_READYWAIT_BusSuspended
  else if ep_stalled (mcu l) then Some ENDPOINT_READYWAIT_EndpointStalled
  else None.

(** The state after rounds of the loop in which the host has not taken the packet. *)
Definition waited (c : ctl) (frames : list (Z * bool)) (l : lufa hwview) : lufa hwview :=
  set_mcu (with_frames frames (with_ctl c (mcu l))) l.

Section wait.
Context (l : lufa hwview) (Hsel : v_uenum (mcu l) ≠ 0).

(** The flag that the loop tests tells whether the bank is ready. *)
Lemma ready_flag c frames :
  has (of_bits (ueintx_bits (mcu (waited c frames l))))
    (if has (v_epregs (mcu l) (v_uenum (mcu l)) UECFG0X) (BV EPDIR) then BV TXINI else BV RXOUTI) =
  bank_ready (mcu l).
Proof.
  unfold ueintx_bits, bank_ready. cbn. rewrite (proj2 (Z.eqb_neq _ _) Hsel).
  destruct (Z.eqb_spec (v_uenum (mcu l)) 1) as [->|_], (has _ (BV EPDIR)); cbn [Z.eqb Pos.eqb andb].
  - destruct (v_in (mcu l)) as [p|]; [|done]. by destruct (bool_decide (length p < 64)%nat).
  - destruct (v_in (mcu l)) as [p|]; [|done]. by destruct (bool_decide (length p < 64)%nat).
  - destruct (v_uenum (mcu l) =? 2), (v_out (mcu l)) as [p|]; try done. by destruct (bool_decide (p ≠ [])).
  - destruct (v_uenum (mcu l) =? 2), (v_out (mcu l)) as [p|]; try done. by destruct (bool_decide (p ≠ [])).
Qed.

(** One round. *)
Lemma round_run n t prev c frames :
  ready_loop (S n) t prev (waited c frames l) =
  match no_wait l with
  | Some code => Ok code (waited (host_tick c) frames l)
  | None =>
      let f := default 0 (fst <$> head frames) in
      (if f =? prev then ready_loop n t prev
       else if t =? 0 then mret ENDPOINT_READYWAIT_Timeout
       else ready_loop n (u8 (t - 1)) f) (popped (waited (host_tick c) frames l))
  end.
Proof.
  cbn [ready_loop]. set (l1 := waited c frames l). set (l2 := waited (host_tick c) frames l).
  set (d := has (v_epregs (mcu l) (v_uenum (mcu l)) UECFG0X) (BV EPDIR)).
  assert (Endpoint_GetEndpointDirection l1 = Ok (if d then ENDPOINT_DIR_IN else ENDPOINT_DIR_OUT) l1) as Hd.
  { unfold Endpoint_GetEndpointDirection, test_bits, mbind, M_bind, get_reg, on_mcu, zoom.
    cbn [rd view_Mcu before_read after_read reg_value l1 waited mcu set_mcu v_uenum v_epregs with_frames
         with_ctl]. fold d. by destruct d. }
  run_step Hd.
  assert ((if (if d then ENDPOINT_DIR_IN else ENDPOINT_DIR_OUT) =? ENDPOINT_DIR_IN
           then Endpoint.Endpoint_IsINReady else Endpoint.Endpoint_IsOUTReceived) l1 =
          Ok (bank_ready (mcu l)) l2) as Hr.
  { transitivity (test_bits UEINTX (if d then BV TXINI else BV RXOUTI) l1); [by destruct d|].
    rewrite flag_view. change (tick l1) with l2. unfold l2. rewrite <- (ready_flag (host_tick c) frames).
    reflexivity. }
  run_step Hr. unfold no_wait. destruct (bank_ready (mcu l)); [done|].
  run_step (gets_run USB_DeviceState l2). change (USB_DeviceState l2) with (USB_DeviceState l).
  case_decide; [done|]. case_decide; [done|].
  assert (Endpoint_IsStalled l2 = Ok (ep_stalled (mcu l)) l2) as Hs.
  { unfold Endpoint_IsStalled, test_bits, mbind, M_bind, get_reg, on_mcu, zoom.
    cbn [rd view_Mcu before_read after_read reg_value l2 waited mcu set_mcu v_uenum v_epregs with_frames
         with_ctl]. by rewrite has_stallrq_read. }
  run_step Hs. destruct (ep_stalled (mcu l)); [done|].
  run_step (eq_refl : USB_Device_GetFrameNumber l2 = Ok _ (popped l2)). reflexivity.
Qed.

(** The frame number was read and the host has not taken the packet. *)
Lemma popped_waited c f frames :
  (v_uenum (mcu l) = 1 → f.2 = false) → popped (waited c (f :: frames) l) = waited c frames l.
Proof.
  intros Hf. unfold popped, waited. destruct l as [v]. destruct v. cbn in *. unfold polled. cbn.
  destruct (Z.eqb_spec v_uenum 1) as [E|]; [|done]. destruct f as [f b]. cbn in Hf.
  rewrite (Hf E). by destruct v_in.
Qed.

(** The loop counts the changes of the frame number. *)
Lemma ready_loop_rounds frames : ∀ n t prev c rest,
  no_wait l = None → is_u8 t → takes_nothing (mcu l) frames →
  (frame_changes prev frames ≤ Z.to_nat t)%nat →
  ∃ c', ready_loop (length frames + n) t prev (waited c (frames ++ rest) l) =
    ready_loop n (t - Z.of_nat (frame_changes prev frames)) (default prev (fst <$> last frames))
      (waited c' rest l).
Proof.
  induction frames as [|f frames IH]; intros n t prev c rest Hw Ht Hq Hch.
  { exists c. cbn. by rewrite Z.sub_0_r. }
  apply takes_cons in Hq as [Hf Hq'].
  cbn [length Nat.add app]. rewrite round_run, Hw. cbn [head fmap option_fmap option_map default].
  rewrite popped_waited by done. cbn [frame_changes] in Hch |- *.
  rewrite last_cons. replace (default prev _) with (default f.1 (fst <$> last frames)) by (by destruct (last frames)).
  destruct (Z.eqb_spec f.1 prev) as [E|Hne].
  - cbn [Nat.add] in Hch |- *. rewrite E in Hch |- *. unfold id. rewrite Z.eqb_refl. by apply IH.
  - unfold id. rewrite (proj2 (Z.eqb_neq _ _) Hne). destruct (Z.eqb_spec t 0) as [->|Ht0]; [cbn in Hch; lia|]. unfold is_u8 in Ht.
    rewrite u8_id by (unfold is_u8; lia).
    destruct (IH n (t - 1) f.1 (host_tick c) rest) as (c' & Hrun); [done|unfold is_u8; lia|done|lia|].
    exists c'. rewrite Hrun. f_equal. lia.
Qed.

(** The first read of the frame number. *)
Lemma wait_start fuel f frames :
  v_frames (mcu l) = f :: frames → takes_nothing (mcu l) [f] →
  Endpoint_WaitUntilReady fuel l =
  ready_loop fuel USB_STREAM_TIMEOUT_MS f.1 (waited (v_ctl (mcu l)) frames l).
Proof.
  intros Hfr [Hf _]%takes_cons. unfold Endpoint_WaitUntilReady.
  run_step (eq_refl : USB_Device_GetFrameNumber l = Ok _ (popped l)). cbn [reg_value before_read].
  rewrite Hfr. cbn [head fmap option_fmap option_map default]. f_equal.
  rewrite <- (popped_waited (v_ctl (mcu l)) f frames Hf), <- Hfr. by destruct l as [[]].
Qed.

(** There is nothing to wait for. *)
Lemma wait_none fuel f frames code :
  v_frames (mcu l) = f :: frames → takes_nothing (mcu l) [f] → no_wait l = Some code → (0 < fuel)%nat →
  Endpoint_WaitUntilReady fuel l = Ok code (waited (host_tick (v_ctl (mcu l))) frames l).
Proof.
  intros Hfr Hf Hw Hn. rewrite (wait_start _ _ _ Hfr Hf). destruct fuel as [|n]; [lia|].
  by rewrite round_run, Hw.
Qed.

(** The reads up to the first change after [k] changes. *)
Lemma split_changes frames : ∀ k prev, (k < frame_changes prev frames)%nat →
  ∃ used f rest, frames = used ++ f :: rest ∧ frame_changes prev used = k ∧
    f.1 ≠ default prev (fst <$> last used).
Proof.
  induction frames as [|f frames IH]; intros k prev Hk; cbn [frame_changes] in Hk; [lia|].
  destruct (Z.eqb_spec f.1 prev) as [E|Hne].
  - destruct (IH k f.1 Hk) as (used & g & rest & -> & Hch & Hg). exists (f :: used), g, rest.
    split; [done|]. split; [cbn [frame_changes]; by rewrite (proj2 (Z.eqb_eq _ _) E)|].
    rewrite last_cons. by destruct (last used).
  - destruct k as [|k]; [by exists [], f, frames|].
    destruct (IH k f.1 ltac:(lia)) as (used & g & rest & -> & Hch & Hg). exists (f :: used), g, rest.
    split; [done|]. split; [cbn [frame_changes]; rewrite (proj2 (Z.eqb_neq _ _) Hne); lia|].
    rewrite last_cons. by destruct (last used).
Qed.

(** A bank that the host does not serve. *)
Lemma wait_timeout fuel f frames :
  v_frames (mcu l) = f :: frames → takes_nothing (mcu l) (f :: frames) → no_wait l = None →
  (Z.to_nat USB_STREAM_TIMEOUT_MS < frame_changes f.1 frames)%nat → (length frames ≤ fuel)%nat →
  ∃ c used rest, Endpoint_WaitUntilReady fuel l = Ok ENDPOINT_READYWAIT_Timeout (waited c rest l) ∧
    frames = used ++ rest ∧ frame_changes f.1 used = S (Z.to_nat USB_STREAM_TIMEOUT_MS).
Proof.
  intros Hfr Hq Hw Hch Hfuel. apply takes_cons in Hq as [Hf Hq].
  rewrite (wait_start _ _ _ Hfr) by (intros E; constructor; [by apply Hf|constructor]).
  destruct (split_changes frames _ _ Hch) as (used & g & rest & -> & Hk & Hg). clear Hch.
  assert (takes_nothing (mcu l) used ∧ takes_nothing (mcu l) (g :: rest)) as [Hq1 [Hq2 _]%takes_cons]
    by (split; intros E; by apply Hq, Forall_app in E as []).
  rewrite length_app in Hfuel. cbn [length] in Hfuel.
  destruct (ready_loop_rounds used (S (fuel - S (length used))) USB_STREAM_TIMEOUT_MS f.1 (v_ctl (mcu l))
    (g :: rest) Hw) as (c & Hrun); [done|done|by rewrite Hk|].
  replace fuel with (length used + S (fuel - S (length used)))%nat by lia. rewrite Hrun, round_run, Hw, Hk.
  exists (host_tick c), (used ++ [g]), rest. set (p := default f.1 _) in *.
  cbn [head fmap option_fmap option_map default]. unfold id.
  rewrite (proj2 (Z.eqb_neq _ _) Hg), Z2Nat.id, Z.sub_diag by done. cbn [Z.eqb].
  rewrite popped_waited by done. split; [done|]. split; [by rewrite <- app_assoc|].
  rewrite frame_changes_snoc, Hk. fold p. rewrite (proj2 (Z.eqb_neq _ _) Hg). lia.
Qed.

End wait.

Lemma waited_self l : waited (v_ctl (mcu l)) (v_frames (mcu l)) l = l.
Proof. by destruct l as [[]]. Qed.

(** The packet of the IN endpoint, which the host takes in time. *)
Lemma wait_served l fuel f waiting g rest :
  v_frames (mcu l) = f :: waiting ++ (g, true) :: rest → v_uenum (mcu l) = 1 →
  has (v_epregs (mcu l) 1 UECFG0X) (BV EPDIR) = true → no_wait l = None →
  Forall (λ f, f.2 = false) (f :: waiting) →
  (frame_changes f.1 (waiting ++ [(g, true)]) ≤ Z.to_nat USB_STREAM_TIMEOUT_MS)%nat →
  (S (length waiting) < fuel)%nat →
  ∃ c, Endpoint_WaitUntilReady fuel l =
    Ok ENDPOINT_READYWAIT_NoError (set_mcu (with_in (Some []) (v_sent (mcu l)) (mcu (waited c rest l))) l).
Proof.
  intros Hfr H1 Hdir Hw [Hf Hq]%Forall_cons Hch Hfuel. assert (v_uenum (mcu l) ≠ 0) as Hsel by lia.
  rewrite (wait_start _ Hsel _ _ _ Hfr) by (intros _; by constructor).
  rewrite frame_changes_snoc in Hch. cbn [fst] in Hch.
  set (p := default f.1 (fst <$> last waiting)) in *.
  destruct (ready_loop_rounds l Hsel waiting (S (S (fuel - S (S (length waiting))))) USB_STREAM_TIMEOUT_MS f.1
    (v_ctl (mcu l)) ((g, true) :: rest) Hw) as (c & Hrun); [done|by intros _|lia|].
  replace fuel with (length waiting + S (S (fuel - S (S (length waiting)))))%nat by lia.
  rewrite Hrun, round_run, Hw by done. fold p. cbn [head fmap option_fmap option_map default fst]. unfold id.
  set (t := _ - _). set (n := (fuel - _)%nat). set (l1 := popped _).
  assert (v_in (mcu l) = None) as Hn.
  { unfold no_wait, bank_ready in Hw. rewrite H1, Hdir in Hw. by destruct (v_in (mcu l)). }
  assert (v_uenum (mcu l1) = 1 ∧ has (v_epregs (mcu l1) 1 UECFG0X) (BV EPDIR) = true ∧
    mcu l1 = with_in (Some []) (v_sent (mcu l)) (mcu (waited (host_tick c) rest l))) as (Hs1 & Hd1 & Hm1).
  { split; [done|]. split; [done|]. unfold l1, popped. cbn. unfold polled. cbn. by rewrite H1, Hn. }
  assert (∀ t' p', ready_loop (S n) t' p' l1 = Ok ENDPOINT_READYWAIT_NoError (tick l1)) as Hend.
  { intros t' p'. rewrite <- (waited_self l1) at 1. rewrite round_run by (by rewrite Hs1).
    unfold no_wait, bank_ready. rewrite Hs1, Hd1, Hm1. cbn.
    unfold tick, waited. by rewrite Hm1. }
  exists (host_tick (host_tick c)).
  transitivity (Ok ENDPOINT_READYWAIT_NoError (tick l1)).
  - destruct (Z.eqb_spec g p) as [E|Hne]; [apply Hend|]. destruct (Z.eqb_spec t 0) as [E|_]; [|apply Hend].
    subst t. cbn in E, Hch. lia.
  - unfold tick. rewrite Hm1. by destruct l.
Qed.

(** ** On a microcontroller that behaves as documented *)

Lemma sim_WaitUntilReady {H : Type} `{!Mcu H} `{!McuSpec H} fuel :
  sim (H := H) (Endpoint_WaitUntilReady fuel) (Endpoint_WaitUntilReady fuel).
Proof. solve_sim. Qed.

(** C28: The wait for an endpoint, whichever it is but the control endpoint.
    - A free bank of the IN endpoint or a packet in the OUT endpoint is reported
      at once, and so are a device that is detached or suspended and an
      endpoint that is halted, each with its code.
    - In every other state, when the host serves nothing, the function returns
      the timeout code after exactly 101 changes of the frame number, however
      often each number is read.
    - When the host takes the packet of the IN endpoint within 100 changes, the
      function returns without an error and the bank is free and empty.
    Nothing else changes but the queue of frame numbers and the time that
    passes for the host at the control endpoint. *)
Theorem WaitUntilReady_returns {H : Type} `{!Mcu H} `{!McuSpec H} fuel (l : lufa H) f frames :
  hw_ok (mcu l) → v_uenum (hw (mcu l)) ≠ 0 → v_frames (hw (mcu l)) = f :: frames →
  takes_nothing (hw (mcu l)) [f] →
  (∀ code, no_wait (view l) = Some code → (0 < fuel)%nat →
     ∃ l' c, Endpoint_WaitUntilReady fuel l = Ok code l' ∧ view l' = waited c frames (view l)) ∧
  (no_wait (view l) = None → takes_nothing (hw (mcu l)) frames →
     (Z.to_nat USB_STREAM_TIMEOUT_MS < frame_changes f.1 frames)%nat → (length frames ≤ fuel)%nat →
     ∃ l' c used rest, Endpoint_WaitUntilReady fuel l = Ok ENDPOINT_READYWAIT_Timeout l' ∧
       frames = used ++ rest ∧ frame_changes f.1 used = 101%nat ∧ view l' = waited c rest (view l)) ∧
  (∀ waiting g rest, no_wait (view l) = None → v_uenum (hw (mcu l)) = 1 →
     has (v_epregs (hw (mcu l)) 1 UECFG0X) (BV EPDIR) = true →
     frames = waiting ++ (g, true) :: rest → Forall (λ f, f.2 = false) waiting →
     (frame_changes f.1 (waiting ++ [(g, true)]) ≤ Z.to_nat USB_STREAM_TIMEOUT_MS)%nat →
     (S (length waiting) < fuel)%nat →
     ∃ l' c, Endpoint_WaitUntilReady fuel l = Ok ENDPOINT_READYWAIT_NoError l' ∧
       view l' = set_mcu (with_in (Some []) (v_sent (hw (mcu l))) (mcu (waited c rest (view l)))) (view l)).
Proof.
  intros Hok Hsel Hfr Hf. split_and!.
  - intros code Hw Hn. pose proof (wait_none (view l) Hsel fuel f frames code Hfr Hf Hw Hn) as Hrun.
    destruct (sim_Ok _ _ _ _ _ (sim_WaitUntilReady fuel) Hok Hrun) as (l' & Hl & Hv & _). by eauto.
  - intros Hw Hq Hch Hfuel. assert (takes_nothing (hw (mcu l)) (f :: frames)) as Hq'.
    { intros E. apply Forall_cons. split; [by apply takes_cons in Hf as [Hf _]; apply Hf|by apply Hq]. }
    destruct (wait_timeout (view l) Hsel fuel f frames Hfr Hq' Hw Hch Hfuel) as (c & used & rest & Hrun & Hs & Hk).
    destruct (sim_Ok _ _ _ _ _ (sim_WaitUntilReady fuel) Hok Hrun) as (l' & Hl & Hv & _). by exists l', c, used, rest.
  - intros waiting g rest Hw H1 Hdir -> Hq Hch Hfuel.
    destruct (wait_served (view l) fuel f waiting g rest Hfr H1 Hdir Hw) as (c & Hrun);
      [apply Forall_cons; split; [by apply takes_cons in Hf as [Hf _]; apply Hf|done]|done..|].
    destruct (sim_Ok _ _ _ _ _ (sim_WaitUntilReady fuel) Hok Hrun) as (l' & Hl & Hv & _). by eauto.
Qed.

(** ** Witness *)

Module WaitDemo.
(** A device whose endpoint 1 is the IN endpoint, with the endpoint [n] selected and these frame numbers to come. *)
Definition demo_wait (n : Z) (frames : list (Z * bool)) : lufa hwview :=
  let l := demo_lufa (demo_header 0 0 0 0) in
  set_mcu (with_uenum n (with_frames frames (with_epreg 1 UECFG0X (BV EPDIR) (mcu l)))) l.
Definition unserved : list (Z * bool) := map (λ n, (Z.of_nat n, false)) (seq 0 150).
Definition served_later : list (Z * bool) := map (λ n, (Z.of_nat n, (n =? 9)%nat)) (seq 0 150).
End WaitDemo.
Import WaitDemo.

(** The OUT endpoint without a packet and the IN endpoint with a packet that
    stays: the timeout; the IN endpoint whose packet the host takes in the
    tenth frame: ready. *)
Lemma WaitUntilReady_returns_witness :
  (∃ l', Endpoint_WaitUntilReady 200 (demo_wait 2 unserved) = Ok ENDPOINT_READYWAIT_Timeout l') ∧
  (∃ l', Endpoint_WaitUntilReady 200 (demo_wait 1 unserved) = Ok ENDPOINT_READYWAIT_Timeout l') ∧
  (∃ l', Endpoint_WaitUntilReady 200 (demo_wait 1 served_later) = Ok ENDPOINT_READYWAIT_NoError l' ∧
         v_in (mcu l') = Some []).
Proof.
  split_and!.
  - destruct (WaitUntilReady_returns 200 (demo_wait 2 unserved) (0, false) (tail unserved))
      as (_ & Ht & _); [done..|].
    destruct Ht as (l' & c & used & rest & Hrun & _); [done|done|by vm_compute; lia|cbn; lia|]. by exists l'.
  - destruct (WaitUntilReady_returns 200 (demo_wait 1 unserved) (0, false) (tail unserved))
      as (_ & Ht & _); [done|done|done|intros _; by repeat constructor|].
    destruct Ht as (l' & c & used & rest & Hrun & _); [done|intros _; repeat constructor|by vm_compute; lia|cbn; lia|].
    by exists l'.
  - destruct (WaitUntilReady_returns 200 (demo_wait 1 served_later) (0, false) (tail served_later))
      as (_ & _ & Hs); [done|done|done|intros _; by repeat constructor|].
    destruct (Hs (take 8 (tail served_later)) 9 (drop 9 (tail served_later))) as (l' & c & Hrun & Hv);
      [done|done|done|done|repeat constructor|by vm_compute; lia|cbn; lia|].
    exists l'. split; [done|]. by apply (f_equal (λ l, v_in (mcu l))) in Hv.
Defined.
