(* ===== verification/PipeFacts.v ===== *)
(** * The byte pipes of the class drivers

    What [pipe_SendByte], [pipe_Flush] and [pipe_ReceiveByte] do to the bank of
    the IN endpoint 1 and to the packet of the OUT endpoint 2, on every
    microcontroller that behaves as documented. *)

From S2P Require Import Prelude StdDescriptors Hardware Lufa Device Endpoint ControlStream Requests Streams.
From S2P Require Import ControlFacts EndpointFacts RequestFacts Driver WaitFacts ClassDriver.

(** The host takes the next [k] packets of the IN endpoint, each within the
    timeout of the wait for it, which is at most [fuel] reads of the frame
    number long. *)
Inductive serves (fuel : nat) : nat → list (Z * bool) → Prop :=
| serves_none frames : serves fuel 0 frames
| serves_next k f waiting g rest :
    Forall (λ f, f.2 = false) (f :: waiting) →
    (frame_changes f.1 (waiting ++ [(g, true)]) ≤ Z.to_nat USB_STREAM_TIMEOUT_MS)%nat →
    (S (length waiting) < fuel)%nat → serves fuel k rest →
    serves fuel (S k) (f :: waiting ++ (g, true) :: rest).

(** It takes nothing for longer than the timeout. *)
Definition unserved (fuel : nat) (f : Z * bool) (frames : list (Z * bool)) : Prop :=
  Forall (λ f, f.2 = false) (f :: frames) ∧
  (Z.to_nat USB_STREAM_TIMEOUT_MS < frame_changes f.1 frames)%nat ∧ (length frames ≤ fuel)%nat.

Section pipe.
Context {H : Type} `{!Mcu H} `{!McuSpec H} (fuel : nat).

(** The bank of the IN endpoint, when the device can fill it, the packets that
    left it, and the packet in the OUT endpoint. *)
Record port (bank : option (list Z)) (sent : list (list Z)) (out : option (list Z)) (l : lufa H) : Prop := {
  pt_ok : hw_ok (mcu l);
  pt_dir : has (v_epregs (hw (mcu l)) 1 UECFG0X) (BV EPDIR) = true;
  pt_stall : has (v_epregs (hw (mcu l)) 1 UECONX) (BV STALLRQ) = false;
  pt_bank : v_in (hw (mcu l)) = bank;
  pt_sent : v_sent (hw (mcu l)) = sent;
  pt_out : v_out (hw (mcu l)) = out;
  pt_dir_out : has (v_epregs (hw (mcu l)) 2 UECFG0X) (BV EPDIR) = false;
}.

(** A run on the view that changes the banks and reads frame numbers only. *)
Lemma port_run_frames {B} (m : M (lufa H) B) m' (l : lufa H) bank sent out bank' sent' out' frames' r lv :
  port bank sent out l → sim m m' → m' (view l) = Ok r lv →
  v_epregs (mcu lv) = v_epregs (hw (mcu l)) → v_in (mcu lv) = bank' → v_sent (mcu lv) = sent' →
  v_out (mcu lv) = out' → v_frames (mcu lv) = frames' → USB_DeviceState lv = USB_DeviceState l →
  ∃ l', m l = Ok r l' ∧ port bank' sent' out' l' ∧ USB_DeviceState l' = USB_DeviceState l ∧
        v_frames (hw (mcu l')) = frames'.
Proof.
  intros [Hok Hdir Hst Hb Hs Ho Hdo] Hsim Hrun He Hb' Hs' Ho' Hf Hd.
  destruct (sim_Ok _ _ _ _ _ Hsim Hok Hrun) as (l' & Hl & Hv & Hok').
  apply (f_equal mcu) in Hv as Hm. cbn in Hm. exists l'. split; [done|].
  split; [split; rewrite ?Hm, ?He; done|]. rewrite <- Hd, <- Hv. split; [done|]. by rewrite Hm.
Qed.

Lemma port_run {B} (m : M (lufa H) B) m' (l : lufa H) bank sent out bank' sent' out' r lv :
  port bank sent out l → sim m m' → m' (view l) = Ok r lv →
  v_epregs (mcu lv) = v_epregs (hw (mcu l)) → v_in (mcu lv) = bank' → v_sent (mcu lv) = sent' →
  v_out (mcu lv) = out' → USB_DeviceState lv = USB_DeviceState l →
  ∃ l', m l = Ok r l' ∧ port bank' sent' out' l' ∧ USB_DeviceState l' = USB_DeviceState l.
Proof.
  intros Hp Hsim Hrun He Hb Hs Ho Hd.
  destruct (port_run_frames _ _ _ _ _ _ _ _ _ _ _ _ Hp Hsim Hrun He Hb Hs Ho eq_refl Hd)
    as (l' & ? & ? & ? & _). by exists l'.
Qed.

Context (IN OUT : Z).
Context (HIN : Z.land IN ENDPOINT_EPNUM_MASK = 1) (HOUT : Z.land OUT ENDPOINT_EPNUM_MASK = 2).

(** ** Sending *)

Lemma SendByte_room l bank sent out b :
  port (Some bank) sent out l → (length bank < 64)%nat →
  ∃ l', pipe_SendByte fuel IN b l = Ok ENDPOINT_READYWAIT_NoError l' ∧
        port (Some (bank ++ [b])) sent out l' ∧ USB_DeviceState l' = USB_DeviceState l ∧
        v_frames (hw (mcu l')) = v_frames (hw (mcu l)).
Proof.
  intros Hp Hroom. pose proof Hp as [_ _ _ Hb Hs Ho _].
  eapply (port_run_frames _ (pipe_SendByte fuel IN b)); [done|solve_sim| |..].
  { unfold pipe_SendByte. run_step (select_run IN (view l)). rewrite HIN.
    run_step (IsReadWriteAllowed_in (restore 1 (view l)) eq_refl bank Hb).
    rewrite bool_decide_eq_true_2 by done. cbn [negb].
    run_step (ret_run ENDPOINT_READYWAIT_NoError (tick (restore 1 (view l)))). cbn [Z.eqb negb ENDPOINT_READYWAIT_NoError].
    run_step (Write_8_in (tick (restore 1 (view l))) eq_refl bank b Hb Hroom). reflexivity. }
  all: done.
Qed.

Lemma BytesInEndpoint_in (l : lufa hwview) bank :
  v_uenum (mcu l) = 1 → v_in (mcu l) = Some bank →
  Endpoint_BytesInEndpoint l = Ok (Z.of_nat (length bank)) l.
Proof.
  intros Hsel Hb. unfold Endpoint_BytesInEndpoint, get_reg, on_mcu, zoom.
  cbn [rd view_Mcu before_read after_read reg_value]. rewrite Hsel. cbn [Z.eqb Pos.eqb].
  rewrite Hb. by destruct l.
Qed.

Lemma Flush_empty l sent out :
  port (Some []) sent out l →
  ∃ l', pipe_Flush fuel IN l = Ok ENDPOINT_READYWAIT_NoError l' ∧
        port (Some []) sent out l' ∧ USB_DeviceState l' = USB_DeviceState l.
Proof.
  intros Hp. pose proof Hp as [_ _ _ Hb Hs Ho _].
  eapply (port_run _ (pipe_Flush fuel IN)); [done|solve_sim| |..].
  { unfold pipe_Flush. run_step (select_run IN (view l)). rewrite HIN.
    run_step (BytesInEndpoint_in (restore 1 (view l)) [] eq_refl Hb). reflexivity. }
  all: done.
Qed.

(** A bank that is not full goes to the host as it is. *)
Lemma Flush_bank l bank sent out :
  port (Some bank) sent out l → (0 < length bank < 64)%nat →
  ∃ l', pipe_Flush fuel IN l = Ok ENDPOINT_READYWAIT_NoError l' ∧
        port None (sent ++ [bank]) out l' ∧ USB_DeviceState l' = USB_DeviceState l ∧
        v_frames (hw (mcu l')) = v_frames (hw (mcu l)).
Proof.
  intros Hp Hlen. pose proof Hp as [_ _ _ Hb Hs Ho _].
  eapply (port_run_frames _ (pipe_Flush fuel IN)); [done|solve_sim| |..].
  { unfold pipe_Flush. run_step (select_run IN (view l)). rewrite HIN.
    run_step (BytesInEndpoint_in (restore 1 (view l)) bank eq_refl Hb).
    destruct (Z.eqb_spec (Z.of_nat (length bank)) 0); [lia|].
    run_step (IsReadWriteAllowed_in (restore 1 (view l)) eq_refl bank Hb).
    rewrite bool_decide_eq_true_2 by lia.
    run_step (ClearIN_view (tick (restore 1 (view l))) eq_refl bank Hb). reflexivity. }
  all: try done. cbn. by rewrite Hs.
Qed.

(** *** A full bank *)

(** The bank was handed over; the device now has to wait for the host. *)
Definition handed (bank : list Z) (l : lufa H) : lufa hwview :=
  set_mcu (with_in None (v_sent (mcu (view l)) ++ [bank]) (mcu (tick (tick (restore 1 (view l))))))
    (tick (restore 1 (view l))).

Lemma handed_waits l bank sent out :
  port (Some bank) sent out l → USB_DeviceState l = DEVICE_STATE_Configured → no_wait (handed bank l) = None.
Proof.
  intros [_ Hdir Hst _ _ _ _] Hd. unfold no_wait, bank_ready, ep_stalled. cbn. by rewrite Hdir, Hst, Hd.
Qed.

(** A full bank makes [SendByte] and [Flush] hand it over and wait. *)
Lemma SendByte_waits l bank sent out b e lv :
  port (Some bank) sent out l → length bank = 64%nat →
  Endpoint_WaitUntilReady fuel (handed bank l) = Ok e lv →
  pipe_SendByte fuel IN b (view l) =
  (if negb (e =? ENDPOINT_READYWAIT_NoError) then mret e
   else Endpoint_Write_8 b;; mret ENDPOINT_READYWAIT_NoError) lv.
Proof.
  intros [_ _ _ Hb _ _ _] Hlen Hw. unfold pipe_SendByte. run_step (select_run IN (view l)). rewrite HIN.
  run_step (IsReadWriteAllowed_in (restore 1 (view l)) eq_refl bank Hb).
  rewrite bool_decide_eq_false_2 by lia. cbn [negb].
  assert ((Endpoint_ClearIN;; Endpoint_WaitUntilReady fuel) (tick (restore 1 (view l))) = Ok e lv) as Hcw
    by (run_step (ClearIN_view (tick (restore 1 (view l))) eq_refl bank Hb); exact Hw).
  by run_step Hcw.
Qed.

Lemma Flush_waits l bank sent out e lv :
  port (Some bank) sent out l → length bank = 64%nat →
  Endpoint_WaitUntilReady fuel (handed bank l) = Ok e lv →
  pipe_Flush fuel IN (view l) =
  (if negb (e =? ENDPOINT_READYWAIT_NoError) then mret e
   else Endpoint_ClearIN;; mret ENDPOINT_READYWAIT_NoError) lv.
Proof.
  intros [_ _ _ Hb _ _ _] Hlen Hw. unfold pipe_Flush. run_step (select_run IN (view l)). rewrite HIN.
  run_step (BytesInEndpoint_in (restore 1 (view l)) bank eq_refl Hb).
  destruct (Z.eqb_spec (Z.of_nat (length bank)) 0); [lia|].
  run_step (IsReadWriteAllowed_in (restore 1 (view l)) eq_refl bank Hb).
  rewrite bool_decide_eq_false_2 by lia. cbn [negb].
  run_step (ClearIN_view (tick (restore 1 (view l))) eq_refl bank Hb). by run_step Hw.
Qed.

(** A host that takes the packet: a byte starts the next bank, and a transfer
    that ends with a full packet is ended by an empty one. *)
Lemma SendByte_served l bank sent out b k :
  port (Some bank) sent out l → length bank = 64%nat → USB_DeviceState l = DEVICE_STATE_Configured →
  serves fuel (S k) (v_frames (hw (mcu l))) →
  ∃ l', pipe_SendByte fuel IN b l = Ok ENDPOINT_READYWAIT_NoError l' ∧
        port (Some [b]) (sent ++ [bank]) out l' ∧ USB_DeviceState l' = USB_DeviceState l ∧
        serves fuel k (v_frames (hw (mcu l'))).
Proof.
  intros Hp Hlen Hd Hsv. inversion Hsv as [|? f waiting g rest Hq Hch Hf Hk Hn Hfr]. subst.
  destruct (wait_served (handed bank l) fuel f waiting g rest) as (c & Hw);
    [done|done|apply Hp|by eapply handed_waits|done..|].
  pose proof (SendByte_waits l bank sent out b _ _ Hp Hlen Hw) as Hrun.
  cbn [negb Z.eqb ENDPOINT_READYWAIT_NoError] in Hrun.
  set (lv := set_mcu _ _) in Hrun, Hw. assert (v_in (mcu lv) = Some [] ∧ v_uenum (mcu lv) = 1) as [Hin Hu] by done.
  assert (pipe_SendByte fuel IN b (view l) = Ok ENDPOINT_READYWAIT_NoError
    (set_mcu (with_in (Some ([] ++ [b])) (v_sent (mcu lv)) (mcu lv)) lv)) as Hall.
  { rewrite Hrun. clear -Hin Hu. clearbody lv.
    assert ((length (@nil Z) < 64)%nat) as Hroom by (cbn; lia). by run_step (Write_8_in lv Hu [] b Hin Hroom). }
  destruct (port_run_frames (pipe_SendByte fuel IN b) (pipe_SendByte fuel IN b) l _ _ _ (Some [b]) (sent ++ [bank]) out rest _ _ Hp
    ltac:(solve_sim) Hall) as (l' & Hl & Hp' & Hd' & Hfr'); try done; [|by apply Hp|].
  - cbn. by rewrite (pt_sent _ _ _ _ Hp).
  - exists l'. by rewrite Hfr'.
Qed.

Lemma Flush_served l bank sent out k :
  port (Some bank) sent out l → length bank = 64%nat → USB_DeviceState l = DEVICE_STATE_Configured →
  serves fuel (S k) (v_frames (hw (mcu l))) →
  ∃ l', pipe_Flush fuel IN l = Ok ENDPOINT_READYWAIT_NoError l' ∧
        port None (sent ++ [bank; []]) out l' ∧ USB_DeviceState l' = USB_DeviceState l.
Proof.
  intros Hp Hlen Hd Hsv. inversion Hsv as [|? f waiting g rest Hq Hch Hf Hk Hn Hfr]. subst.
  destruct (wait_served (handed bank l) fuel f waiting g rest) as (c & Hw);
    [done|done|apply Hp|by eapply handed_waits|done..|].
  pose proof (Flush_waits l bank sent out _ _ Hp Hlen Hw) as Hrun.
  cbn [negb Z.eqb ENDPOINT_READYWAIT_NoError] in Hrun.
  set (lv := set_mcu _ _) in Hrun, Hw. assert (v_in (mcu lv) = Some [] ∧ v_uenum (mcu lv) = 1) as [Hin Hu] by done.
  assert (pipe_Flush fuel IN (view l) = Ok ENDPOINT_READYWAIT_NoError
    (set_mcu (with_in None (v_sent (mcu lv) ++ [[]]) (mcu (tick lv))) lv)) as Hall.
  { rewrite Hrun. clear -Hin Hu. clearbody lv. by run_step (ClearIN_view lv Hu [] Hin). }
  eapply (port_run _ (pipe_Flush fuel IN)); [done|solve_sim|exact Hall|..].
  all: try done. all: try by apply Hp. cbn. by rewrite (pt_sent _ _ _ _ Hp), <- app_assoc.
Qed.

(** A host that takes nothing: the bank is handed over and the timeout is
    reported; the byte that was to follow is lost. *)
Lemma wait_unserved l bank sent out f frames :
  port (Some bank) sent out l → USB_DeviceState l = DEVICE_STATE_Configured →
  v_frames (hw (mcu l)) = f :: frames → unserved fuel f frames →
  ∃ c rest, Endpoint_WaitUntilReady fuel (handed bank l) =
    Ok ENDPOINT_READYWAIT_Timeout (waited c rest (handed bank l)).
Proof.
  intros Hp Hd Hfr (Hq & Hch & Hfuel).
  destruct (wait_timeout (handed bank l) ltac:(done) fuel f frames) as (c & used & rest & Hw & _);
    [done|by intros _|by eapply handed_waits|done|done|]. by exists c, rest.
Qed.

Lemma SendByte_unserved l bank sent out b f frames :
  port (Some bank) sent out l → length bank = 64%nat → USB_DeviceState l = DEVICE_STATE_Configured →
  v_frames (hw (mcu l)) = f :: frames → unserved fuel f frames →
  ∃ l', pipe_SendByte fuel IN b l = Ok ENDPOINT_READYWAIT_Timeout l' ∧
        port None (sent ++ [bank]) out l' ∧ USB_DeviceState l' = USB_DeviceState l.
Proof.
  intros Hp Hlen Hd Hfr Hu. destruct (wait_unserved l bank sent out f frames Hp Hd Hfr Hu) as (c & rest & Hw).
  eapply (port_run _ (pipe_SendByte fuel IN b)); [done|solve_sim| |..].
  { by rewrite (SendByte_waits l bank sent out b _ _ Hp Hlen Hw). }
  all: try done. all: try by apply Hp. cbn. by rewrite (pt_sent _ _ _ _ Hp).
Qed.

Lemma Flush_unserved l bank sent out f frames :
  port (Some bank) sent out l → length bank = 64%nat → USB_DeviceState l = DEVICE_STATE_Configured →
  v_frames (hw (mcu l)) = f :: frames → unserved fuel f frames →
  ∃ l', pipe_Flush fuel IN l = Ok ENDPOINT_READYWAIT_Timeout l' ∧
        port None (sent ++ [bank]) out l' ∧ USB_DeviceState l' = USB_DeviceState l.
Proof.
  intros Hp Hlen Hd Hfr Hu. destruct (wait_unserved l bank sent out f frames Hp Hd Hfr Hu) as (c & rest & Hw).
  eapply (port_run _ (pipe_Flush fuel IN)); [done|solve_sim| |..].
  { by rewrite (Flush_waits l bank sent out _ _ Hp Hlen Hw). }
  all: try done. all: try by apply Hp. cbn. by rewrite (pt_sent _ _ _ _ Hp).
Qed.

(** ** Receiving *)

Lemma BytesInEndpoint_out (l : lufa hwview) p :
  v_uenum (mcu l) = 2 → v_out (mcu l) = Some p →
  Endpoint_BytesInEndpoint l = Ok (Z.of_nat (length p)) l.
Proof.
  intros Hsel Hp. unfold Endpoint_BytesInEndpoint, get_reg, on_mcu, zoom.
  cbn [rd view_Mcu before_read after_read reg_value]. rewrite Hsel. cbn [Z.eqb Pos.eqb].
  rewrite Hp. by destruct l.
Qed.

(** The number of bytes that wait; an empty packet is dropped. *)
Lemma BytesReceived_run l bank sent p :
  port bank sent (Some p) l →
  ∃ l', pipe_BytesReceived OUT l = Ok (Z.of_nat (length p)) l' ∧
        port bank sent (match p with [] => None | _ => Some p end) l' ∧ USB_DeviceState l' = USB_DeviceState l.
Proof.
  intros Hp. pose proof Hp as [_ _ _ Hb Hs Ho _].
  eapply (port_run _ (pipe_BytesReceived OUT)); [done|solve_sim| |..].
  { unfold pipe_BytesReceived. run_step (select_run OUT (view l)). rewrite HOUT.
    run_step (IsOUTReceived_view (restore 2 (view l)) eq_refl).
    rewrite bool_decide_eq_true_2 by (cbn; rewrite Ho; by eexists).
    run_step (BytesInEndpoint_out (tick (restore 2 (view l))) p eq_refl Ho).
    instantiate (1 := if (Z.of_nat (length p) =? 0)
      then set_mcu (with_out None (mcu (tick (tick (restore 2 (view l)))))) (tick (restore 2 (view l)))
      else tick (restore 2 (view l))).
    destruct p as [|b p]; [change (Z.of_nat (length [])) with 0; cbn [Z.eqb]|].
    - by run_step (ClearOUT_view (tick (restore 2 (view l))) eq_refl [] Ho).
    - destruct (Z.eqb_spec (Z.of_nat (length (b :: p))) 0) as [E|_]; [cbn in E; lia|].
      apply (BytesInEndpoint_out (tick (restore 2 (view l))) (b :: p) eq_refl Ho). }
  all: destruct p as [|b p]; done.
Qed.

(** The next byte; the bank is released with the last one. *)
Lemma ReceiveByte_some l bank sent b p :
  port bank sent (Some (b :: p)) l →
  ∃ l', pipe_ReceiveByte OUT l = Ok b l' ∧
        port bank sent (match p with [] => None | _ => Some p end) l' ∧ USB_DeviceState l' = USB_DeviceState l.
Proof.
  intros Hp. pose proof Hp as [_ _ _ Hb Hs Ho _].
  set (lv := set_mcu (with_out (Some p) (mcu (tick (restore 2 (view l))))) (tick (restore 2 (view l)))).
  eapply (port_run _ (pipe_ReceiveByte OUT)); [done|solve_sim| |..].
  { unfold pipe_ReceiveByte. run_step (select_run OUT (view l)). rewrite HOUT.
    run_step (IsOUTReceived_view (restore 2 (view l)) eq_refl).
    rewrite bool_decide_eq_true_2 by (cbn; rewrite Ho; by eexists).
    run_step (BytesInEndpoint_out (tick (restore 2 (view l))) (b :: p) eq_refl Ho).
    destruct (Z.eqb_spec (Z.of_nat (length (b :: p))) 0) as [E|_]; [cbn in E; lia|].
    run_step (Read_8_out (tick (restore 2 (view l))) eq_refl b p Ho).
    run_step (BytesInEndpoint_out lv p eq_refl eq_refl).
    instantiate (1 := if (Z.of_nat (length p) =? 0) then set_mcu (with_out None (mcu (tick lv))) lv else lv).
    destruct p as [|b' p]; [change (Z.of_nat (length [])) with 0; cbn [Z.eqb]|].
    - by run_step (ClearOUT_view lv eq_refl [] eq_refl).
    - by destruct (Z.eqb_spec (Z.of_nat (length (b' :: p))) 0). }
  all: destruct p as [|b' p]; done.
Qed.

Lemma ReceiveByte_none l bank sent :
  port bank sent None l →
  ∃ l', pipe_ReceiveByte OUT l = Ok (-1) l' ∧
        port bank sent None l' ∧ USB_DeviceState l' = USB_DeviceState l.
Proof.
  intros Hp. pose proof Hp as [_ _ _ Hb Hs Ho _].
  eapply (port_run _ (pipe_ReceiveByte OUT)); [done|solve_sim| |..].
  { unfold pipe_ReceiveByte. run_step (select_run OUT (view l)). rewrite HOUT.
    run_step (IsOUTReceived_view (restore 2 (view l)) eq_refl).
    rewrite bool_decide_eq_false_2 by (cbn; rewrite Ho; by intros []). reflexivity. }
  all: done.
Qed.
(** An empty packet is dropped. *)
Lemma ReceiveByte_empty l bank sent :
  port bank sent (Some []) l →
  ∃ l', pipe_ReceiveByte OUT l = Ok (-1) l' ∧
        port bank sent None l' ∧ USB_DeviceState l' = USB_DeviceState l.
Proof.
  intros Hp. pose proof Hp as [_ _ _ Hb Hs Ho _].
  eapply (port_run _ (pipe_ReceiveByte OUT)); [done|solve_sim| |..].
  { unfold pipe_ReceiveByte. run_step (select_run OUT (view l)). rewrite HOUT.
    run_step (IsOUTReceived_view (restore 2 (view l)) eq_refl).
    rewrite bool_decide_eq_true_2 by (cbn; rewrite Ho; by eexists).
    run_step (BytesInEndpoint_out (tick (restore 2 (view l))) [] eq_refl Ho).
    change (Z.of_nat (length []) =? 0) with true. cbv iota.
    run_step (ret_run (-1) (tick (restore 2 (view l)))).
    run_step (BytesInEndpoint_out (tick (restore 2 (view l))) [] eq_refl Ho).
    change (Z.of_nat (length []) =? 0) with true. cbv iota.
    run_step (ClearOUT_view (tick (restore 2 (view l))) eq_refl [] Ho). reflexivity. }
  all: done.
Qed.

(** The task hands over what waits in the bank. *)
Lemma task_flushes l bank sent out :
  port (Some bank) sent out l → (0 < length bank < 64)%nat →
  ∃ l', pipe_task fuel IN l = Ok tt l' ∧
        port None (sent ++ [bank]) out l' ∧ USB_DeviceState l' = USB_DeviceState l.
Proof.
  intros Hp Hlen. pose proof Hp as [_ _ _ Hb _ _ _].
  assert (∃ l1, (Endpoint_SelectEndpoint IN;; Endpoint_IsINReady) l = Ok true l1 ∧
    port (Some bank) sent out l1 ∧ USB_DeviceState l1 = USB_DeviceState l) as (l1 & Hrun & Hp1 & Hd1).
  { eapply (port_run _ (Endpoint_SelectEndpoint IN;; Endpoint_IsINReady)); [done|solve_sim| |..].
    { run_step (select_run IN (view l)). rewrite HIN.
      rewrite (IsINReady_view (restore 1 (view l)) eq_refl).
      rewrite bool_decide_eq_true_2 by (cbn; rewrite Hb; by eexists). reflexivity. }
    all: by destruct Hp. }
  destruct (Flush_bank l1 bank sent out Hp1 Hlen) as (l2 & Hrun2 & Hp2 & Hd2 & _).
  exists l2. rewrite Hd2. split; [|done]. unfold pipe_task.
  rewrite <- (bind_assoc (Endpoint_SelectEndpoint IN) (λ _, Endpoint_IsINReady)).
  run_step Hrun. by run_step Hrun2.
Qed.
End pipe.
