(* ===== verification/CDCFacts.v ===== *)
(** * The CDC-ACM class driver: the virtual serial port works

    The line encoding that the host sets is the one that it reads back; the
    bytes that the application sends leave in packets, and the bytes of a packet
    from the host come out in order. *)

From S2P Require Import Prelude StdDescriptors Hardware Lufa Device Endpoint ControlStream Requests Streams.
From S2P Require Import ControlFacts EndpointFacts RequestFacts ControlWrite Driver StatusFacts WaitFacts.
From S2P Require Import ClassDriver ClassFacts PipeFacts HIDClassFacts CDCClassDevice.

(** ** The line encoding *)

(** The seven bytes of a line encoding, as they are on the bus. *)
Definition line_encoding_of (data : list Z) : CDC_LineEncoding_t :=
  match data with
  | [b0; b1; b2; b3; f; p; d] =>
      {| BaudRateBPS := b0 + 256 * b1 + 65536 * b2 + 16777216 * b3; CharFormat := f; ParityType := p;
         DataBits := d |}
  | _ => {| BaudRateBPS := 0; CharFormat := 0; ParityType := 0; DataBits := 0 |}
  end.

Definition line_encoding_bytes (e : CDC_LineEncoding_t) : list Z :=
  [Z.land (BaudRateBPS e) 0xFF; u8 (Z.shiftr (BaudRateBPS e) 8); u8 (Z.shiftr (BaudRateBPS e) 16);
   u8 (Z.shiftr (BaudRateBPS e) 24); CharFormat e; ParityType e; DataBits e].

Lemma line_encoding_bytes_of data :
  length data = 7%nat → bytes data → line_encoding_bytes (line_encoding_of data) = data.
Proof.
  intros Hlen Hb. destruct data as [|b0 [|b1 [|b2 [|b3 [|f [|p [|d []]]]]]]]; try done.
  repeat apply Forall_cons in Hb as [? Hb]. unfold is_u8 in *.
  unfold line_encoding_bytes, line_encoding_of. cbn [BaudRateBPS CharFormat ParityType DataBits].
  unfold u8. change 0xFF with (Z.ones 8). rewrite Z.land_ones, !Z.shiftr_div_pow2 by lia.
  change (2 ^ 8) with 256. change (2 ^ 16) with 65536. change (2 ^ 24) with 16777216.
  do 4 (apply (f_equal2 cons); [div_lia|]). done.
Qed.

Section view.
Context (fuel : nat) (l : lufa hwview) (Hsel : v_uenum (mcu l) = 0).

(** The data register is written and read. *)
Lemma uedatx_write c b : set_reg UEDATX b (at_ctl c l) = Ok tt (at_ctl (push_bank b c) l).
Proof. exact (ctl_Write_8 l Hsel c b). Qed.
Lemma uedatx_read c b p :
  c_setup c = None → c_out c = Some (b :: p) → get_reg UEDATX (at_ctl c l) = Ok b (at_ctl (set_out_bank p c) l).
Proof. exact (ctl_Read_out l Hsel c b p). Qed.

Lemma write_line_encoding_view e c :
  write_line_encoding e (at_ctl c l) = Ok tt (at_ctl (push_all (line_encoding_bytes e) c) l).
Proof.
  unfold write_line_encoding, Endpoint_Write_32_LE, Endpoint_Write_8, mbind, M_bind.
  rewrite !uedatx_write. do 2 f_equal. unfold push_bank, push_all, line_encoding_bytes. cbn.
  by rewrite <- !app_assoc.
Qed.

Lemma read_line_encoding_view data c :
  c_setup c = None → c_out c = Some data → length data = 7%nat →
  read_line_encoding (at_ctl c l) = Ok (line_encoding_of data) (at_ctl (set_out_bank [] c) l).
Proof.
  intros Hs Ho Hlen. destruct data as [|b0 [|b1 [|b2 [|b3 [|f [|p [|d []]]]]]]]; try done.
  unfold read_line_encoding, Endpoint_Read_32_LE, Endpoint_Read_8, mbind, M_bind, mret, M_ret.
  rewrite (uedatx_read c _ _ Hs Ho).
  do 6 (cbv beta iota; erewrite uedatx_read by (reflexivity || exact Hs)). done.
Qed.

(** The request of the host, whose data comes in one packet. *)
Lemma SetLineEncoding_view data c :
  has (bmRequestType (USB_ControlRequest l)) REQDIR_DEVICETOHOST = false →
  USB_DeviceState l ≠ DEVICE_STATE_Unattached ∧ USB_DeviceState l ≠ DEVICE_STATE_Suspended →
  receiving data (drop_setup c) → c_setup c = Some [] → c_out c = None → h_data (c_host c) = [data] →
  length data = 7%nat → (send_wait c < fuel)%nat →
  ∃ c', SetLineEncoding fuel (at_ctl c l) = Ok (Some (line_encoding_of data)) (at_ctl c' l) ∧ acked c'.
Proof.
  intros Hdir Hst Hrv Hs Ho Hd Hlen Hf. unfold SetLineEncoding. run_step (ctl_ClearSETUP l Hsel c).
  destruct (receiving_setup_tick _ _ _ Hrv Hs Ho) as (Hrv1 & _ & Ho1 & Hd1 & Hw1). rewrite Hd in Hd1.
  assert (send_wait (drop_setup (host_tick c)) = send_wait (host_tick c)) as Hw by done.
  rewrite <- (app_nil_r data) in Hrv1.
  destruct (status_wait_packet l Hsel Hst fuel data [] _ Hrv1) as (c2 & Hrun & Hc2 & Hout & _);
    [cbn; by rewrite Ho1, Hd1|lia|].
  run_step Hrun. cbn [negb]. run_step (read_line_encoding_view data c2 (rv_setup _ _ Hc2) Hout Hlen).
  run_step (ctl_ClearOUT l Hsel (set_out_bank [] c2)). rewrite (tick_set_out _ _ _ _ Hc2 Hout).
  change (drop_out (set_out_bank [] ?c)) with (drop_out c).
  destruct (receiving_tick _ _ Hc2) as (Hc3 & _ & _ & Hk3). rewrite Hout in Hk3.
  destruct (receiving_dropped _ data _ Hc3 (Hk3 ltac:(by eexists))) as (_ & rest' & Hr & Hc4 & _).
  apply app_inv_head in Hr as <-. pose proof (receiving_arriving _ Hc4) as Ha.
  destruct (ClearStatusStage_IN fuel l _ Hsel ltac:(lia) (drop_out (host_tick c2)) Hdir (rv_setup _ _ Hc4) Ha)
    as (c5 & Hrun5 & Hack & _).
  run_step Hrun5. by exists c5.
Qed.
End view.

Section facts.
Context {H A : Type} `{!Mcu H} `{!McuSpec H} (fuel : nat).
Context (LineEncodingChanged ControLineStateChanged : USB_ClassInfo_CDC_Device_t → M A unit).
Context (BreakSent : USB_ClassInfo_CDC_Device_t → Z → M A unit).
Abbreviation process := (CDC_Device_ProcessControlRequest fuel LineEncodingChanged ControLineStateChanged BreakSent).

Lemma sim_GetLineEncoding e : sim (H := H) (write_line_encoding e) (write_line_encoding e).
Proof. solve_sim. Qed.
Lemma sim_SetLineEncoding : sim (H := H) (SetLineEncoding fuel) (SetLineEncoding fuel).
Proof. solve_sim. Qed.

(** The handler reaches its [switch]. *)
Lemma CDC_begin (P : lufa H → Prop) q (s : cdc H A) :
  (∃ l', on_lib Endpoint_IsSETUPReceived s = Ok true (set_lib l' s) ∧ P l' ∧ USB_ControlRequest l' = q) →
  wIndex q = ControlInterfaceNumber (info s) →
  ∃ l', P l' ∧ process s =
    CDC_switch fuel LineEncodingChanged ControLineStateChanged BreakSent q (info s) (set_lib l' s).
Proof.
  intros (l' & Hrun & HP & Hq) Hi. exists l'. split; [done|].
  unfold CDC_Device_ProcessControlRequest. run_step Hrun. cbn [negb].
  run_step (request_run (set_lib l' s)). cbn [lib set_lib]. rewrite Hq.
  run_step (gets_run info (set_lib l' s)). cbn [info set_lib]. by rewrite Hi, Z.eqb_refl.
Qed.

Lemma process_get_line q (s : cdc H A) :
  pending fuel q (lib s) → wIndex q = ControlInterfaceNumber (info s) →
  bRequest q = CDC_REQ_GetLineEncoding → bmRequestType q = class_request REQDIR_DEVICETOHOST →
  7 ≤ wLength q →
  ∃ l', process s = Ok tt (set_lib l' s) ∧
        delivered (line_encoding_bytes (LineEncoding (info s))) (v_ctl (hw (mcu l'))).
Proof.
  intros Hp Hi Hr Ht Hlen.
  destruct (CDC_begin (pending fuel q) q s) as (l1 & Hp1 & ->); [|done|].
  { destruct (IsSETUPReceived_pending fuel q s Hp) as (l' & Hrun & Hp' & _).
    exists l'. split; [done|]. split; [done|]. apply Hp'. }
  unfold CDC_switch. rewrite Hr, Ht. switch_case. unfold GetLineEncoding.
  destruct (reply_run fuel q (set_lib l1 s) (wait_until fuel Endpoint_IsINReady)
    (wait_until fuel Endpoint_IsINReady) tt (write_line_encoding (LineEncoding (info s)))
    (write_line_encoding (LineEncoding (info s))) (line_encoding_bytes (LineEncoding (info s))) Hp1)
    as (l2 & Hrun & Hd & _); [by rewrite Ht|cbn; lia|cbn; lia|solve_sim|apply sim_GetLineEncoding| | |].
  - intros l c Hsel Hb. apply wait_ready_free; [done| |done]. destruct Hp1 as [_ _ _ _ _ _ _ Hf]. lia.
  - intros l c Hsel. by apply write_line_encoding_view.
  - exists l2. split; [exact Hrun|done].
Qed.

(** C35: The virtual serial port keeps the settings of the host.  The seven bytes
    of [SET_LINE_ENCODING], sent in one packet after any delays, are stored,
    the request is acknowledged and the application is told; a later
    [GET_LINE_ENCODING] that finds the structure as it was left delivers
    exactly the same bytes. *)
Theorem line_encoding_roundtrip q data (s : cdc H A) a' :
  pending_data fuel q [data] (lib s) →
  length data = 7%nat → bytes data → wIndex q = ControlInterfaceNumber (info s) →
  bRequest q = CDC_REQ_SetLineEncoding → bmRequestType q = class_request REQDIR_HOSTTODEVICE →
  LineEncodingChanged (set_LineEncoding (line_encoding_of data) (info s)) (app s) = Ok tt a' →
  ∃ l1 i1, process s = Ok tt (Build_driver l1 i1 a') ∧ acked (v_ctl (hw (mcu l1))) ∧
    LineEncoding i1 = line_encoding_of data ∧
    ∀ q2 l a, pending fuel q2 l → wIndex q2 = ControlInterfaceNumber i1 →
      bRequest q2 = CDC_REQ_GetLineEncoding → bmRequestType q2 = class_request REQDIR_DEVICETOHOST →
      7 ≤ wLength q2 →
      ∃ l2, process (Build_driver l i1 a) = Ok tt (Build_driver l2 i1 a) ∧
        delivered data (v_ctl (hw (mcu l2))).
Proof.
  intros Hp Hlen Hb Hi Hr Ht Hev.
  destruct (CDC_begin (pending_data fuel q [data]) q s) as (l1 & Hp1 & ->); [|done|].
  { destruct (IsSETUPReceived_data fuel q [data] s Hp) as (l' & Hrun & Hp').
    exists l'. split; [done|]. split; [done|]. apply Hp'. }
  unfold CDC_switch. rewrite Hr, Ht. switch_case.
  destruct Hp1 as [Hok Hq Hwf Hst Hsel Hset Hout Hpk Hrv _ [Hf1 Hf2]].
  cbn in Hrv. rewrite app_nil_r in Hrv. set (c := v_ctl (hw (mcu l1))) in *.
  destruct (SetLineEncoding_view fuel (view l1) Hsel data c) as (c' & Hrun & Hack);
    [cbn; by rewrite Hq, Ht|done..|].
  change c with (v_ctl (mcu (view l1))) in Hrun. rewrite at_ctl_self in Hrun.
  destruct (on_lib_run _ _ (set_lib l1 s) _ _ sim_SetLineEncoding Hok Hrun) as (l2 & Hrun2 & Hv2 & _).
  apply (f_equal mcu) in Hv2. cbn in Hv2. run_step Hrun2.
  exists l2, (set_LineEncoding (line_encoding_of data) (info s)). split; [|split; [by rewrite Hv2|split; [done|]]].
  - unfold upd_info. run_step (modify_run (λ s : cdc H A, Build_driver (lib s)
      (set_LineEncoding (line_encoding_of data) (info s)) (app s)) (set_lib l2 (set_lib l1 s))).
    unfold raise. set (s2 := Build_driver _ _ _). run_step (gets_run info s2).
    by rewrite (on_app_run (LineEncodingChanged (info s2)) s2 tt a' Hev).
  - intros q2 l a Hp2 Hi2 Hr2 Ht2 Hlen2.
    destruct (process_get_line q2 (Build_driver l (set_LineEncoding (line_encoding_of data) (info s)) a))
      as (l3 & Hrun3 & Hd3); [done..|].
    exists l3. split; [exact Hrun3|]. cbn in Hd3. by rewrite line_encoding_bytes_of in Hd3.
Qed.

(** ** The data pipes *)

(** The host has opened the port. *)
Record opened (bank : option (list Z)) (sent : list (list Z)) (out : option (list Z)) (s : cdc H A) : Prop := {
  op_port : port bank sent out (lib s);
  op_state : USB_DeviceState (lib s) = DEVICE_STATE_Configured;
  op_baud : BaudRateBPS (LineEncoding (info s)) ≠ 0;
  op_in : Z.land (in_address (info s)) ENDPOINT_EPNUM_MASK = 1;
  op_out : Z.land (out_address (info s)) ENDPOINT_EPNUM_MASK = 2;
}.

Lemma connected_run {B} bank sent out bank' sent' out' (r x : B) body (s : cdc H A) l' :
  opened bank sent out s → body (info s) (lib s) = Ok x l' → port bank' sent' out' l' →
  USB_DeviceState l' = USB_DeviceState (lib s) →
  connected r body s = Ok x (set_lib l' s) ∧ opened bank' sent' out' (set_lib l' s).
Proof.
  intros [Hp Hst Hb Hi Ho] Hrun Hp' Hst'. unfold connected.
  run_step (eq_refl : on_lib (gets USB_DeviceState) s = Ok (USB_DeviceState (lib s)) (set_lib (lib s) s)).
  run_step (gets_run info (set_lib (lib s) s)). cbn [info set_lib].
  rewrite Hst, bool_decide_eq_true_2 by done. rewrite (proj2 (Z.eqb_neq _ _) Hb). cbn [negb orb].
  split; [unfold on_lib, zoom; cbn [lib set_lib]; by rewrite Hrun|]. split; try done. cbn. by rewrite Hst'.
Qed.

Lemma connected_opened {B} bank sent out bank' sent' out' (r x : B) body (s : cdc H A) :
  opened bank sent out s →
  (∃ l', body (info s) (lib s) = Ok x l' ∧ port bank' sent' out' l' ∧ USB_DeviceState l' = USB_DeviceState (lib s)) →
  ∃ l', connected r body s = Ok x (set_lib l' s) ∧ opened bank' sent' out' (set_lib l' s).
Proof. intros Ho (l' & Hrun & Hp & Hd). exists l'. by eapply connected_run. Qed.

(** A device that is not configured, or whose port was never set up. *)
Lemma connected_closed {B} (r : B) body (s : cdc H A) :
  USB_DeviceState (lib s) ≠ DEVICE_STATE_Configured ∨ BaudRateBPS (LineEncoding (info s)) = 0 →
  connected r body s = Ok r s.
Proof.
  intros Hc. unfold connected.
  run_step (eq_refl : on_lib (gets USB_DeviceState) s = Ok (USB_DeviceState (lib s)) (set_lib (lib s) s)).
  run_step (gets_run info (set_lib (lib s) s)). cbn [info set_lib].
  destruct Hc as [Hc|Hc].
  - rewrite bool_decide_eq_false_2 by done. by destruct s.
  - rewrite Hc, Z.eqb_refl, orb_true_r. by destruct s.
Qed.

(** The application sends bytes until an error. *)
Fixpoint send_all (bs : list Z) : M (cdc H A) Z :=
  match bs with
  | [] => mret ENDPOINT_READYWAIT_NoError
  | b :: bs =>
      e ← CDC_Device_SendByte fuel b;
      if e =? ENDPOINT_READYWAIT_NoError then send_all bs else mret e
  end.

Lemma concat_packets (ps : list (list Z)) :
  Forall (λ p, length p = 64%nat) ps → length (concat ps) = (64 * length ps)%nat.
Proof. induction 1 as [|p ps Hp _ IH]; cbn; [done|]. rewrite length_app, Hp, IH. lia. Qed.

(** The application asks for [n] bytes. *)
Fixpoint receive (n : nat) : M (cdc H A) (list Z) :=
  match n with
  | O => mret []
  | S n => b ← CDC_Device_ReceiveByte; bs ← receive n; mret (b :: bs)
  end.

(** One byte: it joins the bank, or a full bank is handed over and it starts the next. *)
Lemma SendByte_step b bank sent out k (s : cdc H A) :
  opened (Some bank) sent out s → (length bank < 64)%nat ∨ length bank = 64%nat ∧ (0 < k)%nat →
  serves fuel k (v_frames (hw (mcu (lib s)))) →
  ∃ l' full bank', CDC_Device_SendByte fuel b s = Ok ENDPOINT_READYWAIT_NoError (set_lib l' s) ∧
    opened (Some bank') (sent ++ full) out (set_lib l' s) ∧ serves fuel (k - length full) (v_frames (hw (mcu l'))) ∧
    concat full ++ bank' = bank ++ [b] ∧ Forall (λ p, length p = 64%nat) full ∧
    (0 < length bank' ≤ 64)%nat.
Proof.
  intros Ho Hroom Hsv. pose proof Ho as [Hp Hst _ Hi _]. destruct Hroom as [Hroom|[Hfull Hk]].
  - destruct (SendByte_room fuel _ Hi (lib s) bank sent out b Hp Hroom) as (l' & Hrun & Hp' & Hd & Hfr).
    destruct (connected_run _ _ _ (Some (bank ++ [b])) sent out ENDPOINT_RWSTREAM_DeviceDisconnected _
      (λ i, pipe_SendByte fuel (in_address i) b) s l' Ho Hrun Hp' Hd) as [Hc Ho'].
    exists l', [], (bank ++ [b]). rewrite app_nil_r, Hfr, Nat.sub_0_r, length_app. cbn.
    split_and!; try done; first [lia | constructor].
  - destruct k as [|k]; [lia|].
    destruct (SendByte_served fuel _ Hi (lib s) bank sent out b k Hp Hfull Hst Hsv)
      as (l' & Hrun & Hp' & Hd & Hfr).
    destruct (connected_run _ _ _ (Some [b]) (sent ++ [bank]) out ENDPOINT_RWSTREAM_DeviceDisconnected _
      (λ i, pipe_SendByte fuel (in_address i) b) s l' Ho Hrun Hp' Hd) as [Hc Ho'].
    exists l', [bank], [b]. cbn [length concat app]. rewrite app_nil_r, Nat.sub_succ, Nat.sub_0_r.
    split_and!; try done; first [lia | by apply Forall_singleton].
Qed.

(** The bytes fill banks, of which each full one is handed over when the next
    byte comes; [k] of them may have to be waited for. *)
Lemma send_all_run bs : ∀ bank sent out k (s : cdc H A),
  opened (Some bank) sent out s → (length bank ≤ 64)%nat → (length bank + length bs ≤ 64 * S k)%nat →
  serves fuel k (v_frames (hw (mcu (lib s)))) →
  ∃ l' full bank', send_all bs s = Ok ENDPOINT_READYWAIT_NoError (set_lib l' s) ∧
    opened (Some bank') (sent ++ full) out (set_lib l' s) ∧ serves fuel (k - length full) (v_frames (hw (mcu l'))) ∧
    concat full ++ bank' = bank ++ bs ∧ Forall (λ p, length p = 64%nat) full ∧
    (length bank' ≤ 64)%nat ∧ (bank ++ bs ≠ [] → bank' ≠ []).
Proof.
  induction bs as [|b bs IH]; intros bank sent out k s Ho Hb Hlen Hsv; cbn [send_all].
  { exists (lib s), [], bank. rewrite !app_nil_r, Nat.sub_0_r. destruct s. by split_and!. }
  cbn [length] in Hlen.
  destruct (SendByte_step b bank sent out k s Ho) as (l1 & full1 & bank1 & Hrun & Ho1 & Hsv1 & Hc1 & Hf1 & Hb1);
    [lia|done|].
  pose proof (f_equal length Hc1) as Hn1. rewrite !length_app, (concat_packets _ Hf1) in Hn1. cbn [length] in Hn1.
  run_step Hrun. cbn [Z.eqb ENDPOINT_READYWAIT_NoError].
  destruct (IH bank1 (sent ++ full1) out (k - length full1)%nat (set_lib l1 s) Ho1)
    as (l2 & full2 & bank2 & Hrun2 & Ho2 & Hsv2 & Hc2 & Hf2 & Hb2 & Hne); [lia|lia|done|].
  exists l2, (full1 ++ full2), bank2. rewrite <- app_assoc in Ho2.
  split; [done|]. split; [done|]. split; [by rewrite length_app, Nat.sub_add_distr|].
  split; [rewrite concat_app, <- app_assoc, Hc2, app_assoc, Hc1, <- app_assoc; done|].
  split; [by apply Forall_app|]. split; [done|]. intros _. apply Hne. destruct bank1; [cbn in Hb1; lia|done].
Qed.

(** Sending and flushing, to a host that takes the packets. *)
Lemma send_flush_run bs sent out (s : cdc H A) :
  opened (Some []) sent out s → bs ≠ [] → serves fuel (length bs / 64) (v_frames (hw (mcu (lib s)))) →
  ∃ l' full rest, (send_all bs;; CDC_Device_Flush fuel) s = Ok ENDPOINT_READYWAIT_NoError (set_lib l' s) ∧
    opened None (sent ++ full ++ [rest]) out (set_lib l' s) ∧
    concat full ++ rest = bs ∧ Forall (λ p, length p = 64%nat) full ∧ (length rest < 64)%nat.
Proof.
  intros Ho Hne Hsv. pose proof (Nat.div_mod_eq (length bs) 64) as Hdm.
  pose proof (Nat.mod_upper_bound (length bs) 64 ltac:(lia)) as Hm.
  destruct (send_all_run bs [] sent out (length bs / 64)%nat s Ho ltac:(cbn [length]; lia) ltac:(cbn [length]; lia) Hsv)
    as (l1 & full & bank & Hrun & Ho1 & Hsv1 & Hc & Hf & Hb & Hbne). run_step Hrun. change ([] ++ bs) with bs in *.
  pose proof (f_equal length Hc) as Hn. rewrite length_app, (concat_packets _ Hf) in Hn. cbn [length] in Hn.
  specialize (Hbne Hne). assert (0 < length bank)%nat by (destruct bank; [done|cbn; lia]).
  pose proof Ho1 as [Hp Hst _ Hi _]. destruct (decide (length bank = 64%nat)) as [E|Hlt].
  - assert (∃ k, length bs / 64 - length full = S k)%nat as [k Hk] by (exists (length bs / 64 - length full - 1)%nat; lia).
    rewrite Hk in Hsv1.
    destruct (Flush_served fuel _ Hi l1 bank _ out k Hp E Hst Hsv1) as (l2 & Hrun2 & Hp2 & Hd2).
    destruct (connected_run _ _ _ None _ out ENDPOINT_RWSTREAM_DeviceDisconnected _
      (λ i, pipe_Flush fuel (in_address i)) (set_lib l1 s) l2 Ho1 Hrun2 Hp2 Hd2) as [Hc2 Ho2].
    exists l2, (full ++ [bank]), []. split; [done|]. rewrite <- !app_assoc in *. split; [done|].
    rewrite concat_app. cbn. rewrite !app_nil_r. split; [done|]. split; [|lia]. apply Forall_app. by auto.
  - destruct (Flush_bank fuel _ Hi l1 bank _ out Hp ltac:(lia)) as (l2 & Hrun2 & Hp2 & Hd2 & _).
    destruct (connected_run _ _ _ None _ out ENDPOINT_RWSTREAM_DeviceDisconnected _
      (λ i, pipe_Flush fuel (in_address i)) (set_lib l1 s) l2 Ho1 Hrun2 Hp2 Hd2) as [Hc2 Ho2].
    exists l2, full, bank. rewrite <- app_assoc in Ho2. split_and!; try done. lia.
Qed.

(** A full bank that the host does not take. *)
Lemma unserved_run bank sent out f frames (s : cdc H A) :
  opened (Some bank) sent out s → length bank = 64%nat → v_frames (hw (mcu (lib s))) = f :: frames →
  unserved fuel f frames →
  (∀ b, ∃ l', CDC_Device_SendByte fuel b s = Ok ENDPOINT_READYWAIT_Timeout (set_lib l' s) ∧
        opened None (sent ++ [bank]) out (set_lib l' s)) ∧
  (∃ l', CDC_Device_Flush fuel s = Ok ENDPOINT_READYWAIT_Timeout (set_lib l' s) ∧
        opened None (sent ++ [bank]) out (set_lib l' s)).
Proof.
  intros Ho Hlen Hfr Hu. pose proof Ho as [Hp Hst _ Hi _]. split; [intros b|]; eapply connected_opened.
  - done.
  - by eapply SendByte_unserved.
  - done.
  - by eapply Flush_unserved.
Qed.

Lemma receive_run p bank sent (s : cdc H A) :
  p ≠ [] → opened bank sent (Some p) s →
  ∃ l', receive (S (length p)) s = Ok (p ++ [-1]) (set_lib l' s) ∧ opened bank sent None (set_lib l' s).
Proof.
  revert s. induction p as [|b p IH]; intros s Hne Ho; [done|]. cbn [length]. cbn [receive].
  fold (receive (S (length p))). pose proof Ho as [Hp _ _ _ Ha].
  destruct (connected_opened bank sent (Some (b :: p)) bank sent (match p with [] => None | _ => Some p end)
    (-1) b (λ i, pipe_ReceiveByte (out_address i)) s Ho) as (l1 & Hrun & Ho1); [by apply ReceiveByte_some|].
  unfold CDC_Device_ReceiveByte at 1. run_step Hrun. destruct p as [|b' p].
  - destruct (connected_opened bank sent None bank sent None (-1) (-1)
      (λ i, pipe_ReceiveByte (out_address i)) (set_lib l1 s) Ho1) as (l2 & Hrun2 & Ho2).
    { apply ReceiveByte_none; [done|]. apply Ho1. }
    assert (receive 1 (set_lib l1 s) = Ok [-1] (set_lib l2 (set_lib l1 s))) as Hlast
      by (cbn [receive]; unfold CDC_Device_ReceiveByte; by run_step Hrun2).
    run_step Hlast. by exists l2.
  - destruct (IH (set_lib l1 s)) as (l2 & Hrun2 & Ho2); [done|done|]. run_step Hrun2. by exists l2.
Qed.

(** C36: The virtual serial port carries bytes both ways.
    - Any bytes that the application sends and flushes on an open port with an
      empty bank arrive in order, in packets of 64 bytes and one shorter packet
      at the end, which is empty when the bytes fill the packets before it; the
      host has to take each full packet within the timeout of the wait that
      follows it, which [serves] says of the frames to come.
    - When the host does not, the byte that finds the bank full is not sent:
      the full bank is handed over and the timeout is reported, by
      [CDC_Device_SendByte] and by [CDC_Device_Flush].
    - The bytes of a packet from the host are counted and then come out in
      order, and then no more.
    - On a closed port nothing is sent or received, nothing changes, and the
      functions say so. *)
Theorem cdc_serial_port (s : cdc H A) sent :
  (∀ bs out, opened (Some []) sent out s → bs ≠ [] →
     serves fuel (length bs / 64) (v_frames (hw (mcu (lib s)))) →
     ∃ l' full rest, (send_all bs;; CDC_Device_Flush fuel) s = Ok ENDPOINT_READYWAIT_NoError (set_lib l' s) ∧
       opened None (sent ++ full ++ [rest]) out (set_lib l' s) ∧
       concat full ++ rest = bs ∧ Forall (λ p, length p = 64%nat) full ∧ (length rest < 64)%nat) ∧
  (∀ bank out f frames, opened (Some bank) sent out s → length bank = 64%nat →
     v_frames (hw (mcu (lib s))) = f :: frames → unserved fuel f frames →
     (∀ b, ∃ l', CDC_Device_SendByte fuel b s = Ok ENDPOINT_READYWAIT_Timeout (set_lib l' s) ∧
           opened None (sent ++ [bank]) out (set_lib l' s)) ∧
     (∃ l', CDC_Device_Flush fuel s = Ok ENDPOINT_READYWAIT_Timeout (set_lib l' s) ∧
           opened None (sent ++ [bank]) out (set_lib l' s))) ∧
  (∀ bank p, opened bank sent (Some p) s → p ≠ [] →
     ∃ l', (n ← CDC_Device_BytesReceived; bs ← receive (S (length p)); mret (n, bs)) s =
             Ok (Z.of_nat (length p), p ++ [-1]) (set_lib l' s) ∧
           opened bank sent None (set_lib l' s)) ∧
  (USB_DeviceState (lib s) ≠ DEVICE_STATE_Configured ∨ BaudRateBPS (LineEncoding (info s)) = 0 →
     (∀ b, CDC_Device_SendByte fuel b s = Ok ENDPOINT_RWSTREAM_DeviceDisconnected s) ∧
     CDC_Device_Flush fuel s = Ok ENDPOINT_RWSTREAM_DeviceDisconnected s ∧
     CDC_Device_BytesReceived s = Ok 0 s ∧ CDC_Device_ReceiveByte s = Ok (-1) s).
Proof.
  split_and!.
  - intros bs out Ho Hne Hsv. by apply send_flush_run.
  - intros bank out f frames. apply unserved_run.
  - intros bank p Ho Hne. pose proof Ho as [Hp _ _ _ Ha].
    destruct (connected_opened bank sent (Some p) bank sent (match p with [] => None | _ => Some p end) 0
      (Z.of_nat (length p)) (λ i, pipe_BytesReceived (out_address i)) s Ho) as (l1 & Hrun & Ho1);
      [by apply BytesReceived_run|].
    unfold CDC_Device_BytesReceived. run_step Hrun.
    destruct (receive_run p bank sent (set_lib l1 s) Hne) as (l2 & Hrun2 & Ho2); [by destruct p|].
    run_step Hrun2. by exists l2.
  - intros Hc. split_and!; [intros b|..]; by apply connected_closed.
Qed.
End facts.

(** ** Witnesses *)
Import RequestFacts.Demo HIDClassFacts.HIDDemo.

Module CDCDemo.
Definition demo_cdc (l : lufa hwview) : cdc hwview unit :=
  {| lib := l; app := tt;
     info :=
       {| ControlInterfaceNumber := 0;
          DataINEndpoint := {| et_Address := 0x81; et_Size := 64; et_Type := 2; et_Banks := 1 |};
          DataOUTEndpoint := {| et_Address := 2; et_Size := 64; et_Type := 2; et_Banks := 1 |};
          NotificationEndpoint := {| et_Address := 0x83; et_Size := 8; et_Type := 3; et_Banks := 1 |};
          HostToDevice := 0; DeviceToHost := 0;
          LineEncoding := line_encoding_of [0x80; 0x25; 0; 0; 0; 0; 8] |} |}.
Definition quiet_event (_ : USB_ClassInfo_CDC_Device_t) : M unit unit := mret tt.
Definition quiet_break (_ : USB_ClassInfo_CDC_Device_t) (_ : Z) : M unit unit := mret tt.
(** 115200 baud, 8 data bits. *)
Definition demo_encoding : list Z := [0; 0xC2; 1; 0; 0; 0; 8].
(** A packet has arrived on the OUT endpoint. *)
Definition demo_packet_in : lufa hwview :=
  let l := demo_lib (demo_header 0 0 0 0) [] in set_mcu (with_out (Some [72; 105]) (mcu l)) l.
(** A host that takes a packet two reads of the frame number after it was handed
    over, and the next one after one read. *)
Definition demo_frames : list (Z * bool) := [(1, false); (1, false); (2, true); (3, false); (4, true)].
Definition demo_port : lufa hwview := set_mcu (with_frames demo_frames (mcu demo_packet_in)) demo_packet_in.
Definition demo_bytes : list Z := map Z.of_nat (seq 0 128).
End CDCDemo.
Import CDCDemo.

Lemma line_encoding_roundtrip_witness :
  ∃ l1 i1, CDC_Device_ProcessControlRequest 100 quiet_event quiet_event quiet_break
      (demo_cdc (demo_lib (demo_header 0x21 0x20 0 7) [demo_encoding])) = Ok tt (Build_driver l1 i1 tt) ∧
    BaudRateBPS (LineEncoding i1) = 115200 ∧
    ∃ l2, CDC_Device_ProcessControlRequest 100 quiet_event quiet_event quiet_break
      (Build_driver (demo_lib (demo_header 0xA1 0x21 0 7) []) i1 tt) = Ok tt (Build_driver l2 i1 tt) ∧
      delivered demo_encoding (v_ctl (mcu l2)).
Proof.
  destruct (line_encoding_roundtrip 100 quiet_event quiet_event quiet_break (demo_header 0x21 0x20 0 7)
    demo_encoding (demo_cdc (demo_lib (demo_header 0x21 0x20 0 7) [demo_encoding])) tt)
    as (l1 & i1 & Hrun & _ & He & Hget).
  - split; try reflexivity; [demo_wf|split; discriminate| |split; cbn; lia].
    split; try reflexivity. repeat constructor.
  - reflexivity.
  - apply (bool_decide_unpack _). vm_compute. exact I.
  - reflexivity.
  - reflexivity.
  - reflexivity.
  - reflexivity.
  - exists l1, i1. split; [exact Hrun|]. split; [by rewrite He|].
    assert (ControlInterfaceNumber i1 = 0) as Hi1 by (vm_compute in Hrun; injection Hrun as _ <-; reflexivity).
    destruct (Hget (demo_header 0xA1 0x21 0 7) (demo_lib (demo_header 0xA1 0x21 0 7) []) tt)
      as (l2 & Hrun2 & Hd); [|by rewrite Hi1|reflexivity|reflexivity|cbn; lia|].
    + destruct (demo_class_asked (demo_header 0xA1 0x21 0 7)) as [Hp _]; [demo_wf|done|]. exact Hp.
    + exists l2. split; [exact Hrun2|exact Hd].
Defined.

(** 128 bytes leave in two full packets and an empty one. *)
Lemma cdc_serial_port_witness :
  (∃ l' rest, (send_all 100 demo_bytes;; CDC_Device_Flush 100) (demo_cdc demo_port) =
     Ok ENDPOINT_READYWAIT_NoError (set_lib l' (demo_cdc demo_port)) ∧
     concat (v_sent (mcu l')) = demo_bytes ∧ last (v_sent (mcu l')) = Some rest ∧ (length rest < 64)%nat) ∧
  (∃ l', (n ← CDC_Device_BytesReceived; bs ← receive 3; mret (n, bs)) (demo_cdc demo_port) =
     Ok (2, [72; 105; -1]) (set_lib l' (demo_cdc demo_port))).
Proof.
  destruct (cdc_serial_port 100 (demo_cdc demo_port) []) as (Hsend & _ & Hreceive & _).
  assert (opened (Some []) [] (Some [72; 105]) (demo_cdc demo_port)) as Ho
    by (split; [by split|reflexivity|discriminate|reflexivity|reflexivity]).
  split.
  - destruct (Hsend demo_bytes _ Ho) as (l' & full & rest & Hrun & [[_ _ _ _ Hs _ _] _ _ _ _] & Hc & _ & Hr);
      [discriminate| |].
    { apply (serves_next 100 1 (1, false) [(1, false)] 2 [(3, false); (4, true)]);
        [by apply (bool_decide_unpack _)|by apply Nat.leb_le|by apply Nat.leb_le|].
      apply (serves_next 100 0 (3, false) [] 4 []);
        [by apply (bool_decide_unpack _)|by apply Nat.leb_le|by apply Nat.leb_le|constructor]. }
    exists l', rest. cbn [hw view_McuSpec lib set_lib] in Hs. change ([] ++ full ++ [rest]) with (full ++ [rest]) in Hs. rewrite Hs, last_snoc. split; [exact Hrun|].
    rewrite concat_app. cbn [concat]. rewrite app_nil_r. by split_and!.
  - destruct (Hreceive _ [72; 105] Ho) as (l' & Hrun & _); [discriminate|]. exists l'. exact Hrun.
Defined.
