(* ===== verification/PrinterFacts.v ===== *)
(** * The printer class driver: status, soft reset and device ID

    [GET_PORT_STATUS] delivers the status; a soft reset is acknowledged and the
    next run of the task empties both pipes; [GET_DEVICE_ID] sends two bytes
    more than the host asks for when the string is longer than that. *)

From S2P Require Import Prelude StdDescriptors Hardware Lufa Device Endpoint ControlStream Requests Streams.
From S2P Require Import ControlFacts EndpointFacts RequestFacts ControlWrite Driver StatusFacts ClassDriver ClassFacts.
From S2P Require Import PipeFacts HIDClassFacts PrinterClassDevice.

Section facts.
Context {H A : Type} `{!Mcu H} `{!McuSpec H} (fuel : nat).
Context (SoftReset : USB_ClassInfo_PRNT_Device_t → M A unit).
Abbreviation process := (PRNT_Device_ProcessControlRequest fuel SoftReset).

(** The handler reaches its [switch]. *)
Lemma PRNT_begin q (s : prnt H A) :
  pending fuel q (lib s) → wIndex q = InterfaceNumber (info s) →
  ∃ l', pending fuel q l' ∧ v_sent (hw (mcu l')) = v_sent (hw (mcu (lib s))) ∧
        process s = PRNT_switch fuel SoftReset q (info s) (set_lib l' s).
Proof.
  intros Hp Hi. destruct (IsSETUPReceived_pending fuel q s Hp) as (l' & Hrun & Hp' & Hsent).
  exists l'. split; [done|]. split; [done|]. unfold PRNT_Device_ProcessControlRequest.
  run_step Hrun. cbn [negb]. run_step (request_run (set_lib l' s)). cbn [lib set_lib].
  rewrite (pd_request _ _ _ Hp'). run_step (gets_run info (set_lib l' s)). cbn [info set_lib].
  by rewrite Hi, Z.eqb_refl.
Qed.

(** [GET_PORT_STATUS] *)
Lemma GetPortStatus_view (l : lufa hwview) st c :
  v_uenum (mcu l) = 0 → (0 < fuel)%nat → c_busy (drop_setup (host_tick c)) = false →
  GetPortStatus fuel st (at_ctl c l) =
  (Endpoint_ClearSETUP;; status_wait fuel Endpoint_IsINReady;; Endpoint_Write_8 st;; Endpoint_ClearIN;;
   Endpoint_ClearStatusStage fuel) (at_ctl c l).
Proof.
  intros Hsel Hf Hb. unfold GetPortStatus. run_step (ctl_ClearSETUP l Hsel c).
  run_step (status_wait_free fuel l (drop_setup (host_tick c)) Hsel Hf (tick_not_busy _ Hb)).
  by run_step (ctl_ClearSETUP l Hsel c);
    run_step (status_wait_free fuel l (drop_setup (host_tick c)) Hsel Hf (tick_not_busy _ Hb)).
Qed.

Lemma GetPortStatus_delivers q (s : prnt H A) :
  pending fuel q (lib s) → wIndex q = InterfaceNumber (info s) →
  bRequest q = PRNT_REQ_GetPortStatus → bmRequestType q = class_request REQDIR_DEVICETOHOST →
  1 ≤ wLength q →
  ∃ l', process s = Ok tt (set_lib l' s) ∧ delivered [PortStatus (info s)] (v_ctl (hw (mcu l'))).
Proof.
  intros Hp Hi Hr Ht Hlen. destruct (PRNT_begin q s Hp Hi) as (l1 & Hp1 & _ & ->).
  unfold PRNT_switch. rewrite Hr, Ht. switch_case.
  destruct Hp1 as [Hok Hq Hwf Hst Hsel Hset Har Hf]. rewrite Ht in Har.
  set (c := v_ctl (hw (mcu l1))) in *. set (l := view l1).
  destruct (waited_reply fuel l (status_wait fuel Endpoint_IsINReady) true (Endpoint_Write_8 (PortStatus (info s)))
    [PortStatus (info s)] (Z.to_nat (wLength q)) c) as (c' & Hrun & Hd);
    [done|done|cbn; by rewrite Hq, Ht|cbn; lia|cbn; lia| |intros; by rewrite ctl_Write_8|done|lia|].
  { intros c0 Hb. apply status_wait_free; [done|lia|done]. }
  rewrite <- (GetPortStatus_view l _ c) in Hrun; [|done|lia|apply (arriving_tick _ _ _ Har)].
  change c with (v_ctl (mcu l)) in Hrun. rewrite at_ctl_self in Hrun.
  destruct (on_lib_run (GetPortStatus fuel (PortStatus (info s))) (GetPortStatus fuel (PortStatus (info s)))
    (set_lib l1 s) _ _ ltac:(solve_sim) Hok Hrun) as (l2 & Hrun2 & Hv2 & _).
  exists l2. apply (f_equal mcu) in Hv2. cbn in Hv2. by rewrite Hrun2, Hv2.
Qed.

(** [SOFT_RESET]: acknowledged, and left to the task. *)
Lemma SoftReset_acknowledged q (s : prnt H A) a' :
  pending fuel q (lib s) → wIndex q = InterfaceNumber (info s) →
  bRequest q = PRNT_REQ_SoftReset → bmRequestType q = class_request REQDIR_HOSTTODEVICE →
  SoftReset (set_reset true (info s)) (app s) = Ok tt a' →
  ∃ l', process s = Ok tt (Build_driver l' (set_reset true (info s)) a') ∧ acked (v_ctl (hw (mcu l'))) ∧
        v_sent (hw (mcu l')) = v_sent (hw (mcu (lib s))).
Proof.
  intros Hp Hi Hr Ht Hev. destruct (PRNT_begin q s Hp Hi) as (l1 & Hp1 & Hs1 & ->).
  unfold PRNT_switch. rewrite Hr, Ht. switch_case.
  destruct (ack_run fuel q (set_lib l1 s) Hp1) as (l2 & Hrun & Hack & Hs2); [by rewrite Ht|].
  run_step Hrun. exists l2. split; [|by rewrite Hs2, <- Hs1]. unfold upd_info.
  run_step (modify_run (λ s : prnt H A, Build_driver (lib s) (set_reset true (info s)) (app s))
    (set_lib l2 (set_lib l1 s))).
  set (s2 := Build_driver _ _ _). run_step (gets_run info s2).
  by rewrite (on_app_run (SoftReset (info s2)) s2 tt a' Hev).
Qed.

(** ** The task after a soft reset *)

(** The stall bit goes and nothing else of the view changes. *)
Definition cleared (n : Z) (l : lufa hwview) : lufa hwview :=
  let stall x := ueconx_value (Z.lor (ueconx_read x) (BV STALLRQC)) in
  let toggle x := ueconx_value (Z.lor (ueconx_read x) (BV RSTDT)) in
  let l1 := put_ep UECONX (stall (ep_reg l n UECONX)) (restore n l) in
  put_ep UECONX (toggle (ep_reg l1 n UECONX)) l1.

Lemma clear_run a n (l : lufa hwview) :
  Z.land a ENDPOINT_EPNUM_MASK = n →
  (Endpoint_SelectEndpoint a;; Endpoint_ClearStall;; Endpoint_ResetDataToggle) l = Ok tt (cleared n l).
Proof. intros Ha. run_step (select_run a l). rewrite Ha. by destruct l. Qed.

Lemma cleared_regs n (l : lufa hwview) m r :
  (m, r) ≠ (n, UECONX) → ep_reg (cleared n l) m r = ep_reg l m r.
Proof.
  intros Hm. unfold cleared. cbv zeta. rewrite !ep_reg_put, !decide_False; [done|..]; cbn; by intros [-> <-].
Qed.

Lemma cleared_stall n (l : lufa hwview) : has (ep_reg (cleared n l) n UECONX) (BV STALLRQ) = false.
Proof.
  unfold cleared. cbv zeta. rewrite ep_reg_put, decide_True by done. apply toggle_value.
  rewrite ep_reg_put, decide_True by done. apply unstalled_value.
Qed.

Lemma reset_pipes_run (l : lufa H) IN OUT bank sent out :
  Z.land IN ENDPOINT_EPNUM_MASK = 1 → Z.land OUT ENDPOINT_EPNUM_MASK = 2 → port bank sent out l →
  ∃ l', reset_pipes IN OUT l = Ok tt l' ∧ port (Some []) sent None l' ∧
        has (v_epregs (hw (mcu l')) 2 UECONX) (BV STALLRQ) = false ∧
        USB_DeviceState l' = USB_DeviceState l.
Proof.
  intros HIN HOUT [Hok Hdir Hst Hb Hs Ho Hdo].
  set (l1 := set_mcu (with_in (Some []) sent (with_out None (mcu (view l)))) (view l)).
  assert (reset_pipes IN OUT (view l) = Ok tt (cleared 1 (cleared 2 l1))) as Hrun.
  { unfold reset_pipes, Endpoint_ResetEndpoint, Endpoint_SelectEndpoint. rewrite HIN, HOUT.
    subst l1 sent. by destruct l. }
  destruct (sim_Ok (reset_pipes IN OUT) (reset_pipes IN OUT) _ _ _ ltac:(solve_sim) Hok Hrun) as (l' & Hl & Hv & Hok').
  exists l'. split; [done|]. apply (f_equal USB_DeviceState) in Hv as Hd. apply (f_equal mcu) in Hv.
  cbn [mcu view set_mcu] in Hv.
  assert (∀ m r, (m, r) ≠ (1, UECONX) → (m, r) ≠ (2, UECONX) →
    v_epregs (hw (mcu l')) m r = v_epregs (hw (mcu l)) m r) as Hregs.
  { intros m r H1 H2. rewrite Hv. change (ep_reg (cleared 1 (cleared 2 l1)) m r = ep_reg (view l) m r).
    by rewrite !cleared_regs by done. }
  split_and!; [split; rewrite ?Hregs by done; try done; rewrite Hv; try done| |done].
  - exact (cleared_stall 1 _).
  - rewrite Hv. change (has (ep_reg (cleared 1 (cleared 2 l1)) 2 UECONX) (BV STALLRQ) = false).
    rewrite cleared_regs by done. apply cleared_stall.
Qed.

Lemma reset_task_run (s : prnt H A) bank sent out :
  USB_DeviceState (lib s) = DEVICE_STATE_Configured → IsPrinterReset (info s) = true →
  Z.land (in_address (info s)) ENDPOINT_EPNUM_MASK = 1 → Z.land (out_address (info s)) ENDPOINT_EPNUM_MASK = 2 →
  port (Some bank) sent out (lib s) → (0 < length bank < 64)%nat →
  ∃ l', PRNT_Device_USBTask fuel s = Ok tt (Build_driver l' (set_reset false (info s)) (app s)) ∧
        port (Some []) (sent ++ [bank]) None l' ∧ has (v_epregs (hw (mcu l')) 2 UECONX) (BV STALLRQ) = false.
Proof.
  intros Hst Hr Hi Ho Hp Hlen. unfold PRNT_Device_USBTask.
  run_step (eq_refl : on_lib (gets USB_DeviceState) s = Ok (USB_DeviceState (lib s)) (set_lib (lib s) s)).
  rewrite Hst, bool_decide_eq_true_2 by done. cbn [negb].
  run_step (gets_run info (set_lib (lib s) s)). cbn [info set_lib].
  destruct (task_flushes fuel (in_address (info s)) Hi (lib s) bank sent out Hp Hlen) as (l1 & Hrun & Hp1 & Hd1).
  assert (on_lib (pipe_task fuel (in_address (info s))) (set_lib (lib s) s) = Ok tt (set_lib l1 s)) as Hrun'
    by (unfold on_lib, zoom; cbn [lib set_lib]; by rewrite Hrun).
  run_step Hrun'. run_step (gets_run info (set_lib l1 s)). cbn [info set_lib]. rewrite Hr. cbn [when].
  destruct (reset_pipes_run l1 _ _ _ _ _ Hi Ho Hp1) as (l2 & Hrun2 & Hp2 & Hs2 & Hd2).
  assert (on_lib (reset_pipes (in_address (info s)) (out_address (info s))) (set_lib l1 s) = Ok tt (set_lib l2 s))
    as Hrun2' by (unfold on_lib, zoom; cbn [lib set_lib]; by rewrite Hrun2).
  run_step Hrun2'. by exists l2.
Qed.
End facts.

(** ** The device ID *)

Import RequestFacts.Demo HIDClassFacts.HIDDemo.

Definition demo_printer (q : USB_Request_Header_t) : prnt hwview unit :=
  {| lib := demo_lib q []; app := tt;
     info :=
       {| InterfaceNumber := 0;
          DataINEndpoint := {| et_Address := 0x81; et_Size := 64; et_Type := 2; et_Banks := 1 |};
          DataOUTEndpoint := {| et_Address := 2; et_Size := 64; et_Type := 2; et_Banks := 1 |};
          IEEE1284String := [77; 70; 71; 58; 88; 59; 0]; PortStatus := 0x18; IsPrinterReset := false |} |}.

(** The string [MFG:X;] takes eight bytes with its length.  A host that asks for
    all of them gets them; a host that asks for the length only gets four bytes. *)
Lemma GetDeviceID_answers n :
  n = 2 ∨ n = 8 →
  ∃ s', PRNT_Device_ProcessControlRequest 100 (λ _, mret tt) (demo_printer (demo_header 0xA1 0 0 n)) = Ok tt s' ∧
        c_taken (v_ctl (mcu (lib s'))) =
          if n =? 2 then [[0; 8; 77; 70]] else [[0; 8; 77; 70; 71; 58; 88; 59]].
Proof. intros [-> | ->]; eexists; (split; [vm_compute; reflexivity|reflexivity]). Qed.
