(* ===== verification/MIDIFacts.v ===== *)
(** * The MIDI class driver: events in order

    Events of four bytes fill the packets of the IN endpoint; the packet of the
    OUT endpoint is read event by event. *)

From S2P Require Import Prelude StdDescriptors Hardware Lufa Device Endpoint ControlStream Requests Streams.
From S2P Require Import ControlFacts EndpointFacts RequestFacts ControlWrite Driver ClassDriver ClassFacts.
From S2P Require Import PipeFacts HIDClassFacts MIDIClassDevice.

(** ** Reading a stream *)

Section read.
Context (fuel : nat) (l : lufa hwview) (Hsel : v_uenum (mcu l) = 2).

(** The packet holds [p]; the host of the control endpoint is at [c]. *)
Definition out_bank (c : ctl) (p : list Z) : lufa hwview :=
  set_mcu (with_out (Some p) (with_ctl c (mcu l))) l.

Lemma rw_loop_read n t c got room p q :
  length room = length p → (length p < n)%nat →
  ∃ c', rw_loop fuel LE Endpoint_ClearOUT read_byte n (got ++ room) (Z.of_nat (length got))
          (Z.of_nat (length room)) t None (out_bank c (p ++ q)) =
        Ok (ENDPOINT_RWSTREAM_NoError, got ++ p, None) (out_bank c' q).
Proof.
  revert n t c got room. induction p as [|b p IH]; intros n t c got room Hlen Hn;
    (destruct n as [|n]; [cbn in Hn; lia|]); cbn [rw_loop].
  { apply nil_length_inv in Hlen as ->. rewrite app_nil_r. by exists c. }
  destruct room as [|x room]; [done|]. cbn [length] in Hlen, Hn.
  destruct (Z.eqb_spec (Z.of_nat (length (x :: room))) 0) as [E|_]; [cbn in E; lia|].
  run_step (IsReadWriteAllowed_out (out_bank c ((b :: p) ++ q)) Hsel _ eq_refl).
  rewrite bool_decide_eq_true_2 by done. cbn [negb].
  assert (read_byte (Z.of_nat (length got)) (got ++ x :: room) (tick (out_bank c ((b :: p) ++ q))) =
          Ok (got ++ b :: room) (out_bank (host_tick c) (p ++ q))) as Hr.
  { unfold read_byte. run_step (Read_8_out (tick (out_bank c ((b :: p) ++ q))) Hsel b (p ++ q) eq_refl).
    rewrite byte_put_next. done. }
  run_step Hr. cbn [buffer_move]. rewrite cons_middle, app_assoc.
  replace (Z.of_nat (length got) + 1) with (Z.of_nat (length (got ++ [b]))) by (rewrite length_app; cbn; lia).
  replace (Z.of_nat (length (x :: room)) - 1) with (Z.of_nat (length room)) by (cbn; lia).
  destruct (IH n (u16 (t + 1)) (host_tick c) (got ++ [b]) room) as (c' & Hrun); [lia|lia|].
  exists c'. by rewrite Hrun, <- app_assoc.
Qed.
End read.

Lemma WaitUntilReady_out fuel l p :
  v_uenum (mcu l) = 2 → has (v_epregs (mcu l) 2 UECFG0X) (BV EPDIR) = false →
  v_out (mcu l) = Some p → (0 < fuel)%nat →
  Endpoint_WaitUntilReady fuel l = Ok ENDPOINT_READYWAIT_NoError (tick (popped l)).
Proof.
  intros Hsel Hdir Hout Hf. unfold Endpoint_WaitUntilReady. destruct fuel as [|n]; [lia|].
  run_step (eq_refl : USB_Device_GetFrameNumber l = Ok _ (popped l)). cbn [ready_loop].
  assert (Endpoint_GetEndpointDirection (popped l) = Ok ENDPOINT_DIR_OUT (popped l)) as Hd.
  { unfold Endpoint_GetEndpointDirection, test_bits, mbind, M_bind, get_reg, on_mcu, zoom.
    cbn [rd view_Mcu before_read after_read reg_value popped mcu set_mcu v_uenum v_epregs with_in with_frames].
    by rewrite Hsel, Hdir. }
  run_step Hd. cbn [Z.eqb Pos.eqb ENDPOINT_DIR_OUT ENDPOINT_DIR_IN].
  run_step (IsOUTReceived_view (popped l) Hsel). cbn [popped mcu set_mcu v_out with_in with_frames].
  rewrite bool_decide_eq_true_2 by (rewrite Hout; by eexists). done.
Qed.

Lemma read_stream_view fuel l Buffer p q :
  v_uenum (mcu l) = 2 → has (v_epregs (mcu l) 2 UECFG0X) (BV EPDIR) = false →
  v_out (mcu l) = Some (p ++ q) → length Buffer = length p → (length p ≤ 64)%nat → (length p < fuel)%nat →
  ∃ c, Endpoint_Read_Stream_LE fuel Buffer (Z.of_nat (length p)) None l =
       Ok (ENDPOINT_RWSTREAM_NoError, p, None) (out_bank (popped l) c q).
Proof.
  intros Hsel Hdir Hout Hbuf Hmax Hf. unfold Endpoint_Read_Stream_LE, rw_stream.
  destruct (rw_loop_read fuel (popped l) Hsel fuel 0 (host_tick (v_ctl (mcu l))) [] Buffer p q Hbuf Hf)
    as (c & Hrun). exists c.
  run_step (WaitUntilReady_out fuel l (p ++ q) Hsel Hdir Hout ltac:(lia)). cbn [negb Z.eqb ENDPOINT_READYWAIT_NoError default].
  rewrite Z.sub_0_r, u16_id by (unfold is_u16; lia).
  assert (tick (popped l) = out_bank (popped l) (host_tick (v_ctl (mcu l))) (p ++ q)) as ->.
  { destruct l as [v]. destruct v. cbn in *. by subst. }
  rewrite <- Hbuf. exact Hrun.
Qed.

(** ** Events *)

Section facts.
Context {H A : Type} `{!Mcu H} `{!McuSpec H} (fuel : nat) (Hfuel : (64 < fuel)%nat).

Record playing (bank : option (list Z)) (sent : list (list Z)) (out : option (list Z)) (s : midi H A) : Prop := {
  pl_port : port bank sent out (lib s);
  pl_state : USB_DeviceState (lib s) = DEVICE_STATE_Configured;
  pl_in : Z.land (in_address (info s)) ENDPOINT_EPNUM_MASK = 1;
  pl_out : Z.land (out_address (info s)) ENDPOINT_EPNUM_MASK = 2;
}.

Lemma connected_playing {B} bank sent out bank' sent' out' (r x : B) body (s : midi H A) :
  playing bank sent out s →
  (∃ l', body (info s) (lib s) = Ok x l' ∧ port bank' sent' out' l' ∧ USB_DeviceState l' = USB_DeviceState (lib s)) →
  ∃ l', connected r body s = Ok x (set_lib l' s) ∧ playing bank' sent' out' (set_lib l' s).
Proof.
  intros [Hp Hst Hi Ho] (l' & Hrun & Hp' & Hst'). exists l'. unfold connected.
  run_step (eq_refl : on_lib (gets USB_DeviceState) s = Ok (USB_DeviceState (lib s)) (set_lib (lib s) s)).
  run_step (gets_run info (set_lib (lib s) s)). cbn [info set_lib].
  rewrite Hst, bool_decide_eq_true_2 by done. cbn [negb].
  split; [unfold on_lib, zoom; cbn [lib set_lib]; by rewrite Hrun|]. split; try done. cbn. by rewrite Hst'.
Qed.

(** The bank after another event: a full bank is handed over. *)
Definition next_bank (bank : list Z) : option (list Z) :=
  if decide (length bank < 64)%nat then Some bank else None.
Definition next_sent (bank : list Z) (sent : list (list Z)) : list (list Z) :=
  if decide (length bank < 64)%nat then sent else sent ++ [bank].

Lemma send_event_run (l : lufa H) IN bank sent out e :
  Z.land IN ENDPOINT_EPNUM_MASK = 1 → port (Some bank) sent out l → (length bank + 4 ≤ 64)%nat → length e = 4%nat →
  ∃ l', send_event fuel IN e l = Ok ENDPOINT_RWSTREAM_NoError l' ∧
        port (next_bank (bank ++ e)) (next_sent (bank ++ e) sent) out l' ∧ USB_DeviceState l' = USB_DeviceState l.
Proof.
  intros HIN Hp Hroom He. pose proof Hp as [_ Hdir _ Hb Hs Ho _].
  destruct (write_stream_view fuel (restore 1 (view l)) bank e 4) as (c & Hw); [done|lia|lia|done|done|lia|].
  rewrite take_ge in Hw by lia. set (lv := in_bank _ c (bank ++ e)) in Hw.
  eapply (port_run _ (send_event fuel IN e)); [done|solve_sim| |..].
  { unfold send_event. run_step (select_run IN (view l)). rewrite HIN. run_step Hw. cbn [fst negb Z.eqb ENDPOINT_RWSTREAM_NoError].
    run_step (IsReadWriteAllowed_in lv eq_refl (bank ++ e) eq_refl).
    instantiate (1 := if decide (length (bank ++ e) < 64)%nat then tick lv
      else set_mcu (with_in None (v_sent (mcu (tick lv)) ++ [bank ++ e]) (mcu (tick (tick lv)))) (tick lv)).
    case_decide as Hd.
    - rewrite bool_decide_eq_true_2 by done. done.
    - rewrite bool_decide_eq_false_2 by done. cbn [negb when].
      by run_step (ClearIN_view (tick lv) eq_refl (bank ++ e) eq_refl). }
  all: unfold next_bank, next_sent; case_decide; try done. cbn. by rewrite Hs.
Qed.

Lemma receive_event_run (l : lufa H) OUT bank sent old e q :
  Z.land OUT ENDPOINT_EPNUM_MASK = 2 → port bank sent (Some (e ++ q)) l → length e = 4%nat → length old = 4%nat →
  ∃ l', receive_event fuel OUT old l = Ok (true, e) l' ∧
        port bank sent (match q with [] => None | _ => Some q end) l' ∧ USB_DeviceState l' = USB_DeviceState l.
Proof.
  intros HOUT Hp He Hold. pose proof Hp as [_ _ _ Hb Hs Ho Hdo].
  set (l1 := tick (tick (restore 2 (view l)))).
  destruct (read_stream_view fuel l1 old e q) as (c & Hr); [done|done|done|lia|lia|lia|].
  rewrite He in Hr. set (lv := out_bank _ c q) in Hr.
  eapply (port_run _ (receive_event fuel OUT old)); [done|solve_sim| |..].
  { unfold receive_event. run_step (select_run OUT (view l)). rewrite HOUT.
    run_step (IsOUTReceived_view (restore 2 (view l)) eq_refl).
    rewrite bool_decide_eq_true_2 by (cbn; rewrite Ho; by eexists). cbn [negb].
    run_step (IsReadWriteAllowed_out (tick (restore 2 (view l))) eq_refl (e ++ q) Ho).
    rewrite bool_decide_eq_true_2 by (by destruct e). cbn [negb]. run_step Hr.
    run_step (IsReadWriteAllowed_out lv eq_refl q eq_refl).
    instantiate (1 := match q with [] => set_mcu (with_out None (mcu (tick (tick lv)))) (tick lv) | _ => tick lv end).
    destruct q as [|b q].
    - rewrite bool_decide_eq_false_2 by (by intros []). cbn [negb when].
      by run_step (ClearOUT_view (tick lv) eq_refl [] eq_refl).
    - by rewrite bool_decide_eq_true_2. }
  all: destruct q as [|b q]; done.
Qed.

(** No packet, no event. *)
Lemma receive_event_none (l : lufa H) OUT bank sent old :
  Z.land OUT ENDPOINT_EPNUM_MASK = 2 → port bank sent None l →
  ∃ l', receive_event fuel OUT old l = Ok (false, old) l' ∧
        port bank sent None l' ∧ USB_DeviceState l' = USB_DeviceState l.
Proof.
  intros HOUT Hp. pose proof Hp as [_ _ _ Hb Hs Ho _].
  eapply (port_run _ (receive_event fuel OUT old)); [done|solve_sim| |..].
  { unfold receive_event. run_step (select_run OUT (view l)). rewrite HOUT.
    run_step (IsOUTReceived_view (restore 2 (view l)) eq_refl).
    rewrite bool_decide_eq_false_2 by (cbn; rewrite Ho; by intros []). reflexivity. }
  all: done.
Qed.

(** An empty packet gives no event and stays in the bank. *)
Lemma receive_event_empty (l : lufa H) OUT bank sent old :
  Z.land OUT ENDPOINT_EPNUM_MASK = 2 → port bank sent (Some []) l →
  ∃ l', receive_event fuel OUT old l = Ok (false, old) l' ∧
        port bank sent (Some []) l' ∧ USB_DeviceState l' = USB_DeviceState l.
Proof.
  intros HOUT Hp. pose proof Hp as [_ _ _ Hb Hs Ho _].
  eapply (port_run _ (receive_event fuel OUT old)); [done|solve_sim| |..].
  { unfold receive_event. run_step (select_run OUT (view l)). rewrite HOUT.
    run_step (IsOUTReceived_view (restore 2 (view l)) eq_refl).
    rewrite bool_decide_eq_true_2 by (cbn; rewrite Ho; by eexists). cbn [negb].
    run_step (IsReadWriteAllowed_out (tick (restore 2 (view l))) eq_refl [] Ho).
    rewrite bool_decide_eq_false_2 by (by intros []). reflexivity. }
  all: done.
Qed.

(** The application sends events until an error, and asks for events until
    there is none. *)
Fixpoint send_events (es : list MIDI_EventPacket_t) : M (midi H A) Z :=
  match es with
  | [] => mret ENDPOINT_RWSTREAM_NoError
  | e :: es =>
      r ← MIDI_Device_SendEventPacket fuel e;
      if r =? ENDPOINT_RWSTREAM_NoError then send_events es else mret r
  end.

Fixpoint receive_events (n : nat) (event : list Z) : M (midi H A) (list (list Z)) :=
  match n with
  | O => mret []
  | S n =>
      r ← MIDI_Device_ReceiveEventPacket fuel event;
      if r.1 : bool then es ← receive_events n r.2; mret (r.2 :: es) else mret []
  end.

Abbreviation wire es := (concat (map MIDI_EventPacket_bytes es)).

Lemma length_wire (es : list MIDI_EventPacket_t) : length (wire es) = (4 * length es)%nat.
Proof. induction es as [|e es IH]; [done|]. cbn. rewrite IH. lia. Qed.

Lemma send_events_run es bank sent out (s : midi H A) :
  playing (Some bank) sent out s → (length bank + 4 * length es ≤ 64)%nat → es ≠ [] →
  ∃ l', send_events es s = Ok ENDPOINT_RWSTREAM_NoError (set_lib l' s) ∧
        playing (next_bank (bank ++ wire es)) (next_sent (bank ++ wire es) sent) out (set_lib l' s).
Proof.
  revert bank sent s. induction es as [|e es IH]; intros bank sent s Hp Hlen Hne; [done|].
  cbn [send_events length map concat] in *. pose proof Hp as [Hpt _ Hi _].
  destruct (connected_playing (Some bank) sent out (next_bank (bank ++ MIDI_EventPacket_bytes e))
    (next_sent (bank ++ MIDI_EventPacket_bytes e) sent) out ENDPOINT_RWSTREAM_DeviceDisconnected
    ENDPOINT_RWSTREAM_NoError (λ i, send_event fuel (in_address i) (MIDI_EventPacket_bytes e)) s Hp)
    as (l1 & Hrun & Hp1); [apply send_event_run; [done|done|lia|done]|].
  unfold MIDI_Device_SendEventPacket at 1. run_step Hrun. cbn [Z.eqb ENDPOINT_RWSTREAM_NoError].
  destruct es as [|e' es]; [cbn [send_events map concat]; rewrite app_nil_r; by exists l1|].
  assert (length (bank ++ MIDI_EventPacket_bytes e) < 64)%nat as Hroom
    by (rewrite length_app; cbn [length MIDI_EventPacket_bytes] in *; lia).
  unfold next_bank, next_sent in Hp1. rewrite !decide_True in Hp1 by done.
  destruct (IH (bank ++ MIDI_EventPacket_bytes e) sent (set_lib l1 s) Hp1) as (l2 & Hrun2 & Hp2);
    [rewrite length_app; cbn [length MIDI_EventPacket_bytes] in *; lia|done|].
  exists l2. by rewrite <- app_assoc in Hp2.
Qed.

Lemma receive_events_run es bank sent old (s : midi H A) :
  playing bank sent (Some (wire es)) s → es ≠ [] → length old = 4%nat →
  ∃ l', receive_events (S (length es)) old s = Ok (map MIDI_EventPacket_bytes es) (set_lib l' s) ∧
        playing bank sent None (set_lib l' s).
Proof.
  revert old s. induction es as [|e es IH]; intros old s Hp Hne Hold; [done|].
  cbn [length]. cbn [receive_events]. fold (receive_events (S (length es))). pose proof Hp as [Hpt _ _ Ho].
  destruct (connected_playing bank sent (Some (wire (e :: es))) bank sent
    (match wire es with [] => None | _ => Some (wire es) end) (false, old) (true, MIDI_EventPacket_bytes e)
    (λ i, receive_event fuel (out_address i) old) s Hp) as (l1 & Hrun & Hp1); [by apply receive_event_run|].
  unfold MIDI_Device_ReceiveEventPacket at 1. run_step Hrun. cbn [fst snd].
  destruct es as [|e' es].
  - cbn [map concat] in Hp1. pose proof Hp1 as [Hpt1 _ _ Ho1].
    destruct (connected_playing bank sent None bank sent None (false, MIDI_EventPacket_bytes e)
      (false, MIDI_EventPacket_bytes e) (λ i, receive_event fuel (out_address i) (MIDI_EventPacket_bytes e))
      (set_lib l1 s) Hp1) as (l2 & Hrun2 & Hp2); [by apply receive_event_none|].
    assert (receive_events 1 (MIDI_EventPacket_bytes e) (set_lib l1 s) = Ok [] (set_lib l2 (set_lib l1 s))) as Hlast
      by (cbn [receive_events]; unfold MIDI_Device_ReceiveEventPacket; by run_step Hrun2).
    run_step Hlast. by exists l2.
  - destruct (IH (MIDI_EventPacket_bytes e) (set_lib l1 s)) as (l2 & Hrun2 & Hp2); [done|done|done|].
    run_step Hrun2. by exists l2.
Qed.

(** C37: MIDI events travel in order.  Sixteen events fill a packet, which is
    handed to the host with the last of them; fewer wait in the bank.  The
    events of a packet from the host come out one by one in order, and the bank
    is released with the last.  A packet without data, however, is neither
    read nor released: the driver answers that there is no event and the
    packet stays, so nothing is received any more. *)
Theorem midi_events (s : midi H A) sent :
  (∀ (es : list MIDI_EventPacket_t) out, playing (Some []) sent out s → (0 < length es ≤ 16)%nat →
     ∃ l', send_events es s = Ok ENDPOINT_RWSTREAM_NoError (set_lib l' s) ∧
       if decide (length es = 16%nat) then playing None (sent ++ [wire es]) out (set_lib l' s)
       else playing (Some (wire es)) sent out (set_lib l' s)) ∧
  (∀ (es : list MIDI_EventPacket_t) bank old, playing bank sent (Some (wire es)) s → es ≠ [] → length old = 4%nat →
     ∃ l', receive_events (S (length es)) old s = Ok (map MIDI_EventPacket_bytes es) (set_lib l' s) ∧
       playing bank sent None (set_lib l' s)) ∧
  (∀ bank old, playing bank sent (Some []) s →
     ∃ l', MIDI_Device_ReceiveEventPacket fuel old s = Ok (false, old) (set_lib l' s) ∧
       playing bank sent (Some []) (set_lib l' s)).
Proof.
  split_and!.
  - intros es out Hp Hlen. destruct (send_events_run es [] sent out s Hp) as (l' & Hrun & Hp');
      [cbn; lia|by destruct es; cbn in Hlen; [lia|]|].
    exists l'. split; [done|]. unfold next_bank, next_sent in Hp'. change ([] ++ wire es) with (wire es) in Hp'.
    rewrite length_wire in Hp'. repeat case_decide; done || lia.
  - intros es bank old Hp Hne Hold. by apply receive_events_run.
  - intros bank old Hp. pose proof Hp as [Hpt _ _ Ho].
    apply (connected_playing bank sent (Some []) bank sent (Some []) _ _ (λ i, receive_event fuel (out_address i) old)
      s Hp). by apply receive_event_empty.
Qed.
End facts.

(** ** Witness *)
Import RequestFacts.Demo HIDClassFacts.HIDDemo.

Module MIDIDemo.
(** A note is switched on and off. *)
Definition note (command : Z) : MIDI_EventPacket_t :=
  {| Event := MIDI_EVENT 0 command; Data1 := command; Data2 := 60; Data3 := MIDI_STANDARD_VELOCITY |}.
Definition demo_notes : list MIDI_EventPacket_t := [note MIDI_COMMAND_NOTE_ON; note MIDI_COMMAND_NOTE_OFF].
Definition demo_midi : midi hwview unit :=
  let l := demo_lib (demo_header 0 0 0 0) [] in
  {| lib := set_mcu (with_out (Some (concat (map MIDI_EventPacket_bytes demo_notes))) (mcu l)) l; app := tt;
     info :=
       {| StreamingInterfaceNumber := 1;
          DataINEndpoint := {| et_Address := 0x81; et_Size := 64; et_Type := 2; et_Banks := 1 |};
          DataOUTEndpoint := {| et_Address := 2; et_Size := 64; et_Type := 2; et_Banks := 1 |} |} |}.
End MIDIDemo.
Import MIDIDemo.

Lemma midi_events_witness :
  (∃ l', send_events 100 demo_notes demo_midi = Ok ENDPOINT_RWSTREAM_NoError (set_lib l' demo_midi) ∧
     v_in (mcu l') = Some (concat (map MIDI_EventPacket_bytes demo_notes))) ∧
  (∃ l', receive_events 100 3 [0; 0; 0; 0] demo_midi =
     Ok (map MIDI_EventPacket_bytes demo_notes) (set_lib l' demo_midi)).
Proof.
  assert (64 < 100)%nat as Hf by lia.
  destruct (midi_events 100 Hf demo_midi []) as (Hsend & Hreceive & _).
  assert (playing (Some []) [] (Some (concat (map MIDI_EventPacket_bytes demo_notes))) demo_midi) as Hp
    by (split; [by split|reflexivity|reflexivity|reflexivity]).
  split.
  - destruct (Hsend demo_notes _ Hp) as (l' & Hrun & [[_ _ _ Hb _ _ _] _ _ _]); [cbn; lia|].
    exists l'. split; [exact Hrun|exact Hb].
  - destruct (Hreceive demo_notes _ [0; 0; 0; 0] Hp) as (l' & Hrun & _); [discriminate|reflexivity|].
    exists l'. exact Hrun.
Defined.
