(* ===== verification/Allocation.v ===== *)
(** * The memory of the endpoints

    [Endpoint_BytesToEPSizeMask] and [Endpoint_ConfigureEndpoint]: which size
    is chosen, and when the configuration of an endpoint succeeds. *)

From S2P Require Import Prelude StdDescriptors Descriptors Hardware Lufa Board Device Endpoint.
From S2P Require Import EndpointFacts RequestFacts.
Import RequestFacts.Demo.

(** The size code of a bank: the exponent of the smallest power of two from 8
    on that holds [Bytes]. *)
Definition size_code (Bytes : Z) : Z := Z.max 0 (Z.log2_up Bytes - 3).

Lemma size_mask_code Bytes :
  0 ≤ Bytes ≤ 1024 → Endpoint_BytesToEPSizeMask Bytes = Some (16 * size_code Bytes).
Proof.
  intros Hb.
  assert (Forall (λ n, Endpoint_BytesToEPSizeMask (Z.of_nat n) = Some (16 * size_code (Z.of_nat n)))
            (seq 0 1025)) as Hall by (apply (bool_decide_unpack _); vm_compute; exact I).
  rewrite Forall_forall in Hall. specialize (Hall (Z.to_nat Bytes)).
  rewrite Z2Nat.id in Hall by lia. apply Hall, elem_of_seq. lia.
Qed.

(** The size of an endpoint is encoded as the smallest bank that holds it:
    for up to 1024 bytes the code is the least exponent [k] with
    [Bytes <= 8 * 2^k].  A size above 32768 bytes makes the loop run for ever,
    because the 16-bit counter becomes zero. *)
Lemma BytesToEPSizeMask_spec Bytes :
  is_u16 Bytes →
  (Bytes ≤ 1024 →
   ∃ k, Endpoint_BytesToEPSizeMask Bytes = Some (Z.shiftl k EPSIZE0) ∧ 0 ≤ k ≤ 7 ∧
        Bytes ≤ 8 * 2 ^ k ∧ (∀ j, 0 ≤ j < k → 8 * 2 ^ j < Bytes)) ∧
  (32768 < Bytes → ∀ n, size_mask_loop n Bytes 0 8 = None).
Proof.
  intros Hb. split.
  - intros Hle. assert (0 ≤ size_code Bytes ≤ 7 ∧ Bytes ≤ 8 * 2 ^ size_code Bytes ∧
            (∀ j, 0 ≤ j < size_code Bytes → 8 * 2 ^ j < Bytes)) as (Hk & Hfit & Hmin).
    { unfold size_code. pose proof (Z.log2_up_le_mono Bytes 1024 Hle) as Hm.
      change (Z.log2_up 1024) with 10 in Hm. unfold is_u16 in Hb.
      change 8 with (2 ^ 3). split; [lia|]. split.
      - rewrite <- Z.pow_add_r by lia.
        destruct (decide (Bytes ≤ 1)); [pose proof (Z.pow_pos_nonneg 2 (3 + Z.max 0 (Z.log2_up Bytes - 3))); lia|].
        etransitivity; [apply (Z.log2_up_spec Bytes); lia|]. apply Z.pow_le_mono_r; lia.
      - intros j Hj. rewrite <- Z.pow_add_r by lia. assert (1 < Bytes) as H1.
        { destruct (decide (1 < Bytes)); [done|]. rewrite Z.log2_up_eqn0 in Hj by lia. lia. }
        apply Z.le_lt_trans with (2 ^ Z.pred (Z.log2_up Bytes)); [apply Z.pow_le_mono_r; lia|].
        apply Z.log2_up_spec. lia. }
    exists (size_code Bytes). split; [|done]. rewrite size_mask_code by (unfold is_u16 in Hb; lia).
    unfold EPSIZE0. by rewrite Z.shiftl_mul_pow2, Z.mul_comm by lia.
  - intros Hbig.
    assert (∀ n m, size_mask_loop n Bytes m 0 = None) as Hzero.
    { induction n as [|n IH]; intros m; [done|]. cbn [size_mask_loop].
      rewrite (proj2 (Z.ltb_lt 0 Bytes)) by lia. apply IH. }
    intros n. do 14 (destruct n as [|n]; [done|]; cbn [size_mask_loop];
      match goal with |- context [?k <? Bytes] =>
        rewrite (proj2 (Z.ltb_lt k Bytes)) by lia end;
      match goal with |- context [u16 (Z.shiftl ?k 1)] =>
        let v := eval vm_compute in (u16 (Z.shiftl k 1)) in change (u16 (Z.shiftl k 1)) with v end;
      try apply Hzero).
Qed.

(** ** Configuring an endpoint *)

(** The value of UECFG1X for [Size] bytes in [Banks] banks, and the memory that
    it takes. *)
Definition cfg1 (Size Banks : Z) : Z :=
  Z.lor (Z.lor (BV ALLOC) (if Banks >? 1 then BV EPBK0 else 0)) (16 * size_code Size).
Definition cfg0 (Address Type_ : Z) : Z :=
  u8 (Z.lor (Z.shiftl Type_ EPTYPE0) (if has Address ENDPOINT_DIR_IN then BV EPDIR else 0)).
Definition bank_memory (Size Banks : Z) : Z :=
  (if Banks >? 1 then 2 else 1) * (8 * 2 ^ size_code Size).

Lemma cfg1_memory Size Banks :
  0 ≤ Size ≤ 1024 →
  has (cfg1 Size Banks) (BV ALLOC) = true ∧ ep_memory (cfg1 Size Banks) = bank_memory Size Banks.
Proof.
  intros Hs. unfold cfg1, bank_memory.
  assert (0 ≤ size_code Size ≤ 7) as Hk.
  { unfold size_code. pose proof (Z.log2_up_le_mono Size 1024 ltac:(lia)) as Hm.
    change (Z.log2_up 1024) with 10 in Hm. lia. }
  generalize dependent (size_code Size). intros k Hk.
  assert (k = 0 ∨ k = 1 ∨ k = 2 ∨ k = 3 ∨ k = 4 ∨ k = 5 ∨ k = 6 ∨ k = 7) as Hc by lia.
  destruct (Banks >? 1); destruct Hc as [->|[->|[->|[->|[->|[->|[->| ->]]]]]]]; by split.
Qed.

Lemma sim_ConfigureEndpoint {H} `{!Mcu H} `{!McuSpec H} a t s b :
  sim (Endpoint_ConfigureEndpoint a t s b) (Endpoint_ConfigureEndpoint a t s b).
Proof. solve_sim. Qed.

(** C29: Configuring an endpoint succeeds exactly when its banks fit the 176
    bytes of the controller beside the other endpoints.  Then it is enabled,
    empty, set up as asked and selected; the others keep their configuration and
    stay enabled, but the loop over the endpoints above it allocates these
    again, so that their banks lose what was in them.  Otherwise the function
    returns false: the endpoint holds the values that do not fit and its bank is
    reset, and the registers and banks of all others are as they were. *)
Theorem ConfigureEndpoint_fits {H} `{!Mcu H} `{!McuSpec H} (l : lufa H) Address Type_ Size Banks :
  let n := Z.land Address ENDPOINT_EPNUM_MASK in
  hw_ok (mcu l) → n < ENDPOINT_TOTAL_ENDPOINTS → 0 ≤ Size ≤ 1024 →
  let others := all_mem (view l) - ep_mem (view l) n in
  if others + bank_memory Size Banks <=? 176
  then ∃ l', Endpoint_ConfigureEndpoint Address Type_ Size Banks l = Ok true l' ∧ hw_ok (mcu l') ∧
             configured n (cfg0 Address Type_) (cfg1 Size Banks) (view l) (view l')
  else ∃ l', Endpoint_ConfigureEndpoint Address Type_ Size Banks l = Ok false l' ∧ hw_ok (mcu l') ∧
             not_configured n (cfg0 Address Type_) (cfg1 Size Banks) (view l) (view l').
Proof.
  intros n Hok Hn Hsize others. destruct (cfg1_memory Size Banks Hsize) as [Ha Hm].
  assert (0 ≤ n) as Hn0 by (apply Z.land_nonneg; by right).
  assert (Endpoint_ConfigureEndpoint (H := hwview) Address Type_ Size Banks =
          Endpoint_ConfigureEndpoint_Prv n (cfg0 Address Type_) (cfg1 Size Banks)) as Hcfg.
  { unfold Endpoint_ConfigureEndpoint. fold n.
    rewrite Z.geb_leb, (proj2 (Z.leb_gt _ _) Hn), size_mask_code by done. done. }
  pose proof (ConfigureEndpoint_Prv_spec n (cfg0 Address Type_) (cfg1 Size Banks) (view l)
    (conj Hn0 Hn) Ha) as Hspec. rewrite Hm in Hspec. fold others in Hspec.
  destruct (others + bank_memory Size Banks <=? 176);
    destruct Hspec as (lv & Hrun & Hpost); rewrite <- Hcfg in Hrun;
    destruct (sim_Ok _ _ l _ _ (sim_ConfigureEndpoint Address Type_ Size Banks) Hok Hrun)
      as (l' & Hl & <- & Hok'); by exists l'.
Qed.

(** A bank of 64 bytes fits, two of 128 bytes do not. *)
Lemma ConfigureEndpoint_fits_witness :
  (∃ l', Endpoint_ConfigureEndpoint 0x81 3 64 1 (demo_lufa (demo_header 0 0 0 0)) = Ok true l') ∧
  (∃ l', Endpoint_ConfigureEndpoint 0x81 3 128 2 (demo_lufa (demo_header 0 0 0 0)) = Ok false l').
Proof.
  split.
  - destruct (ConfigureEndpoint_fits (demo_lufa (demo_header 0 0 0 0)) 0x81 3 64 1) as (l' & Hl & _);
      [exact I|vm_compute; reflexivity|lia|]. exists l'. exact Hl.
  - destruct (ConfigureEndpoint_fits (demo_lufa (demo_header 0 0 0 0)) 0x81 3 128 2) as (l' & Hl & _);
      [exact I|vm_compute; reflexivity|lia|]. exists l'. exact Hl.
Defined.
