(* ===== verification/Firmware.v ===== *)
(** * The firmware on the registers

    [main] of [src/Firmware/Joystick.c] with the drivers: the start-up, one
    turn of the endless loop, and what the console sees of it. *)

From S2P Require Import Prelude Datatypes StdDescriptors Descriptors State Interfaces Response.
From S2P Require Import Joystick Reports Failsafe HidTask Hardware Lufa Board Device Endpoint.
From S2P Require Import ControlStream Requests Streams Controller ControlFacts EndpointFacts.
From S2P Require Import RequestFacts Driver ControllerFacts.
Import RequestFacts.Demo.

Section main.
Context {H : Type} `{!Mcu H} (fuel : nat).
#[local] Hint Extern 0 (BoardOps _) => exact (lufa_BoardOps fuel) : typeclass_instances.
#[local] Hint Extern 0 (EndpointOps _) => exact (lufa_EndpointOps fuel) : typeclass_instances.

(** [main] up to its loop. *)
Definition main_start (l : lufa H) : option (firmware (lufa H)) :=
  w ← main_init l;
  final (on_usb (SetupHardware fuel;; GlobalInterruptEnable) w).

(** One turn of the loop. *)
Definition main_turn (ram : Z → Z) : M (firmware (lufa H)) unit :=
  HID_Task ram fuel;;
  on_usb (USB_USBTask fuel).
End main.

(** ** Reports on the registers *)

Section reports.
Context {H : Type} `{!Mcu H} `{!McuSpec H} (fuel : nat).
#[local] Hint Extern 0 (BoardOps _) => exact (lufa_BoardOps fuel) : typeclass_instances.
#[local] Hint Extern 0 (EndpointOps _) => exact (lufa_EndpointOps fuel) : typeclass_instances.
#[local] Hint Extern 0 (PlatformView _) => exact (lufa_view fuel) : typeclass_instances.
#[local] Hint Extern 0 (Platform _) => exact (lufa_platform fuel) : typeclass_instances.

(** What the console sent to the OUT endpoint. *)
Definition console_packet (v : hwview) : Prop :=
  ∀ pkt, v_out v = Some pkt → bytes pkt ∧ (length pkt ≤ 64)%nat.

(** The response manager after the request in the OUT bank, if there is one. *)
Definition request_response (ram : Z → Z) (w : firmware (lufa H)) : outcome response unit :=
  match v_out (hw (mcu (usb w))) with
  | None => Ok tt (rsp w)
  | Some pkt => out_spec ram (deref_selected (joy w)) (out_buffer pkt) (out_count pkt) (rsp w)
  end.

(** A turn of the main task on a configured device whose IN bank is free. *)
Lemma HID_Task_registers ram (w : firmware (lufa H)) s0 :
  hw_ok (mcu (usb w)) → view_ok fuel (view (usb w)) → memory_wf (rsp w) (joy w) →
  (∀ a, is_u8 (ram a)) → USB_DeviceState (usb w) = DEVICE_STATE_Configured →
  v_in (hw (mcu (usb w))) = Some [] → console_packet (hw (mcu (usb w))) →
  request_response ram w = Ok tt s0 →
  let j := before_send_joy (joy w) in
  let s := in_reply (deref_selected j) s0 in
  ∃ w', HID_Task ram fuel w = Ok tt w' ∧ hw_ok (mcu (usb w')) ∧
        v_sent (hw (mcu (usb w'))) = v_sent (hw (mcu (usb w))) ++ [replyBuffer s] ∧
        v_out (hw (mcu (usb w'))) = None ∧ joy w' = j ∧ rsp w' = clear_ready s ∧
        has (v_regs (hw (mcu (usb w'))) UCSR1B) (BV RXCIE1) = true ∧
        Z.land (inv8 (v_regs (hw (mcu (usb w'))) PORTD)) LEDS_ALL_LEDS =
          stage_leds (stage_of (joy w)).
Proof.
  intros Hok Hv Hmem Hram Hconf Hin Hpkt Hresp j s.
  assert (ep_in (ep (usb w)) = Some []) as Hin' by exact Hin.
  destruct (HID_Task_post ram fuel w s0) as (w' & Hrun & [Hok' _] & Hpost); try done.
  - destruct Hv. lia.
  - cbn. by rewrite Hconf.
  - split; intros pkt Hp; [by apply Hpkt|]. rewrite Hin' in Hp. by simplify_eq.
  - rewrite Hin' in Hpost. destruct Hpost as (Hj & Hr & He & Hb).
    apply (f_equal ep_sent) in He as Hs. apply (f_equal rx_isr_on) in Hb as Hisr.
    apply (f_equal ep_out) in He as Ho. apply (f_equal leds_lit) in Hb as Hleds. by exists w'.
Qed.

(** C5: On the registers of a microcontroller that behaves as documented, a
    turn of the main task on a configured device whose IN bank is free takes
    the request of the console, if there is one whose reply fits the buffer,
    and hands exactly one packet to the host: the reply that waits, or else
    the 0x30 report of the state that the callback selects; the receive
    interrupt is enabled and the LEDs show the state of the serial link. *)
Theorem HID_Task_on_registers ram (w : firmware (lufa H)) s0 :
  hw_ok (mcu (usb w)) → view_ok fuel (view (usb w)) → memory_wf (rsp w) (joy w) →
  (∀ a, is_u8 (ram a)) → USB_DeviceState (usb w) = DEVICE_STATE_Configured →
  v_in (hw (mcu (usb w))) = Some [] → console_packet (hw (mcu (usb w))) →
  request_response ram w = Ok tt s0 →
  let j := before_send_joy (joy w) in
  let s := in_reply (deref_selected j) s0 in
  ∃ w', HID_Task ram fuel w = Ok tt w' ∧ hw_ok (mcu (usb w')) ∧
        v_sent (hw (mcu (usb w'))) = v_sent (hw (mcu (usb w))) ++ [replyBuffer s] ∧
        v_out (hw (mcu (usb w'))) = None ∧ joy w' = j ∧ rsp w' = clear_ready s ∧
        has (v_regs (hw (mcu (usb w'))) UCSR1B) (BV RXCIE1) = true ∧
        Z.land (inv8 (v_regs (hw (mcu (usb w'))) PORTD)) LEDS_ALL_LEDS =
          stage_leds (stage_of (joy w)).
Proof. exact (HID_Task_registers ram w s0). Qed.

(** The main task of a device that is not configured. *)
Lemma HID_Task_not_configured ram (w : firmware (lufa H)) :
  USB_DeviceState (usb w) ≠ DEVICE_STATE_Configured → HID_Task ram fuel w = Ok tt w.
Proof.
  intros Hst. unfold HID_Task, mbind, M_bind, on_usb, zoom.
  cbn [USB_DeviceConfigured lufa_EndpointOps]. unfold mbind, M_bind, gets, mret, M_ret.
  rewrite bool_decide_eq_false_2 by done. by destruct w.
Qed.

(** When the host selects the configuration while a reply waits (after the
    start-up the packet 0x81 0x01), the turn of the main loop that serves the
    request configures the device, and the next turn of the main task hands
    that reply to the host, as one packet, on an endpoint that was just
    configured. *)
Lemma first_report ram (w : firmware (lufa H)) q idle delays :
  let l := usb w in
  hw_ok (mcu l) → v_ctl (hw (mcu l)) = request_ctl q idle delays → 0 ≤ v_uenum (hw (mcu l)) < 16 →
  request_wf q → bRequest q = USB_Control_Request_code REQ_SetConfiguration →
  bmRequestType q = reqtype REQDIR_HOSTTODEVICE REQTYPE_STANDARD REQREC_DEVICE →
  u8 (wValue q) = 1 → ep_room (view l) → USB_DeviceState l = DEVICE_STATE_Addressed →
  is_u8 (v_regs (hw (mcu l)) PORTD) → is_u8 (v_regs (hw (mcu l)) UCSR1B) →
  Forall (λ n, n < fuel)%nat (v_txd (hw (mcu l))) → (64 < fuel)%nat →
  memory_wf (rsp w) (joy w) → (∀ a, is_u8 (ram a)) → nextPacketReady (rsp w) = true →
  ∃ w1 w2, main_turn fuel ram w = Ok tt w1 ∧ HID_Task ram fuel w1 = Ok tt w2 ∧
    USB_DeviceState (usb w1) = DEVICE_STATE_Configured ∧ endpoints_up (view (usb w1)) ∧
    v_sent (hw (mcu (usb w1))) = v_sent (hw (mcu l)) ∧ written (v_ctl (hw (mcu (usb w1)))) = [[]] ∧
    v_sent (hw (mcu (usb w2))) = v_sent (hw (mcu l)) ++ [replyBuffer (rsp w)] ∧
    nextPacketReady (rsp w2) = false.
Proof.
  intros l Hok Hctl Hn Hwf Hreq Htype Hv Hroom Hst Hpd Hub Htx Hfuel Hmem Hram Hrdy.
  destruct (SetConfiguration_task fuel l q idle delays)
    as (l1 & Hrun & Hok1 & Hwr & Hup & _ & _ & Hst1 & _ & Hregs & Hsent & Htxd); try done.
  { rewrite Hv. done. } { by rewrite Hst. } { lia. }
  rewrite Hv in Hst1. change (negb (1 =? 0) || _) with true in Hst1. cbv iota in Hst1.
  assert (main_turn fuel ram w = Ok tt (set_usb l1 w)) as Hturn.
  { unfold main_turn. run_step (HID_Task_not_configured ram w ltac:(by fold l; rewrite Hst)).
    unfold on_usb, zoom. fold l. by rewrite Hrun. }
  assert (v_out (hw (mcu (usb (set_usb l1 w)))) = None) as Hout by apply (up_out _ Hup).
  destruct (HID_Task_registers ram (set_usb l1 w) (rsp w)) as (w2 & Hrun2 & _ & Hs2 & _ & _ & Hr2 & _);
    try done.
  { destruct Hup as [[Hin _] _ _ _ _ _].
    constructor; cbn; rewrite ?Hregs, ?Htxd; try done. by unfold ep_reg in Hin; cbn in Hin; rewrite Hin. }
  { apply Hup. }
  { intros pkt Hp. by rewrite Hout in Hp. }
  { unfold request_response. by rewrite Hout. }
  exists (set_usb l1 w), w2. split; [done|]. split; [done|]. split; [done|]. split; [done|].
  split; [done|]. split; [done|]. cbn [usb set_usb] in Hs2. rewrite Hs2, Hr2, Hsent.
  unfold in_reply. cbn [rsp set_usb]. by rewrite Hrdy.
Qed.

(** The start-up, with what it leaves. *)
Lemma main_start_run (l : lufa H) :
  hw_ok (mcu l) → is_u8 (v_regs (hw (mcu l)) PORTD) → (v_pll (hw (mcu l)) < fuel)%nat →
  ∃ w, main_start fuel l = Some w ∧ hw_ok (mcu (usb w)) ∧ joy w = main_joystick ∧
    rsp w = set_ready (usb_packet 0x81 0x01 ([0x00; 0x03] ++ mac_address)) response_init ∧
    memory_wf (rsp w) (joy w) ∧ started (view l) (view (usb w)) ∧ ep_room (view (usb w)) ∧
    Z.land (inv8 (v_regs (hw (mcu (usb w))) PORTD)) LEDS_ALL_LEDS = 0 ∧
    Z.land (v_regs (hw (mcu (usb w))) DDRD) LEDS_ALL_LEDS = LEDS_ALL_LEDS ∧
    has (v_regs (hw (mcu (usb w))) UCSR1B) (BV RXCIE1) = false ∧
    has (v_regs (hw (mcu (usb w))) SREG) (BV SREG_I) = true.
Proof.
  intros Hok Hpd Hpll. destruct (start_run fuel (view l) Hpll) as (lv & Hrun & Hst & Hi).
  assert (sim (SetupHardware fuel;; GlobalInterruptEnable) (SetupHardware fuel;; GlobalInterruptEnable))
    as Hsim by solve_sim.
  destruct (sim_Ok _ _ l tt lv Hsim Hok Hrun) as (l' & Hl & <- & Hok').
  set (r := set_ready (usb_packet 0x81 0x01 ([0x00; 0x03] ++ mac_address)) response_init).
  exists {| usb := l'; rsp := r; joy := main_joystick |}.
  split.
  { unfold main_start, main_init. change (final (setup_response_manager response_init)) with (Some r).
    cbn [mbind option_bind]. unfold on_usb, zoom. cbn [usb]. by rewrite Hl. }
  split; [done|]. split; [done|]. split; [done|]. split.
  { split; cbn [rsp joy]; [|by apply idle_report_wf..|vm_compute; split; congruence].
    split; apply (bool_decide_unpack _); vm_compute; exact I. }
  split; [done|]. split; [by eapply started_room|]. cbn [usb].
  split_and!.
  - change (hw (mcu l')) with (mcu (view l')). rewrite (st_portd _ _ Hst). cbn [view mcu set_mcu].
    by_bytes (λ p, Z.land (inv8 (Z.lor (Z.lor p (BV 2)) LEDS_ALL_LEDS)) LEDS_ALL_LEDS = 0).
  - change (hw (mcu l')) with (mcu (view l')). rewrite (st_ddrd _ _ Hst).
    rewrite Z.land_lor_distr_l. apply Z.bits_inj'. intros i Hi'.
    rewrite Z.lor_spec, !Z.land_spec.
    by destruct (Z.testbit LEDS_ALL_LEDS i); rewrite ?andb_false_r, ?orb_true_r.
  - change (hw (mcu l')) with (mcu (view l')). by rewrite (st_uart _ _ Hst).
  - done.
Qed.

End reports.

(** ** Instances *)

Section instances.
#[local] Hint Extern 0 (BoardOps _) => exact (lufa_BoardOps 100) : typeclass_instances.
#[local] Hint Extern 0 (EndpointOps _) => exact (lufa_EndpointOps 100) : typeclass_instances.
#[local] Hint Extern 0 (PlatformView _) => exact (lufa_view 100) : typeclass_instances.

(** A configured device with a free IN bank, whose console asks for the MAC
    address. *)
Definition demo_configured : firmware (lufa hwview) :=
  let l := demo_lufa (demo_header 0 0 0 0) in
  {| usb := set_DeviceState DEVICE_STATE_Configured
       (set_mcu (with_in (Some []) [] (with_out (Some [0x80; 0x02])
                   (with_epreg 1 UECFG0X CFG0_IN (mcu l)))) l);
     rsp := response_init; joy := main_joystick |}.

Lemma demo_memory_wf : memory_wf response_init main_joystick.
Proof.
  split; [|apply idle_report_wf..|vm_compute; split; congruence].
  split; apply (bool_decide_unpack _); vm_compute; exact I.
Qed.

Lemma HID_Task_on_registers_witness :
  ∃ w', HID_Task (λ _, 0) 100 demo_configured = Ok tt w' ∧
        v_sent (mcu (usb w')) = [usb_packet 0x81 0x02 []].
Proof.
  destruct (HID_Task_on_registers 100 (λ _, 0) demo_configured
    (set_ready (usb_packet 0x81 0x02 []) response_init)) as (w' & Hrun & _ & Hsent & _).
  - exact I.
  - constructor; try (unfold is_u8; cbn; lia); [vm_compute; reflexivity|constructor].
  - apply demo_memory_wf.
  - intros a. unfold is_u8. lia.
  - reflexivity.
  - reflexivity.
  - intros pkt Hp. vm_compute in Hp. injection Hp as <-.
    split; [apply (bool_decide_unpack _); vm_compute; exact I|cbn; lia].
  - vm_compute. reflexivity.
  - exists w'. split; [exact Hrun|]. exact Hsent.
Defined.

End instances.
