(* ===== verification/BusReset.v ===== *)
(** * A bus reset while a report is sent

    [USB_GEN_vect] of [USBInterrupt_AVR8.c] inside [send_IN_report] of
    [src/Firmware/Response.c].  The handler leaves the control endpoint
    selected; the stream that it interrupted goes on there.  If RWAL is never
    set there, the loop around the stream tries again for ever. *)

From S2P Require Import Prelude Datatypes StdDescriptors Descriptors State Interfaces Response.
From S2P Require Import Joystick Hardware Lufa Board Device Endpoint ControlStream Requests Streams.
From S2P Require Import Controller EndpointFacts RequestFacts Driver ControllerFacts.

(** ** The rest of the function *)

Section rest.
Context {E : Type} `{!BoardOps E, !EndpointOps E}.

(** [send_IN_report] after the selection of the IN endpoint. *)
Definition send_rest (fuel : nat) : M (firmware E) unit :=
  wait_until fuel (on_usb Interfaces.Endpoint_IsINReady);;
  w ← get_st;
  wait_until fuel
    (on_usb (r ← Interfaces.Endpoint_Write_Stream_LE (replyBuffer (rsp w)) JOYSTICK_EPSIZE;
             mret (r =? ENDPOINT_RWSTREAM_NoError)));;
  on_usb Interfaces.Endpoint_ClearIN;;
  on_rsp (modify (λ s, {| replyBuffer := replyBuffer s; counter := counter s;
                          nextPacketReady := false |})).

Lemma send_IN_report_rest fuel :
  send_IN_report fuel =
  (CALLBACK_beforeSend;;
   w ← get_st;
   when (negb (nextPacketReady (rsp w)))
     (on_rsp (prepare_standard_report (deref_selected (joy w))));;
   on_usb (Interfaces.Endpoint_SelectEndpoint JOYSTICK_IN_EPADDR);;
   send_rest fuel).
Proof. reflexivity. Qed.
End rest.

(** ** Code that keeps the selected endpoint *)

Definition keeps_selected {A} (m : M (lufa hwview) A) : Prop :=
  ∀ l a l', m l = Ok a l' → v_uenum (mcu l') = v_uenum (mcu l).

Lemma keeps_ret {A} (a : A) : keeps_selected (mret a).
Proof. by intros l a' l' [= _ <-]. Qed.
Lemma keeps_fail {A} e : keeps_selected (fail (A := A) e).
Proof. by intros l a l'. Qed.
Lemma keeps_gets {A} (f : lufa hwview → A) : keeps_selected (gets f).
Proof. by intros l a l' [= _ <-]. Qed.
Lemma keeps_bind {A B} (m : M (lufa hwview) A) (k : A → M (lufa hwview) B) :
  keeps_selected m → (∀ a, keeps_selected (k a)) → keeps_selected (m ≫= k).
Proof.
  intros Hm Hk l b l'. unfold mbind, M_bind. destruct (m l) as [a l1|] eqn:H1; [|done].
  intros ->%Hk. by eapply Hm.
Qed.
Lemma keeps_get_reg r : keeps_selected (get_reg r).
Proof. intros l a l' [= _ <-]. destruct r; cbn; try done; repeat case_match; done. Qed.
Lemma keeps_ueintx x : keeps_selected (set_reg UEINTX x).
Proof. intros l a l' [= _ <-]. cbn. repeat case_match; done. Qed.

Lemma keeps_clear_in : keeps_selected Endpoint.Endpoint_ClearIN.
Proof. apply keeps_bind; [apply keeps_get_reg|intros; apply keeps_ueintx]. Qed.

Lemma keeps_test r b : keeps_selected (test_bits r b).
Proof. apply keeps_bind; [apply keeps_get_reg|intros; apply keeps_ret]. Qed.

Lemma keeps_ready n : ∀ t p, keeps_selected (ready_loop n t p).
Proof.
  induction n as [|n IH]; intros t p; cbn [ready_loop]; [apply keeps_fail|].
  apply keeps_bind; [apply keeps_bind; [apply keeps_test|intros; apply keeps_ret]|]. intros d.
  apply keeps_bind; [case_match; apply keeps_test|]. intros ready.
  destruct ready; [apply keeps_ret|].
  apply keeps_bind; [apply keeps_gets|]. intros s. do 2 (case_decide; [apply keeps_ret|]).
  apply keeps_bind; [apply keeps_test|]. intros stalled. destruct stalled; [apply keeps_ret|].
  apply keeps_bind; [apply keeps_get_reg|]. intros f.
  case_match; [apply IH|]. case_match; [apply keeps_ret|apply IH].
Qed.

Lemma keeps_wait n : keeps_selected (Endpoint_WaitUntilReady n).
Proof. apply keeps_bind; [apply keeps_get_reg|]. intros f. apply keeps_ready. Qed.

(** The control task returns to the endpoint that was selected. *)
Lemma task_returns fuel l l' :
  USB_USBTask fuel l = Ok tt l' → v_uenum (mcu l) = 0 → v_uenum (mcu l') = 0.
Proof.
  intros Hrun H0. unfold USB_USBTask, USB_DeviceTask in Hrun.
  unfold mbind at 1, M_bind at 1, gets in Hrun. case_decide; [by injection Hrun as <-|].
  unfold mbind at 1, M_bind at 1 in Hrun.
  destruct (Endpoint_GetCurrentEndpoint l) as [n l1|] eqn:Hn; [|done].
  assert (Z.land n ENDPOINT_EPNUM_MASK = 0) as Hn0.
  { unfold Endpoint_GetCurrentEndpoint, Endpoint_GetEndpointDirection, test_bits, mbind, M_bind, get_reg,
      on_mcu, zoom, mret, M_ret in Hn. cbn in Hn. rewrite H0 in Hn. injection Hn as <- _. by case_match. }
  unfold mbind, M_bind in Hrun. destruct (Endpoint.Endpoint_SelectEndpoint _ l1); [|done].
  destruct (Endpoint_IsSETUPReceived _) as [b l3|]; [|done].
  destruct ((if b : bool then USB_Device_ProcessControlRequest fuel else mret tt) l3) as [[] l4|]; [|done].
  unfold Endpoint.Endpoint_SelectEndpoint in Hrun. rewrite Hn0 in Hrun. by injection Hrun as <-.
Qed.

(** ** The stream on the control endpoint *)

Lemma rwal_control l :
  v_uenum (mcu l) = 0 → ∃ l', Endpoint.Endpoint_IsReadWriteAllowed l = Ok false l' ∧ v_uenum (mcu l') = 0.
Proof.
  intros H0. eexists. unfold Endpoint.Endpoint_IsReadWriteAllowed, test_bits, mbind, M_bind, get_reg, on_mcu,
    zoom, mret, M_ret. cbn [rd view_Mcu]. split.
  - unfold reg_value, before_read, ueintx_bits. cbn [v_uenum with_ctl]. rewrite H0. cbn [Z.eqb].
    destruct (c_busy _), (bool_decide _), (bool_decide _); reflexivity.
  - done.
Qed.

(** No error code of the stream means success. *)
Lemma rw_loop_control fuel d transfer n : ∀ buf i len t l r l',
  v_uenum (mcu l) = 0 → len ≠ 0 →
  rw_loop fuel d Endpoint.Endpoint_ClearIN transfer n buf i len t None l = Ok r l' → r.1.1 ≠ 0 ∧ v_uenum (mcu l') = 0.
Proof.
  induction n as [|n IH]; intros buf i len t l r l' H0 Hlen Hrun; [done|]. cbn [rw_loop] in Hrun.
  rewrite (proj2 (Z.eqb_neq _ _)) in Hrun by done.
  destruct (rwal_control l H0) as (l1 & H1 & H01). unfold mbind at 1, M_bind at 1 in Hrun.
  rewrite H1 in Hrun. cbn [negb] in Hrun. unfold mbind, M_bind in Hrun.
  destruct (Endpoint.Endpoint_ClearIN l1) as [[] l2|] eqn:H2; [|done]. apply keeps_clear_in in H2.
  destruct (USB_USBTask fuel l2) as [[] l3|] eqn:H3; [|done]. apply task_returns in H3; [|congruence].
  destruct (Endpoint_WaitUntilReady fuel l3) as [c l4|] eqn:H4; [|done]. apply keeps_wait in H4.
  destruct (Z.eqb_spec c 0) as [->|Hc]; cbn [negb] in Hrun.
  - eapply IH; [|exact Hlen|exact Hrun]. congruence.
  - injection Hrun as <- <-. split; [done|congruence].
Qed.

(** A wait whose condition never holds. *)
Lemma wait_never {S} (J : S → Prop) (cond : M S bool) n : ∀ s s',
  (∀ s b s', J s → cond s = Ok b s' → b = false ∧ J s') → J s → wait_until n cond s ≠ Ok tt s'.
Proof.
  induction n as [|n IH]; intros s s' Hc Hs Hrun; [done|]. cbn [wait_until] in Hrun.
  unfold mbind, M_bind in Hrun. destruct (cond s) as [b s1|] eqn:H1; [|done].
  destruct (Hc s b s1 Hs H1) as [-> Hs1]. by apply (IH s1 s').
Qed.

Lemma wait_keeps {S} (J : S → Prop) (cond : M S bool) n : ∀ s s',
  (∀ s b s', J s → cond s = Ok b s' → J s') → J s → wait_until n cond s = Ok tt s' → J s'.
Proof.
  induction n as [|n IH]; intros s s' Hc Hs Hrun; [done|]. cbn [wait_until] in Hrun.
  unfold mbind, M_bind in Hrun. destruct (cond s) as [b s1|] eqn:H1; [|done].
  apply (Hc s b s1 Hs) in H1. destruct b; [by injection Hrun as <-|by apply (IH s1 s')].
Qed.

Lemma write_stream_control n buf l c l' :
  v_uenum (mcu l) = 0 → Endpoint_Write_Stream_LE n buf JOYSTICK_EPSIZE None l = Ok c l' →
  c.1 ≠ ENDPOINT_RWSTREAM_NoError ∧ v_uenum (mcu l') = 0.
Proof.
  intros H0. unfold Endpoint_Write_Stream_LE, write_stream, rw_stream, mbind, M_bind.
  destruct (Endpoint_WaitUntilReady n l) as [e l1|] eqn:H1; [|done]. apply keeps_wait in H1.
  destruct (Z.eqb_spec e 0) as [->|He]; cbn [negb];
    [|intros [= <- <-]; split; [done|congruence]].
  destruct (rw_loop _ _ _ _ _ _ _ _ _ _ l1) as [r l2|] eqn:H2; [|done]. intros [= <- <-].
  cbn [fst]. eapply rw_loop_control; [| |exact H2]; [congruence|by vm_compute].
Qed.

Section stuck.
Context {H : Type} `{!Mcu H} `{!McuSpec H} (n : nat).
#[local] Hint Extern 0 (BoardOps _) => exact (lufa_BoardOps n) : typeclass_instances.
#[local] Hint Extern 0 (EndpointOps _) => exact (lufa_EndpointOps n) : typeclass_instances.

(** The control endpoint is selected. *)
Definition on_control (w : firmware (lufa H)) : Prop :=
  hw_ok (mcu (usb w)) ∧ v_uenum (hw (mcu (usb w))) = 0.

(** A driver that runs as it does on the view. *)
Lemma sim_run {A} (m : M (lufa H) A) m' l a l' :
  sim m m' → hw_ok (mcu l) → m l = Ok a l' → m' (view l) = Ok a (view l') ∧ hw_ok (mcu l').
Proof. intros Hs Hok Hrun. specialize (Hs l Hok). by rewrite Hrun in Hs. Qed.

(** The loop around the stream, from a state that the reset handler leaves. *)
Lemma send_rest_control k (w w' : firmware (lufa H)) : on_control w → send_rest k w ≠ Ok tt w'.
Proof.
  intros H0 Hrun. unfold send_rest, mbind at 1, M_bind at 1 in Hrun.
  destruct (wait_until k (on_usb Interfaces.Endpoint_IsINReady) w) as [[] w1|] eqn:H1; [|done].
  apply (wait_keeps on_control) in H1; [| |done].
  2: { intros w2 b w3 [Hok H2]. unfold on_usb, zoom.
       destruct (Interfaces.Endpoint_IsINReady (usb w2)) as [b' l'|] eqn:Hr; [|done]. intros [= _ <-].
       apply (sim_run _ _ _ _ _ sim_IsINReady Hok) in Hr as [Hr Hok']. split; [done|].
       apply keeps_test in Hr. cbn [usb set_usb]. by rewrite <- H2. }
  unfold mbind at 1, M_bind at 1, get_st, mbind at 1, M_bind at 1 in Hrun.
  destruct (wait_until k _ w1) as [[] w2|] eqn:H2; [|done]. revert H2.
  apply (wait_never on_control); [|done]. intros w3 b w4 [Hok H3].
  cbn [Interfaces.Endpoint_Write_Stream_LE lufa_EndpointOps].
  unfold on_usb, zoom, mbind, M_bind.
  destruct (Endpoint_Write_Stream_LE _ _ _ _ (usb w3)) as [c l'|] eqn:Hr; [|done].
  apply (sim_run _ _ _ _ _ (sim_write_stream n LE _ _ _) Hok) in Hr as [Hr Hok'].
  apply write_stream_control in Hr as [Hc H4]; [|done]. intros [= <- <-].
  split; [by apply Z.eqb_neq|by split].
Qed.
End stuck.

(** A bus reset in the middle of a report: when the reset interrupt comes right
    after [send_IN_report] has selected the IN endpoint, the handler returns
    with the device in the default state and the control endpoint selected, and
    then no number of turns of its loops makes the function return.  This rests
    on RWAL of the control endpoint reading as zero, as the view has it; the
    datasheet says that the bit is not to be used for that endpoint. *)
Lemma reset_stops_reports {H : Type} `{!Mcu H} `{!McuSpec H} fuel (w : firmware (lufa H)) :
  let l := usb w in
  hw_ok (mcu l) → fires USB_INT_EORSTI (view l) = true → fires USB_INT_SUSPI (view l) = false →
  fires USB_INT_WAKEUPI (view l) = false →
  all_mem (view l) - ep_mem (view l) 0 + USB_Device_ControlEndpointSize ≤ 176 →
  ∃ l', USB_GEN_vect fuel l = Ok tt l' ∧ USB_DeviceState l' = DEVICE_STATE_Default ∧
    ∀ n w', send_rest (EndpointOps0 := lufa_EndpointOps n) n (set_usb l' w) ≠ Ok tt w'.
Proof.
  intros l Hok He Hs Hw Hm. destruct (bus_reset_run fuel (view l) He Hs Hw Hm) as (lv & Hrun & Hb).
  destruct (sim_Ok _ _ l tt lv (sim_USB_GEN_vect fuel) Hok Hrun) as (l' & Hl & <- & Hok').
  exists l'. split; [done|]. split; [exact (br_state _ _ Hb)|]. intros n w'.
  apply send_rest_control. split; [done|exact (br_sel _ _ Hb)].
Qed.
