(* ===== verification/Enumeration.v ===== *)
(** * Enumeration

    From power-on to the first report: [main] of [src/Firmware/Joystick.c]
    starts the device, the bus is reset, and the host reads descriptors,
    assigns an address and selects the configuration, each request served by a
    turn of the main loop. *)

From S2P Require Import Prelude Datatypes StdDescriptors Descriptors State Interfaces Response.
From S2P Require Import Joystick Reports HidTask Hardware Lufa Board Device Endpoint.
From S2P Require Import ControlStream Requests Streams Controller ControlFacts EndpointFacts.
From S2P Require Import RequestFacts Driver ControllerFacts Firmware.
Import RequestFacts.Demo.

(** ** The host *)

(** A request, and how long the host takes for its steps. *)
Record request := { r_header : USB_Request_Header_t; r_idle : nat; r_delays : list nat }.

Definition std_request (dir rec : Z) (c : USB_Control_Request_t) (r : request) : Prop :=
  request_wf (r_header r) ∧ bRequest (r_header r) = USB_Control_Request_code c ∧
  bmRequestType (r_header r) = reqtype dir REQTYPE_STANDARD rec.

Section host.
Context {H : Type} `{!Mcu H} `{!McuSpec H} (fuel : nat) (ram : Z → Z).
#[local] Hint Extern 0 (BoardOps _) => exact (lufa_BoardOps fuel) : typeclass_instances.
#[local] Hint Extern 0 (EndpointOps _) => exact (lufa_EndpointOps fuel) : typeclass_instances.

(** A SETUP packet arrives. *)
Definition host_sends (r : request) (l l' : lufa H) : Prop :=
  hw_ok (mcu l') ∧ view l' = at_ctl (request_ctl (r_header r) (r_idle r) (r_delays r)) (view l).

(** The host resets the bus. *)
Definition bus_resets (l l' : lufa H) : Prop :=
  hw_ok (mcu l') ∧ ∃ x, has x (BV EORSTI) = true ∧ has x (BV SUSPI) = false ∧
    has x (BV WAKEUPI) = false ∧ view l' = put_reg UDINT x (view l).

(** What the host gets for a request: the bytes of a descriptor, or the empty
    packet that acknowledges. *)
Definition answers (r : request) (c : ctl) : Prop :=
  if bRequest (r_header r) =? USB_Control_Request_code REQ_GetDescriptor then
    ∃ d, descriptor (wValue (r_header r)) (wIndex (r_header r)) = Some d ∧
         delivered (take (Z.to_nat (wLength (r_header r))) d) c
  else written c = [[]].

(** Every request is answered by one turn of the main loop, and [Q] holds in
    the end. *)
Fixpoint serves (rs : list request) (Q : firmware (lufa H) → Prop) (w : firmware (lufa H)) : Prop :=
  match rs with
  | [] => Q w
  | r :: rs =>
      ∀ l, host_sends r (usb w) l →
      ∃ w', main_turn fuel ram (set_usb l w) = Ok tt w' ∧ answers r (v_ctl (hw (mcu (usb w')))) ∧
            serves rs Q w'
  end.

Lemma serves_app rs1 rs2 Q w : serves rs1 (serves rs2 Q) w → serves (rs1 ++ rs2) Q w.
Proof.
  revert w. induction rs1 as [|r rs1 IH]; intros w; [done|]. cbn [app serves].
  intros Hs l Hl. destruct (Hs l Hl) as (w' & ? & ? & ?). exists w'. by auto.
Qed.

Lemma serves_mono rs (Q Q' : firmware (lufa H) → Prop) w :
  (∀ w, Q w → Q' w) → serves rs Q w → serves rs Q' w.
Proof.
  intros HQ. revert w. induction rs as [|r rs IH]; intros w; [apply HQ|].
  intros Hs l Hl. destruct (Hs l Hl) as (w' & ? & ? & ?). exists w'. by auto.
Qed.

(** ** A device that is being enumerated *)

(** The device in the state [st], with the variables that [main] set up, and
    the packets [sent] so far. *)
Record enumerating (st : USB_Device_States_t) (r : response) (j : joystick) (sent : list (list Z))
    (w : firmware (lufa H)) : Prop := {
  en_rsp : rsp w = r;
  en_joy : joy w = j;
  en_state : USB_DeviceState (usb w) = st;
  en_sel : 0 ≤ v_uenum (hw (mcu (usb w))) < 16;
  en_room : ep_room (view (usb w));
  en_portd : is_u8 (v_regs (hw (mcu (usb w))) PORTD);
  en_uart : is_u8 (v_regs (hw (mcu (usb w))) UCSR1B);
  en_txd : Forall (λ n, n < fuel)%nat (v_txd (hw (mcu (usb w))));
  en_sent : v_sent (hw (mcu (usb w))) = sent;
}.

(** What a SETUP packet changes. *)
Lemma sends_enumerating st r j sent q w l :
  enumerating st r j sent w → host_sends q (usb w) l →
  enumerating st r j sent (set_usb l w) ∧
  v_ctl (hw (mcu l)) = request_ctl (r_header q) (r_idle q) (r_delays q).
Proof.
  intros [] [Hok Hv]. apply (f_equal mcu) in Hv as Hm. apply (f_equal USB_DeviceState) in Hv as Hst.
  cbn in Hm, Hst. split; [|by rewrite Hm]. split; cbn [usb rsp joy set_usb]; rewrite ?Hm; try done.
  - congruence.
  - by rewrite Hv.
Qed.

Lemma kept_enumerating st st' r j sent w l l' :
  enumerating st r j sent (set_usb l w) → kept (view l) (view l') → USB_DeviceState l' = st' →
  v_uenum (hw (mcu l')) = v_uenum (hw (mcu l)) → enumerating st' r j sent (set_usb l' w).
Proof.
  intros [? ? ? ? Hroom ? ? ? ?] [Hregs Hep Hs Ht] Hst Hsel. cbn in Hregs, Hep, Hs, Ht.
  split; cbn [usb rsp joy set_usb] in *; rewrite ?Hregs, ?Hsel, ?Ht, ?Hs by done; try done.
  unfold ep_room, ep_mem, ep_reg in *. cbn in *. by rewrite Hep.
Qed.

(** A turn of the main loop before the device is configured. *)
Lemma turn_run (w : firmware (lufa H)) l' :
  USB_DeviceState (usb w) ≠ DEVICE_STATE_Configured → USB_USBTask fuel (usb w) = Ok tt l' →
  main_turn fuel ram w = Ok tt (set_usb l' w).
Proof.
  intros Hst Hrun. unfold main_turn. run_step (HID_Task_not_configured fuel ram w Hst).
  unfold on_usb, zoom. by rewrite Hrun.
Qed.

(** A request for a descriptor, which is not the serial number in the chip. *)
Definition asks_descriptor (r : request) : Prop :=
  (std_request REQDIR_DEVICETOHOST REQREC_DEVICE REQ_GetDescriptor r ∨
   std_request REQDIR_DEVICETOHOST REQREC_INTERFACE REQ_GetDescriptor r) ∧
  serial_request (r_header r) = false ∧
  ∃ d, descriptor (wValue (r_header r)) (wIndex (r_header r)) = Some d ∧
       (r_idle r + sum_list (r_delays r) + 2 * length d + 1 < fuel)%nat.

Lemma serves_descriptors st r j sent rs w :
  st = DEVICE_STATE_Default ∨ st = DEVICE_STATE_Addressed →
  Forall asks_descriptor rs → enumerating st r j sent w →
  serves rs (enumerating st r j sent) w.
Proof.
  intros Hst Hrs. revert w. induction Hrs as [|q rs Hq _ IH]; intros w Hw; [done|].
  intros l Hl. destruct (sends_enumerating _ _ _ _ _ _ _ Hw Hl) as [Hw1 Hctl].
  destruct Hq as (Hstd & Hser & d & Hd & Hfuel). pose proof Hl as [Hok _].
  pose proof (en_state _ _ _ _ _ Hw1) as Hs1. pose proof (en_sel _ _ _ _ _ Hw1) as Hsel. cbn in Hs1, Hsel.
  destruct (GetDescriptor_task fuel l (r_header q) (r_idle q) (r_delays q) d)
    as (l' & Hrun & Hok' & Hdel & Hu & Hs & Hk); try done.
  1-2: by destruct Hstd as [(? & ? & ?)|(? & ? & ?)].
  { destruct Hstd as [(? & ? & ?)|(? & ? & ?)]; [by left|by right]. }
  1-2: rewrite Hs1; by destruct Hst as [-> | ->].
  exists (set_usb l' w). split; [|split].
  - change (set_usb l' w) with (set_usb l' (set_usb l w)). apply turn_run; [|done].
    cbn. rewrite Hs1. by destruct Hst as [-> | ->].
  - unfold answers. assert (bRequest (r_header q) = USB_Control_Request_code REQ_GetDescriptor) as ->
      by (by destruct Hstd as [(? & ? & ?)|(? & ? & ?)]).
    rewrite Z.eqb_refl. by exists d.
  - apply IH. eapply kept_enumerating; [exact Hw1|done|congruence|done].
Qed.

(** The address: seven bits, not zero. *)
Definition sets_address (r : request) : Prop :=
  std_request REQDIR_HOSTTODEVICE REQREC_DEVICE REQ_SetAddress r ∧
  Z.land (wValue (r_header r)) 0x7F ≠ 0 ∧
  (r_idle r + sum_list (r_delays r) + 2 < fuel)%nat.

Lemma serves_address r j sent q w :
  sets_address q → enumerating DEVICE_STATE_Default r j sent w →
  serves [q] (λ w', enumerating DEVICE_STATE_Addressed r j sent w' ∧
    v_regs (hw (mcu (usb w'))) UDADDR = 128 + Z.land (wValue (r_header q)) 0x7F) w.
Proof.
  intros ((Hwf & Hreq & Htype) & Ha & Hfuel) Hw l Hl.
  destruct (sends_enumerating _ _ _ _ _ _ _ Hw Hl) as [Hw1 Hctl]. pose proof Hl as [Hok _].
  pose proof (en_state _ _ _ _ _ Hw1) as Hs1. pose proof (en_sel _ _ _ _ _ Hw1) as Hsel. cbn in Hs1, Hsel.
  destruct (SetAddress_task fuel l (r_header q) (r_idle q) (r_delays q))
    as (l' & Hrun & Hok' & _ & Hwr & Haddr & Hs & Hu & Hk); try done.
  { by rewrite Hs1. }
  rewrite (proj2 (Z.eqb_neq _ 0)) in Hs by done.
  exists (set_usb l' w). split; [|split; [|split; [|done]]].
  - change (set_usb l' w) with (set_usb l' (set_usb l w)). apply turn_run; [|done]. cbn. by rewrite Hs1.
  - unfold answers. by rewrite Hreq.
  - eapply kept_enumerating; [exact Hw1|done|done|done].
Qed.

(** The configuration 1. *)
Definition selects_configuration (r : request) : Prop :=
  std_request REQDIR_HOSTTODEVICE REQREC_DEVICE REQ_SetConfiguration r ∧
  u8 (wValue (r_header r)) = 1.

(** The next turn of the main task sends the reply that waits. *)
Definition reports_next (reply : list Z) (sent : list (list Z)) (w : firmware (lufa H)) : Prop :=
  USB_DeviceState (usb w) = DEVICE_STATE_Configured ∧
  ∃ w', HID_Task ram fuel w = Ok tt w' ∧ v_sent (hw (mcu (usb w'))) = sent ++ [reply].

Lemma serves_configuration r j sent q w :
  (64 < fuel)%nat → (∀ a, is_u8 (ram a)) → memory_wf r j → nextPacketReady r = true →
  selects_configuration q → enumerating DEVICE_STATE_Addressed r j sent w →
  serves [q] (reports_next (replyBuffer r) sent) w.
Proof.
  intros Hfuel Hram Hmem Hrdy ((Hwf & Hreq & Htype) & Hv) Hw l Hl.
  destruct (sends_enumerating _ _ _ _ _ _ _ Hw Hl) as [[Hr Hj Hst Hsel Hroom Hpd Hub Htx Hs] Hctl].
  pose proof Hl as [Hok _].
  destruct (first_report fuel ram (set_usb l w) (r_header q) (r_idle q) (r_delays q))
    as (w1 & w2 & H1 & H2 & Hc & _ & _ & Hwr & Hsent & _); try done.
  { by rewrite Hr, Hj. }
  { by rewrite Hr. }
  exists w1. split; [done|]. split; [unfold answers; by rewrite Hreq|]. split; [done|].
  exists w2. split; [done|]. by rewrite Hsent, Hr, Hs.
Qed.

(** The state after the reset. *)
Lemma reset_enumerating (w : firmware (lufa H)) l0 l :
  hw_ok (mcu (usb w)) → started l0 (view (usb w)) → is_u8 (v_regs (mcu l0) PORTD) →
  Forall (λ n, n < fuel)%nat (v_txd (mcu l0)) → bus_resets (usb w) l →
  ∃ l', USB_GEN_vect fuel l = Ok tt l' ∧ hw_ok (mcu l') ∧
        enumerating DEVICE_STATE_Default (rsp w) (joy w) (v_sent (hw (mcu (usb w)))) (set_usb l' w).
Proof.
  intros Hokw Hst Hpd Htxd (Hok & x & He & Hs & Hwk & Hv). pose proof (started_room _ _ Hst) as Hroom.
  pose proof (st_attached _ _ Hst) as A.
  assert (∀ r, r ≠ UDINT → v_regs (mcu (view l)) r = v_regs (mcu (view (usb w))) r) as Hregs.
  { intros r Hr. rewrite Hv. cbn. by rewrite decide_False. }
  assert (∀ n r, ep_reg (view l) n r = ep_reg (view (usb w)) n r) as Hep by (intros; by rewrite Hv).
  assert (v_regs (mcu (view l)) UDINT = x) as Hx by (rewrite Hv; cbn; by rewrite decide_True).
  destruct (bus_reset_run fuel (view l)) as (lv & Hrun & Hb).
  - unfold fires. rewrite Hx, Hregs by done. change (int_flag USB_INT_EORSTI) with EORSTI.
    rewrite He. exact (at_eorst _ _ A).
  - unfold fires. rewrite Hx. change (int_flag USB_INT_SUSPI) with SUSPI. by rewrite Hs.
  - unfold fires. rewrite Hx. change (int_flag USB_INT_WAKEUPI) with WAKEUPI. by rewrite Hwk.
  - destruct (at_control _ _ A) as [Hc _]. unfold all_mem, ep_mem. rewrite !Hep, Hc.
    rewrite !(at_others _ _ A) by lia. vm_compute. discriminate.
  - destruct (sim_Ok _ _ l tt lv (sim_USB_GEN_vect fuel) Hok Hrun) as (l' & Hl & <- & Hok').
    exists l'. split; [done|]. split; [done|]. destruct Hb as [Bst Bc _ _ _ Bsel [Bc1 _] _ Bo Bs Br Bt].
    split; cbn [usb rsp joy set_usb].
    + done.
    + done.
    + exact Bst.
    + change (hw (mcu l')) with (mcu (view l')). rewrite Bsel. lia.
    + unfold ep_room, ep_mem. rewrite Bc1, !Bo, !Hep by (done || lia).
      rewrite !(at_others _ _ A) by lia. vm_compute. split; discriminate.
    + change (hw (mcu l')) with (mcu (view l')). rewrite Br, Hregs, (st_portd _ _ Hst) by done.
      by_bytes (λ p, is_u8 (Z.lor (Z.lor p (BV 2)) LEDS_ALL_LEDS)).
    + change (hw (mcu l')) with (mcu (view l')). by rewrite Br, Hregs, (st_uart _ _ Hst).
    + change (hw (mcu l')) with (mcu (view l')). rewrite Bt, Hv. cbn.
      change (hw (mcu (usb w))) with (mcu (view (usb w))). rewrite (st_txd _ _ Hst).
      destruct Htxd as [|n ns Hn Hns]; constructor; [lia|done].
    + change (hw (mcu l')) with (mcu (view l')). rewrite Bs, Hv. done.
Qed.
End host.

(** C4: The console can enumerate the device, from power-on: [main] reaches its
    loop; after a bus reset the device answers every request for a descriptor
    with the bytes of the descriptor, before and after it gets its address,
    acknowledges the address and the configuration, one request in each turn
    of the main loop and whatever time the host takes; then it is configured,
    and the next turn of the main task sends the first packet, 0x81 0x01 with
    the type and the MAC address of the controller. *)
Theorem enumeration {H : Type} `{!Mcu H} `{!McuSpec H} fuel ram (l : lufa H) before address after
    configuration :
  hw_ok (mcu l) → is_u8 (v_regs (hw (mcu l)) PORTD) → (v_pll (hw (mcu l)) < fuel)%nat →
  Forall (λ n, n < fuel)%nat (v_txd (hw (mcu l))) → (64 < fuel)%nat → (∀ a, is_u8 (ram a)) →
  Forall (asks_descriptor fuel) before → sets_address fuel address →
  Forall (asks_descriptor fuel) after → selects_configuration configuration →
  ∃ w, main_start fuel l = Some w ∧
    ∀ l1, bus_resets (usb w) l1 → ∃ l2, USB_GEN_vect fuel l1 = Ok tt l2 ∧
      serves fuel ram (before ++ [address] ++ after ++ [configuration])
        (reports_next fuel ram (usb_packet 0x81 0x01 ([0x00; 0x03] ++ mac_address))
           (v_sent (hw (mcu (usb w))))) (set_usb l2 w).
Proof.
  intros Hok Hpd Hpll Htxd Hfuel Hram Hbefore Haddr Hafter Hconf.
  destruct (main_start_run fuel l Hok Hpd Hpll) as (w & Hmain & Hokw & Hj & Hr & Hmem & Hst & _).
  exists w. split; [done|]. intros l1 Hreset.
  destruct (reset_enumerating fuel w (view l) l1 Hokw Hst Hpd Htxd Hreset) as (l2 & Hrun & _ & He).
  exists l2. split; [done|]. apply serves_app. eapply serves_mono; [|apply (serves_descriptors _ _ _ _ _ _ _ _ (or_introl eq_refl) Hbefore He)].
  intros w1 Hw1. apply serves_app. eapply serves_mono; [|apply (serves_address _ _ _ _ _ _ _ Haddr Hw1)].
  intros w2 [Hw2 _]. apply serves_app. eapply serves_mono; [|apply (serves_descriptors _ _ _ _ _ _ _ _ (or_intror eq_refl) Hafter Hw2)].
  intros w3 Hw3. rewrite Hr in Hw3, Hmem. exact (serves_configuration fuel ram _ _ _ _ _ Hfuel Hram Hmem eq_refl Hconf Hw3).
Qed.

(** ** An instance *)

Definition demo_ask (t r v n : Z) : request :=
  {| r_header := demo_header t r v n; r_idle := 3; r_delays := [2; 0; 5]%nat |}.

Ltac demo_std := split; [demo_wf|split; reflexivity].
Ltac demo_asks :=
  split; [left; demo_std|split; [reflexivity|]]; eexists; split; [vm_compute; reflexivity|];
  apply Nat.ltb_lt; vm_compute; reflexivity.

Lemma enumeration_witness :
  let rs := [demo_ask 0x80 6 0x0100 64] ++ [demo_ask 0 5 0x11 0] ++ [demo_ask 0x80 6 0x0200 64] ++
            [demo_ask 0 9 1 0] in
  ∃ w l2, main_start 200 (demo_lufa (demo_header 0 0 0 0)) = Some w ∧
    USB_GEN_vect 200 (put_reg UDINT (BV EORSTI) (usb w)) = Ok tt l2 ∧
    serves 200 (λ _, 0) rs (reports_next 200 (λ _, 0)
      (usb_packet 0x81 0x01 ([0x00; 0x03] ++ mac_address)) (v_sent (mcu (usb w)))) (set_usb l2 w).
Proof.
  destruct (enumeration 200 (λ _, 0) (demo_lufa (demo_header 0 0 0 0)) [demo_ask 0x80 6 0x0100 64]
    (demo_ask 0 5 0x11 0) [demo_ask 0x80 6 0x0200 64] (demo_ask 0 9 1 0)) as (w & Hmain & Hrest).
  - exact I.
  - unfold is_u8. cbn. lia.
  - cbn. lia.
  - constructor.
  - lia.
  - intros a. unfold is_u8. lia.
  - constructor; [demo_asks|constructor].
  - split; [demo_std|]. split; [vm_compute; discriminate|cbn; lia].
  - constructor; [demo_asks|constructor].
  - split; [demo_std|reflexivity].
  - destruct (Hrest (put_reg UDINT (BV EORSTI) (usb w))) as (l2 & Hrun & Hserves).
    + split; [exact I|]. exists (BV EORSTI). split_and!; [reflexivity..|]. reflexivity.
    + exists w, l2. split; [exact Hmain|]. split; [exact Hrun|exact Hserves].
Defined.
